(* ===== verification/_CoqProject ===== *)
-Q . S2P
Prelude.v
GoStrings.v
GoFlag.v
GoNet.v
Api.v
Manager.v
Concrete.v
Errors.v
Util.v
BaseScope.v
PrivateLinks.v
PrivateEndpoints.v
Service.v
ServiceSpec.v
Reconciliation.v
Scenario.v
McToWc.v
WcToMc.v
AzureClient.v
AzureClusterController.v
AzureClusterProps.v
KubeadmControlPlane.v
ProviderConfig.v
MainFlags.v
Main.v
Invariants.v
Safety.v
ProviderConfigSafety.v
ControlPlaneSafety.v
Fleet.v
Operator.v
Convergence.v
EndToEnd.v
FleetLoop.v
Mocks.v
TestHelpers.v
Runs.v
FleetRuns.v
SafetyRuns.v
StartUpRuns.v
