(* ===== verification/Prelude.v ===== *)
(** * azure-private-endpoint-operator: a verified model.

The operator connects a management cluster (MC) with private workload clusters
(WC) on Azure.  For every private link of a WC it keeps a private endpoint in
the AzureCluster object of the MC, looks up the address that Azure gives the
endpoint, and writes it as an annotation on the WC.  In the other direction it
keeps an endpoint to the MC's gateway in each WC.  Two more reconcilers pause
control planes until their AzureCluster is ready, and keep Crossplane
ProviderConfig objects.

** How Go is modelled

- A function that reads or writes memory or the outside world is a function from a
  state to an outcome and a new state ([M]).  The outcome is a value or a run-time
  panic (nil dereference, index out of range); deferred calls run in both cases
  ([defer_close]).  [check] and [check_err], written [let? ... orelse ... in] and
  [guard? ... orelse ... in], are the two forms of [if err != nil].  [for_range] with
  [unless_returned] is a [range] loop with [return] inside.
- A [string] is a byte string; a possibly nil pointer, map or slice is an [option]
  where nil matters; an [error] is an [option errval].  Identity of package-level
  errors is decided by their texts, which are distinct.
- AzureCluster objects live in a heap ([BaseScope], [St]); a [*capz.AzureCluster] is an
  index into it, so that the two scopes on one workload cluster share it.  The other
  reconcilers own their objects, which are plain values.
- The world [W] is abstract.  The Kubernetes client, the patch helper, Azure's SDK and
  the other libraries are parameters ([Api], [AzureClient], [ProviderConfig]): records of
  operations and classes whose laws state documented behaviour (the root cause of a
  masked error, the finalizer helpers, the first condition of a type deciding).  A
  library call always returns.  [strings], [slices], [errors] and [net] are defined.
- The loops of the code range over finite slices, so their definitions are structurally
  recursive.  Fuel appears in three places: [parseIPv6_loop] has eight turns, each of which reads
  two of at most sixteen bytes ([parseIPv6_loop_bound]); [requeue_loop], the manager's
  requeueing, is shown to end within a bound computed from the clusters; [serve] gives
  each of its loops the same fuel.  Logging, contexts and RBAC markers are left out.

** Files

- [Prelude]: the execution model and its tactics.  [GoStrings], [GoNet], [GoFlag]: the
  parts of Go's library in use; [GoNet] parses and prints IPv4 and IPv6 addresses,
  [GoFlag] parses command lines.
- [Api], [Manager]: objects and library interfaces, and the interface of
  controller-runtime's managers, watches and predicates.  [Concrete]: one implementation
  of the interfaces; [Scenario]: concrete clusters.  Both serve the concrete runs only.
- [Errors]: pkg/errors.  [Util]: pkg/util.  [BaseScope]: pkg/azurecluster.
- [PrivateLinks]: pkg/privatelinks.  [PrivateEndpoints]: pkg/privateendpoints/scope.go.
- [Service]: pkg/privateendpoints/service.go, generic in the state behind the two scope
  interfaces.
- [ServiceSpec]: the abstract service, whose state is the endpoint slice, annotations,
  conditions and world; the heap scopes simulate the abstract ones, hence the
  refinement theorems.  [Reconciliation]: closed forms of the abstract operations.
- [McToWc], [WcToMc]: what the three operations of the service guarantee on real
  AzureCluster objects.
- [AzureClient]: pkg/azure.  [AzureClusterController], [AzureClusterProps]:
  controllers/azurecluster_controller.go and its theorems.
- [KubeadmControlPlane], [ProviderConfig]: the other two reconcilers, with their watches.
- [MainFlags], [Main]: main.go, the gate flag and the start-up.
- [Invariants]: a logic of invariants over all paths of the AzureCluster reconciler,
  panics included; its clients see the scopes through two classes.  [Safety]: two
  invariants of the stored clusters, under interleavings with anyone else's edits.
  [ProviderConfigSafety], [ControlPlaneSafety]: the same for the other two reconcilers,
  against what they rely on of the API server ([ConfigStore], [ControlPlaneStore]).
- [Fleet]: the endpoints of the management cluster as the state of an abstract machine
  with one step per workload cluster, and the refinement of it by one run that gets to
  work.  [Operator]: every run gets to work or leaves the stored specifications alone,
  so the store of the API server refines the machine, whatever happens.
- [Convergence]: the requeue loop, in a cloud ([Cloud]) whose Azure creates requested
  endpoints and whose API server accepts patches.  [EndToEnd]: what the loop leaves
  behind, and the control plane reconciler after it, which reads what the loop leaves
  alone ([Aside]).  [FleetLoop]: the loops of several clusters, one after the other.
- [TestHelpers]: pkg/testhelpers, the builders, fakes and matchers of the tests.
  [Mocks]: the two generated mocks, with gomock's controller as a parameter; no theorem.
- [Runs], [FleetRuns], [SafetyRuns], [StartUpRuns]: concrete runs, at which the theorems
  with hypotheses are applied.

** What is shown

- The AzureCluster reconciler: the life of a private cluster.  An endpoint that Azure
  does not know is requested and the reconciliation requeued; a run without error and
  requeue leaves the promised endpoints in both clusters, accepted by the API server;
  a live cluster whose scopes are built is sent with the finalizer; deletion removes the
  endpoints of the allowed links; refusals and skips patch nothing.
- Termination: requeueing a live private cluster ends with success, after at most one
  reconciliation more than there are endpoints unknown to Azure.
- End to end: when that loop has ended, the API server stores all endpoints of the
  cluster as wanted, none stale, the finalizer and a true GSPrivateLinksReady, and the
  next reconciliation of a control plane that waits for the cluster takes the pause
  annotation away.
- Safety under interleaving: however a reconciliation ends, it has changed only its two
  clusters and of their specifications only the private endpoints; endpoint names stay
  unique in every stored cluster.  It does not panic when stored clusters have load
  balancers.  No provider config is orphaned.  A control plane is changed in its pause
  annotation only, which goes only when the gates are met.
- Several clusters: every reconciliation, however it ends, is a step of the abstract
  machine on the endpoints that the API server stores, or none; reconciliations of
  independent clusters do not unsettle what is stored for one another; no sequence of
  reconciliations stores more endpoints than there were and links are; the requeue loops
  of compatible clusters, one after the other in any order, settle them all, and running
  them again changes no endpoint.
- The service: the exact endpoints after success, which old ones are kept or removed,
  uniqueness of names, convergence after two successes, what failures leave behind,
  when success is certain, and the annotation.
- Control planes: what pauses and unpauses them, and that an update that opens the gates
  passes the watch and leads to a patch without the pause annotation.
- Provider configs: what is written to them, when they are released, and the one kind of
  request on which the reconciler panics.
- Start-up: the command line is read back, and the exit status is 0 exactly when all
  was registered and the manager ran to its end.
- Classification of errors, status gates, credentials; parsed IP addresses have 16 bytes
  and their texts at most 39.
- Where the code does not do what it means to: the prefix test of the clean-up takes
  [wc10] for [wc1]; a false GSPrivateLinksReady is duplicated for ever; a failed patch
  of the MC does not keep the finalizer; two clusters with links of one name compete
  for one endpoint, and two Clusters of one name for one provider config; some nil
  pointers and an empty slice panic.

Uniqueness of endpoint names in the MC is a hypothesis of most theorems on the
endpoints; the operator preserves it, as is shown.

** Not modelled

The test suites; Helm charts and manifests.  Managers, caches, gomock's controller, the
parsing of durations and the flags of the logger are parameters.  The difference between
a nil and an empty slice is kept for conditions and gates, where the code can tell, and
not for endpoints, subnets and links. *)

From Stdlib Require Ascii.
From stdpp Require Export base tactics strings gmap numbers list.

(** Numerals below are natural numbers unless marked. *)
#[global] Open Scope nat_scope.

(** String comparison is decided by [String.eqb_spec], not unfolded. *)
#[global] Arguments String.eqb : simpl never.

Create HintDb go.
Create Rewrite HintDb go_rw.

(** ** Outcomes and the state monad

A Go function that touches shared memory or the outside world is a function
from a state to an outcome and a new state.  A run-time panic keeps the state
reached so far, because deferred calls still run on it. *)

(** The panics the modelled code can raise: two run-time errors, and [panic(v)]. *)
Inductive panic : Type :=
  | NilDereference
  | IndexOutOfRange
  | PanicCall.

Inductive outcome (A : Type) : Type :=
  | Ret (a : A)
  | Panic (p : panic).
Arguments Ret {A} a.
Arguments Panic {A} p.

#[export] Instance panic_eq_dec : EqDecision panic.
Proof. solve_decision. Defined.

Definition M (S A : Type) : Type := S → outcome A * S.

#[export] Instance M_ret {S} : MRet (M S) := λ A a s, (Ret a, s).

#[export] Instance M_bind {S} : MBind (M S) := λ A B f m s,
  match m s with
  | (Ret a, s') => f a s'
  | (Panic p, s') => (Panic p, s')
  end.

Definition go_panic {S A} (p : panic) : M S A := λ s, (Panic p, s).

(** A call into a library that acts on the world: it always returns. *)
Definition IO (W A : Type) : Type := W → A * W.

Definition io {W A} (m : IO W A) : M W A := λ w, let '(a, w') := m w in (Ret a, w').

Definition io_pure {W A} (a : A) : IO W A := λ w, (a, w).

(** Reading through a nil-able pointer or interface. *)
Definition deref_opt {S A} (o : option A) : M S A :=
  match o with
  | Some a => mret a
  | None => go_panic NilDereference
  end.

(** A slice where nil matters: [None] is the nil slice.  [range], [len] and [append] do
not tell it from an empty slice; [reflect.DeepEqual] does. *)
Abbreviation slice A := (option (list A)) (only parsing).
Definition elems {A} (s : slice A) : list A := default [] s.
Definition append {A} (s : slice A) (a : A) : slice A := Some (elems s ++ [a]).

Lemma elems_append {A} (s : slice A) a : elems (append s a) = elems s ++ [a].
Proof. done. Qed.

(** [p != nil]. *)
Definition is_some {A} (o : option A) : bool :=
  match o with Some _ => true | None => false end.

(** [xs[i]]. *)
Definition index {S A} (xs : list A) (i : nat) : M S A :=
  match xs !! i with
  | Some a => mret a
  | None => go_panic IndexOutOfRange
  end.

(** [for _, x := range xs { body }], where [body] yields [Some r] for a
[return r] inside the loop and [None] to go on with the next element. *)
Fixpoint for_range {S A R} (xs : list A) (body : A → M S (option R)) : M S (option R) :=
  match xs with
  | [] => mret None
  | x :: xs' =>
      r ← body x;
      match r with
      | Some v => mret (Some v)
      | None => for_range xs' body
      end
  end.

(** Code after a block that may have returned early. *)
Definition unless_returned {S R} (m : M S (option R)) (rest : M S R) : M S R :=
  r ← m;
  match r with
  | Some v => mret v
  | None => rest
  end.

(** [(A, error)] results of functions that return a zero value with an error. *)
Inductive result (E A : Type) : Type :=
  | Ok (a : A)
  | Err (e : E).
Arguments Ok {E A} a.
Arguments Err {E A} e.

(** [x, err := m; if err != nil { return onerr(err) }; k(x)]. *)
Definition check {S E A R} (m : M S (result E A)) (onerr : E → M S R) (k : A → M S R) : M S R :=
  r ← m;
  match r with
  | Ok a => k a
  | Err e => onerr e
  end.

(** [if err := m; err != nil { return onerr(err) }; k]. *)
Definition check_err {S E R} (m : M S (option E)) (onerr : E → M S R) (k : M S R) : M S R :=
  r ← m;
  match r with
  | None => k
  | Some e => onerr e
  end.

(** [defer func() { if closeErr := cleanup(); closeErr != nil && err == nil { err = closeErr } }()]
around the rest of a function with results [(result R, err error)].  The
deferred call also runs when the body panics. *)
Definition defer_close {S E R} (cleanup : M S (option E)) (body : M S (R * option E)) :
    M S (R * option E) := λ s,
  match body s with
  | (Ret (res, err), s1) =>
      match cleanup s1 with
      | (Ret closeErr, s2) =>
          (Ret (res, match err with Some e => Some e | None => closeErr end), s2)
      | (Panic p, s2) => (Panic p, s2)
      end
  | (Panic p, s1) =>
      match cleanup s1 with
      | (Ret _, s2) => (Panic p, s2)
      | (Panic q, s2) => (Panic q, s2)
      end
  end.

(** Notations for the two forms of Go's error check. *)
Declare Scope go_scope.
Delimit Scope go_scope with go.
Notation "'let?' x ':=' m 'orelse' h 'in' k" := (check m h (λ x, k))
  (at level 10, x name, m at level 100, h at level 100, k at level 200) : go_scope.
Notation "'guard?' m 'orelse' h 'in' k" := (check_err m h k)
  (at level 10, m at level 100, h at level 100, k at level 200) : go_scope.
#[global] Open Scope go_scope.

(** ** Laws of the monad *)

Lemma bind_Ret {S A B} (m : M S A) (f : A → M S B) s a s' :
  m s = (Ret a, s') → (m ≫= f) s = f a s'.
Proof. intros H. unfold mbind, M_bind. by rewrite H. Qed.

Lemma bind_Panic {S A B} (m : M S A) (f : A → M S B) s p s' :
  m s = (Panic p, s') → (m ≫= f) s = (Panic p, s').
Proof. intros H. unfold mbind, M_bind. by rewrite H. Qed.

Lemma bind_inv {S A B} (m : M S A) (f : A → M S B) s b s'' :
  (m ≫= f) s = (Ret b, s'') → ∃ a s', m s = (Ret a, s') ∧ f a s' = (Ret b, s'').
Proof.
  unfold mbind, M_bind. destruct (m s) as [[a|p] s'] eqn:E; [|done]. eauto.
Qed.

Lemma mret_run {S A} (a : A) (s : S) : (mret a : M S A) s = (Ret a, s).
Proof. done. Qed.

Lemma io_run {W A} (m : IO W A) w a w' : m w = (a, w') → io m w = (Ret a, w').
Proof. intros E. unfold io. by rewrite E. Qed.

Lemma check_Ok {S E A R} (m : M S (result E A)) (onerr : E → M S R) k s a s' :
  m s = (Ret (Ok a), s') → check m onerr k s = k a s'.
Proof. intros H. unfold check. by erewrite bind_Ret by done. Qed.

Lemma check_Err {S E A R} (m : M S (result E A)) (onerr : E → M S R) k s e s' :
  m s = (Ret (Err e), s') → check m onerr k s = onerr e s'.
Proof. intros H. unfold check. by erewrite bind_Ret by done. Qed.

Lemma check_err_None {S E R} (m : M S (option E)) (onerr : E → M S R) k s s' :
  m s = (Ret None, s') → check_err m onerr k s = k s'.
Proof. intros H. unfold check_err. by erewrite bind_Ret by done. Qed.

Lemma check_err_Some {S E R} (m : M S (option E)) (onerr : E → M S R) k s e s' :
  m s = (Ret (Some e), s') → check_err m onerr k s = onerr e s'.
Proof. intros H. unfold check_err. by erewrite bind_Ret by done. Qed.

Lemma defer_close_Ret {S E R} (cleanup : M S (option E)) (body : M S (R * option E)) s res err s1 cerr s2 :
  body s = (Ret (res, err), s1) → cleanup s1 = (Ret cerr, s2) →
  defer_close cleanup body s
  = (Ret (res, match err with Some e => Some e | None => cerr end), s2).
Proof. intros Hb Hc. unfold defer_close. by rewrite Hb, Hc. Qed.

(** ** Simulation

[sim R m1 m2]: from related states the two computations end with the same
outcome, panics included, in related states. *)
Section sim.
Context {S1 S2 : Type} (R : S1 → S2 → Prop).

Definition sim {A} (m1 : M S1 A) (m2 : M S2 A) : Prop :=
  ∀ s1 s2, R s1 s2 → (m1 s1).1 = (m2 s2).1 ∧ R (m1 s1).2 (m2 s2).2.

Lemma sim_ret {A} (a : A) : sim (mret a) (mret a).
Proof. by intros s1 s2 HR. Qed.

Lemma sim_panic {A} p : sim (A:=A) (go_panic p) (go_panic p).
Proof. by intros s1 s2 HR. Qed.

Lemma sim_bind {A B} (m1 : M S1 A) (m2 : M S2 A) (f1 : A → M S1 B) (f2 : A → M S2 B) :
  sim m1 m2 → (∀ a, sim (f1 a) (f2 a)) → sim (m1 ≫= f1) (m2 ≫= f2).
Proof.
  intros Hm Hf s1 s2 HR. destruct (Hm s1 s2 HR) as [Ho HR'].
  unfold mbind, M_bind.
  destruct (m1 s1) as [[a1|p1] s1'], (m2 s2) as [[a2|p2] s2']; simplify_eq/=;
    [by apply Hf|done].
Qed.

Lemma sim_for_range {A B} (xs : list A) (b1 : A → M S1 (option B)) (b2 : A → M S2 (option B)) :
  (∀ x, sim (b1 x) (b2 x)) → sim (for_range xs b1) (for_range xs b2).
Proof.
  intros Hb. induction xs as [|x xs IH]; simpl; [apply sim_ret|].
  apply sim_bind; [done|]. intros [v|]; [apply sim_ret|done].
Qed.

Lemma sim_unless_returned {B} (m1 : M S1 (option B)) (m2 : M S2 (option B)) k1 k2 :
  sim m1 m2 → sim k1 k2 → sim (unless_returned m1 k1) (unless_returned m2 k2).
Proof.
  intros Hm Hk. apply sim_bind; [done|]. intros [v|]; [apply sim_ret|done].
Qed.
End sim.

Lemma for_range_nil {S A R} (body : A → M S (option R)) s : for_range [] body s = (Ret None, s).
Proof. done. Qed.

Lemma for_range_cons {S A R} (x : A) (xs : list A) (body : A → M S (option R)) s :
  for_range (x :: xs) body s =
    match body x s with
    | (Ret (Some v), s') => (Ret (Some v), s')
    | (Ret None, s') => for_range xs body s'
    | (Panic p, s') => (Panic p, s')
    end.
Proof. simpl. unfold mbind, M_bind. by destruct (body x s) as [[[v|]|p] s']. Qed.

#[global] Arguments for_range {S A R} xs body : simpl never.

#[export] Hint Resolve sim_ret sim_panic sim_bind sim_for_range sim_unless_returned : go.

(** Walks two programs of the same shape side by side. *)
Ltac sim_step :=
  match goal with
  | |- ∀ _, _ => intros ?
  | |- sim _ (mret _) _ => apply sim_ret
  | |- sim _ (go_panic _) _ => apply sim_panic
  | |- sim _ (mbind _ _) _ => apply sim_bind
  | |- sim _ (for_range _ _) _ => apply sim_for_range
  | |- sim _ (unless_returned _ _) _ => apply sim_unless_returned
  | |- sim _ (match ?x with _ => _ end) _ => destruct x eqn:?
  end.

(** Splits every hypothesis that is a successful run of a [bind]. *)
Ltac inv_bind :=
  repeat match goal with
  | H : (_ ≫= _) _ = (Ret _, _) |- _ =>
      let Hm := fresh "Hrun" in
      apply bind_inv in H as (? & ? & Hm & H)
  end.

(** ** Lists *)

Lemma list_alter_same {A} (f : A → A) (i : nat) (l : list A) (x : A) :
  l !! i = Some x → f x = x → alter f i l = l.
Proof.
  intros Hi Hf. apply list_eq. intros j. destruct (decide (j = i)) as [->|Hne].
  - by rewrite list_lookup_alter_eq, Hi; simpl; rewrite Hf.
  - by rewrite list_lookup_alter_ne.
Qed.

Lemma list_alter_not_nil {A} (f : A → A) (i : nat) (l : list A) : l ≠ [] → alter f i l ≠ [].
Proof. destruct l; [done|]. by destruct i. Qed.

Section filter_length.
Context {A : Type} (P Q : A → Prop) `{!∀ x, Decision (P x)} `{!∀ x, Decision (Q x)}.
Context (PQ : ∀ x, P x → Q x).

Lemma filter_length_le (l : list A) : length (filter P l) ≤ length (filter Q l).
Proof.
  induction l as [|y l IH]; [done|]. rewrite !filter_cons.
  destruct (decide (P y)), (decide (Q y)); simpl; try lia; naive_solver.
Qed.

Lemma filter_length_strict (l : list A) x :
  x ∈ l → Q x → ¬ P x → length (filter P l) < length (filter Q l).
Proof.
  intros Hx HQ HP. induction l as [|y l IH]; [by apply elem_of_nil in Hx|].
  rewrite !filter_cons. apply elem_of_cons in Hx as [<-|Hx].
  - rewrite decide_False, decide_True by done. simpl. apply Nat.lt_succ_r, filter_length_le.
  - specialize (IH Hx).
    destruct (decide (P y)), (decide (Q y)); simpl; try lia; exfalso; auto.
Qed.
End filter_length.
