(* ===== verification/GoStrings.v ===== *)
(** * The parts of Go's [strings], [slices] and [errors] packages the operator uses.

A Go string is a byte string: [string] of Rocq's library, one [ascii] per byte. *)
From S2P Require Import Prelude.

(** ** Package [strings] *)

(** [strings.Index(s, sub)]: first position of [sub] in [s], or -1. *)
Definition strings_Index (s sub : string) : Z :=
  match String.index 0 sub s with
  | Some n => Z.of_nat n
  | None => (-1)%Z
  end.

(** [strings.Join(elems, sep)]. *)
Definition strings_Join (elems : list string) (sep : string) : string :=
  String.concat sep elems.

(** [strings.Split(s, sep)] (and [strings.SplitSeq]) for a one-byte separator.
[acc] is the part of the current field already read. *)
Fixpoint split_go (sep : Ascii.ascii) (s acc : string) : list string :=
  match s with
  | EmptyString => [acc]
  | String c s' =>
      if Ascii.eqb c sep then acc :: split_go sep s' ""
      else split_go sep s' (acc +:+ String c "")
  end.

Definition strings_Split (s : string) (sep : Ascii.ascii) : list string := split_go sep s "".

(** [strings.TrimLeft], [strings.TrimRight] and [strings.Trim] for a one-byte cutset. *)
Fixpoint strings_TrimLeft (s : string) (c : Ascii.ascii) : string :=
  match s with
  | EmptyString => ""
  | String a s' => if Ascii.eqb a c then strings_TrimLeft s' c else s
  end.

Fixpoint strings_TrimRight (s : string) (c : Ascii.ascii) : string :=
  match s with
  | EmptyString => ""
  | String a s' =>
      match strings_TrimRight s' c with
      | EmptyString => if Ascii.eqb a c then "" else String a ""
      | t => String a t
      end
  end.

Definition strings_Trim (s : string) (c : Ascii.ascii) : string :=
  strings_TrimRight (strings_TrimLeft s c) c.

(** ** Package [slices] *)

Fixpoint slices_Contains (xs : list string) (x : string) : bool :=
  match xs with
  | [] => false
  | y :: xs' => if String.eqb y x then true else slices_Contains xs' x
  end.

(** ** Package [reflect]

[reflect.DeepEqual] on slices: a nil slice equals only a nil slice, others are compared
by length and element by element. *)
Fixpoint deep_equal_elems {A} (eq : A → A → bool) (xs ys : list A) : bool :=
  match xs, ys with
  | x :: xs', y :: ys' => eq x y && deep_equal_elems eq xs' ys'
  | _, _ => true
  end.

Definition reflect_DeepEqual_slice {A} (eq : A → A → bool) (a b : slice A) : bool :=
  match a, b with
  | None, None => true
  | Some xs, Some ys => Nat.eqb (length xs) (length ys) && deep_equal_elems eq xs ys
  | _, _ => false
  end.

Lemma DeepEqual_slice_spec {A} (eq : A → A → bool) :
  (∀ x y, eq x y = true ↔ x = y) → ∀ a b, reflect_DeepEqual_slice eq a b = true ↔ a = b.
Proof.
  intros Heq [xs|] [ys|]; simpl; [|done..].
  rewrite andb_true_iff, Nat.eqb_eq. split.
  - intros [Hlen Hall]. f_equal. revert ys Hlen Hall.
    induction xs as [|x xs IH]; intros [|y ys]; simpl; try done.
    intros [= Hlen] [->%Heq Hall]%andb_prop. f_equal. by apply IH.
  - intros [= ->]. split; [done|]. induction ys as [|y ys IH]; [done|]. simpl.
    apply andb_true_iff. split; [by apply Heq|done].
Qed.

(** ** Package [errors] and error values

[errval] is a non-nil error value.  The package-level [*microerror.Error]
variables and the package-level [errors.New] values are identified by their
(distinct) texts; [FmtErr] is what [fmt.Errorf] with [%w] verbs builds;
[AzureResponseErr] is a [*azcore.ResponseError]; [LibErr] is any other error a
library builds, with the errors its [Unwrap] method gives.  A Go value of type
[error] is an [option errval], [None] being [nil]. *)
#[warnings="-register-all"]
Inductive errval : Type :=
  | MicroErr (Kind : string)
  | NewErr (text : string)
  | FmtErr (text : string) (wrapped : list errval)
  | AzureResponseErr (StatusCode : Z) (ErrorCode : string)
  | LibErr (text : string) (wrapped : list errval).

Abbreviation error := (option errval).

Definition errors_Unwrap (e : errval) : list errval :=
  match e with
  | FmtErr _ ws | LibErr _ ws => ws
  | _ => []
  end.

(** [e == target] for a package-level variable [target]. *)
Definition err_is_var (e target : errval) : bool :=
  match e, target with
  | MicroErr k, MicroErr k' => String.eqb k k'
  | NewErr t, NewErr t' => String.eqb t t'
  | _, _ => false
  end.

Definition error_is_var (e : error) (target : errval) : bool :=
  match e with Some e => err_is_var e target | None => false end.

(** [errors.Is(err, target)] for a package-level variable [target]. *)
Fixpoint errval_Is (e target : errval) : bool :=
  err_is_var e target ||
  match e with
  | FmtErr _ ws | LibErr _ ws => existsb (λ w, errval_Is w target) ws
  | _ => false
  end.

Definition errors_Is (e : error) (target : errval) : bool :=
  match e with Some e => errval_Is e target | None => false end.

(** [errors.As(err, &responseError)] for [*azcore.ResponseError]: the first one
in a pre-order walk of the error tree. *)
Fixpoint errval_As_Response (e : errval) : option (Z * string) :=
  match e with
  | AzureResponseErr code ec => Some (code, ec)
  | FmtErr _ ws | LibErr _ ws =>
      (fix first (ws : list errval) : option (Z * string) :=
         match ws with
         | [] => None
         | w :: ws' =>
             match errval_As_Response w with
             | Some r => Some r
             | None => first ws'
             end
         end) ws
  | _ => None
  end.

Definition errors_As_Response (e : error) : option (Z * string) :=
  match e with Some e => errval_As_Response e | None => None end.

(** [err.Error()] for the error values the operator itself builds or wraps. *)
Definition errval_text (e : errval) : string :=
  match e with
  | MicroErr k => k
  | NewErr t | FmtErr t _ | LibErr t _ => t
  | AzureResponseErr _ c => c
  end.

(** [fmt.Errorf("%w: %w", a, b)]. *)
Definition Errorf_w_w (a b : errval) : errval :=
  FmtErr (errval_text a +:+ ": " +:+ errval_text b) [a; b].

(** ** Lemmas on strings *)

Lemma app_String (a : Ascii.ascii) (s t : string) : String a s +:+ t = String a (s +:+ t).
Proof. done. Qed.

Lemma app_nil_l_string (s : string) : "" +:+ s = s.
Proof. done. Qed.

Lemma app_nil_r_string (s : string) : s +:+ "" = s.
Proof. induction s as [|a s IH]; rewrite ?app_String; [done|]. by f_equal. Qed.

Lemma app_assoc_string (s t u : string) : (s +:+ t) +:+ u = s +:+ (t +:+ u).
Proof. induction s as [|a s IH]; rewrite ?app_String; [done|]. by f_equal. Qed.

Lemma app_inj_l_string (s t u : string) : s +:+ t = s +:+ u → t = u.
Proof. apply (inj (String.app s)). Qed.

Lemma length_app_string (s t : string) :
  String.length (s +:+ t) = String.length s + String.length t.
Proof. induction s as [|a s IH]; rewrite ?app_String; simpl; [done|]. by rewrite IH. Qed.

Lemma app_inj_r_string (s t u : string) : s +:+ u = t +:+ u → s = t.
Proof.
  revert t. induction s as [|a s IH]; intros [|b t]; rewrite ?app_String, ?app_nil_l_string;
    [done| | |].
  1-2: intros H; apply (f_equal String.length) in H; simpl in H;
    rewrite length_app_string in H; lia.
  intros [= -> H]. f_equal. by apply IH.
Qed.

#[export] Hint Rewrite app_assoc_string app_nil_r_string app_nil_l_string app_String : go_rw.

Lemma prefix_app (p s : string) : String.prefix p (p +:+ s) = true.
Proof.
  induction p as [|a p IH]; [by destruct s|]. rewrite app_String. simpl.
  by destruct (Ascii.ascii_dec a a).
Qed.

Lemma prefix_spec (p s : string) : String.prefix p s = true ↔ ∃ t, s = p +:+ t.
Proof.
  split; [|by intros [t ->]; apply prefix_app].
  revert s. induction p as [|a p IH]; intros [|b s]; simpl; try done; eauto.
  destruct (Ascii.ascii_dec a b) as [->|]; [|done].
  intros H. destruct (IH s H) as [t ->]. by exists t.
Qed.

(** [strings.Index(s, p) == 0] is the prefix test. *)
Lemma strings_Index_0 (s p : string) :
  strings_Index s p = 0%Z ↔ String.prefix p s = true.
Proof.
  unfold strings_Index. destruct s as [|b s]; [by destruct p|].
  cbn [String.index]. destruct (String.prefix p (String b s)) eqn:E; [done|].
  destruct (String.index 0 p s); split; try done; lia.
Qed.

Lemma slices_Contains_spec xs x : slices_Contains xs x = true ↔ x ∈ xs.
Proof.
  induction xs as [|y xs IH]; simpl.
  - split; [done|]. intros H. by apply elem_of_nil in H.
  - rewrite elem_of_cons. destruct (String.eqb_spec y x) as [->|Hne]; [by split; auto|].
    rewrite IH. split; [by auto|]. by intros [->|].
Qed.

(** A split has at least one field, and joining the fields gives the string back. *)
Lemma split_go_cons (sep : Ascii.ascii) (s acc : string) :
  ∃ x xs, split_go sep s acc = x :: xs.
Proof.
  revert acc. induction s as [|c s IH]; intros acc; simpl; [by eexists _, _|].
  destruct (Ascii.eqb c sep); [by eexists _, _|apply IH].
Qed.

Lemma Join_cons (x y : string) (xs : list string) (sep : string) :
  strings_Join (x :: y :: xs) sep = x +:+ sep +:+ strings_Join (y :: xs) sep.
Proof. done. Qed.

Lemma split_go_join (sep : Ascii.ascii) (s acc : string) :
  strings_Join (split_go sep s acc) (String sep "") = acc +:+ s.
Proof.
  revert acc. induction s as [|c s IH]; intros acc; simpl.
  - by rewrite app_nil_r_string.
  - destruct (Ascii.eqb_spec c sep) as [->|].
    + destruct (split_go_cons sep s "") as (x & xs & E).
      rewrite E, Join_cons, <- E, IH. done.
    + by rewrite IH, app_assoc_string.
Qed.
