(* ===== verification/GoFlag.v ===== *)
(** * Go's package [flag], as the start-up uses it.

A flag set is a list of flags, each of which sets a part of a configuration [C].  The
set of the command line has [ExitOnError]: a bad command line ends the process. *)
From Stdlib Require Import Ascii.
From S2P Require Import Prelude.
From S2P Require Import GoStrings.

Record Flag (C : Type) := {
  flag_Name : string;
  IsBoolFlag : bool;
  flag_Set : string → C → result errval C
}.
Arguments flag_Name {C} _.
Arguments IsBoolFlag {C} _.
Arguments flag_Set {C} _ _ _.

Definition dash : ascii := "-"%char.
Definition equals : ascii := "="%char.

(** The part before the first ['='], and the part after it. *)
Fixpoint cut_equals (s : string) : string * option string :=
  match s with
  | EmptyString => ("", None)
  | String a s' =>
      if Ascii.eqb a equals then ("", Some s')
      else let '(name, value) := cut_equals s' in (String a name, value)
  end.

(** The cases that [parseOne] tells apart on the first argument. *)
Inductive token : Type :=
  | NotAFlag
  | Terminator
  | BadSyntax
  | Named (name : string) (value : option string).

(** The argument after its dashes.  An ['='] in front is bad syntax, so the search for one
starts behind the first character. *)
Definition name_token (name : string) : token :=
  match name with
  | EmptyString => BadSyntax
  | String a rest =>
      if Ascii.eqb a dash || Ascii.eqb a equals then BadSyntax
      else let '(n, value) := cut_equals rest in Named (String a n) value
  end.

Definition token_of (s : string) : token :=
  match s with
  | String a (String b rest) =>
      if negb (Ascii.eqb a dash) then NotAFlag
      else if Ascii.eqb b dash then
        match rest with
        | EmptyString => Terminator
        | _ => name_token rest
        end
      else name_token (String b rest)
  | _ => NotAFlag
  end.

Fixpoint lookup_flag {C} (formal : list (Flag C)) (name : string) : option (Flag C) :=
  match formal with
  | [] => None
  | f :: formal' => if String.eqb (flag_Name f) name then Some f else lookup_flag formal' name
  end.

(** [flag.Parse]: the configuration and the remaining arguments, or the exit of the
process: with 0 after a request for help, with 2 after an error. *)
Inductive parsed (C : Type) : Type :=
  | Parsed (c : C) (args : list string)
  | Exits (code : Z).
Arguments Parsed {C} c args.
Arguments Exits {C} code.

Fixpoint Parse {C} (formal : list (Flag C)) (args : list string) (c : C) : parsed C :=
  match args with
  | [] => Parsed c []
  | s :: args' =>
      match token_of s with
      | NotAFlag => Parsed c (s :: args')
      | Terminator => Parsed c args'
      | BadSyntax => Exits 2
      | Named name value =>
          match lookup_flag formal name with
          | None => if String.eqb name "help" || String.eqb name "h" then Exits 0 else Exits 2
          | Some f =>
              if IsBoolFlag f then
                match flag_Set f (default "true" value) c with
                | Ok c' => Parse formal args' c'
                | Err _ => Exits 2
                end
              else
                match value with
                | Some v =>
                    match flag_Set f v c with
                    | Ok c' => Parse formal args' c'
                    | Err _ => Exits 2
                    end
                | None =>
                    match args' with
                    | [] => Exits 2
                    | v :: args'' =>
                        match flag_Set f v c with
                        | Ok c' => Parse formal args'' c'
                        | Err _ => Exits 2
                        end
                    end
                end
          end
      end
  end.

(** [strconv.ParseBool], for bool flags. *)
Definition ParseBool (s : string) : result errval bool :=
  if existsb (String.eqb s) ["1"; "t"; "T"; "TRUE"; "true"; "True"] then Ok true
  else if existsb (String.eqb s) ["0"; "f"; "F"; "FALSE"; "false"; "False"] then Ok false
  else Err (NewErr "parse error").

Definition FormatBool (b : bool) : string := if b then "true" else "false".

Lemma ParseBool_FormatBool b : ParseBool (FormatBool b) = Ok b.
Proof. by destruct b. Qed.

(** ** Arguments of the form [--name=value] *)

Fixpoint no_equals (s : string) : bool :=
  match s with
  | EmptyString => true
  | String a s' => negb (Ascii.eqb a equals) && no_equals s'
  end.

Lemma cut_equals_app n v : no_equals n = true → cut_equals (n +:+ String equals v) = (n, Some v).
Proof.
  induction n as [|a n IH]; [done|]. rewrite app_String. simpl.
  destruct (Ascii.eqb a equals); [done|]. simpl. intros Hn. by rewrite IH.
Qed.

(** A name that can be written after two dashes. *)
Definition flag_name (n : string) : bool :=
  match n with
  | EmptyString => false
  | String a n' => negb (Ascii.eqb a dash) && negb (Ascii.eqb a equals) && no_equals n'
  end.

Definition argument (name value : string) : string := "--" +:+ name +:+ "=" +:+ value.

Lemma token_of_argument name value :
  flag_name name = true → token_of (argument name value) = Named name (Some value).
Proof.
  destruct name as [|a n]; [done|]. simpl.
  intros [[Ha%negb_true_iff Hb%negb_true_iff]%andb_prop Hn]%andb_prop.
  unfold argument. rewrite !app_String, !app_nil_l_string. simpl.
  rewrite Ha, Hb. simpl. fold equals. by rewrite cut_equals_app.
Qed.

Lemma Parse_argument {C} (formal : list (Flag C)) f name value args c c' :
  flag_name name = true → lookup_flag formal name = Some f → flag_Set f value c = Ok c' →
  Parse formal (argument name value :: args) c = Parse formal args c'.
Proof.
  intros Hn Hf Hs. cbn [Parse]. rewrite token_of_argument, Hf by done. simpl. rewrite Hs.
  by destruct (IsBoolFlag f).
Qed.
