(* ===== verification/GoNet.v ===== *)
(** * Go's [net.ParseIP] and [net.IP.String].

The operator parses the address Azure reports and prints it into an annotation.
A [net.IP] is its byte slice, [[]] for [nil]; [ParseIP] gives 16 bytes, an IPv4
address in the IPv4-in-IPv6 form. *)
From Stdlib Require Import Ascii.
From S2P Require Import Prelude.
From S2P Require Import GoStrings.

Abbreviation IP := (list N) (only parsing).

Local Open Scope N_scope.

Definition v4InV6Prefix : list N := [0;0;0;0;0;0;0;0;0;0;255;255].

Definition is_digit (c : Ascii.ascii) : bool :=
  (48 <=? Ascii.N_of_ascii c) && (Ascii.N_of_ascii c <=? 57).

Definition digit_val (c : Ascii.ascii) : N := Ascii.N_of_ascii c - 48.

Definition is_empty (s : string) : bool :=
  match s with EmptyString => true | _ => false end.

(** ** Parsing

[parseIPv4Fields]: [first] says that no byte has been read, [prev_dot] that the
previous byte was a dot, [val] and [digLen] are the value and the number of
digits of the current octet, [fields] the octets already read. *)
Fixpoint parseIPv4_loop (s : string) (first prev_dot : bool) (val digLen : N)
    (fields : list N) : option (list N) :=
  match s with
  | EmptyString =>
      if Nat.ltb (length fields) 3 then None else Some (fields ++ [val])
  | String c s' =>
      if is_digit c then
        if (digLen =? 1) && (val =? 0) then None
        else
          let val' := val * 10 + digit_val c in
          if 255 <? val' then None
          else parseIPv4_loop s' false false val' (digLen + 1) fields
      else if Ascii.eqb c "."%char then
        if first || is_empty s' || prev_dot then None
        else if Nat.eqb (length fields) 3 then None
        else parseIPv4_loop s' false true 0 0 (fields ++ [val])
      else None
  end.

Definition parseIPv4Fields (s : string) : option (list N) :=
  parseIPv4_loop s true false 0 0 [].

Definition hex_val (c : Ascii.ascii) : option N :=
  let n := Ascii.N_of_ascii c in
  if (48 <=? n) && (n <=? 57) then Some (n - 48)
  else if (97 <=? n) && (n <=? 102) then Some (n - 97 + 10)
  else if (65 <=? n) && (n <=? 70) then Some (n - 65 + 10)
  else None.

(** Reads one group of at most four hexadecimal digits; [None] is the failure
of a fifth digit, otherwise the number of digits, the value and the rest. *)
Fixpoint hex_group (s : string) (off : nat) (acc : N) : option (nat * N * string) :=
  match s with
  | EmptyString => Some (off, acc, s)
  | String c s' =>
      match hex_val c with
      | Some d => if Nat.ltb 3 off then None else hex_group s' (S off) (acc * 16 + d)
      | None => Some (off, acc, s)
      end
  end.

(** The [for i < 16] loop of [parseIPv6]; the address bytes read so far are
[ip], so that [i] is their number.  Each turn reads two bytes or stops, hence
eight units of fuel are enough.  The result is the address bytes, the position
of the ellipsis and the unread rest. *)
Fixpoint parseIPv6_loop (fuel : nat) (s : string) (ip : list N) (ellipsis : option nat) :
    option (list N * option nat * string) :=
  match fuel with
  | O => Some (ip, ellipsis, s)
  | S fuel' =>
      match hex_group s 0 0 with
      | None => None
      | Some (O, _, _) => None
      | Some (_, acc, s1) =>
          match s1 with
          | EmptyString => Some (ip ++ [acc / 256; acc mod 256], ellipsis, "")
          | String c s2 =>
              if Ascii.eqb c "."%char then
                if negb (is_some ellipsis) && negb (Nat.eqb (length ip) 12) then None
                else if Nat.ltb 16 (length ip + 4) then None
                else
                  match parseIPv4Fields s with
                  | Some v4 => Some (ip ++ v4, ellipsis, "")
                  | None => None
                  end
              else if negb (Ascii.eqb c ":"%char) then None
              else
                let ip' := ip ++ [acc / 256; acc mod 256] in
                match s2 with
                | EmptyString => None
                | String c2 s3 =>
                    if Ascii.eqb c2 ":"%char then
                      if is_some ellipsis then None
                      else
                        match s3 with
                        | EmptyString => Some (ip', Some (length ip'), "")
                        | _ => parseIPv6_loop fuel' s3 ip' (Some (length ip'))
                        end
                    else parseIPv6_loop fuel' s2 ip' ellipsis
                end
          end
      end
  end.

(** [parseIPv6] of a string without zone. *)
Definition parseIPv6 (s : string) : option (list N) :=
  let '(ellipsis, s0) :=
    match s with
    | String c (String c' s') =>
        if Ascii.eqb c ":"%char && Ascii.eqb c' ":"%char then (Some 0%nat, s') else (None, s)
    | _ => (None, s)
    end in
  if is_some ellipsis && is_empty s0 then Some (replicate 16 0)
  else
    match parseIPv6_loop 8 s0 [] ellipsis with
    | None => None
    | Some (ip, ellipsis, rest) =>
        if negb (is_empty rest) then None
        else if Nat.ltb (length ip) 16 then
          match ellipsis with
          | None => None
          | Some e => Some (take e ip ++ replicate (16 - length ip) 0 ++ drop e ip)
          end
        else match ellipsis with Some _ => None | None => Some ip end
    end.

(** [netip.ParseAddr] goes by the first of the bytes dot, colon and percent; a zone is
refused by [net.ParseIP], and every string with a percent sign either fails to
parse or has a zone. *)
Fixpoint first_marker (s : string) : option Ascii.ascii :=
  match s with
  | EmptyString => None
  | String c s' =>
      if Ascii.eqb c "."%char || Ascii.eqb c ":"%char || Ascii.eqb c "%"%char then Some c
      else first_marker s'
  end.

Fixpoint has_byte (b : Ascii.ascii) (s : string) : bool :=
  match s with
  | EmptyString => false
  | String c s' => Ascii.eqb c b || has_byte b s'
  end.

Definition net_ParseIP (s : string) : IP :=
  match first_marker s with
  | Some c =>
      if Ascii.eqb c "."%char then
        match parseIPv4Fields s with
        | Some v4 => v4InV6Prefix ++ v4
        | None => []
        end
      else if Ascii.eqb c ":"%char then
        if has_byte "%"%char s then []
        else match parseIPv6 s with Some ip => ip | None => [] end
      else []
  | None => []
  end.

(** ** Printing *)

Definition digit (n : N) : string := String (Ascii.ascii_of_N (48 + n)) "".

(** [appendDecimal] of one byte. *)
Definition decimal (x : N) : string :=
  (if 100 <=? x then digit (x / 100) else "") +:+
  (if 10 <=? x then digit (x / 10 mod 10) else "") +:+
  digit (x mod 10).

Definition hex_digit (n : N) : string :=
  String (Ascii.ascii_of_N (if n <? 10 then 48 + n else 87 + n)) "".

(** [appendHex] of a 16-bit value. *)
Definition hexadecimal (x : N) : string :=
  (if 0x1000 <=? x then hex_digit (x / 0x1000) else "") +:+
  (if 0x100 <=? x then hex_digit (x / 0x100 mod 16) else "") +:+
  (if 0x10 <=? x then hex_digit (x / 0x10 mod 16) else "") +:+
  hex_digit (x mod 16).

Definition print_v4 (fields : list N) : string :=
  strings_Join (decimal <$> fields) ".".

Fixpoint groups (ip : list N) : list N :=
  match ip with
  | hi :: lo :: ip' => hi * 256 + lo :: groups ip'
  | _ => []
  end.

Fixpoint zero_run (gs : list N) : nat :=
  match gs with
  | g :: gs' => if g =? 0 then S (zero_run gs') else 0%nat
  | [] => 0%nat
  end.

(** The first longest run of at least two zero groups: its start and length. *)
Fixpoint longest_run (gs : list N) (i : nat) (best : nat * nat) : nat * nat :=
  match gs with
  | [] => best
  | _ :: gs' =>
      let l := zero_run gs in
      longest_run gs' (S i) (if Nat.leb 2 l && Nat.ltb best.2 l then (i, l) else best)
  end.

Definition print_v6 (ip : list N) : string :=
  let gs := groups ip in
  let '(start, len) := longest_run gs 0 (0%nat, 0%nat) in
  if Nat.eqb len 0 then strings_Join (hexadecimal <$> gs) ":"
  else
    strings_Join (hexadecimal <$> take start gs) ":" +:+ "::" +:+
    strings_Join (hexadecimal <$> drop (start + len) gs) ":".

(** [hexString] of a slice of any other length. *)
Fixpoint hexString (b : list N) : string :=
  match b with
  | [] => ""
  | x :: b' => hex_digit (x / 16) +:+ hex_digit (x mod 16) +:+ hexString b'
  end.

Definition net_IP_String (ip : IP) : string :=
  if Nat.eqb (length ip) 0 then "<nil>"
  else if Nat.eqb (length ip) 4 then print_v4 ip
  else if Nat.eqb (length ip) 16 then
    if bool_decide (take 12 ip = v4InV6Prefix) then print_v4 (drop 12 ip) else print_v6 ip
  else "?" +:+ hexString ip.

Example ParseIP_v4 : net_IP_String (net_ParseIP "10.10.10.10") = "10.10.10.10".
Proof. reflexivity. Qed.
Example ParseIP_v6 : net_IP_String (net_ParseIP "2001:DB8:0:0:1::00ff") = "2001:db8::1:0:0:ff".
Proof. reflexivity. Qed.
Example ParseIP_v6' : net_IP_String (net_ParseIP "fd00::") = "fd00::".
Proof. reflexivity. Qed.
Example ParseIP_loopback : net_IP_String (net_ParseIP "::1") = "::1".
Proof. reflexivity. Qed.
Example ParseIP_v4in6 : net_IP_String (net_ParseIP "::ffff:10.0.0.4") = "10.0.0.4".
Proof. reflexivity. Qed.
Example ParseIP_bad : net_IP_String (net_ParseIP "10.0.0") = "<nil>".
Proof. reflexivity. Qed.

(** ** Digits *)

Lemma digit_facts (n : N) : n < 10 →
  is_digit (ascii_of_N (48 + n)) = true ∧ digit_val (ascii_of_N (48 + n)) = n.
Proof.
  intros H. unfold is_digit, digit_val. rewrite N_ascii_embedding by lia.
  split; [|lia]. rewrite andb_true_iff, !N.leb_le. lia.
Qed.

Lemma digit_of_byte (c : ascii) : is_digit c = true →
  digit_val c < 10 ∧ String c "" = digit (digit_val c).
Proof.
  unfold is_digit, digit_val, digit. rewrite andb_true_iff, !N.leb_le. intros [H1 H2].
  split; [lia|]. replace (48 + (N_of_ascii c - 48)) with (N_of_ascii c) by lia.
  by rewrite ascii_N_embedding.
Qed.

(** [all_below n p]: [p] holds of every number below [n], as a computation. *)
Definition all_below (n : nat) (p : N → bool) : bool := forallb (λ i, p (N.of_nat i)) (seq 0 n).

Lemma all_below_spec (n : nat) (p : N → bool) (x : N) :
  all_below n p = true → x < N.of_nat n → p x = true.
Proof.
  unfold all_below. rewrite forallb_forall. intros H Hx.
  rewrite <- (N2Nat.id x). apply H. apply list_elem_of_In, elem_of_seq. lia.
Qed.

(** Appending a digit to the decimal form of a positive number. *)
Lemma decimal_snoc (v d : N) : 0 < v → v < 26 → d < 10 →
  decimal (v * 10 + d) = decimal v +:+ digit d.
Proof.
  intros Hv Hv26 Hd.
  assert (H : all_below 26 (λ v, all_below 10 (λ d,
    (v =? 0) || String.eqb (decimal (v * 10 + d)) (decimal v +:+ digit d))) = true)
    by (vm_compute; done).
  apply (all_below_spec _ _ v) in H; [|done]. simpl in H.
  apply (all_below_spec _ _ d) in H; [|done].
  apply orb_true_iff in H as [H|H]; [apply N.eqb_eq in H; lia|by apply String.eqb_eq].
Qed.

Lemma decimal_digit (d : N) : d < 10 → decimal d = digit d.
Proof.
  intros H. unfold decimal.
  destruct (N.leb_spec 100 d); [lia|]. destruct (N.leb_spec 10 d); [lia|].
  by rewrite !app_nil_l_string, N.mod_small.
Qed.

Lemma decimal_length (v : N) : 0 < v → v < 256 → String.length (decimal v) = 1%nat → v < 10.
Proof.
  intros Hv H256. unfold decimal. rewrite !length_app_string.
  destruct (N.leb_spec 100 v), (N.leb_spec 10 v); simpl; lia.
Qed.

Lemma decimal_nonempty (v : N) : decimal v ≠ "".
Proof.
  intros H. apply (f_equal String.length) in H. unfold decimal in H.
  rewrite !length_app_string in H. simpl in H. lia.
Qed.

(** ** IPv4: printing what was parsed gives the parsed text *)

Lemma print_v4_cons (x y : N) (fs : list N) :
  print_v4 (x :: y :: fs) = decimal x +:+ "." +:+ print_v4 (y :: fs).
Proof. done. Qed.

(** [cur] is the text of the current octet read so far. *)
Definition octet_state (cur : string) (val digLen : N) : Prop :=
  (cur = "" ∧ val = 0 ∧ digLen = 0) ∨
  (cur = decimal val ∧ val < 256 ∧ digLen = N.of_nat (String.length cur)).

Lemma octet_state_snoc cur val digLen c :
  octet_state cur val digLen → is_digit c = true →
  (digLen =? 1) && (val =? 0) = false → (255 <? val * 10 + digit_val c) = false →
  octet_state (cur +:+ String c "") (val * 10 + digit_val c) (digLen + 1).
Proof.
  intros Hst Hc Hlead Hmax. destruct (digit_of_byte c Hc) as [Hd ->].
  apply N.ltb_ge in Hmax. right. rewrite length_app_string.
  destruct Hst as [(-> & -> & ->)|(-> & Hv & ->)].
  - rewrite N.mul_0_l, N.add_0_l, decimal_digit by done. repeat split; simpl; lia.
  - destruct (decide (val = 0)) as [->|Hne]; [done|].
    rewrite decimal_snoc by lia. repeat split; simpl; lia.
Qed.

Lemma parseIPv4_loop_print s first prev_dot val digLen fields cur out :
  octet_state cur val digLen → first || prev_dot = is_empty cur →
  (cur = "" → s ≠ "" ∨ (length fields < 3)%nat) → (length fields ≤ 3)%nat →
  parseIPv4_loop s first prev_dot val digLen fields = Some out →
  ∃ x fs, out = fields ++ x :: fs ∧ print_v4 (x :: fs) = cur +:+ s ∧
    length out = 4%nat ∧ Forall (λ v, v < 256) (x :: fs).
Proof.
  revert first prev_dot val digLen fields cur.
  induction s as [|c s IH]; intros first prev_dot val digLen fields cur Hst Hfp Hcur Hlen;
    cbn [parseIPv4_loop].
  - destruct (Nat.ltb_spec (length fields) 3); [done|]. intros [= <-].
    destruct Hst as [(-> & _)|(-> & Hv & _)].
    { destruct (Hcur eq_refl); [done|lia]. }
    exists val, []. rewrite length_app. simpl. rewrite app_nil_r_string.
    repeat split; [lia|by repeat constructor].
  - destruct (is_digit c) eqn:Hc.
    + destruct ((digLen =? 1) && (val =? 0)) eqn:Hlead; [done|].
      destruct (255 <? _) eqn:Hmax; [done|]. intros Hrun.
      assert (Hsnoc : is_empty (cur +:+ String c "") = false) by (by destruct cur).
      destruct (IH false false _ _ _ (cur +:+ String c "")
        (octet_state_snoc _ _ _ _ Hst Hc Hlead Hmax)
        (eq_sym Hsnoc) ltac:(intros H; by rewrite H in Hsnoc) Hlen Hrun)
        as (x & fs & -> & Hp & Hl & HF).
      exists x, fs. by rewrite Hp, app_assoc_string.
    + destruct (Ascii.eqb_spec c "."%char) as [->|]; [|done].
      destruct (first || is_empty s || prev_dot) eqn:Hchk; [done|].
      apply orb_false_iff in Hchk as [[-> Hs]%orb_false_iff ->].
      destruct (Nat.eqb_spec (length fields) 3); [done|]. intros Hrun.
      destruct Hst as [(-> & _)|(-> & Hv & _)]; [done|].
      destruct (IH false true 0 0 (fields ++ [val]) "") as (x & fs & -> & Hp & Hl & HF);
        [by left|done|by left; destruct s|rewrite length_app; simpl; lia|done|].
      exists val, (x :: fs). rewrite print_v4_cons, Hp, <- app_assoc.
      repeat split; [by rewrite <- Hl, <- app_assoc|by constructor].
Qed.

Lemma parseIPv4_print s fs : parseIPv4Fields s = Some fs →
  print_v4 fs = s ∧ length fs = 4%nat ∧ Forall (λ v, v < 256) fs.
Proof.
  intros H. destruct (parseIPv4_loop_print s true false 0 0 [] "" fs)
    as (x & fs' & -> & Hp & Hl & HF); try done; [by left|right; simpl; lia|simpl; lia].
Qed.

(** ** IPv4: parsing what was printed gives the octets *)

Lemma parseIPv4_digit c s first prev_dot val digLen fields :
  is_digit c = true → (digLen =? 1) && (val =? 0) = false → val * 10 + digit_val c < 256 →
  parseIPv4_loop (String c s) first prev_dot val digLen fields
  = parseIPv4_loop s false false (val * 10 + digit_val c) (digLen + 1) fields.
Proof.
  intros Hc Hlead Hmax. cbn [parseIPv4_loop]. rewrite Hc, Hlead.
  by destruct (N.ltb_spec 255 (val * 10 + digit_val c)); [lia|].
Qed.

(** The effect of a string of digits on the value and the digit count. *)
Fixpoint run_digits (ds : string) (val digLen : N) : option (N * N) :=
  match ds with
  | EmptyString => Some (val, digLen)
  | String c ds' =>
      if is_digit c && negb ((digLen =? 1) && (val =? 0)) && (val * 10 + digit_val c <? 256)
      then run_digits ds' (val * 10 + digit_val c) (digLen + 1)
      else None
  end.

Lemma run_digits_spec ds s val digLen val' digLen' first prev_dot fields :
  ds ≠ "" → run_digits ds val digLen = Some (val', digLen') →
  parseIPv4_loop (ds +:+ s) first prev_dot val digLen fields
  = parseIPv4_loop s false false val' digLen' fields.
Proof.
  intros Hne. destruct ds as [|c ds]; [done|clear Hne].
  revert c val digLen first prev_dot.
  induction ds as [|c' ds IH]; intros c val digLen first prev_dot;
    cbn [run_digits]; destruct (_ && _ && _) eqn:H; try done;
    apply andb_true_iff in H as [[Hc Hlead%negb_true_iff]%andb_true_iff Hlt%N.ltb_lt];
    intros Hrun; rewrite app_String, parseIPv4_digit by done; [by simplify_eq|].
  by apply IH.
Qed.

Lemma parseIPv4_decimal x s first prev_dot fields : x < 256 →
  ∃ n, parseIPv4_loop (decimal x +:+ s) first prev_dot 0 0 fields
       = parseIPv4_loop s false false x n fields.
Proof.
  intros Hx. exists (N.of_nat (String.length (decimal x))).
  apply run_digits_spec; [apply decimal_nonempty|].
  assert (H : all_below 256 (λ x, bool_decide (run_digits (decimal x) 0 0
    = Some (x, N.of_nat (String.length (decimal x))))) = true) by (vm_compute; done).
  by apply (all_below_spec _ _ x), bool_decide_eq_true in H.
Qed.

Lemma parseIPv4_dot c s val n fields :
  (length fields < 3)%nat → c ≠ "."%char →
  parseIPv4_loop (String "." (String c s)) false false val n fields
  = parseIPv4_loop (String c s) false true 0 0 (fields ++ [val]).
Proof.
  intros Hl Hc. cbn [parseIPv4_loop]. simpl.
  by destruct (Nat.eqb_spec (length fields) 3); [lia|].
Qed.

Lemma decimal_head (x : N) : x < 256 → ∃ c t, decimal x = String c t ∧ is_digit c = true.
Proof.
  intros Hx.
  assert (H : all_below 256 (λ x, match decimal x with
    | String c _ => is_digit c | EmptyString => false end) = true) by (vm_compute; done).
  apply (all_below_spec _ _ x) in H; [|lia]. cbv beta in H. revert H.
  destruct (decimal x); [done|eauto].
Qed.

Lemma parseIPv4_print_loop fs x first prev_dot fields :
  Forall (λ v, v < 256) (x :: fs) → (length fields + length fs = 3)%nat →
  parseIPv4_loop (print_v4 (x :: fs)) first prev_dot 0 0 fields = Some (fields ++ x :: fs).
Proof.
  revert x first prev_dot fields.
  induction fs as [|y fs IH]; intros x first prev_dot fields HF Hl;
    apply Forall_cons_1 in HF as [Hx HF].
  - change (print_v4 [x]) with (decimal x). rewrite <- (app_nil_r_string (decimal x)).
    destruct (parseIPv4_decimal x "" first prev_dot fields Hx) as [n ->].
    simpl in *. by destruct (Nat.ltb_spec (length fields) 3); [lia|].
  - rewrite print_v4_cons, app_String, app_nil_l_string.
    destruct (parseIPv4_decimal x (String "." (print_v4 (y :: fs))) first prev_dot fields Hx)
      as [n ->].
    assert (∃ c t, print_v4 (y :: fs) = String c t ∧ c ≠ "."%char) as (c & t & Hp & Hc).
    { apply Forall_cons_1 in HF as [Hy _]. destruct (decimal_head y Hy) as (c & t & Hd & Hc).
      assert (c ≠ "."%char) by (by intros ->).
      destruct fs; [exists c, t|rewrite print_v4_cons, Hd, app_String; eauto]; done. }
    rewrite Hp, parseIPv4_dot by first [done|simpl in Hl; lia]. rewrite <- Hp.
    rewrite IH by first [done|rewrite length_app; simpl in *; lia].
    by rewrite <- app_assoc.
Qed.

Lemma parseIPv4_of_print fs : length fs = 4%nat → Forall (λ v, v < 256) fs →
  parseIPv4Fields (print_v4 fs) = Some fs.
Proof.
  intros Hl HF. destruct fs as [|x fs]; [done|].
  apply (parseIPv4_print_loop fs x true false []); [done|simpl in *; lia].
Qed.

(** ** The two round trips through [net.IP] *)

Lemma net_IP_String_v4 fs : length fs = 4%nat →
  net_IP_String (v4InV6Prefix ++ fs) = print_v4 fs.
Proof. intros Hl. unfold net_IP_String. by rewrite length_app, Hl. Qed.

Fixpoint all_digits (t : string) : bool :=
  match t with EmptyString => true | String c t' => is_digit c && all_digits t' end.

Lemma first_marker_digits (t s : string) :
  all_digits t = true → first_marker (t +:+ String "." s) = Some "."%char.
Proof.
  induction t as [|c t IH]; [done|]. rewrite app_String. cbn [first_marker all_digits].
  intros [Hc Ht]%andb_true_iff.
  destruct (Ascii.eqb_spec c "."%char) as [->|]; [done|].
  destruct (Ascii.eqb_spec c ":"%char) as [->|]; [done|].
  destruct (Ascii.eqb_spec c "%"%char) as [->|]; [done|]. by apply IH.
Qed.

Lemma decimal_all_digits (x : N) : x < 256 → all_digits (decimal x) = true.
Proof.
  apply (all_below_spec 256 (λ x, all_digits (decimal x))). vm_compute. done.
Qed.

Lemma first_marker_print_v4 fs : length fs = 4%nat → Forall (λ v, v < 256) fs →
  first_marker (print_v4 fs) = Some "."%char.
Proof.
  intros Hl HF. destruct fs as [|x [|y fs]]; [done|done|].
  apply Forall_cons_1 in HF as [Hx _]. rewrite print_v4_cons, app_String, app_nil_l_string.
  by apply first_marker_digits, decimal_all_digits.
Qed.

(** Every text that parses as IPv4 is printed back unchanged. *)
Lemma ParseIP_String_v4 s fs :
  parseIPv4Fields s = Some fs →
  net_ParseIP s = v4InV6Prefix ++ fs ∧ net_IP_String (net_ParseIP s) = s.
Proof.
  intros H. destruct (parseIPv4_print s fs H) as (Hp & Hl & HF).
  assert (E : net_ParseIP s = v4InV6Prefix ++ fs).
  { unfold net_ParseIP. rewrite <- Hp at 1. rewrite first_marker_print_v4 by done.
    simpl. by rewrite H. }
  rewrite E, net_IP_String_v4 by done. done.
Qed.

(** Every IPv4 address is read back from its text. *)
Lemma String_ParseIP_v4 fs : length fs = 4%nat → Forall (λ v, v < 256) fs →
  net_ParseIP (net_IP_String (v4InV6Prefix ++ fs)) = v4InV6Prefix ++ fs.
Proof.
  intros Hl HF. rewrite net_IP_String_v4 by done.
  by apply ParseIP_String_v4, parseIPv4_of_print.
Qed.

(** ** Bounds: every parsed address has 16 bytes, and its text at most 39 *)

Abbreviation is_byte := (λ v : N, v < 256) (only parsing).

Lemma hex_val_bound c d : hex_val c = Some d → d < 16.
Proof.
  unfold hex_val. repeat case_match; intros [= <-];
    repeat match goal with
    | H : (_ && _) = true |- _ => apply andb_true_iff in H as [?%N.leb_le ?%N.leb_le]
    end; lia.
Qed.

Lemma hex_group_bound s off acc n v rest :
  hex_group s off acc = Some (n, v, rest) → (off ≤ 4)%nat → acc < 16 ^ N.of_nat off →
  v < 65536.
Proof.
  revert off acc. induction s as [|c s IH]; intros off acc; cbn [hex_group].
  2: destruct (hex_val c) as [d|] eqn:Hd.
  2: { destruct (Nat.ltb_spec 3 off); [done|]. intros Hrun Hoff Hacc. apply (IH _ _ Hrun); [lia|].
       apply hex_val_bound in Hd. rewrite Nat2N.inj_succ, N.pow_succ_r'. lia. }
  all: intros [= <- <- <-] Hoff Hacc; eapply N.lt_le_trans; [exact Hacc|];
    change 65536 with (16 ^ 4); apply N.pow_le_mono_r; lia.
Qed.

Lemma group_bytes ip v :
  Forall is_byte ip → v < 65536 → Forall is_byte (ip ++ [v / 256; v mod 256]).
Proof.
  intros Hip Hv. apply Forall_app. split; [done|]. repeat constructor.
  - apply N.Div0.div_lt_upper_bound. lia.
  - by apply N.mod_lt.
Qed.

(** Every turn of the loop of [parseIPv6] adds two bytes and the last one two or four, so
the eight units of fuel are enough and no more than 16 bytes are read. *)
Lemma parseIPv6_loop_bound fuel s ip e out e' rest :
  (length ip + 2 * fuel = 16)%nat → Forall is_byte ip →
  parseIPv6_loop fuel s ip e = Some (out, e', rest) →
  (length out ≤ 16)%nat ∧ Forall is_byte out.
Proof.
  revert s ip e. induction fuel as [|fuel IH]; intros s ip e Hlen Hip; cbn [parseIPv6_loop].
  { intros [= <- <- <-]. split; [lia|done]. }
  destruct (hex_group s 0 0) as [[[[|n] v] s1]|] eqn:Hg; [done| |done].
  pose proof (group_bytes _ _ Hip (hex_group_bound _ _ _ _ _ _ Hg ltac:(lia) ltac:(done))) as Hip'.
  assert (Hlen' : length (ip ++ [v / 256; v mod 256]) = (length ip + 2)%nat)
    by (by rewrite length_app).
  destruct s1 as [|c s2]; [intros [= <- <- <-]; split; [lia|done]|].
  destruct (Ascii.eqb c "."%char).
  { destruct (_ && _); [done|]. destruct (Nat.ltb_spec 16 (length ip + 4)); [done|].
    destruct (parseIPv4Fields s) as [v4|] eqn:Hv4; [|done]. intros [= <- <- <-].
    apply parseIPv4_print in Hv4 as (_ & Hl & Hb). rewrite length_app, Hl.
    split; [lia|by apply Forall_app]. }
  destruct (negb _); [done|]. destruct s2 as [|c2 s3]; [done|].
  destruct (Ascii.eqb c2 ":"%char); [destruct (is_some e); [done|]; destruct s3 as [|c3 s3]|].
  - intros [= <- <- <-]. split; [lia|done].
  - apply IH; [lia|done].
  - apply IH; [lia|done].
Qed.

Lemma parseIPv6_bound s ip :
  parseIPv6 s = Some ip → length ip = 16%nat ∧ Forall is_byte ip.
Proof.
  unfold parseIPv6. destruct (match s with EmptyString => _ | _ => _ end) as [ell s0].
  destruct (is_some ell && is_empty s0).
  { intros [= <-]. split; [done|by repeat constructor]. }
  destruct (parseIPv6_loop 8 s0 [] ell) as [[[out e] rest]|] eqn:Hl; [|done].
  apply parseIPv6_loop_bound in Hl as [Hlen Hb]; [|done|done].
  destruct (negb _); [done|]. destruct (Nat.ltb_spec (length out) 16) as [Hlt|Hge].
  - destruct e as [e|]; [|done]. intros [= <-]. split.
    + rewrite !length_app, length_replicate.
      assert (length (take e out) + length (drop e out) = length out)%nat
        by (by rewrite <- length_app, take_drop). lia.
    + repeat apply Forall_app_2; [by apply Forall_take|by apply Forall_replicate|by apply Forall_drop].
  - destruct e; [done|]. intros [= <-]. split; [lia|done].
Qed.

Lemma ParseIP_bound s :
  (net_ParseIP s = [] ∨ length (net_ParseIP s) = 16%nat) ∧ Forall is_byte (net_ParseIP s).
Proof.
  unfold net_ParseIP. destruct (first_marker s) as [c|]; [|by split; [left|]].
  destruct (Ascii.eqb c "."%char).
  { destruct (parseIPv4Fields s) as [v4|] eqn:Hv4; [|by split; [left|]].
    apply parseIPv4_print in Hv4 as (_ & Hl & Hb). split; [right; by rewrite length_app, Hl|].
    apply Forall_app_2; [|done]. by repeat constructor. }
  destruct (Ascii.eqb c ":"%char); [|by split; [left|]].
  destruct (has_byte "%"%char s); [by split; [left|]|].
  destruct (parseIPv6 s) as [ip|] eqn:Hip; [|by split; [left|]].
  apply parseIPv6_bound in Hip as [Hl Hb]. by split; [right|].
Qed.

Lemma Join_length xs sep m :
  Forall (λ x, (String.length x ≤ m)%nat) xs →
  (String.length (strings_Join xs sep) ≤ length xs * m + pred (length xs) * String.length sep)%nat.
Proof.
  induction 1 as [|x xs Hx Hxs IH]; [done|]. destruct xs as [|y xs]; [simpl; lia|].
  change (strings_Join (x :: y :: xs) sep) with (x +:+ sep +:+ strings_Join (y :: xs) sep).
  rewrite !length_app_string. simpl length in *. simpl pred in *. lia.
Qed.

Lemma decimal_bound x : (String.length (decimal x) ≤ 3)%nat.
Proof.
  unfold decimal. rewrite !length_app_string. by destruct (100 <=? x), (10 <=? x); simpl; lia.
Qed.

Lemma hexadecimal_bound x : (String.length (hexadecimal x) ≤ 4)%nat.
Proof.
  unfold hexadecimal. rewrite !length_app_string.
  by destruct (0x1000 <=? x), (0x100 <=? x), (0x10 <=? x); simpl; lia.
Qed.

Lemma print_v4_bound ip : length ip = 4%nat → (String.length (print_v4 ip) ≤ 15)%nat.
Proof.
  intros Hl. unfold print_v4. etrans; [apply (Join_length _ _ 3)|].
  - apply Forall_fmap, Forall_true. intros x. apply decimal_bound.
  - by rewrite length_fmap, Hl.
Qed.

Lemma groups_length ip : length (groups ip) = (length ip / 2)%nat.
Proof.
  induction ip as [ip IH] using (induction_ltof1 _ length). unfold ltof in IH.
  destruct ip as [|hi [|lo ip]]; [done|done|]. cbn [groups length].
  rewrite IH by (simpl; lia). replace (S (S (length ip))) with (length ip + 1 * 2)%nat by lia.
  rewrite Nat.div_add by lia. lia.
Qed.

Lemma zero_run_length gs : (zero_run gs ≤ length gs)%nat.
Proof. induction gs as [|g gs IH]; simpl; [done|]. destruct (g =? 0); lia. Qed.

Lemma longest_run_inside gs i best :
  (best.1 + best.2 ≤ i + length gs)%nat →
  ((longest_run gs i best).1 + (longest_run gs i best).2 ≤ i + length gs)%nat.
Proof.
  revert i best. induction gs as [|g gs IH]; intros i best Hb; [done|]. cbn [longest_run].
  pose proof (zero_run_length (g :: gs)) as Hz. simpl length in *.
  replace (i + S (length gs))%nat with (S i + length gs)%nat by lia.
  apply IH. destruct (_ && _); [|lia]. cbn [fst snd]. lia.
Qed.

Lemma hex_Join_length gs :
  (String.length (strings_Join (hexadecimal <$> gs) ":") ≤ length gs * 4 + pred (length gs))%nat.
Proof.
  etrans; [apply (Join_length _ _ 4)|rewrite length_fmap; simpl; lia].
  apply Forall_fmap, Forall_true. intros x. apply hexadecimal_bound.
Qed.

Lemma print_v6_bound ip : length ip = 16%nat → (String.length (print_v6 ip) ≤ 39)%nat.
Proof.
  intros Hl. unfold print_v6. pose proof (groups_length ip) as Hg. rewrite Hl in Hg.
  change (16 / 2)%nat with 8%nat in Hg.
  pose proof (longest_run_inside (groups ip) 0 (0, 0)%nat) as Hr.
  destruct (longest_run (groups ip) 0 (0, 0)%nat) as [start len]. simpl fst in Hr. simpl snd in Hr.
  destruct (Nat.eqb_spec len 0).
  { pose proof (hex_Join_length (groups ip)). lia. }
  rewrite !length_app_string. pose proof (hex_Join_length (take start (groups ip))) as H1.
  pose proof (hex_Join_length (drop (start + len) (groups ip))) as H2.
  rewrite length_take in H1. rewrite length_drop in H2. simpl (String.length "::"). lia.
Qed.

Lemma ParseIP_String_bound s : (String.length (net_IP_String (net_ParseIP s)) ≤ 39)%nat.
Proof.
  destruct (ParseIP_bound s) as [[->|Hl] _]; [simpl; lia|]. unfold net_IP_String. rewrite Hl.
  simpl Nat.eqb. cbv iota. case_bool_decide; [|by apply print_v6_bound].
  etrans; [apply print_v4_bound; by rewrite length_drop, Hl|lia].
Qed.
