(* ===== verification/Api.v ===== *)
(** * Kubernetes, Cluster API and Azure objects, and the libraries behind them.

The records hold the fields of the API types that the operator reads or writes;
the classes hold the library functions it calls, with what it relies on as laws.
Field accessors of the object metadata ([GetAnnotations], [SetAnnotations],
[GetConditions], [SetConditions]) are read as the struct fields they access. *)
From S2P Require Import Prelude.
From S2P Require Import GoStrings.

(** ** Object metadata *)

Record NamespacedName := { nn_Namespace : string; nn_Name : string }.

#[export] Instance NamespacedName_eq_dec : EqDecision NamespacedName.
Proof. solve_decision. Defined.

#[export] Instance NamespacedName_countable : Countable NamespacedName.
Proof.
  refine (inj_countable' (λ n, (nn_Namespace n, nn_Name n)) (λ '(ns, n), Build_NamespacedName ns n) _).
  by intros [].
Defined.

(** A [metav1.Time]: a number for each value of the Go struct.  The operator only copies
it, compares it by [reflect.DeepEqual], and asks whether it is zero. *)
Abbreviation Time := Z (only parsing).

Record OwnerReference := {
  or_APIVersion : string;
  or_Kind : string;
  or_Name : string;
  or_Controller : option bool
}.

(** [Annotations] is a Go map: [None] is the nil map. *)
Record ObjectMeta := {
  Namespace : string;
  Name : string;
  Annotations : option (gmap string string);
  Finalizers : list string;
  OwnerReferences : list OwnerReference;
  DeletionTimestamp : option Time
}.

Definition set_Annotations (a : option (gmap string string)) (m : ObjectMeta) : ObjectMeta :=
  {| Namespace := Namespace m; Name := Name m; Annotations := a; Finalizers := Finalizers m;
     OwnerReferences := OwnerReferences m; DeletionTimestamp := DeletionTimestamp m |}.

Definition set_Finalizers (f : list string) (m : ObjectMeta) : ObjectMeta :=
  {| Namespace := Namespace m; Name := Name m; Annotations := Annotations m; Finalizers := f;
     OwnerReferences := OwnerReferences m; DeletionTimestamp := DeletionTimestamp m |}.

Record ObjectReference := { ref_Kind : string; ref_Namespace : string; ref_Name : string }.

(** [annotations[key] = value] on a map made if it is nil. *)
Definition annotate (key value : string) (a : option (gmap string string)) :
    option (gmap string string) :=
  Some (<[key := value]> (default ∅ a)).

(** ** Conditions ([capi v1beta1]) *)

Record Condition := {
  Type_ : string;
  Status : string;
  Severity : string;
  Reason : string;
  Message : string;
  LastTransitionTime : Time
}.

#[export] Instance Condition_eq_dec : EqDecision Condition.
Proof. solve_decision. Defined.

Definition Condition_eqb (a b : Condition) : bool :=
  String.eqb (Type_ a) (Type_ b) && String.eqb (Status a) (Status b) &&
  String.eqb (Severity a) (Severity b) && Z.eqb (LastTransitionTime a) (LastTransitionTime b) &&
  String.eqb (Reason a) (Reason b) && String.eqb (Message a) (Message b).

Lemma Condition_eqb_spec a b : Condition_eqb a b = true ↔ a = b.
Proof.
  unfold Condition_eqb. rewrite !andb_true_iff, !String.eqb_eq, Z.eqb_eq.
  split; [|by intros ->]. destruct a, b; simpl. intros (((((-> & ->) & ->) & ->) & ->) & ->). done.
Qed.

Definition ConditionTrue : string := "True".

(** ** AzureCluster ([capz v1beta1]) *)

Record PrivateLinkServiceConnection := {
  plsc_Name : string;
  PrivateLinkServiceID : string;
  RequestMessage : string
}.

Record PrivateEndpointSpec := {
  pe_Name : string;
  pe_Location : string;
  PrivateLinkServiceConnections : list PrivateLinkServiceConnection;
  ManualApproval : bool
}.

Record SubnetSpec := {
  sn_Name : string;
  Role : string;
  PrivateEndpoints : list PrivateEndpointSpec
}.

Record PrivateLink := {
  pl_Name : string;
  AllowedSubscriptions : list (option string);
  AutoApprovedSubscriptions : list (option string)
}.

Definition zero_PrivateLink : PrivateLink :=
  {| pl_Name := ""; AllowedSubscriptions := []; AutoApprovedSubscriptions := [] |}.

Record LoadBalancerSpec := { lb_Type : string; PrivateLinks : list PrivateLink }.

Record NetworkSpec := {
  APIServerLB : option LoadBalancerSpec;
  Subnets : list SubnetSpec
}.

Record AzureClusterSpec := {
  SubscriptionID : string;
  Location : string;
  ResourceGroup : string;
  IdentityRef : option ObjectReference;
  NetworkSpec_ : NetworkSpec
}.

Record AzureCluster := {
  ac_meta : ObjectMeta;
  ac_Spec : AzureClusterSpec;
  Conditions : slice Condition
}.

#[export] Instance PrivateLinkServiceConnection_eq_dec : EqDecision PrivateLinkServiceConnection.
Proof. solve_decision. Defined.
#[export] Instance PrivateEndpointSpec_eq_dec : EqDecision PrivateEndpointSpec.
Proof. solve_decision. Defined.
#[export] Instance SubnetSpec_eq_dec : EqDecision SubnetSpec.
Proof. solve_decision. Defined.

Definition set_PrivateEndpoints (es : list PrivateEndpointSpec) (s : SubnetSpec) : SubnetSpec :=
  {| sn_Name := sn_Name s; Role := Role s; PrivateEndpoints := es |}.

Definition set_Subnets (sns : list SubnetSpec) (c : AzureCluster) : AzureCluster :=
  let sp := ac_Spec c in
  {| ac_meta := ac_meta c;
     ac_Spec :=
       {| SubscriptionID := SubscriptionID sp; Location := Location sp;
          ResourceGroup := ResourceGroup sp; IdentityRef := IdentityRef sp;
          NetworkSpec_ :=
            {| APIServerLB := APIServerLB (NetworkSpec_ sp); Subnets := sns |} |};
     Conditions := Conditions c |}.

Definition set_meta (m : ObjectMeta) (c : AzureCluster) : AzureCluster :=
  {| ac_meta := m; ac_Spec := ac_Spec c; Conditions := Conditions c |}.

Definition set_Conditions (cs : slice Condition) (c : AzureCluster) : AzureCluster :=
  {| ac_meta := ac_meta c; ac_Spec := ac_Spec c; Conditions := cs |}.

Definition ac_Name (c : AzureCluster) : string := Name (ac_meta c).
Definition ac_Namespace (c : AzureCluster) : string := Namespace (ac_meta c).
Definition ac_Subnets (c : AzureCluster) : list SubnetSpec := Subnets (NetworkSpec_ (ac_Spec c)).
Definition cluster_name (c : AzureCluster) : NamespacedName :=
  {| nn_Namespace := ac_Namespace c; nn_Name := ac_Name c |}.
Definition ac_APIServerLB (c : AzureCluster) : option LoadBalancerSpec :=
  APIServerLB (NetworkSpec_ (ac_Spec c)).

(** Published constants of the two APIs. *)
Definition Internal : string := "Internal".
Definition Public : string := "Public".
Definition SubnetNode : string := "node".
Definition PrivateLinksReadyCondition : string := "PrivateLinksReady".
Definition PausedAnnotation : string := "cluster.x-k8s.io/paused".
Definition AzureClusterKind : string := "AzureCluster".
Definition AzureASOManagedClusterKind : string := "AzureASOManagedCluster".
Definition AzureManagedClusterKind : string := "AzureManagedCluster".
Definition AzureClusterIdentityKind : string := "AzureClusterIdentity".
Definition UserAssignedMSI : string := "UserAssignedMSI".
Definition ManualServicePrincipal : string := "ManualServicePrincipal".
Definition WorkloadIdentity : string := "WorkloadIdentity".

(** ** The other objects the operator reads *)

Record AzureClusterIdentity := {
  id_Type : string;
  id_TenantID : string;
  id_ClientID : string;
  id_ClientSecret_Namespace : string;
  id_ClientSecret_Name : string
}.

(** [Data] of a secret; reading an absent key of a Go map gives the zero value. *)
Record Secret := { Data : gmap string string }.

Definition secret_get (s : Secret) (key : string) : string := default "" (Data s !! key).

Record ContractVersionedObjectReference := {
  cref_APIGroup : string;
  cref_Kind : string;
  cref_Name : string
}.

Record Cluster := {
  cl_meta : ObjectMeta;
  cl_Paused : option bool;
  cl_InfrastructureRef : ContractVersionedObjectReference;
  cl_ControlPlaneRef : ContractVersionedObjectReference
}.

Definition cl_set_meta (m : ObjectMeta) (c : Cluster) : Cluster :=
  {| cl_meta := m; cl_Paused := cl_Paused c; cl_InfrastructureRef := cl_InfrastructureRef c;
     cl_ControlPlaneRef := cl_ControlPlaneRef c |}.

Record KubeadmControlPlane := {
  kcp_meta : ObjectMeta;
  ControlPlaneInitialized : option bool
}.

Definition kcp_set_meta (m : ObjectMeta) (k : KubeadmControlPlane) : KubeadmControlPlane :=
  {| kcp_meta := m; ControlPlaneInitialized := ControlPlaneInitialized k |}.

(** A [runtime.RawExtension]: its bytes. *)
Record AzureASOManagedControlPlane := { aso_Resources : list string }.

Record AzureManagedControlPlane := {
  amcp_IdentityRef : option ObjectReference;
  amcp_SubscriptionID : string
}.

(** A value of a JSON-like [map[string]any]. *)
#[warnings="-register-all"]
Inductive any : Type :=
  | AnyString (s : string)
  | AnyMap (m : list (string * any)).

(** An [unstructured.Unstructured]: type, name, annotations and the ["spec"] entry. *)
Record Unstructured := {
  u_Group : string;
  u_Version : string;
  u_Kind : string;
  u_Name : string;
  u_Annotations : gmap string string;
  u_spec : option any
}.

(** The kinds of object passed to the Cluster API patch helper. *)
Inductive Object : Type :=
  | ObjAzureCluster (c : AzureCluster)
  | ObjKubeadmControlPlane (k : KubeadmControlPlane).

(** ** Controller results *)

(** [ctrl.Result]; durations in nanoseconds. *)
Record Result := { RequeueAfter : Z }.
Definition no_result : Result := {| RequeueAfter := 0 |}.
Definition Minute : Z := 60 * 1000000000.

(** ** Azure network API *)

Record GetOptions := { Expand : option string }.

(** [Properties] of an IP configuration, with its [PrivateIPAddress] pointer. *)
Record InterfaceIPConfiguration := { ipc_Properties : option (option string) }.

(** [Properties] of a network interface, with its [IPConfigurations] slice (a nil
slice has no elements). *)
Record Interface := { if_Properties : option (list (option InterfaceIPConfiguration)) }.

(** [Properties] of a private endpoint, with its [NetworkInterfaces] slice. *)
Record PrivateEndpoint := { pep_Properties : option (list (option Interface)) }.

(** ** Library interfaces

Library functions that act on the world have type [IO W]. *)

Record PrivateEndpointsClient (W : Type) := {
  pec_Get : string → string → GetOptions → IO W (result errval PrivateEndpoint)
}.
Arguments pec_Get {W} _ _ _ _ _.

(** [client.Client] of controller-runtime. *)
Record Client (W : Type) := {
  Get_AzureCluster : NamespacedName → IO W (result errval AzureCluster);
  Get_KubeadmControlPlane : NamespacedName → IO W (result errval KubeadmControlPlane);
  Get_Cluster : NamespacedName → IO W (result errval Cluster);
  Get_AzureClusterIdentity : NamespacedName → IO W (result errval AzureClusterIdentity);
  Get_Secret : NamespacedName → IO W (result errval Secret);
  Get_AzureASOManagedControlPlane :
    NamespacedName → IO W (result errval AzureASOManagedControlPlane);
  Get_AzureManagedControlPlane :
    NamespacedName → IO W (result errval AzureManagedControlPlane);
  (** [Patch(ctx, obj, client.MergeFrom(orig))]: the object and the original *)
  Patch_Cluster : Cluster → Cluster → IO W error;
  Delete_Unstructured : Unstructured → IO W error
}.
Arguments Get_AzureCluster {W} _ _ _.
Arguments Get_KubeadmControlPlane {W} _ _ _.
Arguments Get_Cluster {W} _ _ _.
Arguments Get_AzureClusterIdentity {W} _ _ _.
Arguments Get_Secret {W} _ _ _.
Arguments Get_AzureASOManagedControlPlane {W} _ _ _.
Arguments Get_AzureManagedControlPlane {W} _ _ _.
Arguments Patch_Cluster {W} _ _ _ _.
Arguments Delete_Unstructured {W} _ _ _.

(** [github.com/giantswarm/microerror]. *)
Class Microerror := {
  Mask : errval → errval;
  Maskf : errval → string → errval;
  Cause : error → error;
  Cause_nil : Cause None = None;
  Cause_Maskf : ∀ kind msg, Cause (Some (Maskf (MicroErr kind) msg)) = Some (MicroErr kind);
  Cause_Mask : ∀ e, Cause (Some (Mask e)) = Cause (Some e);
  Cause_root : ∀ e, errors_Unwrap e = [] → Cause (Some e) = Some e
}.

(** [fmt]'s rendering of an SDK structure, which shows pointer values. *)
Class FmtVerbs := { fmt_v_PrivateEndpoint : PrivateEndpoint → string }.

(** [k8s.io/apimachinery]. *)
Class ApiMachinery := {
  NamespacedName_String : NamespacedName → string;
  Time_IsZero : option Time → bool;
  IsNotFound : errval → bool;
  IsNoMatchError : errval → bool;
  Time_IsZero_nil : Time_IsZero None = true
}.

(** [sigs.k8s.io/controller-runtime/pkg/controller/controllerutil]. *)
Class ControllerUtil (W : Type) := {
  ContainsFinalizer : ObjectMeta → string → bool;
  AddFinalizer : ObjectMeta → string → ObjectMeta * bool;
  RemoveFinalizer : ObjectMeta → string → ObjectMeta * bool;
  HasControllerReference : ObjectMeta → bool;
  CreateOrPatch : Client W → Unstructured → (Unstructured → Unstructured) → IO W error
}.

(** What the operator relies on of the finalizer helpers. *)
Class ControllerUtilLaws (W : Type) `{ControllerUtil W} := {
  ContainsFinalizer_spec : ∀ m f, ContainsFinalizer m f = bool_decide (f ∈ Finalizers m);
  AddFinalizer_spec : ∀ m f, AddFinalizer m f =
    if bool_decide (f ∈ Finalizers m) then (m, false)
    else (set_Finalizers (Finalizers m ++ [f]) m, true);
  RemoveFinalizer_spec : ∀ m f, RemoveFinalizer m f =
    if bool_decide (f ∈ Finalizers m)
    then (set_Finalizers (filter (λ g, g ≠ f) (Finalizers m)) m, true)
    else (m, false)
}.

(** [sigs.k8s.io/cluster-api/util] and its subpackages. *)
Class ClusterApiUtil (W : Type) := {
  conditions_IsTrue : slice Condition → string → bool;
  GetOwnerCluster : Client W → ObjectMeta → IO W (result errval (option Cluster));
  IsDefined : ContractVersionedObjectReference → bool;
  PatchHelper : Type;
  patch_NewHelper : Client W → Object → IO W (result errval PatchHelper);
  patch_Patch : PatchHelper → Object → IO W error
}.

(** The first condition of a type decides whether it is true. *)
Fixpoint first_status (cs : list Condition) (t : string) : option string :=
  match cs with
  | [] => None
  | c :: cs' => if String.eqb (Type_ c) t then Some (Status c) else first_status cs' t
  end.

Class ConditionsLaws (W : Type) `{ClusterApiUtil W} := {
  conditions_IsTrue_spec : ∀ cs t,
    conditions_IsTrue cs t = bool_decide (first_status (elems cs) t = Some ConditionTrue)
}.

(** ** The API server's store of AzureClusters

What the invariants of the operator rely on: an object is stored under its name; a
read returns the stored object; a patch touches no object but the one its helper was
made for, and leaves there the object it was or, in part or whole, what was sent
(nothing, when the patch released the last finalizer of a deleted object). *)
Class Storage (W : Type) `{ClusterApiUtil W} (client : Client W) := {
  stored : W → NamespacedName → option AzureCluster;
  helper_key : PatchHelper → NamespacedName;
  stored_name : ∀ w k c, stored w k = Some c → cluster_name c = k;
  Get_stored : ∀ k w, ∀ k', stored (Get_AzureCluster client k w).2 k' = stored w k';
  Get_Ok : ∀ k w c, (Get_AzureCluster client k w).1 = Ok c → stored w k = Some c;
  NewHelper_stored : ∀ o w k, stored (patch_NewHelper client o w).2 k = stored w k;
  NewHelper_key : ∀ c w h,
    (patch_NewHelper client (ObjAzureCluster c) w).1 = Ok h → helper_key h = cluster_name c;
  Patch_others : ∀ h o w k, k ≠ helper_key h → stored (patch_Patch h o w).2 k = stored w k;
  Patch_key : ∀ h c w c', stored (patch_Patch h (ObjAzureCluster c) w).2 (helper_key h) = Some c' →
    stored w (helper_key h) = Some c' ∨ ac_Spec c' = ac_Spec c
}.

(** Two worlds with the same AzureClusters. *)
Definition same_clusters `{Storage W client} (w w' : W) : Prop := ∀ k, stored w' k = stored w k.
