(* ===== verification/Manager.v ===== *)
(** * controller-runtime: managers, watches and predicates.

The part of controller-runtime that the start-up of the operator calls.  The manager
is a parameter; a controller is registered with the value that the builder collects:
the kind it is for, its other watches, and its reconciler. *)
From S2P Require Import Prelude.
From S2P Require Import GoStrings.
From S2P Require Import Api.

(** The API kinds that controllers are built for. *)
Inductive Kind : Type :=
  | KindAzureCluster
  | KindKubeadmControlPlane
  | KindCluster.

#[export] Instance Kind_eq_dec : EqDecision Kind.
Proof. solve_decision. Defined.

(** Events of package [event]; the objects are interface values, nil being [None]. *)
Inductive Event : Type :=
  | CreateEvent (Object : option Object)
  | UpdateEvent (ObjectOld ObjectNew : option Object)
  | DeleteEvent (Object : option Object)
  | GenericEvent (Object : option Object).

(** [predicate.Funcs] with all four functions set. *)
Record Funcs := {
  UpdateFunc : option Object → option Object → bool;
  CreateFunc : option Object → bool;
  DeleteFunc : option Object → bool;
  GenericFunc : option Object → bool
}.

Definition passes (p : Funcs) (e : Event) : bool :=
  match e with
  | CreateEvent o => CreateFunc p o
  | UpdateEvent old new => UpdateFunc p old new
  | DeleteEvent o => DeleteFunc p o
  | GenericEvent o => GenericFunc p o
  end.

(** [Watches(kind, EnqueueRequestsFromMapFunc(map), WithPredicates(predicate))]. *)
Record Watch (W : Type) := {
  watch_Kind : Kind;
  watch_MapFunc : Object → M W (list NamespacedName);
  watch_Predicate : Funcs
}.
Arguments watch_Kind {W} _.
Arguments watch_MapFunc {W} _ _.
Arguments watch_Predicate {W} _.

(** [NewControllerManagedBy(mgr).For(kind).Watches(...).Complete(reconciler)]. *)
Record Registration (W : Type) := {
  reg_For : Kind;
  reg_Watches : list (Watch W);
  reg_Reconciler : NamespacedName → M W (Result * error)
}.
Arguments reg_For {W} _.
Arguments reg_Watches {W} _.
Arguments reg_Reconciler {W} _ _.

(** The fields of [ctrl.Options] that are set. *)
Record Options := {
  MetricsBindAddress : string;
  WebhookPort : Z;
  HealthProbeBindAddress : string;
  LeaderElection : bool;
  LeaderElectionID : string;
  SyncPeriod : Z
}.

(** The packages whose types are added to the scheme. *)
Inductive SchemePackage : Type :=
  | clientgoscheme
  | capiv1beta1
  | capi
  | capz
  | kcp.

Class Manager (W : Type) := {
  RestConfig : Type;
  manager : Type;
  AddToScheme : SchemePackage → IO W error;
  (** [utilruntime.Must], of the error that a call returns. *)
  Must : IO W error → M W unit;
  (** [None] when the process exits. *)
  GetConfigOrDie : IO W (option RestConfig);
  NewManager : RestConfig → Options → IO W (result errval manager);
  GetClient : manager → Client W;
  Complete : manager → Registration W → IO W error;
  AddHealthzCheck : manager → string → IO W error;
  AddReadyzCheck : manager → string → IO W error;
  (** [Start] returns when the process is told to stop. *)
  Start : manager → IO W error
}.
