(* ===== verification/Concrete.v ===== *)
(** * Concrete libraries and a small cloud, for runs of the model.

One possible implementation of each library interface, satisfying its laws, over
a world that is a set of stored objects.  Nothing depends on this file except the
concrete runs that show the theorems at work. *)
From S2P Require Import Prelude.
From S2P Require Import GoStrings.
From S2P Require Import Api.

Module Concrete.

(** [Mask] and [Maskf] wrap; [Cause] follows single wrappings to the root. *)
Fixpoint root_cause (e : errval) : errval :=
  match e with
  | LibErr _ [w] => root_cause w
  | _ => e
  end.

Lemma root_cause_root e : errors_Unwrap e = [] → root_cause e = e.
Proof. destruct e; simpl; try done. by intros ->. Qed.

Definition cause (e : error) : error :=
  match e with Some e => Some (root_cause e) | None => None end.

Definition microerror : Microerror := {|
  Mask e := LibErr "masked" [e];
  Maskf k msg := LibErr msg [k];
  Cause := cause;
  Cause_nil := eq_refl;
  Cause_Maskf _ _ := eq_refl;
  Cause_Mask _ := eq_refl;
  Cause_root e He := f_equal Some (root_cause_root e He)
|}.

Definition fmtVerbs : FmtVerbs := {| fmt_v_PrivateEndpoint _ := "{...}" |}.

Definition notFound : errval := LibErr "not found" [].

Definition apiMachinery : ApiMachinery := {|
  NamespacedName_String n := nn_Namespace n +:+ "/" +:+ nn_Name n;
  Time_IsZero t := match t with Some t => Z.eqb t 0 | None => true end;
  IsNotFound e := match e with LibErr t _ => String.eqb t "not found" | _ => false end;
  IsNoMatchError e := match e with LibErr t _ => String.eqb t "no match" | _ => false end;
  Time_IsZero_nil := eq_refl
|}.

Definition controllerUtil (W : Type)
    (createOrPatch : Unstructured → (Unstructured → Unstructured) → IO W error) :
    ControllerUtil W := {|
  ContainsFinalizer m f := bool_decide (f ∈ Finalizers m);
  AddFinalizer m f :=
    if bool_decide (f ∈ Finalizers m) then (m, false)
    else (set_Finalizers (Finalizers m ++ [f]) m, true);
  RemoveFinalizer m f :=
    if bool_decide (f ∈ Finalizers m)
    then (set_Finalizers (filter (λ g, g ≠ f) (Finalizers m)) m, true)
    else (m, false);
  HasControllerReference m :=
    existsb (λ r, default false (or_Controller r)) (OwnerReferences m);
  CreateOrPatch _ := createOrPatch
|}.

Lemma controllerUtil_laws W cop : @ControllerUtilLaws W (controllerUtil W cop).
Proof. by split. Qed.

(** ** The world *)

(** Stored objects by name; private endpoints known to Azure by name; [broken]
lists the objects whose patches the API server refuses. *)
Record World := {
  clusters : gmap NamespacedName AzureCluster;
  control_planes : gmap NamespacedName KubeadmControlPlane;
  capi_clusters : gmap NamespacedName Cluster;
  identities : gmap NamespacedName AzureClusterIdentity;
  secrets : gmap NamespacedName Secret;
  aso_control_planes : gmap NamespacedName AzureASOManagedControlPlane;
  managed_control_planes : gmap NamespacedName AzureManagedControlPlane;
  provider_configs : gmap string Unstructured;
  azure_endpoints : gmap string PrivateEndpoint;
  broken : list NamespacedName
}.

Definition empty_world : World := {|
  clusters := ∅; control_planes := ∅; capi_clusters := ∅; identities := ∅; secrets := ∅;
  aso_control_planes := ∅; managed_control_planes := ∅; provider_configs := ∅;
  azure_endpoints := ∅; broken := []
|}.

Definition set_clusters (m : gmap NamespacedName AzureCluster) (w : World) : World := {|
  clusters := m; control_planes := control_planes w; capi_clusters := capi_clusters w;
  identities := identities w; secrets := secrets w; aso_control_planes := aso_control_planes w;
  managed_control_planes := managed_control_planes w; provider_configs := provider_configs w;
  azure_endpoints := azure_endpoints w; broken := broken w
|}.

Definition set_control_planes (m : gmap NamespacedName KubeadmControlPlane) (w : World) : World := {|
  clusters := clusters w; control_planes := m; capi_clusters := capi_clusters w;
  identities := identities w; secrets := secrets w; aso_control_planes := aso_control_planes w;
  managed_control_planes := managed_control_planes w; provider_configs := provider_configs w;
  azure_endpoints := azure_endpoints w; broken := broken w
|}.

Definition set_capi_clusters (m : gmap NamespacedName Cluster) (w : World) : World := {|
  clusters := clusters w; control_planes := control_planes w; capi_clusters := m;
  identities := identities w; secrets := secrets w; aso_control_planes := aso_control_planes w;
  managed_control_planes := managed_control_planes w; provider_configs := provider_configs w;
  azure_endpoints := azure_endpoints w; broken := broken w
|}.

Definition set_provider_configs (m : gmap string Unstructured) (w : World) : World := {|
  clusters := clusters w; control_planes := control_planes w; capi_clusters := capi_clusters w;
  identities := identities w; secrets := secrets w; aso_control_planes := aso_control_planes w;
  managed_control_planes := managed_control_planes w; provider_configs := m;
  azure_endpoints := azure_endpoints w; broken := broken w
|}.

Definition get_from {A} (f : World → gmap NamespacedName A) (n : NamespacedName) :
    IO World (result errval A) := λ w,
  (match f w !! n with Some a => Ok a | None => Err notFound end, w).

Definition meta_name (m : ObjectMeta) : NamespacedName :=
  {| nn_Namespace := Namespace m; nn_Name := Name m |}.

(** Clusters and control planes are found under their own names only. *)
Definition named {A} (f : World → gmap NamespacedName A) (name : A → NamespacedName) (w : World)
    (k : NamespacedName) : option A :=
  match f w !! k with
  | Some a => if decide (name a = k) then Some a else None
  | None => None
  end.

Definition get_named {A} (f : World → gmap NamespacedName A) (name : A → NamespacedName)
    (n : NamespacedName) : IO World (result errval A) := λ w,
  (match named f name w n with Some a => Ok a | None => Err notFound end, w).

Lemma named_name {A} (f : World → gmap NamespacedName A) name w k a :
  named f name w k = Some a → name a = k.
Proof.
  unfold named. destruct (f w !! k) as [b|]; [|done].
  destruct (decide (name b = k)); [by intros [= <-]|done].
Qed.

Lemma get_named_Ok {A} (f : World → gmap NamespacedName A) name w k a :
  (get_named f name k w).1 = Ok a → named f name w k = Some a.
Proof. unfold get_named. destruct (named f name w k); simpl; congruence. Qed.

(** AzureClusters too. *)
Definition stored (w : World) (k : NamespacedName) : option AzureCluster :=
  match clusters w !! k with
  | Some c => if decide (cluster_name c = k) then Some c else None
  | None => None
  end.

Definition get_cluster (k : NamespacedName) : IO World (result errval AzureCluster) := λ w,
  (match stored w k with Some c => Ok c | None => Err notFound end, w).

Definition refused : errval := LibErr "refused" [].

Definition client : Client World := {|
  Get_AzureCluster := get_cluster;
  Get_KubeadmControlPlane := get_named control_planes (λ k, meta_name (kcp_meta k));
  Get_Cluster := get_named capi_clusters (λ c, meta_name (cl_meta c));
  Get_AzureClusterIdentity := get_from identities;
  Get_Secret := get_from secrets;
  Get_AzureASOManagedControlPlane := get_from aso_control_planes;
  Get_AzureManagedControlPlane := get_from managed_control_planes;
  Patch_Cluster obj _ w :=
    let n := meta_name (cl_meta obj) in
    if bool_decide (n ∈ broken w) then (Some refused, w)
    else (None, set_capi_clusters (<[n := obj]> (capi_clusters w)) w);
  Delete_Unstructured u w :=
    match provider_configs w !! u_Name u with
    | Some _ => (None, set_provider_configs (delete (u_Name u) (provider_configs w)) w)
    | None => (Some notFound, w)
    end
|}.

Definition object_name (o : Object) : NamespacedName :=
  match o with
  | ObjAzureCluster c => meta_name (ac_meta c)
  | ObjKubeadmControlPlane k => meta_name (kcp_meta k)
  end.

(** Patching stores the object; the helper remembers whose patch it is. *)
Definition put (h : NamespacedName) (o : Object) (w : World) : World :=
  match o with
  | ObjAzureCluster c => set_clusters (<[h := c]> (clusters w)) w
  | ObjKubeadmControlPlane k => set_control_planes (<[h := k]> (control_planes w)) w
  end.

Definition patch (h : NamespacedName) (o : Object) : IO World error := λ w,
  if bool_decide (h ∈ broken w) then (Some refused, w) else (None, put h o w).

(** The owner of kind Cluster, if any. *)
Definition owner_cluster (c : Client World) (m : ObjectMeta) :
    IO World (result errval (option Cluster)) :=
  match list_find (λ r, or_Kind r = "Cluster") (OwnerReferences m) with
  | None => io_pure (Ok None)
  | Some (_, r) => λ w,
      match Get_Cluster c {| nn_Namespace := Namespace m; nn_Name := or_Name r |} w with
      | (Ok cl, w') => (Ok (Some cl), w')
      | (Err e, w') => (Err e, w')
      end
  end.

Definition clusterApiUtil : ClusterApiUtil World := {|
  conditions_IsTrue cs t := bool_decide (first_status (elems cs) t = Some ConditionTrue);
  GetOwnerCluster := owner_cluster;
  IsDefined r := negb (String.eqb (cref_Name r) "");
  PatchHelper := NamespacedName;
  patch_NewHelper _ o := io_pure (Ok (object_name o));
  patch_Patch := patch
|}.

Lemma conditions_laws : @ConditionsLaws World clusterApiUtil.
Proof. by split. Qed.

Lemma stored_cluster_name w k c : stored w k = Some c → cluster_name c = k.
Proof.
  unfold stored. destruct (clusters w !! k) as [d|]; [|done].
  destruct (decide (cluster_name d = k)); [by intros [= <-]|done].
Qed.

Lemma put_others h o w k : k ≠ h → stored (put h o w) k = stored w k.
Proof.
  intros Hk. destruct o; [|done]. unfold stored. simpl. by rewrite lookup_insert_ne by congruence.
Qed.

Lemma put_key h c w c' : stored (put h (ObjAzureCluster c) w) h = Some c' → c' = c.
Proof.
  unfold stored. simpl. rewrite lookup_insert_eq. destruct (decide (cluster_name c = h)); [|done].
  by intros [= <-].
Qed.

Lemma patch_others h o w k : k ≠ h → stored (patch h o w).2 k = stored w k.
Proof. intros Hk. unfold patch. destruct (bool_decide (h ∈ broken w)); [done|by apply put_others]. Qed.

Lemma patch_key h c w c' :
  stored (patch h (ObjAzureCluster c) w).2 h = Some c' → stored w h = Some c' ∨ ac_Spec c' = ac_Spec c.
Proof.
  unfold patch. destruct (bool_decide (h ∈ broken w)); [by left|]. simpl.
  intros ->%put_key. by right.
Qed.

Lemma get_cluster_Ok k w c : (get_cluster k w).1 = Ok c → stored w k = Some c.
Proof. unfold get_cluster. destruct (stored w k); simpl; congruence. Qed.

Lemma new_helper_key (c : AzureCluster) (h : NamespacedName) :
  Ok (E:=errval) (object_name (ObjAzureCluster c)) = Ok h → h = cluster_name c.
Proof. by intros [= <-]. Qed.

Definition storage : @Storage World clusterApiUtil client :=
  @Build_Storage World clusterApiUtil client stored (λ h, h) stored_cluster_name
    (λ _ _ _, eq_refl) get_cluster_Ok (λ _ _ _, eq_refl) (λ c _ h, new_helper_key c h)
    patch_others patch_key.

(** [CreateOrPatch] on provider configs: mutate the stored object, or the given one
if there is none, and store the result. *)
Definition createOrPatch (u : Unstructured) (mutate : Unstructured → Unstructured) :
    IO World error := λ w,
  let base := default u (provider_configs w !! u_Name u) in
  (None, set_provider_configs (<[u_Name u := mutate base]> (provider_configs w)) w).

Definition controllerUtil_World : ControllerUtil World := controllerUtil World createOrPatch.

(** Azure answers from its table of endpoints, or with a 404. *)
Definition azure_client : PrivateEndpointsClient World := {|
  pec_Get _ name _ w :=
    (match azure_endpoints w !! name with
     | Some pep => Ok pep
     | None => Err (AzureResponseErr 404 "ResourceNotFound")
     end, w)
|}.

(** A private endpoint with one network interface with one address. *)
Definition endpoint_with_ip (ip : string) : PrivateEndpoint :=
  {| pep_Properties := Some [Some {| if_Properties :=
       Some [Some {| ipc_Properties := Some (Some ip) |}] |}] |}.

(** ** A cloud that cooperates

The API server accepts every patch, and Azure creates the endpoints of all stored
clusters when it gets its turn. *)
Definition reliable_util : ClusterApiUtil World := {|
  conditions_IsTrue := @conditions_IsTrue World clusterApiUtil;
  GetOwnerCluster := owner_cluster;
  IsDefined := @IsDefined World clusterApiUtil;
  PatchHelper := NamespacedName;
  patch_NewHelper _ o := io_pure (Ok (object_name o));
  patch_Patch h o w := (None, put h o w)
|}.

Lemma reliable_conditions : @ConditionsLaws World reliable_util.
Proof. by split. Qed.

Lemma reliable_put_key h c w c' :
  stored (put h (ObjAzureCluster c) w) h = Some c' → stored w h = Some c' ∨ ac_Spec c' = ac_Spec c.
Proof. intros ->%put_key. by right. Qed.

Definition reliable_storage : @Storage World reliable_util client :=
  @Build_Storage World reliable_util client stored (λ h, h) stored_cluster_name
    (λ _ _ _, eq_refl) get_cluster_Ok (λ _ _ _, eq_refl) (λ c _ h, new_helper_key c h)
    put_others reliable_put_key.

Definition set_azure_endpoints (m : gmap string PrivateEndpoint) (w : World) : World := {|
  clusters := clusters w; control_planes := control_planes w; capi_clusters := capi_clusters w;
  identities := identities w; secrets := secrets w; aso_control_planes := aso_control_planes w;
  managed_control_planes := managed_control_planes w; provider_configs := provider_configs w;
  azure_endpoints := m; broken := broken w
|}.

Definition endpoint_names (c : AzureCluster) : list string :=
  sn ← ac_Subnets c; pe_Name <$> PrivateEndpoints sn.

(** The endpoints named by the clusters of the store. *)
Definition asked_for (w : World) : list string :=
  kc ← map_to_list (clusters w); endpoint_names kc.2.

Lemma stored_asked_for w k c sn e :
  stored w k = Some c → sn ∈ ac_Subnets c → e ∈ PrivateEndpoints sn → pe_Name e ∈ asked_for w.
Proof.
  unfold stored. destruct (clusters w !! k) as [d|] eqn:E; [|done].
  destruct (decide _); [|done]. intros [= ->] Hsn He.
  apply list_elem_of_bind. exists (k, c). split; [|by apply elem_of_map_to_list].
  apply list_elem_of_bind. exists sn. split; [|done]. by apply list_elem_of_fmap_2.
Qed.

(** ** Small objects *)

Definition meta (ns n : string) : ObjectMeta := {|
  Namespace := ns; Name := n; Annotations := None; Finalizers := [];
  OwnerReferences := []; DeletionTimestamp := None
|}.

Definition link (n : string) (allowed : list string) : PrivateLink :=
  {| pl_Name := n; AllowedSubscriptions := Some <$> allowed;
     AutoApprovedSubscriptions := Some <$> allowed |}.

Definition endpoint (n id : string) : PrivateEndpointSpec :=
  {| pe_Name := n; pe_Location := "westeurope";
     PrivateLinkServiceConnections :=
       [{| plsc_Name := n; PrivateLinkServiceID := id; RequestMessage := "" |}];
     ManualApproval := false |}.

Definition subnet (es : list PrivateEndpointSpec) : SubnetSpec :=
  {| sn_Name := "node-subnet"; Role := SubnetNode; PrivateEndpoints := es |}.

(** A cluster whose resource group is its name, as the clusters of the operator are. *)
Definition cluster (n lb : string) (links : list PrivateLink) (es : list PrivateEndpointSpec)
    (cs : list Condition) : AzureCluster := {|
  ac_meta := meta "org" n;
  ac_Spec := {|
    SubscriptionID := "1234"; Location := "westeurope"; ResourceGroup := n;
    IdentityRef := None;
    NetworkSpec_ := {|
      APIServerLB := Some {| lb_Type := lb; PrivateLinks := links |};
      Subnets := [subnet es] |} |};
  Conditions := Some cs
|}.

Definition condition (t st : string) : Condition :=
  {| Type_ := t; Status := st; Severity := ""; Reason := ""; Message := ""; LastTransitionTime := 0%Z |}.

End Concrete.
