(* ===== verification/Errors.v ===== *)
(** * pkg/errors: the operator's error kinds and their classification. *)
From S2P Require Import Prelude.
From S2P Require Import GoStrings.
From S2P Require Import Api.

Definition InvalidConfigError : errval := MicroErr "InvalidConfigError".
Definition SubnetsNotSetError : errval := MicroErr "SubnetsNotSetError".
Definition SubscriptionCannotConnectToPrivateLinkError : errval :=
  MicroErr "SubscriptionCannotConnectToPrivateLinkError".
Definition PrivateEndpointNotFoundError : errval := MicroErr "PrivateEndpointNotFoundError".
Definition PrivateEndpointNetworkInterfacePrivateAddressNotFoundError : errval :=
  MicroErr "PrivateEndpointNetworkInterfacePrivateAddressNotFoundError".
Definition PrivateEndpointNetworkInterfaceNotFoundError : errval :=
  MicroErr "PrivateEndpointNetworkInterfaceNotFoundError".
Definition UnknownLoadBalancerTypeError : errval := MicroErr "unknownLoadBalancerTypeError".
Definition PrivateLinksNotReadyError : errval := MicroErr "PrivateLinksNotReadyError".

(** [http.StatusNotFound]. *)
Definition StatusNotFound : Z := 404.

Definition IsAzureResourceNotFound (err : error) : bool :=
  match errors_As_Response err with
  | Some (statusCode, errorCode) =>
      Z.eqb statusCode StatusNotFound || String.eqb errorCode "ResourceNotFound"
  | None => false
  end.

Section Errors.
Context `{Microerror}.

Definition IsInvalidConfig (err : error) : bool :=
  error_is_var (Cause err) InvalidConfigError.

Definition IsSubnetsNotSetError (err : error) : bool :=
  error_is_var (Cause err) SubnetsNotSetError.

Definition IsSubscriptionCannotConnectToPrivateLinkError (err : error) : bool :=
  error_is_var (Cause err) SubscriptionCannotConnectToPrivateLinkError.

Definition IsPrivateEndpointNotFound (err : error) : bool :=
  error_is_var (Cause err) PrivateEndpointNotFoundError.

Definition IsPrivateEndpointNetworkInterfacePrivateAddressNotFound (err : error) : bool :=
  error_is_var (Cause err) PrivateEndpointNetworkInterfacePrivateAddressNotFoundError.

Definition IsPrivateEndpointNetworkInterfaceNotFound (err : error) : bool :=
  error_is_var (Cause err) PrivateEndpointNetworkInterfaceNotFoundError.

Definition IsUnknownLoadBalancerType (err : error) : bool :=
  error_is_var (Cause err) UnknownLoadBalancerTypeError.

Definition IsPrivateLinksNotReady (err : error) : bool :=
  error_is_var (Cause err) PrivateLinksNotReadyError.

Definition IsRetriable (err : error) : bool :=
  IsPrivateLinksNotReady err ||
  IsPrivateEndpointNotFound err ||
  IsPrivateEndpointNetworkInterfaceNotFound err ||
  IsPrivateEndpointNetworkInterfacePrivateAddressNotFound err.

(** The kinds that make the controller try again in a minute. *)
Definition retriable_kinds : list errval :=
  [PrivateLinksNotReadyError; PrivateEndpointNotFoundError;
   PrivateEndpointNetworkInterfaceNotFoundError;
   PrivateEndpointNetworkInterfacePrivateAddressNotFoundError].

(** An error the operator raises with [Maskf] and passes through any number of
[Mask]s. *)
Inductive raised (k : errval) : errval → Prop :=
  | raised_Maskf msg : raised k (Maskf k msg)
  | raised_Mask e : raised k e → raised k (Mask e).

Lemma raised_Cause kind e :
  raised (MicroErr kind) e → Cause (Some e) = Some (MicroErr kind).
Proof. induction 1; [apply Cause_Maskf|by rewrite Cause_Mask]. Qed.

Lemma IsRetriable_nil : IsRetriable None = false.
Proof.
  unfold IsRetriable, IsPrivateLinksNotReady, IsPrivateEndpointNotFound,
    IsPrivateEndpointNetworkInterfaceNotFound,
    IsPrivateEndpointNetworkInterfacePrivateAddressNotFound.
  by rewrite Cause_nil.
Qed.

Lemma IsRetriable_existsb err :
  IsRetriable err = existsb (error_is_var (Cause err)) retriable_kinds.
Proof. unfold IsRetriable. simpl. by rewrite orb_false_r, !orb_assoc. Qed.

Lemma IsRetriable_Mask e : IsRetriable (Some (Mask e)) = IsRetriable (Some e).
Proof. by rewrite !IsRetriable_existsb, Cause_Mask. Qed.

(** An error raised by the operator is retried exactly when its kind is one of
the four that mean "Azure is not there yet", however often it was masked on its
way up. *)
Theorem IsRetriable_raised kind e :
  raised (MicroErr kind) e →
  IsRetriable (Some e) = bool_decide (kind ∈
    ["PrivateLinksNotReadyError"; "PrivateEndpointNotFoundError";
     "PrivateEndpointNetworkInterfaceNotFoundError";
     "PrivateEndpointNetworkInterfacePrivateAddressNotFoundError"]).
Proof.
  intros Hr. rewrite IsRetriable_existsb, (raised_Cause kind) by done. simpl.
  apply eq_true_iff_eq.
  rewrite bool_decide_eq_true, !orb_true_iff, !String.eqb_eq, !elem_of_cons, elem_of_nil.
  intuition congruence.
Qed.
End Errors.

#[export] Hint Constructors raised : go.
