(* ===== verification/Util.v ===== *)
(** * pkg/util: slices of pointers and status-condition gates. *)
From S2P Require Import Prelude.
From S2P Require Import GoStrings.
From S2P Require Import Api.

(** [ContainsPtr]: does some non-nil pointer of the slice point to [str]? *)
Fixpoint ContainsPtr (slice : list (option string)) (str : string) : bool :=
  match slice with
  | [] => false
  | v :: slice' =>
      if match v with Some s => String.eqb s str | None => false end then true
      else ContainsPtr slice' str
  end.

(** [ConvertToStringSlice]: nil pointers leave the zero value in the result. *)
Definition ConvertToStringSlice (pointers : list (option string)) : list string :=
  (λ p, match p with Some s => s | None => "" end) <$> pointers.

(** The inner loop of [FindUnmetStatusConditions] for one gate [t]: the values of
[found] and of "append [t] to [unmet]" when it ends. *)
Fixpoint find_condition (conditions : list Condition) (t : string) : bool * bool :=
  match conditions with
  | [] => (false, false)
  | c :: conditions' =>
      if String.eqb (Type_ c) t then (true, negb (String.eqb (Status c) ConditionTrue))
      else find_condition conditions' t
  end.

(** The outer loop, with the slice [unmet] built so far. *)
Fixpoint unmet_loop (conditions : list Condition) (gates unmet : list string) : list string :=
  match gates with
  | [] => unmet
  | t :: gates' =>
      let '(found, append) := find_condition conditions t in
      let unmet := if append then unmet ++ [t] else unmet in
      let unmet := if negb found then unmet ++ [t] else unmet in
      unmet_loop conditions gates' unmet
  end.

(** Slices that may be nil: [None]. *)
Definition FindUnmetStatusConditions (conditions : list Condition) (gates : option (list string)) :
    option (list string) :=
  match gates with
  | None => None
  | Some gates =>
      if Nat.eqb (length conditions) 0 then Some gates
      else Some (unmet_loop conditions gates [])
  end.

(** [len] of a slice that may be nil. *)
Definition slice_len {A} (s : option (list A)) : nat := length (default [] s).

(** ** Properties *)

(** [ContainsPtr] answers whether the string is among the non-nil entries; a nil
entry never matches, not even the empty string. *)
Lemma ContainsPtr_spec slice str : ContainsPtr slice str = true ↔ Some str ∈ slice.
Proof.
  induction slice as [|v slice IH]; simpl.
  - split; [done|]. intros H. by apply elem_of_nil in H.
  - rewrite elem_of_cons. destruct v as [s|].
    + destruct (String.eqb_spec s str) as [->|Hne]; [by split; auto|].
      rewrite IH. split; [by auto|]. by intros [[=]|].
    + rewrite IH. split; [by auto|]. by intros [[=]|].
Qed.

Lemma elem_of_ConvertToStringSlice ps x :
  x ∈ ConvertToStringSlice ps ↔ Some x ∈ ps ∨ (x = "" ∧ None ∈ ps).
Proof.
  unfold ConvertToStringSlice. rewrite list_elem_of_fmap. split.
  - intros ([s|] & -> & Hin); auto.
  - intros [H|[-> H]]; eexists; split; try exact H; done.
Qed.

(** Converting a slice of string pointers keeps every non-nil string, in place
and in number; the only other entry is the empty string, standing for nil. *)
Theorem ConvertToStringSlice_spec ps :
  length (ConvertToStringSlice ps) = length ps ∧
  ∀ x, x ∈ ConvertToStringSlice ps ↔ Some x ∈ ps ∨ (x = "" ∧ None ∈ ps).
Proof.
  split; [by unfold ConvertToStringSlice; rewrite length_fmap|].
  apply elem_of_ConvertToStringSlice.
Qed.

(** A gate is met when the first condition of its type has status "True". *)
Definition gate_met (conditions : list Condition) (t : string) : bool :=
  bool_decide (first_status conditions t = Some ConditionTrue).

Lemma find_condition_first_status cs t :
  find_condition cs t =
    match first_status cs t with
    | Some st => (true, negb (String.eqb st ConditionTrue))
    | None => (false, false)
    end.
Proof. induction cs as [|c cs IH]; simpl; [done|]. by destruct (String.eqb (Type_ c) t). Qed.

Lemma gate_met_status cs t :
  gate_met cs t =
    match first_status cs t with Some st => String.eqb st ConditionTrue | None => false end.
Proof.
  unfold gate_met. apply eq_true_iff_eq. rewrite bool_decide_eq_true.
  destruct (first_status cs t) as [st|]; [|done]. rewrite String.eqb_eq.
  split; [by intros [= ->]|by intros ->].
Qed.

Lemma unmet_loop_filter cs gates unmet :
  unmet_loop cs gates unmet = unmet ++ filter (λ t, gate_met cs t = false) gates.
Proof.
  revert unmet. induction gates as [|t gates IH]; intros unmet; cbn [unmet_loop];
    [by rewrite app_nil_r|].
  rewrite find_condition_first_status, filter_cons.
  pose proof (gate_met_status cs t) as Hg.
  destruct (first_status cs t) as [st|], (gate_met cs t); try done;
    [rewrite <- Hg|rewrite <- Hg|]; simpl; by rewrite IH, <- ?app_assoc.
Qed.

Lemma filter_all_in {A} (P : A → Prop) `{∀ a, Decision (P a)} (l : list A) :
  (∀ a, a ∈ l → P a) → filter P l = l.
Proof.
  induction l as [|a l IH]; [done|]. intros Hall.
  rewrite filter_cons_True by (apply Hall; by left). f_equal. apply IH.
  intros b Hb. apply Hall. by right.
Qed.

Lemma filter_all {A} (P : A → Prop) `{∀ x, Decision (P x)} (l : list A) :
  (∀ x, P x) → filter P l = l.
Proof.
  intros HP. induction l as [|x l IH]; [done|]. rewrite filter_cons_True by done. by rewrite IH.
Qed.

Lemma FindUnmet_filter conditions gates :
  FindUnmetStatusConditions conditions (Some gates) =
    Some (filter (λ t, gate_met conditions t = false) gates).
Proof.
  simpl. destruct conditions as [|c cs]; simpl.
  - f_equal. symmetry. by apply filter_all.
  - by rewrite unmet_loop_filter.
Qed.

(** [FindUnmetStatusConditions] returns exactly the gates that are not met, in
the order given, and the nil slice for nil gates.  The two shortcuts and the
nested loops compute the same filter. *)
Theorem FindUnmetStatusConditions_spec conditions gates :
  FindUnmetStatusConditions conditions gates =
    filter (λ t, gate_met conditions t = false) <$> gates.
Proof.
  destruct gates as [gates|]; [|done]. apply FindUnmet_filter.
Qed.

Lemma FindUnmet_nil conditions gates :
  slice_len (FindUnmetStatusConditions conditions (Some gates)) = 0 ↔
  Forall (λ t, gate_met conditions t = true) gates.
Proof.
  rewrite FindUnmet_filter. unfold slice_len. simpl.
  induction gates as [|t gates IH]; [by split; [constructor|]|].
  rewrite filter_cons, Forall_cons_iff. case_decide as E; simpl.
  - rewrite E. split; [done|]. by intros [? _].
  - rewrite IH. apply not_false_iff_true in E. tauto.
Qed.
