(* ===== verification/BaseScope.v ===== *)
(** * pkg/azurecluster: shared memory and the base scope.

Scopes hold pointers to AzureCluster objects; two scopes of one reconciliation
point to the same workload cluster.  The objects live in a heap, a pointer is an
index into it, and every scope method reads and writes through the pointer. *)
From S2P Require Import Prelude.
From S2P Require Import GoStrings.
From S2P Require Import Api.

(** ** Memory *)

Abbreviation loc := nat (only parsing).

Record St (W : Type) := mkSt { heap : list AzureCluster; world : W }.
Arguments mkSt {W} heap world.
Arguments heap {W} _.
Arguments world {W} _.

(** [new(capz.AzureCluster)] filled with [c]. *)
Definition alloc {W} (c : AzureCluster) : M (St W) loc := λ s,
  (Ret (length (heap s)), mkSt (heap s ++ [c]) (world s)).

Definition load {W} (l : loc) : M (St W) AzureCluster := λ s,
  match heap s !! l with
  | Some c => (Ret c, s)
  | None => (Panic NilDereference, s)
  end.

Definition store {W} (l : loc) (c : AzureCluster) : M (St W) unit := λ s,
  match heap s !! l with
  | Some _ => (Ret (), mkSt (<[l := c]> (heap s)) (world s))
  | None => (Panic NilDereference, s)
  end.

Definition modify {W} (l : loc) (f : AzureCluster → AzureCluster) : M (St W) unit :=
  c ← load l; store l (f c).

(** A library call that acts on the world. *)
Definition call {W A} (m : IO W A) : M (St W) A := λ s,
  let '(a, w') := m (world s) in (Ret a, mkSt (heap s) w').

(** A computation on the world alone, such as a function value of the caller. *)
Definition on_world {W A} (m : M W A) : M (St W) A := λ s,
  let '(o, w') := m (world s) in (o, mkSt (heap s) w').

Section BaseScope.
Context {W : Type} `{Microerror} `{ClusterApiUtil W}.

(** The embedded [Getter] interface stays nil: every method used is defined here. *)
Record BaseScope := { azureCluster : loc; patchHelper : PatchHelper }.

Definition NewBaseScope (cluster : loc) (client : Client W) :
    M (St W) (result errval BaseScope) :=
  c ← load cluster;
  h ← call (patch_NewHelper client (ObjAzureCluster c));
  match h with
  | Err e => mret (Err (Mask e))
  | Ok helper => mret (Ok {| azureCluster := cluster; patchHelper := helper |})
  end.

Definition GetClusterName (s : BaseScope) : M (St W) NamespacedName :=
  c ← load (azureCluster s);
  mret {| nn_Namespace := ac_Namespace c; nn_Name := ac_Name c |}.

Definition GetSubscriptionID (s : BaseScope) : M (St W) string :=
  c ← load (azureCluster s);
  mret (SubscriptionID (ac_Spec c)).

Definition GetLocation (s : BaseScope) : M (St W) string :=
  c ← load (azureCluster s);
  mret (Location (ac_Spec c)).

Definition GetResourceGroup (s : BaseScope) : M (St W) string :=
  c ← load (azureCluster s);
  mret (ResourceGroup (ac_Spec c)).

Definition PatchObject (s : BaseScope) : M (St W) error :=
  c ← load (azureCluster s);
  err ← call (patch_Patch (patchHelper s) (ObjAzureCluster c));
  match err with
  | Some e => mret (Some (Mask e))
  | None => mret None
  end.

Definition IsConditionTrue (s : BaseScope) (conditionType : string) : M (St W) bool :=
  c ← load (azureCluster s);
  mret (conditions_IsTrue (Conditions c) conditionType).

Definition SetAnnotation (s : BaseScope) (annotation value : string) : M (St W) unit :=
  c ← load (azureCluster s);
  let annotations := Annotations (ac_meta c) in
  let annotations := match annotations with None => ∅ | Some m => m end in
  let annotations := <[annotation := value]> annotations in
  store (azureCluster s) (set_meta (set_Annotations (Some annotations) (ac_meta c)) c).

Definition GetConditions (s : BaseScope) : M (St W) (slice Condition) :=
  c ← load (azureCluster s);
  mret (Conditions c).

Definition SetCondition (s : BaseScope) (condition : Condition) : M (St W) unit :=
  c ← load (azureCluster s);
  store (azureCluster s) (set_Conditions (append (Conditions c) condition) c).

Definition Close (s : BaseScope) : M (St W) error :=
  err ← PatchObject s;
  match err with
  | Some e => mret (Some (Mask e))
  | None => mret None
  end.
End BaseScope.
Arguments BaseScope W {_}.

(** ** Running the memory operations *)

Section memory.
Context {W : Type}.
Implicit Types (s : St W) (c : AzureCluster).

Lemma load_run s l c : heap s !! l = Some c → load l s = (Ret c, s).
Proof. intros Hl. unfold load. by rewrite Hl. Qed.

Lemma store_run s l c c' :
  heap s !! l = Some c → store l c' s = (Ret (), mkSt (<[l := c']> (heap s)) (world s)).
Proof. intros Hl. unfold store. by rewrite Hl. Qed.

Lemma call_run {A} (m : IO W A) s a w' :
  m (world s) = (a, w') → call m s = (Ret a, mkSt (heap s) w').
Proof. intros Hm. unfold call. by rewrite Hm. Qed.

Lemma alloc_run c s : alloc c s = (Ret (length (heap s)), mkSt (heap s ++ [c]) (world s)).
Proof. done. Qed.
End memory.

#[export] Hint Resolve load_run store_run call_run alloc_run : go.

(** Runs the head of a computation whose loads succeed. *)
Ltac run_load :=
  match goal with
  | Hl : heap ?s !! ?l = Some ?c |- context [(load ?l ≫= ?f) ?s] =>
      rewrite (bind_Ret (load l) f s c s (load_run s l c Hl))
  end.

Section BaseScope_runs.
Context {W : Type} `{Microerror} `{ClusterApiUtil W}.

Lemma SetAnnotation_run (b : BaseScope W) k v (s : St W) c :
  heap s !! azureCluster b = Some c →
  SetAnnotation b k v s =
    (Ret (), mkSt (<[azureCluster b :=
      set_meta (set_Annotations (annotate k v (Annotations (ac_meta c))) (ac_meta c)) c]>
      (heap s)) (world s)).
Proof. intros Hl. unfold SetAnnotation. run_load. by erewrite store_run by done. Qed.

Lemma SetCondition_run (b : BaseScope W) cond (s : St W) c :
  heap s !! azureCluster b = Some c →
  SetCondition b cond s =
    (Ret (), mkSt (<[azureCluster b := set_Conditions (append (Conditions c) cond) c]> (heap s))
      (world s)).
Proof. intros Hl. unfold SetCondition. run_load. by erewrite store_run by done. Qed.

(** [Close] patches the object as it is now and masks twice. *)
Lemma Close_run (b : BaseScope W) (s : St W) c err w' :
  heap s !! azureCluster b = Some c →
  patch_Patch (patchHelper b) (ObjAzureCluster c) (world s) = (err, w') →
  Close b s = (Ret (match err with Some e => Some (Mask (Mask e)) | None => None end),
    mkSt (heap s) w').
Proof.
  intros Hl Hp. unfold Close, PatchObject, mbind, M_bind. rewrite (load_run s _ c Hl).
  rewrite (call_run _ s err w') by done. by destruct err.
Qed.

Lemma NewBaseScope_run (l : loc) (client : Client W) (s : St W) c r w' :
  heap s !! l = Some c →
  patch_NewHelper client (ObjAzureCluster c) (world s) = (r, w') →
  NewBaseScope l client s =
    (Ret (match r with
          | Ok h => Ok {| azureCluster := l; patchHelper := h |}
          | Err e => Err (Mask e)
          end), mkSt (heap s) w').
Proof.
  intros Hl Hp. unfold NewBaseScope. run_load.
  rewrite (bind_Ret _ _ s r (mkSt (heap s) w')) by (by apply call_run).
  by destruct r.
Qed.
End BaseScope_runs.
