(* ===== verification/PrivateLinks.v ===== *)
(** * pkg/privatelinks: the private links of a workload cluster. *)
From S2P Require Import Prelude.
From S2P Require Import GoStrings.
From S2P Require Import GoNet.
From S2P Require Import Api.
From S2P Require Import Errors.
From S2P Require Import Util.
From S2P Require Import BaseScope.

Definition AzurePrivateEndpointOperatorApiServerAnnotation : string :=
  "azure-private-endpoint-operator.giantswarm.io/private-link-apiserver-ip".
Definition AzurePrivateEndpointOperatorMcIngressAnnotation : string :=
  "azure-private-endpoint-operator.giantswarm.io/private-link-mc-ingress-ip".

(** The resource ID format shared by the lookup here and the service. *)
Definition privateLinkServiceID (subscriptionID resourceGroup name : string) : string :=
  "/subscriptions/" +:+ subscriptionID +:+ "/resourceGroups/" +:+ resourceGroup +:+
  "/providers/Microsoft.Network/privateLinkServices/" +:+ name.

#[global] Arguments privateLinkServiceID _ _ _ : simpl never.

(** [LookupPrivateLink] on the scope's slice, given the scope's two getters. *)
Fixpoint lookup_private_link (subscriptionID resourceGroup : string) (links : list PrivateLink)
    (privateLinkResourceID : string) : PrivateLink * bool :=
  match links with
  | [] => (zero_PrivateLink, false)
  | privateLink :: links' =>
      let currentPrivateLinkResourceID :=
        privateLinkServiceID subscriptionID resourceGroup (pl_Name privateLink) in
      if String.eqb currentPrivateLinkResourceID privateLinkResourceID
      then (privateLink, true)
      else lookup_private_link subscriptionID resourceGroup links' privateLinkResourceID
  end.

(** The loop of [GetPrivateLinksWithAllowedSubscription]; [acc] is the result slice. *)
Fixpoint allowed_links (managementClusterSubscriptionID : string) (links acc : list PrivateLink) :
    list PrivateLink :=
  match links with
  | [] => acc
  | privateLink :: links' =>
      let acc :=
        if ContainsPtr (AllowedSubscriptions privateLink) managementClusterSubscriptionID
        then acc ++ [privateLink] else acc in
      allowed_links managementClusterSubscriptionID links' acc
  end.

Module PrivateLinks.
Section Scope.
Context {W : Type} `{Microerror} `{ClusterApiUtil W}.

Record Scope := { BaseScope_ : BaseScope W; privateLinks : list PrivateLink }.

Definition NewScope (workloadCluster : option loc) (client : option (Client W)) :
    M (St W) (result errval Scope) :=
  match workloadCluster with
  | None => mret (Err (Maskf InvalidConfigError "workloadCluster must be set"))
  | Some workloadCluster =>
      match client with
      | None => mret (Err (Maskf InvalidConfigError "client must be set"))
      | Some client =>
          let? baseScope := NewBaseScope workloadCluster client
            orelse (λ err, mret (Err (Mask err))) in
          c ← load workloadCluster;
          lb ← deref_opt (ac_APIServerLB c);
          mret (Ok {| BaseScope_ := baseScope; privateLinks := PrivateLinks lb |})
      end
  end.

Definition LookupPrivateLink (s : Scope) (privateLinkResourceID : string) :
    M (St W) (PrivateLink * bool) :=
  sub ← GetSubscriptionID (BaseScope_ s);
  rg ← GetResourceGroup (BaseScope_ s);
  mret (lookup_private_link sub rg (privateLinks s) privateLinkResourceID).

Definition GetPrivateLinksWithAllowedSubscription (s : Scope) (subscriptionID : string) :
    M (St W) (list PrivateLink) :=
  mret (allowed_links subscriptionID (privateLinks s) []).

Definition PrivateLinksReady (s : Scope) : M (St W) bool :=
  IsConditionTrue (BaseScope_ s) PrivateLinksReadyCondition.

Definition SetPrivateEndpointIPAddressForWcApi (s : Scope) (ip : IP) : M (St W) unit :=
  SetAnnotation (BaseScope_ s) AzurePrivateEndpointOperatorApiServerAnnotation
    (net_IP_String ip).

Definition SetPrivateEndpointIPAddressForMcIngress (s : Scope) (ip : IP) : M (St W) unit :=
  SetAnnotation (BaseScope_ s) AzurePrivateEndpointOperatorMcIngressAnnotation
    (net_IP_String ip).
End Scope.
Arguments Scope W {_}.
End PrivateLinks.

(** ** Properties *)

Lemma privateLinkServiceID_inj sub rg : Inj (=) (=) (privateLinkServiceID sub rg).
Proof.
  intros a b Hab. unfold privateLinkServiceID in Hab.
  by repeat (apply app_inj_l_string in Hab).
Qed.

Lemma privateLinkServiceID_eqb sub rg a b :
  String.eqb (privateLinkServiceID sub rg a) (privateLinkServiceID sub rg b) = String.eqb a b.
Proof.
  apply eq_true_iff_eq. rewrite !String.eqb_eq. split; [apply privateLinkServiceID_inj|by intros ->].
Qed.

Lemma lookup_private_link_found sub rg links id pl :
  lookup_private_link sub rg links id = (pl, true) →
  pl ∈ links ∧ privateLinkServiceID sub rg (pl_Name pl) = id.
Proof.
  induction links as [|l links IH]; simpl; [done|].
  destruct (String.eqb_spec (privateLinkServiceID sub rg (pl_Name l)) id) as [E|].
  - intros [= ->]. split; [by left|done].
  - intros Hl. destruct (IH Hl). split; [by right|done].
Qed.

Lemma lookup_private_link_true sub rg links id :
  (lookup_private_link sub rg links id).2 = true ↔
  ∃ pl, pl ∈ links ∧ privateLinkServiceID sub rg (pl_Name pl) = id.
Proof.
  split.
  - destruct (lookup_private_link sub rg links id) as [pl []] eqn:E; [|done].
    intros _. exists pl. by eapply lookup_private_link_found.
  - intros (pl & Hin & <-). induction Hin as [links|l links Hin IH]; simpl.
    + by rewrite String.eqb_refl.
    + by destruct (String.eqb _ _).
Qed.

(** Looking up the resource ID that the operator writes for a link finds a link
with that name when the cluster has one, and reports nothing otherwise: the ID
format is injective in the name, so an ID never resolves to another link. *)
Theorem LookupPrivateLink_by_name sub rg links name :
  let '(pl, found) := lookup_private_link sub rg links (privateLinkServiceID sub rg name) in
  (found = true ↔ name ∈ pl_Name <$> links) ∧ (found = true → pl_Name pl = name ∧ pl ∈ links).
Proof.
  induction links as [|l links IH]; cbn [lookup_private_link].
  - split; [|done]. split; [done|]. intros Hn. by apply elem_of_nil in Hn.
  - rewrite privateLinkServiceID_eqb, fmap_cons.
    destruct (String.eqb_spec (pl_Name l) name) as [<-|Hne].
    + rewrite elem_of_cons. split; [by split; auto|]. split; [done|by left].
    + destruct (lookup_private_link sub rg links (privateLinkServiceID sub rg name)) as [pl found].
      destruct IH as [IH1 IH2]. split.
      * rewrite IH1, elem_of_cons. split; [by auto|]. by intros [->|].
      * intros Hf. destruct (IH2 Hf). split; [done|by right].
Qed.

Lemma allowed_links_filter sub links acc :
  allowed_links sub links acc =
    acc ++ filter (λ l, Some sub ∈ AllowedSubscriptions l) links.
Proof.
  revert acc. induction links as [|l links IH]; intros acc; simpl; [by rewrite app_nil_r|].
  rewrite IH, filter_cons. pose proof (ContainsPtr_spec (AllowedSubscriptions l) sub) as Hc.
  destruct (ContainsPtr (AllowedSubscriptions l) sub).
  - rewrite decide_True by (by apply Hc). by rewrite <- app_assoc.
  - rewrite decide_False; [done|]. intros Hin. by apply Hc in Hin.
Qed.

(** The links offered to a management cluster are exactly those whose allowed
subscriptions name it, in the order of the AzureCluster. *)
Theorem GetPrivateLinksWithAllowedSubscription_spec {W} `{ClusterApiUtil W}
    (scope : PrivateLinks.Scope W) (sub : string) (s : St W) :
  PrivateLinks.GetPrivateLinksWithAllowedSubscription scope sub s =
    (Ret (filter (λ l, Some sub ∈ AllowedSubscriptions l) (PrivateLinks.privateLinks scope)), s).
Proof.
  unfold PrivateLinks.GetPrivateLinksWithAllowedSubscription. by rewrite allowed_links_filter.
Qed.

Lemma PL_NewScope_run {W} `{Microerror} `{ClusterApiUtil W} (l : loc) (client : Client W)
    (s : St W) c lb r w' :
  heap s !! l = Some c → ac_APIServerLB c = Some lb →
  patch_NewHelper client (ObjAzureCluster c) (world s) = (r, w') →
  PrivateLinks.NewScope (Some l) (Some client) s =
    (Ret (match r with
          | Ok h => Ok {|
              PrivateLinks.BaseScope_ := {| azureCluster := l; patchHelper := h |};
              PrivateLinks.privateLinks := PrivateLinks lb |}
          | Err e => Err (Mask (Mask e))
          end), mkSt (heap s) w').
Proof.
  intros Hl Hlb Hp. unfold PrivateLinks.NewScope.
  pose proof (NewBaseScope_run l client s c r w' Hl Hp) as Hb.
  destruct r as [h|e]; [rewrite (check_Ok _ _ _ _ _ _ Hb)|by rewrite (check_Err _ _ _ _ _ _ Hb)].
  rewrite (bind_Ret _ _ _ c (mkSt (heap s) w')) by (by apply load_run). by rewrite Hlb.
Qed.
