(* ===== verification/PrivateEndpoints.v ===== *)
(** * pkg/privateendpoints/scope.go: the private endpoints of a cluster's subnet. *)
From S2P Require Import Prelude.
From S2P Require Import GoStrings.
From S2P Require Import GoNet.
From S2P Require Import Api.
From S2P Require Import Errors.
From S2P Require Import BaseScope.

(** ** Operations on the endpoint slice *)

Definition arePrivateEndpointsEqual (a b : PrivateEndpointSpec) : bool :=
  String.eqb (pe_Name a) (pe_Name b).

Fixpoint sliceContains {T1 T2} (items : list T1) (t : T2) (equal : T1 → T2 → bool) : bool :=
  match items with
  | [] => false
  | item :: items' => if equal item t then true else sliceContains items' t equal
  end.

(** The loop [for i := len-1; i >= 0; i--]: [n] is [i + 1]. *)
Fixpoint remove_loop (n : nat) (name : string) (es : list PrivateEndpointSpec) :
    list PrivateEndpointSpec :=
  match n with
  | O => es
  | S i =>
      match es !! i with
      | Some e =>
          if String.eqb (pe_Name e) name then take i es ++ drop (S i) es
          else remove_loop i name es
      | None => es
      end
  end.

Definition remove_by_name (name : string) (es : list PrivateEndpointSpec) :
    list PrivateEndpointSpec :=
  remove_loop (length es) name es.

Definition workloadClusterSubscriptionIDPrefix (subscriptionID resourceGroup : string) : string :=
  "/subscriptions/" +:+ subscriptionID +:+ "/resourceGroups/" +:+ resourceGroup.
#[global] Arguments workloadClusterSubscriptionIDPrefix _ _ : simpl never.

(** The inner loop of [GetPrivateEndpointsToWorkloadCluster]: [foundPrivateEndpoint]. *)
Fixpoint has_connection_to (prefix : string) (cs : list PrivateLinkServiceConnection) : bool :=
  match cs with
  | [] => false
  | connection :: cs' =>
      if Z.eqb (strings_Index (PrivateLinkServiceID connection) prefix) 0 then true
      else has_connection_to prefix cs'
  end.

Fixpoint endpoints_loop (prefix : string) (es acc : list PrivateEndpointSpec) :
    list PrivateEndpointSpec :=
  match es with
  | [] => acc
  | e :: es' =>
      let found := has_connection_to prefix (PrivateLinkServiceConnections e) in
      endpoints_loop prefix es' (if found then acc ++ [e] else acc)
  end.

Definition endpoints_to_workload_cluster (subscriptionID resourceGroup : string)
    (es : list PrivateEndpointSpec) : list PrivateEndpointSpec :=
  endpoints_loop (workloadClusterSubscriptionIDPrefix subscriptionID resourceGroup) es [].

(** ** Finding the address in Azure's answer

The value is [Some ip] when [found] is set, with [ip] the parsed address. *)
Fixpoint ip_of_configurations (cs : list (option InterfaceIPConfiguration)) : option IP :=
  match cs with
  | [] => None
  | ipConfig :: cs' =>
      match ipConfig with
      | Some {| ipc_Properties := Some (Some privateIPAddress) |} =>
          Some (net_ParseIP privateIPAddress)
      | _ => ip_of_configurations cs'
      end
  end.

Fixpoint ip_of_interfaces (nis : list (option Interface)) : option IP :=
  match nis with
  | [] => None
  | networkInterface :: nis' =>
      match networkInterface with
      | Some {| if_Properties := Some (c :: cs) |} =>
          match ip_of_configurations (c :: cs) with
          | Some ip => Some ip
          | None => ip_of_interfaces nis'
          end
      | _ => ip_of_interfaces nis'
      end
  end.

(** ** The [Scope] interface *)

Record Scope (S : Type) := {
  sc_GetClusterName : M S NamespacedName;
  sc_GetSubscriptionID : M S string;
  sc_GetLocation : M S string;
  sc_GetResourceGroup : M S string;
  sc_GetPrivateEndpoints : M S (list PrivateEndpointSpec);
  sc_GetPrivateEndpointsToWorkloadCluster : string → string → M S (list PrivateEndpointSpec);
  sc_GetPrivateEndpointIPAddress : string → M S (IP * error);
  sc_ContainsPrivateEndpointSpec : PrivateEndpointSpec → M S bool;
  sc_AddPrivateEndpointSpec : PrivateEndpointSpec → M S unit;
  sc_RemovePrivateEndpointByName : string → M S unit;
  sc_PatchObject : M S error;
  sc_Close : M S error
}.
Arguments sc_GetClusterName {S} _ _.
Arguments sc_GetSubscriptionID {S} _ _.
Arguments sc_GetLocation {S} _ _.
Arguments sc_GetResourceGroup {S} _ _.
Arguments sc_GetPrivateEndpoints {S} _ _.
Arguments sc_GetPrivateEndpointsToWorkloadCluster {S} _ _ _ _.
Arguments sc_GetPrivateEndpointIPAddress {S} _ _ _.
Arguments sc_ContainsPrivateEndpointSpec {S} _ _ _.
Arguments sc_AddPrivateEndpointSpec {S} _ _ _.
Arguments sc_RemovePrivateEndpointByName {S} _ _ _.
Arguments sc_PatchObject {S} _ _.
Arguments sc_Close {S} _ _.

(** ** The scope *)

(** The first loop of [NewScope]: index of the first subnet with the node role. *)
Fixpoint find_node_subnet (subnets : list SubnetSpec) (i : nat) : option nat :=
  match subnets with
  | [] => None
  | subnet :: subnets' =>
      if String.eqb (Role subnet) SubnetNode then Some i else find_node_subnet subnets' (S i)
  end.

(** The subnet whose endpoints the scope manages. *)
Definition endpoints_subnet (subnets : list SubnetSpec) : option nat :=
  match find_node_subnet subnets 0 with
  | Some i => Some i
  | None => if Nat.eqb (length subnets) 0 then None else Some 0
  end.

Definition the_GetOptions : GetOptions := {| Expand := Some "NetworkInterfaces" |}.

Module PrivateEndpoints.
Section Scope.
Context {W : Type} `{Microerror} `{FmtVerbs} `{ClusterApiUtil W}.

(** [privateEndpoints] points to the slice of subnet [subnet] of the cluster. *)
Record scope := {
  BaseScope_ : BaseScope W;
  privateEndpoints_subnet : nat;
  privateEndpointsClient : PrivateEndpointsClient W
}.

Definition NewScope (cluster : option loc) (client : option (Client W))
    (privateEndpointClient : option (PrivateEndpointsClient W)) :
    M (St W) (result errval scope) :=
  match cluster with
  | None => mret (Err (Maskf InvalidConfigError "cluster must be set"))
  | Some cluster =>
  match client with
  | None => mret (Err (Maskf InvalidConfigError "client must be set"))
  | Some client =>
  match privateEndpointClient with
  | None => mret (Err (Maskf InvalidConfigError "privateEndpointClient must be set"))
  | Some privateEndpointClient =>
      c ← load cluster;
      match endpoints_subnet (ac_Subnets c) with
      | None =>
          mret (Err (Maskf SubnetsNotSetError "the cluster does not have any subnets set"))
      | Some i =>
          let? baseScope := NewBaseScope cluster client
            orelse (λ err, mret (Err (Mask err))) in
          mret (Ok {| BaseScope_ := baseScope;
                      privateEndpoints_subnet := i;
                      privateEndpointsClient := privateEndpointClient |})
      end
  end end end.

(** [*s.privateEndpoints] and assignment to it. *)
Definition read_endpoints (s : scope) : M (St W) (list PrivateEndpointSpec) :=
  c ← load (azureCluster (BaseScope_ s));
  sn ← deref_opt (ac_Subnets c !! privateEndpoints_subnet s);
  mret (PrivateEndpoints sn).

Definition write_endpoints (s : scope) (es : list PrivateEndpointSpec) : M (St W) unit :=
  c ← load (azureCluster (BaseScope_ s));
  sn ← deref_opt (ac_Subnets c !! privateEndpoints_subnet s);
  store (azureCluster (BaseScope_ s))
    (set_Subnets (<[privateEndpoints_subnet s := set_PrivateEndpoints es sn]> (ac_Subnets c)) c).

Definition address_of (privateEndpoint : PrivateEndpoint) : IP * error :=
  match pep_Properties privateEndpoint with
  | Some (ni :: nis) =>
      match ip_of_interfaces (ni :: nis) with
      | Some ip => (ip, None)
      | None =>
          ([], Some (Maskf PrivateEndpointNetworkInterfacePrivateAddressNotFoundError
            ("could not find private endpoint network interface private IP address, got private endpoint: "
              +:+ fmt_v_PrivateEndpoint privateEndpoint)))
      end
  | _ =>
      ([], Some (Maskf PrivateEndpointNetworkInterfaceNotFoundError
        "could not find private endpoint network interface"))
  end.

Definition GetPrivateEndpointIPAddress (s : scope) (privateEndpointName : string) :
    M (St W) (IP * error) :=
  rg ← GetResourceGroup (BaseScope_ s);
  r ← call (pec_Get (privateEndpointsClient s) rg privateEndpointName the_GetOptions);
  let err := match r with Err e => Some e | Ok _ => None end in
  if IsAzureResourceNotFound err then
    mret ([], Some (Maskf PrivateEndpointNotFoundError "private endpoint not found"))
  else
    match r with
    | Err e => mret ([], Some (Mask e))
    | Ok privateEndpoint => mret (address_of privateEndpoint)
    end.

Definition GetPrivateEndpointsToWorkloadCluster (s : scope)
    (workloadClusterSubscriptionID workloadClusterResourceGroup : string) :
    M (St W) (list PrivateEndpointSpec) :=
  es ← read_endpoints s;
  mret (endpoints_to_workload_cluster workloadClusterSubscriptionID
    workloadClusterResourceGroup es).

Definition ContainsPrivateEndpointSpec (s : scope) (privateEndpoint : PrivateEndpointSpec) :
    M (St W) bool :=
  es ← read_endpoints s;
  mret (sliceContains es privateEndpoint arePrivateEndpointsEqual).

Definition GetPrivateEndpoints (s : scope) : M (St W) (list PrivateEndpointSpec) :=
  read_endpoints s.

Definition AddPrivateEndpointSpec (s : scope) (spec : PrivateEndpointSpec) : M (St W) unit :=
  contains ← ContainsPrivateEndpointSpec s spec;
  if negb contains then
    es ← read_endpoints s;
    write_endpoints s (es ++ [spec])
  else mret ().

Definition RemovePrivateEndpointByName (s : scope) (privateEndpointName : string) :
    M (St W) unit :=
  es ← read_endpoints s;
  write_endpoints s (remove_by_name privateEndpointName es).

(** The scope as a value of the interface type. *)
Definition as_Scope (s : scope) : Scope (St W) := {|
  sc_GetClusterName := GetClusterName (BaseScope_ s);
  sc_GetSubscriptionID := GetSubscriptionID (BaseScope_ s);
  sc_GetLocation := GetLocation (BaseScope_ s);
  sc_GetResourceGroup := GetResourceGroup (BaseScope_ s);
  sc_GetPrivateEndpoints := GetPrivateEndpoints s;
  sc_GetPrivateEndpointsToWorkloadCluster := GetPrivateEndpointsToWorkloadCluster s;
  sc_GetPrivateEndpointIPAddress := GetPrivateEndpointIPAddress s;
  sc_ContainsPrivateEndpointSpec := ContainsPrivateEndpointSpec s;
  sc_AddPrivateEndpointSpec := AddPrivateEndpointSpec s;
  sc_RemovePrivateEndpointByName := RemovePrivateEndpointByName s;
  sc_PatchObject := PatchObject (BaseScope_ s);
  sc_Close := Close (BaseScope_ s)
|}.
End Scope.
Arguments scope W {_}.
End PrivateEndpoints.

(** ** The endpoint slice *)

Abbreviation names es := (pe_Name <$> es).

Lemma sliceContains_names es spec :
  sliceContains es spec arePrivateEndpointsEqual = true ↔ pe_Name spec ∈ names es.
Proof.
  induction es as [|e es IH]; cbn [sliceContains].
  - split; [done|]. intros H. by apply elem_of_nil in H.
  - rewrite fmap_cons, elem_of_cons. unfold arePrivateEndpointsEqual at 1.
    destruct (String.eqb_spec (pe_Name e) (pe_Name spec)) as [->|Hne]; [by split; auto|].
    rewrite IH. split; [by auto|]. by intros [H|].
Qed.

Lemma sliceContains_decide es spec :
  sliceContains es spec arePrivateEndpointsEqual = bool_decide (pe_Name spec ∈ names es).
Proof. apply eq_true_iff_eq. by rewrite bool_decide_eq_true, sliceContains_names. Qed.

(** What [AddPrivateEndpointSpec] is to do to the slice, by the names in it. *)
Definition add_spec (spec : PrivateEndpointSpec) (es : list PrivateEndpointSpec) :
    list PrivateEndpointSpec :=
  if decide (pe_Name spec ∈ names es) then es else es ++ [spec].

Lemma add_spec_in spec es : pe_Name spec ∈ names es → add_spec spec es = es.
Proof. intros H. unfold add_spec. by rewrite decide_True. Qed.

Lemma add_spec_notin spec es : pe_Name spec ∉ names es → add_spec spec es = es ++ [spec].
Proof. intros H. unfold add_spec. by rewrite decide_False. Qed.

(** The code's test by [sliceContains] decides which. *)
Lemma add_spec_code spec es :
  add_spec spec es = if negb (sliceContains es spec arePrivateEndpointsEqual) then es ++ [spec] else es.
Proof.
  rewrite sliceContains_decide. unfold add_spec.
  case_decide; [rewrite bool_decide_eq_true_2 by done|rewrite bool_decide_eq_false_2 by done]; done.
Qed.

(** [add_spec] by cases on whether the name is taken. *)
Lemma add_spec_cases spec es :
  (pe_Name spec ∈ names es ∧ add_spec spec es = es) ∨
  ((pe_Name spec ∉ names es) ∧ add_spec spec es = es ++ [spec]).
Proof.
  destruct (decide (pe_Name spec ∈ names es)); [left|right];
    auto using add_spec_in, add_spec_notin.
Qed.

Lemma elem_of_names_add_spec n spec es :
  n ∈ names (add_spec spec es) ↔ n = pe_Name spec ∨ n ∈ names es.
Proof.
  destruct (add_spec_cases spec es) as [[Hin ->]|[_ ->]].
  - split; [by auto|]. by intros [->|].
  - rewrite fmap_app, elem_of_app. simpl. rewrite list_elem_of_singleton. tauto.
Qed.

Lemma NoDup_add_spec spec es : NoDup (names es) → NoDup (names (add_spec spec es)).
Proof.
  intros Hnd. destruct (add_spec_cases spec es) as [[_ ->]|[Hni ->]]; [done|].
  rewrite fmap_app, NoDup_app. repeat split; [done| |apply NoDup_singleton].
  intros x Hx ->%list_elem_of_singleton. done.
Qed.

Lemma add_spec_prefix spec es : es `prefix_of` add_spec spec es.
Proof.
  destruct (add_spec_cases spec es) as [[_ ->]|[_ ->]]; [done|by apply prefix_app_r].
Qed.

Lemma add_spec_idemp spec es : add_spec spec (add_spec spec es) = add_spec spec es.
Proof. apply add_spec_in, elem_of_names_add_spec. by left. Qed.

Lemma remove_loop_spec n name es : n ≤ length es →
  ((name ∉ names (take n es)) ∧ remove_loop n name es = es) ∨
  (∃ es1 e es2, es = es1 ++ e :: es2 ∧ pe_Name e = name ∧
     (name ∉ names (take (n - S (length es1)) es2)) ∧ remove_loop n name es = es1 ++ es2).
Proof.
  induction n as [|i IH]; intros Hn; cbn [remove_loop].
  - left. split; [|done]. by intros H%elem_of_nil.
  - destruct (lookup_lt_is_Some_2 es i) as [e He]; [lia|]. rewrite He.
    pose proof (take_drop_middle es i e He) as Hsplit.
    destruct (String.eqb_spec (pe_Name e) name) as [Heq|Hne].
    + right. exists (take i es), e, (drop (S i) es).
      rewrite length_take, Nat.min_l, Nat.sub_diag by lia.
      repeat split; try done. by intros H%elem_of_nil.
    + destruct (IH ltac:(lia)) as [[Hni ->]|(es1 & e' & es2 & -> & He' & Hni & ->)].
      * left. split; [|done]. rewrite (take_S_r _ _ _ He), fmap_app, elem_of_app.
        intros [H|H%list_elem_of_singleton]; [done|]. by rewrite H in Hne.
      * right. exists es1, e', es2. repeat split; [done|].
        destruct (decide (S i ≤ S (length es1))) as [Hle|Hgt].
        { replace (S i - S (length es1)) with 0 by lia. by intros H%elem_of_nil. }
        rewrite lookup_app_r in He by lia.
        replace (i - length es1) with (S (i - S (length es1))) in He by lia. simpl in He.
        replace (S i - S (length es1)) with (S (i - S (length es1))) by lia.
        rewrite (take_S_r _ _ _ He), fmap_app, elem_of_app.
        intros [H|H%list_elem_of_singleton]; [done|]. by rewrite H in Hne.
Qed.

(** Removal takes out the last endpoint of that name, and nothing else. *)
Lemma remove_by_name_spec name es :
  ((name ∉ names es) ∧ remove_by_name name es = es) ∨
  (∃ es1 e es2, es = es1 ++ e :: es2 ∧ pe_Name e = name ∧ (name ∉ names es2) ∧
     remove_by_name name es = es1 ++ es2).
Proof.
  unfold remove_by_name.
  destruct (remove_loop_spec (length es) name es) as [[Hni H]|(es1 & e & es2 & -> & He & Hni & H)];
    [done| |].
  - left. by rewrite take_ge in Hni by done.
  - right. exists es1, e, es2. rewrite length_app in Hni. simpl in Hni.
    rewrite take_ge in Hni by lia. done.
Qed.

Lemma filter_names_notin name (es : list PrivateEndpointSpec) :
  name ∉ names es → filter (λ e, pe_Name e ≠ name) es = es.
Proof.
  induction es as [|e es IH]; [done|]. rewrite fmap_cons, not_elem_of_cons. intros [Hne Hni].
  rewrite filter_cons_True by congruence. by rewrite IH.
Qed.

(** With unique names, removal is filtering by name. *)
Lemma remove_by_name_filter name es :
  NoDup (names es) → remove_by_name name es = filter (λ e, pe_Name e ≠ name) es.
Proof.
  intros Hnd. destruct (remove_by_name_spec name es)
    as [[Hni ->]|(es1 & e & es2 & -> & He & Hni & ->)].
  - by rewrite filter_names_notin.
  - rewrite fmap_app, fmap_cons, NoDup_app in Hnd. destruct Hnd as (_ & Hdisj & _).
    rewrite filter_app, filter_cons_False by congruence.
    rewrite !filter_names_notin; [done|done|].
    intros Hin. apply (Hdisj name Hin). rewrite He. by left.
Qed.

Lemma names_remove_sublist name es : names (remove_by_name name es) `sublist_of` names es.
Proof.
  destruct (remove_by_name_spec name es) as [[_ ->]|(es1 & e & es2 & -> & _ & _ & ->)]; [done|].
  rewrite !fmap_app, fmap_cons. apply sublist_app; [done|by apply sublist_cons].
Qed.

Lemma NoDup_remove_by_name name es : NoDup (names es) → NoDup (names (remove_by_name name es)).
Proof. intros Hnd. by eapply sublist_NoDup, names_remove_sublist. Qed.

Lemma remove_by_name_other name es e :
  pe_Name e ≠ name → (e ∈ remove_by_name name es ↔ e ∈ es).
Proof.
  intros Hne. destruct (remove_by_name_spec name es)
    as [[_ ->]|(es1 & e' & es2 & -> & He & _ & ->)]; [done|].
  rewrite !elem_of_app, elem_of_cons. split; [tauto|]. intros [?|[->|?]]; tauto.
Qed.

Lemma elem_of_remove_by_name name es e : e ∈ remove_by_name name es → e ∈ es.
Proof.
  destruct (remove_by_name_spec name es) as [[_ ->]|(es1 & e' & es2 & -> & _ & _ & ->)]; [done|].
  rewrite !elem_of_app, elem_of_cons. tauto.
Qed.

#[export] Hint Resolve NoDup_add_spec NoDup_remove_by_name add_spec_prefix : go.

(** ** Endpoints of a workload cluster *)

(** Some connection of the endpoint goes to a resource ID that starts with [prefix]. *)
Definition connects_to (prefix : string) (e : PrivateEndpointSpec) : Prop :=
  ∃ c, c ∈ PrivateLinkServiceConnections e ∧ String.prefix prefix (PrivateLinkServiceID c) = true.

Lemma has_connection_to_spec prefix e :
  has_connection_to prefix (PrivateLinkServiceConnections e) = true ↔ connects_to prefix e.
Proof.
  unfold connects_to. induction (PrivateLinkServiceConnections e) as [|c cs IH];
    cbn [has_connection_to].
  - split; [done|]. by intros (c & H%elem_of_nil & _).
  - pose proof (strings_Index_0 (PrivateLinkServiceID c) prefix) as Hi.
    destruct (Z.eqb_spec (strings_Index (PrivateLinkServiceID c) prefix) 0) as [E|E].
    + split; [|done]. intros _. exists c. split; [by left|by apply Hi].
    + rewrite IH. split.
      * intros (c' & Hin & Hp). exists c'. split; [by right|done].
      * intros (c' & Hin & Hp). apply elem_of_cons in Hin as [->|Hin]; [by apply Hi in Hp|eauto].
Qed.

#[export] Instance connects_to_dec prefix e : Decision (connects_to prefix e).
Proof.
  refine (cast_if (decide (has_connection_to prefix (PrivateLinkServiceConnections e) = true)));
    by rewrite <- has_connection_to_spec.
Defined.

Lemma endpoints_loop_filter prefix es acc :
  endpoints_loop prefix es acc = acc ++ filter (connects_to prefix) es.
Proof.
  revert acc. induction es as [|e es IH]; intros acc; cbn [endpoints_loop];
    [by rewrite app_nil_r|].
  rewrite IH, filter_cons. pose proof (has_connection_to_spec prefix e) as Hc.
  destruct (has_connection_to _ _).
  - rewrite decide_True by (by apply Hc). by rewrite <- app_assoc.
  - rewrite decide_False; [done|]. intros Hin. by apply Hc in Hin.
Qed.

Lemma endpoints_to_workload_cluster_filter sub rg es :
  endpoints_to_workload_cluster sub rg es =
    filter (connects_to (workloadClusterSubscriptionIDPrefix sub rg)) es.
Proof. apply endpoints_loop_filter. Qed.

(** ** The subnet *)

Lemma find_node_subnet_spec subnets k :
  match find_node_subnet subnets k with
  | Some i => ∃ j sn, i = k + j ∧ subnets !! j = Some sn ∧ Role sn = SubnetNode ∧
      ∀ j' sn', j' < j → subnets !! j' = Some sn' → Role sn' ≠ SubnetNode
  | None => ∀ sn, sn ∈ subnets → Role sn ≠ SubnetNode
  end.
Proof.
  revert k. induction subnets as [|sn subnets IH]; intros k; cbn [find_node_subnet].
  - by intros sn H%elem_of_nil.
  - destruct (String.eqb_spec (Role sn) SubnetNode) as [E|E].
    + exists 0, sn. repeat split; [lia|done|]. intros; lia.
    + specialize (IH (S k)). destruct (find_node_subnet subnets (S k)) as [i|].
      * destruct IH as (j & sn' & -> & Hj & Hr & Hfirst). exists (S j), sn'.
        repeat split; [lia|done|done|]. intros [|j'] sn'' Hlt Hl; simpl in Hl; [by simplify_eq|].
        eapply Hfirst; [|done]. lia.
      * intros sn' [->|Hin]%elem_of_cons; [done|auto].
Qed.

Lemma endpoints_subnet_bound subnets i :
  endpoints_subnet subnets = Some i → is_Some (subnets !! i).
Proof.
  unfold endpoints_subnet. pose proof (find_node_subnet_spec subnets 0) as Hs.
  destruct (find_node_subnet subnets 0) as [j|].
  - intros [= <-]. destruct Hs as (j' & sn & -> & Hl & _). by exists sn.
  - destruct (Nat.eqb_spec (length subnets) 0); [done|]. intros [= <-].
    apply lookup_lt_is_Some. lia.
Qed.

(** ** The address of an endpoint *)

(** All private addresses in Azure's answer, in order. *)
Definition configuration_address (c : option InterfaceIPConfiguration) : option string :=
  c ← c; p ← ipc_Properties c; p.

Definition interface_addresses (ni : option Interface) : list string :=
  omap configuration_address (default [] (ni ← ni; if_Properties ni)).

Definition addresses (pep : PrivateEndpoint) : list string :=
  default [] (pep_Properties pep) ≫= interface_addresses.

Lemma ip_of_configurations_head cs :
  ip_of_configurations cs = net_ParseIP <$> head (omap configuration_address cs).
Proof. induction cs as [|[[[[a|]|]]|] cs IH]; simpl; done. Qed.

Lemma ip_of_interfaces_head nis :
  ip_of_interfaces nis = net_ParseIP <$> head (nis ≫= interface_addresses).
Proof.
  induction nis as [|ni nis IH]; [done|].
  assert (E : ip_of_interfaces (ni :: nis) =
    match ip_of_configurations (default [] (ni ← ni; if_Properties ni)) with
    | Some ip => Some ip
    | None => ip_of_interfaces nis
    end) by (by destruct ni as [[[[|c cs]|]]|]).
  rewrite E, ip_of_configurations_head, IH, bind_cons. unfold interface_addresses at 2.
  by destruct (omap configuration_address _).
Qed.

Lemma address_of_cons `{Microerror} `{FmtVerbs} pep a l :
  addresses pep = a :: l → PrivateEndpoints.address_of pep = (net_ParseIP a, None).
Proof.
  unfold addresses, PrivateEndpoints.address_of. destruct (pep_Properties pep) as [[|ni nis]|];
    simpl; [done| |done]. intros E.
  assert (ip_of_interfaces (ni :: nis) = Some (net_ParseIP a)) as Hip
    by (rewrite ip_of_interfaces_head; simpl; by rewrite E).
  simpl in Hip. by rewrite Hip.
Qed.

Lemma address_of_nil `{Microerror} `{FmtVerbs} pep :
  addresses pep = [] →
  ∃ e, PrivateEndpoints.address_of pep = ([], Some e) ∧
    raised (if bool_decide (default [] (pep_Properties pep) = [])
            then PrivateEndpointNetworkInterfaceNotFoundError
            else PrivateEndpointNetworkInterfacePrivateAddressNotFoundError) e.
Proof.
  unfold addresses, PrivateEndpoints.address_of. destruct (pep_Properties pep) as [[|ni nis]|];
    simpl; intros E.
  1,3: eexists; split; [done|constructor].
  assert (ip_of_interfaces (ni :: nis) = None) as Hip
    by (rewrite ip_of_interfaces_head; simpl; by rewrite E).
  simpl in Hip. rewrite Hip. eexists; split; [done|constructor].
Qed.

(** ** Building the scope *)

Section NewScope.
Context {W : Type} `{Microerror} `{FmtVerbs} `{ClusterApiUtil W}.

Lemma PE_NewScope_run (l : loc) (client : Client W) pec (s : St W) c i r w' :
  heap s !! l = Some c → endpoints_subnet (ac_Subnets c) = Some i →
  patch_NewHelper client (ObjAzureCluster c) (world s) = (r, w') →
  PrivateEndpoints.NewScope (Some l) (Some client) (Some pec) s =
    (Ret (match r with
          | Ok h => Ok {|
              PrivateEndpoints.BaseScope_ := {| azureCluster := l; patchHelper := h |};
              PrivateEndpoints.privateEndpoints_subnet := i;
              PrivateEndpoints.privateEndpointsClient := pec |}
          | Err e => Err (Mask (Mask e))
          end), mkSt (heap s) w').
Proof.
  intros Hl Hi Hp. unfold PrivateEndpoints.NewScope. run_load. rewrite Hi.
  pose proof (NewBaseScope_run l client s c r w' Hl Hp) as Hb.
  destruct r as [h|e]; [by rewrite (check_Ok _ _ _ _ _ _ Hb)|by rewrite (check_Err _ _ _ _ _ _ Hb)].
Qed.

(** A new endpoints scope manages the first subnet with the node role, or the first
subnet if none has it; without subnets it is refused; no subnet lookup can panic. *)
Theorem PE_NewScope_subnet (l : loc) (client : Client W) pec (s : St W) c :
  heap s !! l = Some c →
  ∃ r w', PrivateEndpoints.NewScope (Some l) (Some client) (Some pec) s = (Ret r, mkSt (heap s) w') ∧
    (ac_Subnets c = [] → ∃ e, r = Err e ∧ IsSubnetsNotSetError (Some e) = true ∧ w' = world s) ∧
    ∀ sc, r = Ok sc →
      azureCluster (PrivateEndpoints.BaseScope_ sc) = l ∧
      PrivateEndpoints.privateEndpointsClient sc = pec ∧
      let i := PrivateEndpoints.privateEndpoints_subnet sc in
      ∃ sn, ac_Subnets c !! i = Some sn ∧
        ((Role sn = SubnetNode ∧
           ∀ j sn', j < i → ac_Subnets c !! j = Some sn' → Role sn' ≠ SubnetNode) ∨
         (i = 0 ∧ ∀ sn', sn' ∈ ac_Subnets c → Role sn' ≠ SubnetNode)).
Proof.
  intros Hl. destruct (endpoints_subnet (ac_Subnets c)) as [i|] eqn:Ei.
  - destruct (patch_NewHelper client (ObjAzureCluster c) (world s)) as [r w'] eqn:Ep.
    rewrite (PE_NewScope_run l client pec s c i r w') by done. do 2 eexists. split; [done|].
    split; [by intros En; rewrite En in Ei|]. destruct r as [h|e]; [|done].
    intros sc [= <-]. simpl. do 2 (split; [done|]).
    destruct (endpoints_subnet_bound _ _ Ei) as [sn Hsn]. exists sn. split; [done|].
    unfold endpoints_subnet in Ei. pose proof (find_node_subnet_spec (ac_Subnets c) 0) as Hs.
    destruct (find_node_subnet (ac_Subnets c) 0) as [j|].
    + injection Ei as <-. destruct Hs as (j' & sn' & -> & Hl' & Hr & Hfirst). simpl in Hsn.
      left. simplify_eq. by split.
    + right. destruct (Nat.eqb _ _); [done|]. by injection Ei as <-.
  - unfold PrivateEndpoints.NewScope. run_load. rewrite Ei. eexists _, (world s).
    split; [by destruct s|]. split; [|done]. intros _. eexists. split; [done|].
    unfold IsSubnetsNotSetError, SubnetsNotSetError. by rewrite Cause_Maskf.
Qed.
End NewScope.

Section GetPrivateEndpointIPAddress.
Context {W : Type} `{Microerror} `{FmtVerbs} `{ClusterApiUtil W}.

Lemma raised_retriable kind e :
  raised (MicroErr kind) e → MicroErr kind ∈ retriable_kinds → IsRetriable (Some e) = true.
Proof.
  intros Hr Hin. rewrite IsRetriable_existsb, (raised_Cause kind) by done.
  apply existsb_exists. exists (MicroErr kind). split; [by apply list_elem_of_In|].
  apply String.eqb_refl.
Qed.

(** C25: looking up the address of an endpoint asks Azure in the resource group of the
cluster and leaves the cluster alone.  "Not found" and an endpoint without an address
yet are errors that are retried; any other error is passed on as it is; otherwise
the result is the first address in the answer, parsed. *)
Theorem GetPrivateEndpointIPAddress_spec (sc : PrivateEndpoints.scope W) name (s : St W) c r w' :
  heap s !! azureCluster (PrivateEndpoints.BaseScope_ sc) = Some c →
  pec_Get (PrivateEndpoints.privateEndpointsClient sc) (ResourceGroup (ac_Spec c)) name
    {| Expand := Some "NetworkInterfaces" |} (world s) = (r, w') →
  ∃ ip err, PrivateEndpoints.GetPrivateEndpointIPAddress sc name s
      = (Ret (ip, err), mkSt (heap s) w') ∧
    match r with
    | Err e =>
        if IsAzureResourceNotFound (Some e) then IsPrivateEndpointNotFound err = true ∧ IsRetriable err = true
        else err = Some (Mask e)
    | Ok pep =>
        match addresses pep with
        | t :: _ => ip = net_ParseIP t ∧ err = None
        | [] => err ≠ None ∧ IsRetriable err = true
        end
    end.
Proof.
  intros Hl Hg. unfold PrivateEndpoints.GetPrivateEndpointIPAddress, GetResourceGroup.
  unfold mbind, M_bind. rewrite (load_run s _ c Hl). simpl.
  fold the_GetOptions in Hg. rewrite (call_run _ s r w' Hg). destruct r as [pep|e].
  - destruct (addresses pep) as [|t ts] eqn:Ea; simpl.
    + destruct (address_of_nil pep Ea) as (e & -> & Hr). exists [], (Some e). split; [done|].
      split; [done|]. destruct (bool_decide _) in Hr; eapply raised_retriable; try exact Hr;
        unfold retriable_kinds; rewrite !elem_of_cons; auto.
    + rewrite (address_of_cons pep t ts Ea). by do 2 eexists.
  - destruct (IsAzureResourceNotFound (Some e)); [|by do 2 eexists].
    do 2 eexists. split; [done|]. split.
    + unfold IsPrivateEndpointNotFound, PrivateEndpointNotFoundError. by rewrite Cause_Maskf.
    + eapply raised_retriable; [constructor|]. unfold retriable_kinds. rewrite !elem_of_cons. auto.
Qed.
End GetPrivateEndpointIPAddress.
