(* ===== verification/Service.v ===== *)
(** * pkg/privateendpoints/service.go: reconciling endpoints with links.

The service works against two interfaces, the endpoint scope and the private
links scope; its operations are generic in the state behind them. *)
From S2P Require Import Prelude.
From S2P Require Import GoStrings.
From S2P Require Import GoNet.
From S2P Require Import Api.
From S2P Require Import Errors.
From S2P Require Import Util.
From S2P Require Import BaseScope.
From S2P Require Import PrivateLinks.
From S2P Require Import PrivateEndpoints.

Definition ConditionGSPrivateLinksReady : string := "GSPrivateLinksReady".

Record PrivateLinksScope (S : Type) := {
  pls_GetConditions : M S (slice Condition);
  pls_GetClusterName : M S NamespacedName;
  pls_GetSubscriptionID : M S string;
  pls_GetLocation : M S string;
  pls_GetResourceGroup : M S string;
  pls_GetPrivateLinksWithAllowedSubscription : string → M S (list PrivateLink);
  pls_LookupPrivateLink : string → M S (PrivateLink * bool);
  pls_PatchObject : M S error;
  pls_PrivateLinksReady : M S bool;
  pls_SetPrivateEndpointIPAddressForWcApi : IP → M S unit;
  pls_SetPrivateEndpointIPAddressForMcIngress : IP → M S unit;
  pls_SetCondition : Condition → M S unit;
  pls_Close : M S error
}.
Arguments pls_GetConditions {S} _ _.
Arguments pls_GetClusterName {S} _ _.
Arguments pls_GetSubscriptionID {S} _ _.
Arguments pls_GetLocation {S} _ _.
Arguments pls_GetResourceGroup {S} _ _.
Arguments pls_GetPrivateLinksWithAllowedSubscription {S} _ _ _.
Arguments pls_LookupPrivateLink {S} _ _ _.
Arguments pls_PatchObject {S} _ _.
Arguments pls_PrivateLinksReady {S} _ _.
Arguments pls_SetPrivateEndpointIPAddressForWcApi {S} _ _ _.
Arguments pls_SetPrivateEndpointIPAddressForMcIngress {S} _ _ _.
Arguments pls_SetCondition {S} _ _ _.
Arguments pls_Close {S} _ _.

(** The private links scope as a value of the interface type. *)
Definition as_PrivateLinksScope {W} `{Microerror} `{ClusterApiUtil W} (s : PrivateLinks.Scope W) :
    PrivateLinksScope (St W) :=
  let b := PrivateLinks.BaseScope_ s in {|
    pls_GetConditions := GetConditions b;
    pls_GetClusterName := GetClusterName b;
    pls_GetSubscriptionID := GetSubscriptionID b;
    pls_GetLocation := GetLocation b;
    pls_GetResourceGroup := GetResourceGroup b;
    pls_GetPrivateLinksWithAllowedSubscription :=
      PrivateLinks.GetPrivateLinksWithAllowedSubscription s;
    pls_LookupPrivateLink := PrivateLinks.LookupPrivateLink s;
    pls_PatchObject := PatchObject b;
    pls_PrivateLinksReady := PrivateLinks.PrivateLinksReady s;
    pls_SetPrivateEndpointIPAddressForWcApi := PrivateLinks.SetPrivateEndpointIPAddressForWcApi s;
    pls_SetPrivateEndpointIPAddressForMcIngress :=
      PrivateLinks.SetPrivateEndpointIPAddressForMcIngress s;
    pls_SetCondition := SetCondition b;
    pls_Close := Close b
  |}.

(** ** The endpoint wanted for a link *)

Definition privateEndpointName (linkName : string) : string := linkName +:+ "-privateendpoint".
#[global] Arguments privateEndpointName _ : simpl never.

Definition needs_manual_approval (subscriptionID : string) (privateLink : PrivateLink) : bool :=
  negb (slices_Contains (ConvertToStringSlice (AutoApprovedSubscriptions privateLink))
    subscriptionID).

Definition request_message (mcName wcName : string) : string :=
  "Giant Swarm azure-private-endpoint-operator that is running in management cluster "
    +:+ mcName +:+ " created private endpoint in order to access private workload cluster "
    +:+ wcName.
#[global] Arguments request_message _ _ : simpl never.

Definition wanted_endpoint (manualApproval : bool) (requestMessage location wcSubscriptionID
    wcResourceGroup : string) (privateLink : PrivateLink) : PrivateEndpointSpec :=
  {| pe_Name := privateEndpointName (pl_Name privateLink);
     pe_Location := location;
     PrivateLinkServiceConnections :=
       [{| plsc_Name := pl_Name privateLink +:+ "-connection";
           PrivateLinkServiceID :=
             privateLinkServiceID wcSubscriptionID wcResourceGroup (pl_Name privateLink);
           RequestMessage := requestMessage |}];
     ManualApproval := manualApproval |}.

(** ** The service *)

Record Service (S : Type) := {
  privateEndpointsScope : Scope S;
  privateLinksScope : PrivateLinksScope S
}.
Arguments privateEndpointsScope {S} _.
Arguments privateLinksScope {S} _.

Section Service.
Context {S : Type} `{Microerror} `{ApiMachinery}.
(** [conditions.IsTrue] and [metav1.Now]. *)
Context (isTrue : slice Condition → string → bool) (now : M S Time).

Definition NewService (pes : option (Scope S)) (pls : option (PrivateLinksScope S)) :
    result errval (Service S) :=
  match pes with
  | None => Err (Maskf InvalidConfigError "privateEndpointsScope must be set")
  | Some pes =>
      match pls with
      | None => Err (Maskf InvalidConfigError "privateLinksScope must be set")
      | Some pls => Ok {| privateEndpointsScope := pes; privateLinksScope := pls |}
      end
  end.

(** One turn of the first loop of [ReconcileMcToWcApi]. *)
Definition reconcile_link (s : Service S) (privateLink : PrivateLink) : M S (option error) :=
  let pes := privateEndpointsScope s in
  let pls := privateLinksScope s in
  subscriptionID ← sc_GetSubscriptionID pes;
  let manualApproval := needs_manual_approval subscriptionID privateLink in
  requestMessage ←
    (if manualApproval then
       mcName ← sc_GetClusterName pes;
       wcName ← pls_GetClusterName pls;
       mret (request_message (nn_Name mcName) (nn_Name wcName))
     else mret "");
  location ← sc_GetLocation pes;
  wcSubscriptionID ← pls_GetSubscriptionID pls;
  wcResourceGroup ← pls_GetResourceGroup pls;
  let wantedPrivateEndpoint :=
    wanted_endpoint manualApproval requestMessage location wcSubscriptionID wcResourceGroup
      privateLink in
  _ ← sc_AddPrivateEndpointSpec pes wantedPrivateEndpoint;
  '(privateEndpointIPAddress, err) ←
    sc_GetPrivateEndpointIPAddress pes (pe_Name wantedPrivateEndpoint);
  match err with
  | Some e => mret (Some (Some (Mask e)))
  | None =>
      _ ← pls_SetPrivateEndpointIPAddressForWcApi pls privateEndpointIPAddress;
      mret None
  end.

(** The innermost loop of the clean-up: is some connection's link still there? *)
Fixpoint used_loop (pls : PrivateLinksScope S) (cs : list PrivateLinkServiceConnection)
    (privateEndpointIsUsed : bool) : M S bool :=
  match cs with
  | [] => mret privateEndpointIsUsed
  | c :: cs' =>
      '(_, foundPrivateLinkForTheConnection) ←
        pls_LookupPrivateLink pls (PrivateLinkServiceID c);
      used_loop pls cs' (foundPrivateLinkForTheConnection || privateEndpointIsUsed)
  end.

(** One turn of the clean-up loop of [ReconcileMcToWcApi]. *)
Definition remove_if_unused (s : Service S) (privateEndpoint : PrivateEndpointSpec) :
    M S (option error) :=
  privateEndpointIsUsed ←
    used_loop (privateLinksScope s) (PrivateLinkServiceConnections privateEndpoint) false;
  if negb privateEndpointIsUsed then
    _ ← sc_RemovePrivateEndpointByName (privateEndpointsScope s) (pe_Name privateEndpoint);
    mret None
  else mret None.

Definition ReconcileMcToWcApi (s : Service S) : M S error :=
  let pes := privateEndpointsScope s in
  let pls := privateLinksScope s in
  subscriptionID ← sc_GetSubscriptionID pes;
  privateLinks ← pls_GetPrivateLinksWithAllowedSubscription pls subscriptionID;
  if Nat.eqb (length privateLinks) 0 then
    mcName ← sc_GetClusterName pes;
    subscriptionID ← sc_GetSubscriptionID pes;
    wcName ← pls_GetClusterName pls;
    mret (Some (Maskf SubscriptionCannotConnectToPrivateLinkError
      ("MC " +:+ NamespacedName_String mcName +:+ " Azure subscription " +:+ subscriptionID +:+
       " is not allowed to connect to any private link from the private workload cluster " +:+
       NamespacedName_String wcName)))
  else
    ready ← pls_PrivateLinksReady pls;
    if negb ready then
      mret (Some (Maskf PrivateLinksNotReadyError
        "Workload cluster private links are not yet ready"))
    else
      unless_returned (for_range privateLinks (reconcile_link s)) (
        wcSubscriptionID ← pls_GetSubscriptionID pls;
        wcResourceGroup ← pls_GetResourceGroup pls;
        privateEndpointsToWorkloadCluster ←
          sc_GetPrivateEndpointsToWorkloadCluster pes wcSubscriptionID wcResourceGroup;
        unless_returned (for_range privateEndpointsToWorkloadCluster (remove_if_unused s))
          (mret None)).

(** One turn of the loop of [ReconcileWcToMcIngress]. *)
Definition reconcile_spec (s : Service S) (spec : PrivateEndpointSpec) : M S (option error) :=
  _ ← sc_AddPrivateEndpointSpec (privateEndpointsScope s) spec;
  '(ip, err) ← sc_GetPrivateEndpointIPAddress (privateEndpointsScope s) (pe_Name spec);
  match err with
  | Some e => mret (Some (Some (Mask e)))
  | None =>
      _ ← pls_SetPrivateEndpointIPAddressForMcIngress (privateLinksScope s) ip;
      mret None
  end.

Definition ReconcileWcToMcIngress (s : Service S) (specs : list PrivateEndpointSpec) :
    M S error :=
  unless_returned (for_range specs (reconcile_spec s)) (
    conditions ← pls_GetConditions (privateLinksScope s);
    if negb (isTrue conditions ConditionGSPrivateLinksReady) then
      t ← now;
      _ ← pls_SetCondition (privateLinksScope s)
        {| Type_ := ConditionGSPrivateLinksReady;
           Status := ConditionTrue;
           Severity := "";
           Reason := "";
           Message := "GiantSwarm Private Link definitions have been added";
           LastTransitionTime := t |};
      mret None
    else mret None).

Definition DeleteMcToWcApi (s : Service S) : M S error :=
  let pes := privateEndpointsScope s in
  subscriptionID ← sc_GetSubscriptionID pes;
  privateLinks ←
    pls_GetPrivateLinksWithAllowedSubscription (privateLinksScope s) subscriptionID;
  unless_returned
    (for_range privateLinks (λ privateLink,
      _ ← sc_RemovePrivateEndpointByName pes (privateEndpointName (pl_Name privateLink));
      mret None))
    (mret None).
End Service.
