(* ===== verification/ServiceSpec.v ===== *)
(** * The abstract service and its refinement.

The abstract state of a reconciliation is the endpoint slice, the annotations
and conditions of the workload cluster, and the outside world.  The heap
implementation of the two scopes simulates the abstract scopes, so the service
run on real AzureCluster objects computes what it computes on the abstract
state, and changes nothing else in memory. *)
From S2P Require Import Prelude.
From S2P Require Import GoStrings.
From S2P Require Import GoNet.
From S2P Require Import Api.
From S2P Require Import Errors.
From S2P Require Import Util.
From S2P Require Import BaseScope.
From S2P Require Import PrivateLinks.
From S2P Require Import PrivateEndpoints.
From S2P Require Import Service.

(** ** Simulation between implementations of the interfaces *)

Class ScopeSim {S1 S2} (R : S1 → S2 → Prop) (s1 : Scope S1) (s2 : Scope S2) : Prop := {
  sim_GetClusterName : sim R (sc_GetClusterName s1) (sc_GetClusterName s2);
  sim_GetSubscriptionID : sim R (sc_GetSubscriptionID s1) (sc_GetSubscriptionID s2);
  sim_GetLocation : sim R (sc_GetLocation s1) (sc_GetLocation s2);
  sim_GetPrivateEndpointsToWorkloadCluster sub rg :
    sim R (sc_GetPrivateEndpointsToWorkloadCluster s1 sub rg)
      (sc_GetPrivateEndpointsToWorkloadCluster s2 sub rg);
  sim_GetPrivateEndpointIPAddress name :
    sim R (sc_GetPrivateEndpointIPAddress s1 name) (sc_GetPrivateEndpointIPAddress s2 name);
  sim_AddPrivateEndpointSpec spec :
    sim R (sc_AddPrivateEndpointSpec s1 spec) (sc_AddPrivateEndpointSpec s2 spec);
  sim_RemovePrivateEndpointByName name :
    sim R (sc_RemovePrivateEndpointByName s1 name) (sc_RemovePrivateEndpointByName s2 name)
}.

Class LinksSim {S1 S2} (R : S1 → S2 → Prop) (s1 : PrivateLinksScope S1)
    (s2 : PrivateLinksScope S2) : Prop := {
  sim_pls_GetConditions : sim R (pls_GetConditions s1) (pls_GetConditions s2);
  sim_pls_GetClusterName : sim R (pls_GetClusterName s1) (pls_GetClusterName s2);
  sim_pls_GetSubscriptionID : sim R (pls_GetSubscriptionID s1) (pls_GetSubscriptionID s2);
  sim_pls_GetResourceGroup : sim R (pls_GetResourceGroup s1) (pls_GetResourceGroup s2);
  sim_pls_GetPrivateLinks sub :
    sim R (pls_GetPrivateLinksWithAllowedSubscription s1 sub)
      (pls_GetPrivateLinksWithAllowedSubscription s2 sub);
  sim_pls_LookupPrivateLink id :
    sim R (pls_LookupPrivateLink s1 id) (pls_LookupPrivateLink s2 id);
  sim_pls_PrivateLinksReady : sim R (pls_PrivateLinksReady s1) (pls_PrivateLinksReady s2);
  sim_pls_SetIPForWcApi ip :
    sim R (pls_SetPrivateEndpointIPAddressForWcApi s1 ip)
      (pls_SetPrivateEndpointIPAddressForWcApi s2 ip);
  sim_pls_SetIPForMcIngress ip :
    sim R (pls_SetPrivateEndpointIPAddressForMcIngress s1 ip)
      (pls_SetPrivateEndpointIPAddressForMcIngress s2 ip);
  sim_pls_SetCondition c : sim R (pls_SetCondition s1 c) (pls_SetCondition s2 c)
}.

Create HintDb service_sim.
#[export] Hint Resolve sim_GetClusterName sim_GetSubscriptionID sim_GetLocation
  sim_GetPrivateEndpointsToWorkloadCluster sim_GetPrivateEndpointIPAddress
  sim_AddPrivateEndpointSpec sim_RemovePrivateEndpointByName
  sim_pls_GetConditions sim_pls_GetClusterName sim_pls_GetSubscriptionID
  sim_pls_GetResourceGroup sim_pls_GetPrivateLinks sim_pls_LookupPrivateLink
  sim_pls_PrivateLinksReady sim_pls_SetIPForWcApi sim_pls_SetIPForMcIngress
  sim_pls_SetCondition : service_sim.

Ltac sim_service := repeat first [solve [eauto with service_sim] | sim_step].

Section service_sim.
Context {S1 S2 : Type} (R : S1 → S2 → Prop) `{Microerror} `{ApiMachinery}.
Context (isTrue : slice Condition → string → bool) (now1 : M S1 Time) (now2 : M S2 Time).
Context (s1 : Service S1) (s2 : Service S2).
Context `{!ScopeSim R (privateEndpointsScope s1) (privateEndpointsScope s2)}.
Context `{!LinksSim R (privateLinksScope s1) (privateLinksScope s2)}.
Context (sim_now : sim R now1 now2).

Lemma used_loop_sim cs used :
  sim R (used_loop (privateLinksScope s1) cs used) (used_loop (privateLinksScope s2) cs used).
Proof.
  revert used. induction cs as [|c cs IH]; intros used; simpl; sim_service.
Qed.

Lemma reconcile_link_sim pl : sim R (reconcile_link s1 pl) (reconcile_link s2 pl).
Proof. unfold reconcile_link. sim_service. Qed.

Lemma remove_if_unused_sim e : sim R (remove_if_unused s1 e) (remove_if_unused s2 e).
Proof. unfold remove_if_unused. sim_service. apply used_loop_sim. Qed.

Lemma ReconcileMcToWcApi_sim : sim R (ReconcileMcToWcApi s1) (ReconcileMcToWcApi s2).
Proof.
  unfold ReconcileMcToWcApi. sim_service; [apply reconcile_link_sim|apply remove_if_unused_sim].
Qed.

Lemma ReconcileWcToMcIngress_sim specs :
  sim R (ReconcileWcToMcIngress isTrue now1 s1 specs) (ReconcileWcToMcIngress isTrue now2 s2 specs).
Proof. unfold ReconcileWcToMcIngress, reconcile_spec. sim_service. Qed.

Lemma DeleteMcToWcApi_sim : sim R (DeleteMcToWcApi s1) (DeleteMcToWcApi s2).
Proof. unfold DeleteMcToWcApi. sim_service. Qed.
End service_sim.

(** ** The abstract machine *)

Record AbsSt (W : Type) := mkAbs {
  a_endpoints : list PrivateEndpointSpec;
  a_annotations : option (gmap string string);
  a_conditions : slice Condition;
  a_world : W
}.
Arguments mkAbs {W} _ _ _ _.
Arguments a_endpoints {W} _.
Arguments a_annotations {W} _.
Arguments a_conditions {W} _.
Arguments a_world {W} _.

(** What does not change during a reconciliation: the cluster whose endpoints are
managed ([ep_]) and the workload cluster that has the links ([wc_]). *)
Record Statics (W : Type) := {
  ep_name : NamespacedName;
  ep_SubscriptionID : string;
  ep_Location : string;
  ep_ResourceGroup : string;
  ep_client : PrivateEndpointsClient W;
  wc_name : NamespacedName;
  wc_SubscriptionID : string;
  wc_Location : string;
  wc_ResourceGroup : string;
  wc_links : list PrivateLink
}.
Arguments ep_name {W} _.
Arguments ep_SubscriptionID {W} _.
Arguments ep_Location {W} _.
Arguments ep_ResourceGroup {W} _.
Arguments ep_client {W} _.
Arguments wc_name {W} _.
Arguments wc_SubscriptionID {W} _.
Arguments wc_Location {W} _.
Arguments wc_ResourceGroup {W} _.
Arguments wc_links {W} _.

Definition statics_of {W} (ce cw : AzureCluster) (links : list PrivateLink)
    (client : PrivateEndpointsClient W) : Statics W := {|
  ep_name := cluster_name ce;
  ep_SubscriptionID := SubscriptionID (ac_Spec ce);
  ep_Location := Location (ac_Spec ce);
  ep_ResourceGroup := ResourceGroup (ac_Spec ce);
  ep_client := client;
  wc_name := cluster_name cw;
  wc_SubscriptionID := SubscriptionID (ac_Spec cw);
  wc_Location := Location (ac_Spec cw);
  wc_ResourceGroup := ResourceGroup (ac_Spec cw);
  wc_links := links
|}.

Section abstract.
Context {W : Type} `{Microerror} `{FmtVerbs} `{ClusterApiUtil W}.

(** The result of asking Azure for the address of an endpoint. *)
Definition ask_address (x : Statics W) (name : string) : IO W (IP * error) := λ w,
  let '(r, w') := pec_Get (ep_client x) (ep_ResourceGroup x) name the_GetOptions w in
  (match r with
   | Err e =>
       if IsAzureResourceNotFound (Some e)
       then ([], Some (Maskf PrivateEndpointNotFoundError "private endpoint not found"))
       else ([], Some (Mask e))
   | Ok pep => PrivateEndpoints.address_of pep
   end, w').

Definition with_endpoints (es : list PrivateEndpointSpec) (a : AbsSt W) : AbsSt W :=
  mkAbs es (a_annotations a) (a_conditions a) (a_world a).
Definition with_annotation (k v : string) (a : AbsSt W) : AbsSt W :=
  mkAbs (a_endpoints a) (annotate k v (a_annotations a)) (a_conditions a) (a_world a).
Definition with_condition (c : Condition) (a : AbsSt W) : AbsSt W :=
  mkAbs (a_endpoints a) (a_annotations a) (append (a_conditions a) c) (a_world a).
Definition with_world (w : W) (a : AbsSt W) : AbsSt W :=
  mkAbs (a_endpoints a) (a_annotations a) (a_conditions a) w.

Definition gets {A} (f : AbsSt W → A) : M (AbsSt W) A := λ a, (Ret (f a), a).
Definition updates (f : AbsSt W → AbsSt W) : M (AbsSt W) unit := λ a, (Ret (), f a).
Definition on_abs_world {A} (m : IO W A) : M (AbsSt W) A := λ a,
  let '(r, w') := m (a_world a) in (Ret r, with_world w' a).

(** The abstract scopes.  The service never patches or closes a scope. *)
Definition abs_Scope (x : Statics W) : Scope (AbsSt W) := {|
  sc_GetClusterName := mret (ep_name x);
  sc_GetSubscriptionID := mret (ep_SubscriptionID x);
  sc_GetLocation := mret (ep_Location x);
  sc_GetResourceGroup := mret (ep_ResourceGroup x);
  sc_GetPrivateEndpoints := gets a_endpoints;
  sc_GetPrivateEndpointsToWorkloadCluster sub rg :=
    gets (λ a, endpoints_to_workload_cluster sub rg (a_endpoints a));
  sc_GetPrivateEndpointIPAddress name := on_abs_world (ask_address x name);
  sc_ContainsPrivateEndpointSpec spec :=
    gets (λ a, sliceContains (a_endpoints a) spec arePrivateEndpointsEqual);
  sc_AddPrivateEndpointSpec spec :=
    updates (λ a, with_endpoints (add_spec spec (a_endpoints a)) a);
  sc_RemovePrivateEndpointByName name :=
    updates (λ a, with_endpoints (remove_by_name name (a_endpoints a)) a);
  sc_PatchObject := mret None;
  sc_Close := mret None
|}.

Definition abs_PrivateLinksScope (x : Statics W) : PrivateLinksScope (AbsSt W) := {|
  pls_GetConditions := gets a_conditions;
  pls_GetClusterName := mret (wc_name x);
  pls_GetSubscriptionID := mret (wc_SubscriptionID x);
  pls_GetLocation := mret (wc_Location x);
  pls_GetResourceGroup := mret (wc_ResourceGroup x);
  pls_GetPrivateLinksWithAllowedSubscription sub := mret (allowed_links sub (wc_links x) []);
  pls_LookupPrivateLink id :=
    mret (lookup_private_link (wc_SubscriptionID x) (wc_ResourceGroup x) (wc_links x) id);
  pls_PatchObject := mret None;
  pls_PrivateLinksReady :=
    gets (λ a, conditions_IsTrue (a_conditions a) PrivateLinksReadyCondition);
  pls_SetPrivateEndpointIPAddressForWcApi ip :=
    updates (with_annotation AzurePrivateEndpointOperatorApiServerAnnotation (net_IP_String ip));
  pls_SetPrivateEndpointIPAddressForMcIngress ip :=
    updates (with_annotation AzurePrivateEndpointOperatorMcIngressAnnotation (net_IP_String ip));
  pls_SetCondition c := updates (with_condition c);
  pls_Close := mret None
|}.

Definition abs_Service (x : Statics W) : Service (AbsSt W) := {|
  privateEndpointsScope := abs_Scope x;
  privateLinksScope := abs_PrivateLinksScope x
|}.
End abstract.

(** ** The heap that an abstract state stands for *)

Definition put_endpoints (i : nat) (es : list PrivateEndpointSpec) (c : AzureCluster) :
    AzureCluster :=
  set_Subnets (alter (set_PrivateEndpoints es) i (ac_Subnets c)) c.

Definition put_status (ann : option (gmap string string)) (cs : slice Condition)
    (c : AzureCluster) : AzureCluster :=
  set_Conditions cs (set_meta (set_Annotations ann (ac_meta c)) c).

(** Writing the slice of subnet [i] twice, the second time by index. *)
Lemma alter_PrivateEndpoints (es es' : list PrivateEndpointSpec) (sns : list SubnetSpec) i sn :
  sns !! i = Some sn →
  <[i := set_PrivateEndpoints es (set_PrivateEndpoints es' sn)]>
    (alter (set_PrivateEndpoints es') i sns) = alter (set_PrivateEndpoints es) i sns.
Proof.
  intros Hi. apply list_eq. intros j. destruct (decide (j = i)) as [->|Hne].
  - rewrite list_lookup_insert_eq, list_lookup_alter_eq, Hi; [done|].
    rewrite length_alter. by eapply lookup_lt_Some.
  - by rewrite list_lookup_insert_ne, !list_lookup_alter_ne by done.
Qed.

Section refinement.
Context {W : Type} `{Microerror} `{FmtVerbs} `{ClusterApiUtil W}.
(** Endpoint cluster [ce] at [le] with managed subnet [i]; workload cluster [cw] at
[lw].  The two locations may be the same. *)
Context (h0 : list AzureCluster) (le lw : loc) (i : nat) (ce cw : AzureCluster).

Definition overlay (a : AbsSt W) (j : loc) (c : AzureCluster) : AzureCluster :=
  let c := if decide (j = le) then put_endpoints i (a_endpoints a) c else c in
  if decide (j = lw) then put_status (a_annotations a) (a_conditions a) c else c.

Definition represents (s : St W) (a : AbsSt W) : Prop :=
  heap s = imap (overlay a) h0 ∧ world s = a_world a.

Context (Hle : h0 !! le = Some ce) (Hlw : h0 !! lw = Some cw) (sn : SubnetSpec)
  (Hi : ac_Subnets ce !! i = Some sn).

Lemma represents_heap (s : St W) a j c :
  represents s a → h0 !! j = Some c → heap s !! j = Some (overlay a j c).
Proof. intros [-> _] Hj. by rewrite list_lookup_imap, Hj. Qed.

(** The fields that no operation changes. *)
Lemma overlay_static a j c :
  cluster_name (overlay a j c) = cluster_name c ∧
  SubscriptionID (ac_Spec (overlay a j c)) = SubscriptionID (ac_Spec c) ∧
  Location (ac_Spec (overlay a j c)) = Location (ac_Spec c) ∧
  ResourceGroup (ac_Spec (overlay a j c)) = ResourceGroup (ac_Spec c).
Proof. unfold overlay. by repeat case_decide. Qed.

Lemma overlay_subnets a c :
  ac_Subnets (overlay a le c) = alter (set_PrivateEndpoints (a_endpoints a)) i (ac_Subnets c).
Proof. unfold overlay. rewrite (decide_True (P := le = le)) by done. by case_decide. Qed.

Lemma overlay_status a c :
  Conditions (overlay a lw c) = a_conditions a ∧
  Annotations (ac_meta (overlay a lw c)) = a_annotations a.
Proof. unfold overlay. rewrite (decide_True (P := lw = lw)) by done. by case_decide. Qed.

(** Writing one cell turns the heap of [a] into the heap of [a']. *)
Lemma represents_store (s : St W) a a' l c c' w' :
  represents s a → h0 !! l = Some c → overlay a' l c = c' → a_world a' = w' →
  (∀ j d, j ≠ l → overlay a' j d = overlay a j d) →
  represents (mkSt (<[l := c']> (heap s)) w') a'.
Proof.
  intros [Hh _] Hl <- <- Hother. split; [|done]. simpl. rewrite Hh. apply list_eq. intros j.
  rewrite list_lookup_imap. destruct (decide (j = l)) as [->|Hne].
  - rewrite list_lookup_insert_eq, Hl; [done|].
    rewrite length_imap. by eapply lookup_lt_Some.
  - rewrite list_lookup_insert_ne, list_lookup_imap by done.
    destruct (h0 !! j); simpl; [by rewrite Hother|done].
Qed.

Lemma represents_world (s : St W) a w : represents s a → represents (mkSt (heap s) w) (with_world w a).
Proof. intros [Hh _]. by split. Qed.

(** *** The two scopes simulate the abstract scopes *)

Context (sc : PrivateEndpoints.scope W) (ls : PrivateLinks.Scope W).
Context (Hsc : azureCluster (PrivateEndpoints.BaseScope_ sc) = le)
  (Hsi : PrivateEndpoints.privateEndpoints_subnet sc = i)
  (Hls : azureCluster (PrivateLinks.BaseScope_ ls) = lw).

Let x : Statics W := statics_of ce cw (PrivateLinks.privateLinks ls)
  (PrivateEndpoints.privateEndpointsClient sc).

(** Reads of a field that never changes. *)
Lemma sim_read {A} l c (f : AzureCluster → A) (v : AbsSt W → A) :
  h0 !! l = Some c → (∀ a, f (overlay a l c) = v a) →
  sim represents (c ← load l; mret (f c)) (gets v).
Proof.
  intros Hl Hf s a HR. pose proof (represents_heap s a l c HR Hl). run_load.
  simpl. by rewrite Hf.
Qed.

Lemma represents_endpoints (s : St W) a :
  represents s a →
  heap s !! le = Some (overlay a le ce) ∧
  ac_Subnets (overlay a le ce) !! i = Some (set_PrivateEndpoints (a_endpoints a) sn).
Proof.
  intros HR. split; [by apply represents_heap|].
  by rewrite overlay_subnets, list_lookup_alter_eq, Hi.
Qed.

Lemma read_endpoints_run (s : St W) a :
  represents s a → PrivateEndpoints.read_endpoints sc s = (Ret (a_endpoints a), s).
Proof.
  intros HR. destruct (represents_endpoints s a HR) as [Hl Hsn].
  unfold PrivateEndpoints.read_endpoints. rewrite Hsc, Hsi. run_load. by rewrite Hsn.
Qed.

Lemma overlay_with_endpoints a es :
  set_Subnets (<[i := set_PrivateEndpoints es (set_PrivateEndpoints (a_endpoints a) sn)]>
    (ac_Subnets (overlay a le ce))) (overlay a le ce) = overlay (with_endpoints es a) le ce.
Proof.
  rewrite overlay_subnets, alter_PrivateEndpoints by done.
  unfold overlay. rewrite !(decide_True (P := le = le)) by done. by case_decide.
Qed.

Lemma write_endpoints_run (s : St W) a es :
  represents s a →
  ∃ s', PrivateEndpoints.write_endpoints sc es s = (Ret (), s') ∧
    represents s' (with_endpoints es a).
Proof.
  intros HR. destruct (represents_endpoints s a HR) as [Hl Hsn].
  unfold PrivateEndpoints.write_endpoints. rewrite Hsc, Hsi. run_load. rewrite Hsn. simpl.
  rewrite (bind_Ret _ _ s _ s (mret_run _ s)), (store_run s le _ _ Hl).
  eexists; split; [done|]. rewrite overlay_with_endpoints.
  eapply represents_store; [done|done|done|by destruct HR|].
  intros j d Hne. unfold overlay. by rewrite !(decide_False (P := j = le)).
Qed.

(** A status write through the links scope's pointer. *)
Lemma store_status_sim (s : St W) a c' a' :
  represents s a → overlay a' lw cw = c' → a_world a' = a_world a →
  a_endpoints a' = a_endpoints a →
  represents (mkSt (<[lw := c']> (heap s)) (world s)) a'.
Proof.
  intros HR Hc Hw He. eapply represents_store; [done|done|done|by destruct HR as [_ ->]|].
  intros j d Hne. unfold overlay. rewrite He. by rewrite !(decide_False (P := j = lw)).
Qed.

Lemma SetAnnotation_sim k v :
  sim represents (SetAnnotation (PrivateLinks.BaseScope_ ls) k v)
    (updates (with_annotation k v)).
Proof.
  intros s a HR. pose proof (represents_heap s a lw cw HR Hlw) as Hl.
  rewrite <- Hls in Hl at 1. rewrite (SetAnnotation_run _ _ _ _ _ Hl). split; [done|]. simpl.
  rewrite Hls. destruct (overlay_status a cw) as [_ ->].
  apply (store_status_sim s a); [done| |done|done].
  unfold overlay. rewrite !(decide_True (P := lw = lw)) by done. by case_decide.
Qed.

Lemma SetCondition_sim cond :
  sim represents (SetCondition (PrivateLinks.BaseScope_ ls) cond) (updates (with_condition cond)).
Proof.
  intros s a HR. pose proof (represents_heap s a lw cw HR Hlw) as Hl.
  rewrite <- Hls in Hl at 1. rewrite (SetCondition_run _ _ _ _ Hl). split; [done|]. simpl.
  rewrite Hls. destruct (overlay_status a cw) as [-> _].
  apply (store_status_sim s a); [done| |done|done].
  unfold overlay. rewrite !(decide_True (P := lw = lw)) by done. by case_decide.
Qed.

Lemma GetPrivateEndpointIPAddress_sim name :
  sim represents (PrivateEndpoints.GetPrivateEndpointIPAddress sc name)
    (on_abs_world (ask_address x name)).
Proof.
  intros s a HR. pose proof (represents_heap s a le ce HR Hle) as Hl.
  destruct (overlay_static a le ce) as (_ & _ & _ & Hrg).
  unfold PrivateEndpoints.GetPrivateEndpointIPAddress, GetResourceGroup.
  rewrite Hsc. unfold mbind, M_bind. rewrite (load_run s le _ Hl). simpl. rewrite Hrg.
  unfold call, on_abs_world, ask_address. simpl. destruct HR as [Hh <-].
  destruct (pec_Get _ _ _ _ (world s)) as [[pep|e] w'];
    [|destruct (IsAzureResourceNotFound (Some e))]; by split.
Qed.

Lemma RemovePrivateEndpointByName_sim name :
  sim represents (PrivateEndpoints.RemovePrivateEndpointByName sc name)
    (updates (λ a, with_endpoints (remove_by_name name (a_endpoints a)) a)).
Proof.
  intros s a HR. unfold PrivateEndpoints.RemovePrivateEndpointByName.
  rewrite (bind_Ret _ _ _ _ _ (read_endpoints_run s a HR)).
  by destruct (write_endpoints_run s a (remove_by_name name (a_endpoints a)) HR)
    as (s' & -> & HR').
Qed.

Lemma AddPrivateEndpointSpec_sim spec :
  sim represents (PrivateEndpoints.AddPrivateEndpointSpec sc spec)
    (updates (λ a, with_endpoints (add_spec spec (a_endpoints a)) a)).
Proof.
  intros s a HR. pose proof (read_endpoints_run s a HR) as Hread.
  unfold PrivateEndpoints.AddPrivateEndpointSpec, PrivateEndpoints.ContainsPrivateEndpointSpec.
  unfold mbind, M_bind. rewrite Hread. simpl. rewrite add_spec_code.
  destruct (sliceContains _ _ _); simpl; [by destruct a|]. rewrite Hread.
  by destruct (write_endpoints_run s a (a_endpoints a ++ [spec]) HR) as (s' & -> & HR').
Qed.

(** Runs of the static getters, related to constants. *)
Lemma sim_gets_const {A} (m : M (St W) A) (v : A) :
  sim represents m (gets (λ _, v)) → sim represents m (mret v).
Proof. done. Qed.

#[local] Instance scope_sim :
  ScopeSim represents (PrivateEndpoints.as_Scope sc) (abs_Scope x).
Proof.
  split; simpl; intros; try (unfold GetClusterName, GetSubscriptionID, GetLocation; rewrite Hsc).
  1-3: apply sim_gets_const, (sim_read le ce); [done|]; intros a; apply overlay_static.
  - intros s a HR. unfold PrivateEndpoints.GetPrivateEndpointsToWorkloadCluster.
    by rewrite (bind_Ret _ _ _ _ _ (read_endpoints_run s a HR)).
  - apply GetPrivateEndpointIPAddress_sim.
  - apply AddPrivateEndpointSpec_sim.
  - apply RemovePrivateEndpointByName_sim.
Qed.

#[local] Instance links_sim :
  LinksSim represents (as_PrivateLinksScope ls) (abs_PrivateLinksScope x).
Proof.
  split; simpl; intros;
    try (unfold GetConditions, GetClusterName, GetSubscriptionID, GetResourceGroup; rewrite Hls).
  - apply (sim_read lw cw); [done|]. intros a. apply overlay_status.
  - apply sim_gets_const, (sim_read lw cw); [done|]. intros a; apply overlay_static.
  - apply sim_gets_const, (sim_read lw cw); [done|]. intros a; apply overlay_static.
  - apply sim_gets_const, (sim_read lw cw); [done|]. intros a; apply overlay_static.
  - apply sim_ret.
  - intros s a HR. pose proof (represents_heap s a lw cw HR Hlw) as Hl.
    unfold PrivateLinks.LookupPrivateLink, GetSubscriptionID, GetResourceGroup. rewrite Hls.
    unfold mbind, M_bind. rewrite (load_run s lw _ Hl). simpl. rewrite (load_run s lw _ Hl).
    destruct (overlay_static a lw cw) as (_ & Hsub & _ & Hrg). simpl. by rewrite Hsub, Hrg.
  - unfold PrivateLinks.PrivateLinksReady, IsConditionTrue. rewrite Hls.
    apply (sim_read lw cw); [done|]. intros a. by destruct (overlay_status a cw) as [-> _].
  - apply SetAnnotation_sim.
  - apply SetAnnotation_sim.
  - apply SetCondition_sim.
Qed.
End refinement.

(** ** The refinement theorems *)

(** The scopes point to allocated objects: [ce] is the cluster whose endpoints are
managed, in subnet [sn], and [cw] the workload cluster. *)
Record wired {W} `{ClusterApiUtil W} (h : list AzureCluster) (sc : PrivateEndpoints.scope W)
    (ls : PrivateLinks.Scope W) (ce cw : AzureCluster) (sn : SubnetSpec) : Prop := {
  wired_endpoints : h !! azureCluster (PrivateEndpoints.BaseScope_ sc) = Some ce;
  wired_links : h !! azureCluster (PrivateLinks.BaseScope_ ls) = Some cw;
  wired_subnet : ac_Subnets ce !! PrivateEndpoints.privateEndpoints_subnet sc = Some sn
}.

(** The service on heap scopes, and on the abstract state. *)
Definition heap_Service {W} `{Microerror} `{FmtVerbs} `{ClusterApiUtil W}
    (sc : PrivateEndpoints.scope W) (ls : PrivateLinks.Scope W) : Service (St W) :=
  {| privateEndpointsScope := PrivateEndpoints.as_Scope sc;
     privateLinksScope := as_PrivateLinksScope ls |}.

Section refines.
Context {W : Type} `{Microerror} `{FmtVerbs} `{ApiMachinery} `{ClusterApiUtil W}.
Context (h0 : list AzureCluster) (sc : PrivateEndpoints.scope W) (ls : PrivateLinks.Scope W)
  (ce cw : AzureCluster) (sn : SubnetSpec) (Hw : wired h0 sc ls ce cw sn).

Definition wired_statics : Statics W :=
  statics_of ce cw (PrivateLinks.privateLinks ls) (PrivateEndpoints.privateEndpointsClient sc).

Definition repr : St W → AbsSt W → Prop :=
  represents h0 (azureCluster (PrivateEndpoints.BaseScope_ sc))
    (azureCluster (PrivateLinks.BaseScope_ ls)) (PrivateEndpoints.privateEndpoints_subnet sc).

(** The abstract state of the heap a reconciliation starts from. *)
Definition initial_abs (w : W) : AbsSt W :=
  mkAbs (PrivateEndpoints sn) (Annotations (ac_meta cw)) (Conditions cw) w.

Lemma put_endpoints_same i c sn' :
  ac_Subnets c !! i = Some sn' → put_endpoints i (PrivateEndpoints sn') c = c.
Proof.
  intros Hi. unfold put_endpoints.
  rewrite (list_alter_same _ i _ sn' Hi) by (by destruct sn').
  by destruct c as [? [? ? ? ? []] ?].
Qed.

Lemma put_status_same c : put_status (Annotations (ac_meta c)) (Conditions c) c = c.
Proof. by destruct c as [[] ? ?]. Qed.

Lemma repr_initial w : repr (mkSt h0 w) (initial_abs w).
Proof.
  split; [|done]. simpl. apply list_eq. intros j. rewrite list_lookup_imap.
  destruct (h0 !! j) as [c|] eqn:Hj; simpl; [|done]. f_equal. unfold overlay. simpl.
  destruct Hw as [He Hl Hi].
  destruct (decide (j = azureCluster (PrivateEndpoints.BaseScope_ sc))) as [->|].
  - simplify_eq. rewrite put_endpoints_same by done.
    destruct (decide _) as [E|]; [|done]. rewrite <- E in Hl. simplify_eq.
    by rewrite put_status_same.
  - destruct (decide _) as [->|]; [|done]. simplify_eq. by rewrite put_status_same.
Qed.

#[local] Instance heap_scope_sim :
  ScopeSim repr (privateEndpointsScope (heap_Service sc ls))
    (privateEndpointsScope (abs_Service wired_statics)).
Proof. destruct Hw. by eapply scope_sim. Qed.
#[local] Instance heap_links_sim :
  LinksSim repr (privateLinksScope (heap_Service sc ls))
    (privateLinksScope (abs_Service wired_statics)).
Proof. destruct Hw. by eapply links_sim. Qed.

(** C16: refinement.  Run on two real AzureCluster objects (one and the same object
included), [ReconcileMcToWcApi] returns what the abstract service returns, and
ends in the heap that differs from the first one only in the endpoints of the
managed subnet and in the annotations and conditions of the workload cluster,
which are those of the abstract result. *)
Theorem ReconcileMcToWcApi_refines s a :
  repr s a →
  (ReconcileMcToWcApi (heap_Service sc ls) s).1
    = (ReconcileMcToWcApi (abs_Service wired_statics) a).1 ∧
  repr (ReconcileMcToWcApi (heap_Service sc ls) s).2
    (ReconcileMcToWcApi (abs_Service wired_statics) a).2.
Proof. apply (ReconcileMcToWcApi_sim repr); apply _. Qed.

(** Refinement of [DeleteMcToWcApi], as above. *)
Theorem DeleteMcToWcApi_refines s a :
  repr s a →
  (DeleteMcToWcApi (heap_Service sc ls) s).1
    = (DeleteMcToWcApi (abs_Service wired_statics) a).1 ∧
  repr (DeleteMcToWcApi (heap_Service sc ls) s).2
    (DeleteMcToWcApi (abs_Service wired_statics) a).2.
Proof. apply (DeleteMcToWcApi_sim repr); apply _. Qed.

Lemma now_sim (now : IO W Time) : sim repr (call now) (on_abs_world now).
Proof.
  intros s a HR. unfold call, on_abs_world. destruct HR as [Hh Ew]. rewrite Ew.
  destruct (now (a_world a)) as [t w']. by split.
Qed.
End refines.
