(* ===== verification/Reconciliation.v ===== *)
(** * What a reconciliation does: closed forms and correctness of the service.

The abstract service of [ServiceSpec] is computed in closed form, and the
properties of its result are proved on the closed form. *)
From S2P Require Import Prelude.
From S2P Require Import GoStrings.
From S2P Require Import GoNet.
From S2P Require Import Api.
From S2P Require Import Errors.
From S2P Require Import Util.
From S2P Require Import BaseScope.
From S2P Require Import PrivateLinks.
From S2P Require Import PrivateEndpoints.
From S2P Require Import Service.
From S2P Require Import ServiceSpec.

Section reconciliation.
Context {W : Type} `{Microerror} `{FmtVerbs} `{ApiMachinery} `{ClusterApiUtil W}.
Implicit Types (x : Statics W) (a : AbsSt W) (e : PrivateEndpointSpec)
  (es : list PrivateEndpointSpec).

(** ** Closed forms *)

(** The endpoint the operator wants for a link. *)
Definition wanted x (l : PrivateLink) : PrivateEndpointSpec :=
  let manual := needs_manual_approval (ep_SubscriptionID x) l in
  wanted_endpoint manual
    (if manual then request_message (nn_Name (ep_name x)) (nn_Name (wc_name x)) else "")
    (ep_Location x) (wc_SubscriptionID x) (wc_ResourceGroup x) l.

(** Adds an endpoint and asks for its address. *)
Definition add_and_ask x (spec : PrivateEndpointSpec) a : (IP * error) * AbsSt W :=
  let '(r, w') := ask_address x (pe_Name spec) (a_world a) in
  (r, with_world w' (with_endpoints (add_spec spec (a_endpoints a)) a)).

(** Adds endpoints one by one and annotates the workload cluster with each address,
up to the first error. *)
Fixpoint ask_all x (key : string) (specs : list PrivateEndpointSpec) a : error * AbsSt W :=
  match specs with
  | [] => (None, a)
  | spec :: specs' =>
      match add_and_ask x spec a with
      | ((_, Some err), a') => (Some (Mask err), a')
      | ((ip, None), a') => ask_all x key specs' (with_annotation key (net_IP_String ip) a')
      end
  end.

Definition link_run x (links : list PrivateLink) a : error * AbsSt W :=
  ask_all x AzurePrivateEndpointOperatorApiServerAnnotation (wanted x <$> links) a.

(** Does some connection of [e] lead to a link that the workload cluster has? *)
Definition used x e : bool :=
  existsb (λ c, (lookup_private_link (wc_SubscriptionID x) (wc_ResourceGroup x) (wc_links x)
    (PrivateLinkServiceID c)).2) (PrivateLinkServiceConnections e).

Definition wc_prefix x : string :=
  workloadClusterSubscriptionIDPrefix (wc_SubscriptionID x) (wc_ResourceGroup x).

Definition remove_unused x (todo es : list PrivateEndpointSpec) : list PrivateEndpointSpec :=
  foldl (λ es e, if used x e then es else remove_by_name (pe_Name e) es) es todo.

Definition clean_up x es : list PrivateEndpointSpec :=
  remove_unused x (filter (connects_to (wc_prefix x)) es) es.

Definition links_for_mc x : list PrivateLink :=
  filter (λ l, Some (ep_SubscriptionID x) ∈ AllowedSubscriptions l) (wc_links x).

Definition no_links_error x : errval :=
  Maskf SubscriptionCannotConnectToPrivateLinkError
    ("MC " +:+ NamespacedName_String (ep_name x) +:+ " Azure subscription " +:+
     ep_SubscriptionID x +:+
     " is not allowed to connect to any private link from the private workload cluster " +:+
     NamespacedName_String (wc_name x)).

Definition not_ready_error : errval :=
  Maskf PrivateLinksNotReadyError "Workload cluster private links are not yet ready".

Definition mc_to_wc_api x a : error * AbsSt W :=
  match links_for_mc x with
  | [] => (Some (no_links_error x), a)
  | links =>
      if conditions_IsTrue (a_conditions a) PrivateLinksReadyCondition then
        match link_run x links a with
        | (Some err, a') => (Some err, a')
        | (None, a') => (None, with_endpoints (clean_up x (a_endpoints a')) a')
        end
      else (Some not_ready_error, a)
  end.

Lemma used_loop_run x cs u a :
  used_loop (abs_PrivateLinksScope x) cs u a =
    (Ret (u || existsb (λ c, (lookup_private_link (wc_SubscriptionID x) (wc_ResourceGroup x)
       (wc_links x) (PrivateLinkServiceID c)).2) cs), a).
Proof.
  revert u. induction cs as [|c cs IH]; intros u; simpl; [by rewrite orb_false_r|].
  unfold mbind, M_bind. simpl. destruct (lookup_private_link _ _ _ _) as [pl f] eqn:E. simpl.
  rewrite IH. do 2 f_equal. by destruct u, f.
Qed.

Lemma remove_if_unused_run x e a :
  remove_if_unused (abs_Service x) e a =
    (Ret None, if used x e then a
               else with_endpoints (remove_by_name (pe_Name e) (a_endpoints a)) a).
Proof.
  unfold remove_if_unused. rewrite (bind_Ret _ _ _ _ _ (used_loop_run x _ false a)).
  fold (used x e). by destruct (used x e).
Qed.

Lemma remove_loop_run x todo a :
  for_range todo (remove_if_unused (abs_Service x)) a =
    (Ret None, with_endpoints (remove_unused x todo (a_endpoints a)) a).
Proof.
  revert a. induction todo as [|e todo IH]; intros a; [by destruct a|].
  rewrite for_range_cons, remove_if_unused_run, IH. simpl. by destruct (used x e).
Qed.

Lemma reconcile_link_run x l a :
  reconcile_link (abs_Service x) l a =
    match add_and_ask x (wanted x l) a with
    | ((_, Some err), a') => (Ret (Some (Some (Mask err))), a')
    | ((ip, None), a') => (Ret None,
        with_annotation AzurePrivateEndpointOperatorApiServerAnnotation (net_IP_String ip) a')
    end.
Proof.
  unfold reconcile_link, add_and_ask, wanted, wanted_endpoint. unfold mbind, M_bind. simpl.
  unfold on_abs_world.
  destruct (needs_manual_approval (ep_SubscriptionID x) l); simpl;
    by destruct (ask_address _ _ _) as [[ip [err|]] w'].
Qed.

Lemma link_loop_run x links a :
  for_range links (reconcile_link (abs_Service x)) a =
    match link_run x links a with
    | (Some err, a') => (Ret (Some (Some err)), a')
    | (None, a') => (Ret None, a')
    end.
Proof.
  revert a. induction links as [|l links IH]; intros a; [done|].
  rewrite for_range_cons, reconcile_link_run. unfold link_run. cbn [fmap list_fmap ask_all].
  by destruct (add_and_ask x (wanted x l) a) as [[ip [err|]] a'].
Qed.

#[local] Arguments link_run x links a : simpl never.

Lemma ReconcileMcToWcApi_run x a :
  ReconcileMcToWcApi (abs_Service x) a =
    let '(err, a') := mc_to_wc_api x a in (Ret err, a').
Proof.
  unfold ReconcileMcToWcApi, mc_to_wc_api, links_for_mc, mbind, M_bind. simpl.
  rewrite allowed_links_filter. simpl.
  destruct (filter _ (wc_links x)) as [|l links] eqn:E; [done|]. simpl. unfold gets.
  destruct (conditions_IsTrue _ _); simpl; [|reflexivity]. unfold unless_returned.
  unfold mbind, M_bind. rewrite link_loop_run.
  destruct (link_run x (l :: links) a) as [[err|] a'] eqn:El; [reflexivity|]. simpl.
  rewrite endpoints_to_workload_cluster_filter, remove_loop_run. reflexivity.
Qed.

(** ** The first loop: adding what is wanted *)

Definition add_specs (specs es : list PrivateEndpointSpec) : list PrivateEndpointSpec :=
  foldl (λ es spec, add_spec spec es) es specs.

Definition add_wanted x (links : list PrivateLink) es : list PrivateEndpointSpec :=
  foldl (λ es l, add_spec (wanted x l) es) es links.

Lemma add_wanted_cons x l links es :
  add_wanted x (l :: links) es = add_wanted x links (add_spec (wanted x l) es).
Proof. done. Qed.

Lemma add_and_ask_endpoints x spec a r a' :
  add_and_ask x spec a = (r, a') →
  a_endpoints a' = add_spec spec (a_endpoints a) ∧ a_conditions a' = a_conditions a ∧
  a_annotations a' = a_annotations a.
Proof. unfold add_and_ask. destruct (ask_address _ _ _). by intros [= <- <-]. Qed.

(** However the loop ends, it has added the endpoints of the first [k] links. *)
Lemma ask_all_endpoints x key specs a err a' :
  ask_all x key specs a = (err, a') →
  a_conditions a' = a_conditions a ∧
  ∃ k, a_endpoints a' = add_specs (take k specs) (a_endpoints a) ∧
    (err = None → take k specs = specs).
Proof.
  revert a. induction specs as [|spec specs IH]; intros a.
  - intros [= <- <-]. split; [done|]. by exists 0.
  - cbn [ask_all]. destruct (add_and_ask x spec a) as [[ip [e|]] a1] eqn:Ea;
      destruct (add_and_ask_endpoints _ _ _ _ _ Ea) as (He & Hc & _).
    + intros [= <- <-]. split; [done|]. exists 1. split; [by rewrite He|done].
    + intros Hrun. destruct (IH _ Hrun) as (Hc' & k & He' & Hk). split; [by rewrite Hc'|].
      exists (S k). split; [rewrite He'; simpl; by rewrite He|]. intros Hn. simpl. by rewrite (Hk Hn).
Qed.

Lemma add_specs_wanted x links es : add_specs (wanted x <$> links) es = add_wanted x links es.
Proof. revert es. induction links as [|l links IH]; intros es; [done|]. apply IH. Qed.

Lemma link_run_endpoints x links a err a' :
  link_run x links a = (err, a') →
  a_conditions a' = a_conditions a ∧
  ∃ k, a_endpoints a' = add_wanted x (take k links) (a_endpoints a) ∧
    (err = None → take k links = links).
Proof.
  intros (Hc & k & He & Hk)%ask_all_endpoints. split; [done|]. exists k.
  rewrite <- fmap_take, add_specs_wanted in He. split; [done|]. intros Hn.
  specialize (Hk Hn). rewrite <- fmap_take in Hk. apply (f_equal length) in Hk.
  rewrite !length_fmap, length_take in Hk. apply take_ge. lia.
Qed.

Lemma add_wanted_prefix x links es : es `prefix_of` add_wanted x links es.
Proof.
  revert es. induction links as [|l links IH]; intros es; [done|].
  rewrite add_wanted_cons. etrans; [apply add_spec_prefix|apply IH].
Qed.

Lemma NoDup_add_wanted x links es : NoDup (names es) → NoDup (names (add_wanted x links es)).
Proof.
  revert es. induction links as [|l links IH]; intros es Hnd; [done|].
  rewrite add_wanted_cons. by apply IH, NoDup_add_spec.
Qed.

Lemma elem_of_names_add_wanted x links es n :
  n ∈ names (add_wanted x links es) ↔
  n ∈ names es ∨ ∃ l, l ∈ links ∧ n = privateEndpointName (pl_Name l).
Proof.
  revert es. induction links as [|l links IH]; intros es.
  - split; [by left|]. intros [?|(l & Hl & _)]; [done|]. by apply elem_of_nil in Hl.
  - rewrite add_wanted_cons, IH, elem_of_names_add_spec. split.
    + intros [[->|?]|(l' & ? & ->)]; [right|by left|right].
      * exists l. split; [by left|done].
      * exists l'. split; [by right|done].
    + intros [?|(l' & Hl & ->)]; [by left; right|].
      apply elem_of_cons in Hl as [->|?]; [by left; left|]. right. by exists l'.
Qed.

Lemma elem_of_add_wanted x links es e :
  e ∈ add_wanted x links es → e ∈ es ∨ ∃ l, l ∈ links ∧ e = wanted x l.
Proof.
  revert es. induction links as [|l links IH]; intros es; [by left|].
  rewrite add_wanted_cons. intros Hin. apply IH in Hin as [Hin|(l' & Hl & ->)].
  - destruct (add_spec_cases (wanted x l) es) as [[_ E]|[_ E]]; rewrite E in Hin; [by left|].
    apply elem_of_app in Hin as [?|Hin]; [by left|].
    apply list_elem_of_singleton in Hin as ->. right. exists l. split; [by left|done].
  - right. exists l'. split; [by right|done].
Qed.

(** A wanted endpoint belongs to the workload cluster, and is in use. *)
Lemma wanted_connects x l : connects_to (wc_prefix x) (wanted x l).
Proof.
  eexists. split; [by apply list_elem_of_singleton|]. simpl.
  unfold wc_prefix, workloadClusterSubscriptionIDPrefix, privateLinkServiceID.
  apply prefix_spec. eexists. by rewrite !app_assoc_string.
Qed.

Lemma wanted_used x l : l ∈ wc_links x → used x (wanted x l) = true.
Proof.
  intros Hl. unfold used, wanted, wanted_endpoint. simpl. rewrite orb_false_r.
  apply lookup_private_link_true. by exists l.
Qed.

(** Endpoints of other clusters are left where they are. *)
Lemma add_wanted_others x links es :
  filter (λ e, ¬ connects_to (wc_prefix x) e) (add_wanted x links es) =
  filter (λ e, ¬ connects_to (wc_prefix x) e) es.
Proof.
  revert es. induction links as [|l links IH]; intros es; [done|].
  rewrite add_wanted_cons, IH.
  destruct (add_spec_cases (wanted x l) es) as [[_ ->]|[_ ->]]; [done|].
  rewrite filter_app, filter_cons_False; [by rewrite app_nil_r|].
  intros Hn. apply Hn, wanted_connects.
Qed.

(** ** The clean-up loop *)

Lemma NoDup_remove_unused x todo es :
  NoDup (names es) → NoDup (names (remove_unused x todo es)).
Proof.
  revert es. induction todo as [|e todo IH]; intros es Hnd; [done|]. simpl. apply IH.
  destruct (used x e); [done|by apply NoDup_remove_by_name].
Qed.

Lemma remove_unused_filter x todo es :
  NoDup (names es) →
  remove_unused x todo es =
    filter (λ e, pe_Name e ∉ names (filter (λ e', used x e' = false) todo)) es.
Proof.
  revert es. induction todo as [|e todo IH]; intros es Hnd.
  - symmetry. apply filter_all. intros e'. apply not_elem_of_nil.
  - unfold remove_unused. simpl. fold (remove_unused x todo).
    rewrite filter_cons. destruct (used x e) eqn:Eu.
    + rewrite decide_False by done. by apply IH.
    + rewrite decide_True by done. fold (remove_unused x todo (remove_by_name (pe_Name e) es)).
      rewrite IH by (by apply NoDup_remove_by_name).
      rewrite remove_by_name_filter, list_filter_filter by done.
      apply list_filter_iff. intros e'. rewrite fmap_cons, not_elem_of_cons. tauto.
Qed.

Lemma NoDup_names_inj es e1 e2 :
  NoDup (names es) → e1 ∈ es → e2 ∈ es → pe_Name e1 = pe_Name e2 → e1 = e2.
Proof.
  intros Hnd Hin1 Hin2. induction es as [|e es IH]; [by apply elem_of_nil in Hin1|].
  rewrite fmap_cons, NoDup_cons in Hnd. destruct Hnd as [Hni Hnd].
  apply elem_of_cons in Hin1 as [->|Hin1]; apply elem_of_cons in Hin2 as [->|Hin2]; [done| | |auto].
  - intros Heq. destruct Hni. rewrite Heq. by apply list_elem_of_fmap_2.
  - intros Heq. destruct Hni. rewrite <- Heq. by apply list_elem_of_fmap_2.
Qed.

(** With unique names, the clean-up keeps the endpoints of other clusters and those
of this cluster that are in use. *)
Lemma clean_up_filter x es :
  NoDup (names es) →
  clean_up x es = filter (λ e, ¬ connects_to (wc_prefix x) e ∨ used x e = true) es.
Proof.
  intros Hnd. unfold clean_up. rewrite remove_unused_filter by done.
  assert (Hiff : ∀ e, e ∈ es →
    pe_Name e ∉ names (filter (λ e', used x e' = false) (filter (connects_to (wc_prefix x)) es)) ↔
    ¬ connects_to (wc_prefix x) e ∨ used x e = true).
  { intros e He. rewrite list_elem_of_fmap. split.
    - intros Hni. destruct (decide (connects_to (wc_prefix x) e)); [right|by left].
      apply not_false_iff_true. intros Hu. apply Hni. exists e.
      by rewrite !list_elem_of_filter.
    - intros Hor (e' & Hn & Hin). rewrite !list_elem_of_filter in Hin.
      destruct Hin as (Hu & Hc & He').
      rewrite (NoDup_names_inj es e e') in Hor by done. destruct Hor; congruence. }
  clear Hnd. revert Hiff. generalize (names (filter (λ e', used x e' = false)
    (filter (connects_to (wc_prefix x)) es))) as ns. intros ns Hiff.
  induction es as [|e es IH]; [done|]. rewrite !filter_cons.
  rewrite IH by (intros; apply Hiff; by right). specialize (Hiff e ltac:(by left)).
  by destruct (decide (pe_Name e ∉ ns)), (decide (¬ connects_to (wc_prefix x) e ∨ used x e = true));
    try tauto.
Qed.

(** ** The whole run *)

(** The endpoints that a successful run leaves. *)
Definition reconciled x es : list PrivateEndpointSpec :=
  filter (λ e, ¬ connects_to (wc_prefix x) e ∨ used x e = true)
    (add_wanted x (links_for_mc x) es).

Lemma mc_to_wc_api_success x a a' :
  mc_to_wc_api x a = (None, a') →
  links_for_mc x ≠ [] ∧ conditions_IsTrue (a_conditions a) PrivateLinksReadyCondition = true ∧
  ∃ a1, link_run x (links_for_mc x) a = (None, a1) ∧
    a_endpoints a1 = add_wanted x (links_for_mc x) (a_endpoints a) ∧
    a' = with_endpoints (clean_up x (a_endpoints a1)) a1.
Proof.
  unfold mc_to_wc_api. destruct (links_for_mc x) as [|l links]; [done|].
  destruct (conditions_IsTrue _ _); [|done].
  destruct (link_run x (l :: links) a) as [[e|] a1] eqn:E; [done|].
  intros [= <-]. split; [done|]. split; [done|]. exists a1. split; [done|]. split; [|done].
  destruct (link_run_endpoints _ _ _ _ _ E) as (_ & k & -> & Hk). by rewrite Hk.
Qed.

Lemma mc_to_wc_api_endpoints x a a' :
  NoDup (names (a_endpoints a)) → mc_to_wc_api x a = (None, a') →
  a_endpoints a' = reconciled x (a_endpoints a).
Proof.
  intros Hnd (_ & _ & a1 & _ & He & ->)%mc_to_wc_api_success. simpl.
  rewrite He. by apply clean_up_filter, NoDup_add_wanted.
Qed.

(** A failing run has only added endpoints. *)
Lemma mc_to_wc_api_failure x a err a' :
  mc_to_wc_api x a = (Some err, a') →
  a_conditions a' = a_conditions a ∧
  ∃ k, a_endpoints a' = add_wanted x (take k (links_for_mc x)) (a_endpoints a).
Proof.
  unfold mc_to_wc_api. destruct (links_for_mc x) as [|l links].
  { intros [= _ <-]. split; [done|]. by exists 0. }
  destruct (conditions_IsTrue _ _).
  - destruct (link_run x (l :: links) a) as [[e|] a1] eqn:E; [|done]. intros [= -> <-].
    destruct (link_run_endpoints _ _ _ _ _ E) as (Hc & k & He & _). eauto.
  - intros [= _ <-]. split; [done|]. by exists 0.
Qed.

Lemma reconciled_others x es :
  filter (λ e, ¬ connects_to (wc_prefix x) e) (reconciled x es) =
  filter (λ e, ¬ connects_to (wc_prefix x) e) es.
Proof.
  unfold reconciled. rewrite list_filter_filter, <- (add_wanted_others x (links_for_mc x) es).
  apply list_filter_iff. tauto.
Qed.

Lemma links_for_mc_subset x l : l ∈ links_for_mc x → l ∈ wc_links x.
Proof. intros Hl. by apply list_elem_of_filter in Hl as [_ ?]. Qed.

Lemma add_wanted_known x links es :
  (∀ l, l ∈ links → privateEndpointName (pl_Name l) ∈ names es) → add_wanted x links es = es.
Proof.
  induction links as [|l links IH]; intros Hall; [done|].
  rewrite add_wanted_cons, add_spec_in by (apply (Hall l); by left).
  apply IH. intros l' Hl'. apply Hall. by right.
Qed.

(** Once all endpoints are the cluster's own or in use, so are the added ones, and
the clean-up has nothing to do. *)
Lemma reconciled_kept x es :
  Forall (λ e, ¬ connects_to (wc_prefix x) e ∨ used x e = true) es →
  reconciled x es = add_wanted x (links_for_mc x) es.
Proof.
  intros Hall. apply filter_all_in. intros e He.
  apply elem_of_add_wanted in He as [He|(l & Hl & ->)].
  - by eapply Forall_forall in Hall.
  - right. by apply wanted_used, links_for_mc_subset.
Qed.

Lemma reconciled_Forall x es :
  Forall (λ e, ¬ connects_to (wc_prefix x) e ∨ used x e = true) (reconciled x es).
Proof. apply Forall_forall. intros e He. by apply list_elem_of_filter in He as [? _]. Qed.

Lemma reconciled_twice_complete x es l :
  l ∈ links_for_mc x → privateEndpointName (pl_Name l) ∈ names (reconciled x (reconciled x es)).
Proof.
  intros Hl. rewrite reconciled_kept by apply reconciled_Forall.
  apply elem_of_names_add_wanted. right. by exists l.
Qed.

Lemma reconciled_stable x es : reconciled x (reconciled x (reconciled x es)) = reconciled x (reconciled x es).
Proof.
  rewrite (reconciled_kept x (reconciled x (reconciled x es))) by apply reconciled_Forall.
  apply add_wanted_known. intros l. apply reconciled_twice_complete.
Qed.

Lemma NoDup_reconciled x es : NoDup (names es) → NoDup (names (reconciled x es)).
Proof.
  intros Hnd. eapply sublist_NoDup; [apply (NoDup_add_wanted x (links_for_mc x) es Hnd)|].
  apply fmap_sublist, sublist_filter.
Qed.

(** An endpoint in the slot of every link, unless a stale one had its name. *)
Lemma reconciled_complete x es l :
  l ∈ links_for_mc x →
  (∀ e, e ∈ es → pe_Name e = privateEndpointName (pl_Name l) →
    connects_to (wc_prefix x) e → used x e = true) →
  privateEndpointName (pl_Name l) ∈ names (reconciled x es).
Proof.
  intros Hl Hold. assert (Hin : privateEndpointName (pl_Name l) ∈
    names (add_wanted x (links_for_mc x) es)).
  { apply elem_of_names_add_wanted. right. by exists l. }
  apply list_elem_of_fmap in Hin as (e & Hn & He). apply list_elem_of_fmap.
  exists e. split; [done|]. apply list_elem_of_filter. split; [|done].
  apply elem_of_add_wanted in He as [He|(l' & Hl' & ->)].
  - destruct (decide (connects_to (wc_prefix x) e)); [right|by left]. by apply Hold.
  - right. by apply wanted_used, links_for_mc_subset.
Qed.

(** ** Asking Azure *)

(** The loop succeeds when every question is answered with an address, as long as the
world has some property [P] that the answers preserve. *)
Lemma link_run_answered x (P : W → Prop) links a :
  P (a_world a) →
  (∀ l w, P w → l ∈ links → ∃ ip w',
    ask_address x (privateEndpointName (pl_Name l)) w = ((ip, None), w') ∧ P w') →
  ∃ a', link_run x links a = (None, a').
Proof.
  revert a. induction links as [|l links IH]; intros a HP Hans; [by eexists|].
  unfold link_run. cbn [fmap list_fmap ask_all]. unfold add_and_ask. simpl.
  destruct (Hans l (a_world a) HP) as (ip & w' & E & HP'); [by left|]. rewrite E.
  apply IH; [done|]. intros l' w HPw Hl'. apply Hans; [done|by right].
Qed.

(** The annotation is the address of the last endpoint asked for. *)
Lemma ask_all_annotation x key specs a a' spec :
  ask_all x key specs a = (None, a') → last specs = Some spec →
  ∃ w ip, ask_address x (pe_Name spec) w = ((ip, None), a_world a') ∧
    ∃ m, a_annotations a' = Some m ∧ m !! key = Some (net_IP_String ip).
Proof.
  revert a. induction specs as [|spec' specs IH]; intros a; [done|].
  cbn [ask_all]. unfold add_and_ask. simpl.
  destruct (ask_address _ _ _) as [[ip [err|]] w'] eqn:E; [done|]. intros Hrun Hlast.
  destruct specs as [|spec'' specs]; [|by eapply IH].
  injection Hlast as ->. simpl in Hrun. injection Hrun as <-.
  exists (a_world a), ip. split; [done|]. eexists; split; [done|]. apply lookup_insert_eq.
Qed.

(** An answer with an address. *)
Lemma ask_address_ok x name w ip w' :
  ask_address x name w = ((ip, None), w') →
  ∃ pep t ts, pec_Get (ep_client x) (ep_ResourceGroup x) name the_GetOptions w = (Ok pep, w') ∧
    addresses pep = t :: ts ∧ ip = net_ParseIP t.
Proof.
  unfold ask_address. destruct (pec_Get _ _ _ _ w) as [[pep|e] w1].
  - intros [= Ha <-]. destruct (addresses pep) as [|t ts] eqn:Ea.
    + destruct (address_of_nil pep Ea) as (e & He & _). by rewrite He in Ha.
    + rewrite (address_of_cons pep t ts Ea) in Ha. injection Ha as <-. eauto 6.
  - by destruct (IsAzureResourceNotFound _).
Qed.

Lemma ask_address_answer x name w pep w' t ts :
  pec_Get (ep_client x) (ep_ResourceGroup x) name the_GetOptions w = (Ok pep, w') →
  addresses pep = t :: ts → ask_address x name w = ((net_ParseIP t, None), w').
Proof. intros Hg Ha. unfold ask_address. by rewrite Hg, (address_of_cons pep t ts Ha). Qed.

(** Why the loop failed: it got through the first [k] and had no address for the next. *)
Lemma ask_all_failure x key specs a err a' :
  ask_all x key specs a = (Some err, a') →
  ∃ k spec a1 ip (e : errval), specs !! k = Some spec ∧ ask_all x key (take k specs) a = (None, a1) ∧
    add_and_ask x spec a1 = ((ip, Some e), a') ∧ err = Mask e.
Proof.
  revert a. induction specs as [|spec specs IH]; intros a; [done|]. cbn [ask_all].
  destruct (add_and_ask x spec a) as [[ip [e|]] a2] eqn:E.
  - intros [= <- <-]. by exists 0, spec, a, ip, e.
  - intros Hrun. destruct (IH _ Hrun) as (k & spec' & a1 & ip' & e & Hk & Hpre & Hadd & ->).
    exists (S k), spec', a1, ip', e. cbn [take ask_all]. by rewrite E.
Qed.

(** An answer without an address. *)
Lemma ask_address_error x name w ip (err : errval) w' :
  ask_address x name w = ((ip, Some err), w') →
  ∃ res, pec_Get (ep_client x) (ep_ResourceGroup x) name the_GetOptions w = (res, w') ∧
    match res with
    | Err e0 => err = if IsAzureResourceNotFound (Some e0)
                    then Maskf PrivateEndpointNotFoundError "private endpoint not found"
                    else Mask e0
    | Ok pep => addresses pep = [] ∧ IsRetriable (Some err) = true
    end.
Proof.
  unfold ask_address. destruct (pec_Get _ _ _ _ w) as [[pep|e0] w1]; intros [= Ha <-].
  - exists (Ok pep). split; [done|]. destruct (addresses pep) as [|t ts] eqn:E.
    + split; [done|]. destruct (address_of_nil pep E) as (e' & He & Hr). rewrite He in Ha.
      injection Ha as _ <-. destruct (bool_decide _) in Hr;
        (eapply raised_retriable; [exact Hr|]); unfold retriable_kinds; rewrite !elem_of_cons; auto.
    + by rewrite (address_of_cons pep t ts E) in Ha.
  - exists (Err e0). split; [done|]. by destruct (IsAzureResourceNotFound _); injection Ha.
Qed.

(** ** Deletion *)

Definition delete_links x es : list PrivateEndpointSpec :=
  foldl (λ es l, remove_by_name (privateEndpointName (pl_Name l)) es) es (links_for_mc x).

Lemma DeleteMcToWcApi_run x a :
  DeleteMcToWcApi (abs_Service x) a =
    (Ret None, with_endpoints (delete_links x (a_endpoints a)) a).
Proof.
  unfold DeleteMcToWcApi, delete_links, links_for_mc, unless_returned, mbind, M_bind. simpl.
  rewrite allowed_links_filter. simpl. generalize (filter (λ l, Some (ep_SubscriptionID x) ∈
    AllowedSubscriptions l) (wc_links x)) as links. intros links.
  revert a. induction links as [|l links IH]; intros a; [by destruct a|].
  rewrite for_range_cons. simpl. by rewrite IH.
Qed.

Lemma delete_links_filter x es :
  NoDup (names es) →
  delete_links x es =
    filter (λ e, pe_Name e ∉ ((λ l, privateEndpointName (pl_Name l)) <$> links_for_mc x)) es.
Proof.
  unfold delete_links. generalize (links_for_mc x) as links. intros links. revert es.
  induction links as [|l links IH]; intros es Hnd; simpl.
  - symmetry. apply filter_all. intros e. apply not_elem_of_nil.
  - rewrite IH by (by apply NoDup_remove_by_name).
    rewrite remove_by_name_filter, list_filter_filter by done.
    apply list_filter_iff. intros e. rewrite not_elem_of_cons. tauto.
Qed.

(** ** Resource groups with a common prefix *)

(** A connection to a resource group whose name only starts like the workload
cluster's matches the prefix, but is never that of a link. *)
Lemma sibling_connects x suffix n e c :
  PrivateLinkServiceConnections e = [c] →
  PrivateLinkServiceID c = privateLinkServiceID (wc_SubscriptionID x)
    (wc_ResourceGroup x +:+ suffix) n →
  connects_to (wc_prefix x) e.
Proof.
  intros Hcs Hid. exists c. split; [rewrite Hcs; by left|]. rewrite Hid.
  unfold wc_prefix, workloadClusterSubscriptionIDPrefix, privateLinkServiceID.
  apply prefix_spec. eexists. by rewrite !app_assoc_string.
Qed.

Lemma sibling_unused x ch suffix n e c :
  PrivateLinkServiceConnections e = [c] →
  PrivateLinkServiceID c = privateLinkServiceID (wc_SubscriptionID x)
    (wc_ResourceGroup x +:+ String ch suffix) n →
  ch ≠ Ascii.ascii_of_nat 47 →
  used x e = false.
Proof.
  intros Hcs Hid Hch. unfold used. rewrite Hcs. simpl. rewrite Hid, orb_false_r.
  apply not_true_iff_false. rewrite lookup_private_link_true. intros (l & _ & Heq).
  unfold privateLinkServiceID in Heq. repeat apply app_inj_l_string in Heq.
  rewrite app_assoc_string in Heq. apply app_inj_l_string in Heq.
  by injection Heq as <-.
Qed.
End reconciliation.
