(* ===== verification/Scenario.v ===== *)
(** * A management cluster, a private workload cluster and a sibling.

Concrete objects shared by the concrete runs of the theorems.  The management
cluster is cell 0 of the heap and the workload cluster cell 1. *)
From S2P Require Import Prelude.
From S2P Require Import GoStrings.
From S2P Require Import GoNet.
From S2P Require Import Api.
From S2P Require Import Concrete.
From S2P Require Import BaseScope.
From S2P Require Import PrivateLinks.
From S2P Require Import PrivateEndpoints.
From S2P Require Import Service.
From S2P Require Import ServiceSpec.

Module Scenario.

Definition mc_key : NamespacedName := {| nn_Namespace := "org"; nn_Name := "mc" |}.
Definition wc_key : NamespacedName := {| nn_Namespace := "org"; nn_Name := "wc1" |}.

(** The endpoint of a link "old" that [wc1] no longer has, and one of [wc10]. *)
Definition stale : PrivateEndpointSpec :=
  Concrete.endpoint "old-privateendpoint" (privateLinkServiceID "1234" "wc1" "old").
Definition sibling : PrivateEndpointSpec :=
  Concrete.endpoint "wc10-privateendpoint" (privateLinkServiceID "1234" "wc10" "api").
Definition foreign : PrivateEndpointSpec :=
  Concrete.endpoint "wc2-privateendpoint" (privateLinkServiceID "1234" "wc2" "api").

Definition links : list PrivateLink := [Concrete.link "api" ["1234"]; Concrete.link "hidden" []].

Definition ready : Condition := Concrete.condition PrivateLinksReadyCondition ConditionTrue.

Definition mc (es : list PrivateEndpointSpec) : AzureCluster :=
  Concrete.cluster "mc" Internal [] es [].
Definition wc (cs : list Condition) : AzureCluster :=
  Concrete.cluster "wc1" Internal links [] cs.

(** Azure knows the endpoints of [wc1]. *)
Definition world : Concrete.World := {|
  Concrete.clusters := ∅; Concrete.control_planes := ∅; Concrete.capi_clusters := ∅;
  Concrete.identities := ∅; Concrete.secrets := ∅; Concrete.aso_control_planes := ∅;
  Concrete.managed_control_planes := ∅; Concrete.provider_configs := ∅;
  Concrete.azure_endpoints :=
    {[ "api-privateendpoint" := Concrete.endpoint_with_ip "10.0.0.4";
       "wc1-to-mc-gateway-privateendpoint" := Concrete.endpoint_with_ip "10.1.0.5" ]};
  Concrete.broken := []
|}.

(** The scopes of the two directions. *)
Definition base (l : loc) (k : NamespacedName) : @BaseScope Concrete.World Concrete.clusterApiUtil :=
  @Build_BaseScope Concrete.World Concrete.clusterApiUtil l k.

Definition endpoints_scope (l : loc) (k : NamespacedName) :
    @PrivateEndpoints.scope Concrete.World Concrete.clusterApiUtil :=
  @PrivateEndpoints.Build_scope Concrete.World Concrete.clusterApiUtil (base l k) 0
    Concrete.azure_client.

Definition links_scope : @PrivateLinks.Scope Concrete.World Concrete.clusterApiUtil :=
  @PrivateLinks.Build_Scope Concrete.World Concrete.clusterApiUtil (base 1 wc_key) links.

Lemma wired_mc es cs :
  @wired Concrete.World Concrete.clusterApiUtil [mc es; wc cs] (endpoints_scope 0 mc_key)
    links_scope (mc es) (wc cs) (Concrete.subnet es).
Proof. by split. Qed.

Lemma wired_wc es cs :
  @wired Concrete.World Concrete.clusterApiUtil [mc es; wc cs] (endpoints_scope 1 wc_key)
    links_scope (wc cs) (wc cs) (Concrete.subnet []).
Proof. by split. Qed.

End Scenario.
