(* ===== verification/McToWc.v ===== *)
(** * Correctness of [ReconcileMcToWcApi] and [DeleteMcToWcApi] on AzureCluster objects.

The statements are about the service run on the two heap scopes; the proofs go
through the refinement and the closed forms of [Reconciliation]. *)
From S2P Require Import Prelude.
From S2P Require Import GoStrings.
From S2P Require Import GoNet.
From S2P Require Import Api.
From S2P Require Import Concrete.
From S2P Require Import Errors.
From S2P Require Import Util.
From S2P Require Import BaseScope.
From S2P Require Import PrivateLinks.
From S2P Require Import PrivateEndpoints.
From S2P Require Import Service.
From S2P Require Import ServiceSpec.
From S2P Require Import Reconciliation.
From S2P Require Import Scenario.

(** ** Observing the heap *)

Section observe.
Context {W : Type} `{Microerror} `{FmtVerbs} `{ClusterApiUtil W}.

(** The endpoint slice that a scope manages. *)
Definition endpoints_of (sc : PrivateEndpoints.scope W) (s : St W) :
    option (list PrivateEndpointSpec) :=
  c ← heap s !! azureCluster (PrivateEndpoints.BaseScope_ sc);
  sn ← ac_Subnets c !! PrivateEndpoints.privateEndpoints_subnet sc;
  Some (PrivateEndpoints sn).

(** An annotation of the workload cluster, and its conditions. *)
Definition annotation_of (ls : PrivateLinks.Scope W) (k : string) (s : St W) : option string :=
  c ← heap s !! azureCluster (PrivateLinks.BaseScope_ ls);
  m ← Annotations (ac_meta c);
  m !! k.

Definition conditions_of (ls : PrivateLinks.Scope W) (s : St W) : option (slice Condition) :=
  c ← heap s !! azureCluster (PrivateLinks.BaseScope_ ls);
  Some (Conditions c).

Context (h0 : list AzureCluster) (sc : PrivateEndpoints.scope W) (ls : PrivateLinks.Scope W)
  (ce cw : AzureCluster) (sn : SubnetSpec) (Hw : wired h0 sc ls ce cw sn).

Lemma endpoints_of_repr s a : repr h0 sc ls s a → endpoints_of sc s = Some (a_endpoints a).
Proof.
  intros HR. destruct Hw as [He Hl Hi]. unfold endpoints_of.
  rewrite (represents_heap _ _ _ _ s a _ ce HR He). cbn [mbind option_bind].
  by rewrite overlay_subnets, list_lookup_alter_eq, Hi.
Qed.

Lemma status_of_repr s a :
  repr h0 sc ls s a →
  conditions_of ls s = Some (a_conditions a) ∧
  ∀ k, annotation_of ls k s = m ← a_annotations a; m !! k.
Proof.
  intros HR. destruct Hw as [He Hl Hi]. unfold conditions_of, annotation_of.
  rewrite (represents_heap _ _ _ _ s a _ cw HR Hl). cbn [mbind option_bind].
  match goal with |- context [overlay ?le ?lw ?i a ?lw cw] =>
    destruct (overlay_status le lw i a cw) as [-> ->] end.
  done.
Qed.

(** The heap run in terms of the closed form. *)
Lemma McToWcApi_heap `{ApiMachinery} s a :
  repr h0 sc ls s a →
  ∃ s', ReconcileMcToWcApi (heap_Service sc ls) s
      = (Ret (mc_to_wc_api (wired_statics sc ls ce cw) a).1, s') ∧
    repr h0 sc ls s' (mc_to_wc_api (wired_statics sc ls ce cw) a).2.
Proof.
  intros HR. destruct Hw as [He Hl Hi].
  destruct (ReconcileMcToWcApi_sim (repr h0 sc ls) (heap_Service sc ls)
    (abs_Service (wired_statics sc ls ce cw))
    (ScopeSim0 := scope_sim _ _ _ _ _ _ He _ Hi _ _ eq_refl eq_refl)
    (LinksSim0 := links_sim _ _ _ _ _ _ Hl _ _ eq_refl) s a HR) as [Ho HR'].
  rewrite ReconcileMcToWcApi_run in Ho, HR'.
  destruct (mc_to_wc_api (wired_statics sc ls ce cw) a) as [err a'].
  destruct (ReconcileMcToWcApi (heap_Service sc ls) s) as [o s']. simpl in *. subst o. eauto.
Qed.

(** Inverting it. *)
Lemma McToWcApi_heap_inv `{ApiMachinery} s a err s' :
  repr h0 sc ls s a →
  ReconcileMcToWcApi (heap_Service sc ls) s = (Ret err, s') →
  ∃ a', mc_to_wc_api (wired_statics sc ls ce cw) a = (err, a') ∧ repr h0 sc ls s' a'.
Proof.
  intros HR Hrun. destruct (McToWcApi_heap s a HR) as (s'' & Hrun' & HR').
  rewrite Hrun in Hrun'. destruct (mc_to_wc_api (wired_statics sc ls ce cw) a) as [err' a'].
  simpl in *. simplify_eq. eauto.
Qed.

Lemma DeleteMcToWcApi_heap `{ApiMachinery} s a :
  repr h0 sc ls s a →
  ∃ s', DeleteMcToWcApi (heap_Service sc ls) s = (Ret None, s') ∧
    repr h0 sc ls s' (with_endpoints
      (delete_links (wired_statics sc ls ce cw) (a_endpoints a)) a).
Proof.
  intros HR. destruct Hw as [He Hl Hi].
  destruct (DeleteMcToWcApi_sim (repr h0 sc ls) (heap_Service sc ls)
    (abs_Service (wired_statics sc ls ce cw))
    (ScopeSim0 := scope_sim _ _ _ _ _ _ He _ Hi _ _ eq_refl eq_refl)
    (LinksSim0 := links_sim _ _ _ _ _ _ Hl _ _ eq_refl) s a HR) as [Ho HR'].
  rewrite DeleteMcToWcApi_run in Ho, HR'.
  destruct (DeleteMcToWcApi (heap_Service sc ls) s) as [o s']. simpl in *. subst o. eauto.
Qed.
End observe.

(** ** From management cluster to workload cluster API *)

Section mc_to_wc.
Context {W : Type} `{Microerror} `{FmtVerbs} `{ApiMachinery} `{ClusterApiUtil W}.
Context (h0 : list AzureCluster) (sc : PrivateEndpoints.scope W) (ls : PrivateLinks.Scope W)
  (ce cw : AzureCluster) (sn : SubnetSpec) (Hw : wired h0 sc ls ce cw sn).

#[local] Abbreviation x := (wired_statics sc ls ce cw).
#[local] Abbreviation run := (ReconcileMcToWcApi (heap_Service sc ls)).

(** Inverting a run from the first heap. *)
Lemma run_inv w err s' :
  run (mkSt h0 w) = (Ret err, s') →
  ∃ a', mc_to_wc_api x (initial_abs cw sn w) = (err, a') ∧ repr h0 sc ls s' a' ∧
    endpoints_of sc s' = Some (a_endpoints a').
Proof.
  intros Hrun. destruct (McToWcApi_heap_inv h0 sc ls ce cw sn Hw _ _ _ _
    (repr_initial h0 sc ls ce cw sn Hw w) Hrun) as (a' & Hm & HR).
  exists a'. split_and!; [done|done|by eapply endpoints_of_repr].
Qed.

(** C13: a successful reconciliation leaves exactly the following endpoints, in this
order: the old ones, then a new one for every allowed link whose endpoint name was
free, without those that go to the workload cluster but to none of its links. *)
Theorem McToWcApi_endpoints w s' :
  NoDup (names (PrivateEndpoints sn)) → run (mkSt h0 w) = (Ret None, s') →
  endpoints_of sc s' = Some (
    filter (λ e, ¬ connects_to (wc_prefix x) e ∨ used x e = true)
      (add_wanted x (links_for_mc x) (PrivateEndpoints sn))).
Proof.
  intros Hnd (a' & Hm & _ & ->)%run_inv. f_equal.
  by apply (mc_to_wc_api_endpoints x (initial_abs cw sn w)).
Qed.

(** After a successful reconciliation every private link that the management
cluster may use has its endpoint, provided that no endpoint of that name was there
that leads to the workload cluster but to none of its links. *)
Theorem McToWcApi_every_link w s' l :
  NoDup (names (PrivateEndpoints sn)) →
  (∀ e, e ∈ PrivateEndpoints sn → pe_Name e = privateEndpointName (pl_Name l) →
    connects_to (wc_prefix x) e → used x e = true) →
  run (mkSt h0 w) = (Ret None, s') →
  l ∈ PrivateLinks.privateLinks ls →
  Some (SubscriptionID (ac_Spec ce)) ∈ AllowedSubscriptions l →
  ∃ es, endpoints_of sc s' = Some es ∧ privateEndpointName (pl_Name l) ∈ names es.
Proof.
  intros Hnd Hold (a' & Hm & _ & He)%run_inv Hl Hallowed. eexists; split; [done|].
  rewrite (mc_to_wc_api_endpoints x (initial_abs cw sn w) a' Hnd Hm).
  apply reconciled_complete; [by apply list_elem_of_filter|done].
Qed.

(** After a successful reconciliation, an endpoint that leads into the workload
cluster's resource group is one of a link that the cluster still has. *)
Theorem McToWcApi_no_stale w s' es e :
  NoDup (names (PrivateEndpoints sn)) →
  run (mkSt h0 w) = (Ret None, s') → endpoints_of sc s' = Some es →
  e ∈ es → connects_to (wc_prefix x) e →
  ∃ c l, c ∈ PrivateLinkServiceConnections e ∧ l ∈ PrivateLinks.privateLinks ls ∧
    PrivateLinkServiceID c =
      privateLinkServiceID (SubscriptionID (ac_Spec cw)) (ResourceGroup (ac_Spec cw)) (pl_Name l).
Proof.
  intros Hnd (a' & Hm & _ & He)%run_inv Hes Hin Hc. rewrite He in Hes. simplify_eq.
  rewrite (mc_to_wc_api_endpoints x (initial_abs cw sn w) a' Hnd Hm) in Hin.
  apply list_elem_of_filter in Hin as [[?|Hu] _]; [done|].
  unfold used in Hu. apply existsb_exists in Hu as (c & Hcin & Hl).
  apply lookup_private_link_true in Hl as (l & Hl & Hid).
  exists c, l. split_and!; [by apply list_elem_of_In|done|done].
Qed.

(** C17: whatever the outcome, the endpoints that do not lead into the workload
cluster's resource group stay, unchanged and in their order. *)
Theorem McToWcApi_others_kept w err s' es :
  NoDup (names (PrivateEndpoints sn)) →
  run (mkSt h0 w) = (Ret err, s') → endpoints_of sc s' = Some es →
  filter (λ e, ¬ connects_to (wc_prefix x) e) es =
  filter (λ e, ¬ connects_to (wc_prefix x) e) (PrivateEndpoints sn).
Proof.
  intros Hnd (a' & Hm & _ & He)%run_inv Hes. rewrite He in Hes. simplify_eq.
  destruct err as [err|].
  - destruct (mc_to_wc_api_failure _ _ _ _ Hm) as (_ & k & ->). apply add_wanted_others.
  - rewrite (mc_to_wc_api_endpoints x (initial_abs cw sn w) a' Hnd Hm). apply reconciled_others.
Qed.

(** The names of the endpoints stay unique, whatever the outcome. *)
Theorem McToWcApi_unique_names w err s' es :
  NoDup (names (PrivateEndpoints sn)) →
  run (mkSt h0 w) = (Ret err, s') → endpoints_of sc s' = Some es → NoDup (names es).
Proof.
  intros Hnd (a' & Hm & _ & He)%run_inv Hes. rewrite He in Hes. simplify_eq.
  destruct err as [err|].
  - destruct (mc_to_wc_api_failure _ _ _ _ Hm) as (_ & k & ->). by apply NoDup_add_wanted.
  - rewrite (mc_to_wc_api_endpoints x (initial_abs cw sn w) a' Hnd Hm). by apply NoDup_reconciled.
Qed.

(** A failing reconciliation removes no endpoint: the old slice is a prefix of the
new one, what follows are endpoints of the first links, and the conditions of the
workload cluster are unchanged. *)
Theorem McToWcApi_failure_only_adds w err s' :
  run (mkSt h0 w) = (Ret (Some err), s') →
  conditions_of ls s' = Some (Conditions cw) ∧
  ∃ k es, endpoints_of sc s' = Some es ∧ PrivateEndpoints sn `prefix_of` es ∧
    es = add_wanted x (take k (links_for_mc x)) (PrivateEndpoints sn).
Proof.
  intros (a' & Hm & HR & He)%run_inv.
  destruct (mc_to_wc_api_failure _ _ _ _ Hm) as (Hc & k & Hk). split.
  - destruct (status_of_repr h0 sc ls ce cw sn Hw s' a' HR) as [-> _]. by rewrite Hc.
  - exists k, (a_endpoints a'). split_and!; [done| |done]. rewrite Hk. apply add_wanted_prefix.
Qed.

Lemma repr_det s s' a : repr h0 sc ls s a → repr h0 sc ls s' a → s = s'.
Proof.
  intros [Hh Hwo] [Hh' Hwo']. destruct s, s'. simpl in *. congruence.
Qed.

(** A run whose closed form does not touch the state. *)
Lemma run_unchanged w err :
  mc_to_wc_api x (initial_abs cw sn w) = (err, initial_abs cw sn w) →
  run (mkSt h0 w) = (Ret err, mkSt h0 w).
Proof.
  intros Hm. pose proof (repr_initial h0 sc ls ce cw sn Hw w) as HR.
  destruct (McToWcApi_heap h0 sc ls ce cw sn Hw _ _ HR) as (s' & -> & HR').
  rewrite Hm in HR' |- *. f_equal. by eapply repr_det.
Qed.

(** C22: the two refusals.  Without a link that the management cluster may use, the
reconciliation fails for good; with links that are not ready, it fails with an error
that is retried.  In both cases nothing at all has changed. *)
Theorem McToWcApi_refusals w :
  (links_for_mc x = [] →
     ∃ e, run (mkSt h0 w) = (Ret (Some e), mkSt h0 w) ∧
       IsSubscriptionCannotConnectToPrivateLinkError (Some e) = true ∧
       IsRetriable (Some e) = false) ∧
  (links_for_mc x ≠ [] → conditions_IsTrue (Conditions cw) PrivateLinksReadyCondition = false →
     ∃ e, run (mkSt h0 w) = (Ret (Some e), mkSt h0 w) ∧
       IsPrivateLinksNotReady (Some e) = true ∧ IsRetriable (Some e) = true).
Proof.
  split.
  - intros Hl. exists (no_links_error x). split.
    + apply run_unchanged. unfold mc_to_wc_api. by rewrite Hl.
    + rewrite IsRetriable_existsb. unfold IsSubscriptionCannotConnectToPrivateLinkError.
      unfold no_links_error, SubscriptionCannotConnectToPrivateLinkError.
      rewrite Cause_Maskf. by vm_compute.
  - intros Hl Hr. exists not_ready_error. split.
    + apply run_unchanged. unfold mc_to_wc_api. destruct (links_for_mc x); [done|].
      cbn [initial_abs a_conditions]. by rewrite Hr.
    + rewrite IsRetriable_existsb. unfold IsPrivateLinksNotReady, not_ready_error.
      unfold PrivateLinksNotReadyError. rewrite Cause_Maskf. by vm_compute.
Qed.

(** The reconciliation succeeds when there is an allowed link, the links are
ready, and Azure answers for every allowed link with an endpoint that has an
address, in every world with some property that its answers preserve. *)
Theorem McToWcApi_succeeds w (P : W → Prop) :
  P w →
  links_for_mc x ≠ [] → conditions_IsTrue (Conditions cw) PrivateLinksReadyCondition = true →
  (∀ l w1, P w1 → l ∈ links_for_mc x → ∃ pep w2,
     pec_Get (PrivateEndpoints.privateEndpointsClient sc) (ResourceGroup (ac_Spec ce))
       (privateEndpointName (pl_Name l)) the_GetOptions w1 = (Ok pep, w2) ∧
     addresses pep ≠ [] ∧ P w2) →
  ∃ s', run (mkSt h0 w) = (Ret None, s').
Proof.
  intros HP Hl Hr Hans. pose proof (repr_initial h0 sc ls ce cw sn Hw w) as HR.
  destruct (McToWcApi_heap h0 sc ls ce cw sn Hw _ _ HR) as (s' & -> & _).
  exists s'. f_equal. f_equal. unfold mc_to_wc_api.
  destruct (link_run_answered x P (links_for_mc x) (initial_abs cw sn w) HP) as (a' & Ha).
  - intros l w1 HPw Hin. destruct (Hans l w1 HPw Hin) as (pep & w2 & Hg & Hne & HP2).
    destruct (addresses pep) as [|t ts] eqn:E; [done|].
    exists (net_ParseIP t), w2. split; [by eapply (ask_address_answer x)|done].
  - destruct (links_for_mc x); [done|]. cbn [initial_abs a_conditions]. by rewrite Hr, Ha.
Qed.

(** C21: after a successful reconciliation the annotation that the DNS operator reads
is the first address in Azure's latest answer for the last allowed link: unchanged
text when that is an IPv4 address. *)
Theorem McToWcApi_annotation w s' l :
  run (mkSt h0 w) = (Ret None, s') → last (links_for_mc x) = Some l →
  ∃ w1 pep t ts,
    pec_Get (PrivateEndpoints.privateEndpointsClient sc) (ResourceGroup (ac_Spec ce))
      (privateEndpointName (pl_Name l)) the_GetOptions w1 = (Ok pep, world s') ∧
    addresses pep = t :: ts ∧
    annotation_of ls AzurePrivateEndpointOperatorApiServerAnnotation s' =
      Some (net_IP_String (net_ParseIP t)) ∧
    (is_Some (parseIPv4Fields t) → net_IP_String (net_ParseIP t) = t).
Proof.
  intros (a' & Hm & HR & _)%run_inv Hlast.
  destruct (mc_to_wc_api_success _ _ _ Hm) as (_ & _ & a1 & Hrun & _ & ->).
  destruct (ask_all_annotation _ _ _ _ _ (wanted x l) Hrun) as (w1 & ip & Hask & m & Hann & Hk);
    [by rewrite fmap_last, Hlast|].
  destruct (ask_address_ok _ _ _ _ _ Hask) as (pep & t & ts & Hg & Ha & ->).
  destruct (status_of_repr h0 sc ls ce cw sn Hw s' _ HR) as [_ Hst].
  destruct HR as [_ Hworld]. exists w1, pep, t, ts. rewrite Hworld. split_and!; [done|done| |].
  - rewrite Hst. simpl. by rewrite Hann.
  - intros [fs Hfs]. by eapply ParseIP_String_v4.
Qed.

(** Repeating a successful reconciliation of the same cluster reaches a fixpoint:
from the second success on, every allowed link has its endpoint and the endpoints
change no more. *)
Theorem McToWcApi_stable w s1 s2 s3 :
  NoDup (names (PrivateEndpoints sn)) →
  run (mkSt h0 w) = (Ret None, s1) → run s1 = (Ret None, s2) → run s2 = (Ret None, s3) →
  endpoints_of sc s3 = endpoints_of sc s2 ∧
  ∃ es, endpoints_of sc s2 = Some es ∧
    ∀ l, l ∈ links_for_mc x → privateEndpointName (pl_Name l) ∈ names es.
Proof.
  intros Hnd (a1 & Hm1 & HR1 & _)%run_inv Hr2 Hr3.
  destruct (McToWcApi_heap_inv h0 sc ls ce cw sn Hw _ _ _ _ HR1 Hr2) as (a2 & Hm2 & HR2).
  destruct (McToWcApi_heap_inv h0 sc ls ce cw sn Hw _ _ _ _ HR2 Hr3) as (a3 & Hm3 & HR3).
  rewrite (endpoints_of_repr h0 sc ls ce cw sn Hw _ _ HR2),
    (endpoints_of_repr h0 sc ls ce cw sn Hw _ _ HR3).
  assert (E1 := mc_to_wc_api_endpoints x (initial_abs cw sn w) a1 Hnd Hm1). simpl in E1.
  assert (Hnd1 : NoDup (names (a_endpoints a1))) by (rewrite E1; by apply NoDup_reconciled).
  assert (E2 := mc_to_wc_api_endpoints x a1 a2 Hnd1 Hm2).
  assert (Hnd2 : NoDup (names (a_endpoints a2))) by (rewrite E2; by apply NoDup_reconciled).
  rewrite (mc_to_wc_api_endpoints x a2 a3 Hnd2 Hm3), E2, E1. split.
  - f_equal. apply reconciled_stable.
  - eexists; split; [done|]. intros l. apply reconciled_twice_complete.
Qed.

(** C36: the clean-up takes a resource group whose name merely starts with the
workload cluster's for the cluster's own: an endpoint into the resource group
[wc10] is removed when [wc1] is reconciled. *)
Theorem McToWcApi_removes_sibling w s' es e c ch suffix n :
  NoDup (names (PrivateEndpoints sn)) →
  e ∈ PrivateEndpoints sn → PrivateLinkServiceConnections e = [c] →
  PrivateLinkServiceID c = privateLinkServiceID (SubscriptionID (ac_Spec cw))
    (ResourceGroup (ac_Spec cw) +:+ String ch suffix) n →
  ch ≠ Ascii.ascii_of_nat 47 →
  run (mkSt h0 w) = (Ret None, s') → endpoints_of sc s' = Some es → e ∉ es.
Proof.
  intros Hnd Hin Hcs Hid Hch (a' & Hm & _ & He)%run_inv Hes. rewrite He in Hes. simplify_eq.
  rewrite (mc_to_wc_api_endpoints x (initial_abs cw sn w) a' Hnd Hm).
  unfold reconciled. rewrite list_elem_of_filter. intros [[Hn|Hu] _].
  - by eapply Hn, (sibling_connects x).
  - by rewrite (sibling_unused x ch suffix n e c) in Hu.
Qed.

(** C23: deletion never fails, and removes exactly the endpoints named after the links
that the management cluster may use; annotations and conditions are untouched. *)
Theorem DeleteMcToWcApi_endpoints w :
  NoDup (names (PrivateEndpoints sn)) →
  ∃ s', DeleteMcToWcApi (heap_Service sc ls) (mkSt h0 w) = (Ret None, s') ∧
    world s' = w ∧
    endpoints_of sc s' = Some (
      filter (λ e, pe_Name e ∉ ((λ l, privateEndpointName (pl_Name l)) <$> links_for_mc x))
        (PrivateEndpoints sn)) ∧
    conditions_of ls s' = Some (Conditions cw) ∧
    ∀ k, annotation_of ls k s' = annotation_of ls k (mkSt h0 w).
Proof.
  intros Hnd. pose proof (repr_initial h0 sc ls ce cw sn Hw w) as HR.
  destruct (DeleteMcToWcApi_heap h0 sc ls ce cw sn Hw _ _ HR) as (s' & -> & HR').
  exists s'. split; [done|].
  destruct (status_of_repr h0 sc ls ce cw sn Hw _ _ HR) as [_ Hann].
  destruct (status_of_repr h0 sc ls ce cw sn Hw _ _ HR') as [Hc Hann'].
  rewrite (endpoints_of_repr h0 sc ls ce cw sn Hw _ _ HR'), Hc. destruct HR' as [_ Hworld].
  split_and!; [done| |done|].
  - f_equal. by apply delete_links_filter.
  - intros k. by rewrite Hann, Hann'.
Qed.
End mc_to_wc.

(** ** Concrete runs *)

Module McToWcRuns.
#[local] Existing Instance Concrete.microerror.
#[local] Existing Instance Concrete.fmtVerbs.
#[local] Existing Instance Concrete.apiMachinery.
#[local] Existing Instance Concrete.clusterApiUtil.

Import Scenario.

(** The workload cluster's stale endpoint, the endpoint of another cluster. *)
Definition old : list PrivateEndpointSpec := [stale; foreign].
Definition mcs : PrivateEndpoints.scope Concrete.World := endpoints_scope 0 mc_key.
Definition service : Service (St Concrete.World) := heap_Service mcs links_scope.

Definition start (es : list PrivateEndpointSpec) (cs : list Condition) : St Concrete.World :=
  mkSt [mc es; wc cs] Scenario.world.

Definition statics (es : list PrivateEndpointSpec) (cs : list Condition) :=
  wired_statics mcs links_scope (mc es) (wc cs).

Definition run1 := ReconcileMcToWcApi service (start old [ready]).
Definition run2 := ReconcileMcToWcApi service run1.2.
Definition run3 := ReconcileMcToWcApi service run2.2.

Lemma run1_ok : run1 = (Ret None, run1.2).
Proof. vm_compute. reflexivity. Defined.
Lemma run2_ok : run2 = (Ret None, run2.2).
Proof. vm_compute. reflexivity. Defined.
Lemma run3_ok : run3 = (Ret None, run3.2).
Proof. vm_compute. reflexivity. Defined.

Lemma old_NoDup : NoDup (names old).
Proof. by apply (bool_decide_unpack _). Defined.

Lemma McToWcApi_endpoints_witness :
  run1 = (Ret None, run1.2) ∧
  endpoints_of mcs run1.2 = Some (
    filter (λ e, ¬ connects_to (wc_prefix (statics old [ready])) e ∨
                 used (statics old [ready]) e = true)
      (add_wanted (statics old [ready]) (links_for_mc (statics old [ready])) old)) ∧
  (λ es : list PrivateEndpointSpec, names es) <$> endpoints_of mcs run1.2 = Some ["wc2-privateendpoint"; "api-privateendpoint"].
Proof.
  split; [exact run1_ok|]. split; [|vm_compute; reflexivity].
  exact (McToWcApi_endpoints _ _ _ _ _ _ (wired_mc old [ready]) _ _ old_NoDup run1_ok).
Defined.

Definition api_link : PrivateLink := Concrete.link "api" ["1234"].

Lemma McToWcApi_every_link_witness :
  ∃ es, endpoints_of mcs run1.2 = Some es ∧ privateEndpointName (pl_Name api_link) ∈ names es.
Proof.
  apply (McToWcApi_every_link _ _ _ _ _ _ (wired_mc old [ready]) Scenario.world _ api_link old_NoDup);
    [|exact run1_ok|by left|by left].
  intros e [->|[->|[]%elem_of_nil]%elem_of_cons]%elem_of_cons Hn; vm_compute in Hn; discriminate.
Defined.

(** A cluster that has its endpoint already. *)
Definition present : PrivateEndpointSpec :=
  Concrete.endpoint "api-privateendpoint" (privateLinkServiceID "1234" "wc1" "api").

Definition run_present := ReconcileMcToWcApi service (start [present] [ready]).

Lemma McToWcApi_no_stale_witness :
  ∃ c l, c ∈ PrivateLinkServiceConnections present ∧
    l ∈ PrivateLinks.privateLinks links_scope ∧
    PrivateLinkServiceID c = privateLinkServiceID "1234" "wc1" (pl_Name l).
Proof.
  apply (McToWcApi_no_stale _ _ _ _ _ _ (wired_mc [present] [ready]) Scenario.world
    run_present.2 [present] present).
  - by apply (bool_decide_unpack _).
  - vm_compute. reflexivity.
  - vm_compute. reflexivity.
  - by left.
  - by apply (bool_decide_unpack _).
Defined.

Definition after1 : list PrivateEndpointSpec := default [] (endpoints_of mcs run1.2).

Lemma McToWcApi_others_kept_witness :
  filter (λ e, ¬ connects_to (wc_prefix (statics old [ready])) e) after1 =
  filter (λ e, ¬ connects_to (wc_prefix (statics old [ready])) e) old.
Proof.
  apply (McToWcApi_others_kept _ _ _ _ _ _ (wired_mc old [ready]) Scenario.world None run1.2
    after1 old_NoDup run1_ok). vm_compute. reflexivity.
Defined.

Lemma McToWcApi_unique_names_witness : NoDup (names after1).
Proof.
  apply (McToWcApi_unique_names _ _ _ _ _ _ (wired_mc old [ready]) Scenario.world None run1.2
    after1 old_NoDup run1_ok). vm_compute. reflexivity.
Defined.

(** A world in which Azure knows no endpoint yet. *)
Definition run_new := ReconcileMcToWcApi service (mkSt [mc old; wc [ready]] Concrete.empty_world).
Definition new_error : errval :=
  LibErr "masked" [LibErr "private endpoint not found" [PrivateEndpointNotFoundError]].

Lemma McToWcApi_failure_only_adds_witness :
  run_new = (Ret (Some new_error), run_new.2) ∧
  conditions_of links_scope run_new.2 = Some (Some [ready]) ∧
  ∃ k es, endpoints_of mcs run_new.2 = Some es ∧ old `prefix_of` es ∧
    es = add_wanted (statics old [ready]) (take k (links_for_mc (statics old [ready]))) old.
Proof.
  assert (E : run_new = (Ret (Some new_error), run_new.2)) by (vm_compute; reflexivity).
  split; [exact E|].
  exact (McToWcApi_failure_only_adds _ _ _ _ _ _ (wired_mc old [ready]) _ _ _ E).
Defined.

Lemma McToWcApi_refusals_witness :
  ∃ e, ReconcileMcToWcApi service (start old []) = (Ret (Some e), start old []) ∧
    IsPrivateLinksNotReady (Some e) = true ∧ IsRetriable (Some e) = true.
Proof.
  apply (McToWcApi_refusals _ _ _ _ _ _ (wired_mc old []) Scenario.world);
    [by vm_compute|vm_compute; reflexivity].
Defined.

(** Azure's table of endpoints does not change. *)
Lemma McToWcApi_succeeds_witness : ∃ s', run1 = (Ret None, s').
Proof.
  apply (McToWcApi_succeeds _ _ _ _ _ _ (wired_mc old [ready]) Scenario.world
    (λ w, w = Scenario.world)); [reflexivity|by vm_compute|vm_compute; reflexivity|].
  intros l w1 -> Hl. exists (Concrete.endpoint_with_ip "10.0.0.4"), Scenario.world.
  change (links_for_mc _) with [api_link] in Hl. apply list_elem_of_singleton in Hl as ->.
  split; [vm_compute; reflexivity|]. split; [by vm_compute|reflexivity].
Defined.

Lemma McToWcApi_annotation_witness :
  ∃ w1 pep t ts,
    pec_Get Concrete.azure_client "mc" "api-privateendpoint" the_GetOptions w1
      = (Ok pep, BaseScope.world run1.2) ∧
    addresses pep = t :: ts ∧
    annotation_of links_scope AzurePrivateEndpointOperatorApiServerAnnotation run1.2 =
      Some (net_IP_String (net_ParseIP t)) ∧
    (is_Some (parseIPv4Fields t) → net_IP_String (net_ParseIP t) = t).
Proof.
  exact (McToWcApi_annotation _ _ _ _ _ _ (wired_mc old [ready]) Scenario.world run1.2 api_link
    run1_ok eq_refl).
Defined.

Lemma McToWcApi_stable_witness :
  endpoints_of mcs run3.2 = endpoints_of mcs run2.2 ∧
  ∃ es, endpoints_of mcs run2.2 = Some es ∧
    ∀ l, l ∈ links_for_mc (statics old [ready]) → privateEndpointName (pl_Name l) ∈ names es.
Proof.
  exact (McToWcApi_stable _ _ _ _ _ _ (wired_mc old [ready]) Scenario.world _ _ _ old_NoDup
    run1_ok run2_ok run3_ok).
Defined.

(** The endpoint of [wc10] is lost when [wc1] is reconciled. *)
Definition run_sibling := ReconcileMcToWcApi service (start [sibling] [ready]).

Lemma McToWcApi_removes_sibling_witness :
  run_sibling = (Ret None, run_sibling.2) ∧
  sibling ∉ default [] (endpoints_of mcs run_sibling.2).
Proof.
  assert (E : run_sibling = (Ret None, run_sibling.2)) by (vm_compute; reflexivity).
  split; [exact E|].
  apply (McToWcApi_removes_sibling _ _ _ _ _ _ (wired_mc [sibling] [ready]) Scenario.world
    run_sibling.2 _ sibling
    {| plsc_Name := "wc10-privateendpoint";
       PrivateLinkServiceID := privateLinkServiceID "1234" "wc10" "api"; RequestMessage := "" |}
    (Ascii.ascii_of_nat 48) "" "api").
  - by apply (bool_decide_unpack _).
  - by left.
  - reflexivity.
  - reflexivity.
  - discriminate.
  - exact E.
  - vm_compute. reflexivity.
Defined.

Definition run_delete := DeleteMcToWcApi service (start [present; foreign] [ready]).

Lemma DeleteMcToWcApi_endpoints_witness :
  ∃ s', run_delete = (Ret None, s') ∧ BaseScope.world s' = Scenario.world ∧
    endpoints_of mcs s' = Some (
      filter (λ e, pe_Name e ∉ ((λ l, privateEndpointName (pl_Name l)) <$>
        links_for_mc (statics [present; foreign] [ready]))) [present; foreign]) ∧
    conditions_of links_scope s' = Some (Some [ready]) ∧
    ∀ k, annotation_of links_scope k s' = annotation_of links_scope k (start [present; foreign] [ready]).
Proof.
  apply (DeleteMcToWcApi_endpoints _ _ _ _ _ _ (wired_mc [present; foreign] [ready])).
  by apply (bool_decide_unpack _).
Defined.

Lemma ReconcileMcToWcApi_refines_witness :
  let x := statics old [ready] in
  let a := initial_abs (wc [ready]) (Concrete.subnet old) Scenario.world in
  run1.1 = (ReconcileMcToWcApi (abs_Service x) a).1 ∧
  repr [mc old; wc [ready]] mcs links_scope run1.2 (ReconcileMcToWcApi (abs_Service x) a).2.
Proof.
  apply (ReconcileMcToWcApi_refines _ _ _ _ _ _ (wired_mc old [ready])).
  apply (repr_initial _ _ _ _ _ _ (wired_mc old [ready])).
Defined.

Lemma DeleteMcToWcApi_refines_witness :
  let x := statics old [ready] in
  let a := initial_abs (wc [ready]) (Concrete.subnet old) Scenario.world in
  (DeleteMcToWcApi service (start old [ready])).1 = (DeleteMcToWcApi (abs_Service x) a).1 ∧
  repr [mc old; wc [ready]] mcs links_scope (DeleteMcToWcApi service (start old [ready])).2
    (DeleteMcToWcApi (abs_Service x) a).2.
Proof.
  apply (DeleteMcToWcApi_refines _ _ _ _ _ _ (wired_mc old [ready])).
  apply (repr_initial _ _ _ _ _ _ (wired_mc old [ready])).
Defined.
End McToWcRuns.
