(* ===== verification/WcToMc.v ===== *)
(** * Correctness of [ReconcileWcToMcIngress] on AzureCluster objects.

The workload cluster gets endpoints to the management cluster's gateway; the
statements are about the service run on heap scopes, as in [McToWc]. *)
From S2P Require Import Prelude.
From S2P Require Import GoStrings.
From S2P Require Import GoNet.
From S2P Require Import Api.
From S2P Require Import Concrete.
From S2P Require Import Errors.
From S2P Require Import Util.
From S2P Require Import BaseScope.
From S2P Require Import PrivateLinks.
From S2P Require Import PrivateEndpoints.
From S2P Require Import Service.
From S2P Require Import ServiceSpec.
From S2P Require Import Reconciliation.
From S2P Require Import Scenario.
From S2P Require Import McToWc.

(** ** Closed form *)

Section closed_form.
Context {W : Type} `{Microerror} `{FmtVerbs} `{ApiMachinery} `{ClusterApiUtil W}.
Implicit Types (x : Statics W) (a : AbsSt W) (specs : list PrivateEndpointSpec).

Definition gateway_condition (t : Time) : Condition :=
  {| Type_ := ConditionGSPrivateLinksReady;
     Status := ConditionTrue;
     Severity := "";
     Reason := "";
     Message := "GiantSwarm Private Link definitions have been added";
     LastTransitionTime := t |}.

Definition mark_ready (now : IO W Time) a : AbsSt W :=
  if conditions_IsTrue (a_conditions a) ConditionGSPrivateLinksReady then a
  else let '(t, w') := now (a_world a) in with_condition (gateway_condition t) (with_world w' a).

Definition wc_to_mc_ingress x (now : IO W Time) specs a : error * AbsSt W :=
  match ask_all x AzurePrivateEndpointOperatorMcIngressAnnotation specs a with
  | (Some err, a') => (Some err, a')
  | (None, a') => (None, mark_ready now a')
  end.

Lemma reconcile_spec_run x spec a :
  reconcile_spec (abs_Service x) spec a =
    match add_and_ask x spec a with
    | ((_, Some err), a') => (Ret (Some (Some (Mask err))), a')
    | ((ip, None), a') => (Ret None,
        with_annotation AzurePrivateEndpointOperatorMcIngressAnnotation (net_IP_String ip) a')
    end.
Proof.
  unfold reconcile_spec, add_and_ask. unfold mbind, M_bind. simpl. unfold on_abs_world. simpl.
  by destruct (ask_address _ _ _) as [[ip [err|]] w'].
Qed.

Lemma spec_loop_run x specs a :
  for_range specs (reconcile_spec (abs_Service x)) a =
    match ask_all x AzurePrivateEndpointOperatorMcIngressAnnotation specs a with
    | (Some err, a') => (Ret (Some (Some err)), a')
    | (None, a') => (Ret None, a')
    end.
Proof.
  revert a. induction specs as [|spec specs IH]; intros a; [done|].
  rewrite for_range_cons, reconcile_spec_run. cbn [ask_all].
  by destruct (add_and_ask x spec a) as [[ip [err|]] a'].
Qed.

Lemma ReconcileWcToMcIngress_run x now specs a :
  ReconcileWcToMcIngress conditions_IsTrue (on_abs_world now) (abs_Service x) specs a =
    let '(err, a') := wc_to_mc_ingress x now specs a in (Ret err, a').
Proof.
  unfold ReconcileWcToMcIngress, wc_to_mc_ingress, unless_returned.
  unfold mbind at 1. unfold M_bind at 1. rewrite spec_loop_run.
  destruct (ask_all _ _ _ _) as [[err|] a'] eqn:E; [reflexivity|].
  unfold mark_ready, mbind, M_bind. simpl. unfold gets, on_abs_world.
  destruct (conditions_IsTrue _ _); simpl; [reflexivity|]. by destruct (now (a_world a')).
Qed.

Lemma mark_ready_frame now a :
  a_endpoints (mark_ready now a) = a_endpoints a ∧
  a_annotations (mark_ready now a) = a_annotations a.
Proof.
  unfold mark_ready. destruct (conditions_IsTrue _ _); [done|]. by destruct (now _).
Qed.

Lemma mark_ready_conditions now a :
  a_conditions (mark_ready now a) =
    if conditions_IsTrue (a_conditions a) ConditionGSPrivateLinksReady then a_conditions a
    else append (a_conditions a) (gateway_condition (now (a_world a)).1).
Proof.
  unfold mark_ready. destruct (conditions_IsTrue _ _); [done|]. by destruct (now _).
Qed.

Lemma add_specs_prefix specs es : es `prefix_of` add_specs specs es.
Proof.
  revert es. induction specs as [|spec specs IH]; intros es; [done|].
  etrans; [apply add_spec_prefix|apply IH].
Qed.

Lemma elem_of_names_add_specs specs es n :
  n ∈ names (add_specs specs es) ↔ n ∈ names es ∨ n ∈ names specs.
Proof.
  revert es. induction specs as [|spec specs IH]; intros es.
  - split; [by left|]. intros [?|H']; [done|]. by apply elem_of_nil in H'.
  - rewrite (IH (add_spec spec es)), elem_of_names_add_spec, fmap_cons, elem_of_cons. tauto.
Qed.

Lemma add_specs_known specs es : names specs ⊆ names es → add_specs specs es = es.
Proof.
  induction specs as [|spec specs IH]; intros Hsub; [done|]. unfold add_specs. simpl.
  rewrite add_spec_in by (apply Hsub; by left). apply IH. intros n Hn. apply Hsub. by right.
Qed.

Lemma first_status_app cs cs' t :
  first_status (cs ++ cs') t =
    match first_status cs t with Some st => Some st | None => first_status cs' t end.
Proof. induction cs as [|c cs IH]; simpl; [done|]. by destruct (String.eqb _ _). Qed.
End closed_form.

(** ** From workload cluster to management cluster ingress *)

Section wc_to_mc.
Context {W : Type} `{Microerror} `{FmtVerbs} `{ApiMachinery} `{!ClusterApiUtil W}.
Context (h0 : list AzureCluster) (sc : PrivateEndpoints.scope W) (ls : PrivateLinks.Scope W)
  (ce cw : AzureCluster) (sn : SubnetSpec) (Hw : wired h0 sc ls ce cw sn)
  (now : IO W Time) (specs : list PrivateEndpointSpec).

#[local] Abbreviation x := (wired_statics sc ls ce cw).
#[local] Abbreviation run :=
  (ReconcileWcToMcIngress conditions_IsTrue (call now) (heap_Service sc ls) specs).

Lemma McIngress_heap s a :
  repr h0 sc ls s a →
  ∃ s', run s = (Ret (wc_to_mc_ingress x now specs a).1, s') ∧
    repr h0 sc ls s' (wc_to_mc_ingress x now specs a).2.
Proof.
  intros HR. destruct Hw as [He Hl Hi].
  destruct (ReconcileWcToMcIngress_sim (repr h0 sc ls) conditions_IsTrue (call now)
    (on_abs_world now) (heap_Service sc ls) (abs_Service x)
    (ScopeSim0 := scope_sim _ _ _ _ _ _ He _ Hi _ _ eq_refl eq_refl)
    (LinksSim0 := links_sim _ _ _ _ _ _ Hl _ _ eq_refl)
    (now_sim h0 sc ls now) specs s a HR) as [Ho HR'].
  rewrite ReconcileWcToMcIngress_run in Ho, HR'.
  destruct (wc_to_mc_ingress x now specs a) as [err a'].
  destruct (run s) as [o s']. simpl in *. subst o. eauto.
Qed.

Lemma McIngress_inv s a err s' :
  repr h0 sc ls s a → run s = (Ret err, s') →
  ∃ a', wc_to_mc_ingress x now specs a = (err, a') ∧ repr h0 sc ls s' a'.
Proof.
  intros HR Hrun. destruct (McIngress_heap s a HR) as (s'' & Hrun' & HR').
  rewrite Hrun in Hrun'. destruct (wc_to_mc_ingress x now specs a) as [err' a'].
  simpl in *. simplify_eq. eauto.
Qed.

(** A successful run, in terms of abstract states. *)
Lemma McIngress_success s a s' :
  repr h0 sc ls s a → run s = (Ret None, s') →
  ∃ a1, ask_all x AzurePrivateEndpointOperatorMcIngressAnnotation specs a = (None, a1) ∧
    a_endpoints a1 = add_specs specs (a_endpoints a) ∧ a_conditions a1 = a_conditions a ∧
    repr h0 sc ls s' (mark_ready now a1).
Proof.
  intros HR Hrun. destruct (McIngress_inv _ _ _ _ HR Hrun) as (a' & Hm & HR').
  unfold wc_to_mc_ingress in Hm. destruct (ask_all _ _ _ _) as [[e|] a1] eqn:E; [done|].
  injection Hm as <-. exists a1. destruct (ask_all_endpoints _ _ _ _ _ _ E) as (Hc & k & He & Hk).
  rewrite Hk in He by done. done.
Qed.

(** The conditions after a success. *)
Lemma McIngress_conditions s a s' :
  repr h0 sc ls s a → run s = (Ret None, s') →
  ∃ a' t, repr h0 sc ls s' a' ∧ conditions_of ls s' = Some (a_conditions a') ∧
    a_endpoints a' = add_specs specs (a_endpoints a) ∧
    a_conditions a' =
      if conditions_IsTrue (a_conditions a) ConditionGSPrivateLinksReady then a_conditions a
      else append (a_conditions a) (gateway_condition t).
Proof.
  intros HR Hrun. destruct (McIngress_success s a s' HR Hrun) as (a1 & _ & He & Hc & HR').
  exists (mark_ready now a1), (now (a_world a1)).1. split; [done|].
  destruct (status_of_repr h0 sc ls ce cw sn Hw _ _ HR') as [-> _].
  by rewrite mark_ready_conditions, (proj1 (mark_ready_frame now a1)), Hc.
Qed.

(** C27: a successful run ends with the old endpoints followed by the wanted ones whose
names were free, the address of the last one as the ingress annotation, and the
conditions extended by a true [GSPrivateLinksReady] unless it was true before. *)
Theorem McIngress_result w s' spec :
  run (mkSt h0 w) = (Ret None, s') → last specs = Some spec →
  endpoints_of sc s' = Some (add_specs specs (PrivateEndpoints sn)) ∧
  (∃ w1 w2 pep t ts,
    pec_Get (PrivateEndpoints.privateEndpointsClient sc) (ResourceGroup (ac_Spec ce))
      (pe_Name spec) the_GetOptions w1 = (Ok pep, w2) ∧
    addresses pep = t :: ts ∧
    annotation_of ls AzurePrivateEndpointOperatorMcIngressAnnotation s' =
      Some (net_IP_String (net_ParseIP t))) ∧
  ∃ t, conditions_of ls s' = Some (
    if conditions_IsTrue (Conditions cw) ConditionGSPrivateLinksReady then Conditions cw
    else append (Conditions cw) (gateway_condition t)).
Proof.
  intros Hrun Hlast. pose proof (repr_initial h0 sc ls ce cw sn Hw w) as HR.
  destruct (McIngress_success _ _ _ HR Hrun) as (a1 & Hask & He & Hc & HR').
  destruct (mark_ready_frame now a1) as [He' Ha'].
  destruct (status_of_repr h0 sc ls ce cw sn Hw _ _ HR') as [Hcs Hann].
  rewrite (endpoints_of_repr h0 sc ls ce cw sn Hw _ _ HR'), He', He, Hcs, mark_ready_conditions, Hc.
  split_and!; [done| |by eexists].
  destruct (ask_all_annotation _ _ _ _ _ _ Hask Hlast) as (w1 & ip & Ha & m & Hm & Hk).
  destruct (ask_address_ok _ _ _ _ _ Ha) as (pep & t & ts & Hg & Hadd & ->).
  exists w1, (a_world a1), pep, t, ts. split_and!; [done|done|]. by rewrite Hann, Ha', Hm.
Qed.

(** C24: a failing run.  Azure had no address for the [k]-th wanted endpoint: the client
failed, and its error is passed on, or taken for a missing endpoint when it is Azure's
"not found"; or the endpoint it answered has no address, which is retried.  Then the
endpoints up to the [k]-th have been added nevertheless, the annotation is the address
of the one before it, or as it was if it was the first, and the conditions are as they
were: the gateway is not reported as ready. *)
Theorem McIngress_failure w err s' :
  run (mkSt h0 w) = (Ret (Some err), s') →
  ∃ k spec (e : errval) w1 res, specs !! k = Some spec ∧
    pec_Get (PrivateEndpoints.privateEndpointsClient sc) (ResourceGroup (ac_Spec ce))
      (pe_Name spec) the_GetOptions w1 = (res, world s') ∧
    err = Mask e ∧
    match res with
    | Err e0 => e = if IsAzureResourceNotFound (Some e0)
                    then Maskf PrivateEndpointNotFoundError "private endpoint not found"
                    else Mask e0
    | Ok pep => addresses pep = [] ∧ IsRetriable (Some e) = true
    end ∧
    endpoints_of sc s' = Some (add_specs (take (S k) specs) (PrivateEndpoints sn)) ∧
    conditions_of ls s' = Some (Conditions cw) ∧
    match k with
    | 0 => annotation_of ls AzurePrivateEndpointOperatorMcIngressAnnotation s' =
             annotation_of ls AzurePrivateEndpointOperatorMcIngressAnnotation (mkSt h0 w)
    | S j => ∃ prev v v' pep t ts, specs !! j = Some prev ∧
        pec_Get (PrivateEndpoints.privateEndpointsClient sc) (ResourceGroup (ac_Spec ce))
          (pe_Name prev) the_GetOptions v = (Ok pep, v') ∧
        addresses pep = t :: ts ∧
        annotation_of ls AzurePrivateEndpointOperatorMcIngressAnnotation s' =
          Some (net_IP_String (net_ParseIP t))
    end.
Proof.
  intros Hrun. pose proof (repr_initial h0 sc ls ce cw sn Hw w) as HR.
  destruct (McIngress_inv _ _ _ _ HR Hrun) as (a' & Hm & HR').
  unfold wc_to_mc_ingress in Hm. destruct (ask_all _ _ _ _) as [[e'|] a1] eqn:E; [|done].
  injection Hm as -> ->.
  destruct (ask_all_failure _ _ _ _ _ _ E) as (k & spec & a0 & ip & e & Hk & Hpre & Hadd & ->).
  destruct (add_and_ask_endpoints _ _ _ _ _ Hadd) as (He & Hc & Ha).
  destruct (ask_all_endpoints _ _ _ _ _ _ Hpre) as (Hc0 & k' & He0 & Hall).
  rewrite (Hall eq_refl) in He0.
  destruct (status_of_repr h0 sc ls ce cw sn Hw _ _ HR') as [Hcs Hann].
  unfold add_and_ask in Hadd. destruct (ask_address _ _ _) as [p w2] eqn:Eask.
  injection Hadd as -> <-. destruct (ask_address_error _ _ _ _ _ _ Eask) as (res & Hget & Hres).
  exists k, spec, e, (a_world a0), res.
  rewrite (endpoints_of_repr h0 sc ls ce cw sn Hw _ _ HR'), Hcs, Hc, Hc0, He, He0.
  split_and!; [done| |done|done| |done|].
  - destruct HR' as [_ ->]. exact Hget.
  - f_equal. rewrite (take_S_r _ _ _ Hk). unfold add_specs. by rewrite foldl_app.
  - destruct k as [|j].
    + rewrite Hann, Ha. injection Hpre as <-.
      destruct (status_of_repr h0 sc ls ce cw sn Hw _ _ HR) as [_ ->]. done.
    + destruct (lookup_lt_is_Some_2 specs j) as [prev Hj]; [apply lookup_lt_Some in Hk; lia|].
      assert (Hlast : last (take (S j) specs) = Some prev)
        by (by rewrite (take_S_r _ _ _ Hj), last_snoc).
      destruct (ask_all_annotation _ _ _ _ _ _ Hpre Hlast) as (v & ip' & Hv & m & Hm & Hmk).
      destruct (ask_address_ok _ _ _ _ _ Hv) as (pep & t & ts & Hg & Hadd & ->).
      exists prev, v, (a_world a0), pep, t, ts. split_and!; [done|done|done|].
      by rewrite Hann, Ha, Hm.
Qed.

Context `{!ConditionsLaws W}.

(** On a cluster without the condition [GSPrivateLinksReady], the first success makes
it true, and a second success changes neither the endpoints nor the conditions. *)
Theorem McIngress_idempotent w s1 s2 :
  first_status (elems (Conditions cw)) ConditionGSPrivateLinksReady = None →
  run (mkSt h0 w) = (Ret None, s1) → run s1 = (Ret None, s2) →
  endpoints_of sc s2 = endpoints_of sc s1 ∧ conditions_of ls s2 = conditions_of ls s1 ∧
  ∃ cs, conditions_of ls s1 = Some cs ∧
    conditions_IsTrue cs ConditionGSPrivateLinksReady = true.
Proof.
  intros Hnone Hr1 Hr2. pose proof (repr_initial h0 sc ls ce cw sn Hw w) as HR.
  destruct (McIngress_conditions _ _ _ HR Hr1) as (a1 & t1 & HR1 & Hcs1 & He1 & Hc1).
  destruct (McIngress_conditions _ _ _ HR1 Hr2) as (a2 & t2 & HR2 & Hcs2 & He2 & Hc2).
  assert (Htrue : conditions_IsTrue (a_conditions a1) ConditionGSPrivateLinksReady = true).
  { rewrite Hc1. cbn [initial_abs a_conditions]. rewrite !conditions_IsTrue_spec, Hnone.
    rewrite (bool_decide_eq_false_2 (None = Some ConditionTrue)) by done.
    by rewrite elems_append, first_status_app, Hnone. }
  rewrite Htrue in Hc2. rewrite (endpoints_of_repr h0 sc ls ce cw sn Hw _ _ HR1),
    (endpoints_of_repr h0 sc ls ce cw sn Hw _ _ HR2), Hcs1, Hcs2, Hc2, He2.
  split_and!; [|done|by eexists]. f_equal. apply add_specs_known.
  rewrite He1. intros n Hn. apply elem_of_names_add_specs. by right.
Qed.

(** C28: on a cluster that has the condition [GSPrivateLinksReady] with another status
than true, a success does not make it true: it appends a second condition of that
type behind the first, and the next success appends a third. *)
Theorem McIngress_duplicate_conditions w s1 s2 st :
  first_status (elems (Conditions cw)) ConditionGSPrivateLinksReady = Some st → st ≠ ConditionTrue →
  run (mkSt h0 w) = (Ret None, s1) → run s1 = (Ret None, s2) →
  ∃ t1 t2,
    conditions_of ls s1 = Some (append (Conditions cw) (gateway_condition t1)) ∧
    conditions_of ls s2 =
      Some (append (append (Conditions cw) (gateway_condition t1)) (gateway_condition t2)) ∧
    conditions_IsTrue (append (append (Conditions cw) (gateway_condition t1)) (gateway_condition t2))
      ConditionGSPrivateLinksReady = false.
Proof.
  intros Hst Hne Hr1 Hr2. pose proof (repr_initial h0 sc ls ce cw sn Hw w) as HR.
  assert (Hfalse : ∀ t1 t2, let cs := append (Conditions cw) (gateway_condition t1) in
    conditions_IsTrue (Conditions cw) ConditionGSPrivateLinksReady = false ∧
    conditions_IsTrue cs ConditionGSPrivateLinksReady = false ∧
    conditions_IsTrue (append cs (gateway_condition t2)) ConditionGSPrivateLinksReady = false).
  { intros t1 t2 cs. unfold cs. rewrite !conditions_IsTrue_spec, !elems_append, !first_status_app, Hst.
    rewrite bool_decide_eq_false_2; [done|congruence]. }
  destruct (McIngress_conditions _ _ _ HR Hr1) as (a1 & t1 & HR1 & Hcs1 & _ & Hc1).
  destruct (McIngress_conditions _ _ _ HR1 Hr2) as (a2 & t2 & HR2 & Hcs2 & _ & Hc2).
  destruct (Hfalse t1 t2) as (Hf0 & Hf1 & Hf2).
  cbn [initial_abs a_conditions] in Hc1. rewrite Hf0 in Hc1. rewrite Hc1, Hf1 in Hc2.
  exists t1, t2. rewrite Hcs1, Hcs2, Hc1, Hc2. done.
Qed.
End wc_to_mc.

(** ** Concrete runs *)

Module WcToMcRuns.
#[local] Existing Instance Concrete.microerror.
#[local] Existing Instance Concrete.fmtVerbs.
#[local] Existing Instance Concrete.apiMachinery.
#[local] Existing Instance Concrete.clusterApiUtil.
#[local] Existing Instance Concrete.conditions_laws.

Import Scenario.

(** Both scopes are on the workload cluster, cell 1. *)
Definition wcs : PrivateEndpoints.scope Concrete.World := endpoints_scope 1 wc_key.
Definition service : Service (St Concrete.World) := heap_Service wcs links_scope.

Definition gateway : PrivateEndpointSpec :=
  Concrete.endpoint "wc1-to-mc-gateway-privateendpoint"
    (privateLinkServiceID "1234" "mc" "mc-gateway-privatelink").

Definition clock : IO Concrete.World Time := io_pure 1%Z.

Definition ingress (s : St Concrete.World) : outcome error * St Concrete.World :=
  ReconcileWcToMcIngress conditions_IsTrue (call clock) service [gateway] s.

Definition start (cs : list Condition) : St Concrete.World := mkSt [mc []; wc cs] Scenario.world.

(** Without the condition, and with a false one. *)
Definition false_condition : Condition :=
  Concrete.condition ConditionGSPrivateLinksReady "False".
Definition run1 := ingress (start []).
Definition run2 := ingress run1.2.
Definition dup1 := ingress (start [false_condition]).
Definition dup2 := ingress dup1.2.

Lemma ingress_run1_ok : run1 = (Ret None, run1.2).
Proof. vm_compute. reflexivity. Defined.
Lemma ingress_run2_ok : run2 = (Ret None, run2.2).
Proof. vm_compute. reflexivity. Defined.
Lemma dup1_ok : dup1 = (Ret None, dup1.2).
Proof. vm_compute. reflexivity. Defined.
Lemma dup2_ok : dup2 = (Ret None, dup2.2).
Proof. vm_compute. reflexivity. Defined.

Lemma McIngress_result_witness :
  endpoints_of wcs run1.2 = Some [gateway] ∧
  (∃ w1 w2 pep t ts,
    pec_Get Concrete.azure_client "wc1" (pe_Name gateway) the_GetOptions w1 = (Ok pep, w2) ∧
    addresses pep = t :: ts ∧
    annotation_of links_scope AzurePrivateEndpointOperatorMcIngressAnnotation run1.2 =
      Some (net_IP_String (net_ParseIP t))) ∧
  ∃ t, conditions_of links_scope run1.2 = Some (Some [gateway_condition t]).
Proof.
  exact (McIngress_result _ _ _ _ _ _ (wired_wc [] []) clock [gateway] Scenario.world run1.2
    gateway ingress_run1_ok eq_refl).
Defined.

(** The gateway answers, but a second endpoint is not there yet. *)
Definition second : PrivateEndpointSpec :=
  Concrete.endpoint "second-privateendpoint" (privateLinkServiceID "1234" "mc" "second").
Definition failed :=
  ReconcileWcToMcIngress conditions_IsTrue (call clock) service [gateway; second] (start []).
Definition failed_error : errval :=
  LibErr "masked" [LibErr "private endpoint not found" [PrivateEndpointNotFoundError]].

Lemma McIngress_failure_witness :
  ∃ k spec (e : errval) w1 res, [gateway; second] !! k = Some spec ∧
    pec_Get Concrete.azure_client "wc1" (pe_Name spec) the_GetOptions w1
      = (res, BaseScope.world failed.2) ∧
    failed_error = Mask e ∧
    match res with
    | Err e0 => e = if IsAzureResourceNotFound (Some e0)
                    then Maskf PrivateEndpointNotFoundError "private endpoint not found"
                    else Mask e0
    | Ok pep => addresses pep = [] ∧ IsRetriable (Some e) = true
    end ∧
    endpoints_of wcs failed.2 = Some (add_specs (take (S k) [gateway; second]) []) ∧
    conditions_of links_scope failed.2 = Some (Some []) ∧
    match k with
    | 0 => annotation_of links_scope AzurePrivateEndpointOperatorMcIngressAnnotation failed.2 =
             annotation_of links_scope AzurePrivateEndpointOperatorMcIngressAnnotation (start [])
    | S j => ∃ prev v v' pep t ts, [gateway; second] !! j = Some prev ∧
        pec_Get Concrete.azure_client "wc1" (pe_Name prev) the_GetOptions v = (Ok pep, v') ∧
        addresses pep = t :: ts ∧
        annotation_of links_scope AzurePrivateEndpointOperatorMcIngressAnnotation failed.2 =
          Some (net_IP_String (net_ParseIP t))
    end.
Proof.
  apply (McIngress_failure _ _ _ _ _ _ (wired_wc [] []) clock [gateway; second] Scenario.world
    failed_error). vm_compute. reflexivity.
Defined.

Example failed_annotation :
  annotation_of links_scope AzurePrivateEndpointOperatorMcIngressAnnotation failed.2
    = Some "10.1.0.5".
Proof. vm_compute. reflexivity. Qed.

Lemma McIngress_idempotent_witness :
  endpoints_of wcs run2.2 = endpoints_of wcs run1.2 ∧
  conditions_of links_scope run2.2 = conditions_of links_scope run1.2 ∧
  ∃ cs, conditions_of links_scope run1.2 = Some cs ∧
    conditions_IsTrue cs ConditionGSPrivateLinksReady = true.
Proof.
  exact (McIngress_idempotent _ _ _ _ _ _ (wired_wc [] []) clock [gateway] Scenario.world
    run1.2 run2.2 eq_refl ingress_run1_ok ingress_run2_ok).
Defined.

Lemma McIngress_duplicate_conditions_witness :
  ∃ t1 t2,
    conditions_of links_scope dup1.2 = Some (Some [false_condition; gateway_condition t1]) ∧
    conditions_of links_scope dup2.2 =
      Some (Some [false_condition; gateway_condition t1; gateway_condition t2]) ∧
    conditions_IsTrue (Some [false_condition; gateway_condition t1; gateway_condition t2])
      ConditionGSPrivateLinksReady = false.
Proof.
  exact (McIngress_duplicate_conditions _ _ _ _ _ _ (wired_wc [] [false_condition]) clock
    [gateway] Scenario.world dup1.2 dup2.2 "False" eq_refl ltac:(discriminate) dup1_ok dup2_ok).
Defined.

End WcToMcRuns.
