(* ===== verification/AzureClient.v ===== *)
(** * pkg/azure: the client for Azure's private endpoints. *)
From S2P Require Import Prelude.
From S2P Require Import GoStrings.
From S2P Require Import Api.

(** [azidentity] and [armnetwork], as far as the operator calls them. *)
Class AzureSdk (W : Type) := {
  TokenCredential : Type;
  NewManagedIdentityCredential : string → IO W (result errval TokenCredential);
  (** tenant, client, secret *)
  NewClientSecretCredential : string → string → string → IO W (result errval TokenCredential);
  (** client, tenant *)
  NewWorkloadIdentityCredential : string → string → IO W (result errval TokenCredential);
  (** subscription, and a credential that may be nil *)
  armnetwork_NewPrivateEndpointsClient :
    string → option TokenCredential → IO W (result errval (PrivateEndpointsClient W))
}.

(** A nil client is [None]. *)
Definition PrivateEndpointsClientCreator (W : Type) : Type :=
  Client W → AzureCluster → M W (result errval (option (PrivateEndpointsClient W))).

Definition clientSecretKeyName : string := "clientSecret".

Section AzureClient.
Context {W : Type} `{Microerror} `{AzureSdk W}.

(** The [switch] on the identity type, which has no default case. *)
Definition credential_of (client : Client W) (identity : AzureClusterIdentity) :
    M W (result errval (option TokenCredential)) :=
  if String.eqb (id_Type identity) UserAssignedMSI then
    let? cred := io (NewManagedIdentityCredential (id_ClientID identity))
      orelse (λ err, mret (Err (Mask err))) in
    mret (Ok (Some cred))
  else if String.eqb (id_Type identity) ManualServicePrincipal then
    let clientSecretName :=
      {| nn_Namespace := id_ClientSecret_Namespace identity;
         nn_Name := id_ClientSecret_Name identity |} in
    let? secret := io (Get_Secret client clientSecretName)
      orelse (λ err, mret (Err (Mask err))) in
    let? cred := io (NewClientSecretCredential (id_TenantID identity) (id_ClientID identity)
                       (secret_get secret clientSecretKeyName))
      orelse (λ err, mret (Err (Mask err))) in
    mret (Ok (Some cred))
  else if String.eqb (id_Type identity) WorkloadIdentity then
    let? cred := io (NewWorkloadIdentityCredential (id_ClientID identity) (id_TenantID identity))
      orelse (λ err, mret (Err (Mask err))) in
    mret (Ok (Some cred))
  else mret (Ok None).

Definition NewPrivateEndpointClient : PrivateEndpointsClientCreator W := λ client azureCluster,
  ref ← deref_opt (IdentityRef (ac_Spec azureCluster));
  let name := {| nn_Namespace := ref_Namespace ref; nn_Name := ref_Name ref |} in
  let? azureClusterIdentity := io (Get_AzureClusterIdentity client name)
    orelse (λ err, mret (Err (Mask err))) in
  let? cred := credential_of client azureClusterIdentity orelse (λ err, mret (Err err)) in
  let? privateEndpointsClient :=
      io (armnetwork_NewPrivateEndpointsClient (SubscriptionID (ac_Spec azureCluster)) cred)
    orelse (λ err, mret (Err (Mask err))) in
  mret (Ok (Some privateEndpointsClient)).

(** *** Properties *)

(** The client is built for the cluster's own subscription, with the credential that
its identity asks for: a managed identity, a service principal whose secret is read
from the referenced secret, or a workload identity. *)
Theorem NewPrivateEndpointClient_credential (client : Client W) c ref id w w1 secret w2 cred w3 pec w4 :
  IdentityRef (ac_Spec c) = Some ref →
  Get_AzureClusterIdentity client
    {| nn_Namespace := ref_Namespace ref; nn_Name := ref_Name ref |} w = (Ok id, w1) →
  (id_Type id = UserAssignedMSI ∧
     NewManagedIdentityCredential (id_ClientID id) w1 = (Ok cred, w3) ∨
   id_Type id = ManualServicePrincipal ∧
     Get_Secret client {| nn_Namespace := id_ClientSecret_Namespace id;
                          nn_Name := id_ClientSecret_Name id |} w1 = (Ok secret, w2) ∧
     NewClientSecretCredential (id_TenantID id) (id_ClientID id)
       (default "" (Data secret !! "clientSecret")) w2 = (Ok cred, w3) ∨
   id_Type id = WorkloadIdentity ∧
     NewWorkloadIdentityCredential (id_ClientID id) (id_TenantID id) w1 = (Ok cred, w3)) →
  armnetwork_NewPrivateEndpointsClient (SubscriptionID (ac_Spec c)) (Some cred) w3 = (Ok pec, w4) →
  NewPrivateEndpointClient client c w = (Ret (Ok (Some pec)), w4).
Proof.
  intros Href Hid Hcred Hpec.
  assert (Hc : credential_of client id w1 = (Ret (Ok (Some cred)), w3)).
  { unfold credential_of.
    destruct Hcred as [[-> Hm]|[(-> & Hs & Hm)|[-> Hm]]]; simpl.
    - by rewrite (check_Ok _ _ _ _ _ _ (io_run _ _ _ _ Hm)).
    - rewrite (check_Ok _ _ _ _ _ _ (io_run _ _ _ _ Hs)).
      by rewrite (check_Ok _ _ _ _ _ _ (io_run _ _ _ _ Hm)).
    - by rewrite (check_Ok _ _ _ _ _ _ (io_run _ _ _ _ Hm)). }
  unfold NewPrivateEndpointClient. rewrite Href. simpl.
  rewrite (bind_Ret _ _ w ref w (mret_run _ _)).
  rewrite (check_Ok _ _ _ _ _ _ (io_run _ _ _ _ Hid)), (check_Ok _ _ _ _ _ _ Hc).
  by rewrite (check_Ok _ _ _ _ _ _ (io_run _ _ _ _ Hpec)).
Qed.

(** C35: an identity of any other type is not refused: the client is built with a nil
credential; and a cluster without identity reference makes the operator panic. *)
Theorem NewPrivateEndpointClient_gaps (client : Client W) c w :
  (IdentityRef (ac_Spec c) = None →
     NewPrivateEndpointClient client c w = (Panic NilDereference, w)) ∧
  ∀ ref id w1,
    IdentityRef (ac_Spec c) = Some ref →
    Get_AzureClusterIdentity client
      {| nn_Namespace := ref_Namespace ref; nn_Name := ref_Name ref |} w = (Ok id, w1) →
    id_Type id ∉ [UserAssignedMSI; ManualServicePrincipal; WorkloadIdentity] →
    NewPrivateEndpointClient client c w =
      match armnetwork_NewPrivateEndpointsClient (SubscriptionID (ac_Spec c)) None w1 with
      | (Ok pec, w2) => (Ret (Ok (Some pec)), w2)
      | (Err e, w2) => (Ret (Err (Mask e)), w2)
      end.
Proof.
  split; [intros Href; unfold NewPrivateEndpointClient; by rewrite Href|].
  intros ref id w1 Href Hid Hty. unfold NewPrivateEndpointClient. rewrite Href. simpl.
  rewrite (bind_Ret _ _ w ref w (mret_run _ _)).
  rewrite (check_Ok _ _ _ _ _ _ (io_run _ _ _ _ Hid)).
  assert (Hc : credential_of client id w1 = (Ret (Ok None), w1)).
  { unfold credential_of. rewrite !not_elem_of_cons in Hty. destruct Hty as (H1 & H2 & H3 & _).
    by repeat (rewrite (proj2 (String.eqb_neq _ _)) by done). }
  rewrite (check_Ok _ _ _ _ _ _ Hc).
  destruct (armnetwork_NewPrivateEndpointsClient _ _ _) as [[pec|e] w2] eqn:E.
  - by rewrite (check_Ok _ _ _ _ _ _ (io_run _ _ _ _ E)).
  - by rewrite (check_Err _ _ _ _ _ _ (io_run _ _ _ _ E)).
Qed.
End AzureClient.
