(* ===== verification/AzureClusterController.v ===== *)
(** * controllers/azurecluster_controller.go: the AzureCluster reconciler.

A reconciliation reads the workload and the management cluster into fresh
memory, builds scopes and services on them, runs the services, and patches both
clusters on the way out. *)
From S2P Require Import Prelude.
From S2P Require Import GoStrings.
From S2P Require Import GoNet.
From S2P Require Import Api.
From S2P Require Import Manager.
From S2P Require Import Errors.
From S2P Require Import BaseScope.
From S2P Require Import PrivateLinks.
From S2P Require Import PrivateEndpoints.
From S2P Require Import Service.
From S2P Require Import AzureClient.

#[global] Arguments PrivateLinks.NewScope : simpl never.
#[global] Arguments PrivateEndpoints.NewScope : simpl never.

Definition AzureClusterControllerFinalizer : string :=
  "azure-private-endpoint-operator.giantswarm.io/azurecluster".

Definition gateway_privatelink (mcName : string) : string := mcName +:+ "-gateway-privatelink".

Definition generateWcToMcPrivateEndpointSpecs (wc mc : AzureCluster) : list PrivateEndpointSpec :=
  [{| pe_Name := ac_Name wc +:+ "-to-" +:+ ac_Name mc +:+ "-gateway-privateendpoint";
      pe_Location := Location (ac_Spec wc);
      PrivateLinkServiceConnections :=
        [{| plsc_Name := ac_Name wc +:+ "-to-" +:+ ac_Name mc +:+ "-gateway-connection";
            PrivateLinkServiceID :=
              privateLinkServiceID (SubscriptionID (ac_Spec mc)) (ac_Name mc)
                (gateway_privatelink (ac_Name mc));
            RequestMessage := "" |}];
      ManualApproval := false |}].

Record AzureClusterReconciler (W : Type) := {
  acr_Client : Client W;
  privateEndpointsClientCreator : PrivateEndpointsClientCreator W;
  managementClusterName : NamespacedName
}.
Arguments acr_Client {W} _.
Arguments privateEndpointsClientCreator {W} _ _.
Arguments managementClusterName {W} _.

Section Reconciler.
Context {W : Type} `{Microerror} `{FmtVerbs} `{ApiMachinery} `{ClusterApiUtil W}
  `{ControllerUtil W}.
(** [metav1.Now]. *)
Context (now : IO W Time).

Definition NewAzureClusterReconciler (client : option (Client W))
    (creator : option (PrivateEndpointsClientCreator W)) (mcName : NamespacedName) :
    result errval (AzureClusterReconciler W) :=
  match client with
  | None => Err (Maskf InvalidConfigError "client must be set")
  | Some client =>
  match creator with
  | None => Err (Maskf InvalidConfigError "privateEndpointsClientCreator must be set")
  | Some creator =>
      if String.eqb (nn_Name mcName) "" then
        Err (Maskf InvalidConfigError "types.NamespacedName.Name must be set")
      else if String.eqb (nn_Namespace mcName) "" then
        Err (Maskf InvalidConfigError "types.NamespacedName.Namespace must be set")
      else Ok {| acr_Client := client; privateEndpointsClientCreator := creator;
                 managementClusterName := mcName |}
  end end.

(** The type of the API server load balancer, read through the pointer. *)
Definition lb_type {S} (azureCluster : AzureCluster) : M S string :=
  lb ← deref_opt (ac_APIServerLB azureCluster);
  mret (lb_Type lb).

Definition validateLBType {S} (azureCluster : AzureCluster) : M S error :=
  ty ← lb_type azureCluster;
  if negb (String.eqb ty Internal) && negb (String.eqb ty Public) then
    mret (Some (Maskf UnknownLoadBalancerTypeError
      ("expected that load balancer type is " +:+ Internal +:+ " or " +:+ Public +:+ ", got "
         +:+ ty +:+ " in cluster " +:+ ac_Name azureCluster)))
  else mret None.

Definition setFinalizer (wl : loc) : M (St W) unit :=
  c ← load wl;
  if negb (ContainsFinalizer (ac_meta c) AzureClusterControllerFinalizer) then
    store wl (set_meta (AddFinalizer (ac_meta c) AzureClusterControllerFinalizer).1 c)
  else mret ().

Definition removeFinalizer (wl : loc) : M (St W) unit :=
  c ← load wl;
  if ContainsFinalizer (ac_meta c) AzureClusterControllerFinalizer then
    store wl (set_meta (RemoveFinalizer (ac_meta c) AzureClusterControllerFinalizer).1 c)
  else mret ().

(** What [Reconcile] does once scopes and services are there: [wl] and [ml] are the
workload and the management cluster. *)
Definition reconcile_clusters (wl ml : loc)
    (mcPrivateEndpointsService wcPrivateEndpointsService : Service (St W)) :
    M (St W) (Result * error) :=
  c ← load wl;
  if Time_IsZero (DeletionTimestamp (ac_meta c)) then
    _ ← setFinalizer wl;
    c ← load wl;
    ty ← lb_type c;
    err ← (if String.eqb ty Internal then ReconcileMcToWcApi mcPrivateEndpointsService
           else mret None);
    err ←
      (match err with
       | None =>
           mc ← load ml;
           mcty ← lb_type mc;
           if String.eqb mcty Internal then
             c ← load wl;
             ReconcileWcToMcIngress conditions_IsTrue (call now) wcPrivateEndpointsService
               (generateWcToMcPrivateEndpointSpecs c mc)
           else mret None
       | Some e => mret (Some e)
       end);
    if IsRetriable err then mret ({| RequeueAfter := Minute |}, None)
    else
      match err with
      | Some e => mret (no_result, Some (Mask e))
      | None => mret (no_result, None)
      end
  else
    ty ← lb_type c;
    err ← (if String.eqb ty Internal then DeleteMcToWcApi mcPrivateEndpointsService
           else mret None);
    match err with
    | Some e => mret (no_result, Some (Mask e))
    | None =>
        _ ← removeFinalizer wl;
        mret (no_result, None)
    end.

Definition Reconcile (r : AzureClusterReconciler W) (req : NamespacedName) :
    M (St W) (Result * error) :=
  got ← call (Get_AzureCluster (acr_Client r) req);
  match got with
  | Err e => if IsNotFound e then mret (no_result, None) else mret (no_result, Some (Mask e))
  | Ok workloadAzureCluster =>
      wl ← alloc workloadAzureCluster;
      if String.eqb (ac_Name workloadAzureCluster) (nn_Name (managementClusterName r)) &&
         String.eqb (ac_Namespace workloadAzureCluster) (nn_Namespace (managementClusterName r))
      then mret (no_result, None)
      else
        let? managementAzureCluster :=
            call (Get_AzureCluster (acr_Client r) (managementClusterName r))
          orelse (λ e, mret (no_result, Some (Mask e))) in
        ml ← alloc managementAzureCluster;
        guard? validateLBType workloadAzureCluster
          orelse (λ e, mret (no_result, Some (Mask e))) in
        guard? validateLBType managementAzureCluster
          orelse (λ e, mret (no_result, Some (Mask e))) in
        let? privateLinksScope := PrivateLinks.NewScope (Some wl) (Some (acr_Client r))
          orelse (λ e, mret (no_result, Some (Mask e))) in
        defer_close (pls_Close (as_PrivateLinksScope privateLinksScope)) (
          mc ← load ml;
          let? mcClient := on_world (privateEndpointsClientCreator r (acr_Client r) mc)
            orelse (λ e, mret (no_result, Some (Mask e))) in
          wc ← load wl;
          let? wcClient := on_world (privateEndpointsClientCreator r (acr_Client r) wc)
            orelse (λ e, mret (no_result, Some (Mask e))) in
          let? mcScope := PrivateEndpoints.NewScope (Some ml) (Some (acr_Client r)) mcClient
            orelse (λ e, mret (no_result, Some (Mask e))) in
          defer_close (sc_Close (PrivateEndpoints.as_Scope mcScope)) (
            let? wcScope := PrivateEndpoints.NewScope (Some wl) (Some (acr_Client r)) wcClient
              orelse (λ e, mret (no_result, Some (Mask e))) in
            match NewService (Some (PrivateEndpoints.as_Scope mcScope))
                    (Some (as_PrivateLinksScope privateLinksScope)) with
            | Err e => mret (no_result, Some (Mask e))
            | Ok mcService =>
            match NewService (Some (PrivateEndpoints.as_Scope wcScope))
                    (Some (as_PrivateLinksScope privateLinksScope)) with
            | Err e => mret (no_result, Some (Mask e))
            | Ok wcService => reconcile_clusters wl ml mcService wcService
            end end))
  end.

(** [Reconcile] as the manager calls it, from fresh memory. *)
Definition reconcile_func (r : AzureClusterReconciler W) (req : NamespacedName) :
    M W (Result * error) := λ w,
  let '(o, s) := Reconcile r req (mkSt [] w) in (o, world s).

Definition SetupWithManager `{Manager W} (r : AzureClusterReconciler W) (mgr : manager) :
    IO W error :=
  Complete mgr
    {| reg_For := KindAzureCluster; reg_Watches := []; reg_Reconciler := reconcile_func r |}.
End Reconciler.

Lemma lb_type_run {S} c lb (s : S) :
  ac_APIServerLB c = Some lb → lb_type c s = (Ret (lb_Type lb), s).
Proof. intros Hlb. unfold lb_type. by rewrite Hlb. Qed.
