(* ===== verification/AzureClusterProps.v ===== *)
(** * Correctness of the AzureCluster reconciler.

The run of [Reconcile] is reduced to the runs of the services of [McToWc] and
[WcToMc], followed by the two patches of the deferred calls. *)
From S2P Require Import Prelude.
From S2P Require Import GoStrings.
From S2P Require Import GoNet.
From S2P Require Import Api.
From S2P Require Import Errors.
From S2P Require Import Util.
From S2P Require Import BaseScope.
From S2P Require Import PrivateLinks.
From S2P Require Import PrivateEndpoints.
From S2P Require Import Service.
From S2P Require Import ServiceSpec.
From S2P Require Import Reconciliation.
From S2P Require Import McToWc.
From S2P Require Import WcToMc.
From S2P Require Import AzureClient.
From S2P Require Import AzureClusterController.

Section props.
Context {W : Type} `{Microerror} `{FmtVerbs} `{ApiMachinery} `{!ClusterApiUtil W}
  `{!ControllerUtil W}.
Context (now : IO W Time).

(** ** Load balancer types *)

Lemma validateLBType_run {S} c lb (s : S) :
  ac_APIServerLB c = Some lb →
  validateLBType c s =
    (Ret (if negb (String.eqb (lb_Type lb) Internal) && negb (String.eqb (lb_Type lb) Public)
          then Some (Maskf UnknownLoadBalancerTypeError
            ("expected that load balancer type is " +:+ Internal +:+ " or " +:+ Public +:+
             ", got " +:+ lb_Type lb +:+ " in cluster " +:+ ac_Name c))
          else None), s).
Proof.
  intros Hlb. unfold validateLBType. rewrite (bind_Ret _ _ _ _ _ (lb_type_run c lb s Hlb)).
  by destruct (_ && _).
Qed.

Definition valid_lb (c : AzureCluster) (lb : LoadBalancerSpec) : Prop :=
  ac_APIServerLB c = Some lb ∧ (lb_Type lb = Internal ∨ lb_Type lb = Public).

Lemma validateLBType_valid {S} c lb (s : S) : valid_lb c lb → validateLBType c s = (Ret None, s).
Proof. intros [Hlb [Ht|Ht]]; rewrite (validateLBType_run c lb s Hlb), Ht; done. Qed.

(** A load balancer type is accepted exactly when it is internal or public; any other
is reported as unknown, and is not retried; a missing load balancer panics. *)
Theorem validateLBType_spec {S} c (s : S) :
  match ac_APIServerLB c with
  | None => validateLBType c s = (Panic NilDereference, s)
  | Some lb => ∃ err, validateLBType c s = (Ret err, s) ∧
      (err = None ↔ lb_Type lb = Internal ∨ lb_Type lb = Public) ∧
      (err ≠ None → IsUnknownLoadBalancerType err = true ∧ IsRetriable err = false)
  end.
Proof.
  destruct (ac_APIServerLB c) as [lb|] eqn:Hlb.
  - rewrite (validateLBType_run c lb s Hlb). eexists. split; [done|].
    destruct (String.eqb_spec (lb_Type lb) Internal), (String.eqb_spec (lb_Type lb) Public);
      simpl; try (split; [by split; auto|congruence]).
    split; [split; [done|tauto]|]. intros _. rewrite IsRetriable_existsb.
    unfold IsUnknownLoadBalancerType, UnknownLoadBalancerTypeError. by rewrite Cause_Maskf.
  - unfold validateLBType, lb_type. by rewrite Hlb.
Qed.

(** ** Runs that touch nothing *)

Section no_effect.
Context (r : AzureClusterReconciler W) (req : NamespacedName) (w0 : W).

(** A deleted AzureCluster and the management cluster itself are skipped without
an error and without any further call: the world is as the single read left it. *)
Theorem Reconcile_skips w1 :
  (∃ e, Get_AzureCluster (acr_Client r) req w0 = (Err e, w1) ∧ IsNotFound e = true) ∨
  (∃ c, Get_AzureCluster (acr_Client r) req w0 = (Ok c, w1) ∧
     cluster_name c = managementClusterName r) →
  ∃ h, Reconcile now r req (mkSt [] w0) = (Ret (no_result, None), mkSt h w1).
Proof.
  intros [(e & Hg & He)|(c & Hg & Hn)]; unfold Reconcile;
    rewrite (bind_Ret _ _ _ _ _ (call_run _ (mkSt [] w0) _ _ Hg)).
  - rewrite He. by eexists.
  - rewrite (bind_Ret _ _ _ _ _ (alloc_run c _)). simpl. destruct (managementClusterName r).
    injection Hn as <- <-. simpl. rewrite !String.eqb_refl. by eexists.
Qed.

(** When a read fails, or one of the two clusters has a load balancer of an unknown
type, the error is returned and neither cluster is patched: the world is as the
reads left it. *)
Theorem Reconcile_refuses w1 :
  (∃ e, Get_AzureCluster (acr_Client r) req w0 = (Err e, w1) ∧ IsNotFound e = false) ∨
  (∃ c w2, Get_AzureCluster (acr_Client r) req w0 = (Ok c, w2) ∧
     cluster_name c ≠ managementClusterName r ∧
     ((∃ e, Get_AzureCluster (acr_Client r) (managementClusterName r) w2 = (Err e, w1)) ∨
      (∃ mc lw lm,
         Get_AzureCluster (acr_Client r) (managementClusterName r) w2 = (Ok mc, w1) ∧
         ac_APIServerLB c = Some lw ∧ ac_APIServerLB mc = Some lm ∧
         (lb_Type lw ∉ [Internal; Public] ∨ lb_Type lm ∉ [Internal; Public])))) →
  ∃ h e, Reconcile now r req (mkSt [] w0) = (Ret (no_result, Some e), mkSt h w1).
Proof.
  assert (Hbad : ∀ ty, ty ∉ [Internal; Public] →
    negb (String.eqb ty Internal) && negb (String.eqb ty Public) = true).
  { intros ty. rewrite !not_elem_of_cons. intros (Hi & Hp & _).
    by rewrite !(proj2 (String.eqb_neq _ _)) by done. }
  intros [(e & Hg & He)|(c & w2 & Hg & Hn & Hrest)]; unfold Reconcile;
    rewrite (bind_Ret _ _ _ _ _ (call_run _ (mkSt [] w0) _ _ Hg)); [rewrite He; by do 2 eexists|].
  rewrite (bind_Ret _ _ _ _ _ (alloc_run c _)). simpl.
  assert (Hname : (String.eqb (ac_Name c) (nn_Name (managementClusterName r)) &&
    String.eqb (ac_Namespace c) (nn_Namespace (managementClusterName r))) = false).
  { apply not_true_iff_false. rewrite andb_true_iff, !String.eqb_eq. intros [E1 E2].
    apply Hn. unfold cluster_name. rewrite E1, E2. by destruct (managementClusterName r). }
  rewrite Hname. clear Hname Hn.
  destruct Hrest as [(e & Hm)|(mc & lw & lm & Hm & Hlw & Hlm & Hty)].
  { rewrite (check_Err _ _ _ _ _ _ (call_run _ (mkSt [c] w2) _ _ Hm)). by do 2 eexists. }
  rewrite (check_Ok _ _ _ _ _ _ (call_run _ (mkSt [c] w2) _ _ Hm)).
  rewrite (bind_Ret _ _ _ _ _ (alloc_run mc _)). simpl.
  pose proof (λ s : St W, validateLBType_run c lw s Hlw) as Hvw.
  pose proof (λ s : St W, validateLBType_run mc lm s Hlm) as Hvm.
  destruct (negb (String.eqb (lb_Type lw) Internal) && negb (String.eqb (lb_Type lw) Public)) eqn:Ew.
  - rewrite (check_err_Some _ _ _ _ _ _ (Hvw _)). by do 2 eexists.
  - destruct Hty as [Hty|Hty]; [by rewrite Hbad in Ew|].
    rewrite (check_err_None _ _ _ _ _ (Hvw _)). rewrite (Hbad _ Hty) in Hvm.
    rewrite (check_err_Some _ _ _ _ _ _ (Hvm _)). by do 2 eexists.
Qed.
End no_effect.

(** ** A reconciliation that gets to work

Both clusters are read, validated and get their scopes. *)
Record setup (r : AzureClusterReconciler W) (req : NamespacedName) (w0 : W)
    (wc mc : AzureCluster) (lw lm : LoadBalancerSpec) (hl hm hw : PatchHelper)
    (pm pw : PrivateEndpointsClient W) (snm snw : SubnetSpec) (im iw : nat) (w : W) : Prop := {
  setup_calls : ∃ w1 w2 w3 w4 w5 w6,
    Get_AzureCluster (acr_Client r) req w0 = (Ok wc, w1) ∧
    Get_AzureCluster (acr_Client r) (managementClusterName r) w1 = (Ok mc, w2) ∧
    patch_NewHelper (acr_Client r) (ObjAzureCluster wc) w2 = (Ok hl, w3) ∧
    privateEndpointsClientCreator r (acr_Client r) mc w3 = (Ret (Ok (Some pm)), w4) ∧
    privateEndpointsClientCreator r (acr_Client r) wc w4 = (Ret (Ok (Some pw)), w5) ∧
    patch_NewHelper (acr_Client r) (ObjAzureCluster mc) w5 = (Ok hm, w6) ∧
    patch_NewHelper (acr_Client r) (ObjAzureCluster wc) w6 = (Ok hw, w);
  setup_name : cluster_name wc ≠ managementClusterName r;
  setup_lw : valid_lb wc lw;
  setup_lm : valid_lb mc lm;
  setup_im : endpoints_subnet (ac_Subnets mc) = Some im;
  setup_iw : endpoints_subnet (ac_Subnets wc) = Some iw;
  setup_snm : ac_Subnets mc !! im = Some snm;
  setup_snw : ac_Subnets wc !! iw = Some snw
}.

(** The scopes it builds: the workload cluster is cell 0, the management cluster 1. *)
Definition the_links (lw : LoadBalancerSpec) (hl : PatchHelper) : PrivateLinks.Scope W :=
  {| PrivateLinks.BaseScope_ := {| azureCluster := 0; patchHelper := hl |};
     PrivateLinks.privateLinks := PrivateLinks lw |}.

Definition the_endpoints (l : loc) (i : nat) (h : PatchHelper) (p : PrivateEndpointsClient W) :
    PrivateEndpoints.scope W :=
  {| PrivateEndpoints.BaseScope_ := {| azureCluster := l; patchHelper := h |};
     PrivateEndpoints.privateEndpoints_subnet := i;
     PrivateEndpoints.privateEndpointsClient := p |}.

(** The error that a reconciliation returns: its own, else that of the management
cluster's patch, else that of the workload cluster's patch. *)
Definition closed (err errm errl : error) : error :=
  match err with
  | Some e => Some e
  | None =>
      match errm with
      | Some e => Some (Mask (Mask e))
      | None => match errl with Some e => Some (Mask (Mask e)) | None => None end
      end
  end.

Section work.
Context (r : AzureClusterReconciler W) (req : NamespacedName) (w0 : W)
  (wc mc : AzureCluster) (lw lm : LoadBalancerSpec) (hl hm hw : PatchHelper)
  (pm pw : PrivateEndpointsClient W) (snm snw : SubnetSpec) (im iw : nat) (w : W)
  (Hs : setup r req w0 wc mc lw lm hl hm hw pm pw snm snw im iw w).

#[local] Abbreviation links := (the_links lw hl).
#[local] Abbreviation mcs := (the_endpoints 1 im hm pm).
#[local] Abbreviation wcs := (the_endpoints 0 iw hw pw).
#[local] Abbreviation work :=
  (reconcile_clusters now 0 1 (heap_Service mcs links) (heap_Service wcs links)).

Lemma on_world_run {A} (m : M W A) (s : St W) o w' :
  m (world s) = (Ret o, w') → on_world m s = (Ret o, mkSt (heap s) w').
Proof. intros E. unfold on_world. by rewrite E. Qed.

Lemma Reconcile_setup :
  Reconcile now r req (mkSt [] w0) =
    defer_close (Close (PrivateLinks.BaseScope_ links))
      (defer_close (Close (PrivateEndpoints.BaseScope_ mcs)) work) (mkSt [wc; mc] w).
Proof.
  destruct Hs as [(w1 & w2 & w3 & w4 & w5 & w6 & Hg1 & Hg2 & Hh1 & Hc1 & Hc2 & Hh2 & Hh3)
    Hn Hlw Hlm Him Hiw Hsnm Hsnw].
  unfold Reconcile. rewrite (bind_Ret _ _ _ _ _ (call_run _ (mkSt [] w0) _ _ Hg1)).
  rewrite (bind_Ret _ _ _ _ _ (alloc_run wc _)). simpl.
  assert (Hname : (String.eqb (ac_Name wc) (nn_Name (managementClusterName r)) &&
    String.eqb (ac_Namespace wc) (nn_Namespace (managementClusterName r))) = false).
  { apply not_true_iff_false. rewrite andb_true_iff, !String.eqb_eq. intros [E1 E2].
    apply Hn. unfold cluster_name. rewrite E1, E2. by destruct (managementClusterName r). }
  rewrite Hname, (check_Ok _ _ _ _ _ _ (call_run _ (mkSt [wc] w1) _ _ Hg2)).
  rewrite (bind_Ret _ _ _ _ _ (alloc_run mc _)). simpl.
  rewrite (check_err_None _ _ _ _ _ (validateLBType_valid wc lw (mkSt [wc; mc] w2) Hlw)).
  rewrite (check_err_None _ _ _ _ _ (validateLBType_valid mc lm (mkSt [wc; mc] w2) Hlm)).
  rewrite (check_Ok _ _ _ _ _ _
    (PL_NewScope_run 0 _ (mkSt [wc; mc] w2) wc lw (Ok hl) w3 eq_refl (proj1 Hlw) Hh1)).
  unfold defer_close at 1 3.
  rewrite (bind_Ret (load 1) _ (mkSt [wc; mc] w3) mc (mkSt [wc; mc] w3) eq_refl).
  rewrite (check_Ok _ _ _ _ _ _ (on_world_run _ (mkSt [wc; mc] w3) _ _ Hc1)).
  rewrite (bind_Ret (load 0) _ (mkSt [wc; mc] w4) wc (mkSt [wc; mc] w4) eq_refl).
  rewrite (check_Ok _ _ _ _ _ _ (on_world_run _ (mkSt [wc; mc] w4) _ _ Hc2)).
  rewrite (check_Ok _ _ _ _ _ _
    (PE_NewScope_run 1 _ pm (mkSt [wc; mc] w5) mc im (Ok hm) w6 eq_refl Him Hh2)).
  unfold defer_close at 1 2.
  rewrite (check_Ok _ _ _ _ _ _
    (PE_NewScope_run 0 _ pw (mkSt [wc; mc] w6) wc iw (Ok hw) w eq_refl Hiw Hh3)).
  reflexivity.
Qed.

(** The two deferred calls: the management cluster is patched first. *)
Lemma Reconcile_closes res err s1 wc' mc' errm w2 errl w3 :
  work (mkSt [wc; mc] w) = (Ret (res, err), s1) → heap s1 = [wc'; mc'] →
  patch_Patch hm (ObjAzureCluster mc') (world s1) = (errm, w2) →
  patch_Patch hl (ObjAzureCluster wc') w2 = (errl, w3) →
  Reconcile now r req (mkSt [] w0) = (Ret (res, closed err errm errl), mkSt [wc'; mc'] w3).
Proof.
  intros Hwork Hheap Hm Hl. rewrite Reconcile_setup.
  assert (Hcm := Close_run (PrivateEndpoints.BaseScope_ mcs) s1 mc' errm w2).
  simpl in Hcm. rewrite Hheap in Hcm. specialize (Hcm eq_refl Hm).
  rewrite (defer_close_Ret _ _ _ _ _ _ _ _ (defer_close_Ret _ _ _ _ _ _ _ _ Hwork Hcm)
    (Close_run (PrivateLinks.BaseScope_ links) (mkSt [wc'; mc'] w2) wc' errl w3 eq_refl Hl)).
  by destruct err, errm.
Qed.

(** *** The two pairs of scopes *)

Definition with_finalizer (c : AzureCluster) : AzureCluster :=
  if ContainsFinalizer (ac_meta c) AzureClusterControllerFinalizer then c
  else set_meta (AddFinalizer (ac_meta c) AzureClusterControllerFinalizer).1 c.

Definition without_finalizer (c : AzureCluster) : AzureCluster :=
  if ContainsFinalizer (ac_meta c) AzureClusterControllerFinalizer
  then set_meta (RemoveFinalizer (ac_meta c) AzureClusterControllerFinalizer).1 c else c.

Lemma setFinalizer_run c mc' w' :
  setFinalizer 0 (mkSt [c; mc'] w') = (Ret (), mkSt [with_finalizer c; mc'] w').
Proof.
  unfold setFinalizer, with_finalizer, mbind, M_bind. simpl.
  by destruct (ContainsFinalizer _ _).
Qed.

Lemma removeFinalizer_run c mc' w' :
  removeFinalizer 0 (mkSt [c; mc'] w') = (Ret (), mkSt [without_finalizer c; mc'] w').
Proof.
  unfold removeFinalizer, without_finalizer, mbind, M_bind. simpl.
  by destruct (ContainsFinalizer _ _).
Qed.

(** Finalizers apart, the workload cluster is still [wc]. *)
Lemma with_finalizer_spec c :
  ac_Spec (with_finalizer c) = ac_Spec c ∧ Conditions (with_finalizer c) = Conditions c.
Proof. unfold with_finalizer. by destruct (ContainsFinalizer _ _). Qed.

Lemma wired_mcs c mc' :
  ac_Subnets mc' !! im = Some snm → wired [c; mc'] mcs links mc' c snm.
Proof. intros Hi. by split. Qed.

Lemma wired_wcs c mc' :
  ac_Subnets c !! iw = Some snw → wired [c; mc'] wcs links c c snw.
Proof. intros Hi. by split. Qed.

(** The heaps that abstract states stand for. *)
Lemma repr_mcs c mc' s a :
  repr [c; mc'] mcs links s a →
  s = mkSt [put_status (a_annotations a) (a_conditions a) c;
            put_endpoints im (a_endpoints a) mc'] (a_world a).
Proof. intros [Hh Hw']. destruct s. simpl in *. by subst. Qed.

Lemma repr_wcs c mc' s a :
  repr [c; mc'] wcs links s a →
  s = mkSt [put_status (a_annotations a) (a_conditions a) (put_endpoints iw (a_endpoints a) c);
            mc'] (a_world a).
Proof. intros [Hh Hw']. destruct s. simpl in *. by subst. Qed.

(** *** Deletion *)

Lemma work_deletes :
  Time_IsZero (DeletionTimestamp (ac_meta wc)) = false →
  work (mkSt [wc; mc] w) =
    (Ret (no_result, None),
     mkSt [without_finalizer wc;
           put_endpoints im
             (if String.eqb (lb_Type lw) Internal
              then delete_links (wired_statics mcs links mc wc) (PrivateEndpoints snm)
              else PrivateEndpoints snm) mc] w).
Proof.
  intros Hdel. unfold reconcile_clusters. destruct Hs as [_ _ [Hlw _] _ _ _ Hsnm _].
  rewrite (bind_Ret (load 0) _ (mkSt [wc; mc] w) wc (mkSt [wc; mc] w) eq_refl), Hdel.
  rewrite (bind_Ret _ _ _ _ _ (lb_type_run wc lw _ Hlw)).
  assert (Hw := wired_mcs wc mc Hsnm). assert (HR := repr_initial _ _ _ _ _ _ Hw w).
  destruct (String.eqb (lb_Type lw) Internal).
  - destruct (DeleteMcToWcApi_heap _ _ _ _ _ _ Hw _ _ HR) as (s' & Hrun & HR').
    rewrite (bind_Ret _ _ _ _ _ Hrun), (repr_mcs _ _ _ _ HR'). simpl.
    rewrite (put_status_same wc). by rewrite (bind_Ret _ _ _ _ _ (removeFinalizer_run wc _ w)).
  - rewrite (bind_Ret _ _ _ _ _ (mret_run _ _)). rewrite (put_endpoints_same _ _ _ Hsnm).
    by rewrite (bind_Ret _ _ _ _ _ (removeFinalizer_run wc mc w)).
Qed.

(** C12: deleting a private workload cluster.  Whatever the patches answer, the
management cluster is sent to the API server without the endpoints of the allowed
links, and then the workload cluster without the finalizer: also when the patch of
the management cluster failed, whose error is then returned. *)
Theorem Reconcile_deletes mc' errm w2 errl w3 :
  Time_IsZero (DeletionTimestamp (ac_meta wc)) = false → lb_Type lw = Internal →
  NoDup (names (PrivateEndpoints snm)) →
  mc' = put_endpoints im (filter (λ e, pe_Name e ∉
          ((λ l, privateEndpointName (pl_Name l)) <$>
            filter (λ l, Some (SubscriptionID (ac_Spec mc)) ∈ AllowedSubscriptions l)
              (PrivateLinks lw)))
          (PrivateEndpoints snm)) mc →
  patch_Patch hm (ObjAzureCluster mc') w = (errm, w2) →
  patch_Patch hl (ObjAzureCluster (without_finalizer wc)) w2 = (errl, w3) →
  Reconcile now r req (mkSt [] w0) =
    (Ret (no_result, closed None errm errl), mkSt [without_finalizer wc; mc'] w3).
Proof.
  intros Hdel Hint Hnd Hmc Hm Hl.
  eapply (Reconcile_closes _ _ (mkSt [without_finalizer wc; mc'] w)); [|done|done|done].
  rewrite (work_deletes Hdel), Hint, String.eqb_refl.
  by rewrite (delete_links_filter _ _ Hnd), Hmc.
Qed.

(** *** A live workload cluster *)

#[local] Abbreviation x := (wired_statics mcs links mc (with_finalizer wc)).

Definition api_phase : error * AbsSt W :=
  if String.eqb (lb_Type lw) Internal
  then mc_to_wc_api x (initial_abs (with_finalizer wc) snm w)
  else (None, initial_abs (with_finalizer wc) snm w).

Definition ingress_phase (wc' mc' : AzureCluster) (w' : W) : error * AbsSt W :=
  if String.eqb (lb_Type lm) Internal
  then wc_to_mc_ingress (wired_statics wcs links wc' wc') now
         (generateWcToMcPrivateEndpointSpecs wc' mc') (initial_abs wc' snw w')
  else (None, initial_abs wc' snw w').

(** Error and final memory of the two phases. *)
Definition live : error * St W :=
  let '(e1, a1) := api_phase in
  let wc' := put_status (a_annotations a1) (a_conditions a1) (with_finalizer wc) in
  let mc' := put_endpoints im (a_endpoints a1) mc in
  match e1 with
  | Some e => (Some e, mkSt [wc'; mc'] (a_world a1))
  | None =>
      let '(e2, a2) := ingress_phase wc' mc' (a_world a1) in
      (e2, mkSt [put_status (a_annotations a2) (a_conditions a2)
                   (put_endpoints iw (a_endpoints a2) wc'); mc'] (a_world a2))
  end.

Definition live_outcome (err : error) : Result * error :=
  if IsRetriable err then ({| RequeueAfter := Minute |}, None)
  else (no_result, match err with Some e => Some (Mask e) | None => None end).

Lemma api_phase_run :
  let m := if String.eqb (lb_Type lw) Internal
           then ReconcileMcToWcApi (heap_Service mcs links) else mret None in
  m (mkSt [with_finalizer wc; mc] w) =
    let '(e, a) := api_phase in
    (Ret e, mkSt [put_status (a_annotations a) (a_conditions a) (with_finalizer wc);
                  put_endpoints im (a_endpoints a) mc] (a_world a)).
Proof.
  unfold api_phase. assert (Hw := wired_mcs (with_finalizer wc) mc (setup_snm _ _ _ _ _ _ _ _ _ _ _ _ _ _ _ _ _ Hs)).
  assert (HR := repr_initial _ _ _ _ _ _ Hw w).
  destruct (String.eqb (lb_Type lw) Internal).
  - destruct (McToWcApi_heap _ _ _ _ _ _ Hw _ _ HR) as (s' & Hrun & HR'). simpl.
    rewrite Hrun. destruct (mc_to_wc_api _ _) as [e a]. by rewrite (repr_mcs _ _ _ _ HR').
  - rewrite <- (repr_mcs _ _ _ _ HR). done.
Qed.

Lemma ingress_phase_run wc' mc' w' :
  ac_Subnets wc' !! iw = Some snw →
  let m := if String.eqb (lb_Type lm) Internal
           then ReconcileWcToMcIngress conditions_IsTrue (call now) (heap_Service wcs links)
                  (generateWcToMcPrivateEndpointSpecs wc' mc') else mret None in
  m (mkSt [wc'; mc'] w') =
    let '(e, a) := ingress_phase wc' mc' w' in
    (Ret e, mkSt [put_status (a_annotations a) (a_conditions a)
                    (put_endpoints iw (a_endpoints a) wc'); mc'] (a_world a)).
Proof.
  intros Hsn. unfold ingress_phase. assert (Hw := wired_wcs wc' mc' Hsn).
  assert (HR := repr_initial _ _ _ _ _ _ Hw w').
  destruct (String.eqb (lb_Type lm) Internal).
  - destruct (McIngress_heap _ _ _ _ _ _ Hw now (generateWcToMcPrivateEndpointSpecs wc' mc')
      _ _ HR) as (s' & Hrun & HR'). simpl.
    rewrite Hrun. destruct (wc_to_mc_ingress _ _ _ _) as [e a]. by rewrite (repr_wcs _ _ _ _ HR').
  - rewrite <- (repr_wcs _ _ _ _ HR). done.
Qed.

Lemma work_live :
  Time_IsZero (DeletionTimestamp (ac_meta wc)) = true →
  work (mkSt [wc; mc] w) = (Ret (live_outcome live.1), live.2).
Proof.
  intros Hlive. unfold reconcile_clusters, live.
  destruct Hs as [_ _ [Hlw _] [Hlm _] _ _ Hsnm Hsnw].
  rewrite (bind_Ret (load 0) _ (mkSt [wc; mc] w) wc (mkSt [wc; mc] w) eq_refl), Hlive.
  rewrite (bind_Ret _ _ _ _ _ (setFinalizer_run wc mc w)).
  destruct (with_finalizer_spec wc) as [Hspec _].
  rewrite (bind_Ret (load 0) _ (mkSt [with_finalizer wc; mc] w) (with_finalizer wc)
    (mkSt [with_finalizer wc; mc] w) eq_refl).
  rewrite (bind_Ret _ _ _ _ _ (lb_type_run (with_finalizer wc) lw _
    ltac:(unfold ac_APIServerLB; by rewrite Hspec))).
  pose proof api_phase_run as Ha. cbv zeta in Ha.
  destruct api_phase as [[e1|] a1]; rewrite (bind_Ret _ _ _ _ _ Ha).
  { unfold live_outcome. rewrite (bind_Ret _ _ _ _ _ (mret_run _ _)).
    by destruct (IsRetriable _). }
  set (wc' := put_status (a_annotations a1) (a_conditions a1) (with_finalizer wc)).
  set (mc' := put_endpoints im (a_endpoints a1) mc).
  assert (Hb := ingress_phase_run wc' mc' (a_world a1)). cbv zeta in Hb.
  assert (Hsn' : ac_Subnets wc' !! iw = Some snw).
  { unfold wc', ac_Subnets. simpl. by rewrite Hspec. }
  specialize (Hb Hsn'). destruct (ingress_phase wc' mc' (a_world a1)) as [e2 a2].
  erewrite bind_Ret; [|
    rewrite (bind_Ret (load 1) _ (mkSt [wc'; mc'] (a_world a1)) mc' (mkSt [wc'; mc'] (a_world a1)) eq_refl);
    rewrite (bind_Ret _ _ _ _ _ (lb_type_run mc' lm _ Hlm));
    destruct (String.eqb (lb_Type lm) Internal); [
      rewrite (bind_Ret (load 0) _ (mkSt [wc'; mc'] (a_world a1)) wc' (mkSt [wc'; mc'] (a_world a1)) eq_refl)|];
    apply Hb].
  unfold live_outcome. cbn [fst snd]. destruct (IsRetriable e2); [reflexivity|].
  destruct e2; reflexivity.
Qed.

Lemma live_heap_mc :
  ∃ wc', heap live.2 = [wc'; put_endpoints im (a_endpoints api_phase.2) mc] ∧
    Finalizers (ac_meta wc') = Finalizers (ac_meta (with_finalizer wc)).
Proof.
  unfold live. destruct api_phase as [[e1|] a1]; [by eexists|].
  destruct (ingress_phase _ _ _) as [e2 a2]. by eexists.
Qed.

Lemma live_heap :
  ∃ wc' mc', heap live.2 = [wc'; mc'] ∧
    Finalizers (ac_meta wc') = Finalizers (ac_meta (with_finalizer wc)).
Proof. destruct live_heap_mc as (wc' & Hh & Hf). eauto. Qed.

Lemma with_finalizer_in `{!ControllerUtilLaws W} c :
  AzureClusterControllerFinalizer ∈ Finalizers (ac_meta (with_finalizer c)).
Proof.
  unfold with_finalizer. rewrite ContainsFinalizer_spec, AddFinalizer_spec.
  destruct (bool_decide _) eqn:E; [by apply bool_decide_eq_true in E|]. simpl.
  apply elem_of_app. right. by left.
Qed.

Lemma with_finalizer_name `{!ControllerUtilLaws W} c :
  cluster_name (with_finalizer c) = cluster_name c.
Proof.
  unfold with_finalizer. rewrite ContainsFinalizer_spec, AddFinalizer_spec.
  by destruct (bool_decide _).
Qed.

Lemma wired_statics_finalizer `{!ControllerUtilLaws W} :
  x = wired_statics mcs links mc wc.
Proof.
  unfold wired_statics, statics_of. rewrite with_finalizer_name.
  by destruct (with_finalizer_spec wc) as [-> _].
Qed.

(** The run of a live cluster, given the answers to its two patches. *)
Lemma Reconcile_live_run wc' mc' errm w2 errl w3 :
  Time_IsZero (DeletionTimestamp (ac_meta wc)) = true → heap live.2 = [wc'; mc'] →
  patch_Patch hm (ObjAzureCluster mc') (world live.2) = (errm, w2) →
  patch_Patch hl (ObjAzureCluster wc') w2 = (errl, w3) →
  Reconcile now r req (mkSt [] w0) =
    (Ret ((live_outcome live.1).1, closed (live_outcome live.1).2 errm errl),
     mkSt [wc'; mc'] w3).
Proof.
  intros Hl Hh Hm Hw. eapply Reconcile_closes; [|done|done|done].
  rewrite (work_live Hl). by destruct (live_outcome live.1).
Qed.

(** [live] is a run of the two operations of the service. *)
Lemma live_services :
  ∃ e1 s1,
    (if String.eqb (lb_Type lw) Internal
     then ReconcileMcToWcApi (heap_Service mcs links) else mret None)
      (mkSt [with_finalizer wc; mc] w) = (Ret e1, s1) ∧
    match e1 with
    | Some _ => live.1 = e1 ∧ live.2 = s1
    | None => ∃ wc1 mc1, heap s1 = [wc1; mc1] ∧
        (if String.eqb (lb_Type lm) Internal
         then ReconcileWcToMcIngress conditions_IsTrue (call now) (heap_Service wcs links)
                (generateWcToMcPrivateEndpointSpecs wc1 mc1)
         else mret None) s1 = (Ret live.1, live.2)
    end.
Proof.
  pose proof api_phase_run as Ha. cbv zeta in Ha. unfold live.
  destruct api_phase as [[e1|] a1]; do 2 eexists; (split; [exact Ha|]); [done|].
  set (wc1 := put_status (a_annotations a1) (a_conditions a1) (with_finalizer wc)).
  set (mc1 := put_endpoints im (a_endpoints a1) mc).
  exists wc1, mc1. split; [done|].
  assert (Hsn : ac_Subnets wc1 !! iw = Some snw).
  { unfold wc1, ac_Subnets. simpl. destruct (with_finalizer_spec wc) as [-> _].
    exact (setup_snw _ _ _ _ _ _ _ _ _ _ _ _ _ _ _ _ _ Hs). }
  pose proof (ingress_phase_run wc1 mc1 (a_world a1) Hsn) as Hi. cbv zeta in Hi.
  rewrite Hi. by destruct (ingress_phase wc1 mc1 (a_world a1)).
Qed.

(** C11: a live workload cluster, once both clusters are read and their scopes are built.
For a private one [ReconcileMcToWcApi] is run, and if it succeeds (or was not called),
on a private management cluster [ReconcileWcToMcIngress]; [err] is the error of the
last of them that ran.  Neither panics.  The reconciliation returns [err], masked, or
as a requeue in a minute when it is retriable, before any error of the two patches; it
ends by sending to the API server the management cluster and then the workload cluster
as the services have left them, the latter with the controller's finalizer. *)
Theorem Reconcile_live_finalizer `{!ControllerUtilLaws W} :
  Time_IsZero (DeletionTimestamp (ac_meta wc)) = true →
  ∃ e1 s1 err s2 wc' mc' errm w2 errl w3,
    (if String.eqb (lb_Type lw) Internal
     then ReconcileMcToWcApi (heap_Service mcs links) else mret None)
      (mkSt [with_finalizer wc; mc] w) = (Ret e1, s1) ∧
    match e1 with
    | Some _ => err = e1 ∧ s2 = s1
    | None => ∃ wc1 mc1, heap s1 = [wc1; mc1] ∧
        (if String.eqb (lb_Type lm) Internal
         then ReconcileWcToMcIngress conditions_IsTrue (call now) (heap_Service wcs links)
                (generateWcToMcPrivateEndpointSpecs wc1 mc1)
         else mret None) s1 = (Ret err, s2)
    end ∧
    heap s2 = [wc'; mc'] ∧
    AzureClusterControllerFinalizer ∈ Finalizers (ac_meta wc') ∧
    patch_Patch hm (ObjAzureCluster mc') (world s2) = (errm, w2) ∧
    patch_Patch hl (ObjAzureCluster wc') w2 = (errl, w3) ∧
    Reconcile now r req (mkSt [] w0) =
      (Ret (if IsRetriable err then ({| RequeueAfter := Minute |}, closed None errm errl)
            else (no_result,
              closed (match err with Some e => Some (Mask e) | None => None end) errm errl)),
       mkSt [wc'; mc'] w3).
Proof.
  intros Hl. destruct live_heap as (wc' & mc' & Hh & Hf).
  destruct (patch_Patch hm (ObjAzureCluster mc') (world live.2)) as [errm w2] eqn:Em.
  destruct (patch_Patch hl (ObjAzureCluster wc') w2) as [errl w3] eqn:El.
  destruct live_services as (e1 & s1 & Hr1 & Hr2).
  exists e1, s1, live.1, live.2, wc', mc', errm, w2, errl, w3.
  split_and!; [done|done|done| |done|done|].
  - rewrite Hf. apply with_finalizer_in.
  - rewrite (Reconcile_live_run wc' mc' errm w2 errl w3 Hl Hh Em El). unfold live_outcome.
    by destruct (IsRetriable live.1).
Qed.

(** C20: the first reconciliation of a private cluster.  The endpoint of the first link
is not in Azure yet, so Azure answers "not found"; the endpoint is nevertheless sent
to the API server in the management cluster, whose controller will create it, and
the reconciliation is repeated in a minute. *)
Theorem Reconcile_requests_endpoint `{!ControllerUtilLaws W} l ls e w1 errm w2 errl w3 :
  Time_IsZero (DeletionTimestamp (ac_meta wc)) = true → lb_Type lw = Internal →
  filter (λ l, Some (SubscriptionID (ac_Spec mc)) ∈ AllowedSubscriptions l) (PrivateLinks lw)
    = l :: ls →
  conditions_IsTrue (Conditions wc) PrivateLinksReadyCondition = true →
  pec_Get pm (ResourceGroup (ac_Spec mc)) (privateEndpointName (pl_Name l)) the_GetOptions w
    = (Err e, w1) →
  IsAzureResourceNotFound (Some e) = true →
  let mc' := put_endpoints im
    (add_spec (wanted (wired_statics mcs links mc wc) l) (PrivateEndpoints snm)) mc in
  patch_Patch hm (ObjAzureCluster mc') w1 = (errm, w2) →
  patch_Patch hl (ObjAzureCluster (with_finalizer wc)) w2 = (errl, w3) →
  Reconcile now r req (mkSt [] w0) =
    (Ret ({| RequeueAfter := Minute |}, closed None errm errl),
     mkSt [with_finalizer wc; mc'] w3).
Proof.
  intros Hlive Hint Hlinks Hready Hget Hnf mc' Hm Hw.
  destruct (with_finalizer_spec wc) as [Hspec Hconds].
  set (err := Mask (Maskf PrivateEndpointNotFoundError "private endpoint not found")).
  assert (Hphase : api_phase = (Some err, with_world w1 (with_endpoints
    (add_spec (wanted (wired_statics mcs links mc wc) l) (PrivateEndpoints snm))
    (initial_abs (with_finalizer wc) snm w)))).
  { unfold api_phase. rewrite wired_statics_finalizer, Hint, String.eqb_refl.
    unfold mc_to_wc_api, links_for_mc. simpl. rewrite Hlinks.
    rewrite Hconds, Hready. unfold link_run. cbn [fmap list_fmap ask_all].
    unfold add_and_ask, ask_address. simpl. by rewrite Hget, Hnf. }
  assert (Hret : IsRetriable (Some err) = true).
  { unfold err. rewrite IsRetriable_Mask, IsRetriable_existsb.
    unfold PrivateEndpointNotFoundError. rewrite Cause_Maskf. by vm_compute. }
  assert (Hlv : live = (Some err, mkSt [with_finalizer wc; mc'] w1)).
  { unfold live. rewrite Hphase. simpl.
    rewrite (put_status_same (with_finalizer wc)). reflexivity. }
  pose proof (Reconcile_live_run (with_finalizer wc) mc' errm w2 errl w3 Hlive) as Hrun.
  rewrite Hlv in Hrun. simpl in Hrun. unfold live_outcome in Hrun. rewrite Hret in Hrun.
  by apply Hrun.
Qed.

Lemma generate_finalizer `{!ControllerUtilLaws W} ann cs es :
  generateWcToMcPrivateEndpointSpecs (put_status ann cs (with_finalizer wc))
    (put_endpoints im es mc) = generateWcToMcPrivateEndpointSpecs wc mc.
Proof.
  pose proof (with_finalizer_name wc) as Hn. injection Hn as _ Hn.
  destruct (with_finalizer_spec wc) as [Hspec _].
  unfold generateWcToMcPrivateEndpointSpecs, ac_Name. simpl.
  unfold ac_Name in Hn. by rewrite Hn, Hspec.
Qed.

(** The endpoints after each phase, when it succeeds. *)
Lemma api_phase_endpoints `{!ControllerUtilLaws W} a :
  NoDup (names (PrivateEndpoints snm)) → api_phase = (None, a) →
  a_endpoints a =
    if String.eqb (lb_Type lw) Internal
    then reconciled (wired_statics mcs links mc wc) (PrivateEndpoints snm)
    else PrivateEndpoints snm.
Proof.
  unfold api_phase. rewrite wired_statics_finalizer.
  destruct (String.eqb (lb_Type lw) Internal); [|by intros _ [= <-]].
  intros Hnd Hm.
  by apply (mc_to_wc_api_endpoints _ (initial_abs (with_finalizer wc) snm w) a Hnd) in Hm.
Qed.

Lemma ingress_phase_endpoints wc' mc' w' a :
  ingress_phase wc' mc' w' = (None, a) →
  a_endpoints a =
    if String.eqb (lb_Type lm) Internal
    then add_specs (generateWcToMcPrivateEndpointSpecs wc' mc') (PrivateEndpoints snw)
    else PrivateEndpoints snw.
Proof.
  unfold ingress_phase. destruct (String.eqb (lb_Type lm) Internal); [|by intros [= <-]].
  unfold wc_to_mc_ingress. destruct (ask_all _ _ _ _) as [[e|] a1] eqn:E; [done|].
  intros [= <-]. rewrite (proj1 (mark_ready_frame now a1)).
  destruct (ask_all_endpoints _ _ _ _ _ _ E) as (_ & k & -> & Hk). by rewrite Hk.
Qed.

(** A result without error and requeue means that the services succeeded. *)
Lemma live_success s' :
  Time_IsZero (DeletionTimestamp (ac_meta wc)) = true →
  Reconcile now r req (mkSt [] w0) = (Ret (no_result, None), s') →
  live.1 = None ∧ ∃ wc' mc' w2, heap live.2 = [wc'; mc'] ∧ heap s' = [wc'; mc'] ∧
    patch_Patch hm (ObjAzureCluster mc') (world live.2) = (None, w2) ∧
    patch_Patch hl (ObjAzureCluster wc') w2 = (None, world s').
Proof.
  intros Hl Hrun. destruct live_heap as (wc' & mc' & Hh & _).
  destruct (patch_Patch hm (ObjAzureCluster mc') (world live.2)) as [errm w2] eqn:Em.
  destruct (patch_Patch hl (ObjAzureCluster wc') w2) as [errl w3] eqn:El.
  rewrite (Reconcile_live_run wc' mc' errm w2 errl w3 Hl Hh Em El) in Hrun.
  unfold live_outcome in Hrun. destruct (IsRetriable live.1) eqn:Er; [done|].
  destruct live.1 as [e|] eqn:Ee; [done|]. destruct errm; [done|]. destruct errl; [done|].
  simpl in Hrun. injection Hrun as <-. split; [done|]. by exists wc', mc', w2.
Qed.

(** C4: when the reconciliation of a live cluster ends without error and without
requeue, both clusters have been accepted by the API server; the management cluster
differs from the one read only in its endpoints, which are those that
[ReconcileMcToWcApi] promises for a private workload cluster; and the endpoints of
the workload cluster are extended by the one to the gateway of a private
management cluster. *)
Theorem Reconcile_success `{!ControllerUtilLaws W} s' :
  Time_IsZero (DeletionTimestamp (ac_meta wc)) = true →
  NoDup (names (PrivateEndpoints snm)) →
  Reconcile now r req (mkSt [] w0) = (Ret (no_result, None), s') →
  ∃ wc' mc' w1 w2 snw',
    heap s' = [wc'; mc'] ∧
    patch_Patch hm (ObjAzureCluster mc') w1 = (None, w2) ∧
    patch_Patch hl (ObjAzureCluster wc') w2 = (None, world s') ∧
    mc' = put_endpoints im
      (if String.eqb (lb_Type lw) Internal
       then reconciled (wired_statics mcs links mc wc) (PrivateEndpoints snm)
       else PrivateEndpoints snm) mc ∧
    ac_Subnets wc' !! iw = Some snw' ∧
    PrivateEndpoints snw' =
      (if String.eqb (lb_Type lm) Internal
       then add_specs (generateWcToMcPrivateEndpointSpecs wc mc) (PrivateEndpoints snw)
       else PrivateEndpoints snw).
Proof.
  intros Hl Hnd Hrun.
  destruct (live_success s' Hl Hrun) as (He & wc' & mc' & w2 & Hh & Hh' & Hm & Hw).
  unfold live in He, Hh. destruct api_phase as [[e1|] a1] eqn:Ea; [done|].
  destruct (ingress_phase _ _ _) as [e2 a2] eqn:Ei. simpl in He, Hh. subst e2.
  apply ingress_phase_endpoints in Ei. rewrite generate_finalizer in Ei.
  injection Hh as <- <-.
  eexists _, _, _, w2, (set_PrivateEndpoints (a_endpoints a2) snw).
  split_and!; [done|done|done| | |done].
  - by rewrite (api_phase_endpoints a1 Hnd Ea).
  - destruct (with_finalizer_spec wc) as [Hspec _]. unfold ac_Subnets. simpl.
    unfold ac_Subnets. simpl. rewrite Hspec, list_lookup_alter_eq.
    pose proof (setup_snw _ _ _ _ _ _ _ _ _ _ _ _ _ _ _ _ _ Hs) as Hsn.
    unfold ac_Subnets in Hsn. by rewrite Hsn.
Qed.
End work.
End props.
