(* ===== verification/KubeadmControlPlane.v ===== *)
(** * controllers/kubeadmcontrolplane_controller.go: pausing control planes.

The reconciler pauses a KubeadmControlPlane until the gate conditions of its
AzureCluster are true.  It works on objects of its own, so they are plain values
here; the control plane is patched by a deferred call with its last value. *)
From S2P Require Import Prelude.
From S2P Require Import GoStrings.
From S2P Require Import Api.
From S2P Require Import Manager.
From S2P Require Import Util.
From S2P Require Import AzureClusterController.

Definition ErrReconcileCancelled : errval := NewErr "reconciliation cancelled".
Definition ErrReasonManagementClusterNotPrivate : errval := NewErr "management cluster is not private".
Definition ErrReasonControlPlaneDeleted : errval := NewErr "control plane has been deleted".
Definition ErrReasonControlPlaneDeleting : errval := NewErr "control plane is being deleted".
Definition ErrReasonControlPlaneProvisioned : errval := NewErr "control plane is provisioned".
Definition ErrReasonControlPlaneHasNoOwner : errval :=
  NewErr "control plane does not yet have an owner".
Definition ErrReasonClusterPaused : errval := NewErr "owning cluster is paused".
Definition ErrReasonInfraClusterMissing : errval := NewErr "owning cluster has no infrastructure ref".

Module KubeadmControlPlane.

Record Reconciler (W : Type) := {
  client : Client W;
  managementCluster : NamespacedName;
  azureClusterGates : option (list string)
}.
Arguments client {W} _.
Arguments managementCluster {W} _.
Arguments azureClusterGates {W} _.

Section Reconciler.
Context {W : Type} `{ApiMachinery} `{ClusterApiUtil W} `{ControllerUtil W}.

(** [opts] is nil, or a pointer to options with the gates. *)
Definition NewKubeadmControlPlaneReconciler (client : option (Client W))
    (managmentCluster : NamespacedName) (opts : option (option (list string))) :
    result errval (Reconciler W) :=
  match client with
  | None => Err (NewErr "failed to build reconciler: client is nil")
  | Some client =>
      if String.eqb (nn_Name managmentCluster) "" then
        Err (NewErr "management cluster name must be set")
      else if String.eqb (nn_Namespace managmentCluster) "" then
        Err (NewErr "management cluster namespace must be set")
      else
        Ok {| client := client; managementCluster := managmentCluster;
              azureClusterGates := match opts with Some gates => gates | None => None end |}
  end.

Definition PreflightCheckManagementCluster {S} (azureCluster : AzureCluster) : M S error :=
  ty ← lb_type azureCluster;
  if negb (String.eqb ty Internal) then
    mret (Some (Errorf_w_w ErrReconcileCancelled ErrReasonManagementClusterNotPrivate))
  else mret None.

Definition PreflightCheckControlPlane (kcp : KubeadmControlPlane) : error :=
  if default false (ControlPlaneInitialized kcp) then
    Some (Errorf_w_w ErrReconcileCancelled ErrReasonControlPlaneProvisioned)
  else if negb (Time_IsZero (DeletionTimestamp (kcp_meta kcp))) then
    Some (Errorf_w_w ErrReconcileCancelled ErrReasonControlPlaneDeleting)
  else if negb (HasControllerReference (kcp_meta kcp)) then
    Some (Errorf_w_w ErrReconcileCancelled ErrReasonControlPlaneHasNoOwner)
  else None.

(** The cluster is a pointer, dereferenced without a check. *)
Definition PreflightCheckCluster {S} (cluster : option Cluster) : M S error :=
  cluster ← deref_opt cluster;
  if default false (cl_Paused cluster) then
    mret (Some (Errorf_w_w ErrReconcileCancelled ErrReasonClusterPaused))
  else if negb (IsDefined (cl_InfrastructureRef cluster)) then
    mret (Some (Errorf_w_w ErrReconcileCancelled ErrReasonInfraClusterMissing))
  else mret None.

(** Annotations set and removed on the control plane. *)
Definition pause (kcp : KubeadmControlPlane) : KubeadmControlPlane :=
  kcp_set_meta
    (set_Annotations (annotate PausedAnnotation "true" (Annotations (kcp_meta kcp))) (kcp_meta kcp))
    kcp.

Definition unpause (kcp : KubeadmControlPlane) : KubeadmControlPlane :=
  match Annotations (kcp_meta kcp) with
  | Some annotations =>
      match annotations !! PausedAnnotation with
      | Some _ =>
          kcp_set_meta (set_Annotations (Some (delete PausedAnnotation annotations)) (kcp_meta kcp))
            kcp
      | None => kcp
      end
  | None => kcp
  end.

(** The body between taking the patch helper and the deferred patch. *)
Definition gate_control_plane (conditions : list Condition) (gates : option (list string))
    (kcp : KubeadmControlPlane) : KubeadmControlPlane :=
  let unmet := FindUnmetStatusConditions conditions gates in
  if negb (Nat.eqb (slice_len unmet) 0) then pause kcp else unpause kcp.

(** A preflight error ends the reconciliation; a cancellation ends it without error. *)
Definition preflight_failed {S} (err : errval) : M S (Result * error) :=
  if errors_Is (Some err) ErrReconcileCancelled then mret (no_result, None)
  else mret (no_result, Some err).

Definition Reconcile (r : Reconciler W) (req : NamespacedName) : M W (Result * error) :=
  if Nat.eqb (slice_len (azureClusterGates r)) 0 then mret (no_result, None)
  else
    let? managementInfraCluster := io (Get_AzureCluster (client r) (managementCluster r))
      orelse (λ err,
        if IsNotFound err then mret (no_result, None) else mret (no_result, Some err)) in
    guard? PreflightCheckManagementCluster managementInfraCluster orelse preflight_failed in
    let? kcp := io (Get_KubeadmControlPlane (client r) req)
      orelse (λ err,
        if IsNotFound err then mret (no_result, None) else mret (no_result, Some err)) in
    guard? mret (PreflightCheckControlPlane kcp) orelse preflight_failed in
    let? cluster := io (GetOwnerCluster (client r) (kcp_meta kcp))
      orelse (λ err, mret (no_result, Some err)) in
    guard? PreflightCheckCluster cluster orelse preflight_failed in
    cluster ← deref_opt cluster;
    let? infraCluster :=
        io (Get_AzureCluster (client r)
              {| nn_Namespace := nn_Namespace req;
                 nn_Name := cref_Name (cl_InfrastructureRef cluster) |})
      orelse (λ err, mret (no_result, Some err)) in
    let? helper := io (patch_NewHelper (client r) (ObjKubeadmControlPlane kcp))
      orelse (λ err, mret (no_result, Some err)) in
    let kcp := gate_control_plane (elems (Conditions infraCluster)) (azureClusterGates r) kcp in
    (* deferred: an error of the patch is logged and dropped *)
    _ ← io (patch_Patch helper (ObjKubeadmControlPlane kcp));
    mret (no_result, None).

(** The function that maps a changed AzureCluster to control planes to reconcile. *)
Definition enqueue_control_plane (mgrClient : Client W) (ac : Object) :
    M W (list NamespacedName) :=
  match ac with
  | ObjAzureCluster azureCluster =>
      r ← io (GetOwnerCluster mgrClient (ac_meta azureCluster));
      match r with
      | Err _ => mret []
      | Ok cluster =>
          cluster ← deref_opt cluster;
          if negb (IsDefined (cl_ControlPlaneRef cluster)) then mret []
          else mret [{| nn_Namespace := Namespace (cl_meta cluster);
                        nn_Name := cref_Name (cl_ControlPlaneRef cluster) |}]
      end
  | _ => mret []
  end.

(** [e.ObjectOld.( *capz.AzureCluster)]: a type assertion, false on nil. *)
Definition as_AzureCluster (o : option Object) : option AzureCluster :=
  match o with
  | Some (ObjAzureCluster c) => Some c
  | _ => None
  end.

Definition azureClusterConditionsChanged : Funcs := {|
  UpdateFunc ObjectOld ObjectNew :=
    match as_AzureCluster ObjectOld with
    | None => false
    | Some old =>
        match as_AzureCluster ObjectNew with
        | None => false
        | Some new =>
            negb (reflect_DeepEqual_slice Condition_eqb (Conditions old) (Conditions new))
        end
    end;
  CreateFunc _ := false;
  DeleteFunc _ := false;
  GenericFunc _ := false
|}.

Definition SetupWithManager `{Manager W} (r : Reconciler W) (mgr : manager) : IO W error :=
  Complete mgr
    {| reg_For := KindKubeadmControlPlane;
       reg_Watches :=
         [{| watch_Kind := KindAzureCluster;
             watch_MapFunc := enqueue_control_plane (GetClient mgr);
             watch_Predicate := azureClusterConditionsChanged |}];
       reg_Reconciler := Reconcile r |}.
End Reconciler.
End KubeadmControlPlane.

(** ** Properties *)

Import KubeadmControlPlane.

Section props.
Context {W : Type} `{ApiMachinery} `{!ClusterApiUtil W} `{!ControllerUtil W}.
Implicit Types (kcp : KubeadmControlPlane) (r : Reconciler W).

Definition kcp_annotation (kcp : KubeadmControlPlane) (k : string) : option string :=
  m ← Annotations (kcp_meta kcp); m !! k.

Lemma pause_annotation kcp k :
  kcp_annotation (pause kcp) k =
    if decide (k = PausedAnnotation) then Some "true" else kcp_annotation kcp k.
Proof.
  unfold kcp_annotation, pause, annotate. simpl. case_decide as Hk.
  - subst. by rewrite lookup_insert_eq.
  - rewrite lookup_insert_ne by congruence. by destruct (Annotations _).
Qed.

Lemma unpause_annotation kcp k :
  kcp_annotation (unpause kcp) k =
    if decide (k = PausedAnnotation) then None else kcp_annotation kcp k.
Proof.
  unfold kcp_annotation, unpause. destruct (Annotations (kcp_meta kcp)) as [m|] eqn:Em.
  - destruct (m !! PausedAnnotation) as [v|] eqn:Ev; simpl.
    + case_decide as Hk; [subst; by rewrite lookup_delete_eq|].
      by rewrite lookup_delete_ne by congruence.
    + rewrite Em. simpl. case_decide as Hk; [by subst|done].
  - rewrite Em. simpl. by case_decide.
Qed.

(** C30: a control plane carries the pause annotation after a reconciliation exactly when
some gate is not met, whatever it carried before; no other annotation and nothing
else of the control plane changes; and gating twice is gating once. *)
Theorem gate_control_plane_spec (cs : list Condition) (gates : list string) kcp :
  let kcp' := gate_control_plane cs (Some gates) kcp in
  (is_Some (kcp_annotation kcp' PausedAnnotation) ↔ ¬ Forall (λ t, gate_met cs t = true) gates) ∧
  (∀ k, k ≠ PausedAnnotation → kcp_annotation kcp' k = kcp_annotation kcp k) ∧
  kcp' = kcp_set_meta (set_Annotations (Annotations (kcp_meta kcp')) (kcp_meta kcp)) kcp ∧
  ∀ k, kcp_annotation (gate_control_plane cs (Some gates) kcp') k = kcp_annotation kcp' k.
Proof.
  unfold gate_control_plane. pose proof (FindUnmet_nil cs gates) as Hu.
  destruct (Nat.eqb_spec (slice_len (FindUnmetStatusConditions cs (Some gates))) 0) as [E|E]; simpl.
  - split_and!.
    + rewrite unpause_annotation. simpl. split; [by intros [? ?]|]. intros Hn. by destruct Hn; apply Hu.
    + intros k Hk. rewrite unpause_annotation. by rewrite decide_False.
    + unfold unpause. destruct kcp as [[? ? [m|] ? ? ?] ?]; simpl; [|done].
      by destruct (m !! PausedAnnotation).
    + intros k. rewrite !unpause_annotation. by case_decide.
  - split_and!.
    + rewrite pause_annotation. simpl. split; [|by eauto]. by intros _ Hall; apply E, Hu.
    + intros k Hk. rewrite pause_annotation. by rewrite decide_False.
    + done.
    + intros k. rewrite !pause_annotation. by case_decide.
Qed.

(** The states in which the reconciler leaves a control plane alone. *)
Definition reconcilable kcp : bool :=
  negb (default false (ControlPlaneInitialized kcp)) &&
  Time_IsZero (DeletionTimestamp (kcp_meta kcp)) && HasControllerReference (kcp_meta kcp).

Lemma PreflightCheckControlPlane_spec kcp :
  if reconcilable kcp then PreflightCheckControlPlane kcp = None
  else ∃ e, PreflightCheckControlPlane kcp = Some (Errorf_w_w ErrReconcileCancelled e).
Proof.
  unfold reconcilable, PreflightCheckControlPlane.
  destruct (default false (ControlPlaneInitialized kcp)); simpl; [by eexists|].
  destruct (Time_IsZero _); simpl; [|by eexists].
  destruct (HasControllerReference _); simpl; [done|by eexists].
Qed.

Lemma preflight_failed_cancelled {S} e (s : S) :
  preflight_failed (Errorf_w_w ErrReconcileCancelled e) s = (Ret (no_result, None), s).
Proof. done. Qed.

Section run.
Context r (req : NamespacedName) (w : W) (gates : list string).
Context (Hgates : azureClusterGates r = Some gates) (Hne : gates ≠ []).

Lemma gates_nonempty : Nat.eqb (slice_len (azureClusterGates r)) 0 = false.
Proof. rewrite Hgates. simpl. by destruct gates. Qed.

(** The reads up to the control plane, on a private management cluster. *)
Context (mc : AzureCluster) (lm : LoadBalancerSpec) (w1 : W).
Context (Hmc : Get_AzureCluster (client r) (managementCluster r) w = (Ok mc, w1))
  (Hlm : ac_APIServerLB mc = Some lm).

Lemma mc_preflight_run :
  PreflightCheckManagementCluster mc w1 =
    (Ret (if String.eqb (lb_Type lm) Internal then None
          else Some (Errorf_w_w ErrReconcileCancelled ErrReasonManagementClusterNotPrivate)), w1).
Proof.
  unfold PreflightCheckManagementCluster. rewrite (bind_Ret _ _ _ _ _ (lb_type_run mc lm _ Hlm)).
  by destruct (String.eqb _ _).
Qed.

(** On a public management cluster the reconciler does nothing: it reads that
cluster and returns. *)
Theorem KCP_public_mc :
  lb_Type lm ≠ Internal → KubeadmControlPlane.Reconcile r req w = (Ret (no_result, None), w1).
Proof.
  intros Hty. unfold Reconcile. rewrite gates_nonempty.
  rewrite (check_Ok _ _ _ _ _ _ (io_run _ _ _ _ Hmc)).
  pose proof mc_preflight_run as Hp. rewrite (proj2 (String.eqb_neq _ _)) in Hp by done.
  by rewrite (check_err_Some _ _ _ _ _ _ Hp).
Qed.

Context (Hpriv : lb_Type lm = Internal) (kcp : KubeadmControlPlane) (w2 : W)
  (Hkcp : Get_KubeadmControlPlane (client r) req w1 = (Ok kcp, w2)).

Lemma Reconcile_to_kcp :
  Reconcile r req w =
    (guard? mret (PreflightCheckControlPlane kcp) orelse preflight_failed in
     let? cluster := io (GetOwnerCluster (client r) (kcp_meta kcp))
       orelse (λ err, mret (no_result, Some err)) in
     guard? PreflightCheckCluster cluster orelse preflight_failed in
     cluster ← deref_opt cluster;
     let? infraCluster :=
         io (Get_AzureCluster (client r)
               {| nn_Namespace := nn_Namespace req;
                  nn_Name := cref_Name (cl_InfrastructureRef cluster) |})
       orelse (λ err, mret (no_result, Some err)) in
     let? helper := io (patch_NewHelper (client r) (ObjKubeadmControlPlane kcp))
       orelse (λ err, mret (no_result, Some err)) in
     _ ← io (patch_Patch helper (ObjKubeadmControlPlane
           (gate_control_plane (elems (Conditions infraCluster)) (azureClusterGates r) kcp)));
     mret (no_result, None)) w2.
Proof.
  unfold Reconcile. rewrite gates_nonempty.
  rewrite (check_Ok _ _ _ _ _ _ (io_run _ _ _ _ Hmc)).
  pose proof mc_preflight_run as Hp. rewrite Hpriv, String.eqb_refl in Hp.
  rewrite (check_err_None _ _ _ _ _ Hp).
  by rewrite (check_Ok _ _ _ _ _ _ (io_run _ _ _ _ Hkcp)).
Qed.

(** A control plane that is initialized, being deleted, or without a controller is
never touched, nor is any cluster read for it. *)
Theorem KCP_not_reconcilable :
  reconcilable kcp = false → KubeadmControlPlane.Reconcile r req w = (Ret (no_result, None), w2).
Proof.
  intros Hr. rewrite Reconcile_to_kcp. pose proof (PreflightCheckControlPlane_spec kcp) as Hp.
  rewrite Hr in Hp. destruct Hp as [e ->]. done.
Qed.

Context (Hrec : reconcilable kcp = true).

Lemma kcp_preflight : PreflightCheckControlPlane kcp = None.
Proof. pose proof (PreflightCheckControlPlane_spec kcp) as Hp. by rewrite Hrec in Hp. Qed.

(** C38: a control plane whose owners do not include a Cluster makes the reconciler
panic on the nil pointer that [GetOwnerCluster] gives it. *)
Theorem KCP_no_owner_panics w3 :
  GetOwnerCluster (client r) (kcp_meta kcp) w2 = (Ok None, w3) →
  KubeadmControlPlane.Reconcile r req w = (Panic NilDereference, w3).
Proof.
  intros Ho. rewrite Reconcile_to_kcp, kcp_preflight.
  rewrite (check_err_None _ _ _ _ _ (mret_run _ _)).
  by rewrite (check_Ok _ _ _ _ _ _ (io_run _ _ _ _ Ho)).
Qed.

Context (cluster : Cluster) (w3 : W)
  (Howner : GetOwnerCluster (client r) (kcp_meta kcp) w2 = (Ok (Some cluster), w3)).

(** A paused Cluster, or one without infrastructure reference, leaves the control
plane as it is: in particular a paused cluster's control plane is never unpaused. *)
Theorem KCP_cluster_not_ready :
  default false (cl_Paused cluster) = true ∨ IsDefined (cl_InfrastructureRef cluster) = false →
  KubeadmControlPlane.Reconcile r req w = (Ret (no_result, None), w3).
Proof.
  intros Hor. rewrite Reconcile_to_kcp, kcp_preflight.
  rewrite (check_err_None _ _ _ _ _ (mret_run _ _)).
  rewrite (check_Ok _ _ _ _ _ _ (io_run _ _ _ _ Howner)).
  unfold PreflightCheckCluster, check_err, mbind, M_bind. simpl.
  destruct (default false (cl_Paused cluster)); simpl; [done|].
  destruct Hor as [?|Hr]; [done|]. by rewrite Hr.
Qed.

Lemma patched_run infra w4 helper w5 errp w6 :
  default false (cl_Paused cluster) = false → IsDefined (cl_InfrastructureRef cluster) = true →
  Get_AzureCluster (client r)
    {| nn_Namespace := nn_Namespace req; nn_Name := cref_Name (cl_InfrastructureRef cluster) |}
    w3 = (Ok infra, w4) →
  patch_NewHelper (client r) (ObjKubeadmControlPlane kcp) w4 = (Ok helper, w5) →
  patch_Patch helper (ObjKubeadmControlPlane
    (gate_control_plane (elems (Conditions infra)) (Some gates) kcp)) w5 = (errp, w6) →
  KubeadmControlPlane.Reconcile r req w = (Ret (no_result, None), w6).
Proof.
  intros Hp Hd Hg Hh Hpatch. rewrite Reconcile_to_kcp, kcp_preflight.
  rewrite (check_err_None _ _ _ _ _ (mret_run _ _)).
  rewrite (check_Ok _ _ _ _ _ _ (io_run _ _ _ _ Howner)).
  assert (Hpre : PreflightCheckCluster (Some cluster) w3 = (Ret None, w3)).
  { unfold PreflightCheckCluster, mbind, M_bind. simpl. by rewrite Hp, Hd. }
  rewrite (check_err_None _ _ _ _ _ Hpre). rewrite (bind_Ret _ _ w3 cluster w3 eq_refl).
  rewrite (check_Ok _ _ _ _ _ _ (io_run _ _ _ _ Hg)).
  rewrite (check_Ok _ _ _ _ _ _ (io_run _ _ _ _ Hh)).
  rewrite Hgates. by rewrite (bind_Ret _ _ _ _ _ (io_run _ _ _ _ Hpatch)).
Qed.

(** Otherwise the control plane is patched exactly once, with the pause annotation
decided by the gates on the conditions of its AzureCluster; the reconciliation
reports success whatever the patch answered. *)
Theorem KCP_patched infra w4 helper w5 errp w6 :
  default false (cl_Paused cluster) = false → IsDefined (cl_InfrastructureRef cluster) = true →
  Get_AzureCluster (client r)
    {| nn_Namespace := nn_Namespace req; nn_Name := cref_Name (cl_InfrastructureRef cluster) |}
    w3 = (Ok infra, w4) →
  patch_NewHelper (client r) (ObjKubeadmControlPlane kcp) w4 = (Ok helper, w5) →
  patch_Patch helper (ObjKubeadmControlPlane
    (gate_control_plane (elems (Conditions infra)) (Some gates) kcp)) w5 = (errp, w6) →
  KubeadmControlPlane.Reconcile r req w = (Ret (no_result, None), w6).
Proof. exact (patched_run infra w4 helper w5 errp w6). Qed.
End run.

(** Without gates the reconciler makes no call at all. *)
Theorem KCP_no_gates r (req : NamespacedName) (w : W) :
  default [] (azureClusterGates r) = [] →
  KubeadmControlPlane.Reconcile r req w = (Ret (no_result, None), w).
Proof. intros Hg. unfold Reconcile, slice_len. by rewrite Hg. Qed.

(** ** The watch on AzureClusters *)

Lemma conditions_changed old new :
  UpdateFunc azureClusterConditionsChanged (Some (ObjAzureCluster old)) (Some (ObjAzureCluster new))
    = true ↔ Conditions old ≠ Conditions new.
Proof.
  simpl. rewrite negb_true_iff, <- not_true_iff_false.
  by rewrite (DeepEqual_slice_spec _ Condition_eqb_spec).
Qed.

(** C29: the watch lets exactly the updates of AzureClusters through whose conditions differ,
nil and empty slices being different; in particular no change in the verdict of any
gates is missed, so a control plane is reconciled again as soon as its gates open. *)
Theorem KCP_watch_predicate (e : Event) :
  (passes azureClusterConditionsChanged e = true ↔
   ∃ old new, e = UpdateEvent (Some (ObjAzureCluster old)) (Some (ObjAzureCluster new)) ∧
     Conditions old ≠ Conditions new) ∧
  ∀ old new gates,
    e = UpdateEvent (Some (ObjAzureCluster old)) (Some (ObjAzureCluster new)) →
    FindUnmetStatusConditions (elems (Conditions old)) gates ≠
    FindUnmetStatusConditions (elems (Conditions new)) gates →
    passes azureClusterConditionsChanged e = true.
Proof.
  split.
  - split.
    + destruct e as [o|o o'|o|o]; try done.
      destruct o as [[old|?]|]; [|done..]. destruct o' as [[new|?]|]; [|done..].
      intros Hp%conditions_changed. eauto.
    + intros (old & new & -> & Hne). by apply conditions_changed.
  - intros old new gates -> Hne. apply conditions_changed. congruence.
Qed.

Lemma enqueue_run (c : Client W) (ac : AzureCluster) w res w1 :
  GetOwnerCluster c (ac_meta ac) w = (res, w1) →
  enqueue_control_plane c (ObjAzureCluster ac) w =
    (match res with
     | Err _ => Ret []
     | Ok None => Panic NilDereference
     | Ok (Some cluster) =>
         Ret (if IsDefined (cl_ControlPlaneRef cluster)
              then [{| nn_Namespace := Namespace (cl_meta cluster);
                       nn_Name := cref_Name (cl_ControlPlaneRef cluster) |}]
              else [])
     end, w1).
Proof.
  intros Ho. unfold enqueue_control_plane. rewrite (bind_Ret _ _ _ _ _ (io_run _ _ _ _ Ho)).
  destruct res as [[cluster|]|e]; [|done|done].
  rewrite (bind_Ret _ _ _ _ _ (mret_run cluster w1)). by destruct (IsDefined _).
Qed.

(** An update that passes leads to the control plane named by the Cluster that owns
the AzureCluster, in that Cluster's namespace, and to nothing when the lookup fails
or no control plane is set; without an owning Cluster the mapping panics. *)
Theorem enqueue_control_plane_spec (c : Client W) (ac : AzureCluster) w res w1 :
  GetOwnerCluster c (ac_meta ac) w = (res, w1) →
  enqueue_control_plane c (ObjAzureCluster ac) w =
    (match res with
     | Err _ => Ret []
     | Ok None => Panic NilDereference
     | Ok (Some cluster) =>
         Ret (if IsDefined (cl_ControlPlaneRef cluster)
              then [{| nn_Namespace := Namespace (cl_meta cluster);
                       nn_Name := cref_Name (cl_ControlPlaneRef cluster) |}]
              else [])
     end, w1).
Proof. apply enqueue_run. Qed.

(** An AzureCluster without an owning Cluster makes the watch's mapping panic. *)
Theorem enqueue_no_owner_panics (c : Client W) (ac : AzureCluster) w w1 :
  GetOwnerCluster c (ac_meta ac) w = (Ok None, w1) →
  enqueue_control_plane c (ObjAzureCluster ac) w = (Panic NilDereference, w1).
Proof.
  intros Ho. unfold enqueue_control_plane. by rewrite (bind_Ret _ _ _ _ _ (io_run _ _ _ _ Ho)).
Qed.

(** ** From an event to the control plane *)

(** C18: opening gates unpause.  When the conditions of an AzureCluster change from not
meeting the gates to meeting them, the watch lets the update through, the mapping
asks for the control plane of the owning Cluster, and its reconciliation, on a
private management cluster and with the new conditions still in place, patches the
control plane exactly once, without the pause annotation it may have had. *)
Theorem KCP_gates_open r gates old new (w w0 : W) (owner : Cluster)
    mc lm w1 kcp w2 cluster w3 infra w4 helper w5 errp w6 :
  let req := {| nn_Namespace := Namespace (cl_meta owner);
                nn_Name := cref_Name (cl_ControlPlaneRef owner) |} in
  azureClusterGates r = Some gates →
  ¬ Forall (λ t, gate_met (elems (Conditions old)) t = true) gates →
  Forall (λ t, gate_met (elems (Conditions new)) t = true) gates →
  GetOwnerCluster (client r) (ac_meta new) w = (Ok (Some owner), w0) →
  IsDefined (cl_ControlPlaneRef owner) = true →
  Get_AzureCluster (client r) (managementCluster r) w0 = (Ok mc, w1) →
  ac_APIServerLB mc = Some lm → lb_Type lm = Internal →
  Get_KubeadmControlPlane (client r) req w1 = (Ok kcp, w2) → reconcilable kcp = true →
  GetOwnerCluster (client r) (kcp_meta kcp) w2 = (Ok (Some cluster), w3) →
  default false (cl_Paused cluster) = false → IsDefined (cl_InfrastructureRef cluster) = true →
  Get_AzureCluster (client r)
    {| nn_Namespace := nn_Namespace req; nn_Name := cref_Name (cl_InfrastructureRef cluster) |}
    w3 = (Ok infra, w4) →
  Conditions infra = Conditions new →
  patch_NewHelper (client r) (ObjKubeadmControlPlane kcp) w4 = (Ok helper, w5) →
  patch_Patch helper (ObjKubeadmControlPlane (unpause kcp)) w5 = (errp, w6) →
  passes azureClusterConditionsChanged
    (UpdateEvent (Some (ObjAzureCluster old)) (Some (ObjAzureCluster new))) = true ∧
  enqueue_control_plane (client r) (ObjAzureCluster new) w = (Ret [req], w0) ∧
  KubeadmControlPlane.Reconcile r req w0 = (Ret (no_result, None), w6) ∧
  kcp_annotation (unpause kcp) PausedAnnotation = None.
Proof.
  intros req Hg Hold Hnew How Hd Hmc Hlm Hpriv Hkcp Hrec Hcl Hp Hi Hget Hinfra Hh Hpatch.
  assert (Hu : gate_control_plane (elems (Conditions infra)) (Some gates) kcp = unpause kcp).
  { unfold gate_control_plane. by rewrite Hinfra, (proj2 (FindUnmet_nil _ gates) Hnew). }
  split_and!.
  - apply conditions_changed. intros E. apply Hold. by rewrite E.
  - rewrite (enqueue_run _ _ _ _ _ How). by rewrite Hd.
  - eapply (patched_run r req w0 gates Hg); try done.
    + intros ->. by apply Hold.
    + by rewrite Hu.
  - rewrite unpause_annotation. by rewrite decide_True.
Qed.
End props.
