(* ===== verification/ProviderConfig.v ===== *)
(** * controllers/providerconfig_controller.go: Crossplane provider configs.

For every Azure cluster with a workload identity the reconciler keeps a
ProviderConfig object of the cluster's name, and a finalizer on the Cluster so
that the object can be deleted with it. *)
From S2P Require Import Prelude.
From S2P Require Import GoStrings.
From S2P Require Import Api.
From S2P Require Import Manager.

Definition ProviderConfigControllerFinalizer : string := "azure.giantswarm.io/providerconfig".
Definition SecretIdentityKind : string := "Secret".
Definition ErrIdentityRefUnset : errval := NewErr "identity ref is not set".
Definition credential_from : string := "serviceoperator.azure.com/credential-from".

(** [mutators.ToUnstructured] of the Azure provider and [reconcile.TerminalError]. *)
Class ProviderConfigLibs := {
  ToUnstructured : list string → result errval (list Unstructured);
  TerminalError : errval → errval
}.

Record identityInfo := {
  info_Type : string;
  info_TenantID : string;
  info_SubscriptionID : string;
  info_ClientID : string
}.

Definition NewProviderConfig (name : string) : Unstructured := {|
  u_Group := "azure.upbound.io"; u_Version := "v1beta1"; u_Kind := "ProviderConfig";
  u_Name := name; u_Annotations := ∅; u_spec := None
|}.

Definition provider_spec (info : identityInfo) : any :=
  AnyMap [("credentials", AnyMap [("source", AnyString "UserAssignedManagedIdentity")]);
          ("clientID", AnyString (info_ClientID info));
          ("subscriptionID", AnyString (info_SubscriptionID info));
          ("tenantID", AnyString (info_TenantID info))].

(** [providerConfig.Object["spec"] = spec]. *)
Definition u_set_spec (spec : any) (u : Unstructured) : Unstructured := {|
  u_Group := u_Group u; u_Version := u_Version u; u_Kind := u_Kind u; u_Name := u_Name u;
  u_Annotations := u_Annotations u; u_spec := Some spec
|}.

Module ProviderConfig.

Record Reconciler (W : Type) := { client : Client W }.
Arguments client {W} _.

Section Reconciler.
Context {W : Type} `{ApiMachinery} `{ControllerUtil W} `{ProviderConfigLibs}.

Definition NewProviderConfigReconciler (client : option (Client W)) :
    result errval (Reconciler W) :=
  match client with
  | None => Err (NewErr "client may not be nil")
  | Some client => Ok {| client := client |}
  end.

(** A [return] in the middle of [reconcileNormal]. *)
Definition returned : Type := Result * error.

(** The switch on the infrastructure kind: the subscription ID and the identity. *)
Definition identity_of_cluster (r : Reconciler W) (cluster : Cluster) :
    M W (result returned (string * option ObjectReference)) :=
  let kind := cref_Kind (cl_InfrastructureRef cluster) in
  let named n := {| nn_Namespace := Namespace (cl_meta cluster); nn_Name := n |} in
  if String.eqb kind AzureClusterKind then
    let? azureCluster :=
        io (Get_AzureCluster (client r) (named (cref_Name (cl_InfrastructureRef cluster))))
      orelse (λ err, mret (Err (no_result, Some err))) in
    mret (Ok (SubscriptionID (ac_Spec azureCluster), IdentityRef (ac_Spec azureCluster)))
  else if String.eqb kind AzureASOManagedClusterKind then
    let? cp :=
        io (Get_AzureASOManagedControlPlane (client r)
              (named (cref_Name (cl_ControlPlaneRef cluster))))
      orelse (λ err, mret (Err (no_result, Some err))) in
    match ToUnstructured (aso_Resources cp) with
    | Err err => mret (Err (no_result, Some err))
    | Ok resources =>
        first ← index resources 0;
        mret (Ok ("", Some {| ref_Kind := SecretIdentityKind; ref_Namespace := "";
                              ref_Name := default "" (u_Annotations first !! credential_from) |}))
    end
  else if String.eqb kind AzureManagedClusterKind then
    let? azureManagedControlPlane :=
        io (Get_AzureManagedControlPlane (client r)
              (named (cref_Name (cl_ControlPlaneRef cluster))))
      orelse (λ err, mret (Err (no_result, Some err))) in
    mret (Ok (amcp_SubscriptionID azureManagedControlPlane,
              amcp_IdentityRef azureManagedControlPlane))
  else mret (Err (no_result, None)).

(** The switch on the kind of identity: the credentials' data. *)
Definition info_of_identity (r : Reconciler W) (cluster : Cluster) (subscriptionID : string)
    (identityRef : ObjectReference) : M W (result returned identityInfo) :=
  let name := {| nn_Namespace := Namespace (cl_meta cluster); nn_Name := ref_Name identityRef |} in
  if String.eqb (ref_Kind identityRef) AzureClusterIdentityKind then
    let? identity := io (Get_AzureClusterIdentity (client r) name)
      orelse (λ err, mret (Err (no_result, Some err))) in
    if String.eqb (id_Type identity) WorkloadIdentity then
      mret (Ok {| info_Type := id_Type identity; info_TenantID := id_TenantID identity;
                  info_SubscriptionID := subscriptionID; info_ClientID := id_ClientID identity |})
    else mret (Err (no_result, None))
  else if String.eqb (ref_Kind identityRef) SecretIdentityKind then
    let? secret := io (Get_Secret (client r) name)
      orelse (λ err, mret (Err (no_result, Some err))) in
    mret (Ok {| info_Type := WorkloadIdentity;
                info_TenantID := secret_get secret "AZURE_TENANT_ID";
                info_SubscriptionID := secret_get secret "AZURE_SUBSCRIPTION_ID";
                info_ClientID := secret_get secret "AZURE_CLIENT_ID" |})
  else mret (Err (no_result, None)).

(** The rest: finalizer first, then the provider config. *)
Definition apply_config (r : Reconciler W) (cluster : Cluster) (info : identityInfo) :
    M W (Result * error) :=
  let origCluster := cluster in
  let '(meta, updated) := AddFinalizer (cl_meta cluster) ProviderConfigControllerFinalizer in
  let cluster := cl_set_meta meta cluster in
  guard? (if updated then io (Patch_Cluster (client r) cluster origCluster) else mret None)
    orelse (λ err, mret (no_result, Some err)) in
  err ← io (CreateOrPatch (client r) (NewProviderConfig (Name (cl_meta cluster)))
              (u_set_spec (provider_spec info)));
  mret (no_result, err).

Definition reconcileNormal (r : Reconciler W) (cluster : Cluster) : M W (Result * error) :=
  let? found := identity_of_cluster r cluster orelse mret in
  let '(subscriptionID, identityRef) := found in
  match identityRef with
  | None => mret (no_result, Some (TerminalError ErrIdentityRefUnset))
  | Some identityRef =>
      let? info := info_of_identity r cluster subscriptionID identityRef orelse mret in
      apply_config r cluster info
  end.

Definition reconcileDelete (r : Reconciler W) (cluster : Cluster) : M W (Result * error) :=
  let providerConfig := NewProviderConfig (Name (cl_meta cluster)) in
  err ← io (Delete_Unstructured (client r) providerConfig);
  let not_deleted := match err with
                 | Some e => negb (IsNotFound e) && negb (IsNoMatchError e)
                 | None => false
                 end in
  if not_deleted then mret (no_result, err)
  else
    let origCluster := cluster in
    let '(meta, updated) := RemoveFinalizer (cl_meta cluster) ProviderConfigControllerFinalizer in
    let cluster := cl_set_meta meta cluster in
    if updated then
      err ← io (Patch_Cluster (client r) cluster origCluster);
      mret (no_result, err)
    else mret (no_result, None).

Definition Reconcile (r : Reconciler W) (req : NamespacedName) : M W (Result * error) :=
  let? cluster := io (Get_Cluster (client r) req)
    orelse (λ err, if IsNotFound err then mret (no_result, None) else mret (no_result, Some err)) in
  if negb (Time_IsZero (DeletionTimestamp (cl_meta cluster))) then reconcileDelete r cluster
  else reconcileNormal r cluster.

Definition SetupWithManager `{Manager W} (r : Reconciler W) (mgr : manager) : IO W error :=
  Complete mgr {| reg_For := KindCluster; reg_Watches := []; reg_Reconciler := Reconcile r |}.
End Reconciler.
End ProviderConfig.

(** ** Properties *)

Import ProviderConfig.

Section props.
Context {W : Type} `{ApiMachinery} `{!ControllerUtil W} `{ProviderConfigLibs}.
Context (r : Reconciler W) (req : NamespacedName) (w w1 : W) (cluster : Cluster).
Context (Hget : Get_Cluster (client r) req w = (Ok cluster, w1)).

#[local] Abbreviation run := (ProviderConfig.Reconcile r req w).
#[local] Abbreviation named n := {| nn_Namespace := Namespace (cl_meta cluster); nn_Name := n |}.
#[local] Abbreviation infra := (cl_InfrastructureRef cluster).

Lemma Reconcile_run :
  run = (if negb (Time_IsZero (DeletionTimestamp (cl_meta cluster)))
         then reconcileDelete r cluster else reconcileNormal r cluster) w1.
Proof. unfold Reconcile. by rewrite (check_Ok _ _ _ _ _ _ (io_run _ _ _ _ Hget)). Qed.

(** The cluster with the finalizer, and the API server's view of the config. *)
Definition finalized : Cluster :=
  cl_set_meta (set_Finalizers (Finalizers (cl_meta cluster) ++ [ProviderConfigControllerFinalizer])
    (cl_meta cluster)) cluster.

Section live.
Context (Hlive : Time_IsZero (DeletionTimestamp (cl_meta cluster)) = true).

Lemma Reconcile_normal : run = reconcileNormal r cluster w1.
Proof. by rewrite Reconcile_run, Hlive. Qed.

(** *** The data of the provider config *)

Lemma azure_cluster_identity ac w2 ref :
  cref_Kind infra = AzureClusterKind →
  Get_AzureCluster (client r) (named (cref_Name infra)) w1 = (Ok ac, w2) →
  IdentityRef (ac_Spec ac) = ref →
  identity_of_cluster r cluster w1 = (Ret (Ok (SubscriptionID (ac_Spec ac), ref)), w2).
Proof.
  intros Hk Hg <-. unfold identity_of_cluster. rewrite Hk, String.eqb_refl.
  by rewrite (check_Ok _ _ _ _ _ _ (io_run _ _ _ _ Hg)).
Qed.

Lemma normal_identity sub ref w2 :
  identity_of_cluster r cluster w1 = (Ret (Ok (sub, Some ref)), w2) →
  run = (let? info := info_of_identity r cluster sub ref orelse mret in
         apply_config r cluster info) w2.
Proof.
  intros Hi. rewrite Reconcile_normal. unfold reconcileNormal. by rewrite (check_Ok _ _ _ _ _ _ Hi).
Qed.

Lemma azure_cluster_applies ac w2 ref id w3 :
  cref_Kind infra = AzureClusterKind →
  Get_AzureCluster (client r) (named (cref_Name infra)) w1 = (Ok ac, w2) →
  IdentityRef (ac_Spec ac) = Some ref → ref_Kind ref = AzureClusterIdentityKind →
  Get_AzureClusterIdentity (client r) (named (ref_Name ref)) w2 = (Ok id, w3) →
  id_Type id = WorkloadIdentity →
  run = apply_config r cluster
    {| info_Type := WorkloadIdentity; info_TenantID := id_TenantID id;
       info_SubscriptionID := SubscriptionID (ac_Spec ac); info_ClientID := id_ClientID id |} w3.
Proof.
  intros Hk Hg Href Hrk Hid Hty.
  rewrite (normal_identity _ _ _ (azure_cluster_identity ac w2 (Some ref) Hk Hg Href)).
  assert (Hinfo : info_of_identity r cluster (SubscriptionID (ac_Spec ac)) ref w2 = (Ret (Ok
    {| info_Type := WorkloadIdentity; info_TenantID := id_TenantID id;
       info_SubscriptionID := SubscriptionID (ac_Spec ac); info_ClientID := id_ClientID id |}), w3)).
  { unfold info_of_identity. rewrite Hrk, String.eqb_refl.
    rewrite (check_Ok _ _ _ _ _ _ (io_run _ _ _ _ Hid)). by rewrite Hty. }
  by rewrite (check_Ok _ _ _ _ _ _ Hinfo).
Qed.

(** C33: for a cluster managed through Azure Service Operator, the data comes from the
secret that the first resource of its control plane names; without resources the
reconciler panics. *)
Theorem PC_aso cp w2 us :
  cref_Kind infra = AzureASOManagedClusterKind →
  Get_AzureASOManagedControlPlane (client r) (named (cref_Name (cl_ControlPlaneRef cluster))) w1
    = (Ok cp, w2) →
  ToUnstructured (aso_Resources cp) = Ok us →
  match us with
  | [] => run = (Panic IndexOutOfRange, w2)
  | u :: _ => ∀ secret w3,
      Get_Secret (client r) (named (default "" (u_Annotations u !! credential_from))) w2
        = (Ok secret, w3) →
      run = apply_config r cluster
        {| info_Type := WorkloadIdentity;
           info_TenantID := default "" (Data secret !! "AZURE_TENANT_ID");
           info_SubscriptionID := default "" (Data secret !! "AZURE_SUBSCRIPTION_ID");
           info_ClientID := default "" (Data secret !! "AZURE_CLIENT_ID") |} w3
  end.
Proof.
  intros Hk Hg Hu.
  assert (Hi : identity_of_cluster r cluster w1 =
    match us with
    | [] => (Panic IndexOutOfRange, w2)
    | u :: _ => (Ret (Ok ("", Some {| ref_Kind := SecretIdentityKind; ref_Namespace := "";
        ref_Name := default "" (u_Annotations u !! credential_from) |})), w2)
    end).
  { unfold identity_of_cluster. rewrite Hk, String.eqb_refl.
    change (String.eqb AzureASOManagedClusterKind AzureClusterKind) with false. cbn iota.
    rewrite (check_Ok _ _ _ _ _ _ (io_run _ _ _ _ Hg)), Hu. by destruct us. }
  destruct us as [|u us].
  - rewrite Reconcile_normal. unfold reconcileNormal, check. by rewrite (bind_Panic _ _ _ _ _ Hi).
  - intros secret w3 Hs. rewrite (normal_identity _ _ _ Hi).
    unfold info_of_identity. simpl. unfold check at 1. unfold mbind at 1, M_bind at 1.
    by rewrite (check_Ok _ _ _ _ _ _ (io_run _ _ _ _ Hs)).
Qed.

(** A cluster of another infrastructure, or with a kind or type of identity that is
not supported, is skipped without error: the world is as the reads left it. *)
Theorem PC_unsupported :
  (cref_Kind infra ∉ [AzureClusterKind; AzureASOManagedClusterKind; AzureManagedClusterKind] →
    run = (Ret (no_result, None), w1)) ∧
  (∀ sub ref w2, identity_of_cluster r cluster w1 = (Ret (Ok (sub, Some ref)), w2) →
    (ref_Kind ref ∉ [AzureClusterIdentityKind; SecretIdentityKind] →
      run = (Ret (no_result, None), w2)) ∧
    (∀ id w3, ref_Kind ref = AzureClusterIdentityKind →
      Get_AzureClusterIdentity (client r) (named (ref_Name ref)) w2 = (Ok id, w3) →
      id_Type id ≠ WorkloadIdentity → run = (Ret (no_result, None), w3))).
Proof.
  split_and!.
  - intros Hk. rewrite Reconcile_normal. rewrite !not_elem_of_cons in Hk.
    destruct Hk as (Hk1 & Hk2 & Hk3 & _). unfold reconcileNormal, identity_of_cluster.
    by rewrite !(proj2 (String.eqb_neq _ _)) by done.
  - intros sub ref w2 Hi. rewrite (normal_identity _ _ _ Hi). unfold info_of_identity. split.
    + rewrite !not_elem_of_cons. intros (Hk1 & Hk2 & _).
      by rewrite !(proj2 (String.eqb_neq _ _)) by done.
    + intros id w3 -> Hg Hty. rewrite String.eqb_refl. unfold check at 1.
      unfold mbind at 1, M_bind at 1. rewrite (check_Ok _ _ _ _ _ _ (io_run _ _ _ _ Hg)).
      by rewrite (proj2 (String.eqb_neq _ _)).
Qed.

(** An unset identity reference is an error that is not retried. *)
Theorem PC_identity_unset sub w2 :
  identity_of_cluster r cluster w1 = (Ret (Ok (sub, None)), w2) →
  run = (Ret (no_result, Some (TerminalError ErrIdentityRefUnset)), w2).
Proof.
  intros Hi. rewrite Reconcile_normal. unfold reconcileNormal. by rewrite (check_Ok _ _ _ _ _ _ Hi).
Qed.
End live.

Context `{!ControllerUtilLaws W}.

(** No provider config is written before its Cluster carries the finalizer: when the
finalizer is missing the Cluster is patched first, and a failing patch ends the
reconciliation there. *)
Theorem PC_finalizer_first info w2 :
  let config := NewProviderConfig (Name (cl_meta cluster)) in
  let write w := let '(err, w') :=
    CreateOrPatch (client r) config (u_set_spec (provider_spec info)) w in
    (Ret (no_result, err), w') in
  apply_config r cluster info w2 =
    if decide (ProviderConfigControllerFinalizer ∈ Finalizers (cl_meta cluster)) then write w2
    else match Patch_Cluster (client r) finalized cluster w2 with
         | (Some e, w3) => (Ret (no_result, Some e), w3)
         | (None, w3) => write w3
         end.
Proof.
  unfold apply_config. rewrite AddFinalizer_spec. case_decide as Hf.
  - rewrite bool_decide_eq_true_2 by done.
    rewrite (check_err_None _ _ _ _ _ (mret_run _ _)). simpl.
    destruct (CreateOrPatch _ _ _ _) as [err w'] eqn:E.
    by rewrite (bind_Ret _ _ _ _ _ (io_run _ _ _ _ E)).
  - rewrite bool_decide_eq_false_2 by done. fold finalized.
    destruct (Patch_Cluster _ _ _ _) as [[e|] w3] eqn:Ep.
    + by rewrite (check_err_Some _ _ _ _ _ _ (io_run _ _ _ _ Ep)).
    + rewrite (check_err_None _ _ _ _ _ (io_run _ _ _ _ Ep)). simpl.
      destruct (CreateOrPatch _ _ _ _) as [err w'] eqn:E.
      by rewrite (bind_Ret _ _ _ _ _ (io_run _ _ _ _ E)).
Qed.

(** C32: for a cluster whose AzureCluster refers to a workload identity, the reconciler
creates or patches the provider config of the cluster's name: its [spec] gets the
identity's tenant and client, the AzureCluster's subscription, and user-assigned
managed identity as the source of credentials, and the rest of it stays.  Before that a
Cluster without the finalizer is patched to have it; if that fails, its error is
returned and nothing is written. *)
Theorem PC_azure_cluster ac w2 ref id w3 :
  Time_IsZero (DeletionTimestamp (cl_meta cluster)) = true →
  cref_Kind infra = AzureClusterKind →
  Get_AzureCluster (client r) (named (cref_Name infra)) w1 = (Ok ac, w2) →
  IdentityRef (ac_Spec ac) = Some ref → ref_Kind ref = AzureClusterIdentityKind →
  Get_AzureClusterIdentity (client r) (named (ref_Name ref)) w2 = (Ok id, w3) →
  id_Type id = WorkloadIdentity →
  let spec := AnyMap [
    ("credentials", AnyMap [("source", AnyString "UserAssignedManagedIdentity")]);
    ("clientID", AnyString (id_ClientID id));
    ("subscriptionID", AnyString (SubscriptionID (ac_Spec ac)));
    ("tenantID", AnyString (id_TenantID id))] in
  let write w := let '(err, w') :=
    CreateOrPatch (client r) (NewProviderConfig (Name (cl_meta cluster)))
      (λ u, {| u_Group := u_Group u; u_Version := u_Version u; u_Kind := u_Kind u;
               u_Name := u_Name u; u_Annotations := u_Annotations u; u_spec := Some spec |}) w in
    (Ret (no_result, err), w') in
  run = if decide (ProviderConfigControllerFinalizer ∈ Finalizers (cl_meta cluster)) then write w3
        else match Patch_Cluster (client r) finalized cluster w3 with
             | (Some e, w4) => (Ret (no_result, Some e), w4)
             | (None, w4) => write w4
             end.
Proof.
  intros Hlive Hk Hg Href Hrk Hid Hty spec write.
  rewrite (azure_cluster_applies Hlive ac w2 ref id w3 Hk Hg Href Hrk Hid Hty).
  apply PC_finalizer_first.
Qed.

(** Releasing the Cluster from the finalizer. *)
Definition release (s : W) : outcome (Result * error) * W :=
  if decide (ProviderConfigControllerFinalizer ∈ Finalizers (cl_meta cluster)) then
    let '(errp, s') := Patch_Cluster (client r) (cl_set_meta (set_Finalizers
      (filter (λ f, f ≠ ProviderConfigControllerFinalizer) (Finalizers (cl_meta cluster)))
      (cl_meta cluster)) cluster) cluster s in
    (Ret (no_result, errp), s')
  else (Ret (no_result, None), s).

(** C34: deletion.  A provider config that cannot be deleted keeps the finalizer on the
Cluster; one that is deleted, was never there, or whose kind is not installed,
releases it. *)
Theorem PC_deletion err w2 :
  Time_IsZero (DeletionTimestamp (cl_meta cluster)) = false →
  Delete_Unstructured (client r) (NewProviderConfig (Name (cl_meta cluster))) w1 = (err, w2) →
  run =
    match err with
    | Some e => if IsNotFound e || IsNoMatchError e then release w2
                else (Ret (no_result, Some e), w2)
    | None => release w2
    end.
Proof.
  intros Hdel Hd. rewrite Reconcile_run, Hdel. simpl. unfold reconcileDelete.
  rewrite (bind_Ret _ _ _ _ _ (io_run _ _ _ _ Hd)), RemoveFinalizer_spec. unfold release.
  set (released := cl_set_meta (set_Finalizers _ _) _).
  case_decide; [rewrite bool_decide_eq_true_2 by done|rewrite bool_decide_eq_false_2 by done];
    fold released.
  - destruct (Patch_Cluster (client r) released cluster w2) as [errp w3] eqn:E.
    pose proof (bind_Ret (io (Patch_Cluster (client r) released cluster))
      (λ err, mret (no_result, err)) _ _ _ (io_run _ _ _ _ E)) as Hrun.
    destruct err as [e|]; [|done]. by destruct (IsNotFound e), (IsNoMatchError e).
  - destruct err as [e|]; [|done]. by destruct (IsNotFound e), (IsNoMatchError e).
Qed.
End props.

(** ** Panics *)

(** A computation that returns from every state. *)
Definition total {S A} (m : M S A) : Prop := ∀ s, ∃ a s', m s = (Ret a, s').

Lemma total_ret {S A} (a : A) : total (S := S) (mret a).
Proof. intros s. by eexists _, _. Qed.

Lemma total_io {S A} (m : IO S A) : total (io m).
Proof. intros s. unfold io. destruct (m s). by eexists _, _. Qed.

Lemma total_bind {S A B} (m : M S A) (f : A → M S B) : total m → (∀ a, total (f a)) → total (m ≫= f).
Proof.
  intros Hm Hf s. destruct (Hm s) as (a & s1 & E). rewrite (bind_Ret _ _ _ _ _ E). apply Hf.
Qed.

Lemma total_check {S A E R} (m : M S (result E A)) (h : E → M S R) (k : A → M S R) :
  total m → (∀ e, total (h e)) → (∀ a, total (k a)) → total (check m h k).
Proof. intros Hm Hh Hk. apply total_bind; [done|]. by intros []. Qed.

Lemma total_check_err {S E R} (m : M S (option E)) (h : E → M S R) (k : M S R) :
  total m → (∀ e, total (h e)) → total k → total (check_err m h k).
Proof. intros Hm Hh Hk. apply total_bind; [done|]. by intros []. Qed.

Lemma total_returns {S A} (m : M S A) s (P : Prop) : total m → P → ∃ a s', m s = (Ret a, s') ∧ P.
Proof. intros Hm HP. destruct (Hm s) as (a & s' & E). eauto. Qed.

Ltac total_step :=
  match goal with
  | |- ∀ _, _ => intros ?
  | |- total (mret _) => apply total_ret
  | |- total (io _) => apply total_io
  | |- total (mbind _ _) => apply total_bind
  | |- total (check _ _ _) => apply total_check
  | |- total (check_err _ _ _) => apply total_check_err
  | |- total (match ?x with _ => _ end) => destruct x eqn:?
  end.

Section panics.
Context {W : Type} `{ApiMachinery} `{!ControllerUtil W} `{ProviderConfigLibs}.
Context (r : Reconciler W).

Lemma info_of_identity_total cluster sub ref : total (info_of_identity r cluster sub ref).
Proof. unfold info_of_identity. repeat total_step. Qed.

Lemma apply_config_total cluster info : total (apply_config r cluster info).
Proof. unfold apply_config. repeat total_step. Qed.

Lemma reconcileDelete_total cluster : total (reconcileDelete r cluster).
Proof. unfold reconcileDelete. cbv zeta. repeat total_step. Qed.

(** The control plane of an ASO cluster lists no resources. *)
Definition without_resources (cluster : Cluster) (w1 w2 : W) : Prop :=
  cref_Kind (cl_InfrastructureRef cluster) = AzureASOManagedClusterKind ∧
  ∃ cp, Get_AzureASOManagedControlPlane (client r)
      {| nn_Namespace := Namespace (cl_meta cluster);
         nn_Name := cref_Name (cl_ControlPlaneRef cluster) |} w1 = (Ok cp, w2) ∧
    ToUnstructured (aso_Resources cp) = Ok [].

Lemma identity_of_cluster_cases cluster w1 :
  (∃ w2, without_resources cluster w1 w2 ∧
     identity_of_cluster r cluster w1 = (Panic IndexOutOfRange, w2)) ∨
  ∃ found w2, identity_of_cluster r cluster w1 = (Ret found, w2) ∧
    ∀ w3, ¬ without_resources cluster w1 w3.
Proof.
  unfold identity_of_cluster, without_resources.
  destruct (String.eqb_spec (cref_Kind (cl_InfrastructureRef cluster)) AzureClusterKind) as [->|Hk].
  { right. apply total_returns; [repeat total_step|by intros w3 []]. }
  destruct (String.eqb_spec (cref_Kind (cl_InfrastructureRef cluster)) AzureASOManagedClusterKind)
    as [->|Hk'].
  2:{ right. apply total_returns; [repeat total_step|by intros w3 []]. }
  destruct (Get_AzureASOManagedControlPlane _ _ w1) as [[cp|e] w2] eqn:Eg.
  2:{ right. rewrite (check_Err _ _ _ _ _ _ (io_run _ _ _ _ Eg)). do 2 eexists.
      split; [done|]. by intros w3 (_ & cp & ? & _). }
  rewrite (check_Ok _ _ _ _ _ _ (io_run _ _ _ _ Eg)).
  destruct (ToUnstructured (aso_Resources cp)) as [[|u us]|e] eqn:Eu.
  - left. exists w2. by split; [split; [|exists cp]|].
  - right. do 2 eexists. split; [done|]. intros w3 (_ & cp' & [= <- _] & Hu). by rewrite Eu in Hu.
  - right. do 2 eexists. split; [done|]. intros w3 (_ & cp' & [= <- _] & Hu). by rewrite Eu in Hu.
Qed.

(** C40: when this reconciler panics.  It does for one kind of request only: a live
Cluster managed through Azure Service Operator is read, and then its control plane, and
this one lists no resources.  The panic is the index out of range, and nothing has been
written.  Whatever else the API server answers, and whichever of its calls fail, the
reconciler returns. *)
Theorem PC_panics_only req w p w' :
  ProviderConfig.Reconcile r req w = (Panic p, w') ↔
  p = IndexOutOfRange ∧ ∃ cluster w1, Get_Cluster (client r) req w = (Ok cluster, w1) ∧
    Time_IsZero (DeletionTimestamp (cl_meta cluster)) = true ∧
    cref_Kind (cl_InfrastructureRef cluster) = AzureASOManagedClusterKind ∧
    ∃ cp, Get_AzureASOManagedControlPlane (client r)
        {| nn_Namespace := Namespace (cl_meta cluster);
           nn_Name := cref_Name (cl_ControlPlaneRef cluster) |} w1 = (Ok cp, w') ∧
      ToUnstructured (aso_Resources cp) = Ok [].
Proof.
  destruct (Get_Cluster (client r) req w) as [[cluster|e] w1] eqn:Eg.
  2:{ unfold ProviderConfig.Reconcile. rewrite (check_Err _ _ _ _ _ _ (io_run _ _ _ _ Eg)).
      split; [by destruct (IsNotFound e)|]. by intros (_ & ? & ? & ? & _). }
  rewrite (Reconcile_run r req w w1 cluster Eg).
  destruct (Time_IsZero (DeletionTimestamp (cl_meta cluster))) eqn:Ed.
  2:{ destruct (reconcileDelete_total cluster w1) as (a & s & E). simpl. rewrite E.
      split; [done|]. intros (_ & c & ? & [= <- _] & Hz & _). congruence. }
  unfold reconcileNormal. simpl.
  destruct (identity_of_cluster_cases cluster w1) as [(w2 & Hno & Ei)|([[sub ref]|res] & w2 & Ei & Hno)].
  - unfold check. rewrite (bind_Panic _ _ _ _ _ Ei). split.
    + intros [= <- <-]. split; [done|]. by exists cluster, w1.
    + intros (-> & c & v & [= <- <-] & _ & Hk & cp & Hcp & _).
      destruct Hno as (_ & cp' & Hcp' & _). rewrite Hcp in Hcp'. by injection Hcp' as _ ->.
  - rewrite (check_Ok _ _ _ _ _ _ Ei).
    assert (Ht : total (match ref with
      | None => mret (no_result, Some (TerminalError ErrIdentityRefUnset))
      | Some ref => let? info := info_of_identity r cluster sub ref orelse mret in
          apply_config r cluster info end)).
    { destruct ref as [ref|]; [|apply total_ret]. apply total_check; [apply info_of_identity_total|
        intros ?; apply total_ret|intros ?; apply apply_config_total]. }
    destruct (Ht w2) as (a & s & ->). split; [done|].
    intros (_ & c & v & [= <- <-] & _ & Hn). by destruct (Hno w').
  - rewrite (check_Err _ _ _ _ _ _ Ei). split; [done|].
    intros (_ & c & v & [= <- <-] & _ & Hn). by destruct (Hno w').
Qed.
End panics.
