(* ===== verification/MainFlags.v ===== *)
(** * main.go: the flag that lists the gate conditions. *)
From Stdlib Require Import Ascii.
From S2P Require Import Prelude.
From S2P Require Import GoStrings.
From S2P Require Import Api.

Definition comma : ascii := ","%char.

(** [ConditionSliceVar.String]. *)
Definition ConditionSliceVar_String (v : list string) : string := strings_Join v ",".

(** The loop of [Set], with the slice [t] built so far. *)
Fixpoint set_loop (fields t : list string) : list string :=
  match fields with
  | [] => t
  | s :: fields' => if String.eqb s "" then set_loop fields' t else set_loop fields' (t ++ [s])
  end.

(** [ConditionSliceVar.Set]: the new value and the error. *)
Definition ConditionSliceVar_Set (arg : string) : list string * error :=
  let arg := strings_Trim arg comma in
  (set_loop (strings_Split arg comma) [], None).

(** ** Properties *)

Lemma set_loop_filter fields t : set_loop fields t = t ++ filter (λ s, s ≠ "") fields.
Proof.
  revert t. induction fields as [|s fields IH]; intros t; simpl; [by rewrite app_nil_r|].
  rewrite filter_cons. destruct (String.eqb_spec s "") as [->|Hne].
  - by rewrite decide_False, IH by auto.
  - by rewrite decide_True, IH, <- app_assoc by done.
Qed.

(** A run of [n] commas. *)
Fixpoint commas (n : nat) : string :=
  match n with O => "" | S n => String comma (commas n) end.

Lemma TrimRight_spec s : ∃ n, s = strings_TrimRight s comma +:+ commas n.
Proof.
  induction s as [|a s [n IH]]; [by exists 0|]. simpl.
  destruct (strings_TrimRight s comma) as [|b t] eqn:E.
  - destruct (Ascii.eqb_spec a comma) as [->|].
    + exists (S n). rewrite app_nil_l_string. simpl. f_equal. by rewrite IH.
    + exists n. rewrite app_String, app_nil_l_string. f_equal. by rewrite IH.
  - exists n. rewrite app_String. by f_equal.
Qed.

Lemma split_go_snoc s acc :
  split_go comma (s +:+ String comma "") acc = split_go comma s acc ++ [""].
Proof.
  revert acc. induction s as [|a s IH]; intros acc; [done|]. rewrite app_String. simpl.
  destruct (Ascii.eqb a comma); simpl; by rewrite IH.
Qed.

(** The fields that are not empty; leading and trailing commas add none. *)
Definition fields (s : string) : list string := filter (λ f, f ≠ "") (strings_Split s comma).

Lemma fields_commas n s : fields (s +:+ commas n) = fields s.
Proof.
  revert s. induction n as [|n IH]; intros s; simpl; [by rewrite app_nil_r_string|].
  replace (s +:+ String comma (commas n)) with ((s +:+ String comma "") +:+ commas n)
    by (by rewrite app_assoc_string).
  rewrite IH. unfold fields, strings_Split. rewrite split_go_snoc, filter_app.
  by rewrite app_nil_r.
Qed.

Lemma fields_TrimLeft s : fields (strings_TrimLeft s comma) = fields s.
Proof.
  induction s as [|a s IH]; [done|]. simpl. destruct (Ascii.eqb_spec a comma) as [->|]; [|done].
  rewrite IH. done.
Qed.

Lemma fields_Trim s : fields (strings_Trim s comma) = fields s.
Proof.
  unfold strings_Trim. rewrite <- (fields_TrimLeft s).
  destruct (TrimRight_spec (strings_TrimLeft s comma)) as [n Hn].
  rewrite Hn at 2. by rewrite fields_commas.
Qed.

Lemma Set_fields arg : ConditionSliceVar_Set arg = (fields arg, None).
Proof. unfold ConditionSliceVar_Set. by rewrite set_loop_filter, <- (fields_Trim arg). Qed.

(** Setting the flag never fails and yields the non-empty comma-separated fields of
the argument in order; the trimming of commas beforehand makes no difference. *)
Theorem ConditionSliceVar_Set_spec arg :
  ConditionSliceVar_Set arg = (filter (λ f, f ≠ "") (strings_Split arg comma), None).
Proof. apply Set_fields. Qed.

Fixpoint no_comma (s : string) : bool :=
  match s with
  | EmptyString => true
  | String a s' => negb (Ascii.eqb a comma) && no_comma s'
  end.

Lemma split_go_no_comma s t acc :
  no_comma s = true → split_go comma (s +:+ t) acc = split_go comma t (acc +:+ s).
Proof.
  revert acc. induction s as [|a s IH]; intros acc; [by rewrite app_nil_r_string|].
  rewrite app_String. simpl. destruct (Ascii.eqb a comma); [done|]. simpl. intros Hs.
  by rewrite IH, app_assoc_string.
Qed.

Lemma split_join xs x :
  Forall (λ s, no_comma s = true) (x :: xs) →
  strings_Split (strings_Join (x :: xs) ",") comma = x :: xs.
Proof.
  revert x. induction xs as [|y xs IH]; intros x [Hx Hxs]%Forall_cons.
  - unfold strings_Split. simpl. rewrite <- (app_nil_r_string x) at 1.
    by rewrite split_go_no_comma.
  - rewrite Join_cons. unfold strings_Split. rewrite split_go_no_comma by done.
    rewrite app_String. simpl. f_equal. by apply IH.
Qed.

Lemma split_go_fields s acc :
  no_comma acc = true → Forall (λ f, no_comma f = true) (split_go comma s acc).
Proof.
  revert acc. induction s as [|a s IH]; intros acc Hacc; simpl; [by repeat constructor|].
  destruct (Ascii.eqb a comma) eqn:E; [by constructor; [|apply IH]|]. apply IH.
  induction acc as [|b acc IHacc]; [simpl; by rewrite E|]. rewrite app_String.
  simpl in *. apply andb_prop in Hacc as [-> Hacc]. simpl. by apply IHacc.
Qed.

Lemma fields_ok s : Forall (λ f, f ≠ "" ∧ no_comma f = true) (fields s).
Proof.
  apply Forall_forall. intros f Hf. apply list_elem_of_filter in Hf as [Hne Hin].
  split; [done|]. pose proof (split_go_fields s "" eq_refl) as Hall.
  by eapply Forall_forall in Hall.
Qed.

Lemma round_trip v :
  Forall (λ s, s ≠ "" ∧ no_comma s = true) v →
  ConditionSliceVar_Set (ConditionSliceVar_String v) = (v, None).
Proof.
  intros Hv. rewrite Set_fields. f_equal. unfold fields, ConditionSliceVar_String.
  destruct v as [|x xs]; [done|]. rewrite split_join.
  - induction Hv as [|y ys [Hy _] _ IH]; [done|]. by rewrite filter_cons_True, IH.
  - eapply Forall_impl; [exact Hv|]. by intros s [_ ?].
Qed.

(** Printing a list of gates and reading it back gives the same list, for names that
are not empty and contain no comma; and those are all that [Set] ever yields, so that
printing the flag's value and setting it again changes nothing. *)
Theorem ConditionSliceVar_round_trip :
  (∀ v, Forall (λ s, s ≠ "" ∧ no_comma s = true) v →
     ConditionSliceVar_Set (ConditionSliceVar_String v) = (v, None)) ∧
  ∀ arg, let v := (ConditionSliceVar_Set arg).1 in
    ConditionSliceVar_Set (ConditionSliceVar_String v) = (v, None).
Proof.
  split; [exact round_trip|]. intros arg. cbv zeta. apply round_trip.
  rewrite Set_fields. apply fields_ok.
Qed.

Lemma ConditionSliceVar_round_trip_witness :
  ConditionSliceVar_Set (ConditionSliceVar_String ["NetworkReady"; "SubnetsReady"])
    = (["NetworkReady"; "SubnetsReady"], None).
Proof. apply ConditionSliceVar_round_trip. repeat constructor; done. Defined.
