(* ===== verification/Main.v ===== *)
(** * main.go: start-up of the operator.

The command line is read into a record of flags; then the manager is created, the
three reconcilers are built and registered, the health checks are added, and the
manager runs.  Every error ends the process with status 1.  The result of [main] is
the exit status. *)
From S2P Require Import Prelude.
From S2P Require Import GoStrings.
From S2P Require Import GoFlag.
From S2P Require Import Api.
From S2P Require Import Manager.
From S2P Require Import BaseScope.
From S2P Require Import AzureClient.
From S2P Require Import AzureClusterController.
From S2P Require Import KubeadmControlPlane.
From S2P Require Import ProviderConfig.
From S2P Require Import MainFlags.

(** ** Flags *)

(** The variables of [main] that flags set; durations in nanoseconds. *)
Record Flags := {
  metricsAddr : string;
  enableLeaderElection : bool;
  probeAddr : string;
  managementClusterName : string;
  managementClusterNamespace : string;
  azureClusterGates : slice string;
  syncPeriod : Z
}.

Definition default_flags : Flags := {|
  metricsAddr := ":8080";
  enableLeaderElection := false;
  probeAddr := ":8081";
  managementClusterName := "";
  managementClusterNamespace := "";
  azureClusterGates := None;
  syncPeriod := 5 * Minute
|}.

Section flags.
(** [time.ParseDuration], which computes fractions in floating point. *)
Context (ParseDuration : string → result errval Z).

Definition StringVar (name : string) (set : string → Flags → Flags) : Flag Flags :=
  {| flag_Name := name; IsBoolFlag := false; flag_Set v f := Ok (set v f) |}.

Definition with_gates (gates : list string) (f : Flags) : Flags :=
  {| metricsAddr := metricsAddr f; enableLeaderElection := enableLeaderElection f;
     probeAddr := probeAddr f; managementClusterName := managementClusterName f;
     managementClusterNamespace := managementClusterNamespace f;
     azureClusterGates := Some gates; syncPeriod := syncPeriod f |}.

(** [flag.Var] with the [ConditionSliceVar] of the gates. *)
Definition gates_flag : Flag Flags :=
  {| flag_Name := "azure-cluster-gates"; IsBoolFlag := false;
     flag_Set v f :=
       match ConditionSliceVar_Set v with
       | (_, Some e) => Err e
       | (gates, None) => Ok (with_gates gates f)
       end |}.

Definition main_flags : list (Flag Flags) := [
  StringVar "metrics-bind-address" (λ v f,
    {| metricsAddr := v; enableLeaderElection := enableLeaderElection f; probeAddr := probeAddr f;
       managementClusterName := managementClusterName f;
       managementClusterNamespace := managementClusterNamespace f;
       azureClusterGates := azureClusterGates f; syncPeriod := syncPeriod f |});
  StringVar "health-probe-bind-address" (λ v f,
    {| metricsAddr := metricsAddr f; enableLeaderElection := enableLeaderElection f; probeAddr := v;
       managementClusterName := managementClusterName f;
       managementClusterNamespace := managementClusterNamespace f;
       azureClusterGates := azureClusterGates f; syncPeriod := syncPeriod f |});
  {| flag_Name := "leader-elect"; IsBoolFlag := true;
     flag_Set v f :=
       match ParseBool v with
       | Err e => Err e
       | Ok b => Ok
           {| metricsAddr := metricsAddr f; enableLeaderElection := b; probeAddr := probeAddr f;
              managementClusterName := managementClusterName f;
              managementClusterNamespace := managementClusterNamespace f;
              azureClusterGates := azureClusterGates f; syncPeriod := syncPeriod f |}
       end |};
  StringVar "management-cluster-name" (λ v f,
    {| metricsAddr := metricsAddr f; enableLeaderElection := enableLeaderElection f;
       probeAddr := probeAddr f; managementClusterName := v;
       managementClusterNamespace := managementClusterNamespace f;
       azureClusterGates := azureClusterGates f; syncPeriod := syncPeriod f |});
  StringVar "management-cluster-namespace" (λ v f,
    {| metricsAddr := metricsAddr f; enableLeaderElection := enableLeaderElection f;
       probeAddr := probeAddr f; managementClusterName := managementClusterName f;
       managementClusterNamespace := v;
       azureClusterGates := azureClusterGates f; syncPeriod := syncPeriod f |});
  gates_flag;
  {| flag_Name := "sync-period"; IsBoolFlag := false;
     flag_Set v f :=
       match ParseDuration v with
       | Err e => Err e
       | Ok d => Ok
           {| metricsAddr := metricsAddr f; enableLeaderElection := enableLeaderElection f;
              probeAddr := probeAddr f; managementClusterName := managementClusterName f;
              managementClusterNamespace := managementClusterNamespace f;
              azureClusterGates := azureClusterGates f; syncPeriod := d |}
       end |}
].

(** ** The process *)

Context {W : Type} `{Microerror} `{FmtVerbs} `{ApiMachinery} `{!ClusterApiUtil W}
  `{!ControllerUtil W} `{!AzureSdk W} `{ProviderConfigLibs} `{!Manager W}.
Context (now : IO W Time).
(** The flags that [opts.BindFlags] adds for the logger; they leave the others alone. *)
Context (zap_flags : list (Flag Flags)).

Definition init : M W unit :=
  _ ← Must (AddToScheme clientgoscheme);
  _ ← Must (AddToScheme capiv1beta1);
  _ ← Must (AddToScheme capi);
  _ ← Must (AddToScheme capz);
  Must (AddToScheme kcp).

Definition manager_options (f : Flags) : Options := {|
  MetricsBindAddress := metricsAddr f;
  WebhookPort := 9443;
  HealthProbeBindAddress := probeAddr f;
  LeaderElection := enableLeaderElection f;
  LeaderElectionID := "0934d11a.giantswarm.io";
  SyncPeriod := syncPeriod f
|}.

(** [setupLog.Error(...); os.Exit(1)]. *)
Definition exit1 (_ : errval) : M W Z := mret 1%Z.

(** [main] from the creation of the reconcilers on. *)
Definition run_manager (f : Flags) (mgr : manager) : M W Z :=
  let mcNamespacedName :=
    {| nn_Namespace := managementClusterNamespace f; nn_Name := managementClusterName f |} in
  let? azureClusterReconciler :=
      mret (NewAzureClusterReconciler (Some (GetClient mgr)) (Some NewPrivateEndpointClient)
              mcNamespacedName)
    orelse exit1 in
  guard? io (AzureClusterController.SetupWithManager now azureClusterReconciler mgr) orelse exit1 in
  let? kubeadmControlPlaneReconciler :=
      mret (KubeadmControlPlane.NewKubeadmControlPlaneReconciler (Some (GetClient mgr))
              mcNamespacedName (Some (azureClusterGates f)))
    orelse exit1 in
  guard? io (KubeadmControlPlane.SetupWithManager kubeadmControlPlaneReconciler mgr) orelse exit1 in
  let? providerConfigReconciler :=
      mret (ProviderConfig.NewProviderConfigReconciler (Some (GetClient mgr)))
    orelse exit1 in
  guard? io (ProviderConfig.SetupWithManager providerConfigReconciler mgr) orelse exit1 in
  guard? io (AddHealthzCheck mgr "healthz") orelse exit1 in
  guard? io (AddReadyzCheck mgr "readyz") orelse exit1 in
  guard? io (Start mgr) orelse exit1 in
  mret 0%Z.

Definition main (args : list string) : M W Z :=
  match Parse (main_flags ++ zap_flags) args default_flags with
  | Exits code => mret code
  | Parsed f _ =>
      config ← io GetConfigOrDie;
      match config with
      | None => mret 1%Z
      | Some config =>
          let? mgr := io (NewManager config (manager_options f)) orelse exit1 in
          run_manager f mgr
      end
  end.

(** The process: the [init] function runs before [main]. *)
Definition process (args : list string) : M W Z := _ ← init; main args.

(** ** Properties *)

(** The command line that sets all flags but the sync period. *)
Definition render_flags (f : Flags) : list string :=
  [argument "metrics-bind-address" (metricsAddr f);
   argument "health-probe-bind-address" (probeAddr f);
   argument "leader-elect" (FormatBool (enableLeaderElection f));
   argument "management-cluster-name" (managementClusterName f);
   argument "management-cluster-namespace" (managementClusterNamespace f)] ++
  match azureClusterGates f with
  | Some gates => [argument "azure-cluster-gates" (ConditionSliceVar_String gates)]
  | None => []
  end.

Lemma gates_flag_set gates f :
  Forall (λ s, s ≠ "" ∧ no_comma s = true) gates →
  flag_Set gates_flag (ConditionSliceVar_String gates) f = Ok (with_gates gates f).
Proof. intros Hg. unfold gates_flag. cbn [flag_Set]. by rewrite (round_trip gates Hg). Qed.

(** C31: the command line is read back: every value that can be given to the operator as
[--name=value] arrives unchanged in its variable, whatever bytes it has, and the
gates one by one, for gate names that are not empty and contain no comma; the sync
period stays at its default, as its syntax belongs to the library that parses
durations. *)
Theorem flags_round_trip f :
  syncPeriod f = syncPeriod default_flags →
  (∀ gates, azureClusterGates f = Some gates → Forall (λ s, s ≠ "" ∧ no_comma s = true) gates) →
  Parse (main_flags ++ zap_flags) (render_flags f) default_flags = Parsed f [].
Proof.
  intros Hsync Hgates. destruct f as [ma le pa name ns gates sp]. simpl in Hsync, Hgates. subst sp.
  unfold render_flags. simpl app.
  do 2 (erewrite Parse_argument; [|done|reflexivity..]).
  erewrite Parse_argument; [|done|reflexivity|simpl; rewrite ParseBool_FormatBool; reflexivity].
  do 2 (erewrite Parse_argument; [|done|reflexivity..]).
  destruct gates as [gates|]; [|done].
  by rewrite (Parse_argument (main_flags ++ zap_flags) gates_flag "azure-cluster-gates" (ConditionSliceVar_String gates) []
    _ _ eq_refl eq_refl (gates_flag_set gates _ (Hgates gates eq_refl))).
Qed.

(** The calls of [run_manager] that act on the world, for a manager with client [c]. *)
Definition start_up (f : Flags) (mgr : manager) : list (IO W error) :=
  let mcName :=
    {| nn_Namespace := managementClusterNamespace f; nn_Name := managementClusterName f |} in
  let c := GetClient mgr in
  [AzureClusterController.SetupWithManager now
     {| acr_Client := c; privateEndpointsClientCreator := NewPrivateEndpointClient;
        AzureClusterController.managementClusterName := mcName |} mgr;
   KubeadmControlPlane.SetupWithManager
     {| KubeadmControlPlane.client := c; KubeadmControlPlane.managementCluster := mcName;
        KubeadmControlPlane.azureClusterGates := azureClusterGates f |} mgr;
   ProviderConfig.SetupWithManager {| ProviderConfig.client := c |} mgr;
   AddHealthzCheck mgr "healthz"; AddReadyzCheck mgr "readyz"; Start mgr].

(** Runs calls until one returns an error: whether all succeeded, and the last world. *)
Fixpoint all_succeed (calls : list (IO W error)) (w : W) : bool * W :=
  match calls with
  | [] => (true, w)
  | m :: calls' =>
      match m w with
      | (None, w') => all_succeed calls' w'
      | (Some _, w') => (false, w')
      end
  end.

Lemma guard_exit1 m (k : M W Z) w :
  (guard? io m orelse exit1 in k) w =
    match m w with (None, w') => k w' | (Some _, w') => (Ret 1%Z, w') end.
Proof. unfold check_err, mbind, M_bind, io. by destruct (m w) as [[e|] w']. Qed.

Lemma run_manager_all f mgr w :
  managementClusterName f ≠ "" → managementClusterNamespace f ≠ "" →
  run_manager f mgr w =
    let '(ok, w') := all_succeed (start_up f mgr) w in (Ret (if ok then 0%Z else 1%Z), w').
Proof.
  intros Hn Hns. apply String.eqb_neq in Hn, Hns. unfold run_manager.
  unfold NewAzureClusterReconciler, KubeadmControlPlane.NewKubeadmControlPlaneReconciler,
    ProviderConfig.NewProviderConfigReconciler.
  cbv zeta. cbn [nn_Name nn_Namespace]. rewrite Hn, Hns.
  rewrite (check_Ok _ _ _ _ _ _ (mret_run _ _)), guard_exit1. unfold start_up. cbn [all_succeed].
  destruct (AzureClusterController.SetupWithManager _ _ _ w) as [[e1|] w1]; [done|].
  rewrite (check_Ok _ _ _ _ _ _ (mret_run _ _)), guard_exit1.
  destruct (KubeadmControlPlane.SetupWithManager _ _ w1) as [[e2|] w2]; [done|].
  rewrite (check_Ok _ _ _ _ _ _ (mret_run _ _)), guard_exit1.
  destruct (ProviderConfig.SetupWithManager _ _ w2) as [[e3|] w3]; [done|].
  rewrite guard_exit1. destruct (AddHealthzCheck _ _ w3) as [[e4|] w4]; [done|].
  rewrite guard_exit1. destruct (AddReadyzCheck _ _ w4) as [[e5|] w5]; [done|].
  rewrite guard_exit1. by destruct (Start mgr w5) as [[e6|] w6].
Qed.

(** Without the name or the namespace of the management cluster nothing is registered. *)
Lemma run_manager_no_name f mgr w :
  managementClusterName f = "" ∨ managementClusterNamespace f = "" →
  run_manager f mgr w = (Ret 1%Z, w).
Proof.
  intros Hor. unfold run_manager, NewAzureClusterReconciler. cbv zeta. cbn [nn_Name nn_Namespace].
  destruct (String.eqb_spec (managementClusterName f) ""); [done|].
  destruct Hor as [?|Hns]; [done|]. by rewrite Hns.
Qed.

(** C19: the process ends with status 0 exactly when the command line names the management
cluster and its namespace, the manager was created, the three reconcilers were
registered with it in order, the gates being those of the command line, both health
checks were added, and the manager ran until it was told to stop.  It never panics,
and any other end has another status. *)
Theorem main_exit_status args w :
  ∃ code w', main args w = (Ret code, w') ∧
  (code = 0%Z ↔
   (∃ f rest config w1 mgr w2,
     Parse (main_flags ++ zap_flags) args default_flags = Parsed f rest ∧
     managementClusterName f ≠ "" ∧ managementClusterNamespace f ≠ "" ∧
     GetConfigOrDie w = (Some config, w1) ∧
     NewManager config (manager_options f) w1 = (Ok mgr, w2) ∧
     all_succeed (start_up f mgr) w2 = (true, w')) ∨
   Parse (main_flags ++ zap_flags) args default_flags = Exits 0 ∧ w' = w).
Proof.
  unfold main. destruct (Parse (main_flags ++ zap_flags) args default_flags) as [f rest|code].
  2:{ exists code, w. split; [done|]. split; [intros ->; by right|].
      intros [(? & ? & ? & ? & ? & ? & ? & _)|[[= ->] _]]; done. }
  destruct (GetConfigOrDie w) as [config w1] eqn:Ec.
  rewrite (bind_Ret _ _ _ _ _ (io_run _ _ _ _ Ec)).
  destruct config as [config|].
  2:{ do 2 eexists. split; [done|]. split; [done|].
      intros [(? & ? & ? & ? & ? & ? & _ & _ & _ & ? & _)|[? _]]; done. }
  destruct (NewManager config (manager_options f) w1) as [[mgr|e] w2] eqn:Em.
  2:{ rewrite (check_Err _ _ _ _ _ _ (io_run _ _ _ _ Em)). do 2 eexists. split; [done|].
      split; [done|]. intros [(f' & ? & c' & ? & ? & ? & [= <- <-] & _ & _ & [= <- <-] & E & _)|[? _]];
        [congruence|done]. }
  rewrite (check_Ok _ _ _ _ _ _ (io_run _ _ _ _ Em)).
  destruct (decide (managementClusterName f = "" ∨ managementClusterNamespace f = "")) as [Hn|Hn].
  { rewrite run_manager_no_name by done. do 2 eexists. split; [done|]. split; [done|].
    intros [(f' & ? & ? & ? & ? & ? & [= <- _] & Hn1 & Hn2 & _)|[? _]]; [|done].
    by destruct Hn. }
  rewrite run_manager_all by tauto.
  destruct (all_succeed (start_up f mgr) w2) as [ok w3] eqn:Ea.
  do 2 eexists. split; [done|]. split.
  - destruct ok; [|done]. intros _. left. exists f, rest, config, w1, mgr, w2. tauto.
  - intros [(f' & ? & c' & ? & m' & ? & [= <- _] & _ & _ & [= <- <-] & E & Ha)|[? _]]; [|done].
    rewrite E in Em. injection Em as <- <-. rewrite Ha in Ea. by injection Ea as <-.
Qed.
End flags.
