(* ===== verification/Invariants.v ===== *)
(** * Invariants kept by every path of the AzureCluster reconciler.

[keeps I m Q]: from a state in [I] the computation [m] ends in a state in [I],
also when it panics, and a value that it returns is in [Q].  The rules follow the
shape of the program, so one walk over [Reconcile] covers all its error returns,
panics and deferred calls.  The walk is done once, for any property of AzureCluster
objects that the edits of the operator preserve. *)
From S2P Require Import Prelude.
From S2P Require Import GoStrings.
From S2P Require Import GoNet.
From S2P Require Import Api.
From S2P Require Import Errors.
From S2P Require Import BaseScope.
From S2P Require Import PrivateLinks.
From S2P Require Import PrivateEndpoints.
From S2P Require Import Service.
From S2P Require Import AzureClient.
From S2P Require Import AzureClusterController.

(** ** Rules *)

Definition any {A} (_ : A) : Prop := True.

Section rules.
Context {S : Type} (I : S → Prop).

Definition keeps {A} (m : M S A) (Q : A → Prop) : Prop :=
  ∀ s, I s → I (m s).2 ∧ ∀ a, (m s).1 = Ret a → Q a.

Lemma keeps_ret {A} (a : A) (Q : A → Prop) : Q a → keeps (mret a) Q.
Proof. intros Ha s Hs. split; [done|]. by intros ? [= <-]. Qed.

Lemma keeps_panic {A} p (Q : A → Prop) : keeps (go_panic p) Q.
Proof. intros s Hs. by split. Qed.

Lemma keeps_weaken {A} (m : M S A) (Q R : A → Prop) :
  keeps m Q → (∀ a, Q a → R a) → keeps m R.
Proof. intros Hm HQR s Hs. destruct (Hm s Hs) as [Hi Hq]. split; eauto. Qed.

Lemma keeps_bind {A B} (m : M S A) (f : A → M S B) (Q : A → Prop) (R : B → Prop) :
  keeps m Q → (∀ a, Q a → keeps (f a) R) → keeps (m ≫= f) R.
Proof.
  intros Hm Hf s Hs. destruct (Hm s Hs) as [Hi Hq]. unfold mbind, M_bind.
  destruct (m s) as [[a|p] s']; simpl in *; [by apply (Hf a); [apply Hq|]|done].
Qed.

Lemma keeps_check {A E R} (m : M S (result E A)) (h : E → M S R) (k : A → M S R)
    (Q : A → Prop) (T : R → Prop) :
  keeps m (λ r, ∀ a, r = Ok a → Q a) → (∀ e, keeps (h e) T) → (∀ a, Q a → keeps (k a) T) →
  keeps (check m h k) T.
Proof. intros Hm Hh Hk. eapply keeps_bind; [exact Hm|]. intros [a|e] Hr; [by apply Hk, Hr|done]. Qed.

Lemma keeps_check_err {E R} (m : M S (option E)) (h : E → M S R) (k : M S R) (T : R → Prop) :
  keeps m any → (∀ e, keeps (h e) T) → keeps k T → keeps (check_err m h k) T.
Proof. intros Hm Hh Hk. eapply keeps_bind; [exact Hm|]. by intros [e|] _. Qed.

Lemma keeps_for_range {A R} (xs : list A) (body : A → M S (option R)) :
  (∀ x, keeps (body x) any) → keeps (for_range xs body) any.
Proof.
  intros Hb. induction xs as [|x xs IH]; [by apply keeps_ret|].
  eapply keeps_bind; [apply Hb|]. intros [v|] _; [by apply keeps_ret|done].
Qed.

Lemma keeps_unless_returned {R} (m : M S (option R)) (k : M S R) :
  keeps m any → keeps k any → keeps (unless_returned m k) any.
Proof. intros Hm Hk. eapply keeps_bind; [done|]. intros [v|] _; [by apply keeps_ret|done]. Qed.

Lemma keeps_defer_close {E R} (cleanup : M S (option E)) (body : M S (R * option E)) :
  keeps cleanup any → keeps body any → keeps (defer_close cleanup body) any.
Proof.
  intros Hc Hb s Hs. destruct (Hb s Hs) as [Hi _]. unfold defer_close.
  destruct (body s) as [[[res err]|p] s1]; simpl in Hi; destruct (Hc s1 Hi) as [Hi' _];
    by destruct (cleanup s1) as [[?|?] ?].
Qed.

Lemma keeps_deref {A} (o : option A) (Q : A → Prop) :
  (∀ a, o = Some a → Q a) → keeps (deref_opt o) Q.
Proof. intros Ho. destruct o; [by apply keeps_ret, Ho|apply keeps_panic]. Qed.
End rules.

Lemma any_intro {A} (a : A) : any a.
Proof. done. Qed.
#[export] Hint Resolve any_intro : go.

(** Follows the shape of the program; leaves the calls it has no rule for. *)
Ltac keeps_step :=
  match goal with
  | |- ∀ _, _ => intros ?
  | |- any _ => exact I
  | |- keeps _ (mret _) any => apply keeps_ret; exact I
  | |- keeps _ (go_panic _) _ => apply keeps_panic
  | |- keeps _ (mbind _ _) _ => apply (keeps_bind _ _ _ any)
  | |- keeps _ (check_err _ _ _) _ => apply keeps_check_err
  | |- keeps _ (for_range _ _) any => apply keeps_for_range
  | |- keeps _ (unless_returned _ _) any => apply keeps_unless_returned
  | |- keeps _ (match ?x with _ => _ end) _ => destruct x eqn:?
  end.

(** ** The service, on any scopes that keep the invariant *)

Class ScopeKeeps {S} (I : S → Prop) (s : Scope S) : Prop := {
  keeps_GetClusterName : keeps I (sc_GetClusterName s) any;
  keeps_GetSubscriptionID : keeps I (sc_GetSubscriptionID s) any;
  keeps_GetLocation : keeps I (sc_GetLocation s) any;
  keeps_GetToWorkloadCluster sub rg :
    keeps I (sc_GetPrivateEndpointsToWorkloadCluster s sub rg) any;
  keeps_GetIPAddress n : keeps I (sc_GetPrivateEndpointIPAddress s n) any;
  keeps_AddSpec spec : keeps I (sc_AddPrivateEndpointSpec s spec) any;
  keeps_RemoveByName n : keeps I (sc_RemovePrivateEndpointByName s n) any;
  keeps_Close : keeps I (sc_Close s) any
}.

Class LinksKeeps {S} (I : S → Prop) (s : PrivateLinksScope S) : Prop := {
  keeps_pls_GetConditions : keeps I (pls_GetConditions s) any;
  keeps_pls_GetClusterName : keeps I (pls_GetClusterName s) any;
  keeps_pls_GetSubscriptionID : keeps I (pls_GetSubscriptionID s) any;
  keeps_pls_GetResourceGroup : keeps I (pls_GetResourceGroup s) any;
  keeps_pls_GetPrivateLinks sub :
    keeps I (pls_GetPrivateLinksWithAllowedSubscription s sub) any;
  keeps_pls_LookupPrivateLink id : keeps I (pls_LookupPrivateLink s id) any;
  keeps_pls_PrivateLinksReady : keeps I (pls_PrivateLinksReady s) any;
  keeps_pls_SetIPForWcApi ip : keeps I (pls_SetPrivateEndpointIPAddressForWcApi s ip) any;
  keeps_pls_SetIPForMcIngress ip :
    keeps I (pls_SetPrivateEndpointIPAddressForMcIngress s ip) any;
  keeps_pls_SetCondition c : keeps I (pls_SetCondition s c) any;
  keeps_pls_Close : keeps I (pls_Close s) any
}.

Create HintDb keeps.
#[export] Hint Resolve keeps_GetClusterName keeps_GetSubscriptionID keeps_GetLocation
  keeps_GetToWorkloadCluster keeps_GetIPAddress keeps_AddSpec keeps_RemoveByName keeps_Close
  keeps_pls_GetConditions keeps_pls_GetClusterName keeps_pls_GetSubscriptionID
  keeps_pls_GetResourceGroup keeps_pls_GetPrivateLinks keeps_pls_LookupPrivateLink
  keeps_pls_PrivateLinksReady keeps_pls_SetIPForWcApi keeps_pls_SetIPForMcIngress
  keeps_pls_SetCondition keeps_pls_Close : keeps.

Ltac keeps_auto := repeat first [solve [eauto with keeps] | keeps_step].

Section service.
Context {S : Type} (I : S → Prop) `{Microerror} `{ApiMachinery}.
Context (isTrue : slice Condition → string → bool) (now : M S Time) (s : Service S).
Context `{!ScopeKeeps I (privateEndpointsScope s)} `{!LinksKeeps I (privateLinksScope s)}.
Context (keeps_now : keeps I now any).

Lemma used_loop_keeps cs used : keeps I (used_loop (privateLinksScope s) cs used) any.
Proof. revert used. induction cs as [|c cs IH]; intros used; simpl; keeps_auto. Qed.

Lemma remove_if_unused_keeps e : keeps I (remove_if_unused s e) any.
Proof. unfold remove_if_unused. eapply keeps_bind; [apply used_loop_keeps|]. keeps_auto. Qed.

Lemma reconcile_link_keeps l : keeps I (reconcile_link s l) any.
Proof. unfold reconcile_link. keeps_auto. Qed.

Lemma ReconcileMcToWcApi_keeps : keeps I (ReconcileMcToWcApi s) any.
Proof.
  unfold ReconcileMcToWcApi. pose proof reconcile_link_keeps. pose proof remove_if_unused_keeps.
  keeps_auto.
Qed.

Lemma ReconcileWcToMcIngress_keeps specs : keeps I (ReconcileWcToMcIngress isTrue now s specs) any.
Proof. unfold ReconcileWcToMcIngress, reconcile_spec. keeps_auto. Qed.

Lemma DeleteMcToWcApi_keeps : keeps I (DeleteMcToWcApi s) any.
Proof. unfold DeleteMcToWcApi. keeps_auto. Qed.
End service.

(** ** Objects in memory *)

(** A property of AzureClusters that the operator's edits preserve. *)
Class EditClosed (W : Type) `{ControllerUtil W} (Φ : AzureCluster → Prop) : Prop := {
  closed_endpoints : ∀ c i sn es, Φ c → ac_Subnets c !! i = Some sn →
    (∃ spec, es = add_spec spec (PrivateEndpoints sn)) ∨
    (∃ n, es = remove_by_name n (PrivateEndpoints sn)) →
    Φ (set_Subnets (<[i := set_PrivateEndpoints es sn]> (ac_Subnets c)) c);
  closed_annotations : ∀ c a, Φ c → Φ (set_meta (set_Annotations a (ac_meta c)) c);
  closed_conditions : ∀ c cs, Φ c → Φ (set_Conditions cs c);
  closed_AddFinalizer : ∀ c f, Φ c → Φ (set_meta (AddFinalizer (ac_meta c) f).1 c);
  closed_RemoveFinalizer : ∀ c f, Φ c → Φ (set_meta (RemoveFinalizer (ac_meta c) f).1 c)
}.

Section memory.
Context {W : Type} `{Microerror} `{FmtVerbs} `{ApiMachinery} `{ClusterApiUtil W}
  `{ControllerUtil W}.
(** [Φ l] holds of the object at [l], [Ψ l] of the patch helpers made for it, and [Θ] of
the world. *)
Context (Φ : loc → AzureCluster → Prop) (Ψ : loc → PatchHelper → Prop) (Θ : W → Prop).
Context (Φ_closed : ∀ l, EditClosed W (Φ l)).

Definition Inv (s : St W) : Prop :=
  (∀ l c, heap s !! l = Some c → Φ l c) ∧ Θ (world s).

(** What library calls may do to the world. *)
Definition world_keeps {A} (m : IO W A) (Q : A → Prop) : Prop :=
  ∀ w, Θ w → Θ (m w).2 ∧ Q (m w).1.

Context (client : Client W).
Context (helper_made : ∀ l c, Φ l c →
  world_keeps (patch_NewHelper client (ObjAzureCluster c)) (λ r, ∀ h, r = Ok h → Ψ l h)).
Context (patched : ∀ l h c, Ψ l h → Φ l c →
  world_keeps (patch_Patch h (ObjAzureCluster c)) any).

(** Only the client of Azure's private endpoints is left open. *)
Definition safe_client (p : PrivateEndpointsClient W) : Prop :=
  ∀ rg n o, world_keeps (pec_Get p rg n o) any.

Lemma keeps_load l : keeps Inv (load l) (Φ l).
Proof.
  intros s [Hh Hw]. unfold load. destruct (heap s !! l) as [c|] eqn:E; (split; [by split|]).
  - intros ? [= <-]. by apply Hh.
  - done.
Qed.

Lemma Inv_insert s l c : Inv s → Φ l c → Inv (mkSt (<[l := c]> (heap s)) (world s)).
Proof.
  intros [Hh Hw] Hc. split; [|done]. intros l' c'. simpl.
  destruct (decide (l' = l)) as [->|Hne]; [|rewrite list_lookup_insert_ne by done; by apply Hh].
  intros Hl. destruct (decide (l < length (heap s))) as [Hlt|Hge].
  - rewrite list_lookup_insert_eq in Hl by done. by injection Hl as <-.
  - rewrite list_insert_ge in Hl by lia. by apply Hh.
Qed.

Lemma keeps_store l c : Φ l c → keeps Inv (store l c) any.
Proof.
  intros Hc s Hs. unfold store. destruct (heap s !! l) eqn:E; (split; [|done]); [|done].
  by apply Inv_insert.
Qed.

Lemma keeps_call {A} (m : IO W A) (Q : A → Prop) : world_keeps m Q → keeps Inv (call m) Q.
Proof.
  intros Hm s [Hh Hw]. unfold call. destruct (Hm (world s) Hw) as [Hw' Hq].
  destruct (m (world s)). split; [by split|]. by intros ? [= <-].
Qed.

Lemma keeps_on_world {A} (m : M W A) (Q : A → Prop) : keeps Θ m Q → keeps Inv (on_world m) Q.
Proof.
  intros Hm s [Hh Hw]. unfold on_world. destruct (Hm (world s) Hw) as [Hw' Hq].
  destruct (m (world s)). split; [by split|]. exact Hq.
Qed.

Lemma keeps_load_bind {B} l (f : AzureCluster → M (St W) B) (R : B → Prop) :
  (∀ c, Φ l c → keeps Inv (f c) R) → keeps Inv (load l ≫= f) R.
Proof. intros Hf. eapply keeps_bind; [apply keeps_load|done]. Qed.

(** *** The base scope *)

Definition safe_base (b : BaseScope W) : Prop := Ψ (azureCluster b) (patchHelper b).

Lemma keeps_NewBaseScope l :
  keeps Inv (NewBaseScope l client) (λ r, ∀ b, r = Ok b → safe_base b).
Proof.
  apply keeps_load_bind. intros c Hc.
  eapply keeps_bind; [apply keeps_call, (helper_made l c Hc)|].
  intros [h|e] Hr; apply keeps_ret; [|done]. intros b [= <-]. by apply Hr.
Qed.

Lemma keeps_getter {A} (b : BaseScope W) (f : AzureCluster → A) :
  keeps Inv (c ← load (azureCluster b); mret (f c)) any.
Proof. apply keeps_load_bind. intros c _. by apply keeps_ret. Qed.

Lemma keeps_PatchObject b : safe_base b → keeps Inv (PatchObject b) any.
Proof.
  intros Hb. apply keeps_load_bind. intros c Hc.
  eapply keeps_bind; [apply keeps_call, (patched _ _ c Hb Hc)|].
  intros [e|] _; by apply keeps_ret.
Qed.

Lemma keeps_base_Close b : safe_base b → keeps Inv (Close b) any.
Proof.
  intros Hb. eapply keeps_bind; [by apply keeps_PatchObject|]. intros [e|] _; by apply keeps_ret.
Qed.

Lemma keeps_SetAnnotation b k v : keeps Inv (SetAnnotation b k v) any.
Proof.
  apply keeps_load_bind. intros c Hc. by apply keeps_store, ((closed_annotations (EditClosed := Φ_closed _))).
Qed.

Lemma keeps_SetCondition b cond : keeps Inv (SetCondition b cond) any.
Proof. apply keeps_load_bind. intros c Hc. by apply keeps_store, ((closed_conditions (EditClosed := Φ_closed _))). Qed.

(** *** The two scopes *)

#[export] Instance links_keeps (ls : PrivateLinks.Scope W) :
  safe_base (PrivateLinks.BaseScope_ ls) → LinksKeeps Inv (as_PrivateLinksScope ls).
Proof.
  intros Hb. split; simpl; intros; try apply keeps_getter; try apply keeps_SetAnnotation.
  - by apply keeps_ret.
  - eapply keeps_bind; [apply keeps_getter|]. intros sub _.
    eapply keeps_bind; [apply keeps_getter|]. intros rg _. by apply keeps_ret.
  - apply keeps_SetCondition.
  - by apply keeps_base_Close.
Qed.

Definition safe_scope (sc : PrivateEndpoints.scope W) : Prop :=
  safe_base (PrivateEndpoints.BaseScope_ sc) ∧
  safe_client (PrivateEndpoints.privateEndpointsClient sc).

Section endpoints.
Context (sc : PrivateEndpoints.scope W).
#[local] Abbreviation l := (azureCluster (PrivateEndpoints.BaseScope_ sc)).
#[local] Abbreviation i := (PrivateEndpoints.privateEndpoints_subnet sc).

Lemma keeps_read_endpoints : keeps Inv (PrivateEndpoints.read_endpoints sc) any.
Proof.
  apply keeps_load_bind. intros c _. eapply keeps_bind; [by apply (keeps_deref _ _ any)|].
  intros sn _. by apply keeps_ret.
Qed.

Lemma read_endpoints_cases (s : St W) :
  (∃ c sn, heap s !! l = Some c ∧ ac_Subnets c !! i = Some sn ∧
     PrivateEndpoints.read_endpoints sc s = (Ret (PrivateEndpoints sn), s)) ∨
  (∃ p, PrivateEndpoints.read_endpoints sc s = (Panic p, s)).
Proof.
  unfold PrivateEndpoints.read_endpoints, mbind, M_bind, load.
  destruct (heap s !! l) as [c|] eqn:E; [|right; by eexists].
  destruct (ac_Subnets c !! i) as [sn|] eqn:Ei; [left; by exists c, sn|right; by eexists].
Qed.

(** Writing back an edited slice. *)
Lemma write_edited (s : St W) c sn es :
  Inv s → heap s !! l = Some c → ac_Subnets c !! i = Some sn →
  (∃ spec, es = add_spec spec (PrivateEndpoints sn)) ∨
  (∃ n, es = remove_by_name n (PrivateEndpoints sn)) →
  Inv (PrivateEndpoints.write_endpoints sc es s).2.
Proof.
  intros Hs Hl Hi Hes. unfold PrivateEndpoints.write_endpoints. run_load.
  rewrite Hi. cbn [deref_opt]. rewrite (bind_Ret _ _ _ _ _ (mret_run sn s)).
  erewrite store_run by done. apply Inv_insert; [done|].
  apply (closed_endpoints (EditClosed := Φ_closed l)); [by apply Hs|done|done].
Qed.

Lemma keeps_RemovePrivateEndpointByName n :
  keeps Inv (PrivateEndpoints.RemovePrivateEndpointByName sc n) any.
Proof.
  intros s Hs. split; [|done]. unfold PrivateEndpoints.RemovePrivateEndpointByName.
  destruct (read_endpoints_cases s) as [(c & sn & Hl & Hi & Hr)|(p & Hr)];
    [rewrite (bind_Ret _ _ _ _ _ Hr)|by rewrite (bind_Panic _ _ _ _ _ Hr)].
  eapply write_edited; eauto.
Qed.

Lemma keeps_AddPrivateEndpointSpec spec :
  keeps Inv (PrivateEndpoints.AddPrivateEndpointSpec sc spec) any.
Proof.
  intros s Hs. split; [|done].
  unfold PrivateEndpoints.AddPrivateEndpointSpec, PrivateEndpoints.ContainsPrivateEndpointSpec.
  destruct (read_endpoints_cases s) as [(c & sn & Hl & Hi & Hr)|(p & Hr)].
  - erewrite bind_Ret; [|by rewrite (bind_Ret _ _ _ _ _ Hr)].
    destruct (sliceContains _ _ _) eqn:Ec; [done|]. cbn [negb].
    rewrite (bind_Ret _ _ _ _ _ Hr). eapply write_edited; [done|done|done|].
    left. exists spec. by rewrite add_spec_code, Ec.
  - by erewrite bind_Panic; [|by rewrite (bind_Panic _ _ _ _ _ Hr)].
Qed.
End endpoints.

Lemma keeps_GetPrivateEndpointIPAddress sc n :
  safe_scope sc → keeps Inv (PrivateEndpoints.GetPrivateEndpointIPAddress sc n) any.
Proof.
  intros [_ Hp]. eapply keeps_bind; [apply keeps_getter|]. intros rg _.
  eapply keeps_bind; [apply keeps_call, Hp|]. intros r _.
  cbv zeta. case_match; [by apply keeps_ret|]. destruct r; by apply keeps_ret.
Qed.

#[export] Instance scope_keeps (sc : PrivateEndpoints.scope W) :
  safe_scope sc → ScopeKeeps Inv (PrivateEndpoints.as_Scope sc).
Proof.
  intros Hs. split; simpl; intros; try apply keeps_getter.
  - eapply keeps_bind; [apply keeps_read_endpoints|]. intros es _. by apply keeps_ret.
  - by apply keeps_GetPrivateEndpointIPAddress.
  - apply keeps_AddPrivateEndpointSpec.
  - apply keeps_RemovePrivateEndpointByName.
  - by apply keeps_base_Close, Hs.
Qed.

Lemma keeps_PL_NewScope l :
  keeps Inv (PrivateLinks.NewScope (Some l) (Some client))
    (λ r, ∀ ls, r = Ok ls → safe_base (PrivateLinks.BaseScope_ ls)).
Proof.
  eapply keeps_check; [apply keeps_NewBaseScope|intros e; by apply keeps_ret|].
  intros b Hb. apply keeps_load_bind. intros c _.
  eapply (keeps_bind _ _ _ any); [by apply keeps_deref|]. intros lb _.
  apply keeps_ret. by intros ls [= <-].
Qed.

Lemma keeps_PE_NewScope l p :
  (∀ q, p = Some q → safe_client q) →
  keeps Inv (PrivateEndpoints.NewScope (Some l) (Some client) p)
    (λ r, ∀ sc, r = Ok sc → safe_scope sc).
Proof.
  intros Hp. destruct p as [q|]; [|by apply keeps_ret].
  apply keeps_load_bind. intros c _. destruct (endpoints_subnet _); [|by apply keeps_ret].
  eapply keeps_check; [apply keeps_NewBaseScope|intros e; by apply keeps_ret|].
  intros b Hb. apply keeps_ret. intros sc [= <-]. split; [done|by apply Hp].
Qed.

(** *** The reconciler *)

Context (now : IO W Time) (keeps_now : world_keeps now any).

Lemma keeps_setFinalizer wl : keeps Inv (setFinalizer wl) any.
Proof.
  apply keeps_load_bind. intros c Hc. destruct (negb _); [|by apply keeps_ret].
  by apply keeps_store, (closed_AddFinalizer (EditClosed := Φ_closed _)).
Qed.

Lemma keeps_removeFinalizer wl : keeps Inv (removeFinalizer wl) any.
Proof.
  apply keeps_load_bind. intros c Hc. destruct (ContainsFinalizer _ _); [|by apply keeps_ret].
  by apply keeps_store, (closed_RemoveFinalizer (EditClosed := Φ_closed _)).
Qed.

Lemma keeps_lb_type {T} (I : T → Prop) c : keeps I (lb_type c) any.
Proof.
  eapply (keeps_bind _ _ _ any); [by apply keeps_deref|]. intros lb _. by apply keeps_ret.
Qed.

Lemma keeps_validateLBType {T} (I : T → Prop) c : keeps I (validateLBType c) any.
Proof.
  eapply keeps_bind; [apply keeps_lb_type|]. intros ty _.
  destruct (_ && _); by apply keeps_ret.
Qed.

Lemma keeps_reconcile_clusters wl ml mcs wcs :
  ScopeKeeps Inv (privateEndpointsScope mcs) → LinksKeeps Inv (privateLinksScope mcs) →
  ScopeKeeps Inv (privateEndpointsScope wcs) → LinksKeeps Inv (privateLinksScope wcs) →
  keeps Inv (reconcile_clusters now wl ml mcs wcs) any.
Proof.
  intros Hm1 Hm2 Hw1 Hw2. unfold reconcile_clusters.
  assert (Hn : keeps Inv (call now) any) by by apply keeps_call.
  pose proof (λ l, keeps_weaken _ _ _ any (keeps_load l) (λ _ _, I)) as Hl.
  pose proof (@keeps_lb_type (St W) Inv) as Hty.
  pose proof (ReconcileMcToWcApi_keeps Inv mcs) as Ha.
  pose proof (λ specs, ReconcileWcToMcIngress_keeps Inv conditions_IsTrue (call now) wcs Hn specs) as Hi.
  pose proof (DeleteMcToWcApi_keeps Inv mcs) as Hd.
  pose proof keeps_setFinalizer as Hs. pose proof keeps_removeFinalizer as Hr.
  keeps_auto.
Qed.

Context (r : AzureClusterReconciler W) (req : NamespacedName).
Context (same_client : acr_Client r = client).
(** The workload cluster is cell 0, the management cluster cell 1. *)
Context (read_wc : world_keeps (Get_AzureCluster client req) (λ res, ∀ c, res = Ok c → Φ 0 c)).
Context (read_mc : world_keeps (Get_AzureCluster client (managementClusterName r))
  (λ res, ∀ c, res = Ok c → Φ 1 c)).
Context (created : ∀ c, keeps Θ (privateEndpointsClientCreator r client c)
  (λ res, ∀ p, res = Ok (Some p) → safe_client p)).

Lemma keeps_new_client c :
  keeps Inv (on_world (privateEndpointsClientCreator r client c))
    (λ res, ∀ p, res = Ok p → ∀ q, p = Some q → safe_client q).
Proof.
  eapply keeps_weaken; [apply keeps_on_world, created|].
  intros res Hp a -> q ->. by apply Hp.
Qed.

(** Every path of [Reconcile], from fresh memory, keeps the invariant. *)
Lemma Reconcile_keeps w : Θ w → Inv (Reconcile now r req (mkSt [] w)).2.
Proof.
  intros Hw. unfold Reconcile. rewrite same_client. destruct (read_wc w Hw) as [Hw1 Hwc].
  destruct (Get_AzureCluster client req w) as [res w1] eqn:E1. simpl in Hw1, Hwc.
  rewrite (bind_Ret _ _ _ _ _ (call_run _ (mkSt [] w) _ _ E1)).
  assert (Hnil : Inv (mkSt [] w1)) by (split; [by intros l c|done]).
  destruct res as [wc|e]; [|by destruct (IsNotFound e)]. specialize (Hwc wc eq_refl).
  rewrite (bind_Ret _ _ _ _ _ (alloc_run wc _)). simpl.
  assert (Hone : ∀ v, Θ v → Inv (mkSt [wc] v)) by (split; [intros [|[]] c [= <-]; done|done]).
  destruct (_ && _); [by apply Hone|]. destruct (read_mc w1 Hw1) as [Hw2 Hmc].
  destruct (Get_AzureCluster client (managementClusterName r) w1) as [res w2] eqn:E2.
  simpl in Hw2, Hmc. pose proof (call_run _ (mkSt [wc] w1) _ _ E2) as Hcall.
  destruct res as [mc|e];
    [rewrite (check_Ok _ _ _ _ _ _ Hcall)|rewrite (check_Err _ _ _ _ _ _ Hcall); by apply Hone].
  specialize (Hmc mc eq_refl). rewrite (bind_Ret _ _ _ _ _ (alloc_run mc _)). simpl.
  assert (Htwo : Inv (mkSt [wc; mc] w2)) by (split; [intros [|[|[]]] c [= <-]; done|done]).
  clear Hone Hnil Hcall. revert Htwo. generalize (mkSt [wc; mc] w2) as s. clear w2 E2 Hw2.
  intros s Hs. match goal with |- Inv (?m s).2 => enough (keeps Inv m any) as Hk by by apply Hk end.
  clear Hs s. clear dependent w w1.
  apply keeps_check_err; [apply keeps_validateLBType|intros e; by apply keeps_ret|].
  apply keeps_check_err; [apply keeps_validateLBType|intros e; by apply keeps_ret|].
  eapply keeps_check; [apply keeps_PL_NewScope|intros e; by apply keeps_ret|]. intros ls Hls.
  apply keeps_defer_close; [by apply keeps_base_Close|].
  apply keeps_load_bind. intros c Hc.
  eapply keeps_check; [by apply keeps_new_client|intros e; by apply keeps_ret|].
  intros mp Hmp. apply keeps_load_bind. intros c' Hc'.
  eapply keeps_check; [by apply keeps_new_client|intros e; by apply keeps_ret|]. intros wp Hwp.
  eapply keeps_check; [by apply keeps_PE_NewScope|intros e; by apply keeps_ret|]. intros mcs Hm.
  apply keeps_defer_close; [by apply keeps_base_Close, Hm|].
  eapply keeps_check; [by apply keeps_PE_NewScope|intros e; by apply keeps_ret|]. intros wcs Hw.
  apply keeps_reconcile_clusters; simpl; by (apply scope_keeps || apply links_keeps).
Qed.
End memory.
