(* ===== verification/Safety.v ===== *)
(** * What no reconciliation ever does: safety of the operator on stored clusters.

The invariants of [Invariants] at two properties of AzureCluster objects: unique
endpoint names, and everything that the operator must not edit.  They are lifted
from one call of [Reconcile] to any sequence of reconciliations and edits by other
clients of the API server. *)
From S2P Require Import Prelude.
From S2P Require Import GoStrings.
From S2P Require Import GoNet.
From S2P Require Import Api.
From S2P Require Import Errors.
From S2P Require Import BaseScope.
From S2P Require Import PrivateLinks.
From S2P Require Import PrivateEndpoints.
From S2P Require Import Service.
From S2P Require Import AzureClient.
From S2P Require Import AzureClusterController.
From S2P Require Import Invariants.

(** ** Two properties of clusters *)

(** The names of the endpoints of each subnet are unique. *)
Definition wf_cluster (c : AzureCluster) : Prop :=
  Forall (λ sn, NoDup (names (PrivateEndpoints sn))) (ac_Subnets c).

(** The specification without the endpoints of its subnets. *)
Definition core (sp : AzureClusterSpec) : AzureClusterSpec :=
  {| SubscriptionID := SubscriptionID sp; Location := Location sp;
     ResourceGroup := ResourceGroup sp; IdentityRef := IdentityRef sp;
     NetworkSpec_ := {| APIServerLB := APIServerLB (NetworkSpec_ sp);
                        Subnets := set_PrivateEndpoints [] <$> Subnets (NetworkSpec_ sp) |} |}.

Lemma core_set_endpoints i sn es c :
  ac_Subnets c !! i = Some sn →
  core (ac_Spec (set_Subnets (<[i := set_PrivateEndpoints es sn]> (ac_Subnets c)) c)) =
  core (ac_Spec c).
Proof.
  intros Hi. unfold core. simpl. do 2 f_equal. rewrite list_fmap_insert.
  rewrite list_insert_id; [done|]. unfold ac_Subnets in *. by rewrite list_lookup_fmap, Hi.
Qed.

Lemma wf_set_endpoints i sn es c :
  wf_cluster c → NoDup (names es) →
  wf_cluster (set_Subnets (<[i := set_PrivateEndpoints es sn]> (ac_Subnets c)) c).
Proof. intros Hc Hes. by apply Forall_insert. Qed.

Section closed.
Context {W : Type} `{!ControllerUtil W} `{!ControllerUtilLaws W}.

#[export] Instance wf_closed : EditClosed W wf_cluster.
Proof.
  split; try done. intros c i sn es Hc Hi Hes. apply wf_set_endpoints; [done|].
  assert (Hsn : NoDup (names (PrivateEndpoints sn))) by (by eapply Forall_lookup_1 in Hc).
  destruct Hes as [[spec ->]|[n ->]]; auto with go.
Qed.

Lemma AddFinalizer_name m f :
  Namespace (AddFinalizer m f).1 = Namespace m ∧ Name (AddFinalizer m f).1 = Name m.
Proof. rewrite AddFinalizer_spec. by destruct (bool_decide _). Qed.

Lemma RemoveFinalizer_name m f :
  Namespace (RemoveFinalizer m f).1 = Namespace m ∧ Name (RemoveFinalizer m f).1 = Name m.
Proof. rewrite RemoveFinalizer_spec. by destruct (bool_decide _). Qed.

(** A property of the name and of the specification apart from endpoints. *)
Lemma core_closed (P : NamespacedName → AzureClusterSpec → Prop) :
  EditClosed W (λ c, P (cluster_name c) (core (ac_Spec c))).
Proof.
  split; try done.
  - intros c i sn es Hc Hi _. by rewrite core_set_endpoints.
  - intros c f. unfold cluster_name, ac_Namespace, ac_Name. simpl.
    by destruct (AddFinalizer_name (ac_meta c) f) as [-> ->].
  - intros c f. unfold cluster_name, ac_Namespace, ac_Name. simpl.
    by destruct (RemoveFinalizer_name (ac_meta c) f) as [-> ->].
Qed.
Lemma closed_and (P Q : AzureCluster → Prop) :
  EditClosed W P → EditClosed W Q → EditClosed W (λ c, P c ∧ Q c).
Proof.
  intros [p1 p2 p3 p4 p5] [q1 q2 q3 q4 q5].
  split; intros; match goal with Hc : P _ ∧ Q _ |- _ => destruct Hc end; split; eauto.
Qed.
End closed.

(** ** The reconciler on stored clusters *)

Section safety.
Context {W : Type} `{Microerror} `{FmtVerbs} `{ApiMachinery} `{!ClusterApiUtil W}
  `{!ControllerUtil W} `{!ControllerUtilLaws W}.
Context (now : IO W Time) (r : AzureClusterReconciler W) `{!Storage W (acr_Client r)}.

(** The clock and Azure leave AzureCluster objects alone. *)
Class QuietLibraries : Prop := {
  quiet_now : ∀ w, same_clusters w (now w).2;
  quiet_creator : ∀ c w,
    same_clusters w (privateEndpointsClientCreator r (acr_Client r) c w).2;
  quiet_client : ∀ c w p rg n o v,
    (privateEndpointsClientCreator r (acr_Client r) c w).1 = Ret (Ok (Some p)) →
    same_clusters v (pec_Get p rg n o v).2
}.
Context `{!QuietLibraries}.

(** The world after a reconciliation of [req]. *)
Definition after (req : NamespacedName) (w : W) : W :=
  world (Reconcile now r req (mkSt [] w)).2.

Section invariant.
Context (req : NamespacedName).

(** The object of each memory cell. *)
Definition cell (l : loc) : NamespacedName :=
  match l with 0 => req | S _ => managementClusterName r end.

(** A property [P k] of the stored cluster [k] that depends on its specification only. *)
Context (P : NamespacedName → AzureCluster → Prop)
  (P_closed : ∀ k, EditClosed W (P k))
  (P_spec : ∀ k c c', ac_Spec c' = ac_Spec c → P k c → P k c').

Definition all_stored (w : W) : Prop := ∀ k c, stored w k = Some c → P k c.

Lemma all_stored_same w w' : same_clusters w w' → all_stored w → all_stored w'.
Proof. intros Hw Hp k c Hk. apply Hp. by rewrite <- Hw. Qed.

Lemma after_keeps w :
  all_stored w →
  all_stored (after req w) ∧
  ∀ k, k ≠ req → k ≠ managementClusterName r → stored (after req w) k = stored w k.
Proof.
  intros Hp. set (Θ := λ v, all_stored v ∧
    ∀ k, k ≠ req → k ≠ managementClusterName r → stored v k = stored w k).
  assert (HΘ : ∀ v v', same_clusters v v' → Θ v → Θ v').
  { intros v v' Hs [Ha Ho]. split; [by eapply all_stored_same|].
    intros k H1' H2'. rewrite Hs. by apply Ho. }
  assert (Hread : ∀ l k, k = cell l → world_keeps Θ (Get_AzureCluster (acr_Client r) k)
    (λ res, ∀ c, res = Ok c → cluster_name c = cell l ∧ P (cell l) c)).
  { intros l k -> v Hv. split.
    - eapply HΘ; [|exact Hv]. intros k'. apply Get_stored.
    - intros c Hc%Get_Ok. split; [by eapply stored_name|by apply Hv]. }
  destruct (Reconcile_keeps
    (λ l c, cluster_name c = cell l ∧ P (cell l) c) (λ l h, helper_key h = cell l) Θ) with
    (client := acr_Client r) (now := now) (r := r) (req := req) (w := w) as [_ Hw];
    [| | | |done|by apply (Hread 0)|by apply (Hread 1)| | |exact Hw].
  - intros l. apply closed_and; [|done]. apply (core_closed (λ k _, k = cell l)).
  - intros l c [Hn _] v Hv. split.
    + eapply HΘ; [|exact Hv]. intros k. apply NewHelper_stored.
    + intros h Hh%NewHelper_key. by rewrite Hh.
  - intros l h c Hk [Hn Hc] v [Ha Ho]. split; [|done]. split.
    + intros k d Hd. destruct (decide (k = helper_key h)) as [->|Hne].
      * apply Patch_key in Hd as [Hd|Hd]; [by apply Ha|]. rewrite Hk. by eapply P_spec.
      * rewrite Patch_others in Hd by done. by apply Ha.
    + intros k H1' H2'. rewrite Patch_others; [by apply Ho|]. rewrite Hk. by destruct l.
  - intros v Hv. split; [|done]. eapply HΘ; [apply quiet_now|done].
  - intros c v Hv. split; [eapply HΘ; [apply quiet_creator|done]|].
    intros res Hres p -> rg n o u Hu. split; [|done].
    eapply HΘ; [by eapply quiet_client|done].
  - by split.
Qed.
End invariant.

(** Uniqueness of the endpoint names of every stored cluster is an invariant of the
reconciler, whatever request it gets and however the reconciliation ends. *)
Lemma after_wf req w :
  all_stored (λ _, wf_cluster) w → all_stored (λ _, wf_cluster) (after req w).
Proof.
  intros Hw. apply after_keeps; [by intros; apply wf_closed| |done].
  intros k c c' Hs. unfold wf_cluster, ac_Subnets. by rewrite Hs.
Qed.

Lemma after_core req w k c' :
  stored (after req w) k = Some c' → ∃ c, stored w k = Some c ∧ core (ac_Spec c') = core (ac_Spec c).
Proof.
  revert k c'. apply (after_keeps req
    (λ k c', ∃ c, stored w k = Some c ∧ core (ac_Spec c') = core (ac_Spec c))).
  - intros k. apply (core_closed (λ _ sp, ∃ c, stored w k = Some c ∧ sp = core (ac_Spec c))).
  - intros k c d Hs. by rewrite Hs.
  - intros k c Hk. by exists c.
Qed.

(** C7: however a reconciliation ends, by success, error or panic, it has changed no
AzureCluster but the requested one and the management cluster; of these it keeps
everything in the specification except the private endpoints of the subnets; and it
creates no cluster. *)
Theorem Reconcile_frame req w k :
  (k ≠ req → k ≠ managementClusterName r → stored (after req w) k = stored w k) ∧
  ∀ c', stored (after req w) k = Some c' →
    ∃ c, stored w k = Some c ∧ core (ac_Spec c') = core (ac_Spec c).
Proof.
  split; [|by apply after_core].
  apply (after_keeps req (λ _ _, True)); [by intros; split|done|done].
Qed.

(** ** Sequences of steps *)

(** Reconciliations in any order, and edits of other clients of the API server that
respect the uniqueness of endpoint names. *)
Inductive step : W → W → Prop :=
  | step_reconcile req w : step w (after req w)
  | step_environment w w' :
      (∀ k c, stored w' k = Some c → stored w k = Some c ∨ wf_cluster c) → step w w'.

Definition reachable : W → W → Prop := rtc step.

(** C15: the names of the private endpoints of every subnet of every stored cluster stay
unique in all reachable states: through reconciliations of any clusters in any
order, failed and interrupted ones included, and any edits of others that respect
it.  This is what the theorems on the endpoints of a cluster assume. *)
Theorem fleet_unique_names w w' :
  all_stored (λ _, wf_cluster) w → reachable w w' → all_stored (λ _, wf_cluster) w'.
Proof.
  intros Hw Hr. induction Hr as [|w1 w2 w3 Hstep _ IH]; [done|]. apply IH.
  destruct Hstep as [req w1|w1 w2 He]; [by apply after_wf|].
  intros k c Hk. destruct (He k c Hk); [by eapply Hw|done].
Qed.

(** Reconciliations alone, in any order. *)
Definition operator_step (w w' : W) : Prop := ∃ req, w' = after req w.

(** No sequence of reconciliations creates an AzureCluster or edits more of its
specification than the private endpoints. *)
Theorem operator_keeps_core w w' k c' :
  rtc operator_step w w' → stored w' k = Some c' →
  ∃ c, stored w k = Some c ∧ core (ac_Spec c') = core (ac_Spec c).
Proof.
  intros Hr. revert c'. induction Hr as [|w1 w2 w3 [req ->] _ IH]; intros c' Hk; [by exists c'|].
  destruct (IH c' Hk) as (c & Hc & E). destruct (after_core req w1 k c Hc) as (d & Hd & E').
  exists d. split; [done|]. by rewrite E.
Qed.
End safety.
