(* ===== verification/ProviderConfigSafety.v ===== *)
(** * No provider config without a guard.

A provider config outlives its Cluster only if nobody is left who would delete it:
when no stored Cluster of its name carries the finalizer.  Here this is shown never
to happen, through any sequence of reconciliations, with any errors in them, and of
changes by others, which may also come between two calls of one reconciliation. *)
From S2P Require Import Prelude.
From S2P Require Import GoStrings.
From S2P Require Import Api.
From S2P Require Import Manager.
From S2P Require Import ProviderConfig.
From S2P Require Import Invariants.

Import ProviderConfig.

(** The name under which a Cluster is stored. *)
Definition cluster_key (c : Cluster) : NamespacedName :=
  {| nn_Namespace := Namespace (cl_meta c); nn_Name := Name (cl_meta c) |}.

Definition has_finalizer (c : Cluster) : Prop :=
  ProviderConfigControllerFinalizer ∈ Finalizers (cl_meta c).

(** ** The API server's store of Clusters and provider configs

A call may be accompanied by changes of others.  These do not take the finalizer away,
so a Cluster that has it stays, and do not create provider configs.  A patch of the
finalizers replaces their list when it succeeds, and a failed one may have been applied
or not; a deletion that succeeds, or finds no object or no such kind, leaves no
provider config that is not on its way out. *)
Class ConfigStore (W : Type) `{ApiMachinery} `{ControllerUtil W} (client : Client W) := {
  stored_cluster : W → NamespacedName → option Cluster;
  stored_config : W → string → bool;
  held (w : W) (k : NamespacedName) : Prop :=
    ∃ c, stored_cluster w k = Some c ∧ has_finalizer c;
  calm (w w' : W) : Prop :=
    (∀ k, held w k → held w' k) ∧ ∀ n, stored_config w' n = true → stored_config w n = true;
  Get_Cluster_Ok : ∀ k w c, (Get_Cluster client k w).1 = Ok c →
    cluster_key c = k ∧ (has_finalizer c → held w k);
  Get_Cluster_calm : ∀ k w, calm w (Get_Cluster client k w).2;
  Get_AzureCluster_calm : ∀ k w, calm w (Get_AzureCluster client k w).2;
  Get_ASO_calm : ∀ k w, calm w (Get_AzureASOManagedControlPlane client k w).2;
  Get_Managed_calm : ∀ k w, calm w (Get_AzureManagedControlPlane client k w).2;
  Get_Identity_calm : ∀ k w, calm w (Get_AzureClusterIdentity client k w).2;
  Get_Secret_calm : ∀ k w, calm w (Get_Secret client k w).2;
  Patch_Cluster_configs : ∀ c o w n, stored_config (Patch_Cluster client c o w).2 n = true →
    stored_config w n = true;
  Patch_Cluster_held : ∀ c o w k, k ≠ cluster_key c ∨ has_finalizer c →
    held w k → held (Patch_Cluster client c o w).2 k;
  Patch_Cluster_sets : ∀ c o w, has_finalizer c → ¬ has_finalizer o →
    (Patch_Cluster client c o w).1 = None → held (Patch_Cluster client c o w).2 (cluster_key c);
  CreateOrPatch_held : ∀ u f w k, held w k → held (CreateOrPatch client u f w).2 k;
  CreateOrPatch_configs : ∀ u f w n, stored_config (CreateOrPatch client u f w).2 n = true →
    stored_config w n = true ∨ n = u_Name u;
  Delete_calm : ∀ u w, calm w (Delete_Unstructured client u w).2;
  Delete_gone : ∀ n w,
    match (Delete_Unstructured client (NewProviderConfig n) w).1 with
    | Some e => IsNotFound e = true ∨ IsNoMatchError e = true
    | None => True
    end → stored_config (Delete_Unstructured client (NewProviderConfig n) w).2 n = false
}.

Section safety.
Context {W : Type} `{ApiMachinery} `{!ControllerUtil W} `{!ControllerUtilLaws W}
  `{ProviderConfigLibs}.
Context (r : Reconciler W) `{!ConfigStore W (client r)}.

(** Every provider config has a Cluster of its name that carries the finalizer. *)
Definition guarded (w : W) : Prop :=
  ∀ n, stored_config w n = true → ∃ k, nn_Name k = n ∧ held w k.

Lemma guarded_mono w w' :
  (∀ n, stored_config w' n = true → stored_config w n = true) →
  (∀ k, stored_config w' (nn_Name k) = true → held w k → held w' k) → guarded w → guarded w'.
Proof.
  intros Hc Hh Hg n Hn. destruct (Hg n (Hc n Hn)) as (k & <- & Hk). exists k. auto.
Qed.

Lemma guarded_calm w w' : calm w w' → guarded w → guarded w'.
Proof. intros [Hh Hc]. apply guarded_mono; auto. Qed.

Section reconciliation.
Context (cluster : Cluster).

(** What holds while a Cluster that was read is worked on. *)
Definition in_hand (w : W) : Prop :=
  guarded w ∧ (has_finalizer cluster → held w (cluster_key cluster)).

Lemma in_hand_calm w w' : calm w w' → in_hand w → in_hand w'.
Proof.
  intros Hw [Hg Hf]. split; [by eapply guarded_calm|]. intros Hc. by apply (proj1 Hw), Hf.
Qed.

Lemma keeps_read {A} (m : IO W A) : (∀ w, calm w (m w).2) → keeps in_hand (io m) any.
Proof.
  intros Hm w Hw. unfold io. specialize (Hm w). destruct (m w) as [a w'].
  split; [by eapply in_hand_calm|done].
Qed.

Ltac read_config := apply keeps_read; intros ?;
  first [apply Get_AzureCluster_calm | apply Get_ASO_calm | apply Get_Managed_calm
        | apply Get_Identity_calm | apply Get_Secret_calm].

Lemma keeps_identity : keeps in_hand (identity_of_cluster r cluster) any.
Proof.
  unfold identity_of_cluster, check, index. repeat first [read_config | keeps_step].
Qed.

Lemma keeps_info sub ref : keeps in_hand (info_of_identity r cluster sub ref) any.
Proof. unfold info_of_identity, check. repeat first [read_config | keeps_step]. Qed.

(** Writing the provider config of a Cluster that is held. *)
Lemma guarded_write info w :
  guarded w → held w (cluster_key cluster) →
  guarded (CreateOrPatch (client r) (NewProviderConfig (Name (cl_meta cluster)))
    (u_set_spec (provider_spec info)) w).2.
Proof.
  intros Hg Hh n [Hn|Hn]%CreateOrPatch_configs.
  - destruct (Hg n Hn) as (k & Hk & Hk'). exists k. split; [done|]. by apply CreateOrPatch_held.
  - exists (cluster_key cluster). split; [by rewrite Hn|]. by apply CreateOrPatch_held.
Qed.

Lemma finalized_key : cluster_key (finalized cluster) = cluster_key cluster.
Proof. done. Qed.

Lemma finalized_has : has_finalizer (finalized cluster).
Proof. apply elem_of_app. right. by left. Qed.

Lemma apply_config_guarded info w : in_hand w → guarded (apply_config r cluster info w).2.
Proof.
  intros [Hg Hh]. unfold apply_config. rewrite AddFinalizer_spec.
  destruct (bool_decide _) eqn:Hf.
  - apply bool_decide_eq_true in Hf. rewrite (check_err_None _ _ _ _ _ (mret_run _ _)).
    pose proof (guarded_write info w Hg (Hh Hf)) as Hw. simpl.
    destruct (CreateOrPatch _ _ _ _) as [err w'] eqn:E.
    by rewrite (bind_Ret _ _ _ _ _ (io_run _ _ _ _ E)).
  - apply bool_decide_eq_false in Hf. fold (finalized cluster).
    pose proof (Patch_Cluster_sets (finalized cluster) cluster w finalized_has Hf) as Hset.
    pose proof (λ n, Patch_Cluster_configs (finalized cluster) cluster w n) as Hc.
    pose proof (λ k, Patch_Cluster_held (finalized cluster) cluster w k (or_intror finalized_has))
      as Hk.
    destruct (Patch_Cluster _ _ _ _) as [[e|] w'] eqn:Ep; simpl in *.
    + rewrite (check_err_Some _ _ _ _ _ _ (io_run _ _ _ _ Ep)). eapply guarded_mono; eauto.
    + rewrite (check_err_None _ _ _ _ _ (io_run _ _ _ _ Ep)). simpl.
      assert (Hg' : guarded w') by (eapply guarded_mono; eauto).
      pose proof (guarded_write info w' Hg' (Hset eq_refl)) as Hw.
      destruct (CreateOrPatch _ _ _ _) as [err w''] eqn:E.
      by rewrite (bind_Ret _ _ _ _ _ (io_run _ _ _ _ E)).
Qed.

Lemma reconcileNormal_guarded w : in_hand w → guarded (reconcileNormal r cluster w).2.
Proof.
  intros Hw. unfold reconcileNormal, check. destruct (keeps_identity w Hw) as [Hw1 _].
  unfold mbind at 1, M_bind at 1.
  destruct (identity_of_cluster r cluster w) as [[[[sub [ref|]]|ret]|p] w1]; simpl in Hw1 |- *;
    [|by apply Hw1..].
  destruct (keeps_info sub ref w1 Hw1) as [Hw2 _]. unfold mbind, M_bind.
  destruct (info_of_identity r cluster sub ref w1) as [[[info|ret]|p] w2]; simpl in Hw2 |- *;
    [by apply apply_config_guarded|by apply Hw2..].
Qed.

(** The finalizer goes only after the provider config. *)
Lemma guarded_release w w' :
  stored_config w (Name (cl_meta cluster)) = false → guarded w →
  (∀ n, stored_config w' n = true → stored_config w n = true) →
  (∀ k, k ≠ cluster_key cluster → held w k → held w' k) → guarded w'.
Proof.
  intros Hn Hg Hc Hh. eapply guarded_mono; [done| |done].
  intros k Hk. apply Hh. intros ->. apply Hc in Hk. simpl in Hk. congruence.
Qed.

Lemma reconcileDelete_guarded w : in_hand w → guarded (reconcileDelete r cluster w).2.
Proof.
  intros [Hg _]. unfold reconcileDelete.
  pose proof (guarded_calm _ _ (Delete_calm (NewProviderConfig (Name (cl_meta cluster))) w) Hg) as Hg'.
  pose proof (Delete_gone (Name (cl_meta cluster)) w) as Hgone.
  destruct (Delete_Unstructured _ _ _) as [err w1] eqn:Ed. simpl in Hg', Hgone.
  rewrite (bind_Ret _ _ _ _ _ (io_run _ _ _ _ Ed)).
  destruct (match err with Some _ => _ | None => _ end) eqn:Eerr; [done|].
  assert (Hno : stored_config w1 (Name (cl_meta cluster)) = false).
  { apply Hgone. destruct err as [e|]; [|done].
    destruct (IsNotFound e), (IsNoMatchError e); auto. }
  rewrite RemoveFinalizer_spec. destruct (bool_decide _); [|done].
  match goal with |- context [Patch_Cluster _ ?c _] => set (released := c) end.
  pose proof (λ n, Patch_Cluster_configs released cluster w1 n) as Hc.
  pose proof (λ k Hk, Patch_Cluster_held released cluster w1 k (or_introl Hk)) as Hh.
  destruct (Patch_Cluster (client r) released cluster w1) as [errp w2] eqn:Ep.
  pose proof (bind_Ret (io (Patch_Cluster (client r) released cluster))
    (λ err, mret (no_result, err)) _ _ _ (io_run _ _ _ _ Ep)) as Hrun.
  rewrite Hrun. by eapply guarded_release.
Qed.
End reconciliation.

Definition config_after (req : NamespacedName) (w : W) : W := (ProviderConfig.Reconcile r req w).2.

Lemma config_after_guarded req w : guarded w → guarded (config_after req w).
Proof.
  intros Hg. unfold config_after, Reconcile.
  pose proof (Get_Cluster_calm req w) as Hc. pose proof (Get_Cluster_Ok req w) as Hk.
  destruct (Get_Cluster (client r) req w) as [[cluster|e] w1] eqn:E; simpl in *.
  - rewrite (check_Ok _ _ _ _ _ _ (io_run _ _ _ _ E)).
    destruct (Hk cluster eq_refl) as [<- Hh].
    assert (Hw : in_hand cluster w1) by (split; [by eapply guarded_calm|intros Hf; by apply Hc, Hh]).
    destruct (negb _); [by apply reconcileDelete_guarded|by apply reconcileNormal_guarded].
  - rewrite (check_Err _ _ _ _ _ _ (io_run _ _ _ _ E)). destruct (IsNotFound e); by eapply guarded_calm.
Qed.

(** Reconciliations in any order, and changes of others. *)
Inductive config_step : W → W → Prop :=
  | config_reconcile req w : config_step w (config_after req w)
  | config_environment w w' : calm w w' → config_step w w'.

(** C8: no provider config is orphaned.  Through any sequence of reconciliations, failed
and panicking ones included, every provider config has a stored Cluster of its name
that carries the finalizer, so that it can not go away before the reconciler has
deleted the provider config. *)
Theorem configs_guarded w w' : guarded w → rtc config_step w w' → guarded w'.
Proof.
  intros Hg Hr. induction Hr as [|w1 w2 w3 [req w1'|w1' w2' Hc] _ IH]; [done|..]; apply IH.
  - by apply config_after_guarded.
  - by eapply guarded_calm.
Qed.

(** ** Namesakes *)

(** C39: provider configs have no namespace and are named after the Cluster alone.  When a
Cluster is deleted, the provider config of a Cluster of the same name in another
namespace is deleted with it, although that Cluster lives and keeps its finalizer. *)
Theorem namesakes_share_config req k w cluster w1 :
  Get_Cluster (client r) req w = (Ok cluster, w1) →
  Time_IsZero (DeletionTimestamp (cl_meta cluster)) = false →
  (Delete_Unstructured (client r) (NewProviderConfig (nn_Name req)) w1).1 = None →
  k ≠ req → nn_Name k = nn_Name req → held w k →
  held (config_after req w) k ∧ stored_config (config_after req w) (nn_Name k) = false.
Proof.
  intros Hget Hdel Hd Hne Hn Hk. unfold config_after.
  pose proof (Get_Cluster_calm req w) as [Hc _]. pose proof (Get_Cluster_Ok req w) as Hkey.
  rewrite Hget in Hc, Hkey. destruct (Hkey cluster eq_refl) as [Hreq _]. clear Hkey.
  rewrite (Reconcile_run r req w w1 cluster Hget), Hdel. simpl. unfold reconcileDelete.
  assert (Hname : Name (cl_meta cluster) = nn_Name req) by (by rewrite <- Hreq).
  rewrite Hname. pose proof (Delete_gone (nn_Name req) w1) as Hgone.
  pose proof (Delete_calm (NewProviderConfig (nn_Name req)) w1) as [Hdh _].
  destruct (Delete_Unstructured _ _ _) as [err w2] eqn:Ed. simpl in Hd, Hgone, Hdh. subst err.
  rewrite (bind_Ret _ _ _ _ _ (io_run _ _ _ _ Ed)), RemoveFinalizer_spec, Hn.
  specialize (Hdh k (Hc k Hk)). specialize (Hgone I).
  destruct (bool_decide _); [|done].
  match goal with |- context [Patch_Cluster _ ?c _] => set (released := c) end.
  pose proof (λ n, Patch_Cluster_configs released cluster w2 n) as Hpc.
  pose proof (λ k Hk, Patch_Cluster_held released cluster w2 k (or_introl Hk)) as Hph.
  destruct (Patch_Cluster (client r) released cluster w2) as [errp w3] eqn:Ep.
  pose proof (bind_Ret (io (Patch_Cluster (client r) released cluster))
    (λ err, mret (no_result, err)) _ _ _ (io_run _ _ _ _ Ep)) as Hrun.
  rewrite Hrun. simpl in *. split.
  - apply Hph; [|done]. change (k ≠ cluster_key cluster). by rewrite Hreq.
  - destruct (stored_config w3 (nn_Name req)) eqn:E; [|done]. apply Hpc in E. congruence.
Qed.
End safety.
