(* ===== verification/ControlPlaneSafety.v ===== *)
(** * What the KubeadmControlPlane reconciler may change.

A reconciliation edits at most the control plane it is about, of that only the pause
annotation, and it takes the annotation away only when the gates are open on the
stored AzureCluster. *)
From S2P Require Import Prelude.
From S2P Require Import GoStrings.
From S2P Require Import Api.
From S2P Require Import Manager.
From S2P Require Import Util.
From S2P Require Import AzureClusterController.
From S2P Require Import KubeadmControlPlane.

Import KubeadmControlPlane.

Definition kcp_key (c : KubeadmControlPlane) : NamespacedName :=
  {| nn_Namespace := Namespace (kcp_meta c); nn_Name := Name (kcp_meta c) |}.

(** A control plane without its annotations. *)
Definition unannotated (c : KubeadmControlPlane) : KubeadmControlPlane :=
  kcp_set_meta (set_Annotations None (kcp_meta c)) c.

(** ** The API server's store of control planes

A patch sends the difference between the object its helper was made with and the
object it gets, so it changes only annotations that differ between the two; a stored
control plane may be left as it is, or be gone. *)
Class ControlPlaneStore (W : Type) `{!ClusterApiUtil W} (c : Client W) `{!Storage W c} := {
  stored_kcp : W → NamespacedName → option KubeadmControlPlane;
  helper_before : PatchHelper → KubeadmControlPlane;
  same_store (w w' : W) : Prop :=
    (∀ k, stored_kcp w' k = stored_kcp w k) ∧ same_clusters w w';
  Get_KCP_Ok : ∀ k w o, (Get_KubeadmControlPlane c k w).1 = Ok o →
    stored_kcp w k = Some o ∧ kcp_key o = k;
  Get_KCP_same : ∀ k w, same_store w (Get_KubeadmControlPlane c k w).2;
  Get_AzureCluster_kcps : ∀ k w n,
    stored_kcp (Get_AzureCluster c k w).2 n = stored_kcp w n;
  GetOwner_same : ∀ m w, same_store w (GetOwnerCluster c m w).2;
  NewHelper_kcps : ∀ o w n, stored_kcp (patch_NewHelper c o w).2 n = stored_kcp w n;
  NewHelper_before : ∀ o w h,
    (patch_NewHelper c (ObjKubeadmControlPlane o) w).1 = Ok h → helper_before h = o;
  Patch_kcp_others : ∀ h o w k, k ≠ kcp_key (helper_before h) →
    stored_kcp (patch_Patch h (ObjKubeadmControlPlane o) w).2 k = stored_kcp w k;
  Patch_kcp : ∀ h o w k o', unannotated o = unannotated (helper_before h) →
    stored_kcp (patch_Patch h (ObjKubeadmControlPlane o) w).2 k = Some o' →
    ∃ o0, stored_kcp w k = Some o0 ∧ unannotated o' = unannotated o0 ∧
      ∀ a, kcp_annotation o' a = kcp_annotation o0 a ∨
        kcp_annotation o a ≠ kcp_annotation (helper_before h) a ∧
        kcp_annotation o' a = kcp_annotation o a
}.

Section frame.
Context {W : Type} `{ApiMachinery} `{!ClusterApiUtil W} `{!ControllerUtil W}.
Context (r : Reconciler W) `{!Storage W (client r)} `{!ControlPlaneStore W (client r)}.

#[export] Instance same_store_PreOrder : PreOrder same_store.
Proof.
  split; [by split|]. intros w1 w2 w3 [Hk Hc] [Hk' Hc']. split.
  - intros k. by rewrite Hk'.
  - intros k. by rewrite Hc'.
Qed.

Lemma Get_AzureCluster_same k w : same_store w (Get_AzureCluster (client r) k w).2.
Proof. split; [apply Get_AzureCluster_kcps|]. intros k'. apply Get_stored. Qed.

Lemma NewHelper_same o w : same_store w (patch_NewHelper (client r) o w).2.
Proof. split; [apply NewHelper_kcps|]. intros k'. apply NewHelper_stored. Qed.

Lemma gate_unannotated cs gates kcp :
  unannotated (gate_control_plane cs gates kcp) = unannotated kcp.
Proof.
  unfold gate_control_plane. destruct (negb _); [done|]. unfold unpause.
  destruct (Annotations (kcp_meta kcp)) as [m|] eqn:Em; [|done].
  by destruct (m !! PausedAnnotation).
Qed.

Lemma gate_annotation cs gates kcp a :
  kcp_annotation (gate_control_plane cs gates kcp) a =
    if decide (a = PausedAnnotation)
    then if Nat.eqb (slice_len (FindUnmetStatusConditions cs gates)) 0 then None else Some "true"
    else kcp_annotation kcp a.
Proof.
  unfold gate_control_plane. destruct (Nat.eqb _ 0); simpl.
  - apply unpause_annotation.
  - apply pause_annotation.
Qed.

(** A run [x] that got as far as the patch of [kcp]. *)
Record patches (req : NamespacedName) (w : W) (x : outcome (Result * error) * W) (v : W)
    (kcp : KubeadmControlPlane) (cluster : Cluster) (infra : AzureCluster) (h : PatchHelper) : Prop := {
  patches_kcp : stored_kcp w req = Some kcp;
  patches_key : kcp_key kcp = req;
  patches_rec : reconcilable kcp = true;
  patches_owner : ∃ u, same_store w u ∧
    (GetOwnerCluster (client r) (kcp_meta kcp) u).1 = Ok (Some cluster);
  patches_infra : stored w {| nn_Namespace := nn_Namespace req;
    nn_Name := cref_Name (cl_InfrastructureRef cluster) |} = Some infra;
  patches_before : helper_before h = kcp;
  patches_same : same_store w v;
  patches_run : x = (Ret (no_result, None),
    (patch_Patch h (ObjKubeadmControlPlane
       (gate_control_plane (elems (Conditions infra)) (azureClusterGates r) kcp)) v).2)
}.

(** One read of the reconciliation. *)
Lemma read_cases {A R} (m : IO W (result errval A)) (err : errval → M W R) (k : A → M W R) w0 w :
  same_store w0 w → same_store w (m w).2 →
  (∃ e w', same_store w0 w' ∧ check (io m) err k w = err e w') ∨
  (∃ a w', same_store w0 w' ∧ m w = (Ok a, w') ∧ check (io m) err k w = k a w').
Proof.
  intros H0 H1. destruct (m w) as [[a|e] w'] eqn:E; simpl in H1.
  - right. exists a, w'. split; [by etrans|]. split; [done|].
    exact (check_Ok _ _ _ _ _ _ (io_run _ _ _ _ E)).
  - left. exists e, w'. split; [by etrans|]. exact (check_Err _ _ _ _ _ _ (io_run _ _ _ _ E)).
Qed.

Lemma preflight_cases {R} (m : M W error) (err : errval → M W R) (k : M W R) w o :
  m w = (o, w) →
  (∃ e, check_err m err k w = err e w) ∨ (∃ p, check_err m err k w = (Panic p, w)) ∨
  o = Ret None ∧ check_err m err k w = k w.
Proof.
  intros E. unfold check_err. destruct o as [[e|]|p].
  - left. exists e. by rewrite (bind_Ret _ _ _ _ _ E).
  - right; right. by rewrite (bind_Ret _ _ _ _ _ E).
  - right; left. exists p. by rewrite (bind_Panic _ _ _ _ _ E).
Qed.

Lemma preflight_failed_world e (w : W) : (preflight_failed e w).2 = w.
Proof. unfold preflight_failed. by destruct (errors_Is _ _). Qed.

(** [Reconcile] from the owner of the control plane on. *)
#[local] Abbreviation gate_by_owner := (λ req kcp,
  let? cluster := io (GetOwnerCluster (client r) (kcp_meta kcp))
    orelse (λ err, mret (no_result, Some err)) in
  guard? PreflightCheckCluster cluster orelse preflight_failed in
  cluster ← deref_opt cluster;
  let? infraCluster :=
      io (Get_AzureCluster (client r)
            {| nn_Namespace := nn_Namespace req;
               nn_Name := cref_Name (cl_InfrastructureRef cluster) |})
    orelse (λ err, mret (no_result, Some err)) in
  let? helper := io (patch_NewHelper (client r) (ObjKubeadmControlPlane kcp))
    orelse (λ err, mret (no_result, Some err)) in
  _ ← io (patch_Patch helper (ObjKubeadmControlPlane
        (gate_control_plane (elems (Conditions infraCluster)) (azureClusterGates r) kcp)));
  mret (no_result, None)).

Lemma gate_by_owner_cases req w kcp w2 :
  stored_kcp w req = Some kcp → kcp_key kcp = req → reconcilable kcp = true → same_store w w2 →
  same_store w (gate_by_owner req kcp w2).2 ∨
  ∃ v cluster infra h, patches req w (gate_by_owner req kcp w2) v kcp cluster infra h.
Proof.
  intros Hkcp Hkey Hr S2. cbv beta.
  match goal with |- context [check (io (GetOwnerCluster _ _)) ?h ?f w2] =>
    destruct (read_cases (GetOwnerCluster (client r) (kcp_meta kcp)) h f w w2)
      as [(e & w3 & S3 & E4)|(cl & w3 & S3 & Eo & E4)]; [done|apply GetOwner_same|..]
  end; rewrite E4; [by left|].
  destruct cl as [cluster|]; [|by left].
  assert (Hpc : ∃ o, PreflightCheckCluster (Some cluster) w3 = (o, w3)).
  { unfold PreflightCheckCluster, mbind, M_bind. simpl.
    destruct (default _ _); [by eexists|]. destruct (negb _); by eexists. }
  destruct Hpc as [o' Hpc].
  match goal with |- context [check_err ?m ?h ?k w3] =>
    destruct (preflight_cases m h k w3 o' Hpc) as [(e & E5)|[(p & E5)|[_ E5]]]
  end; rewrite E5; [left; by rewrite preflight_failed_world|by left|].
  rewrite (bind_Ret _ _ w3 cluster w3 eq_refl).
  match goal with |- context [check (io (Get_AzureCluster _ ?k)) ?h ?f w3] =>
    destruct (read_cases (Get_AzureCluster (client r) k) h f w w3)
      as [(e & w4 & S4 & E6)|(infra & w4 & S4 & Ei & E6)]; [done|apply Get_AzureCluster_same|..];
    pose proof (Get_Ok k w3) as Hi
  end; rewrite E6; [by left|]. rewrite Ei in Hi. specialize (Hi infra eq_refl).
  rewrite (proj2 S3) in Hi.
  match goal with |- context [check (io (patch_NewHelper _ ?o)) ?h ?f w4] =>
    destruct (read_cases (patch_NewHelper (client r) o) h f w w4)
      as [(e & w5 & S5 & E7)|(hp & w5 & S5 & Eh & E7)]; [done|apply NewHelper_same|..]
  end; rewrite E7; [by left|]. pose proof (NewHelper_before kcp w4 hp) as Hb.
  rewrite Eh in Hb. specialize (Hb eq_refl).
  right. exists w5, cluster, infra, hp. split; try done.
  - exists w2. split; [done|]. by rewrite Eo.
  - destruct (patch_Patch _ _ w5) as [errp w6] eqn:E8.
    by rewrite (bind_Ret _ _ _ _ _ (io_run _ _ _ _ E8)).
Qed.

Lemma kcp_Reconcile_cases req w :
  same_store w (KubeadmControlPlane.Reconcile r req w).2 ∨
  ∃ v kcp cluster infra h,
    patches req w (KubeadmControlPlane.Reconcile r req w) v kcp cluster infra h.
Proof.
  unfold Reconcile. destruct (Nat.eqb _ 0) eqn:Hg; [by left|].
  match goal with |- context [check (io (Get_AzureCluster _ ?k)) ?h ?f w] =>
    destruct (read_cases (Get_AzureCluster (client r) k) h f w w)
      as [(e & w1 & S1 & E1)|(mc & w1 & S1 & _ & E1)]; [done|apply Get_AzureCluster_same|..]
  end; rewrite E1.
  { left. by destruct (IsNotFound e). }
  assert (Hpre : ∃ o, PreflightCheckManagementCluster mc w1 = (o, w1)).
  { unfold PreflightCheckManagementCluster, lb_type. destruct (ac_APIServerLB mc) as [lb|]; [|by eexists].
    unfold mbind, M_bind. simpl. destruct (negb _); by eexists. }
  destruct Hpre as [o Hpre].
  match goal with |- context [check_err ?m ?h ?k w1] =>
    destruct (preflight_cases m h k w1 o Hpre) as [(e & E2)|[(p & E2)|[_ E2]]]
  end; rewrite E2; [left; by rewrite preflight_failed_world|by left|].
  match goal with |- context [check (io (Get_KubeadmControlPlane _ req)) ?h ?f w1] =>
    destruct (read_cases (Get_KubeadmControlPlane (client r) req) h f w w1)
      as [(e & w2 & S2 & E3)|(kcp & w2 & S2 & Ek & E3)]; [done|apply Get_KCP_same|..]
  end; rewrite E3.
  { left. by destruct (IsNotFound e). }
  pose proof (Get_KCP_Ok req w1 kcp) as Hk. rewrite Ek in Hk. destruct (Hk eq_refl) as [Hkcp Hkey].
  rewrite (proj1 S1) in Hkcp.
  pose proof (PreflightCheckControlPlane_spec kcp) as Hrec.
  destruct (reconcilable kcp) eqn:Hr; [rewrite Hrec|destruct Hrec as [e ->]; by left].
  rewrite (check_err_None _ _ _ _ _ (mret_run _ _)).
  destruct (gate_by_owner_cases req w kcp w2 Hkcp Hkey Hr S2)
    as [?|(v & cluster & infra & h & Hp)]; [by left|right; by exists v, kcp, cluster, infra, h].
Qed.

Definition kcp_after (req : NamespacedName) (w : W) : W :=
  (KubeadmControlPlane.Reconcile r req w).2.

(** C9: however a reconciliation of a control plane ends, by success, error or panic, it
changes no other control plane, and of this one only the pause annotation, and that
only while the control plane is not initialized, not being deleted and controlled by
an owner.  Where the annotation was removed, the gates are all met on the stored
AzureCluster that the owning Cluster refers to. *)
Theorem KCP_frame req w k c' :
  stored_kcp (kcp_after req w) k = Some c' →
  stored_kcp w k = Some c' ∨
  ∃ c cluster infra, k = req ∧ stored_kcp w k = Some c ∧ reconcilable c = true ∧
    unannotated c' = unannotated c ∧
    (∀ a, a ≠ PausedAnnotation → kcp_annotation c' a = kcp_annotation c a) ∧
    (∃ u, (GetOwnerCluster (client r) (kcp_meta c) u).1 = Ok (Some cluster)) ∧
    stored w {| nn_Namespace := nn_Namespace req;
                nn_Name := cref_Name (cl_InfrastructureRef cluster) |} = Some infra ∧
    (is_Some (kcp_annotation c PausedAnnotation) → kcp_annotation c' PausedAnnotation = None →
     Forall (λ t, gate_met (elems (Conditions infra)) t = true) (default [] (azureClusterGates r))).
Proof.
  unfold kcp_after. destruct (kcp_Reconcile_cases req w)
    as [[Hs _]|(v & kcp & cluster & infra & h & [Hkcp Hkey Hrec (u & _ & Ho) Hi Hb [Sk _] ->])].
  { rewrite Hs. by left. }
  intros Hc'. simpl in Hc'. destruct (decide (k = req)) as [->|Hne].
  2:{ left. by rewrite Patch_kcp_others, Sk in Hc' by (by rewrite Hb, Hkey). }
  right. apply Patch_kcp in Hc' as (c & Hc & Hun & Hann); [|rewrite Hb; apply gate_unannotated].
  rewrite Sk, Hkcp in Hc. injection Hc as <-. rewrite Hb in Hann.
  exists kcp, cluster, infra. split_and!; try done; [|by exists u|].
  - intros a Ha. destruct (Hann a) as [?|[Hd _]]; [done|]. rewrite gate_annotation in Hd.
    by rewrite decide_False in Hd.
  - intros [x Hx] Hn. destruct (Hann PausedAnnotation) as [E|[_ E]]; [congruence|].
    rewrite Hn, gate_annotation, decide_True in E by done.
    destruct (azureClusterGates r) as [gates|] eqn:Hgates; [|constructor].
    apply FindUnmet_nil. destruct (Nat.eqb_spec (slice_len (FindUnmetStatusConditions
      (elems (Conditions infra)) (Some gates))) 0); [|done]. done.
Qed.
End frame.
