(* ===== verification/Fleet.v ===== *)
(** * Several workload clusters on one management cluster.

Reconciliations of different workload clusters edit one list of endpoints, that of
the management cluster.  Here that list is the state of an abstract machine with
one kind of step per outcome of a reconciliation; the reconciler refines it, and
the clusters are shown not to disturb each other as long as their links do not
share names. *)
From S2P Require Import Prelude.
From S2P Require Import GoStrings.
From S2P Require Import GoNet.
From S2P Require Import Api.
From S2P Require Import Errors.
From S2P Require Import BaseScope.
From S2P Require Import PrivateLinks.
From S2P Require Import PrivateEndpoints.
From S2P Require Import Service.
From S2P Require Import ServiceSpec.
From S2P Require Import Reconciliation.
From S2P Require Import McToWc.
From S2P Require Import WcToMc.
From S2P Require Import AzureClient.
From S2P Require Import AzureClusterController.
From S2P Require Import AzureClusterProps.

Section fleet.
Context {W : Type} `{Microerror} `{FmtVerbs} `{ApiMachinery} `{!ClusterApiUtil W}.
Implicit Types (x y : Statics W) (es : list PrivateEndpointSpec).

(** ** The machine *)

(** What one reconciliation of [x] may do to the endpoints of the management cluster:
reach its end, stop after the first [k] links, or delete. *)
Inductive touches x : list PrivateEndpointSpec → list PrivateEndpointSpec → Prop :=
  | touches_success es : touches x es (reconciled x es)
  | touches_partial k es : touches x es (add_wanted x (take k (links_for_mc x)) es)
  | touches_delete es : touches x es (delete_links x es).

Lemma touches_nothing x es : touches x es es.
Proof. exact (touches_partial x 0 es). Qed.

Lemma touches_NoDup x es es' : touches x es es' → NoDup (names es) → NoDup (names es').
Proof.
  intros [] Hnd; [by apply NoDup_reconciled|by apply NoDup_add_wanted|].
  rewrite delete_links_filter by done.
  eapply sublist_NoDup; [exact Hnd|apply fmap_sublist, sublist_filter].
Qed.

(** All endpoints of the cluster's links are there, just as the operator wants them. *)
Definition settled x es : Prop := ∀ l, l ∈ links_for_mc x → wanted x l ∈ es.

(** ** Clusters that can live together

Links of one name want the same endpoint, and an endpoint for a link of one cluster
is not taken for an unused one of another. *)
Record compatible x y : Prop := {
  compatible_names : ∀ l l', l ∈ links_for_mc x → l' ∈ links_for_mc y →
    pl_Name l = pl_Name l' → wanted x l = wanted y l';
  compatible_prefix : ∀ l, l ∈ links_for_mc x →
    connects_to (wc_prefix y) (wanted x l) → used y (wanted x l) = true
}.

(** No name that [x] needs is taken by an endpoint that [x] does not want. *)
Definition names_free x es : Prop := ∀ l e,
  l ∈ links_for_mc x → e ∈ es → pe_Name e = privateEndpointName (pl_Name l) → e = wanted x l.

(** What a single reconciliation keeps and brings. *)
Lemma reconciled_keeps_wanted x y es l :
  compatible y x → l ∈ links_for_mc y → wanted y l ∈ es → wanted y l ∈ reconciled x es.
Proof.
  intros Hc Hl Hin. apply list_elem_of_filter. split.
  - destruct (decide (connects_to (wc_prefix x) (wanted y l))); [right|by left].
    by eapply compatible_prefix.
  - by eapply elem_of_prefix, add_wanted_prefix.
Qed.

Lemma reconciled_only x es e :
  e ∈ reconciled x es → e ∈ es ∨ ∃ l, l ∈ links_for_mc x ∧ e = wanted x l.
Proof. intros [_ He]%list_elem_of_filter. by apply elem_of_add_wanted. Qed.

(** When its names are free, a cluster is settled by one success. *)
Lemma reconciled_settled x es :
  compatible x x → names_free x es → settled x (reconciled x es).
Proof.
  intros Hc Hf l Hl. apply list_elem_of_filter. split.
  { right. by apply wanted_used, links_for_mc_subset. }
  assert (Hn : privateEndpointName (pl_Name l) ∈ names (add_wanted x (links_for_mc x) es)).
  { apply elem_of_names_add_wanted. right. by exists l. }
  apply list_elem_of_fmap in Hn as (e & Hn & He). enough (e = wanted x l) by congruence.
  pose proof He as He'. apply elem_of_add_wanted in He as [He|(l' & Hl' & ->)].
  - by apply Hf.
  - apply (compatible_names x x Hc); [done|done|].
    unfold wanted, privateEndpointName in Hn. simpl in Hn. by apply app_inj_r_string in Hn.
Qed.

Lemma reconciled_names_free x y es :
  compatible x y → names_free y es → names_free y (reconciled x es).
Proof.
  intros Hc Hf l e Hl [He|(l' & Hl' & ->)]%reconciled_only Hn; [by apply Hf|].
  apply (compatible_names x y Hc); [done|done|].
  unfold wanted, privateEndpointName in Hn. simpl in Hn. by apply app_inj_r_string in Hn.
Qed.

(** ** Isolation *)

(** No common names, and no endpoint of [x] taken for an unused one of [y]. *)
Record independent x y : Prop := {
  independent_names : ∀ l l', l ∈ links_for_mc x → l' ∈ links_for_mc y → pl_Name l ≠ pl_Name l';
  independent_prefix : ∀ l, l ∈ links_for_mc x →
    connects_to (wc_prefix y) (wanted x l) → used y (wanted x l) = true
}.

Lemma independent_compatible x y : independent x y → compatible x y.
Proof. intros [Hn Hp]. split; [|done]. intros l l' Hl Hl' E. by destruct (Hn l l' Hl Hl'). Qed.

Lemma touches_keeps_wanted x y es es' l :
  independent x y → NoDup (names es) → l ∈ links_for_mc x → touches y es es' →
  wanted x l ∈ es → wanted x l ∈ es'.
Proof.
  intros Hi Hnd Hl Ht Hin. destruct Ht as [es|k es|es].
  - apply reconciled_keeps_wanted; [by apply independent_compatible|done|done].
  - by eapply elem_of_prefix, add_wanted_prefix.
  - rewrite delete_links_filter by done. apply list_elem_of_filter. split; [|done].
    intros (l' & Hn & Hl')%list_elem_of_fmap.
    apply (independent_names x y Hi l l' Hl Hl').
    unfold wanted, privateEndpointName in Hn. simpl in Hn. by apply app_inj_r_string in Hn.
Qed.

(** Steps of some clusters [ys], in any order. *)
Definition fleet_step (ys : list (Statics W)) es es' : Prop := ∃ y, y ∈ ys ∧ touches y es es'.

(** Clusters do not disturb each other.  Once the endpoints of a workload cluster are
settled, they stay so through any sequence of reconciliations, failures and
deletions of other clusters, as long as these share no link name with it and do
not take its endpoints for their own. *)
Theorem fleet_isolation x ys es es' :
  (∀ y, y ∈ ys → independent x y) → NoDup (names es) → settled x es →
  rtc (fleet_step ys) es es' → NoDup (names es') ∧ settled x es'.
Proof.
  intros Hys Hnd Hx Hr. induction Hr as [|es es1 es2 (y & Hy & Ht) _ IH]; [done|].
  apply IH; [by eapply touches_NoDup|].
  intros l Hl. eapply touches_keeps_wanted; [by apply Hys|done|done|done|by apply Hx].
Qed.

(** ** Runs on live clusters *)

Definition all_compatible (xs : list (Statics W)) : Prop :=
  ∀ x y, x ∈ xs → y ∈ xs → compatible x y.

(** No endpoint leads into the cluster that serves none of its links. *)
Definition nothing_stale x es : Prop :=
  Forall (λ e, ¬ connects_to (wc_prefix x) e ∨ used x e = true) es.

(** The steps of a cluster that is not being deleted. *)
Definition advances x es es' : Prop :=
  es' = reconciled x es ∨ ∃ k, es' = add_wanted x (take k (links_for_mc x)) es.

Lemma advances_touches x es es' : advances x es es' → touches x es es'.
Proof. intros [->|[k ->]]; constructor. Qed.

Lemma advances_nothing x es : advances x es es.
Proof. right. by exists 0. Qed.

Lemma advances_only x es es' e :
  advances x es es' → e ∈ es' → e ∈ es ∨ ∃ l, l ∈ links_for_mc x ∧ e = wanted x l.
Proof.
  intros [->|[k ->]] He; [by apply reconciled_only|].
  apply elem_of_add_wanted in He as [?|(l & Hl & ->)]; [by left|right].
  exists l. split; [|done]. by eapply subseteq_take.
Qed.

(** They keep what compatible clusters need and have. *)
Lemma advances_names_free x y es es' :
  compatible x y → advances x es es' → names_free y es → names_free y es'.
Proof.
  intros Hc Ha Hf l e Hl He Hn. destruct (advances_only _ _ _ _ Ha He) as [?|(l' & Hl' & ->)]; [by apply Hf|].
  apply (compatible_names x y Hc); [done|done|].
  unfold wanted, privateEndpointName in Hn. simpl in Hn. by apply app_inj_r_string in Hn.
Qed.

Lemma advances_settled x y es es' :
  compatible y x → advances x es es' → settled y es → settled y es'.
Proof.
  intros Hc [->|[k ->]] Hs l Hl; [by apply reconciled_keeps_wanted, Hs|].
  by eapply elem_of_prefix, add_wanted_prefix; apply Hs.
Qed.

Lemma advances_nothing_stale x y es es' :
  compatible x y → advances x es es' → nothing_stale y es → nothing_stale y es'.
Proof.
  intros Hc Ha Hn. apply Forall_forall. intros e He.
  destruct (advances_only _ _ _ _ Ha He) as [?|(l & Hl & ->)]; [by eapply Forall_forall in Hn|].
  destruct (decide (connects_to (wc_prefix y) (wanted x l))); [right|by left].
  by apply (compatible_prefix x y Hc).
Qed.

(** With the cluster settled and nothing stale, they change nothing. *)
Lemma advances_id x es es' :
  settled x es → nothing_stale x es → advances x es es' → es' = es.
Proof.
  intros Hs Hn Ha.
  assert (Hk : ∀ l, l ∈ links_for_mc x → privateEndpointName (pl_Name l) ∈ names es).
  { intros l Hl. apply list_elem_of_fmap. exists (wanted x l). split; [done|]. by apply Hs. }
  destruct Ha as [->|[k ->]].
  - rewrite reconciled_kept by done. by apply add_wanted_known.
  - apply add_wanted_known. intros l Hl. apply Hk. by eapply subseteq_take.
Qed.

(** A run of the abstract service is such a step. *)
Lemma mc_to_wc_api_advances x a :
  NoDup (names (a_endpoints a)) → advances x (a_endpoints a) (a_endpoints (mc_to_wc_api x a).2).
Proof.
  intros Hnd. destruct (mc_to_wc_api x a) as [[err|] a'] eqn:E; simpl.
  - destruct (mc_to_wc_api_failure x a err a' E) as (_ & k & ->). right. by exists k.
  - left. by apply mc_to_wc_api_endpoints.
Qed.

Lemma mc_to_wc_api_touches x a :
  NoDup (names (a_endpoints a)) → touches x (a_endpoints a) (a_endpoints (mc_to_wc_api x a).2).
Proof. intros Hnd. by apply advances_touches, mc_to_wc_api_advances. Qed.

(** ** A name taken by another cluster *)

End fleet.

(** ** The reconciler refines the machine *)

Section refinement.
Context {W : Type} `{Microerror} `{FmtVerbs} `{ApiMachinery} `{!ClusterApiUtil W}
  `{!ControllerUtil W} `{!ControllerUtilLaws W}.
Context (now : IO W Time) (r : AzureClusterReconciler W) (req : NamespacedName) (w0 : W)
  (wc mc : AzureCluster) (lw lm : LoadBalancerSpec) (hl hm hw : PatchHelper)
  (pm pw : PrivateEndpointsClient W) (snm snw : SubnetSpec) (im iw : nat) (w : W)
  (Hs : setup r req w0 wc mc lw lm hl hm hw pm pw snm snw im iw w).

#[local] Abbreviation x := (wired_statics (the_endpoints 1 im hm pm) (the_links lw hl) mc wc).

(** The run, for any endpoints of the management cluster. *)
Lemma fleet_run :
  ∃ es wc' res err w1 errm w2 errl w3,
    (NoDup (names (PrivateEndpoints snm)) → touches x (PrivateEndpoints snm) es) ∧
    (w1 = w ∨ w1 = world (live now wc mc lw lm hl hm hw pm pw snm snw im iw w).2) ∧
    patch_Patch hm (ObjAzureCluster (put_endpoints im es mc)) w1 = (errm, w2) ∧
    patch_Patch hl (ObjAzureCluster wc') w2 = (errl, w3) ∧
    Reconcile now r req (mkSt [] w0) =
      (Ret (res, closed err errm errl), mkSt [wc'; put_endpoints im es mc] w3).
Proof.
  destruct (Time_IsZero (DeletionTimestamp (ac_meta wc))) eqn:Hd.
  - destruct (live_heap_mc now wc mc lw lm hl hm hw pm pw snm snw im iw w)
      as (wc' & Hh & _).
    set (L := live now wc mc lw lm hl hm hw pm pw snm snw im iw w) in *.
    set (es := a_endpoints (api_phase wc mc lw hl hm pm snm im w).2) in *.
    destruct (patch_Patch hm (ObjAzureCluster (put_endpoints im es mc)) (world L.2))
      as [errm w2] eqn:Em.
    destruct (patch_Patch hl (ObjAzureCluster wc') w2) as [errl w3] eqn:El.
    exists es, wc', (live_outcome L.1).1, (live_outcome L.1).2, (world L.2), errm, w2, errl, w3.
    split_and!; [|by right|done|done|].
    + intros Hnd. unfold es, api_phase. rewrite wired_statics_finalizer by exact _.
      destruct (String.eqb (lb_Type lw) Internal); [|apply touches_nothing].
      by apply (mc_to_wc_api_touches x (initial_abs (with_finalizer wc) snm w)).
    + by eapply (Reconcile_live_run now _ _ _ _ _ _ _ _ _ _ _ _ _ _ _ _ _ Hs).
  - set (es := if String.eqb (lb_Type lw) Internal
      then delete_links x (PrivateEndpoints snm) else PrivateEndpoints snm).
    destruct (patch_Patch hm (ObjAzureCluster (put_endpoints im es mc)) w) as [errm w2] eqn:Em.
    destruct (patch_Patch hl (ObjAzureCluster (without_finalizer wc)) w2) as [errl w3] eqn:El.
    exists es, (without_finalizer wc), no_result, None, w, errm, w2, errl, w3.
    split_and!; [|by left|done|done|].
    + intros _. unfold es. destruct (String.eqb _ _); [constructor|apply touches_nothing].
    + eapply (Reconcile_closes now _ _ _ _ _ _ _ _ _ _ _ _ _ _ _ _ _ Hs);
        [by apply (work_deletes now _ _ _ _ _ _ _ _ _ _ _ _ _ _ _ _ _ Hs)|done|done|done].
Qed.

(** Whatever happens after both clusters were read and their scopes built, live or
deleted, success or failure, the reconciliation takes one step of the machine: it
ends by patching the management cluster as read with the endpoints after the step,
and then the workload cluster. *)
Theorem Reconcile_refines_fleet :
  NoDup (names (PrivateEndpoints snm)) →
  ∃ es wc' res err w1 errm w2 errl w3,
    touches x (PrivateEndpoints snm) es ∧
    patch_Patch hm (ObjAzureCluster (put_endpoints im es mc)) w1 = (errm, w2) ∧
    patch_Patch hl (ObjAzureCluster wc') w2 = (errl, w3) ∧
    Reconcile now r req (mkSt [] w0) =
      (Ret (res, closed err errm errl), mkSt [wc'; put_endpoints im es mc] w3).
Proof.
  intros Hnd.
  destruct fleet_run as (es & wc' & res & err & w1 & errm & w2 & errl & w3 & Ht & _ & Hm & Hl & Hrun).
  exists es, wc', res, err, w1, errm, w2, errl, w3. split_and!; auto.
Qed.
End refinement.
