(* ===== verification/Operator.v ===== *)
(** * The AzureCluster reconciler on the store of the API server.

Every call of [Reconcile] either gets to work or leaves the specifications of all
stored clusters as they were.  With the refinement of [Fleet] this makes every
reconciliation, however it ends, a step of the fleet on the endpoints that the API
server stores for the management cluster, and the theorems on the fleet hold of the
stored clusters. *)
From S2P Require Import Prelude.
From S2P Require Import GoStrings.
From S2P Require Import GoNet.
From S2P Require Import Api.
From S2P Require Import Errors.
From S2P Require Import BaseScope.
From S2P Require Import PrivateLinks.
From S2P Require Import PrivateEndpoints.
From S2P Require Import Service.
From S2P Require Import ServiceSpec.
From S2P Require Import Reconciliation.
From S2P Require Import McToWc.
From S2P Require Import WcToMc.
From S2P Require Import AzureClient.
From S2P Require Import AzureClusterController.
From S2P Require Import AzureClusterProps.
From S2P Require Import Invariants.
From S2P Require Import Safety.
From S2P Require Import Fleet.

Definition returns {A} (o : outcome A) : Prop := ∃ a, o = Ret a.

Lemma returns_Ret {A} (a : A) : returns (Ret a).
Proof. by exists a. Qed.
#[export] Hint Resolve returns_Ret : go.

(** ** The services leave the store alone *)

Section quiet.
Context {W : Type} `{Microerror} `{FmtVerbs} `{ApiMachinery} `{!ClusterApiUtil W}
  `{!ControllerUtil W}.
(** Whatever the calls of Azure and of the clock keep. *)
Context (R : relation W) `{!PreOrder R} (now : IO W Time) (Hnow : ∀ w, R w (now w).2).

Definition keeps_world (p : PrivateEndpointsClient W) : Prop :=
  ∀ rg n o w, R w (pec_Get p rg n o w).2.

Lemma ask_all_world (x : Statics W) key specs a :
  keeps_world (ep_client x) → R (a_world a) (a_world (ask_all x key specs a).2).
Proof.
  intros Hx. revert a. induction specs as [|spec specs IH]; intros a; cbn [ask_all]; [done|].
  unfold add_and_ask, ask_address.
  pose proof (Hx (ep_ResourceGroup x) (pe_Name spec) the_GetOptions (a_world a)) as Hg.
  destruct (pec_Get _ _ _ _ _) as [res w'].
  destruct (match res with Ok _ => _ | Err _ => _ end) as [ip [e|]]; [done|].
  etrans; [exact Hg|]. match goal with |- context [ask_all x key specs ?b] => apply (IH b) end.
Qed.

Lemma mc_to_wc_api_world (x : Statics W) a :
  keeps_world (ep_client x) → R (a_world a) (a_world (mc_to_wc_api x a).2).
Proof.
  intros Hx. unfold mc_to_wc_api. destruct (links_for_mc x) as [|l ls]; [done|].
  destruct (conditions_IsTrue _ _); [|done]. unfold link_run.
  pose proof (ask_all_world x AzurePrivateEndpointOperatorApiServerAnnotation
    (wanted x <$> l :: ls) a Hx) as Hw.
  by destruct (ask_all _ _ _ _) as [[e|] a'].
Qed.

Lemma wc_to_mc_ingress_world (x : Statics W) specs a :
  keeps_world (ep_client x) → R (a_world a) (a_world (wc_to_mc_ingress x now specs a).2).
Proof.
  intros Hx. unfold wc_to_mc_ingress.
  pose proof (ask_all_world x AzurePrivateEndpointOperatorMcIngressAnnotation specs a Hx) as Hw.
  destruct (ask_all _ _ _ _) as [[e|] a']; [done|]. etrans; [exact Hw|]. unfold mark_ready. simpl.
  destruct (conditions_IsTrue _ _); [done|]. pose proof (Hnow (a_world a')) as Hn.
  by destruct (now (a_world a')).
Qed.

Lemma live_world wc mc lw lm hl hm hw pm pw snm snw im iw w :
  keeps_world pm → keeps_world pw →
  R w (world (live now wc mc lw lm hl hm hw pm pw snm snw im iw w).2).
Proof.
  intros Hm Hw. unfold live.
  assert (Ha : R w (a_world (api_phase wc mc lw hl hm pm snm im w).2)).
  { unfold api_phase. destruct (String.eqb _ _); [|done].
    by apply (mc_to_wc_api_world _ (initial_abs (with_finalizer wc) snm w)). }
  destruct (api_phase _ _ _ _ _ _ _ _ _) as [[e|] a1]; [done|]. simpl in Ha.
  unfold ingress_phase. destruct (String.eqb (lb_Type lm) Internal); [|done].
  match goal with |- context [wc_to_mc_ingress ?x now ?specs ?a] =>
    pose proof (wc_to_mc_ingress_world x specs a Hw) as Hi; destruct (wc_to_mc_ingress x now specs a)
  end. by etrans.
Qed.
End quiet.

(** ** Every reconciliation gets to work or leaves the specifications alone *)

Section cases.
Context {W : Type} `{Microerror} `{FmtVerbs} `{ApiMachinery} `{!ClusterApiUtil W}
  `{!ControllerUtil W} `{!ControllerUtilLaws W}.
Context (now : IO W Time) (r : AzureClusterReconciler W) `{!Storage W (acr_Client r)}.
Context `{!QuietLibraries now r}.

#[export] Instance same_clusters_PreOrder : PreOrder same_clusters.
Proof. split; [by intros w k|]. intros w1 w2 w3 Hs Hs' k. by rewrite Hs'. Qed.

Section from.
Context (w0 : W).

(** The stored clusters have the specifications they had in [w0]. *)
Definition same_specs (w : W) : Prop :=
  ∀ k c', stored w k = Some c' → ∃ c, stored w0 k = Some c ∧ ac_Spec c' = ac_Spec c.

(** An object with the specification that is stored under [k]. *)
Definition has_stored_spec (k : NamespacedName) (c : AzureCluster) : Prop :=
  ∃ c0, stored w0 k = Some c0 ∧ ac_Spec c = ac_Spec c0.

Lemma same_specs_same w w' : same_clusters w w' → same_specs w → same_specs w'.
Proof. intros Hs Hw k c. rewrite Hs. apply Hw. Qed.

Lemma same_clusters_specs w : same_clusters w0 w → same_specs w.
Proof. intros Hs k c. rewrite Hs. eauto. Qed.

Lemma same_specs_patch h c w :
  has_stored_spec (helper_key h) c → same_specs w → same_specs (patch_Patch h (ObjAzureCluster c) w).2.
Proof.
  intros (c0 & Hc0 & Hsp) Hw k c' Hk. destruct (decide (k = helper_key h)) as [->|Hne].
  - apply Patch_key in Hk as [Hk|Hk]; [by apply Hw|]. exists c0. split; [done|congruence].
  - rewrite Patch_others in Hk by done. by apply Hw.
Qed.

(** What keeps the reconciliation from a panic: stored clusters have load balancers, and
the construction of Azure's clients does not panic. *)
Record no_traps : Prop := {
  traps_lb : ∀ k c, stored w0 k = Some c → ac_APIServerLB c ≠ None;
  traps_creator : ∀ k c w, stored w0 k = Some c →
    returns (privateEndpointsClientCreator r (acr_Client r) c w).1
}.

(** A run that leaves memory at [h] and the specifications as they were. *)
Definition inert (h : list AzureCluster) (x : outcome (Result * error) * St W) : Prop :=
  heap x.2 = h ∧ same_specs (world x.2) ∧ (no_traps → returns x.1).

Lemma inert_ret h w res err : same_specs w →
  inert h ((mret (res, err) : M (St W) _) (mkSt h w)).
Proof. intros Hw. split_and!; [done|done|intros _; apply returns_Ret]. Qed.

Lemma inert_panic h w p : same_specs w → ¬ no_traps → inert h (Panic p, mkSt h w).
Proof. by intros Hw Hn. Qed.

(** The deferred patch of an object that was not edited. *)
Lemma defer_close_inert b (body : M (St W) (Result * error)) s h c :
  h !! azureCluster b = Some c → has_stored_spec (helper_key (patchHelper b)) c →
  inert h (body s) → inert h (defer_close (Close b) body s).
Proof.
  intros Hl Hc (Hh & Hw & Hr). unfold defer_close.
  destruct (body s) as [o s']. simpl in *.
  assert (Hl' : heap s' !! azureCluster b = Some c) by (by rewrite Hh).
  pose proof (same_specs_patch _ c (world s') Hc Hw) as Hw'.
  destruct (patch_Patch (patchHelper b) (ObjAzureCluster c) (world s')) as [errp w'] eqn:Ep.
  pose proof (Close_run b s' c errp w' Hl' Ep) as Hrun.
  destruct o as [[res err]|p]; rewrite Hrun.
  - split_and!; [done|done|intros _; apply returns_Ret].
  - split_and!; [done|done|]. intros Hnt. by destruct (Hr Hnt).
Qed.

(** Building an endpoints scope: it is built, or the error leaves the store alone. *)
Lemma PE_NewScope_cases l mp (s : St W) c :
  heap s !! l = Some c →
  (∃ i h pec w', mp = Some pec ∧ endpoints_subnet (ac_Subnets c) = Some i ∧
     patch_NewHelper (acr_Client r) (ObjAzureCluster c) (world s) = (Ok h, w') ∧
     PrivateEndpoints.NewScope (Some l) (Some (acr_Client r)) mp s =
       (Ret (Ok {| PrivateEndpoints.BaseScope_ := {| azureCluster := l; patchHelper := h |};
                   PrivateEndpoints.privateEndpoints_subnet := i;
                   PrivateEndpoints.privateEndpointsClient := pec |}), mkSt (heap s) w')) ∨
  (∃ e w', PrivateEndpoints.NewScope (Some l) (Some (acr_Client r)) mp s =
       (Ret (Err e), mkSt (heap s) w') ∧ same_clusters (world s) w').
Proof.
  intros Hl. destruct mp as [pec|]; [|right; eexists _, (world s); by destruct s].
  destruct (endpoints_subnet (ac_Subnets c)) as [i|] eqn:Ei.
  - pose proof (NewHelper_stored (ObjAzureCluster c) (world s)) as Hs.
    destruct (patch_NewHelper (acr_Client r) (ObjAzureCluster c) (world s)) as [res w'] eqn:Ep.
    pose proof (PE_NewScope_run l (acr_Client r) pec s c i res w' Hl Ei Ep) as Hrun.
    destruct res as [h|e]; [left; by exists i, h, pec, w'|right]. eexists _, w'. by split.
  - right. unfold PrivateEndpoints.NewScope. run_load. rewrite Ei. eexists _, (world s).
    by destruct s.
Qed.
End from.

(** *** The body of [Reconcile] between the scopes *)

Section body.
Context (w0 : W) (req : NamespacedName) (wc mc : AzureCluster)
  (Hwc : stored w0 req = Some wc) (Hmc : stored w0 (managementClusterName r) = Some mc).

#[local] Abbreviation masked := (λ e, mret (no_result, Some (Mask e))).

(** What the second deferred call guards, from the construction of the last scope on. *)
Definition with_mc_scope (ls : PrivateLinks.Scope W) (mcScope : PrivateEndpoints.scope W)
    (wcClient : option (PrivateEndpointsClient W)) : M (St W) (Result * error) :=
  let? wcScope := PrivateEndpoints.NewScope (Some 0) (Some (acr_Client r)) wcClient orelse masked in
  match NewService (Some (PrivateEndpoints.as_Scope mcScope)) (Some (as_PrivateLinksScope ls)) with
  | Err e => mret (no_result, Some (Mask e))
  | Ok mcService =>
  match NewService (Some (PrivateEndpoints.as_Scope wcScope)) (Some (as_PrivateLinksScope ls)) with
  | Err e => mret (no_result, Some (Mask e))
  | Ok wcService => reconcile_clusters now 0 1 mcService wcService
  end end.

(** What the first deferred call guards. *)
Definition with_links_scope (ls : PrivateLinks.Scope W) : M (St W) (Result * error) :=
  mc ← load 1;
  let? mcClient := on_world (privateEndpointsClientCreator r (acr_Client r) mc) orelse masked in
  wc ← load 0;
  let? wcClient := on_world (privateEndpointsClientCreator r (acr_Client r) wc) orelse masked in
  let? mcScope := PrivateEndpoints.NewScope (Some 1) (Some (acr_Client r)) mcClient orelse masked in
  defer_close (sc_Close (PrivateEndpoints.as_Scope mcScope)) (with_mc_scope ls mcScope wcClient).

(** A call of the creator of clients. *)
Lemma creator_cases k c l (s : St W) :
  stored w0 k = Some c → heap s !! l = Some c →
  ∃ o w', on_world (privateEndpointsClientCreator r (acr_Client r) c) s = (o, mkSt (heap s) w') ∧
    privateEndpointsClientCreator r (acr_Client r) c (world s) = (o, w') ∧
    same_clusters (world s) w' ∧ (no_traps w0 → returns o) ∧
    ∀ p, o = Ret (Ok (Some p)) → keeps_world same_clusters p.
Proof.
  intros Hk Hl. unfold on_world.
  pose proof (quiet_creator now r c (world s)) as Hq.
  pose proof (λ p rg n o v, quiet_client now r c (world s) p rg n o v) as Hp.
  destruct (privateEndpointsClientCreator r (acr_Client r) c (world s)) as [o w'] eqn:Ec.
  exists o, w'. split_and!; [done|done|done| |].
  - intros Hn. pose proof (traps_creator w0 Hn k c (world s) Hk) as Hr. by rewrite Ec in Hr.
  - intros p -> rg n opts v. by apply Hp.
Qed.

(** The scopes are all built, or the second deferred call guards an inert run. *)
Lemma with_mc_scope_cases ls mcScope mp w :
  same_clusters w0 w →
  (∃ iw hw pw w', mp = Some pw ∧ endpoints_subnet (ac_Subnets wc) = Some iw ∧
     patch_NewHelper (acr_Client r) (ObjAzureCluster wc) w = (Ok hw, w') ∧ same_clusters w0 w') ∨
  inert w0 [wc; mc] (with_mc_scope ls mcScope mp (mkSt [wc; mc] w)).
Proof.
  intros Hw. destruct (PE_NewScope_cases 0 mp (mkSt [wc; mc] w) wc eq_refl)
    as [(i & h & p & w' & -> & Hi & Hh & _)|(e & w' & Hn & Hs)].
  - left. exists i, h, p, w'. split_and!; [done|done|done|]. etrans; [exact Hw|].
    intros k. pose proof (NewHelper_stored (ObjAzureCluster wc) w k) as Hs.
    simpl in Hh. by rewrite Hh in Hs.
  - right. unfold with_mc_scope. rewrite (check_Err _ _ _ _ _ _ Hn).
    apply inert_ret, same_clusters_specs. by etrans.
Qed.

Lemma stored_has_spec k c : stored w0 k = Some c → has_stored_spec w0 k c.
Proof. intros Hk. by exists c. Qed.

Lemma NewHelper_ok (k : NamespacedName) c w h w' :
  stored w0 k = Some c → same_clusters w0 w →
  patch_NewHelper (acr_Client r) (ObjAzureCluster c) w = (Ok h, w') →
  helper_key h = k ∧ same_clusters w0 w'.
Proof.
  intros Hk Hw Hh. pose proof (NewHelper_key c w h) as Hn. rewrite Hh in Hn.
  rewrite (Hn eq_refl). split; [by eapply stored_name|]. etrans; [exact Hw|].
  intros k'. pose proof (NewHelper_stored (ObjAzureCluster c) w k') as Hs. by rewrite Hh in Hs.
Qed.

Lemma with_links_scope_cases ls w3 :
  same_clusters w0 w3 →
  (∃ w4 w5 w6 w hm hw pm pw im iw,
     privateEndpointsClientCreator r (acr_Client r) mc w3 = (Ret (Ok (Some pm)), w4) ∧
     privateEndpointsClientCreator r (acr_Client r) wc w4 = (Ret (Ok (Some pw)), w5) ∧
     patch_NewHelper (acr_Client r) (ObjAzureCluster mc) w5 = (Ok hm, w6) ∧
     patch_NewHelper (acr_Client r) (ObjAzureCluster wc) w6 = (Ok hw, w) ∧
     endpoints_subnet (ac_Subnets mc) = Some im ∧ endpoints_subnet (ac_Subnets wc) = Some iw ∧
     same_clusters w0 w ∧ helper_key hm = managementClusterName r ∧
     keeps_world same_clusters pm ∧ keeps_world same_clusters pw) ∨
  inert w0 [wc; mc] (with_links_scope ls (mkSt [wc; mc] w3)).
Proof.
  intros Hw3. unfold with_links_scope.
  rewrite (bind_Ret (load 1) _ (mkSt [wc; mc] w3) mc (mkSt [wc; mc] w3) eq_refl).
  destruct (creator_cases _ mc 1 (mkSt [wc; mc] w3) Hmc eq_refl)
    as (o & w4 & Hrun & Hc1 & Hs4 & Hr1 & Hk1).
  simpl in Hrun, Hs4. assert (Hw4 : same_clusters w0 w4) by (by etrans).
  destruct o as [[mp|e]|p]; [|right; rewrite (check_Err _ _ _ _ _ _ Hrun);
    by apply inert_ret, same_clusters_specs|right; unfold check; rewrite (bind_Panic _ _ _ _ _ Hrun);
    apply inert_panic; [by apply same_clusters_specs|intros Hn; by destruct (Hr1 Hn)]].
  rewrite (check_Ok _ _ _ _ _ _ Hrun). clear Hrun Hr1.
  rewrite (bind_Ret (load 0) _ (mkSt [wc; mc] w4) wc (mkSt [wc; mc] w4) eq_refl).
  destruct (creator_cases _ wc 0 (mkSt [wc; mc] w4) Hwc eq_refl)
    as (o & w5 & Hrun & Hc2 & Hs5 & Hr2 & Hk2).
  simpl in Hrun, Hs5. assert (Hw5 : same_clusters w0 w5) by (by etrans).
  destruct o as [[wp|e]|p]; [|right; rewrite (check_Err _ _ _ _ _ _ Hrun);
    by apply inert_ret, same_clusters_specs|right; unfold check; rewrite (bind_Panic _ _ _ _ _ Hrun);
    apply inert_panic; [by apply same_clusters_specs|intros Hn; by destruct (Hr2 Hn)]].
  rewrite (check_Ok _ _ _ _ _ _ Hrun). clear Hrun Hr2.
  destruct (PE_NewScope_cases 1 mp (mkSt [wc; mc] w5) mc eq_refl)
    as [(im & hm & pm & w6 & -> & Him & Hhm & Hrun)|(e & w6 & Hrun & Hs6)];
    [|right; rewrite (check_Err _ _ _ _ _ _ Hrun); apply inert_ret, same_clusters_specs; by etrans].
  rewrite (check_Ok _ _ _ _ _ _ Hrun). simpl in Hhm |- *.
  destruct (NewHelper_ok _ _ _ _ _ Hmc Hw5 Hhm) as [Hkm Hw6].
  match goal with |- context [defer_close (Close ?b) (with_mc_scope ls ?sc wp)] =>
    destruct (with_mc_scope_cases ls sc wp w6 Hw6)
      as [(iw & hw & pw & w & -> & Hiw & Hhw & Hw)|Hi]
  end.
  - left. exists w4, w5, w6, w, hm, hw, pm, pw, im, iw. split_and!; auto.
  - right. apply (defer_close_inert w0 _ _ _ _ mc); [done| |done].
    simpl. rewrite Hkm. by apply stored_has_spec.
Qed.
End body.

(** A run that gets to work, on clusters as they are stored. *)
Record working (req : NamespacedName) (w0 : W) (wc mc : AzureCluster) (lw lm : LoadBalancerSpec)
    (hl hm hw : PatchHelper) (pm pw : PrivateEndpointsClient W) (snm snw : SubnetSpec)
    (im iw : nat) (w : W) : Prop := {
  working_setup : setup r req w0 wc mc lw lm hl hm hw pm pw snm snw im iw w;
  working_same : same_clusters w0 w;
  working_wc : stored w0 req = Some wc;
  working_mc : stored w0 (managementClusterName r) = Some mc;
  working_hl : helper_key hl = req;
  working_hm : helper_key hm = managementClusterName r;
  working_pm : keeps_world same_clusters pm;
  working_pw : keeps_world same_clusters pw
}.

Definition works (req : NamespacedName) (w0 : W) : Prop :=
  ∃ wc mc lw lm hl hm hw pm pw snm snw im iw w,
    working req w0 wc mc lw lm hl hm hw pm pw snm snw im iw w.

Lemma Get_cases k w :
  ∃ res w', Get_AzureCluster (acr_Client r) k w = (res, w') ∧ same_clusters w w' ∧
    ∀ c, res = Ok c → stored w k = Some c.
Proof.
  pose proof (Get_stored k w) as Hs. pose proof (Get_Ok k w) as Hg.
  destruct (Get_AzureCluster (acr_Client r) k w) as [res w']. exists res, w'. split_and!; auto.
Qed.

(** The validation of a stored cluster: accepted, or the run is inert. *)
Lemma validate_cases w0 k c h w (m : M (St W) (Result * error)) :
  stored w0 k = Some c → same_clusters w0 w →
  let x := (guard? validateLBType c orelse (λ e, mret (no_result, Some (Mask e))) in m) (mkSt h w) in
  (∃ lb, valid_lb c lb ∧ x = m (mkSt h w)) ∨ inert w0 h x.
Proof.
  intros Hk Hw x. unfold x. destruct (ac_APIServerLB c) as [lb|] eqn:Hlb.
  - pose proof (validateLBType_run c lb (mkSt h w) Hlb) as Hv. unfold valid_lb.
    destruct (String.eqb_spec (lb_Type lb) Internal); [|
      destruct (String.eqb_spec (lb_Type lb) Public)]; simpl in Hv;
      [left; exists lb; rewrite (check_err_None _ _ _ _ _ Hv); auto..|right].
    rewrite (check_err_Some _ _ _ _ _ _ Hv). by apply inert_ret, same_clusters_specs.
  - right. unfold check_err, validateLBType, lb_type. rewrite Hlb.
    apply inert_panic; [by apply same_clusters_specs|].
    intros Hn. by destruct (traps_lb w0 Hn k c Hk).
Qed.

Lemma Reconcile_cases req w0 :
  works req w0 ∨ ∃ h, inert w0 h (Reconcile now r req (mkSt [] w0)).
Proof.
  unfold Reconcile. destruct (Get_cases req w0) as (res & w1 & Eg & S1 & Hg).
  rewrite (bind_Ret _ _ _ _ _ (call_run _ (mkSt [] w0) _ _ Eg)). simpl heap.
  destruct res as [wc|e];
    [|right; exists []; destruct (IsNotFound e); by apply inert_ret, same_clusters_specs].
  specialize (Hg wc eq_refl). rewrite (bind_Ret _ _ _ _ _ (alloc_run wc _)). simpl.
  destruct (_ && _) eqn:Hname; [right; exists [wc]; by apply inert_ret, same_clusters_specs|].
  destruct (Get_cases (managementClusterName r) w1) as (res & w2 & Em & S2 & Hm).
  assert (Hw2 : same_clusters w0 w2) by (by etrans).
  pose proof (call_run _ (mkSt [wc] w1) _ _ Em) as Hcall. simpl in Hcall.
  destruct res as [mc|e];
    [rewrite (check_Ok _ _ _ _ _ _ Hcall)|right; exists [wc]; rewrite (check_Err _ _ _ _ _ _ Hcall);
     by apply inert_ret, same_clusters_specs].
  specialize (Hm mc eq_refl). rewrite S1 in Hm. clear Hcall.
  rewrite (bind_Ret _ _ _ _ _ (alloc_run mc _)). simpl.
  match goal with |- context [(guard? _ orelse _ in ?m) _] =>
    destruct (validate_cases w0 req wc [wc; mc] w2 m Hg Hw2) as [(lw & Hlw & ->)|Hi]; [|right; eauto]
  end.
  match goal with |- context [(guard? _ orelse _ in ?m) _] =>
    destruct (validate_cases w0 _ mc [wc; mc] w2 m Hm Hw2) as [(lm & Hlm & ->)|Hi]; [|right; eauto]
  end.
  destruct (patch_NewHelper (acr_Client r) (ObjAzureCluster wc) w2) as [res w3] eqn:E3.
  pose proof (PL_NewScope_run 0 _ (mkSt [wc; mc] w2) wc lw res w3 eq_refl (proj1 Hlw) E3) as Hrun.
  destruct res as [hl|e]; [rewrite (check_Ok _ _ _ _ _ _ Hrun)|
    right; exists [wc; mc]; rewrite (check_Err _ _ _ _ _ _ Hrun); apply inert_ret, same_clusters_specs;
    etrans; [exact Hw2|]; intros k; pose proof (NewHelper_stored (ObjAzureCluster wc) w2 k) as Hs;
    by rewrite E3 in Hs].
  destruct (NewHelper_ok w0 _ _ _ _ _ Hg Hw2 E3) as [Hkl Hw3].
  destruct (with_links_scope_cases w0 req wc mc Hg Hm (the_links lw hl) w3 Hw3)
    as [(w4 & w5 & w6 & w & hm & hw & pm & pw & im & iw & E4 & E5 & E6 & E7 & Him & Hiw & Hw &
         Hkm & Hpm & Hpw)|Hi].
  - left. destruct (endpoints_subnet_bound _ _ Him) as [snm Hsnm].
    destruct (endpoints_subnet_bound _ _ Hiw) as [snw Hsnw].
    exists wc, mc, lw, lm, hl, hm, hw, pm, pw, snm, snw, im, iw, w. split; try done.
    split; try done; [by exists w1, w2, w3, w4, w5, w6|]. intros En.
    rewrite <- En in Hname. simpl in Hname. by rewrite !String.eqb_refl in Hname.
  - right. exists [wc; mc]. apply (defer_close_inert w0 _ _ _ _ wc); [done| |done].
    simpl. rewrite Hkl. by apply stored_has_spec.
Qed.

(** ** The endpoints that the API server stores *)

(** The endpoints of the subnet that the operator manages. *)
Definition managed (c : AzureCluster) : list PrivateEndpointSpec :=
  match endpoints_subnet (ac_Subnets c) with
  | Some i => match ac_Subnets c !! i with Some sn => PrivateEndpoints sn | None => [] end
  | None => []
  end.

Definition no_client : PrivateEndpointsClient W :=
  {| pec_Get _ _ _ := io_pure (Err (NewErr "no client")) |}.

(** A workload cluster as the fleet sees it from the management cluster [mc]. *)
Definition view (mc wc : AzureCluster) : Statics W :=
  statics_of mc wc (match ac_APIServerLB wc with Some lb => PrivateLinks lb | None => [] end)
    no_client.

Lemma managed_spec c c' : ac_Spec c = ac_Spec c' → managed c = managed c'.
Proof. intros Hs. unfold managed, ac_Subnets. by rewrite Hs. Qed.

Lemma find_node_subnet_alter es i sns k :
  find_node_subnet (alter (set_PrivateEndpoints es) i sns) k = find_node_subnet sns k.
Proof.
  revert i k. induction sns as [|sn sns IH]; intros [|i] k; [done..|].
  transitivity (find_node_subnet (sn :: alter (set_PrivateEndpoints es) i sns) k); [done|].
  cbn [find_node_subnet]. by rewrite IH.
Qed.

Lemma endpoints_subnet_alter es i sns :
  endpoints_subnet (alter (set_PrivateEndpoints es) i sns) = endpoints_subnet sns.
Proof. unfold endpoints_subnet. by rewrite find_node_subnet_alter, length_alter. Qed.

Lemma managed_put i es c :
  endpoints_subnet (ac_Subnets c) = Some i → managed (put_endpoints i es c) = es.
Proof.
  intros Hi. destruct (endpoints_subnet_bound _ _ Hi) as [sn Hsn].
  unfold managed. change (ac_Subnets (put_endpoints i es c))
    with (alter (set_PrivateEndpoints es) i (ac_Subnets c)).
  by rewrite endpoints_subnet_alter, Hi, list_lookup_alter_eq, Hsn.
Qed.

Lemma wf_managed c : wf_cluster c → NoDup (names (managed c)).
Proof.
  intros Hc. unfold managed. destruct (endpoints_subnet _) as [i|]; [|constructor].
  destruct (ac_Subnets c !! i) as [sn|] eqn:Hi; [|constructor]. by eapply Forall_lookup_1 in Hc.
Qed.

Lemma view_core mc wc mc' wc' :
  cluster_name mc' = cluster_name mc → core (ac_Spec mc') = core (ac_Spec mc) →
  cluster_name wc' = cluster_name wc → core (ac_Spec wc') = core (ac_Spec wc) →
  view mc' wc' = view mc wc.
Proof.
  intros Hnm Hm Hnw Hw. injection Hm as Hm1 Hm2 Hm3 _ _ _. injection Hw as Hw1 Hw2 Hw3 _ Hw4 _.
  unfold view, statics_of, ac_APIServerLB.
  by rewrite Hnm, Hnw, Hm1, Hm2, Hm3, Hw1, Hw2, Hw3, Hw4.
Qed.

(** The client plays no role in a step of the fleet. *)
Lemma touches_view mc wc lb hl hm pm im es es' :
  ac_APIServerLB wc = Some lb →
  touches (wired_statics (the_endpoints 1 im hm pm) (the_links lb hl) mc wc) es es' →
  touches (view mc wc) es es'.
Proof.
  intros Hlb Ht. assert (Hl : PrivateLinks lb =
    match ac_APIServerLB wc with Some lb => PrivateLinks lb | None => [] end) by (by rewrite Hlb).
  unfold wired_statics in Ht. simpl in Ht. rewrite Hl in Ht.
  destruct Ht as [es|k es|es]; [exact (touches_success (view mc wc) es)|
    exact (touches_partial (view mc wc) k es)|exact (touches_delete (view mc wc) es)].
Qed.

(** ** Every reconciliation is a step of the fleet on the store *)

Section work.
Context (req : NamespacedName) (w0 : W) (wc mc : AzureCluster) (lw lm : LoadBalancerSpec)
  (hl hm hw : PatchHelper) (pm pw : PrivateEndpointsClient W) (snm snw : SubnetSpec)
  (im iw : nat) (w : W) (Hwork : working req w0 wc mc lw lm hl hm hw pm pw snm snw im iw w).

Lemma working_names : req ≠ managementClusterName r.
Proof.
  intros E. apply (setup_name _ _ _ _ _ _ _ _ _ _ _ _ _ _ _ _ _ (working_setup _ _ _ _ _ _ _ _ _ _ _ _ _ _ _ _ Hwork)).
  by rewrite (stored_name _ _ _ (working_wc _ _ _ _ _ _ _ _ _ _ _ _ _ _ _ _ Hwork)).
Qed.

Lemma working_managed : managed mc = PrivateEndpoints snm.
Proof.
  destruct Hwork as [[? ? ? ? Him ? Hsnm ?] _ _ _ _ _ _ _].
  unfold managed. by rewrite Him, Hsnm.
Qed.

(** Its end, seen from the store. *)
Lemma working_run :
  returns (Reconcile now r req (mkSt [] w0)).1 ∧
  ∃ es, (NoDup (names (managed mc)) → touches (view mc wc) (managed mc) es) ∧
    ∀ mc', stored (after now r req w0) (managementClusterName r) = Some mc' →
      mc' = mc ∨ managed mc' = es.
Proof.
  pose proof Hwork as [Hs Hsame _ Hmc Hkl Hkm Hpm Hpw].
  destruct (fleet_run now r req w0 wc mc lw lm hl hm hw pm pw snm snw im iw w Hs)
    as (es & wc' & res & err & w1 & errm & w2 & errl & w3 & Ht & Hw1 & Em & El & Hrun).
  assert (Hs1 : same_clusters w0 w1).
  { destruct Hw1 as [->| ->]; [done|]. etrans; [exact Hsame|].
    apply (live_world same_clusters now); [intros v; apply (quiet_now now r)|done|done]. }
  unfold after. rewrite Hrun. split; [apply returns_Ret|]. exists es. rewrite working_managed. split.
  - intros Hnd. eapply touches_view; [|by apply Ht].
    exact (proj1 (setup_lw _ _ _ _ _ _ _ _ _ _ _ _ _ _ _ _ _ Hs)).
  - intros mc' Hmc'. simpl in Hmc'. pose proof (f_equal snd El) as El'. simpl in El'. subst w3.
    rewrite Patch_others in Hmc' by (rewrite Hkl; apply not_eq_sym, working_names).
    pose proof (f_equal snd Em) as Em'. simpl in Em'. subst w2.
    rewrite <- Hkm in Hmc'. apply Patch_key in Hmc' as [Hk|Hk].
    + left. rewrite Hkm, Hs1 in Hk. congruence.
    + right. rewrite (managed_spec _ _ Hk). apply managed_put.
      exact (setup_im _ _ _ _ _ _ _ _ _ _ _ _ _ _ _ _ _ Hs).
Qed.
End work.

(** C5: no panics.  When every stored AzureCluster has an API server load balancer and
the construction of Azure's clients does not panic, every reconciliation of every
request returns, whatever the API server and Azure answer: the deferred closes of the
scopes, the services and the scopes' methods never dereference nil, index out of range
or read a cluster that is not there. *)
Theorem Reconcile_returns req w0 :
  no_traps w0 → ∃ res err, (Reconcile now r req (mkSt [] w0)).1 = Ret (res, err).
Proof.
  intros Hn. enough (returns (Reconcile now r req (mkSt [] w0)).1) as [[res err] E] by eauto.
  destruct (Reconcile_cases req w0)
    as [(wc & mc & lw & lm & hl & hm & hw & pm & pw & snm & snw & im & iw & w & Hwork)|(h & _ & _ & Hr)].
  - by eapply working_run.
  - by apply Hr.
Qed.

Lemma store_step req w mc mc' :
  stored w (managementClusterName r) = Some mc → NoDup (names (managed mc)) →
  stored (after now r req w) (managementClusterName r) = Some mc' →
  managed mc' = managed mc ∨
  ∃ wc, stored w req = Some wc ∧ touches (view mc wc) (managed mc) (managed mc').
Proof.
  intros Hmc Hnd Hmc'. destruct (Reconcile_cases req w)
    as [(wc & mc0 & lw & lm & hl & hm & hw & pm & pw & snm & snw & im & iw & v & Hwork)|(h & _ & Hsp & _)].
  - destruct (working_run _ _ _ _ _ _ _ _ _ _ _ _ _ _ _ _ Hwork) as (_ & es & Ht & Hes).
    destruct Hwork as [_ _ Hwc Hmc0 _ _ _ _]. assert (mc0 = mc) as -> by congruence.
    destruct (Hes mc' Hmc') as [->| <-]; [by left|right]. exists wc. auto.
  - destruct (Hsp _ _ Hmc') as (c & Hc & E). left. rewrite (managed_spec _ _ E). congruence.
Qed.

(** C1: the store refines the fleet.  Whatever a reconciliation meets on its way, an
error of the API server or of Azure in any call, a refused patch, a deletion, a panic
or success: the endpoints that the API server stores for the management cluster
afterwards are those from before, or one step of the fleet away for the requested
workload cluster. *)
Theorem store_refines_fleet req w mc mc' :
  all_stored r (λ _, wf_cluster) w →
  stored w (managementClusterName r) = Some mc →
  stored (after now r req w) (managementClusterName r) = Some mc' →
  managed mc' = managed mc ∨
  ∃ wc, stored w req = Some wc ∧ touches (view mc wc) (managed mc) (managed mc').
Proof.
  intros Hwf Hmc. apply store_step; [done|]. apply wf_managed. by eapply Hwf.
Qed.

(** Reconciliations of some clusters, in any order. *)
Definition reconciles (reqs : list NamespacedName) (w w' : W) : Prop :=
  ∃ req, req ∈ reqs ∧ w' = after now r req w.

Lemma view_stored w w' k mc wc mc' wc' :
  (∀ k c', stored w' k = Some c' → ∃ c, stored w k = Some c ∧ core (ac_Spec c') = core (ac_Spec c)) →
  stored w (managementClusterName r) = Some mc → stored w k = Some wc →
  stored w' (managementClusterName r) = Some mc' → stored w' k = Some wc' →
  view mc' wc' = view mc wc.
Proof.
  intros Hcore Hmc Hwc Hmc' Hwc'.
  destruct (Hcore _ _ Hmc') as (c & Hc & Em). destruct (Hcore _ _ Hwc') as (d & Hd & Ew).
  assert (c = mc) as -> by congruence. assert (d = wc) as -> by congruence.
  apply view_core; try done.
  - by rewrite (stored_name _ _ _ Hmc), (stored_name _ _ _ Hmc').
  - by rewrite (stored_name _ _ _ Hwc), (stored_name _ _ _ Hwc').
Qed.

(** A property of the stored endpoints that the steps of these clusters keep. *)
Lemma reconciles_keep reqs w w' mc (P : list PrivateEndpointSpec → Prop) :
  all_stored r (λ _, wf_cluster) w → stored w (managementClusterName r) = Some mc →
  (∀ req wc es es', req ∈ reqs → stored w req = Some wc → NoDup (names es) → P es →
     touches (view mc wc) es es' → P es') →
  P (managed mc) → rtc (reconciles reqs) w w' →
  all_stored r (λ _, wf_cluster) w' ∧
  (∀ k c', stored w' k = Some c' → ∃ c, stored w k = Some c ∧ core (ac_Spec c') = core (ac_Spec c)) ∧
  ∀ mc', stored w' (managementClusterName r) = Some mc' → P (managed mc').
Proof.
  intros Hwf Hmc Hstep Hx Hr. revert w' Hr.
  refine (rtc_ind_r _ _ _ _).
  { split_and!; [done|eauto|]. intros mc' Hmc'. by assert (mc' = mc) as -> by congruence. }
  intros w1 w2 _ (req & Hreq & ->) (Hwf1 & Hcore & HP). split_and!; [by apply after_wf| |].
  - intros k c2 Hc2. destruct (after_core now r req w1 _ _ Hc2) as (c1 & Hc1 & E).
    destruct (Hcore k c1 Hc1) as (c & Hc & E').
    exists c. by rewrite E.
  - intros mc2 Hmc2. destruct (after_core now r req w1 _ _ Hmc2) as (mc1 & Hmc1 & _).
    assert (Hnd : NoDup (names (managed mc1))) by (apply wf_managed; by eapply Hwf1).
    specialize (HP mc1 Hmc1).
    destruct (store_step req w1 mc1 mc2 Hmc1 Hnd Hmc2) as [->|(wc1 & Hwc1 & Ht)]; [done|].
    destruct (Hcore _ _ Hwc1) as (wc & Hwc & _).
    rewrite (view_stored w w1 req mc wc mc1 wc1) in Ht by done. by eapply Hstep.
Qed.

(** C6: clusters do not disturb each other, on the API server.  When all endpoints of
a workload cluster are stored as the operator wants them, they stay stored through
any sequence of reconciliations of other clusters, with any errors, lost patches,
deletions and panics in them, as long as these clusters share no link name with it and
do not take its endpoints for their own. *)
Theorem store_isolation reqs k w w' mc wc mc' wc' :
  all_stored r (λ _, wf_cluster) w →
  stored w (managementClusterName r) = Some mc → stored w k = Some wc →
  (∀ req other, req ∈ reqs → stored w req = Some other →
    independent (view mc wc) (view mc other)) →
  settled (view mc wc) (managed mc) → rtc (reconciles reqs) w w' →
  stored w' (managementClusterName r) = Some mc' → stored w' k = Some wc' →
  view mc' wc' = view mc wc ∧ settled (view mc' wc') (managed mc').
Proof.
  intros Hwf Hmc Hwc Hind Hset Hr Hmc' Hwc'.
  destruct (reconciles_keep reqs w w' mc (settled (view mc wc))) as (_ & Hcore & Hset'); [done..| |done|done|].
  { intros req other es es' Hreq Ho Hnd Hs Ht l Hl.
    eapply touches_keeps_wanted; [by apply (Hind req)|done|done|done|by apply Hs]. }
  rewrite (view_stored w w' k mc wc mc' wc') by done. split; [done|]. by apply Hset'.
Qed.
(** ** No leak of endpoints *)

Definition link_names (x : Statics W) : list string :=
  (λ l, privateEndpointName (pl_Name l)) <$> links_for_mc x.

Lemma touches_names (x : Statics W) es es' n :
  NoDup (names es) → touches x es es' → n ∈ names es' → n ∈ names es ∨ n ∈ link_names x.
Proof.
  intros Hnd Ht Hn.
  assert (Hadd : ∀ links, links ⊆ links_for_mc x → n ∈ names (add_wanted x links es) →
    n ∈ names es ∨ n ∈ link_names x).
  { intros links Hsub [?|(l & Hl & ->)]%elem_of_names_add_wanted; [by left|right].
    apply (list_elem_of_fmap_2 (λ l, privateEndpointName (pl_Name l))). by apply Hsub. }
  destruct Ht as [es|k es|es].
  - apply (Hadd (links_for_mc x)); [done|].
    eapply elem_of_sublist; [exact Hn|]. apply fmap_sublist, sublist_filter.
  - apply (Hadd (take k (links_for_mc x))); [|done]. intros l Hl. by eapply subseteq_take.
  - rewrite delete_links_filter in Hn by done. left.
    eapply elem_of_sublist; [exact Hn|]. apply fmap_sublist, sublist_filter.
Qed.

(** The names of the endpoints for the links that these clusters have in [w]. *)
Definition wanted_by (reqs : list NamespacedName) (mc : AzureCluster) (w : W) : list string :=
  req ← reqs; match stored w req with Some wc => link_names (view mc wc) | None => [] end.

(** C26: no leak.  However often, in whatever order and with whatever outcomes some
clusters are reconciled, the management cluster is stored with at most one endpoint per
name, and with no names but those that were there and one for each allowed link of
these clusters; so the number of endpoints stays within the number of endpoints at
first plus the number of these links. *)
Theorem store_bounded reqs w w' mc mc' :
  all_stored r (λ _, wf_cluster) w → stored w (managementClusterName r) = Some mc →
  rtc (reconciles reqs) w w' → stored w' (managementClusterName r) = Some mc' →
  NoDup (names (managed mc')) ∧
  (∀ n, n ∈ names (managed mc') → n ∈ names (managed mc) ∨ n ∈ wanted_by reqs mc w) ∧
  length (managed mc') ≤ length (managed mc) + length (wanted_by reqs mc w).
Proof.
  intros Hwf Hmc Hr Hmc'.
  destruct (reconciles_keep reqs w w' mc
    (λ es, ∀ n, n ∈ names es → n ∈ names (managed mc) ∨ n ∈ wanted_by reqs mc w))
    as (Hwf' & _ & Hsub); [done|done| |by left|done|].
  { intros req wc es es' Hreq Hwc Hnd Hs Ht n Hn.
    destruct (touches_names _ _ _ n Hnd Ht Hn) as [?|Hl]; [by apply Hs|right].
    apply list_elem_of_bind. exists req. by rewrite Hwc. }
  specialize (Hsub mc' Hmc').
  assert (Hnd : NoDup (names (managed mc'))) by (apply wf_managed; by eapply Hwf').
  split_and!; [done|done|]. rewrite <- (length_fmap pe_Name (managed mc)).
  rewrite <- (length_fmap pe_Name (managed mc')), <- length_app.
  apply submseteq_length, NoDup_submseteq; [done|]. intros n Hn. apply elem_of_app. by apply Hsub.
Qed.
End cases.
