(* ===== verification/Convergence.v ===== *)
(** * The requeue loop terminates.

While Azure does not know an endpoint that the operator wants, the reconciliation is
requeued.  In a cloud that cooperates, where the API server stores what it is sent
and Azure creates, between two reconciliations, the endpoints that it finds in the
stored clusters, every requeue makes one more wanted endpoint known.  So the number
of requeues is bounded by the number of endpoints that were unknown at first. *)
From S2P Require Import Prelude.
From S2P Require Import GoStrings.
From S2P Require Import GoNet.
From S2P Require Import Api.
From S2P Require Import Errors.
From S2P Require Import BaseScope.
From S2P Require Import PrivateLinks.
From S2P Require Import PrivateEndpoints.
From S2P Require Import Service.
From S2P Require Import ServiceSpec.
From S2P Require Import Reconciliation.
From S2P Require Import McToWc.
From S2P Require Import WcToMc.
From S2P Require Import AzureClient.
From S2P Require Import AzureClusterController.
From S2P Require Import AzureClusterProps.

Section convergence.
Context {W : Type} `{Microerror} `{FmtVerbs} `{ApiMachinery} `{!ClusterApiUtil W}
  `{!ControllerUtil W} `{!ControllerUtilLaws W} `{!ConditionsLaws W}.
Context (now : IO W Time) (r : AzureClusterReconciler W) `{!Storage W (acr_Client r)}.

(** ** A cloud that cooperates *)

(** What a client answers about an endpoint that Azure knows, with an address, or not. *)
Definition answer_ok (b : bool) (res : result errval PrivateEndpoint) : Prop :=
  if b then ∃ pep, res = Ok pep ∧ addresses pep ≠ []
  else (∃ e, res = Err e ∧ IsAzureResourceNotFound (Some e) = true) ∨
       (∃ pep, res = Ok pep ∧ addresses pep = []).

(** [known w sub group name]: Azure has the endpoint, with an address.  [azure] is what
Azure does between two reconciliations. *)
Class Cloud := {
  known : W → string → string → string → bool;
  azure : W → W;
  unchanged (w w' : W) : Prop :=
    same_clusters w w' ∧ ∀ s g n, known w' s g n = known w s g n;
  cloud_Get : ∀ k w c, stored w k = Some c →
    ∃ w', Get_AzureCluster (acr_Client r) k w = (Ok c, w') ∧ unchanged w w';
  cloud_NewHelper : ∀ c w, ∃ h w',
    patch_NewHelper (acr_Client r) (ObjAzureCluster c) w = (Ok h, w') ∧ unchanged w w' ∧
    helper_key h = cluster_name c;
  cloud_creator : ∀ c w, ∃ p w',
    privateEndpointsClientCreator r (acr_Client r) c w = (Ret (Ok (Some p)), w') ∧
    unchanged w w' ∧
    ∀ g n v, ∃ res v', pec_Get p g n the_GetOptions v = (res, v') ∧ unchanged v v' ∧
      answer_ok (known v (SubscriptionID (ac_Spec c)) g n) res;
  cloud_now : ∀ w, unchanged w (now w).2;
  cloud_Patch : ∀ h c w, helper_key h = cluster_name c → is_some (stored w (cluster_name c)) = true →
    Time_IsZero (DeletionTimestamp (ac_meta c)) = true →
    ∃ w', patch_Patch h (ObjAzureCluster c) w = (None, w') ∧
      stored w' (cluster_name c) = Some c ∧
      (∀ k, k ≠ cluster_name c → stored w' k = stored w k) ∧
      ∀ s g n, known w' s g n = known w s g n;
  azure_stored : ∀ w, same_clusters w (azure w);
  azure_forgets_nothing : ∀ w s g n, known w s g n = true → known (azure w) s g n = true;
  azure_creates : ∀ w k c sn e, stored w k = Some c → sn ∈ ac_Subnets c → e ∈ PrivateEndpoints sn →
    known (azure w) (SubscriptionID (ac_Spec c)) (ResourceGroup (ac_Spec c)) (pe_Name e) = true
}.
Context `{!Cloud}.

#[export] Instance unchanged_PreOrder : PreOrder unchanged.
Proof.
  split.
  - intros w. by split.
  - intros w1 w2 w3 [Hs Hk] [Hs' Hk']. split.
    + intros k. by rewrite Hs'.
    + intros s g n. by rewrite Hk'.
Qed.

(** ** Asking in such a cloud *)

(** The client of [x] answers for its subscription. *)
Definition honest (x : Statics W) : Prop := ∀ g n v, ∃ res v',
  pec_Get (ep_client x) g n the_GetOptions v = (res, v') ∧ unchanged v v' ∧
  answer_ok (known v (ep_SubscriptionID x) g n) res.

Lemma honest_answer x name w :
  honest x → ∃ ip err w', ask_address x name w = ((ip, err), w') ∧ unchanged w w' ∧
    (if known w (ep_SubscriptionID x) (ep_ResourceGroup x) name then err = None
     else ∃ e, err = Some e ∧ IsRetriable (Some e) = true).
Proof.
  intros Hh. destruct (Hh (ep_ResourceGroup x) name w) as (res & w' & Hg & Hu & Ha).
  unfold ask_address. rewrite Hg. unfold answer_ok in Ha.
  destruct (known w _ _ name).
  - destruct Ha as (pep & -> & Hne). destruct (addresses pep) as [|t ts] eqn:E; [done|].
    rewrite (address_of_cons pep t ts E). by eexists _, None, w'.
  - destruct Ha as [(e & -> & He)|(pep & -> & E)].
    + rewrite He. do 3 eexists. split; [done|]. split; [done|]. eexists. split; [done|].
      eapply raised_retriable; [constructor|]. unfold retriable_kinds. rewrite !elem_of_cons. auto.
    + destruct (address_of_nil pep E) as (e & -> & Hr). do 3 eexists. split; [done|].
      split; [done|]. eexists. split; [done|]. destruct (bool_decide _) in Hr;
        (eapply raised_retriable; [exact Hr|]); unfold retriable_kinds; rewrite !elem_of_cons; auto.
Qed.

(** The loop ends well, or with the request for an endpoint that was unknown. *)
Definition asked (x : Statics W) (w : W) (specs : list PrivateEndpointSpec) (err : error) (a : AbsSt W) : Prop :=
  err = None ∨
  IsRetriable err = true ∧ ∃ spec, spec ∈ specs ∧ pe_Name spec ∈ names (a_endpoints a) ∧
    known w (ep_SubscriptionID x) (ep_ResourceGroup x) (pe_Name spec) = false.

Lemma ask_all_asked x key specs a :
  honest x → ∃ err a', ask_all x key specs a = (err, a') ∧ unchanged (a_world a) (a_world a') ∧
    asked x (a_world a) specs err a'.
Proof.
  intros Hh. revert a. induction specs as [|spec specs IH]; intros a.
  { exists None, a. split; [done|]. split; [done|by left]. }
  cbn [ask_all]. unfold add_and_ask.
  destruct (honest_answer x (pe_Name spec) (a_world a) Hh) as (ip & err & w' & -> & Hu & Hk).
  destruct (known (a_world a) _ _ (pe_Name spec)) eqn:Ek.
  - subst err. match goal with |- context [ask_all x key specs ?b] => destruct (IH b)
      as (err & a' & -> & Hu' & Ha) end.
    exists err, a'. split; [done|]. simpl in Hu', Ha. split; [by etrans|].
    destruct Ha as [->|(Hr & s & Hs & Hn & Hf)]; [by left|right]. split; [done|].
    exists s. split; [by right|]. split; [done|]. by rewrite <- (proj2 Hu).
  - destruct Hk as (e & -> & Hr). do 2 eexists. split; [done|]. split; [done|right].
    split; [by rewrite IsRetriable_Mask|]. exists spec. split; [by left|]. split; [|done].
    simpl. apply elem_of_names_add_spec. by left.
Qed.

Lemma mc_to_wc_api_asked x a :
  honest x → links_for_mc x ≠ [] →
  conditions_IsTrue (a_conditions a) PrivateLinksReadyCondition = true →
  ∃ err a', mc_to_wc_api x a = (err, a') ∧ unchanged (a_world a) (a_world a') ∧
    a_conditions a' = a_conditions a ∧
    asked x (a_world a) (wanted x <$> links_for_mc x) err a'.
Proof.
  intros Hh Hne Hc.
  destruct (ask_all_asked x AzurePrivateEndpointOperatorApiServerAnnotation
    (wanted x <$> links_for_mc x) a Hh) as (err & a' & E & Hu & Ha).
  destruct (ask_all_endpoints _ _ _ _ _ _ E) as (Hcs & _).
  unfold mc_to_wc_api. rewrite Hc. unfold link_run.
  destruct (links_for_mc x) as [|l ls] eqn:El; [done|]. rewrite E.
  destruct err as [e|]; [by eauto 6|]. do 2 eexists. split; [done|]. split; [done|].
  split; [done|by left].
Qed.

Lemma gateway_keeps_ready cs t :
  conditions_IsTrue cs PrivateLinksReadyCondition = true →
  conditions_IsTrue (append cs (gateway_condition t)) PrivateLinksReadyCondition = true.
Proof.
  rewrite !conditions_IsTrue_spec, elems_append, first_status_app, !bool_decide_eq_true.
  by intros ->.
Qed.

Lemma wc_to_mc_ingress_asked x specs a :
  honest x →
  ∃ err a', wc_to_mc_ingress x now specs a = (err, a') ∧ unchanged (a_world a) (a_world a') ∧
    (conditions_IsTrue (a_conditions a) PrivateLinksReadyCondition = true →
     conditions_IsTrue (a_conditions a') PrivateLinksReadyCondition = true) ∧
    asked x (a_world a) specs err a'.
Proof.
  intros Hh. destruct (ask_all_asked x AzurePrivateEndpointOperatorMcIngressAnnotation specs a Hh)
    as (err & a' & E & Hu & Ha).
  destruct (ask_all_endpoints _ _ _ _ _ _ E) as (Hcs & _).
  unfold wc_to_mc_ingress. rewrite E. destruct err as [e|].
  - do 2 eexists. split; [done|]. split; [done|]. split; [by rewrite Hcs|done].
  - do 2 eexists. split; [done|]. split; [|split; [|by left]].
    + unfold mark_ready. destruct (conditions_IsTrue _ _); [done|].
      pose proof (cloud_now (a_world a')) as Hn. destruct (now (a_world a')) as [t w'].
      simpl. by etrans.
    + rewrite mark_ready_conditions, Hcs. intros Hc.
      destruct (conditions_IsTrue _ ConditionGSPrivateLinksReady); [done|].
      by apply gateway_keeps_ready.
Qed.

(** ** The state between two reconciliations *)

Definition private (c : AzureCluster) : bool :=
  match ac_APIServerLB c with Some lb => String.eqb (lb_Type lb) Internal | None => false end.

(** The links of a private cluster that the management cluster may use. *)
Definition open_links (mc wc : AzureCluster) : list PrivateLink :=
  match ac_APIServerLB wc with
  | Some lb => filter (λ l, Some (SubscriptionID (ac_Spec mc)) ∈ AllowedSubscriptions l) (PrivateLinks lb)
  | None => []
  end.

(** The endpoints that the operator asks Azure for: subscription, group and name. *)
Definition wanted_names (mc wc : AzureCluster) : list (string * string * string) :=
  (if private wc
   then (λ l, (SubscriptionID (ac_Spec mc), ResourceGroup (ac_Spec mc), privateEndpointName (pl_Name l)))
          <$> open_links mc wc else []) ++
  (if private mc
   then (λ e, (SubscriptionID (ac_Spec wc), ResourceGroup (ac_Spec wc), pe_Name e))
          <$> generateWcToMcPrivateEndpointSpecs wc mc else []).

(** A live workload cluster and its management cluster are stored; a private one is
ready and has a link for the management cluster. *)
Record ready (req : NamespacedName) (mc wc : AzureCluster) (w : W) : Prop := {
  ready_wc : stored w req = Some wc;
  ready_mc : stored w (managementClusterName r) = Some mc;
  ready_names : req ≠ managementClusterName r;
  ready_live : Time_IsZero (DeletionTimestamp (ac_meta wc)) = true;
  ready_mc_live : Time_IsZero (DeletionTimestamp (ac_meta mc)) = true;
  ready_lw : ∃ lb, valid_lb wc lb;
  ready_lm : ∃ lb, valid_lb mc lb;
  ready_wc_subnets : ac_Subnets wc ≠ [];
  ready_mc_subnets : ac_Subnets mc ≠ [];
  ready_links : private wc = true → open_links mc wc ≠ [] ∧
    conditions_IsTrue (Conditions wc) PrivateLinksReadyCondition = true
}.

Lemma endpoints_subnet_total sns :
  sns ≠ [] → ∃ i sn, endpoints_subnet sns = Some i ∧ sns !! i = Some sn.
Proof.
  intros Hne. destruct (endpoints_subnet sns) as [i|] eqn:E.
  - destruct (endpoints_subnet_bound sns i E) as [sn Hsn]. eauto.
  - unfold endpoints_subnet in E. by destruct (find_node_subnet sns 0), sns.
Qed.

Lemma unchanged_stored w w' k c : unchanged w w' → stored w k = Some c → stored w' k = Some c.
Proof. intros [Hs _] Hk. by rewrite Hs. Qed.

Definition answers (sub : string) (p : PrivateEndpointsClient W) : Prop := ∀ g n v, ∃ res v',
  pec_Get p g n the_GetOptions v = (res, v') ∧ unchanged v v' ∧ answer_ok (known v sub g n) res.

(** Such a pair of clusters is read, and its scopes are built. *)
Lemma ready_setup req mc wc w0 :
  ready req mc wc w0 →
  ∃ lw lm hl hm hw pm pw snm snw im iw w,
    setup r req w0 wc mc lw lm hl hm hw pm pw snm snw im iw w ∧ unchanged w0 w ∧
    helper_key hl = req ∧ helper_key hm = managementClusterName r ∧
    answers (SubscriptionID (ac_Spec mc)) pm ∧ answers (SubscriptionID (ac_Spec wc)) pw.
Proof.
  intros [Hwc Hmc Hne _ _ [lw Hlw] [lm Hlm] Hsw Hsm _].
  pose proof (stored_name _ _ _ Hwc) as Hnw. pose proof (stored_name _ _ _ Hmc) as Hnm.
  destruct (endpoints_subnet_total _ Hsw) as (iw & snw & Hiw & Hsnw).
  destruct (endpoints_subnet_total _ Hsm) as (im & snm & Him & Hsnm).
  destruct (cloud_Get req w0 wc Hwc) as (w1 & E1 & U1).
  destruct (cloud_Get (managementClusterName r) w1 mc) as (w2 & E2 & U2);
    [by eapply unchanged_stored|].
  destruct (cloud_NewHelper wc w2) as (hl & w3 & E3 & U3 & Hhl).
  destruct (cloud_creator mc w3) as (pm & w4 & E4 & U4 & Hpm).
  destruct (cloud_creator wc w4) as (pw & w5 & E5 & U5 & Hpw).
  destruct (cloud_NewHelper mc w5) as (hm & w6 & E6 & U6 & Hhm).
  destruct (cloud_NewHelper wc w6) as (hw & w7 & E7 & U7 & _).
  exists lw, lm, hl, hm, hw, pm, pw, snm, snw, im, iw, w7. split_and!.
  - split; [|by rewrite Hnw|done..]. exists w1, w2, w3, w4, w5, w6. done.
  - by repeat (etrans; [eassumption|]).
  - by rewrite Hhl.
  - by rewrite Hhm.
  - exact Hpm.
  - exact Hpw.
Qed.

(** What the two phases leave of the clusters. *)
Lemma ready_after req mc wc w w' imc iwc esm esw ann cs :
  ready req mc wc w →
  let wc' := put_status ann cs (put_endpoints iwc esw (with_finalizer wc)) in
  let mc' := put_endpoints imc esm mc in
  (conditions_IsTrue (Conditions wc) PrivateLinksReadyCondition = true →
   conditions_IsTrue cs PrivateLinksReadyCondition = true) →
  stored w' req = Some wc' → stored w' (managementClusterName r) = Some mc' →
  ready req mc' wc' w' ∧ wanted_names mc' wc' = wanted_names mc wc.
Proof.
  intros [Hwc Hmc Hne Hl Hlm' [lw Hlw] [lm Hlm] Hsw Hsm Hk] wc' mc' Hcs Hw' Hm'.
  destruct (with_finalizer_spec wc) as [Hspec _].
  assert (Hn : cluster_name (with_finalizer wc) = cluster_name wc) by apply with_finalizer_name.
  assert (Hdel : DeletionTimestamp (ac_meta (with_finalizer wc)) = DeletionTimestamp (ac_meta wc)).
  { unfold with_finalizer. rewrite ContainsFinalizer_spec, AddFinalizer_spec.
    by destruct (bool_decide _). }
  assert (Hlb : ac_APIServerLB wc' = ac_APIServerLB wc).
  { unfold wc', ac_APIServerLB. simpl. by rewrite Hspec. }
  assert (Hopen : open_links mc' wc' = open_links mc wc).
  { unfold open_links. by rewrite Hlb. }
  assert (Hpw : private wc' = private wc) by (unfold private; by rewrite Hlb).
  split.
  - split; try done.
    + simpl. by rewrite Hdel.
    + exists lw. unfold valid_lb. by rewrite Hlb.
    + by exists lm.
    + unfold wc', ac_Subnets. simpl. unfold ac_Subnets. rewrite Hspec.
      by apply list_alter_not_nil.
    + by apply list_alter_not_nil.
    + rewrite Hpw, Hopen. intros Hp. destruct (Hk Hp). split; [done|]. by apply Hcs.
  - unfold wanted_names. rewrite Hpw, Hopen. f_equal.
    injection Hn as _ Hn. unfold generateWcToMcPrivateEndpointSpecs, wc', ac_Name. simpl.
    unfold ac_Name in Hn. by rewrite Hn, Hspec.
Qed.

(** ** One reconciliation *)

Section one_round.
Context (req : NamespacedName) (mc wc : AzureCluster) (w0 : W) (Hready : ready req mc wc w0).
Context (lw lm : LoadBalancerSpec) (hl hm hw : PatchHelper)
  (pm pw : PrivateEndpointsClient W) (snm snw : SubnetSpec) (im iw : nat) (w : W)
  (Hs : setup r req w0 wc mc lw lm hl hm hw pm pw snm snw im iw w)
  (Hpm : answers (SubscriptionID (ac_Spec mc)) pm) (Hpw : answers (SubscriptionID (ac_Spec wc)) pw).

Lemma private_lw : private wc = String.eqb (lb_Type lw) Internal.
Proof. unfold private. by rewrite (proj1 (setup_lw _ _ _ _ _ _ _ _ _ _ _ _ _ _ _ _ _ Hs)). Qed.

Lemma private_lm : private mc = String.eqb (lb_Type lm) Internal.
Proof. unfold private. by rewrite (proj1 (setup_lm _ _ _ _ _ _ _ _ _ _ _ _ _ _ _ _ _ Hs)). Qed.

(** An endpoint that Azure does not know is wanted, and in the cluster that will be sent. *)
Definition pending (esm esw : list PrivateEndpointSpec) : Prop :=
  (private wc = true ∧ ∃ l, l ∈ open_links mc wc ∧ privateEndpointName (pl_Name l) ∈ names esm ∧
     known w (SubscriptionID (ac_Spec mc)) (ResourceGroup (ac_Spec mc))
       (privateEndpointName (pl_Name l)) = false) ∨
  (private mc = true ∧ ∃ e, e ∈ generateWcToMcPrivateEndpointSpecs wc mc ∧
     pe_Name e ∈ names esw ∧
     known w (SubscriptionID (ac_Spec wc)) (ResourceGroup (ac_Spec wc)) (pe_Name e) = false).

Definition keeps_ready (cs : slice Condition) : Prop :=
  conditions_IsTrue (Conditions wc) PrivateLinksReadyCondition = true →
  conditions_IsTrue cs PrivateLinksReadyCondition = true.

Lemma api_phase_asked :
  ∃ err a, api_phase wc mc lw hl hm pm snm im w = (err, a) ∧ unchanged w (a_world a) ∧
    keeps_ready (a_conditions a) ∧
    (err = None ∨ IsRetriable err = true ∧ ∀ esw, pending (a_endpoints a) esw).
Proof.
  destruct (with_finalizer_spec wc) as [Hspec Hconds].
  unfold api_phase. rewrite wired_statics_finalizer, <- private_lw by exact _.
  destruct (private wc) eqn:Hp.
  2:{ do 2 eexists. split; [done|]. split; [done|]. split; [|by left].
      intros Hc. simpl. by rewrite Hconds. }
  destruct (ready_links _ _ _ _ Hready Hp) as [Hne Hc].
  assert (Hopen : open_links mc wc = links_for_mc
    (wired_statics (the_endpoints 1 im hm pm) (the_links lw hl) mc wc)).
  { unfold open_links. by rewrite (proj1 (setup_lw _ _ _ _ _ _ _ _ _ _ _ _ _ _ _ _ _ Hs)). }
  destruct (mc_to_wc_api_asked
    (wired_statics (the_endpoints 1 im hm pm) (the_links lw hl) mc wc)
    (initial_abs (with_finalizer wc) snm w)) as (err & a & E & Hu & Hcs & Ha);
    [exact Hpm|by rewrite <- Hopen|simpl; by rewrite Hconds|].
  exists err, a. split; [done|]. split; [done|]. split; [intros _; by rewrite Hcs, <- Hc; simpl; rewrite Hconds|].
  destruct Ha as [->|(Hr & spec & Hin & Hn & Hk)]; [by left|right]. split; [done|]. intros esw. left.
  split; [done|]. apply list_elem_of_fmap in Hin as (l & -> & Hl). exists l. by rewrite Hopen.
Qed.

Lemma live_asked :
  ∃ err ann cs esm esw w', live now wc mc lw lm hl hm hw pm pw snm snw im iw w =
      (err, mkSt [put_status ann cs (put_endpoints iw esw (with_finalizer wc));
                  put_endpoints im esm mc] w') ∧
    unchanged w w' ∧ keeps_ready cs ∧ (err = None ∨ IsRetriable err = true ∧ pending esm esw).
Proof.
  destruct (with_finalizer_spec wc) as [Hspec Hconds].
  assert (Hsn : ac_Subnets (with_finalizer wc) !! iw = Some snw).
  { unfold ac_Subnets. rewrite Hspec. exact (setup_snw _ _ _ _ _ _ _ _ _ _ _ _ _ _ _ _ _ Hs). }
  unfold live. destruct api_phase_asked as ([e1|] & a1 & -> & Hu & Hc & Hp).
  - exists (Some e1), (a_annotations a1), (a_conditions a1), (a_endpoints a1),
      (PrivateEndpoints snw), (a_world a1).
    rewrite (put_endpoints_same _ _ _ Hsn). split; [done|]. split; [done|]. split; [done|].
    destruct Hp as [?|[Hr Hp]]; [done|]. right. by split.
  - unfold ingress_phase. rewrite <- private_lm.
    set (wc' := put_status (a_annotations a1) (a_conditions a1) (with_finalizer wc)).
    set (mc' := put_endpoints im (a_endpoints a1) mc).
    destruct (private mc) eqn:Hpm'.
    2:{ exists None, (a_annotations a1), (a_conditions a1), (a_endpoints a1),
          (PrivateEndpoints snw), (a_world a1).
        split; [done|]. split; [done|]. split; [done|by left]. }
    assert (Hgen : generateWcToMcPrivateEndpointSpecs wc' mc' =
      generateWcToMcPrivateEndpointSpecs wc mc) by (apply generate_finalizer; exact _).
    destruct (wc_to_mc_ingress_asked (wired_statics (the_endpoints 0 iw hw pw) (the_links lw hl) wc' wc')
      (generateWcToMcPrivateEndpointSpecs wc' mc') (initial_abs wc' snw (a_world a1)))
      as (e2 & a2 & -> & Hu2 & Hc2 & Ha2).
    { unfold honest. simpl. rewrite Hspec. exact Hpw. }
    exists e2, (a_annotations a2), (a_conditions a2), (a_endpoints a1), (a_endpoints a2), (a_world a2).
    split; [done|]. simpl in Hu2. split; [by etrans|]. split; [by intros ?%Hc; apply Hc2|].
    destruct Ha2 as [->|(Hr & spec & Hin & Hn & Hk)]; [by left|right]. split; [done|]. right.
    split; [done|]. exists spec. rewrite Hgen in Hin. split; [done|]. split; [done|].
    simpl in Hk. by rewrite Hspec, (proj2 Hu) in Hk.
Qed.
End one_round.

(** Both patches are accepted. *)
Lemma patched_both req mc wc mc' wc' hm hl w :
  cluster_name wc' = req → cluster_name mc' = managementClusterName r →
  req ≠ managementClusterName r → helper_key hl = req → helper_key hm = managementClusterName r →
  stored w req = Some wc → stored w (managementClusterName r) = Some mc →
  Time_IsZero (DeletionTimestamp (ac_meta wc')) = true →
  Time_IsZero (DeletionTimestamp (ac_meta mc')) = true →
  ∃ w2 w3, patch_Patch hm (ObjAzureCluster mc') w = (None, w2) ∧
    patch_Patch hl (ObjAzureCluster wc') w2 = (None, w3) ∧
    stored w3 req = Some wc' ∧ stored w3 (managementClusterName r) = Some mc' ∧
    ∀ s g n, known w3 s g n = known w s g n.
Proof.
  intros Hnw Hnm Hne Hkl Hkm Hw Hm Hdw Hdm.
  destruct (cloud_Patch hm mc' w) as (w2 & E2 & S2 & O2 & K2);
    [by rewrite Hnm|by rewrite Hnm, Hm|done|].
  destruct (cloud_Patch hl wc' w2) as (w3 & E3 & S3 & O3 & K3);
    [by rewrite Hnw|by rewrite Hnw, O2, Hw; [done|rewrite Hnm]|done|].
  exists w2, w3. split; [done|]. split; [done|]. rewrite Hnw in S3, O3. rewrite Hnm in S2, O2.
  split; [done|]. split; [by rewrite O3|]. intros s g n. by rewrite K3, K2.
Qed.

(** A requested endpoint is known after Azure's turn. *)
Lemma azure_creates_pending (k : NamespacedName) c i es n w :
  stored w k = Some (put_endpoints i es c) → is_Some (ac_Subnets c !! i) → n ∈ names es →
  known (azure w) (SubscriptionID (ac_Spec c)) (ResourceGroup (ac_Spec c)) n = true.
Proof.
  intros Hk [sn Hi] (e & -> & He)%list_elem_of_fmap.
  apply (azure_creates w k (put_endpoints i es c) (set_PrivateEndpoints es sn) e Hk); [|done].
  apply list_elem_of_lookup. exists i. unfold put_endpoints, ac_Subnets. simpl.
  rewrite list_lookup_alter_eq. unfold ac_Subnets in Hi. by rewrite Hi.
Qed.

(** The clusters that a round leaves, and how it made them. *)
Definition worked req mc wc w0 res mc' wc' : Prop :=
  ∃ lw lm hl hm hw pm pw snm snw im iw w,
    setup r req w0 wc mc lw lm hl hm hw pm pw snm snw im iw w ∧
    heap (live now wc mc lw lm hl hm hw pm pw snm snw im iw w).2 = [wc'; mc'] ∧
    (res = no_result → (live now wc mc lw lm hl hm hw pm pw snm snw im iw w).1 = None).

Lemma round_step req mc wc w0 :
  ready req mc wc w0 →
  ∃ res s', Reconcile now r req (mkSt [] w0) = (Ret (res, None), s') ∧
    (∃ mc' wc', ready req mc' wc' (world s') ∧ wanted_names mc' wc' = wanted_names mc wc ∧
       worked req mc wc w0 res mc' wc') ∧
    (∀ s g n, known (world s') s g n = known w0 s g n) ∧
    (res = no_result ∨ res = {| RequeueAfter := Minute |} ∧
       ∃ s g n, (s, g, n) ∈ wanted_names mc wc ∧ known w0 s g n = false ∧
         known (azure (world s')) s g n = true).
Proof.
  intros Hready. destruct (ready_setup req mc wc w0 Hready)
    as (lw & lm & hl & hm & hw & pm & pw & snm & snw & im & iw & w & Hs & Hu & Hkl & Hkm & Hpm & Hpw).
  destruct (live_asked req mc wc w0 Hready lw lm hl hm hw pm pw snm snw im iw w Hs Hpm Hpw)
    as (err & ann & cs & esm & esw & w1 & Hlive & Hu1 & Hcs & Hp).
  set (wc' := put_status ann cs (put_endpoints iw esw (with_finalizer wc))) in *.
  set (mc' := put_endpoints im esm mc) in *.
  pose proof (stored_name _ _ _ (ready_wc _ _ _ _ Hready)) as Hnw.
  pose proof (stored_name _ _ _ (ready_mc _ _ _ _ Hready)) as Hnm.
  assert (Hdel : DeletionTimestamp (ac_meta wc') = DeletionTimestamp (ac_meta wc)).
  { unfold wc'. simpl. unfold with_finalizer. rewrite ContainsFinalizer_spec, AddFinalizer_spec.
    by destruct (bool_decide _). }
  assert (Hu' : unchanged w0 w1) by (by etrans).
  destruct (patched_both req mc wc mc' wc' hm hl w1) as (w2 & w3 & E2 & E3 & S3 & S3' & K3);
    [by rewrite <- Hnw; apply with_finalizer_name|done|apply Hready|done|done|
     eapply unchanged_stored; [exact Hu'|apply Hready]..|by rewrite Hdel; apply Hready|apply Hready|].
  pose proof (Reconcile_live_run now r req w0 wc mc lw lm hl hm hw pm pw snm snw im iw w Hs
    wc' mc' None w2 None w3 (ready_live _ _ _ _ Hready)) as Hrun.
  rewrite Hlive in Hrun. specialize (Hrun eq_refl E2 E3). simpl in Hrun.
  assert (Hk0 : ∀ s g n, known w3 s g n = known w0 s g n).
  { intros s g n. by rewrite K3, (proj2 Hu'). }
  assert (Hagain : ready req mc' wc' w3 ∧ wanted_names mc' wc' = wanted_names mc wc ∧
    worked req mc wc w0 (live_outcome err).1 mc' wc').
  { apply and_assoc. split; [by eapply ready_after|].
    exists lw, lm, hl, hm, hw, pm, pw, snm, snw, im, iw, w. rewrite Hlive. split_and!; [done|done|].
    simpl. destruct Hp as [->|[Hr _]]; [done|]. unfold live_outcome. by rewrite Hr. }
  exists (live_outcome err).1, (mkSt [wc'; mc'] w3). unfold live_outcome in *.
  destruct Hp as [->|[Hr Hp]].
  { rewrite IsRetriable_nil in *. split; [done|]. split; [eauto|]. split; [done|by left]. }
  rewrite Hr in *. split; [done|]. split; [eauto|]. split; [done|].
  right. split; [done|].
  destruct (with_finalizer_spec wc) as [Hspec _].
  destruct Hp as [(Hpriv & l & Hl & Hn & Hk)|(Hpriv & e & He & Hn & Hk)]; do 3 eexists;
    (split; [|split; [by rewrite <- (proj2 Hu); exact Hk|]]).
  - unfold wanted_names. rewrite Hpriv. apply elem_of_app. left.
    apply list_elem_of_fmap. by exists l.
  - eapply (azure_creates_pending _ mc im esm); [exact S3'| |done].
    by rewrite (setup_snm _ _ _ _ _ _ _ _ _ _ _ _ _ _ _ _ _ Hs).
  - unfold wanted_names. rewrite Hpriv. apply elem_of_app. right.
    apply list_elem_of_fmap. by exists e.
  - simpl. rewrite <- Hspec.
    eapply (azure_creates_pending _ (put_status ann cs (with_finalizer wc)) iw esw); [exact S3| |done].
    unfold ac_Subnets. simpl. rewrite Hspec.
    pose proof (setup_snw _ _ _ _ _ _ _ _ _ _ _ _ _ _ _ _ _ Hs) as Hsn. unfold ac_Subnets in Hsn.
    by rewrite Hsn.
Qed.

(** ** The loop *)

(** Reconciles until there is no requeue, at most [fuel] times: the number of
reconciliations and the last world.  An error or a panic has no result. *)
Fixpoint requeue_loop (req : NamespacedName) (fuel : nat) (w : W) : option (nat * W) :=
  match fuel with
  | O => None
  | S fuel =>
      match Reconcile now r req (mkSt [] w) with
      | (Ret (res, None), s') =>
          if Z.eqb (RequeueAfter res) 0 then Some (1, world s')
          else
            match requeue_loop req fuel (azure (world s')) with
            | Some (n, w') => Some (S n, w')
            | None => None
            end
      | _ => None
      end
  end.

(** How many of these endpoints Azure does not know. *)
Definition unknown (ids : list (string * string * string)) (w : W) : nat :=
  length (filter (λ '(s, g, n), known w s g n = false) ids).

Lemma unknown_decreases ids w w' s g n :
  (∀ s g n, known w' s g n = known w s g n) →
  (s, g, n) ∈ ids → known w s g n = false → known (azure w') s g n = true →
  unknown ids (azure w') < unknown ids w.
Proof.
  intros Hw Hin Hk Hk'. unfold unknown. apply filter_length_strict with (s, g, n).
  - intros [[s' g'] n'] Hf. rewrite <- Hw. apply not_true_iff_false. intros Ht.
    apply azure_forgets_nothing in Ht. congruence.
  - done.
  - done.
  - congruence.
Qed.

Lemma unknown_bound mc wc w : unknown (wanted_names mc wc) w ≤ S (length (open_links mc wc)).
Proof.
  unfold unknown. etrans; [apply length_filter|]. unfold wanted_names.
  rewrite length_app. destruct (private wc), (private mc); rewrite ?length_fmap; simpl; lia.
Qed.

Lemma ready_azure req mc wc w : ready req mc wc w → ready req mc wc (azure w).
Proof. intros []. split; try done; by rewrite azure_stored. Qed.

Lemma requeue_loop_ends req mc wc w fuel :
  ready req mc wc w → unknown (wanted_names mc wc) w < fuel →
  ∃ n w', requeue_loop req fuel w = Some (n, w') ∧ 0 < n ∧ n ≤ S (unknown (wanted_names mc wc) w).
Proof.
  intros Hready Hfuel.
  revert mc wc w Hready Hfuel. induction fuel as [|fuel IH]; intros mc wc w Hready Hfuel; [lia|].
  destruct (round_step req mc wc w Hready)
    as (res & s' & Hrun & (mc' & wc' & Hready' & Hids & _) & Hk & Hres).
  cbn [requeue_loop]. rewrite Hrun. destruct Hres as [->|(-> & s & g & n & Hin & Hf & Ht)].
  { exists 1, (world s'). simpl. repeat split; lia. }
  pose proof (unknown_decreases _ w (world s') s g n Hk Hin Hf Ht) as Hlt.
  assert (Hready'' : ready req mc' wc' (azure (world s'))) by (by apply ready_azure).
  destruct (IH mc' wc' _ Hready'') as (k & w' & E & Hpos & Hle); [rewrite Hids; lia|].
  rewrite E. exists (S k), w'. rewrite Hids in Hle. simpl. repeat split; lia.
Qed.

(** A property of the two clusters that the rounds keep holds when the loop ends. *)
Lemma requeue_loop_keeps req (I J : AzureCluster → AzureCluster → Prop) mc wc w fuel n w' :
  (∀ mc wc w0 res mc' wc', ready req mc wc w0 → worked req mc wc w0 res mc' wc' → I mc wc →
     I mc' wc' ∧ (res = no_result → J mc' wc')) →
  ready req mc wc w → I mc wc → requeue_loop req fuel w = Some (n, w') →
  ∃ mc' wc', ready req mc' wc' w' ∧ J mc' wc'.
Proof.
  intros Hround. revert mc wc w n. induction fuel as [|fuel IH]; intros mc wc w n Hready HI; [done|].
  destruct (round_step req mc wc w Hready)
    as (res & s' & Hrun & (mc' & wc' & Hready' & _ & Hwork) & _ & Hres).
  destruct (Hround _ _ _ _ _ _ Hready Hwork HI) as [HI' HJ].
  cbn [requeue_loop]. rewrite Hrun. destruct Hres as [->|[-> _]].
  { intros [= <- <-]. exists mc', wc'. auto. }
  simpl. destruct (requeue_loop req fuel _) as [[k v]|] eqn:E; [|done].
  intros [= _ <-]. eapply IH; [by apply ready_azure|exact HI'|exact E].
Qed.

(** C3: the requeue loop of a live workload cluster terminates.  In a cloud that
cooperates, the reconciliation of a cluster that is ready is never refused and never
panics, and it ends without a requeue after at most one reconciliation more than there
are wanted endpoints that Azure does not know: with a private workload cluster of
[k] allowed links, after at most [k + 2]. *)
Theorem requeue_loop_terminates req mc wc w fuel :
  ready req mc wc w → unknown (wanted_names mc wc) w < fuel →
  ∃ n w', requeue_loop req fuel w = Some (n, w') ∧ 0 < n ∧
    n ≤ S (unknown (wanted_names mc wc) w) ∧ n ≤ length (open_links mc wc) + 2.
Proof.
  intros Hready Hfuel. destruct (requeue_loop_ends req mc wc w fuel Hready Hfuel)
    as (n & w' & E & Hn & Hle).
  exists n, w'. pose proof (unknown_bound mc wc w). by repeat split; try lia.
Qed.
End convergence.
