(* ===== verification/EndToEnd.v ===== *)
(** * From a new workload cluster to a running control plane.

The requeue loop of [Convergence] ends; here is what it leaves behind.  In a cloud that
cooperates, the API server then stores all endpoints of a private workload cluster as
the operator wants them, and the workload cluster with the finalizer and with the
condition that the control plane waits for, so the KubeadmControlPlane reconciler
removes the pause annotation. *)
From S2P Require Import Prelude.
From S2P Require Import GoStrings.
From S2P Require Import GoNet.
From S2P Require Import Api.
From S2P Require Import Errors.
From S2P Require Import Util.
From S2P Require Import BaseScope.
From S2P Require Import PrivateLinks.
From S2P Require Import PrivateEndpoints.
From S2P Require Import Service.
From S2P Require Import ServiceSpec.
From S2P Require Import Reconciliation.
From S2P Require Import McToWc.
From S2P Require Import WcToMc.
From S2P Require Import AzureClient.
From S2P Require Import AzureClusterController.
From S2P Require Import AzureClusterProps.
From S2P Require Import KubeadmControlPlane.
From S2P Require Import Invariants.
From S2P Require Import Safety.
From S2P Require Import Fleet.
From S2P Require Import Operator.
From S2P Require Import Convergence.

Import KubeadmControlPlane.

Lemma core_put_endpoints i es c : core (ac_Spec (put_endpoints i es c)) = core (ac_Spec c).
Proof.
  unfold core, put_endpoints. simpl. do 2 f_equal. unfold ac_Subnets.
  generalize (Subnets (NetworkSpec_ (ac_Spec c))). intros sns. revert i.
  induction sns as [|sn sns IH]; intros [|i]; [done..|].
  transitivity (set_PrivateEndpoints [] sn ::
    (set_PrivateEndpoints [] <$> alter (set_PrivateEndpoints es) i sns)); [done|].
  by rewrite IH.
Qed.

Section end_to_end.
Context {W : Type} `{Microerror} `{FmtVerbs} `{ApiMachinery} `{!ClusterApiUtil W}
  `{!ControllerUtil W} `{!ControllerUtilLaws W} `{!ConditionsLaws W}.
Context (now : IO W Time) (r : AzureClusterReconciler W) `{!Storage W (acr_Client r)}.
Context `{!Cloud now r}.

#[local] Abbreviation view := (Operator.view (W := W)).

(** ** What a round leaves *)

(** The gateway condition is true, or can still be set: it is not there yet. *)
Definition gateway_ok (cs : slice Condition) : Prop :=
  conditions_IsTrue cs ConditionGSPrivateLinksReady = true ∨
  first_status (elems cs) ConditionGSPrivateLinksReady = None.

Lemma gateway_ok_append cs t :
  gateway_ok cs → conditions_IsTrue cs ConditionGSPrivateLinksReady = false →
  conditions_IsTrue (append cs (gateway_condition t)) ConditionGSPrivateLinksReady = true.
Proof.
  intros [->|Hn] Hf; [done|]. rewrite conditions_IsTrue_spec, elems_append, first_status_app, Hn.
  by apply bool_decide_eq_true.
Qed.

Lemma mc_to_wc_api_conditions (x : Statics W) a :
  a_conditions (mc_to_wc_api x a).2 = a_conditions a.
Proof.
  unfold mc_to_wc_api. destruct (links_for_mc x) as [|l ls]; [done|].
  destruct (conditions_IsTrue _ _); [|done].
  destruct (link_run x (l :: ls) a) as [[e|] a'] eqn:E;
    by destruct (link_run_endpoints _ _ _ _ _ E) as [Hc _].
Qed.

(** Conditions of which the first [cs] are the old ones. *)
Definition extends (cs cs' : slice Condition) : Prop :=
  cs' = cs ∨ ∃ t, cs' = append cs (gateway_condition t).

Lemma wc_to_mc_ingress_extends (x : Statics W) specs a :
  extends (a_conditions a) (a_conditions (wc_to_mc_ingress x now specs a).2).
Proof.
  unfold wc_to_mc_ingress.
  destruct (ask_all _ _ _ _) as [[e|] a'] eqn:E;
    destruct (ask_all_endpoints _ _ _ _ _ _ E) as (Hc & _); simpl; [by left|].
  rewrite mark_ready_conditions, Hc.
  destruct (conditions_IsTrue (a_conditions a) _); [by left|right; by eexists].
Qed.

(** After the ingress phase of a private management cluster. *)
Lemma wc_to_mc_ingress_gateway (x : Statics W) specs a :
  gateway_ok (a_conditions a) →
  gateway_ok (a_conditions (wc_to_mc_ingress x now specs a).2) ∧
  ((wc_to_mc_ingress x now specs a).1 = None →
   conditions_IsTrue (a_conditions (wc_to_mc_ingress x now specs a).2)
     ConditionGSPrivateLinksReady = true).
Proof.
  intros Hg. unfold wc_to_mc_ingress.
  destruct (ask_all _ _ _ _) as [[e|] a'] eqn:E;
    destruct (ask_all_endpoints _ _ _ _ _ _ E) as (Hc & _); simpl; [by rewrite Hc|].
  rewrite mark_ready_conditions, Hc.
  destruct (conditions_IsTrue (a_conditions a) ConditionGSPrivateLinksReady) eqn:Ec; [done|].
  pose proof (gateway_ok_append _ (now (a_world a')).1 Hg Ec) as Ht. split; [by left|done].
Qed.

Section round.
Context (req : NamespacedName) (w0 : W)
  (wc mc : AzureCluster) (lw lm : LoadBalancerSpec) (hl hm hw : PatchHelper)
  (pm pw : PrivateEndpointsClient W) (snm snw : SubnetSpec) (im iw : nat) (w : W)
  (Hs : setup r req w0 wc mc lw lm hl hm hw pm pw snm snw im iw w).

#[local] Abbreviation L := (live now wc mc lw lm hl hm hw pm pw snm snw im iw w).

Lemma live_clusters wc' mc' :
  heap L.2 = [wc'; mc'] →
  mc' = put_endpoints im (a_endpoints (api_phase wc mc lw hl hm pm snm im w).2) mc ∧
  (L.1 = None → (api_phase wc mc lw hl hm pm snm im w).1 = None) ∧
  (∃ ann cs esw, wc' = put_status ann cs (put_endpoints iw esw (with_finalizer wc)) ∧
     extends (Conditions wc) cs) ∧
  (gateway_ok (Conditions wc) → gateway_ok (Conditions wc') ∧
   (L.1 = None → private mc = true →
    conditions_IsTrue (Conditions wc') ConditionGSPrivateLinksReady = true)).
Proof.
  destruct (with_finalizer_spec wc) as [Hspec Hconds].
  assert (Hsn : ac_Subnets (with_finalizer wc) !! iw = Some snw).
  { unfold ac_Subnets. rewrite Hspec. exact (setup_snw _ _ _ _ _ _ _ _ _ _ _ _ _ _ _ _ _ Hs). }
  assert (Ha : a_conditions (api_phase wc mc lw hl hm pm snm im w).2 = Conditions wc).
  { unfold api_phase. destruct (String.eqb _ _); [rewrite mc_to_wc_api_conditions|]; exact Hconds. }
  rewrite (private_lm r req mc wc w0 lw lm hl hm hw pm pw snm snw im iw w Hs).
  unfold live. destruct (api_phase wc mc lw hl hm pm snm im w) as [[e1|] a1]; simpl in Ha.
  - intros [= <- <-]. split_and!; [done|done| |].
    + eexists _, _, (PrivateEndpoints snw). rewrite (put_endpoints_same _ _ _ Hsn).
      split; [done|by left].
    + simpl. by rewrite Ha.
  - set (wc1 := put_status (a_annotations a1) (a_conditions a1) (with_finalizer wc)).
    set (mc1 := put_endpoints im (a_endpoints a1) mc).
    unfold ingress_phase. destruct (String.eqb (lb_Type lm) Internal).
    2:{ intros [= <- <-]. split_and!; [done|done| |].
        - exists (a_annotations a1), (a_conditions a1), (PrivateEndpoints snw).
          split; [done|by left].
        - simpl. by rewrite Ha. }
    match goal with |- context [wc_to_mc_ingress ?x now ?specs ?a] =>
      pose proof (wc_to_mc_ingress_gateway x specs a) as Hg;
      pose proof (wc_to_mc_ingress_extends x specs a) as Hx;
      destruct (wc_to_mc_ingress x now specs a) as [e2 a2] end.
    intros [= <- <-]. split_and!; [done|done| |].
    + exists (a_annotations a2), (a_conditions a2), (a_endpoints a2). simpl in Hx.
      by rewrite Ha in Hx.
    + simpl in Hg |- *. rewrite Ha in Hg. intros Hok. destruct (Hg Hok). auto.
Qed.

Lemma live_view wc' mc' : heap L.2 = [wc'; mc'] →
  view mc' wc' = view mc wc ∧ private mc' = private mc ∧ private wc' = private wc ∧
  AzureClusterControllerFinalizer ∈ Finalizers (ac_meta wc').
Proof.
  intros (-> & _ & (ann & cs & esw & -> & _) & _)%live_clusters.
  destruct (with_finalizer_spec wc) as [Hspec _]. split_and!.
  - apply view_core; [done|apply core_put_endpoints|apply with_finalizer_name|].
    change (core (ac_Spec (put_endpoints iw esw (with_finalizer wc))) = core (ac_Spec wc)).
    by rewrite core_put_endpoints, Hspec.
  - done.
  - unfold private, ac_APIServerLB. simpl. by rewrite Hspec.
  - apply with_finalizer_in.
Qed.

Lemma advances_view lb es es' :
  ac_APIServerLB wc = Some lb →
  advances (wired_statics (the_endpoints 1 im hm pm) (the_links lb hl) mc wc) es es' →
  advances (view mc wc) es es'.
Proof.
  intros Hlb Ha. assert (Hl : PrivateLinks lb =
    match ac_APIServerLB wc with Some lb => PrivateLinks lb | None => [] end) by (by rewrite Hlb).
  unfold wired_statics in Ha. simpl in Ha. rewrite Hl in Ha. exact Ha.
Qed.

Lemma live_managed wc' mc' : heap L.2 = [wc'; mc'] → NoDup (names (managed mc)) →
  (if private wc then advances (view mc wc) (managed mc) (managed mc')
   else managed mc' = managed mc) ∧
  (L.1 = None → private wc = true →
   managed mc' = reconciled (view mc wc) (managed mc)).
Proof.
  intros (-> & Herr & _ & _)%live_clusters Hnd.
  rewrite managed_put by exact (setup_im _ _ _ _ _ _ _ _ _ _ _ _ _ _ _ _ _ Hs).
  rewrite (private_lw r req mc wc w0 lw lm hl hm hw pm pw snm snw im iw w Hs).
  assert (Hm : managed mc = PrivateEndpoints snm).
  { unfold managed. by rewrite (setup_im _ _ _ _ _ _ _ _ _ _ _ _ _ _ _ _ _ Hs),
      (setup_snm _ _ _ _ _ _ _ _ _ _ _ _ _ _ _ _ _ Hs). }
  rewrite Hm in Hnd |- *.
  assert (Hlb := proj1 (setup_lw _ _ _ _ _ _ _ _ _ _ _ _ _ _ _ _ _ Hs)). split.
  - unfold api_phase. rewrite wired_statics_finalizer by exact _.
    destruct (String.eqb (lb_Type lw) Internal); [|done]. eapply advances_view; [exact Hlb|].
    by apply (mc_to_wc_api_advances _ (initial_abs (with_finalizer wc) snm w)).
  - intros He%Herr Hp.
    destruct (api_phase wc mc lw hl hm pm snm im w) as [e a] eqn:Ea. simpl in He. subst e.
    apply api_phase_endpoints in Ea; [|exact _|done]. simpl. rewrite Ea, Hp.
    unfold view, wired_statics. simpl. by rewrite Hlb.
Qed.
End round.

(** ** The loop *)

(** A pair of clusters on its way to [x], and one that has arrived. *)
Record coming (x : Statics W) (pm pw : bool) (mc wc : AzureCluster) : Prop := {
  coming_view : view mc wc = x;
  coming_mc : private mc = pm;
  coming_wc : private wc = pw;
  coming_NoDup : NoDup (names (managed mc));
  coming_free : names_free x (managed mc);
  coming_gateway : gateway_ok (Conditions wc)
}.

Record connected (x : Statics W) (pm pw : bool) (mc wc : AzureCluster) : Prop := {
  connected_view : view mc wc = x;
  connected_mc : private mc = pm;
  connected_endpoints : pw = true → settled x (managed mc) ∧ nothing_stale x (managed mc);
  connected_gateway : pm = true →
    conditions_IsTrue (Conditions wc) ConditionGSPrivateLinksReady = true;
  connected_finalizer : AzureClusterControllerFinalizer ∈ Finalizers (ac_meta wc)
}.

Lemma round_connects x pm pw req mc wc w0 res mc' wc' :
  compatible x x → ready r req mc wc w0 → worked now r req mc wc w0 res mc' wc' →
  coming x pm pw mc wc →
  coming x pm pw mc' wc' ∧ (res = no_result → connected x pm pw mc' wc').
Proof.
  intros Hc _ (lw & lm & hl & hm & hw & cm & cw & snm & snw & im & iw & w & Hs & Hh & Hres)
    [Hv Hpm Hpw Hnd Hf Hg].
  destruct (live_view _ _ _ _ _ _ _ _ _ _ _ _ _ _ _ _ Hs _ _ Hh) as (Hv' & Hpm' & Hpw' & Hfin).
  destruct (live_managed _ _ _ _ _ _ _ _ _ _ _ _ _ _ _ _ Hs _ _ Hh Hnd) as [Ht He].
  destruct (live_clusters _ _ _ _ _ _ _ _ _ _ _ _ _ _ _ _ Hs _ _ Hh) as (_ & _ & _ & Hgw).
  destruct (Hgw Hg) as [Hg' Htrue]. rewrite Hv in *. split.
  - split; [done|congruence|congruence| | |done].
    + destruct (private wc); [by eapply touches_NoDup; [apply advances_touches|]|by rewrite Ht].
    + destruct (private wc); [by eapply advances_names_free|by rewrite Ht].
  - intros Hr%Hres. split; [done|congruence| |intros; apply Htrue; [done|congruence]|done].
    intros ->. rewrite He by done. split; [by apply reconciled_settled|apply reconciled_Forall].
Qed.

(** The gates that are met stay so. *)
Definition met_kept (wc wc' : AzureCluster) : Prop := ∀ t,
  gate_met (elems (Conditions wc)) t = true → gate_met (elems (Conditions wc')) t = true.

Lemma extends_met_kept wc wc' : extends (Conditions wc) (Conditions wc') → met_kept wc wc'.
Proof.
  intros [E|[t E]] g; rewrite !gate_met_status, E; [done|].
  rewrite elems_append, first_status_app. by destruct (first_status (elems (Conditions wc)) g).
Qed.

Lemma round_met_kept req mc wc w0 res mc' wc' :
  worked now r req mc wc w0 res mc' wc' → met_kept wc wc'.
Proof.
  intros (lw & lm & hl & hm & hw & cm & cw & snm & snw & im & iw & w & Hs & Hh & _).
  destruct (live_clusters _ _ _ _ _ _ _ _ _ _ _ _ _ _ _ _ Hs _ _ Hh)
    as (_ & _ & (ann & cs & esw & -> & Hx) & _).
  by apply extends_met_kept.
Qed.

Lemma loop_ready_connected req mc wc w fuel :
  ready r req mc wc w → unknown now r (wanted_names mc wc) w < fuel →
  NoDup (names (managed mc)) → compatible (view mc wc) (view mc wc) →
  names_free (view mc wc) (managed mc) → gateway_ok (Conditions wc) →
  ∃ n w' mc' wc', requeue_loop now r req fuel w = Some (n, w') ∧
    ready r req mc' wc' w' ∧ connected (view mc wc) (private mc) (private wc) mc' wc' ∧
    met_kept wc wc'.
Proof.
  intros Hready Hfuel Hnd Hc Hf Hg.
  destruct (requeue_loop_ends now r req mc wc w fuel Hready Hfuel) as (n & w' & E & _ & _).
  destruct (requeue_loop_keeps now r req
    (λ mc1 wc1, coming (view mc wc) (private mc) (private wc) mc1 wc1 ∧ met_kept wc wc1)
    (λ mc1 wc1, connected (view mc wc) (private mc) (private wc) mc1 wc1 ∧ met_kept wc wc1)
    mc wc w fuel n w')
    as (mc' & wc' & Hready' & Hj); [|done|by split; [split|intros t]|done|by exists n, w', mc', wc'].
  intros mc1 wc1 w1 res mc2 wc2 Hr Hwork [Hi Hm].
  destruct (round_connects _ _ _ _ _ _ _ _ _ _ Hc Hr Hwork Hi) as [Hi' Hj].
  assert (met_kept wc wc2) by (intros t Ht; eapply round_met_kept; [exact Hwork|by apply Hm]).
  split; [done|]. intros Hres. split; [by apply Hj|done].
Qed.

(** C2: a new workload cluster gets connected.  The cluster is [ready]: live, with
subnets, valid load balancers and, when private, links ready and one allowed; its links
of one name want one endpoint ([compatible]) and their names are not taken by other
endpoints ([names_free]); GSPrivateLinksReady is true or not there yet ([gateway_ok]).
Then, in a cloud that cooperates, reconciling it until there is no requeue ends, and the
API server stores:
in the management cluster, for a private workload cluster, the endpoint of every
allowed link just as the operator wants it and no endpoint into the cluster that serves
none of its links; in the workload cluster, the finalizer and, for a private management
cluster, a true GSPrivateLinksReady. *)
Theorem loop_connects req mc wc w fuel :
  ready r req mc wc w → unknown now r (wanted_names mc wc) w < fuel →
  NoDup (names (managed mc)) → compatible (view mc wc) (view mc wc) →
  names_free (view mc wc) (managed mc) → gateway_ok (Conditions wc) →
  ∃ n w' mc' wc', requeue_loop now r req fuel w = Some (n, w') ∧
    stored w' req = Some wc' ∧ stored w' (managementClusterName r) = Some mc' ∧
    connected (view mc wc) (private mc) (private wc) mc' wc'.
Proof.
  intros Hready Hfuel Hnd Hc Hf Hg.
  destruct (loop_ready_connected req mc wc w fuel)
    as (n & w' & mc' & wc' & E & Hready' & Hj & _); [done..|].
  exists n, w', mc', wc'. split_and!; [done|apply Hready'|apply Hready'|done].
Qed.

(** ** The control plane *)

(** [aside w v]: control planes and Clusters of Cluster API are read alike in both
worlds.  The AzureCluster reconciler works on neither, and to read them edits no
AzureCluster. *)
Class Aside := {
  aside : relation W;
  aside_PreOrder : PreOrder aside;
  aside_Get : ∀ k w, aside w (Get_AzureCluster (acr_Client r) k w).2;
  aside_NewHelper : ∀ o w, aside w (patch_NewHelper (acr_Client r) o w).2;
  aside_Patch : ∀ h c w, aside w (patch_Patch h (ObjAzureCluster c) w).2;
  aside_now : ∀ w, aside w (now w).2;
  aside_creator : ∀ c w, aside w (privateEndpointsClientCreator r (acr_Client r) c w).2;
  aside_client : ∀ c w p rg n o v,
    (privateEndpointsClientCreator r (acr_Client r) c w).1 = Ret (Ok (Some p)) →
    aside v (pec_Get p rg n o v).2;
  aside_azure : ∀ w, aside w (azure now r w);
  (** *** The reads of the control plane reconciler *)
  kcp_answer : ∀ k w v, aside w v →
    (Get_KubeadmControlPlane (acr_Client r) k v).1 = (Get_KubeadmControlPlane (acr_Client r) k w).1;
  kcp_world : ∀ k w, aside w (Get_KubeadmControlPlane (acr_Client r) k w).2 ∧
    same_clusters w (Get_KubeadmControlPlane (acr_Client r) k w).2;
  owner_answer : ∀ m w v, aside w v →
    (GetOwnerCluster (acr_Client r) m v).1 = (GetOwnerCluster (acr_Client r) m w).1;
  owner_world : ∀ m w, aside w (GetOwnerCluster (acr_Client r) m w).2 ∧
    same_clusters w (GetOwnerCluster (acr_Client r) m w).2;
  helper_answer : ∀ k w v, aside w v →
    (patch_NewHelper (acr_Client r) (ObjKubeadmControlPlane k) v).1 =
    (patch_NewHelper (acr_Client r) (ObjKubeadmControlPlane k) w).1
}.
Context `{!Aside}.
#[local] Existing Instance aside_PreOrder.

Lemma all_clusters_closed : EditClosed W (λ _, True).
Proof. by split. Qed.

Lemma Reconcile_aside req w : aside w (world (AzureClusterController.Reconcile now r req (mkSt [] w)).2).
Proof.
  destruct (Reconcile_keeps (λ _ _, True) (λ _ _, True) (aside w)) with
    (client := acr_Client r) (now := now) (r := r) (req := req) (w := w) as [_ Hw];
    [intros; exact all_clusters_closed| | | |done| | | |done|exact Hw];
    repeat intros ?.
  - split; [|done]. etrans; [done|apply aside_NewHelper].
  - split; [|done]. etrans; [done|apply aside_Patch].
  - split; [|done]. etrans; [done|apply aside_now].
  - split; [|done]. etrans; [done|apply aside_Get].
  - split; [|done]. etrans; [done|apply aside_Get].
  - split; [etrans; [done|apply aside_creator]|]. intros res Hres p -> rg n o v Hv.
    split; [|done]. etrans; [exact Hv|by eapply aside_client].
Qed.

Lemma loop_aside req fuel w n w' : requeue_loop now r req fuel w = Some (n, w') → aside w w'.
Proof.
  revert w n. induction fuel as [|fuel IH]; intros w n; [done|]. cbn [requeue_loop].
  pose proof (Reconcile_aside req w) as Ha.
  destruct (AzureClusterController.Reconcile now r req (mkSt [] w)) as [[[res [e|]]|p] s']; [done| |done].
  simpl in Ha. destruct (Z.eqb _ _); [by intros [= _ <-]|].
  destruct (requeue_loop _ _ _ _ _) as [[k v]|] eqn:E; [|done]. intros [= _ <-].
  etrans; [exact Ha|]. etrans; [apply aside_azure|]. by eapply IH.
Qed.

(** A control plane that waits for [req]: it is stored, it can be reconciled, and its
Cluster is not paused and has [req] as its infrastructure. *)
Record waiting (rk : Reconciler W) (req kreq : NamespacedName) (w : W) (kcp : KubeadmControlPlane)
    (cluster : Cluster) (helper : PatchHelper) : Prop := {
  waiting_kcp : (Get_KubeadmControlPlane (client rk) kreq w).1 = Ok kcp;
  waiting_owner : (GetOwnerCluster (client rk) (kcp_meta kcp) w).1 = Ok (Some cluster);
  waiting_helper :
    (patch_NewHelper (client rk) (ObjKubeadmControlPlane kcp) w).1 = Ok helper;
  waiting_reconcilable : reconcilable kcp = true;
  waiting_not_paused : default false (cl_Paused cluster) = false;
  waiting_infra : IsDefined (cl_InfrastructureRef cluster) = true ∧
    req = {| nn_Namespace := nn_Namespace kreq; nn_Name := cref_Name (cl_InfrastructureRef cluster) |}
}.

(** It is still waiting in a world where control planes and Clusters read the same, and
the reconciler reads it there. *)
Lemma waiting_read rk req kreq w v kcp cluster helper :
  client rk = acr_Client r → aside w v → waiting rk req kreq w kcp cluster helper →
  (∃ v', Get_KubeadmControlPlane (client rk) kreq v = (Ok kcp, v') ∧ aside w v' ∧ same_clusters v v') ∧
  (∃ v', GetOwnerCluster (client rk) (kcp_meta kcp) v = (Ok (Some cluster), v') ∧ aside w v' ∧
     same_clusters v v') ∧
  (∃ v', patch_NewHelper (client rk) (ObjKubeadmControlPlane kcp) v = (Ok helper, v') ∧ aside w v' ∧
     same_clusters v v').
Proof.
  intros Hcl Hv [Rk Ro Rh _ _ _]. rewrite Hcl in Rk, Ro, Rh |- *.
  pose proof (kcp_answer kreq w v Hv) as Ak. pose proof (kcp_world kreq v) as [Wk Sk].
  pose proof (owner_answer (kcp_meta kcp) w v Hv) as Ao.
  pose proof (owner_world (kcp_meta kcp) v) as [Wo So].
  pose proof (helper_answer kcp w v Hv) as Ah.
  pose proof (aside_NewHelper (ObjKubeadmControlPlane kcp) v) as Wh.
  pose proof (NewHelper_stored (ObjKubeadmControlPlane kcp) v) as Sh.
  destruct (Get_KubeadmControlPlane _ _ v) as [ak vk], (GetOwnerCluster _ _ v) as [ao vo],
    (patch_NewHelper _ _ v) as [ah vh]. simpl in *.
  rewrite Rk in Ak. rewrite Ro in Ao. rewrite Rh in Ah. subst ak ao ah.
  split_and!; eexists; (split; [reflexivity|]); (split; [by etrans|done]).
Qed.

(** The gates that are not the operator's own to open are met. *)
Definition others_met (gates : list string) (c : AzureCluster) : Prop :=
  ∀ t, t ∈ gates → t ≠ ConditionGSPrivateLinksReady → gate_met (elems (Conditions c)) t = true.

(** C10: a new workload cluster comes up.  The operator's two reconcilers, on a private
management cluster and in a cloud that cooperates: a control plane waits for the workload
cluster, and the gates that other operators open are met.  Then the requeue loop of the
workload cluster ends, and the next reconciliation of the control plane sends it to the
API server without the pause annotation and with no other change; the loop has seen to
GSPrivateLinksReady, has closed no gate, and has left control planes and Clusters alone. *)
Theorem new_cluster_unpaused rk gates req kreq mc wc w fuel kcp cluster helper :
  client rk = acr_Client r → managementCluster rk = managementClusterName r →
  azureClusterGates rk = Some gates → gates ≠ [] → private mc = true →
  ready r req mc wc w → unknown now r (wanted_names mc wc) w < fuel →
  NoDup (names (managed mc)) → compatible (view mc wc) (view mc wc) →
  names_free (view mc wc) (managed mc) → gateway_ok (Conditions wc) →
  waiting rk req kreq w kcp cluster helper → others_met gates wc →
  ∃ n w' v errp v', requeue_loop now r req fuel w = Some (n, w') ∧ same_clusters w' v ∧
    patch_Patch helper (ObjKubeadmControlPlane (unpause kcp)) v = (errp, v') ∧
    KubeadmControlPlane.Reconcile rk kreq w' = (Ret (no_result, None), v') ∧
    kcp_annotation (unpause kcp) PausedAnnotation = None ∧
    ∀ k, k ≠ PausedAnnotation → kcp_annotation (unpause kcp) k = kcp_annotation kcp k.
Proof.
  intros Hcl Hmcn Hgates Hne Hpriv Hready Hfuel Hnd Hc Hf Hg Hw Hothers.
  destruct (loop_ready_connected req mc wc w fuel)
    as (n & w' & mc' & wc' & E & Hready' & [_ Hp' _ Hgw _] & Hmet); [done..|].
  assert (A0 : aside w w') by (by eapply loop_aside).
  destruct (ready_lm _ _ _ _ _ Hready') as (lm & Hlm & _).
  rewrite Hpriv in Hp'. unfold private in Hp'. rewrite Hlm in Hp'. apply String.eqb_eq in Hp'.
  destruct (cloud_Get now r _ w' _ (ready_mc _ _ _ _ _ Hready')) as (w1 & E1 & [S1 _]).
  assert (A1 : aside w w1).
  { etrans; [exact A0|]. pose proof (aside_Get (managementClusterName r) w') as Ha. by rewrite E1 in Ha. }
  destruct (waiting_read rk req kreq w w1 kcp cluster helper) as ((w2 & E2 & A2 & S2) & _); [done..|].
  destruct (waiting_read rk req kreq w w2 kcp cluster helper) as (_ & (w3 & E3 & A3 & S3) & _); [done..|].
  assert (S3' : same_clusters w' w3) by (etrans; [exact S1|]; by etrans).
  assert (Hwc3 : stored w3 req = Some wc') by (rewrite S3'; apply Hready').
  destruct (cloud_Get now r _ w3 _ Hwc3) as (w4 & E4 & [S4 _]).
  assert (A4 : aside w w4).
  { etrans; [exact A3|]. pose proof (aside_Get req w3) as Ha. by rewrite E4 in Ha. }
  destruct (waiting_read rk req kreq w w4 kcp cluster helper) as (_ & _ & (w5 & E5 & _ & S5)); [done..|].
  destruct Hw as [_ _ _ Hrec Hpa [Hi Hreq]].
  destruct (patch_Patch helper (ObjKubeadmControlPlane (unpause kcp)) w5) as [errp w6] eqn:E6.
  assert (Hu : gate_control_plane (elems (Conditions wc')) (Some gates) kcp = unpause kcp).
  { unfold gate_control_plane. rewrite (proj2 (FindUnmet_nil _ _)); [done|].
    apply Forall_forall. intros t Ht. destruct (decide (t = ConditionGSPrivateLinksReady)) as [->|Hne'].
    - specialize (Hgw Hpriv). by rewrite conditions_IsTrue_spec in Hgw.
    - by apply Hmet, Hothers. }
  exists n, w', w5, errp, w6. split; [done|].
  split; [etrans; [exact S3'|]; by etrans|]. split; [done|]. split.
  - eapply (patched_run rk kreq w' gates Hgates Hne); try done.
    + by rewrite Hcl, Hmcn.
    + by rewrite <- Hreq, Hcl.
    + by rewrite Hu.
  - split; [by rewrite unpause_annotation, decide_True|].
    intros k Hk. by rewrite unpause_annotation, decide_False.
Qed.
End end_to_end.
