(* ===== verification/FleetLoop.v ===== *)
(** * A fleet of workload clusters, served one after the other.

[serve] runs the requeue loop of each cluster in turn, in a cloud that cooperates.  All
of them share the endpoints of the management cluster, as the API server stores them;
when the clusters are compatible, every one of them is left as the operator wants it. *)
From S2P Require Import Prelude.
From S2P Require Import GoStrings.
From S2P Require Import GoNet.
From S2P Require Import Api.
From S2P Require Import Errors.
From S2P Require Import BaseScope.
From S2P Require Import PrivateLinks.
From S2P Require Import PrivateEndpoints.
From S2P Require Import Service.
From S2P Require Import ServiceSpec.
From S2P Require Import Reconciliation.
From S2P Require Import McToWc.
From S2P Require Import WcToMc.
From S2P Require Import AzureClient.
From S2P Require Import AzureClusterController.
From S2P Require Import AzureClusterProps.
From S2P Require Import Safety.
From S2P Require Import Fleet.
From S2P Require Import Operator.
From S2P Require Import Convergence.
From S2P Require Import EndToEnd.

(** ** What a live reconciliation does not change of a cluster *)

Record akin (c c' : AzureCluster) : Prop := {
  akin_name : cluster_name c' = cluster_name c;
  akin_core : core (ac_Spec c') = core (ac_Spec c);
  akin_deletion : DeletionTimestamp (ac_meta c') = DeletionTimestamp (ac_meta c);
  akin_met : met_kept c c'
}.

#[export] Instance akin_PreOrder : PreOrder akin.
Proof.
  split; [intros c; split; try done; by intros t|].
  intros c1 c2 c3 [n1 s1 d1 m1] [n2 s2 d2 m2]. split; [congruence..|].
  intros t Ht. by apply m2, m1.
Qed.

Lemma akin_put_endpoints i es c : akin c (put_endpoints i es c).
Proof. split; [done|apply core_put_endpoints|done|by intros t]. Qed.

Lemma core_fields sp sp' : core sp' = core sp →
  SubscriptionID sp' = SubscriptionID sp ∧ ResourceGroup sp' = ResourceGroup sp ∧
  APIServerLB (NetworkSpec_ sp') = APIServerLB (NetworkSpec_ sp) ∧
  (Subnets (NetworkSpec_ sp) ≠ [] → Subnets (NetworkSpec_ sp') ≠ []).
Proof.
  intros E. injection E as E1 _ E2 _ E3 E4. split_and!; [done..|].
  intros Hne En. rewrite En in E4. by destruct (Subnets (NetworkSpec_ sp)).
Qed.

Section fleet_loop.
Context {W : Type} `{Microerror} `{FmtVerbs} `{ApiMachinery} `{!ClusterApiUtil W}
  `{!ControllerUtil W} `{!ControllerUtilLaws W} `{!ConditionsLaws W}.
Context (now : IO W Time) (r : AzureClusterReconciler W) `{!Storage W (acr_Client r)}.
Context `{!Cloud now r} `{!QuietLibraries now r}.

#[local] Abbreviation view := (Operator.view (W := W)).
#[local] Abbreviation mc_key := (managementClusterName r).

Section kin.
Context (mc mc' wc wc' : AzureCluster) (Hm : akin mc mc') (Hw : akin wc wc').

Lemma akin_view : view mc' wc' = view mc wc.
Proof. apply view_core; by apply Hm || apply Hw. Qed.

Lemma akin_lb : ac_APIServerLB wc' = ac_APIServerLB wc.
Proof. apply core_fields, (akin_core _ _ Hw). Qed.

Lemma akin_private : private wc' = private wc.
Proof. unfold private. by rewrite akin_lb. Qed.

Lemma akin_open_links : open_links mc' wc' = open_links mc wc.
Proof.
  unfold open_links. rewrite akin_lb.
  by destruct (core_fields _ _ (akin_core _ _ Hm)) as [-> _].
Qed.

Lemma ready_akin req w w' :
  ready r req mc wc w → stored w' req = Some wc' → stored w' mc_key = Some mc' →
  ready r req mc' wc' w'.
Proof.
  intros [_ _ Hne Hd Hdm [lw [Elw Hlw]] [lm [Elm Hlm]] Hsw Hsm Hl] Sw Sm.
  destruct (core_fields _ _ (akin_core _ _ Hm)) as (_ & _ & Hlbm & Hsubm).
  destruct (core_fields _ _ (akin_core _ _ Hw)) as (_ & _ & _ & Hsubw).
  split; try done.
  - by rewrite (akin_deletion _ _ Hw).
  - by rewrite (akin_deletion _ _ Hm).
  - exists lw. split; [by rewrite akin_lb|done].
  - exists lm. split; [by transitivity (ac_APIServerLB mc)|done].
  - by apply Hsubw.
  - by apply Hsubm.
  - rewrite akin_private, akin_open_links. intros Hp. destruct (Hl Hp) as [? Hc]. split; [done|].
    rewrite conditions_IsTrue_spec in Hc |- *. by apply (akin_met _ _ Hw).
Qed.
End kin.

(** ** One cluster *)

Lemma round_akin req mc wc w0 res mc' wc' :
  worked now r req mc wc w0 res mc' wc' → akin mc mc' ∧ akin wc wc'.
Proof.
  intros Hwork. pose proof (round_met_kept now r _ _ _ _ _ _ _ Hwork) as Hm.
  destruct Hwork as (lw & lm & hl & hm & hw & cm & cw & snm & snw & im & iw & w & Hs & Hh & _).
  destruct (live_clusters now r _ _ _ _ _ _ _ _ _ _ _ _ _ _ _ _ Hs _ _ Hh)
    as (-> & _ & (ann & cs & esw & -> & _) & _).
  destruct (with_finalizer_spec wc) as [Hspec _]. split; [apply akin_put_endpoints|]. split.
  - apply with_finalizer_name.
  - change (core (ac_Spec (put_endpoints iw esw (with_finalizer wc))) = core (ac_Spec wc)).
    by rewrite core_put_endpoints, Hspec.
  - simpl. unfold with_finalizer. rewrite ContainsFinalizer_spec, AddFinalizer_spec.
    by destruct (bool_decide _).
  - done.
Qed.

Lemma round_advances req mc wc w0 res mc' wc' :
  worked now r req mc wc w0 res mc' wc' → NoDup (names (managed mc)) →
  (if private wc then advances (view mc wc) (managed mc) (managed mc')
   else managed mc' = managed mc) ∧
  (res = no_result → private wc = true → managed mc' = reconciled (view mc wc) (managed mc)).
Proof.
  intros (lw & lm & hl & hm & hw & cm & cw & snm & snw & im & iw & w & Hs & Hh & Hres) Hnd.
  destruct (live_managed now r _ _ _ _ _ _ _ _ _ _ _ _ _ _ _ _ Hs _ _ Hh Hnd) as [Ha He].
  split; [done|]. intros Hr. by apply He, Hres.
Qed.

Lemma loop_others req fuel w n w' k :
  requeue_loop now r req fuel w = Some (n, w') → k ≠ req → k ≠ mc_key → stored w' k = stored w k.
Proof.
  intros E Hk Hm. revert w n E. induction fuel as [|fuel IH]; intros w n; [done|].
  cbn [requeue_loop].
  assert (Ho : stored (world (Reconcile now r req (mkSt [] w)).2) k = stored w k).
  { refine (proj2 (after_keeps now r req (λ _ _, True) _ _ w _) k Hk Hm); [by intros; split|done..]. }
  destruct (Reconcile now r req (mkSt [] w)) as [[[res [e|]]|p] s']; [done| |done].
  simpl in Ho. destruct (Z.eqb _ _); [by intros [= _ <-]|].
  destruct (requeue_loop _ _ _ _ _) as [[m v]|] eqn:E; [|done]. intros [= _ <-].
  rewrite (IH _ _ E). by rewrite azure_stored.
Qed.

(** A property [P] of endpoints that the steps of the cluster keep, and [Q] that its
success brings. *)
Lemma loop_serves req mc wc w fuel (P Q : list PrivateEndpointSpec → Prop) :
  ready r req mc wc w → S (length (open_links mc wc)) < fuel →
  NoDup (names (managed mc)) → P (managed mc) →
  (private wc = true → ∀ es es', P es → advances (view mc wc) es es' → P es') →
  (private wc = true → ∀ es, P es → Q (reconciled (view mc wc) es)) →
  ∃ n w' mc' wc', requeue_loop now r req fuel w = Some (n, w') ∧ ready r req mc' wc' w' ∧
    akin mc mc' ∧ akin wc wc' ∧ NoDup (names (managed mc')) ∧ P (managed mc') ∧
    (private wc = true → Q (managed mc')).
Proof.
  intros Hready Hfuel Hnd HP HPs HQ.
  assert (Hu : unknown now r (wanted_names mc wc) w < fuel).
  { pose proof (unknown_bound now r mc wc w). lia. }
  destruct (requeue_loop_ends now r req mc wc w fuel Hready Hu) as (n & w' & E & _ & _).
  set (I mc1 wc1 := akin mc mc1 ∧ akin wc wc1 ∧ NoDup (names (managed mc1)) ∧ P (managed mc1)).
  destruct (requeue_loop_keeps now r req I
    (λ mc1 wc1, I mc1 wc1 ∧ (private wc = true → Q (managed mc1))) mc wc w fuel n w')
    as (mc' & wc' & Hready' & (? & ? & ? & ?) & ?);
    [|done|by unfold I|done|by exists n, w', mc', wc'].
  intros mc1 wc1 w1 res mc2 wc2 _ Hwork (Am & Aw & Hnd1 & HP1).
  destruct (round_akin _ _ _ _ _ _ _ Hwork) as [Am' Aw'].
  destruct (round_advances _ _ _ _ _ _ _ Hwork Hnd1) as [Ha Hr].
  rewrite (akin_private _ _ Aw), (akin_view _ _ _ _ Am Aw) in Ha, Hr.
  assert (HI : I mc2 wc2).
  { split; [by etrans|]. split; [by etrans|]. destruct (private wc); [|by rewrite Ha].
    split; [eapply touches_NoDup; [by apply advances_touches|done]|by eapply HPs]. }
  split; [done|]. intros Hres. split; [done|]. intros Hp. rewrite Hr by done. by apply HQ.
Qed.

(** ** All of them *)

(** The requeue loops of some clusters, one after the other. *)
Fixpoint serve (reqs : list NamespacedName) (fuel : nat) (w : W) : option W :=
  match reqs with
  | [] => Some w
  | req :: reqs =>
      match requeue_loop now r req fuel w with
      | Some (_, w') => serve reqs fuel w'
      | None => None
      end
  end.

(** The private ones of these clusters, as the fleet sees them. *)
Definition private_views (reqs : list NamespacedName) (mc : AzureCluster) (w : W) : list (Statics W) :=
  req ← reqs;
  match stored w req with
  | Some wc => if private wc then [view mc wc] else []
  | None => []
  end.

Lemma elem_of_private_views reqs mc w req wc :
  req ∈ reqs → stored w req = Some wc → private wc = true →
  view mc wc ∈ private_views reqs mc w.
Proof.
  intros Hreq Hwc Hp. apply list_elem_of_bind. exists req. rewrite Hwc, Hp. split; [by left|done].
Qed.

Section serving.
Context (all : list NamespacedName) (fuel : nat) (mc : AzureCluster) (w : W).
Context (Hall : ∀ req, req ∈ all → ∃ wc, ready r req mc wc w ∧ S (length (open_links mc wc)) < fuel).

(** A world on the way. *)
Record along (mc' : AzureCluster) (w' : W) : Prop := {
  along_mc : stored w' mc_key = Some mc';
  along_akin : akin mc mc';
  along_NoDup : NoDup (names (managed mc'));
  along_wc : ∀ req wc, req ∈ all → stored w req = Some wc →
    ∃ wc', stored w' req = Some wc' ∧ akin wc wc'
}.

Lemma along_ready mc' w' req :
  along mc' w' → req ∈ all → ∃ wc wc', stored w req = Some wc ∧ akin wc wc' ∧
    ready r req mc' wc' w' ∧ S (length (open_links mc' wc')) < fuel.
Proof.
  intros [Hm Am _ Hk] Hreq. destruct (Hall req Hreq) as (wc & Hr & Hf).
  pose proof (ready_wc _ _ _ _ _ Hr) as Hwc. destruct (Hk req wc Hreq Hwc) as (wc' & Hwc' & Aw).
  exists wc, wc'. split_and!; [done|done|by eapply ready_akin|by rewrite (akin_open_links _ _ _ _ Am Aw)].
Qed.

(** A property [P] of endpoints that all steps keep, and a relation [R] of clusters and
endpoints that a cluster's success brings and all steps keep. *)
Lemma serve_runs (P : list PrivateEndpointSpec → Prop) (R : Statics W → list PrivateEndpointSpec → Prop) :
  (∀ x es es', x ∈ private_views all mc w → P es → advances x es es' → P es') →
  (∀ x y es es', x ∈ private_views all mc w → y ∈ private_views all mc w → P es → R y es →
     advances x es es' → R y es') →
  (∀ x es, x ∈ private_views all mc w → P es → R x (reconciled x es)) →
  ∀ reqs mc1 w1, reqs ⊆ all → along mc1 w1 → P (managed mc1) →
  ∃ mc2 w2, serve reqs fuel w1 = Some w2 ∧ along mc2 w2 ∧ P (managed mc2) ∧
    (∀ x, x ∈ private_views reqs mc w → R x (managed mc2)) ∧
    (∀ x, x ∈ private_views all mc w → R x (managed mc1) → R x (managed mc2)).
Proof.
  intros HP HR HQ reqs. induction reqs as [|req reqs IH]; intros mc1 w1 Hsub Ha HP1.
  { exists mc1, w1. split_and!; try done. intros x Hx. by apply elem_of_nil in Hx. }
  assert (Hreq : req ∈ all) by (apply Hsub; by left).
  destruct (along_ready mc1 w1 req Ha Hreq) as (wc & wc1 & Hwc & Aw & Hr & Hf).
  destruct Ha as [Hm1 Am1 Hnd1 Hk1].
  pose proof (akin_view _ _ _ _ Am1 Aw) as Hv. pose proof (akin_private _ _ Aw) as Hpw.
  assert (Hin : private wc1 = true → view mc wc ∈ private_views all mc w).
  { rewrite Hpw. by apply (elem_of_private_views all mc w req). }
  destruct (loop_serves req mc1 wc1 w1 fuel
    (λ es, P es ∧ ∀ y, y ∈ private_views all mc w → R y (managed mc1) → R y es)
    (R (view mc wc))) as (n & w2 & mc2 & wc2 & E & Hr2 & Am2 & Aw2 & Hnd2 & [HP2 HR2] & HQ2);
    [done|done|done|done| | |].
  { intros Hp es es' [HPe HRe] He. rewrite Hv in He.
    split; [by eapply HP; [by apply Hin| |]|]. intros y Hy Ry.
    eapply HR; [by apply Hin|done|exact HPe|by apply HRe|done]. }
  { intros Hp es [HPe _]. rewrite Hv. by apply HQ; [apply Hin|]. }
  assert (Ha2 : along mc2 w2).
  { split; [apply Hr2|by etrans|done|]. intros k c Hk Hc.
    destruct (Hk1 k c Hk Hc) as (c1 & Hc1 & Ac). destruct (decide (k = req)) as [->|Hne].
    - assert (c = wc) as -> by congruence. exists wc2. split; [apply Hr2|].
      by transitivity wc1.
    - exists c1. split; [|done]. rewrite (loop_others _ _ _ _ _ k E); [done|done|].
      destruct (Hall k Hk) as (d & Hd & _). by apply Hd. }
  destruct (IH mc2 w2) as (mc3 & w3 & E3 & Ha3 & HP3 & HR3 & HR3'); [|done|done|].
  { intros k Hk. apply Hsub. by right. }
  exists mc3, w3. split_and!; [by cbn [serve]; rewrite E|done|done| |].
  - intros x (k & Hx & Hk)%list_elem_of_bind.
    apply elem_of_cons in Hk as [->|Hk]; [|apply HR3, list_elem_of_bind; by exists k].
    rewrite Hwc in Hx. destruct (private wc) eqn:Ep; [|by apply elem_of_nil in Hx].
    apply list_elem_of_singleton in Hx as ->.
    apply HR3'; [by apply Hin|by apply HQ2].
  - intros x Hx HRx. by apply HR3'; [|apply HR2].
Qed.
End serving.

(** C14: the fleet converges.  In a cloud that cooperates, with the clusters compatible
and the names of their endpoints not taken by others: running the requeue loops of any
ready workload clusters, one after the other in any order, ends, and then the API
server stores in the management cluster, for every private one of them, the endpoint of
every allowed link just as the operator wants it and no endpoint into the cluster that
serves none of its links.  Running them all again ends too and changes none of the
stored endpoints. *)
Theorem fleet_converges reqs mc w fuel :
  stored w mc_key = Some mc → NoDup (names (managed mc)) →
  (∀ req, req ∈ reqs → ∃ wc, ready r req mc wc w ∧ S (length (open_links mc wc)) < fuel) →
  all_compatible (private_views reqs mc w) →
  (∀ x, x ∈ private_views reqs mc w → names_free x (managed mc)) →
  ∃ w' mc', serve reqs fuel w = Some w' ∧ stored w' mc_key = Some mc' ∧
    (∀ x, x ∈ private_views reqs mc w → settled x (managed mc') ∧ nothing_stale x (managed mc')) ∧
    ∃ w'' mc'', serve reqs fuel w' = Some w'' ∧ stored w'' mc_key = Some mc'' ∧
      managed mc'' = managed mc'.
Proof.
  intros Hmc Hnd Hall Hc Hf.
  destruct (serve_runs reqs fuel mc w Hall
    (λ es, ∀ x, x ∈ private_views reqs mc w → names_free x es)
    (λ x es, settled x es ∧ nothing_stale x es)) with reqs mc w
    as (mc' & w' & E & Ha & _ & Hx & _); [| | |done| |done|].
  { intros x es es' Hx He Hadv y Hy. apply (advances_names_free x y es); [by apply Hc|done|by apply He]. }
  { intros x y es es' Hx Hy _ [Hs Hn] Hadv.
    split; [by apply (advances_settled x y es); [apply Hc| |]|].
    by apply (advances_nothing_stale x y es); [apply Hc| |]. }
  { intros x es Hx He. split; [apply reconciled_settled; [by apply Hc|by apply He]|apply reconciled_Forall]. }
  { split; [done|done|done|]. intros req wc _ Hwc. by exists wc. }
  exists w', mc'. split_and!; [done|by apply Ha|done|].
  destruct (serve_runs reqs fuel mc w Hall (λ es, es = managed mc') (λ _ _, True)) with reqs mc' w'
    as (mc'' & w'' & E' & Ha' & Hm & _); [|done|done|done|done|done|].
  { intros x es es' Hin -> Hadv. destruct (Hx x Hin). by eapply advances_id. }
  exists w'', mc''. split_and!; [done|by apply Ha'|done].
Qed.
End fleet_loop.
