(* ===== verification/Mocks.v ===== *)
(** * The generated mocks of the scope and of Azure's client.

pkg/privateendpoints/mock_privateendpoints/scope_mock.go and
pkg/azure/mock_azure/privateendpoints_mock.go: each method hands its name and arguments
to gomock's controller and takes its results out of the answer.  The controller is a
parameter, so nothing is proved of the mocks themselves. *)
From S2P Require Import Prelude.
From S2P Require Import GoStrings.
From S2P Require Import GoNet.
From S2P Require Import Api.
From S2P Require Import Errors.
From S2P Require Import BaseScope.
From S2P Require Import PrivateLinks.
From S2P Require Import PrivateEndpoints.
From S2P Require Import Service.

(** ** Values of the type [any], as far as the mocks have them *)

Inductive value :=
  | NilValue
  | ContextValue
  | StringValue (s : string)
  | BoolValue (b : bool)
  | NameValue (n : NamespacedName)
  | IPValue (ip : IP)
  | SpecValue (spec : PrivateEndpointSpec)
  | SpecsValue (specs : list PrivateEndpointSpec)
  | ErrorValue (e : errval)
  | OptionsValue (o : GetOptions)
  | ResponseValue (pep : PrivateEndpoint).

(** [v, _ := x.(T)]: the zero value of [T] when [x] is not a [T]. *)
Definition to_string (v : value) : string := match v with StringValue s => s | _ => "" end.
Definition to_bool (v : value) : bool := match v with BoolValue b => b | _ => false end.
Definition to_name (v : value) : NamespacedName :=
  match v with NameValue n => n | _ => {| nn_Namespace := ""; nn_Name := "" |} end.
Definition to_ip (v : value) : IP := match v with IPValue ip => ip | _ => [] end.
Definition to_specs (v : value) : list PrivateEndpointSpec :=
  match v with SpecsValue specs => specs | _ => [] end.
Definition to_error (v : value) : error := match v with ErrorValue e => Some e | _ => None end.
Definition to_response (v : value) : PrivateEndpoint :=
  match v with ResponseValue pep => pep | _ => {| pep_Properties := None |} end.

(** [go.uber.org/mock/gomock]: its controller, and what the recorders hand to it. *)
Class Gomock (S : Type) := {
  Controller : Type;
  Expected : Type;
  Matcher : Type;
  reflect_Type : Type;
  TypeOf_method : string → string → reflect_Type;
  T_Helper : Controller → M S unit;
  Call : Controller → loc → string → list value → M S (list value);
  RecordCallWithMethodType : Controller → loc →
    string → reflect_Type → list Matcher → M S Expected
}.

(** ** The mock of the scope *)

Module mock_privateendpoints.

(** The mock and its address; its recorder points back to it. *)
Record MockScope (S : Type) `{Gomock S} := { ctrl : Controller; self : loc }.
Arguments ctrl {S _} _.
Arguments self {S _} _.
Record MockScopeMockRecorder (S : Type) `{Gomock S} := { mock : MockScope S }.
Arguments mock {S _} _.

Section mock.
Context {S : Type} `{Gomock S}.

Definition NewMockScope (address : loc) (ctrl : Controller)
    : MockScope S := {| ctrl := ctrl; self := address |}.

Definition EXPECT (m : MockScope S) : MockScopeMockRecorder S := {| mock := m |}.

Definition AddPrivateEndpointSpec (m : MockScope S) (arg0 : PrivateEndpointSpec) : M S unit :=
  _ ← T_Helper (ctrl m);
  _ ← Call (ctrl m) (self m) "AddPrivateEndpointSpec" [SpecValue arg0];
  mret tt.

Definition Close (m : MockScope S) : M S error :=
  _ ← T_Helper (ctrl m);
  ret ← Call (ctrl m) (self m) "Close" [ContextValue];
  ret0 ← index ret 0;
  mret (to_error ret0).

Definition ContainsPrivateEndpointSpec (m : MockScope S) (arg0 : PrivateEndpointSpec)
    : M S bool :=
  _ ← T_Helper (ctrl m);
  ret ← Call (ctrl m) (self m) "ContainsPrivateEndpointSpec" [SpecValue arg0];
  ret0 ← index ret 0;
  mret (to_bool ret0).

Definition GetClusterName (m : MockScope S) : M S NamespacedName :=
  _ ← T_Helper (ctrl m);
  ret ← Call (ctrl m) (self m) "GetClusterName" [];
  ret0 ← index ret 0;
  mret (to_name ret0).

Definition GetLocation (m : MockScope S) : M S string :=
  _ ← T_Helper (ctrl m);
  ret ← Call (ctrl m) (self m) "GetLocation" [];
  ret0 ← index ret 0;
  mret (to_string ret0).

Definition GetPrivateEndpointIPAddress (m : MockScope S) (privateEndpointName : string)
    : M S (IP * error) :=
  _ ← T_Helper (ctrl m);
  ret ← Call (ctrl m) (self m) "GetPrivateEndpointIPAddress"
    [ContextValue; StringValue privateEndpointName];
  ret0 ← index ret 0;
  ret1 ← index ret 1;
  mret (to_ip ret0, to_error ret1).

Definition GetPrivateEndpoints (m : MockScope S) : M S (list PrivateEndpointSpec) :=
  _ ← T_Helper (ctrl m);
  ret ← Call (ctrl m) (self m) "GetPrivateEndpoints" [];
  ret0 ← index ret 0;
  mret (to_specs ret0).

Definition GetPrivateEndpointsToWorkloadCluster (m : MockScope S)
    (workloadClusterSubscriptionID : string) (workloadClusterResourceGroup : string)
    : M S (list PrivateEndpointSpec) :=
  _ ← T_Helper (ctrl m);
  ret ← Call (ctrl m) (self m) "GetPrivateEndpointsToWorkloadCluster"
    [StringValue workloadClusterSubscriptionID; StringValue workloadClusterResourceGroup];
  ret0 ← index ret 0;
  mret (to_specs ret0).

Definition GetResourceGroup (m : MockScope S) : M S string :=
  _ ← T_Helper (ctrl m);
  ret ← Call (ctrl m) (self m) "GetResourceGroup" [];
  ret0 ← index ret 0;
  mret (to_string ret0).

Definition GetSubscriptionID (m : MockScope S) : M S string :=
  _ ← T_Helper (ctrl m);
  ret ← Call (ctrl m) (self m) "GetSubscriptionID" [];
  ret0 ← index ret 0;
  mret (to_string ret0).

Definition PatchObject (m : MockScope S) : M S error :=
  _ ← T_Helper (ctrl m);
  ret ← Call (ctrl m) (self m) "PatchObject" [ContextValue];
  ret0 ← index ret 0;
  mret (to_error ret0).

Definition RemovePrivateEndpointByName (m : MockScope S) (arg0 : string) : M S unit :=
  _ ← T_Helper (ctrl m);
  _ ← Call (ctrl m) (self m) "RemovePrivateEndpointByName" [StringValue arg0];
  mret tt.

(** A mock as a value of the interface. *)
Definition as_Scope (m : MockScope S) : Scope S := {|
  sc_GetClusterName := GetClusterName m;
  sc_GetSubscriptionID := GetSubscriptionID m;
  sc_GetLocation := GetLocation m;
  sc_GetResourceGroup := GetResourceGroup m;
  sc_GetPrivateEndpoints := GetPrivateEndpoints m;
  sc_GetPrivateEndpointsToWorkloadCluster := GetPrivateEndpointsToWorkloadCluster m;
  sc_GetPrivateEndpointIPAddress := GetPrivateEndpointIPAddress m;
  sc_ContainsPrivateEndpointSpec := ContainsPrivateEndpointSpec m;
  sc_AddPrivateEndpointSpec := AddPrivateEndpointSpec m;
  sc_RemovePrivateEndpointByName := RemovePrivateEndpointByName m;
  sc_PatchObject := PatchObject m;
  sc_Close := Close m
|}.

End mock.

(** *** The expectations, by method *)

Module MockScopeMockRecorder.
Section mock.
Context {S : Type} `{Gomock S}.

Definition AddPrivateEndpointSpec (mr : MockScopeMockRecorder S) (arg0 : Matcher)
    : M S Expected :=
  _ ← T_Helper (ctrl (mock mr));
  RecordCallWithMethodType (ctrl (mock mr)) (self (mock mr)) "AddPrivateEndpointSpec"
    (TypeOf_method "MockScope" "AddPrivateEndpointSpec")
    [arg0].

Definition Close (mr : MockScopeMockRecorder S) (ctx : Matcher) : M S Expected :=
  _ ← T_Helper (ctrl (mock mr));
  RecordCallWithMethodType (ctrl (mock mr)) (self (mock mr)) "Close"
    (TypeOf_method "MockScope" "Close")
    [ctx].

Definition ContainsPrivateEndpointSpec (mr : MockScopeMockRecorder S) (arg0 : Matcher)
    : M S Expected :=
  _ ← T_Helper (ctrl (mock mr));
  RecordCallWithMethodType (ctrl (mock mr)) (self (mock mr)) "ContainsPrivateEndpointSpec"
    (TypeOf_method "MockScope" "ContainsPrivateEndpointSpec")
    [arg0].

Definition GetClusterName (mr : MockScopeMockRecorder S) : M S Expected :=
  _ ← T_Helper (ctrl (mock mr));
  RecordCallWithMethodType (ctrl (mock mr)) (self (mock mr)) "GetClusterName"
    (TypeOf_method "MockScope" "GetClusterName")
    [].

Definition GetLocation (mr : MockScopeMockRecorder S) : M S Expected :=
  _ ← T_Helper (ctrl (mock mr));
  RecordCallWithMethodType (ctrl (mock mr)) (self (mock mr)) "GetLocation"
    (TypeOf_method "MockScope" "GetLocation")
    [].

Definition GetPrivateEndpointIPAddress (mr : MockScopeMockRecorder S) (ctx : Matcher)
    (privateEndpointName : Matcher)
    : M S Expected :=
  _ ← T_Helper (ctrl (mock mr));
  RecordCallWithMethodType (ctrl (mock mr)) (self (mock mr)) "GetPrivateEndpointIPAddress"
    (TypeOf_method "MockScope" "GetPrivateEndpointIPAddress")
    [ctx; privateEndpointName].

Definition GetPrivateEndpoints (mr : MockScopeMockRecorder S) : M S Expected :=
  _ ← T_Helper (ctrl (mock mr));
  RecordCallWithMethodType (ctrl (mock mr)) (self (mock mr)) "GetPrivateEndpoints"
    (TypeOf_method "MockScope" "GetPrivateEndpoints")
    [].

Definition GetPrivateEndpointsToWorkloadCluster (mr : MockScopeMockRecorder S)
    (workloadClusterSubscriptionID : Matcher) (workloadClusterResourceGroup : Matcher)
    : M S Expected :=
  _ ← T_Helper (ctrl (mock mr));
  RecordCallWithMethodType (ctrl (mock mr)) (self (mock mr)) "GetPrivateEndpointsToWorkloadCluster"
    (TypeOf_method "MockScope" "GetPrivateEndpointsToWorkloadCluster")
    [workloadClusterSubscriptionID; workloadClusterResourceGroup].

Definition GetResourceGroup (mr : MockScopeMockRecorder S) : M S Expected :=
  _ ← T_Helper (ctrl (mock mr));
  RecordCallWithMethodType (ctrl (mock mr)) (self (mock mr)) "GetResourceGroup"
    (TypeOf_method "MockScope" "GetResourceGroup")
    [].

Definition GetSubscriptionID (mr : MockScopeMockRecorder S) : M S Expected :=
  _ ← T_Helper (ctrl (mock mr));
  RecordCallWithMethodType (ctrl (mock mr)) (self (mock mr)) "GetSubscriptionID"
    (TypeOf_method "MockScope" "GetSubscriptionID")
    [].

Definition PatchObject (mr : MockScopeMockRecorder S) (ctx : Matcher) : M S Expected :=
  _ ← T_Helper (ctrl (mock mr));
  RecordCallWithMethodType (ctrl (mock mr)) (self (mock mr)) "PatchObject"
    (TypeOf_method "MockScope" "PatchObject")
    [ctx].

Definition RemovePrivateEndpointByName (mr : MockScopeMockRecorder S) (arg0 : Matcher)
    : M S Expected :=
  _ ← T_Helper (ctrl (mock mr));
  RecordCallWithMethodType (ctrl (mock mr)) (self (mock mr)) "RemovePrivateEndpointByName"
    (TypeOf_method "MockScope" "RemovePrivateEndpointByName")
    [arg0].

End mock.
End MockScopeMockRecorder.
End mock_privateendpoints.

(** ** The mock of Azure's client *)

Module mock_azure.

(** The mock and its address; its recorder points back to it. *)
Record MockPrivateEndpointsClient (S : Type) `{Gomock S} := { ctrl : Controller; self : loc }.
Arguments ctrl {S _} _.
Arguments self {S _} _.
Record MockPrivateEndpointsClientMockRecorder (S : Type) `{Gomock S} :=
  { mock : MockPrivateEndpointsClient S }.
Arguments mock {S _} _.

Section mock.
Context {S : Type} `{Gomock S}.

Definition NewMockPrivateEndpointsClient (address : loc) (ctrl : Controller)
    : MockPrivateEndpointsClient S := {| ctrl := ctrl; self := address |}.

Definition EXPECT (m : MockPrivateEndpointsClient S)
    : MockPrivateEndpointsClientMockRecorder S := {| mock := m |}.

Definition Get (m : MockPrivateEndpointsClient S) (resourceGroupName : string)
    (privateEndpointName : string) (options : GetOptions)
    : M S (PrivateEndpoint * error) :=
  _ ← T_Helper (ctrl m);
  ret ← Call (ctrl m) (self m) "Get"
    [ContextValue; StringValue resourceGroupName; StringValue privateEndpointName; OptionsValue options];
  ret0 ← index ret 0;
  ret1 ← index ret 1;
  mret (to_response ret0, to_error ret1).

End mock.

Module MockPrivateEndpointsClientMockRecorder.
Section mock.
Context {S : Type} `{Gomock S}.

Definition Get (mr : MockPrivateEndpointsClientMockRecorder S) (ctx : Matcher)
    (resourceGroupName : Matcher) (privateEndpointName : Matcher) (options : Matcher)
    : M S Expected :=
  _ ← T_Helper (ctrl (mock mr));
  RecordCallWithMethodType (ctrl (mock mr)) (self (mock mr)) "Get"
    (TypeOf_method "MockPrivateEndpointsClient" "Get")
    [ctx; resourceGroupName; privateEndpointName; options].

End mock.
End MockPrivateEndpointsClientMockRecorder.
End mock_azure.
