(* ===== verification/TestHelpers.v ===== *)
(** * pkg/testhelpers: builders, fake answers of Azure, and matchers.

A builder is a record that its methods replace; a test uses each builder in one chain,
so the sharing of memory between a builder and what it built does not show.  Objects
whose type or metadata the operator itself never reads carry them here ([Typed]). *)
From S2P Require Import Prelude.
From S2P Require Import GoStrings.
From S2P Require Import GoNet.
From S2P Require Import Api.
From S2P Require Import Errors.
From S2P Require Import Util.
From S2P Require Import BaseScope.
From S2P Require Import PrivateLinks.
From S2P Require Import PrivateEndpoints.
From S2P Require Import AzureClusterController.
From S2P Require Import Safety.

(** [TypeMeta] and [ObjectMeta] around an object. *)
Record Typed (A : Type) := { ty_Kind : string; ty_meta : ObjectMeta; ty_object : A }.
Arguments ty_Kind {A} _.
Arguments ty_meta {A} _.
Arguments ty_object {A} _.

Definition new_meta (namespace name : string) : ObjectMeta := {|
  Namespace := namespace; Name := name; Annotations := None; Finalizers := [];
  OwnerReferences := []; DeletionTimestamp := None
|}.

(** [Request]. *)
Definition Request (namespace name : string) : NamespacedName :=
  {| nn_Namespace := namespace; nn_Name := name |}.

(** ** azurecluster.go *)

Module AzureClusterBuilder.

Record Builder := {
  namespace : string;
  name : string;
  deletionTimestamp : option Time;
  finalizers : list string;
  subscriptionID : string;
  location : string;
  resourceGroup : string;
  subnets : list SubnetSpec;
  apiServerLB : LoadBalancerSpec;
  conditions : slice Condition;
  identityRef : option ObjectReference
}.

Definition New (namespace name : string) : Builder := {|
  namespace := namespace; name := name; deletionTimestamp := None; finalizers := [];
  subscriptionID := ""; location := ""; resourceGroup := ""; subnets := [];
  apiServerLB := {| lb_Type := ""; PrivateLinks := [] |}; conditions := None; identityRef := None
|}.

Definition WithResourceGroup (v : string) (b : Builder) : Builder := {|
  namespace := namespace b; name := name b; deletionTimestamp := deletionTimestamp b;
  finalizers := finalizers b; subscriptionID := subscriptionID b; location := location b;
  resourceGroup := v; subnets := subnets b; apiServerLB := apiServerLB b;
  conditions := conditions b; identityRef := identityRef b
|}.

Definition WithSubscriptionID (v : string) (b : Builder) : Builder := {|
  namespace := namespace b; name := name b; deletionTimestamp := deletionTimestamp b;
  finalizers := finalizers b; subscriptionID := v; location := location b;
  resourceGroup := resourceGroup b; subnets := subnets b; apiServerLB := apiServerLB b;
  conditions := conditions b; identityRef := identityRef b
|}.

Definition WithLocation (v : string) (b : Builder) : Builder := {|
  namespace := namespace b; name := name b; deletionTimestamp := deletionTimestamp b;
  finalizers := finalizers b; subscriptionID := subscriptionID b; location := v;
  resourceGroup := resourceGroup b; subnets := subnets b; apiServerLB := apiServerLB b;
  conditions := conditions b; identityRef := identityRef b
|}.

Definition WithFinalizer (v : string) (b : Builder) : Builder := {|
  namespace := namespace b; name := name b; deletionTimestamp := deletionTimestamp b;
  finalizers := finalizers b ++ [v]; subscriptionID := subscriptionID b; location := location b;
  resourceGroup := resourceGroup b; subnets := subnets b; apiServerLB := apiServerLB b;
  conditions := conditions b; identityRef := identityRef b
|}.

Definition WithDeletionTimestamp (v : Time) (b : Builder) : Builder := {|
  namespace := namespace b; name := name b; deletionTimestamp := Some v;
  finalizers := finalizers b; subscriptionID := subscriptionID b; location := location b;
  resourceGroup := resourceGroup b; subnets := subnets b; apiServerLB := apiServerLB b;
  conditions := conditions b; identityRef := identityRef b
|}.

Definition set_subnets (v : list SubnetSpec) (b : Builder) : Builder := {|
  namespace := namespace b; name := name b; deletionTimestamp := deletionTimestamp b;
  finalizers := finalizers b; subscriptionID := subscriptionID b; location := location b;
  resourceGroup := resourceGroup b; subnets := v; apiServerLB := apiServerLB b;
  conditions := conditions b; identityRef := identityRef b
|}.

Definition WithSubnet (name role : string) (privateEndpoints : list PrivateEndpointSpec)
    (b : Builder) : Builder :=
  set_subnets
    (subnets b ++ [{| sn_Name := name; Role := role; PrivateEndpoints := privateEndpoints |}]) b.

Definition set_apiServerLB (v : LoadBalancerSpec) (b : Builder) : Builder := {|
  namespace := namespace b; name := name b; deletionTimestamp := deletionTimestamp b;
  finalizers := finalizers b; subscriptionID := subscriptionID b; location := location b;
  resourceGroup := resourceGroup b; subnets := subnets b; apiServerLB := v;
  conditions := conditions b; identityRef := identityRef b
|}.

Definition WithAPILoadBalancerType (lbType : string) (b : Builder) : Builder :=
  set_apiServerLB {| lb_Type := lbType; PrivateLinks := PrivateLinks (apiServerLB b) |} b.

Definition WithPrivateLink (privateLink : PrivateLink) (b : Builder) : Builder :=
  set_apiServerLB {| lb_Type := lb_Type (apiServerLB b);
                     PrivateLinks := PrivateLinks (apiServerLB b) ++ [privateLink] |} b.

Definition WithCondition (condition : option Condition) (b : Builder) : Builder :=
  match condition with
  | None => b
  | Some c => {|
      namespace := namespace b; name := name b; deletionTimestamp := deletionTimestamp b;
      finalizers := finalizers b; subscriptionID := subscriptionID b; location := location b;
      resourceGroup := resourceGroup b; subnets := subnets b; apiServerLB := apiServerLB b;
      conditions := append (conditions b) c; identityRef := identityRef b |}
  end.

Definition WithIdentity (identity : Typed AzureClusterIdentity) (b : Builder) : Builder := {|
  namespace := namespace b; name := name b; deletionTimestamp := deletionTimestamp b;
  finalizers := finalizers b; subscriptionID := subscriptionID b; location := location b;
  resourceGroup := resourceGroup b; subnets := subnets b; apiServerLB := apiServerLB b;
  conditions := conditions b;
  identityRef := Some {| ref_Kind := ty_Kind identity; ref_Namespace := Namespace (ty_meta identity);
                         ref_Name := Name (ty_meta identity) |}
|}.

Definition Build (b : Builder) : AzureCluster := {|
  ac_meta := {| Namespace := namespace b; Name := name b; Annotations := None;
                Finalizers := finalizers b; OwnerReferences := [];
                DeletionTimestamp := deletionTimestamp b |};
  ac_Spec := {|
    SubscriptionID := subscriptionID b; Location := location b; ResourceGroup := resourceGroup b;
    IdentityRef := identityRef b;
    NetworkSpec_ := {| APIServerLB := Some (apiServerLB b); Subnets := subnets b |} |};
  Conditions := conditions b
|}.

End AzureClusterBuilder.

(** ** privatelink.go *)

Module PrivateLinkBuilder.

Record Builder := {
  name : string;
  allowedSubscriptions : list (option string);
  autoApprovedSubscriptions : list (option string)
}.

Definition New (name : string) : Builder :=
  {| name := name; allowedSubscriptions := []; autoApprovedSubscriptions := [] |}.

Definition WithAllowedSubscription (subscriptionID : string) (b : Builder) : Builder :=
  {| name := name b; allowedSubscriptions := allowedSubscriptions b ++ [Some subscriptionID];
     autoApprovedSubscriptions := autoApprovedSubscriptions b |}.

Definition WithAutoApprovedSubscription (subscriptionID : string) (b : Builder) : Builder :=
  {| name := name b; allowedSubscriptions := allowedSubscriptions b;
     autoApprovedSubscriptions := autoApprovedSubscriptions b ++ [Some subscriptionID] |}.

Definition Build (b : Builder) : PrivateLink :=
  {| pl_Name := name b; AllowedSubscriptions := allowedSubscriptions b;
     AutoApprovedSubscriptions := autoApprovedSubscriptions b |}.

End PrivateLinkBuilder.

(** ** privateendpoint.go *)

Definition FakePrivateLinkConnectionName (privateLinkName : string) : string :=
  privateLinkName +:+ "-connection".

Module PrivateEndpointBuilder.

Record Builder := {
  name : string;
  location : string;
  privateLinkServiceConnections : list PrivateLinkServiceConnection
}.

Definition New (name : string) : Builder :=
  {| name := name; location := ""; privateLinkServiceConnections := [] |}.

Definition WithLocation (v : string) (b : Builder) : Builder :=
  {| name := name b; location := v;
     privateLinkServiceConnections := privateLinkServiceConnections b |}.

Definition WithPrivateLinkServiceConnectionWithName
    (subscriptionID resourceGroup privateLinkName connectionName : string) (b : Builder) : Builder :=
  {| name := name b; location := location b;
     privateLinkServiceConnections := privateLinkServiceConnections b ++
       [{| plsc_Name := connectionName;
           PrivateLinkServiceID :=
             "/subscriptions/" +:+ subscriptionID +:+ "/resourceGroups/" +:+ resourceGroup +:+
             "/providers/Microsoft.Network/privateLinkServices/" +:+ privateLinkName;
           RequestMessage := "" |}] |}.

Definition WithPrivateLinkServiceConnection
    (subscriptionID resourceGroup privateLinkName : string) (b : Builder) : Builder :=
  {| name := name b; location := location b;
     privateLinkServiceConnections := privateLinkServiceConnections b ++
       [{| plsc_Name := FakePrivateLinkConnectionName privateLinkName;
           PrivateLinkServiceID :=
             "/subscriptions/" +:+ subscriptionID +:+ "/resourceGroups/" +:+ resourceGroup +:+
             "/providers/Microsoft.Network/privateLinkServices/" +:+ privateLinkName;
           RequestMessage := "" |}] |}.

Definition Build (b : Builder) : PrivateEndpointSpec :=
  {| pe_Name := name b; pe_Location := location b;
     PrivateLinkServiceConnections := privateLinkServiceConnections b; ManualApproval := false |}.

End PrivateEndpointBuilder.

(** ** helpers.go: package variables and bulk operations *)

Section helpers.
(** The types of the scheme and of an object, and the calls of the client. *)
Context {W Sch Obj : Type} (key_of : Obj → NamespacedName).
Context (k_Get : NamespacedName → Obj → IO W (result errval Obj))
  (k_Create k_Delete : Obj → IO W error).

(** [k8sClient] is nil or the client above. *)
Record Globals := { scheme : option Sch; k8sClient : bool; tests_world : W }.

Definition SetHelperScheme (s : option Sch) : M Globals unit := λ g,
  (Ret (), {| scheme := s; k8sClient := k8sClient g; tests_world := tests_world g |}).

Definition ensureSchemeSet : M Globals unit := λ g,
  if is_some (scheme g) then (Ret (), g) else (Panic PanicCall, g).

Definition SetHelperClient (c : bool) : M Globals unit := λ g,
  (Ret (), {| scheme := scheme g; k8sClient := c; tests_world := tests_world g |}).

Definition ensureClientSet : M Globals unit := λ g,
  if k8sClient g then (Ret (), g) else (Panic PanicCall, g).

Definition on_tests_world {A} (m : IO W A) : M Globals A := λ g,
  let '(a, w') := m (tests_world g) in
  (Ret a, {| scheme := scheme g; k8sClient := k8sClient g; tests_world := w' |}).

(** [Expect(err).To(Succeed())]: a failed expectation ends the test by a panic. *)
Definition ExpectSucceed (err : error) : M Globals unit :=
  match err with Some _ => go_panic PanicCall | None => mret () end.

(** The loop of [GetObjects]: the objects are filled in place. *)
Fixpoint get_loop (objs : list Obj) : M Globals (list Obj) :=
  match objs with
  | [] => mret []
  | obj :: objs' =>
      r ← on_tests_world (k_Get (key_of obj) obj);
      _ ← ExpectSucceed (match r with Err e => Some e | Ok _ => None end);
      rest ← get_loop objs';
      mret ((match r with Ok o => o | Err _ => obj end) :: rest)
  end.

Definition GetObjects (objs : list Obj) : M Globals (list Obj) :=
  _ ← ensureClientSet; get_loop objs.

(** The loops of [CreateObjects] and [DeleteObjects]. *)
Fixpoint each_succeeds (f : Obj → IO W error) (objs : list Obj) : M Globals unit :=
  match objs with
  | [] => mret ()
  | obj :: objs' =>
      err ← on_tests_world (f obj);
      _ ← ExpectSucceed err;
      each_succeeds f objs'
  end.

Definition CreateObjects (objs : list Obj) : M Globals unit :=
  _ ← ensureClientSet; each_succeeds k_Create objs.

Definition DeleteObjects (objs : list Obj) : M Globals unit :=
  _ ← ensureClientSet; each_succeeds k_Delete objs.

(** ** cluster.go *)

Definition GroupVersionControlPlane_Group : string := "controlplane.cluster.x-k8s.io".
Definition GroupVersionInfrastructure_Group : string := "infrastructure.cluster.x-k8s.io".

Record GroupVersionKind := { gvk_Group : string; gvk_Version : string; gvk_Kind : string }.

(** [ctrl.SetControllerReference(owner, controlled, scheme)], on the metadata of the
controlled object, and [apiutil.GVKForObject(cluster, scheme)]. *)
Context (SetControllerReference : Cluster → ObjectMeta → Sch → result errval ObjectMeta).
Context (GVKForObject : Cluster → Sch → result errval GroupVersionKind).

Definition no_reference : ContractVersionedObjectReference :=
  {| cref_APIGroup := ""; cref_Kind := ""; cref_Name := "" |}.

(** A builder is the object that it builds. *)
Definition NewClusterBuilder (namespace name : string) : M Globals Cluster :=
  _ ← ensureSchemeSet;
  mret {| cl_meta := new_meta namespace name; cl_Paused := None;
          cl_InfrastructureRef := no_reference; cl_ControlPlaneRef := no_reference |}.

Definition cluster_WithFinalizers (fs : list string) (o : Cluster) : Cluster :=
  cl_set_meta (set_Finalizers (Finalizers (cl_meta o) ++ fs) (cl_meta o)) o.

Definition set_DeletionTimestamp (t : Time) (m : ObjectMeta) : ObjectMeta :=
  {| Namespace := Namespace m; Name := Name m; Annotations := Annotations m;
     Finalizers := Finalizers m; OwnerReferences := OwnerReferences m;
     DeletionTimestamp := Some t |}.

Definition cluster_WithDeletionTimestamp (t : Time) (o : Cluster) : Cluster :=
  cl_set_meta (set_DeletionTimestamp t (cl_meta o)) o.

Definition cluster_WithPause (o : Cluster) : Cluster :=
  {| cl_meta := cl_meta o; cl_Paused := Some true;
     cl_InfrastructureRef := cl_InfrastructureRef o; cl_ControlPlaneRef := cl_ControlPlaneRef o |}.

Definition set_ControlPlaneRef (r : ContractVersionedObjectReference) (o : Cluster) : Cluster :=
  {| cl_meta := cl_meta o; cl_Paused := cl_Paused o;
     cl_InfrastructureRef := cl_InfrastructureRef o; cl_ControlPlaneRef := r |}.

Definition set_InfrastructureRef (r : ContractVersionedObjectReference) (o : Cluster) : Cluster :=
  {| cl_meta := cl_meta o; cl_Paused := cl_Paused o;
     cl_InfrastructureRef := r; cl_ControlPlaneRef := cl_ControlPlaneRef o |}.

(** Also writes the owner into the control plane, which is returned with the builder; the
scheme is the package variable. *)
Definition cluster_WithKubeadmControlPlane (k : Typed KubeadmControlPlane) (o : Cluster) :
    M Globals (Cluster * KubeadmControlPlane) := λ g,
  let o := set_ControlPlaneRef
    {| cref_APIGroup := GroupVersionControlPlane_Group; cref_Kind := ty_Kind k;
       cref_Name := Name (kcp_meta (ty_object k)) |} o in
  match scheme g with
  | None => (Panic NilDereference, g)
  | Some s =>
      match SetControllerReference o (kcp_meta (ty_object k)) s with
      | Err _ => (Panic PanicCall, g)
      | Ok m => (Ret (o, kcp_set_meta m (ty_object k)), g)
      end
  end.

Definition cluster_WithAzureASOManagedControlPlane {A} (cp : Typed A) (o : Cluster) : Cluster :=
  set_InfrastructureRef
    {| cref_APIGroup := GroupVersionInfrastructure_Group; cref_Kind := AzureASOManagedClusterKind;
       cref_Name := Name (ty_meta cp) |}
    (set_ControlPlaneRef
      {| cref_APIGroup := GroupVersionControlPlane_Group; cref_Kind := ty_Kind cp;
         cref_Name := Name (ty_meta cp) |} o).

Definition cluster_WithAzureCluster (ac : Typed AzureCluster) (o : Cluster) : Cluster :=
  set_InfrastructureRef
    {| cref_APIGroup := GroupVersionInfrastructure_Group; cref_Kind := ty_Kind ac;
       cref_Name := ac_Name (ty_object ac) |} o.

Definition cluster_WithDummyReferences (o : Cluster) : Cluster :=
  set_ControlPlaneRef
    {| cref_APIGroup := "controlplane.cluster.x-k8s.io"; cref_Kind := "DummyControlPlane";
       cref_Name := "dummy-controlplane" |}
    (set_InfrastructureRef
      {| cref_APIGroup := "infrastructure.cluster.x-k8s.io"; cref_Kind := "DummyInfraCluster";
         cref_Name := "dummy-infracluster" |} o).

Definition cluster_Build (o : Cluster) : M Globals (GroupVersionKind * Cluster) := λ g,
  match scheme g with
  | None => (Panic NilDereference, g)
  | Some s =>
      match GVKForObject o s with
      | Err _ => (Panic PanicCall, g)
      | Ok gvk => (Ret (gvk, o), g)
      end
  end.
End helpers.
Arguments Globals W Sch : clear implicits.

(** ** kubeadmcontrolplane.go *)

Definition NewKubeadmControlPlaneBuilder (namespace name : string) : KubeadmControlPlane :=
  {| kcp_meta := new_meta namespace name; ControlPlaneInitialized := None |}.

Definition kcp_WithPause (o : KubeadmControlPlane) : KubeadmControlPlane :=
  kcp_set_meta
    (set_Annotations (annotate PausedAnnotation "true" (Annotations (kcp_meta o))) (kcp_meta o)) o.

(** [past] is ten seconds before [time.Now]. *)
Definition kcp_WithDeletionTimestamp (past : Time) (o : KubeadmControlPlane) : KubeadmControlPlane :=
  kcp_set_meta (set_DeletionTimestamp past (kcp_meta o)) o.

Definition kcp_WithStatusProvisioned (o : KubeadmControlPlane) : KubeadmControlPlane :=
  {| kcp_meta := kcp_meta o; ControlPlaneInitialized := Some true |}.

(** ** azureclusteridentity.go *)

Record AzureClusterIdentityBuilder := {
  ib_namespace : string; ib_name : string; ib_tenantID : string; ib_clientID : string
}.

Definition NewAzureClusterIdentityBuilder (namespace name : string) : AzureClusterIdentityBuilder :=
  {| ib_namespace := namespace; ib_name := name; ib_tenantID := ""; ib_clientID := "" |}.

Definition identity_WithTenantID (id : string) (b : AzureClusterIdentityBuilder) :
    AzureClusterIdentityBuilder :=
  {| ib_namespace := ib_namespace b; ib_name := ib_name b; ib_tenantID := id;
     ib_clientID := ib_clientID b |}.

Definition identity_WithClientID (id : string) (b : AzureClusterIdentityBuilder) :
    AzureClusterIdentityBuilder :=
  {| ib_namespace := ib_namespace b; ib_name := ib_name b; ib_tenantID := ib_tenantID b;
     ib_clientID := id |}.

Definition identity_Build (b : AzureClusterIdentityBuilder) : Typed AzureClusterIdentity := {|
  ty_Kind := AzureClusterIdentityKind;
  ty_meta := new_meta (ib_namespace b) (ib_name b);
  ty_object := {| id_Type := WorkloadIdentity; id_TenantID := ib_tenantID b;
                  id_ClientID := ib_clientID b; id_ClientSecret_Namespace := "";
                  id_ClientSecret_Name := "" |}
|}.

(** ** azureasocredentialssecret.go

The builder fills [StringData], which the API server moves to [Data]. *)
Record AzureASOCredentialsSecretBuilder := {
  sb_meta : ObjectMeta; sb_StringData : gmap string string
}.

Definition NewAzureASOCredentialsSecretBuilder (namespace name : string) :
    AzureASOCredentialsSecretBuilder :=
  {| sb_meta := new_meta namespace name; sb_StringData := ∅ |}.

Definition secret_with (key value : string) (b : AzureASOCredentialsSecretBuilder) :
    AzureASOCredentialsSecretBuilder :=
  {| sb_meta := sb_meta b; sb_StringData := <[key := value]> (sb_StringData b) |}.

Definition secret_WithSubscriptionID (id : string) := secret_with "AZURE_SUBSCRIPTION_ID" id.
Definition secret_WithTenantID (id : string) := secret_with "AZURE_TENANT_ID" id.
Definition secret_WithClientID (id : string) := secret_with "AZURE_CLIENT_ID" id.

Definition secret_Build (b : AzureASOCredentialsSecretBuilder) : AzureASOCredentialsSecretBuilder :=
  secret_with "AUTH_MODE" "workloadidentity" b.

(** ** azureasomanagedcontrolplane.go

The resource is kept as an object, which the API server renders to bytes. *)
Record AzureASOManagedControlPlaneBuilder := {
  mb_meta : ObjectMeta; mb_namespace : string; mb_managedCluster : Unstructured
}.

Definition NewAzureASOManagedControlPlaneBuilder (namespace name : string) :
    AzureASOManagedControlPlaneBuilder := {|
  mb_meta := new_meta namespace name;
  mb_namespace := namespace;
  mb_managedCluster :=
    {| u_Group := "containerservice.azure.com"; u_Version := "v1api20240901";
       u_Kind := AzureASOManagedClusterKind; u_Name := name; u_Annotations := ∅; u_spec := None |}
|}.

Definition aso_WithCredentialSecret (secret_meta : ObjectMeta)
    (b : AzureASOManagedControlPlaneBuilder) : AzureASOManagedControlPlaneBuilder :=
  let u := mb_managedCluster b in {|
  mb_meta := mb_meta b; mb_namespace := mb_namespace b;
  mb_managedCluster :=
    {| u_Group := u_Group u; u_Version := u_Version u; u_Kind := u_Kind u; u_Name := u_Name u;
       u_Annotations := {[ "serviceoperator.azure.com/credential-from" := Name secret_meta ]};
       u_spec := u_spec u |}
|}.

Definition AzureASOManagedControlPlaneKind : string := "AzureASOManagedControlPlane".

(** The built object: kind, metadata, and resources as objects. *)
Definition aso_Build (b : AzureASOManagedControlPlaneBuilder) : Typed (list Unstructured) :=
  {| ty_Kind := AzureASOManagedControlPlaneKind; ty_meta := mb_meta b;
     ty_object := [mb_managedCluster b] |}.

(** ** matchers.go *)

Record matchStatusCondition := { m_gates : slice string; m_unmet : slice string }.

Definition MeetConditions (gates : slice string) : matchStatusCondition :=
  {| m_gates := gates; m_unmet := None |}.

(** [actual] is a slice of conditions, or a value of another type: [None]. *)
Definition Match (actual : option (slice Condition)) (m : matchStatusCondition) :
    (bool * error) * matchStatusCondition :=
  match actual with
  | None => ((false, Some (NewErr "actual should be of type v1beta1.Conditions")), m)
  | Some conditions =>
      let m := {| m_gates := m_gates m;
                  m_unmet := FindUnmetStatusConditions (elems conditions) (m_gates m) |} in
      if Nat.ltb 0 (slice_len (m_unmet m)) then ((false, None), m) else ((true, None), m)
  end.

(** ** azureclient.go: fake answers of Azure

An expectation of a call of [Get], with the answer; the counter of calls that the test
shares with it is the state. *)
Record Expectation := {
  ex_ResourceGroup : string;
  ex_Name : string;
  ex_Options : GetOptions;
  ex_MinTimes : nat;
  ex_MaxTimes : nat;
  ex_Action : IO nat (result errval PrivateEndpoint)
}.

Definition StatusNotFound : Z := 404.

(** [&azcore.ResponseError{StatusCode: http.StatusNotFound}]. *)
Definition not_found_error : errval := AzureResponseErr StatusNotFound "".

Definition fake_ipConfigurations (expectedPrivateIpString : string) :
    list (option InterfaceIPConfiguration) :=
  if String.eqb expectedPrivateIpString "" then []
  else [Some {| ipc_Properties := Some (Some expectedPrivateIpString) |}].

Definition fake_endpoint (expectedPrivateIpString : string) : PrivateEndpoint :=
  {| pep_Properties :=
       Some [Some {| if_Properties := Some (fake_ipConfigurations expectedPrivateIpString) |}] |}.

Definition SetupPrivateEndpointClientToReturnPrivateIp
    (mcResourceGroup expectedPrivateEndpointName expectedPrivateIpString : string) : Expectation := {|
  ex_ResourceGroup := mcResourceGroup;
  ex_Name := expectedPrivateEndpointName;
  ex_Options := {| Expand := Some "NetworkInterfaces" |};
  ex_MinTimes := 1; ex_MaxTimes := 1;
  ex_Action := io_pure (Ok (fake_endpoint expectedPrivateIpString))
|}.

Definition SetupPrivateEndpointClientWithoutPrivateIp
    (mcResourceGroup expectedPrivateEndpointName : string) : Expectation :=
  SetupPrivateEndpointClientToReturnPrivateIp mcResourceGroup expectedPrivateEndpointName "".

Definition SetupPrivateEndpointClientToReturnNotFound
    (mcResourceGroup expectedPrivateEndpointName : string) : Expectation := {|
  ex_ResourceGroup := mcResourceGroup;
  ex_Name := expectedPrivateEndpointName;
  ex_Options := {| Expand := Some "NetworkInterfaces" |};
  ex_MinTimes := 1; ex_MaxTimes := 1;
  ex_Action := io_pure (Err not_found_error)
|}.

Definition SetupPrivateEndpointClientToReturnNotFoundAndThenPrivateEndpointWithPrivateIp
    (mcResourceGroup expectedPrivateEndpointName expectedPrivateIpString : string) : Expectation := {|
  ex_ResourceGroup := mcResourceGroup;
  ex_Name := expectedPrivateEndpointName;
  ex_Options := {| Expand := Some "NetworkInterfaces" |};
  ex_MinTimes := 1; ex_MaxTimes := 2;
  ex_Action := λ callCounter,
    if Nat.eqb callCounter 0 then (Err not_found_error, S callCounter)
    else (Ok (fake_endpoint expectedPrivateIpString), callCounter)
|}.

(** ** Properties *)

(** The calls of a chain on an AzureCluster builder. *)
Inductive builder_call : Type :=
  | CallResourceGroup (v : string)
  | CallSubscriptionID (v : string)
  | CallLocation (v : string)
  | CallFinalizer (v : string)
  | CallDeletionTimestamp (t : Time)
  | CallSubnet (name role : string) (es : list PrivateEndpointSpec)
  | CallAPILoadBalancerType (v : string)
  | CallPrivateLink (l : PrivateLink)
  | CallCondition (c : option Condition)
  | CallIdentity (i : Typed AzureClusterIdentity).

Definition builder_apply (b : AzureClusterBuilder.Builder) (k : builder_call) :
    AzureClusterBuilder.Builder :=
  match k with
  | CallResourceGroup v => AzureClusterBuilder.WithResourceGroup v b
  | CallSubscriptionID v => AzureClusterBuilder.WithSubscriptionID v b
  | CallLocation v => AzureClusterBuilder.WithLocation v b
  | CallFinalizer v => AzureClusterBuilder.WithFinalizer v b
  | CallDeletionTimestamp t => AzureClusterBuilder.WithDeletionTimestamp t b
  | CallSubnet n r es => AzureClusterBuilder.WithSubnet n r es b
  | CallAPILoadBalancerType v => AzureClusterBuilder.WithAPILoadBalancerType v b
  | CallPrivateLink l => AzureClusterBuilder.WithPrivateLink l b
  | CallCondition c => AzureClusterBuilder.WithCondition c b
  | CallIdentity i => AzureClusterBuilder.WithIdentity i b
  end.

Definition build_chain (namespace name : string) (ks : list builder_call) : AzureCluster :=
  AzureClusterBuilder.Build (foldl builder_apply (AzureClusterBuilder.New namespace name) ks).

Definition call_subnet (k : builder_call) : option SubnetSpec :=
  match k with
  | CallSubnet n r es => Some {| sn_Name := n; Role := r; PrivateEndpoints := es |}
  | _ => None
  end.

Definition call_link (k : builder_call) : option PrivateLink :=
  match k with CallPrivateLink l => Some l | _ => None end.

Definition call_condition (k : builder_call) : option Condition :=
  match k with CallCondition c => c | _ => None end.

Lemma chain_fields ks b :
  let b' := foldl builder_apply b ks in
  AzureClusterBuilder.namespace b' = AzureClusterBuilder.namespace b ∧
  AzureClusterBuilder.name b' = AzureClusterBuilder.name b ∧
  AzureClusterBuilder.subnets b' = AzureClusterBuilder.subnets b ++ omap call_subnet ks ∧
  PrivateLinks (AzureClusterBuilder.apiServerLB b') =
    PrivateLinks (AzureClusterBuilder.apiServerLB b) ++ omap call_link ks ∧
  elems (AzureClusterBuilder.conditions b') =
    elems (AzureClusterBuilder.conditions b) ++ omap call_condition ks.
Proof.
  revert b. induction ks as [|k ks IH]; intros b; simpl; [by rewrite !app_nil_r|].
  destruct (IH (builder_apply b k)) as (-> & -> & -> & -> & ->).
  destruct k as [| | | | | | | |[c|]|]; simpl; rewrite <- ?app_assoc; done.
Qed.

(** Whatever chain of calls builds a cluster for a test, it has the name it was asked
for and a load balancer, and its subnets, private links and conditions are those of
the chain in the order of the calls.  So the reconciler's validation of it never
panics, and its endpoint names are unique in every subnet when those of each call are. *)
Theorem built_cluster_ok namespace name ks :
  let c := build_chain namespace name ks in
  cluster_name c = Request namespace name ∧
  ac_Subnets c = omap call_subnet ks ∧
  (∃ lb, ac_APIServerLB c = Some lb ∧ PrivateLinks lb = omap call_link ks) ∧
  elems (Conditions c) = omap call_condition ks ∧
  (wf_cluster c ↔ ∀ n r es, CallSubnet n r es ∈ ks → NoDup (names es)).
Proof.
  intros c. destruct (chain_fields ks (AzureClusterBuilder.New namespace name))
    as (Hns & Hn & Hsn & Hl & Hc).
  assert (Hsub : ac_Subnets c = omap call_subnet ks) by exact Hsn.
  split_and!; [|done|by eexists|done|].
  - unfold cluster_name, c, build_chain, ac_Name, ac_Namespace. simpl. by rewrite Hns, Hn.
  - unfold wf_cluster. rewrite Hsub, Forall_forall. split.
    + intros Hall n r es Hk. apply (Hall {| sn_Name := n; Role := r; PrivateEndpoints := es |}).
      apply list_elem_of_omap. by eexists.
    + intros Hall sn (k & Hk & Hs)%list_elem_of_omap. destruct k; try done.
      injection Hs as <-. by eapply Hall.
Qed.

(** The endpoint built for a link is the one the operator wants, when the link needs no
manual approval. *)
Lemma built_endpoint_wanted location sub rg l :
  PrivateEndpointBuilder.Build
    (PrivateEndpointBuilder.WithPrivateLinkServiceConnection sub rg (pl_Name l)
      (PrivateEndpointBuilder.WithLocation location
        (PrivateEndpointBuilder.New (Service.privateEndpointName (pl_Name l))))) =
  Service.wanted_endpoint false "" location sub rg l.
Proof. done. Qed.

(** The matcher accepts exactly the conditions that meet all gates, and remembers the
unmet ones; a value of another type is an error. *)
Theorem MeetConditions_spec (gates : slice string) (actual : option (slice Condition)) :
  let '((success, err), m) := Match actual (MeetConditions gates) in
  match actual with
  | None => success = false ∧ err ≠ None
  | Some cs =>
      err = None ∧ (success = true ↔ Forall (λ t, gate_met (elems cs) t = true) (elems gates)) ∧
      m_unmet m = FindUnmetStatusConditions (elems cs) gates
  end.
Proof.
  destruct actual as [cs|]; [|by split]. unfold Match. cbn [m_gates MeetConditions].
  match goal with |- context [Nat.ltb 0 ?n] => destruct (Nat.ltb_spec 0 n) as [Hlt|Hge] end;
    (split; [done|]; split; [|done]; split; try done).
  - intros Hall. destruct gates as [gates|]; [|by apply Nat.lt_irrefl in Hlt].
    apply FindUnmet_nil, Nat.le_0_r, Nat.le_ngt in Hall. by destruct (Hall Hlt).
  - intros _. destruct gates as [gates|]; [|by apply Forall_nil].
    by apply FindUnmet_nil, Nat.le_0_r.
Qed.

(** ** The fake client under the scope *)

Section FakeClient.
Context `{Microerror} `{FmtVerbs} `{ClusterApiUtil nat}.

(** The client of a scope gives the expected answer to the expected call. *)
Definition expects (ex : Expectation) (client : PrivateEndpointsClient nat) : Prop :=
  pec_Get client (ex_ResourceGroup ex) (ex_Name ex) (ex_Options ex) = ex_Action ex.

Lemma fake_addresses ip :
  addresses (fake_endpoint ip) = if String.eqb ip "" then [] else [ip].
Proof. unfold addresses, fake_endpoint, fake_ipConfigurations. simpl. by destruct (String.eqb ip ""). Qed.

(** One lookup through a scope whose client expects it. *)
Lemma lookup_run (ex : Expectation) (sc : PrivateEndpoints.scope nat) name (s : St nat) c r n :
  heap s !! azureCluster (PrivateEndpoints.BaseScope_ sc) = Some c →
  ResourceGroup (ac_Spec c) = ex_ResourceGroup ex →
  ex_Name ex = name →
  ex_Options ex = PrivateEndpoints.the_GetOptions →
  expects ex (PrivateEndpoints.privateEndpointsClient sc) →
  ex_Action ex (world s) = (r, n) →
  PrivateEndpoints.GetPrivateEndpointIPAddress sc name s =
    (Ret (match r with
          | Err e => ([], Some (if IsAzureResourceNotFound (Some e)
                                then Maskf PrivateEndpointNotFoundError "private endpoint not found"
                                else Mask e))
          | Ok pep => PrivateEndpoints.address_of pep
          end), mkSt (heap s) n).
Proof.
  intros Hl Hrg <- Ho He Ha.
  unfold PrivateEndpoints.GetPrivateEndpointIPAddress, GetResourceGroup, mbind, M_bind.
  rewrite (load_run s _ c Hl). simpl. rewrite Hrg, <-Ho. unfold expects in He.
  rewrite He, (call_run _ s r n Ha).
  destruct r as [pep|e]; [done|]. by destruct (IsAzureResourceNotFound (Some e)).
Qed.

(** Through the scope, the fake client without an address gives an error that makes
the operator try again, and the one with an address gives that address; the one
that first does not find the endpoint gives a retriable "not found", counts the
call, and gives the address the next time. *)
Theorem fake_client_lifecycle (sc : PrivateEndpoints.scope nat) (h : list AzureCluster) c rg name ip :
  h !! azureCluster (PrivateEndpoints.BaseScope_ sc) = Some c →
  ResourceGroup (ac_Spec c) = rg → ip ≠ "" →
  let lookup := PrivateEndpoints.GetPrivateEndpointIPAddress sc name in
  let client := PrivateEndpoints.privateEndpointsClient sc in
  (∀ n, expects (SetupPrivateEndpointClientWithoutPrivateIp rg name) client →
    ∃ err, lookup (mkSt h n) = (Ret ([], err), mkSt h n) ∧ err ≠ None ∧ IsRetriable err = true) ∧
  (∀ n, expects (SetupPrivateEndpointClientToReturnPrivateIp rg name ip) client →
    lookup (mkSt h n) = (Ret (net_ParseIP ip, None), mkSt h n)) ∧
  (∀ n, expects (SetupPrivateEndpointClientToReturnNotFoundAndThenPrivateEndpointWithPrivateIp rg name ip) client →
    (∃ err, lookup (mkSt h 0) = (Ret ([], err), mkSt h 1) ∧
      IsPrivateEndpointNotFound err = true ∧ IsRetriable err = true) ∧
    lookup (mkSt h (S n)) = (Ret (net_ParseIP ip, None), mkSt h (S n))).
Proof.
  intros Hl Hrg Hip lookup client.
  assert (Hfake : PrivateEndpoints.address_of (fake_endpoint ip) = (net_ParseIP ip, None)).
  { eapply address_of_cons. rewrite fake_addresses. by rewrite (proj2 (String.eqb_neq _ _) Hip). }
  unfold lookup. split_and!; intros n He.
  - rewrite (lookup_run (SetupPrivateEndpointClientWithoutPrivateIp rg name) sc name (mkSt h n) c _ n Hl Hrg eq_refl eq_refl He eq_refl); simpl.
    destruct (address_of_nil (fake_endpoint "") eq_refl) as (e & -> & Hr).
    eexists. split; [done|]. split; [done|]. eapply raised_retriable; [exact Hr|].
    unfold retriable_kinds. rewrite !elem_of_cons. auto.
  - rewrite (lookup_run (SetupPrivateEndpointClientToReturnPrivateIp rg name ip) sc name (mkSt h n) c _ n Hl Hrg eq_refl eq_refl He eq_refl); simpl. by rewrite Hfake.
  - split.
    + rewrite (lookup_run (SetupPrivateEndpointClientToReturnNotFoundAndThenPrivateEndpointWithPrivateIp
      rg name ip) sc name (mkSt h 0) c _ 1 Hl Hrg eq_refl eq_refl He eq_refl); simpl.
      eexists. split; [done|]. split.
      * unfold IsPrivateEndpointNotFound, PrivateEndpointNotFoundError. by rewrite Cause_Maskf.
      * eapply raised_retriable; [constructor|]. unfold retriable_kinds. rewrite !elem_of_cons. auto.
    + rewrite (lookup_run (SetupPrivateEndpointClientToReturnNotFoundAndThenPrivateEndpointWithPrivateIp
      rg name ip) sc name (mkSt h (S n)) c _ (S n) Hl Hrg eq_refl eq_refl He eq_refl); simpl.
      by rewrite Hfake.
Qed.
End FakeClient.
