(* ===== verification/Runs.v ===== *)
(** * Concrete runs of the reconcilers.

The theorems on the reconcilers, the Azure client, the scopes and the error
kinds, each at a concrete cluster and world. *)
From S2P Require Import Prelude.
From S2P Require Import GoStrings.
From S2P Require Import GoNet.
From S2P Require Import Api.
From S2P Require Import Manager.
From S2P Require Import Concrete.
From S2P Require Import Errors.
From S2P Require Import Util.
From S2P Require Import BaseScope.
From S2P Require Import PrivateLinks.
From S2P Require Import PrivateEndpoints.
From S2P Require Import Service.
From S2P Require Import ServiceSpec.
From S2P Require Import Reconciliation.
From S2P Require Import Scenario.
From S2P Require Import McToWc.
From S2P Require Import WcToMc.
From S2P Require Import AzureClient.
From S2P Require Import AzureClusterController.
From S2P Require Import AzureClusterProps.
From S2P Require Import KubeadmControlPlane.
From S2P Require Import ProviderConfig.

Module AzureClusterRuns.
#[local] Existing Instance Concrete.microerror.
#[local] Existing Instance Concrete.fmtVerbs.
#[local] Existing Instance Concrete.apiMachinery.
#[local] Existing Instance Concrete.clusterApiUtil.
#[local] Existing Instance Concrete.controllerUtil_World.

Import Scenario.

#[local] Instance laws : ControllerUtilLaws Concrete.World.
Proof. apply Concrete.controllerUtil_laws. Defined.

Definition clock : IO Concrete.World Time := io_pure 1%Z.

Definition reconciler : AzureClusterReconciler Concrete.World := {|
  acr_Client := Concrete.client;
  privateEndpointsClientCreator := λ _ _, mret (Ok (Some Concrete.azure_client));
  managementClusterName := mc_key
|}.

(** The workload cluster, live or being deleted. *)
Definition wcd (dt : option Time) (cs : list Condition) : AzureCluster :=
  set_meta {| Namespace := "org"; Name := "wc1"; Annotations := None;
              Finalizers := [AzureClusterControllerFinalizer];
              OwnerReferences := []; DeletionTimestamp := dt |} (wc cs).

Definition lb : LoadBalancerSpec := {| lb_Type := Internal; PrivateLinks := links |}.
Definition mc_lb : LoadBalancerSpec := {| lb_Type := Internal; PrivateLinks := [] |}.

Definition stored (m c : AzureCluster) (w : Concrete.World) : Concrete.World :=
  Concrete.set_clusters (<[mc_key := m]> {[wc_key := c]}) w.

Lemma the_setup es dt cs w :
  let w' := stored (mc es) (wcd dt cs) w in
  setup reconciler wc_key w' (wcd dt cs) (mc es) lb mc_lb wc_key mc_key wc_key
    Concrete.azure_client Concrete.azure_client (Concrete.subnet es) (Concrete.subnet []) 0 0 w'.
Proof.
  split.
  - exists (stored (mc es) (wcd dt cs) w), (stored (mc es) (wcd dt cs) w),
      (stored (mc es) (wcd dt cs) w), (stored (mc es) (wcd dt cs) w),
      (stored (mc es) (wcd dt cs) w), (stored (mc es) (wcd dt cs) w).
    split_and!; reflexivity.
  - discriminate.
  - split; [reflexivity|by left].
  - split; [reflexivity|by left].
  - reflexivity.
  - reflexivity.
  - reflexivity.
  - reflexivity.
Qed.

Definition w_live : Concrete.World := stored (mc [stale]) (wcd None [ready]) Scenario.world.
Definition run_live := Reconcile clock reconciler wc_key (mkSt [] w_live).

Lemma run_live_ok : run_live = (Ret (no_result, None), run_live.2).
Proof. vm_compute. reflexivity. Defined.

Lemma stale_NoDup : NoDup (names [stale]).
Proof. by apply (bool_decide_unpack _). Defined.

Lemma Reconcile_success_witness :
  run_live = (Ret (no_result, None), run_live.2) ∧
  ∃ wc' mc' w1 w2 snw',
    heap run_live.2 = [wc'; mc'] ∧
    Concrete.patch mc_key (ObjAzureCluster mc') w1 = (None, w2) ∧
    Concrete.patch wc_key (ObjAzureCluster wc') w2 = (None, BaseScope.world run_live.2) ∧
    mc' = put_endpoints 0 (reconciled (wired_statics
      (the_endpoints 1 0 mc_key Concrete.azure_client) (the_links lb wc_key) (mc [stale])
      (wcd None [ready])) [stale]) (mc [stale]) ∧
    ac_Subnets wc' !! 0 = Some snw' ∧
    PrivateEndpoints snw' =
      add_specs (generateWcToMcPrivateEndpointSpecs (wcd None [ready]) (mc [stale])) [].
Proof.
  split; [exact run_live_ok|].
  exact (Reconcile_success clock _ _ _ _ _ _ _ _ _ _ _ _ _ _ _ _ _
    (the_setup [stale] None [ready] Scenario.world) run_live.2 eq_refl stale_NoDup run_live_ok).
Defined.

(** Azure knows no endpoint yet: requeue in a minute, with the endpoint requested. *)
Definition w_new : Concrete.World := stored (mc []) (wcd None [ready]) Concrete.empty_world.

Definition requested : AzureCluster :=
  put_endpoints 0 (add_spec (wanted (wired_statics
    (the_endpoints 1 0 mc_key Concrete.azure_client) (the_links lb wc_key) (mc [])
    (wcd None [ready])) (Concrete.link "api" ["1234"])) []) (mc []).

Lemma Reconcile_requests_endpoint_witness :
  ∃ w3, Reconcile clock reconciler wc_key (mkSt [] w_new) =
    (Ret ({| RequeueAfter := Minute |}, None), mkSt [wcd None [ready]; requested] w3).
Proof.
  eexists.
  exact (Reconcile_requests_endpoint clock _ _ _ _ _ _ _ _ _ _ _ _ _ _ _ _ _
    (the_setup [] None [ready] Concrete.empty_world) (Concrete.link "api" ["1234"]) []
    (AzureResponseErr 404 "ResourceNotFound") w_new None
    (Concrete.set_clusters (<[mc_key := requested]> (Concrete.clusters w_new)) w_new)
    None _ eq_refl eq_refl eq_refl eq_refl eq_refl eq_refl eq_refl eq_refl).
Defined.

#[local] Abbreviation mc_service :=
  (heap_Service (the_endpoints 1 0 mc_key Concrete.azure_client) (the_links lb wc_key)).
#[local] Abbreviation wc_service :=
  (heap_Service (the_endpoints 0 0 wc_key Concrete.azure_client) (the_links lb wc_key)).

Lemma Reconcile_live_finalizer_witness :
  ∃ e1 s1 err s2 wc' mc' errm w2 errl w3,
    ReconcileMcToWcApi mc_service (mkSt [with_finalizer (wcd None [ready]); mc [stale]] w_live)
      = (Ret e1, s1) ∧
    match e1 with
    | Some _ => err = e1 ∧ s2 = s1
    | None => ∃ wc1 mc1, heap s1 = [wc1; mc1] ∧
        ReconcileWcToMcIngress conditions_IsTrue (call clock) wc_service
          (generateWcToMcPrivateEndpointSpecs wc1 mc1) s1 = (Ret err, s2)
    end ∧
    heap s2 = [wc'; mc'] ∧
    AzureClusterControllerFinalizer ∈ Finalizers (ac_meta wc') ∧
    Concrete.patch mc_key (ObjAzureCluster mc') (BaseScope.world s2) = (errm, w2) ∧
    Concrete.patch wc_key (ObjAzureCluster wc') w2 = (errl, w3) ∧
    run_live =
      (Ret (if IsRetriable err then ({| RequeueAfter := Minute |}, closed None errm errl)
            else (no_result,
              closed (match err with Some e => Some (Mask e) | None => None end) errm errl)),
       mkSt [wc'; mc'] w3).
Proof.
  exact (Reconcile_live_finalizer clock _ _ _ _ _ _ _ _ _ _ _ _ _ _ _ _ _
    (the_setup [stale] None [ready] Scenario.world) eq_refl).
Defined.

(** A deletion during which the API server refuses the management cluster. *)
Definition present : PrivateEndpointSpec :=
  Concrete.endpoint "api-privateendpoint" (privateLinkServiceID "1234" "wc1" "api").

Definition refusing : Concrete.World := {|
  Concrete.clusters := ∅; Concrete.control_planes := ∅; Concrete.capi_clusters := ∅;
  Concrete.identities := ∅; Concrete.secrets := ∅; Concrete.aso_control_planes := ∅;
  Concrete.managed_control_planes := ∅; Concrete.provider_configs := ∅;
  Concrete.azure_endpoints := ∅; Concrete.broken := [mc_key]
|}.
Definition w_deleted : Concrete.World := stored (mc [present; foreign]) (wcd (Some 5%Z) [ready]) refusing.

Lemma Reconcile_deletes_witness :
  ∃ w3, Reconcile clock reconciler wc_key (mkSt [] w_deleted) =
    (Ret (no_result, Some (Mask (Mask Concrete.refused))),
     mkSt [set_meta (set_Finalizers [] (ac_meta (wcd (Some 5%Z) [ready]))) (wcd (Some 5%Z) [ready]);
           mc [foreign]] w3).
Proof.
  eexists.
  refine (Reconcile_deletes clock _ _ _ _ _ _ _ _ _ _ _ _ _ _ _ _ _
    (the_setup [present; foreign] (Some 5%Z) [ready] refusing) (mc [foreign])
    (Some Concrete.refused) w_deleted None _ eq_refl eq_refl _ eq_refl eq_refl eq_refl).
  by apply (bool_decide_unpack _).
Defined.

Lemma Reconcile_skips_witness :
  ∃ h, Reconcile clock reconciler mc_key (mkSt [] w_live) = (Ret (no_result, None), mkSt h w_live).
Proof.
  apply Reconcile_skips. right. exists (mc [stale]). split; reflexivity.
Defined.

(** A workload cluster with a load balancer type that does not exist. *)
Definition odd : AzureCluster := Concrete.cluster "wc1" "Global" [] [] [].

Lemma Reconcile_refuses_witness :
  ∃ h e, Reconcile clock reconciler wc_key (mkSt [] (stored (mc []) odd Scenario.world)) =
    (Ret (no_result, Some e), mkSt h (stored (mc []) odd Scenario.world)).
Proof.
  apply Reconcile_refuses. right. exists odd, (stored (mc []) odd Scenario.world).
  split; [reflexivity|]. split; [discriminate|]. right.
  exists (mc []), {| lb_Type := "Global"; PrivateLinks := [] |}, mc_lb.
  do 3 (split; [reflexivity|]). left. by apply (bool_decide_unpack _).
Defined.
End AzureClusterRuns.

Module LibraryRuns.
#[local] Existing Instance Concrete.microerror.
#[local] Existing Instance Concrete.fmtVerbs.
#[local] Existing Instance Concrete.clusterApiUtil.

Import Scenario.

Lemma PE_NewScope_subnet_witness :
  ∃ r w', PrivateEndpoints.NewScope (Some 0) (Some Concrete.client) (Some Concrete.azure_client)
      (mkSt [mc []] Scenario.world) = (Ret r, mkSt [mc []] w') ∧
    (ac_Subnets (mc []) = [] →
      ∃ e, r = Err e ∧ IsSubnetsNotSetError (Some e) = true ∧ w' = Scenario.world) ∧
    ∀ sc, r = Ok sc →
      azureCluster (PrivateEndpoints.BaseScope_ sc) = 0 ∧
      PrivateEndpoints.privateEndpointsClient sc = Concrete.azure_client ∧
      let i := PrivateEndpoints.privateEndpoints_subnet sc in
      ∃ sn, ac_Subnets (mc []) !! i = Some sn ∧
        ((Role sn = SubnetNode ∧
           ∀ j sn', j < i → ac_Subnets (mc []) !! j = Some sn' → Role sn' ≠ SubnetNode) ∨
         (i = 0 ∧ ∀ sn', sn' ∈ ac_Subnets (mc []) → Role sn' ≠ SubnetNode)).
Proof.
  exact (PE_NewScope_subnet 0 Concrete.client Concrete.azure_client
    (mkSt [mc []] Scenario.world) (mc []) eq_refl).
Defined.

Lemma GetPrivateEndpointIPAddress_spec_witness :
  ∃ ip err, PrivateEndpoints.GetPrivateEndpointIPAddress (endpoints_scope 0 mc_key)
      "api-privateendpoint" (mkSt [mc []] Scenario.world)
      = (Ret (ip, err), mkSt [mc []] Scenario.world) ∧
    ip = net_ParseIP "10.0.0.4" ∧ err = None.
Proof.
  exact (GetPrivateEndpointIPAddress_spec (endpoints_scope 0 mc_key) "api-privateendpoint"
    (mkSt [mc []] Scenario.world) (mc []) (Ok (Concrete.endpoint_with_ip "10.0.0.4"))
    Scenario.world eq_refl eq_refl).
Defined.

Lemma IsRetriable_raised_witness :
  IsRetriable (Some (Mask (Mask (Maskf PrivateLinksNotReadyError "not yet")))) = true.
Proof.
  exact (IsRetriable_raised "PrivateLinksNotReadyError" _
    (raised_Mask _ _ (raised_Mask _ _ (raised_Maskf _ "not yet")))).
Defined.

(** Credentials by name, and one client. *)
#[local] Instance sdk : AzureSdk Concrete.World := {|
  TokenCredential := string;
  NewManagedIdentityCredential id := io_pure (Ok ("msi " +:+ id));
  NewClientSecretCredential t c s := io_pure (Ok (t +:+ c +:+ s));
  NewWorkloadIdentityCredential c t := io_pure (Ok (c +:+ t));
  armnetwork_NewPrivateEndpointsClient _ _ := io_pure (Ok Concrete.azure_client)
|}.

Definition the_id (ty : string) : AzureClusterIdentity :=
  {| id_Type := ty; id_TenantID := "tenant"; id_ClientID := "client";
     id_ClientSecret_Namespace := "org"; id_ClientSecret_Name := "sp" |}.
Definition the_secret : Secret := {| Data := {[ "clientSecret" := "s3cret" ]} |}.
Definition the_ref : ObjectReference :=
  {| ref_Kind := AzureClusterIdentityKind; ref_Namespace := "org"; ref_Name := "id" |}.

Definition with_identity (ty : string) : Concrete.World := {|
  Concrete.clusters := ∅; Concrete.control_planes := ∅; Concrete.capi_clusters := ∅;
  Concrete.identities := {[ {| nn_Namespace := "org"; nn_Name := "id" |} := the_id ty ]};
  Concrete.secrets := {[ {| nn_Namespace := "org"; nn_Name := "sp" |} := the_secret ]};
  Concrete.aso_control_planes := ∅;
  Concrete.managed_control_planes := ∅; Concrete.provider_configs := ∅;
  Concrete.azure_endpoints := ∅; Concrete.broken := []
|}.

Definition identified : AzureCluster := {|
  ac_meta := Concrete.meta "org" "wc1";
  ac_Spec := {|
    SubscriptionID := "1234"; Location := "westeurope"; ResourceGroup := "wc1";
    IdentityRef := Some the_ref;
    NetworkSpec_ := {| APIServerLB := None; Subnets := [] |} |};
  Conditions := None
|}.

Lemma NewPrivateEndpointClient_credential_witness :
  NewPrivateEndpointClient Concrete.client identified (with_identity ManualServicePrincipal) =
    (Ret (Ok (Some Concrete.azure_client)), with_identity ManualServicePrincipal).
Proof.
  set (w := with_identity ManualServicePrincipal).
  refine (NewPrivateEndpointClient_credential Concrete.client identified the_ref
    (the_id ManualServicePrincipal) w w the_secret w "tenantclients3cret" w
    Concrete.azure_client w eq_refl eq_refl _ eq_refl).
  right. left. by repeat split.
Defined.

Lemma NewPrivateEndpointClient_gaps_witness :
  NewPrivateEndpointClient Concrete.client (mc []) Scenario.world =
    (Panic NilDereference, Scenario.world) ∧
  NewPrivateEndpointClient Concrete.client identified (with_identity "Certificate") =
    (Ret (Ok (Some Concrete.azure_client)), with_identity "Certificate").
Proof.
  split; [exact (proj1 (NewPrivateEndpointClient_gaps _ (mc []) Scenario.world) eq_refl)|].
  refine (proj2 (NewPrivateEndpointClient_gaps Concrete.client identified
    (with_identity "Certificate")) the_ref (the_id "Certificate") (with_identity "Certificate")
    eq_refl eq_refl _).
  by apply (bool_decide_unpack _).
Defined.
End LibraryRuns.

Module KubeadmControlPlaneRuns.
#[local] Existing Instance Concrete.apiMachinery.
#[local] Existing Instance Concrete.clusterApiUtil.
#[local] Existing Instance Concrete.controllerUtil_World.

Import Scenario.

Definition key : NamespacedName := {| nn_Namespace := "org"; nn_Name := "cp" |}.
Definition gates : list string := ["NetworkReady"].
Definition reconciler : KubeadmControlPlane.Reconciler Concrete.World := {|
  KubeadmControlPlane.client := Concrete.client;
  KubeadmControlPlane.managementCluster := mc_key;
  KubeadmControlPlane.azureClusterGates := Some gates
|}.

(** A control plane with an owner of the given kind. *)
Definition control_plane (kind : string) (initialized : bool) : KubeadmControlPlane := {|
  kcp_meta := {| Namespace := "org"; Name := "cp"; Annotations := None; Finalizers := [];
    OwnerReferences := [{| or_APIVersion := "v1"; or_Kind := kind; or_Name := "wc1";
                           or_Controller := Some true |}];
    DeletionTimestamp := None |};
  ControlPlaneInitialized := Some initialized
|}.

Definition owner (paused : bool) : Cluster := {|
  cl_meta := Concrete.meta "org" "wc1";
  cl_Paused := Some paused;
  cl_InfrastructureRef := {| cref_APIGroup := "g"; cref_Kind := AzureClusterKind; cref_Name := "wc1" |};
  cl_ControlPlaneRef := {| cref_APIGroup := "g"; cref_Kind := "KubeadmControlPlane"; cref_Name := "cp" |}
|}.

Definition world_of (k : KubeadmControlPlane) (c : Cluster) : Concrete.World :=
  Concrete.set_clusters (<[mc_key := mc []]> {[wc_key := wc []]})
    (Concrete.set_control_planes {[key := k]}
      (Concrete.set_capi_clusters {[wc_key := c]} Scenario.world)).

Definition mc_lb : LoadBalancerSpec := {| lb_Type := Internal; PrivateLinks := [] |}.

Definition k0 : KubeadmControlPlane := control_plane "Cluster" false.
Definition w0 : Concrete.World := world_of k0 (owner false).

(** The gate is not met, so the stored control plane is paused. *)
Lemma KCP_patched_witness :
  ∃ w6, KubeadmControlPlane.Reconcile reconciler key w0 = (Ret (no_result, None), w6) ∧
    Concrete.control_planes w6 = {[key := KubeadmControlPlane.pause k0]}.
Proof.
  eexists. split.
  - exact (KCP_patched reconciler key w0 gates eq_refl ltac:(discriminate) (mc []) mc_lb w0
      eq_refl eq_refl eq_refl k0 w0 eq_refl eq_refl (owner false) w0 eq_refl (wc []) w0 key w0
      None (Concrete.set_control_planes {[key := KubeadmControlPlane.pause k0]} w0)
      eq_refl eq_refl eq_refl eq_refl eq_refl).
  - reflexivity.
Defined.

Definition k1 : KubeadmControlPlane := control_plane "Cluster" true.
Definition w1 : Concrete.World := world_of k1 (owner false).

Lemma KCP_not_reconcilable_witness :
  KubeadmControlPlane.Reconcile reconciler key w1 = (Ret (no_result, None), w1).
Proof.
  exact (KCP_not_reconcilable reconciler key w1 gates eq_refl ltac:(discriminate) (mc []) mc_lb w1
    eq_refl eq_refl eq_refl k1 w1 eq_refl eq_refl).
Defined.

Definition w2 : Concrete.World := world_of k0 (owner true).

Lemma KCP_cluster_not_ready_witness :
  KubeadmControlPlane.Reconcile reconciler key w2 = (Ret (no_result, None), w2).
Proof.
  exact (KCP_cluster_not_ready reconciler key w2 gates eq_refl ltac:(discriminate) (mc []) mc_lb w2
    eq_refl eq_refl eq_refl k0 w2 eq_refl eq_refl (owner true) w2 eq_refl (or_introl eq_refl)).
Defined.

Definition k3 : KubeadmControlPlane := control_plane "Machine" false.
Definition w3 : Concrete.World := world_of k3 (owner false).

Lemma KCP_no_owner_panics_witness :
  KubeadmControlPlane.Reconcile reconciler key w3 = (Panic NilDereference, w3).
Proof.
  exact (KCP_no_owner_panics reconciler key w3 gates eq_refl ltac:(discriminate) (mc []) mc_lb w3
    eq_refl eq_refl eq_refl k3 w3 eq_refl eq_refl w3 eq_refl).
Defined.

(** The gate opens: the control plane was paused, and the network gets ready. *)
Definition net (status : string) : Condition := Concrete.condition "NetworkReady" status.
Definition infra (cs : list Condition) : AzureCluster :=
  {| ac_meta := kcp_meta k0; ac_Spec := ac_Spec (wc []); Conditions := Some cs |}.
Definition paused : KubeadmControlPlane := KubeadmControlPlane.pause k0.
Definition w4 : Concrete.World :=
  Concrete.set_clusters
    (<[mc_key := mc []]> {[wc_key := set_meta (Concrete.meta "org" "wc1") (infra [net "True"])]})
    (world_of paused (owner false)).

Lemma KCP_watch_predicate_witness :
  passes KubeadmControlPlane.azureClusterConditionsChanged
    (UpdateEvent (Some (ObjAzureCluster (infra []))) (Some (ObjAzureCluster (infra [net "True"])))) = true.
Proof.
  exact (proj2 (KCP_watch_predicate _) (infra []) (infra [net "True"]) (Some gates) eq_refl
    ltac:(discriminate)).
Defined.

Lemma enqueue_control_plane_spec_witness :
  KubeadmControlPlane.enqueue_control_plane Concrete.client (ObjAzureCluster (infra [])) w4 =
    (Ret [key], w4).
Proof.
  exact (enqueue_control_plane_spec Concrete.client (infra []) w4 _ w4 eq_refl).
Defined.

Lemma KCP_gates_open_witness :
  ∃ w6, KubeadmControlPlane.Reconcile reconciler key w4 = (Ret (no_result, None), w6) ∧
    Concrete.control_planes w6 = {[key := KubeadmControlPlane.unpause paused]}.
Proof.
  eexists. split.
  - refine (proj1 (proj2 (proj2 (KCP_gates_open reconciler gates (infra []) (infra [net "True"]) w4 w4
      (owner false) (mc []) mc_lb w4 paused w4 (owner false) w4 _ w4 key w4
      None (Concrete.set_control_planes {[key := KubeadmControlPlane.unpause paused]} w4)
      eq_refl _ _ eq_refl eq_refl eq_refl eq_refl eq_refl eq_refl eq_refl eq_refl eq_refl eq_refl
      eq_refl eq_refl eq_refl eq_refl)))).
    + intros Hall. by apply Forall_cons_1 in Hall as [? _].
    + by repeat constructor.
  - reflexivity.
Defined.
End KubeadmControlPlaneRuns.

Module ProviderConfigRuns.
#[local] Existing Instance Concrete.apiMachinery.
#[local] Existing Instance Concrete.controllerUtil_World.

#[local] Instance laws : ControllerUtilLaws Concrete.World.
Proof. apply Concrete.controllerUtil_laws. Defined.

(** Resources are read as objects that name their own text as the credential. *)
#[local] Instance libs : ProviderConfigLibs := {|
  ToUnstructured rs := Ok ((λ t, {| u_Group := ""; u_Version := ""; u_Kind := ""; u_Name := "";
    u_Annotations := {[ credential_from := t ]}; u_spec := None |}) <$> rs);
  TerminalError e := LibErr "terminal error" [e]
|}.

Definition key : NamespacedName := {| nn_Namespace := "org"; nn_Name := "wc1" |}.
Definition reconciler : ProviderConfig.Reconciler Concrete.World :=
  {| ProviderConfig.client := Concrete.client |}.

Definition cluster (kind : string) (fs : list string) (dt : option Time) : Cluster := {|
  cl_meta := {| Namespace := "org"; Name := "wc1"; Annotations := None; Finalizers := fs;
                OwnerReferences := []; DeletionTimestamp := dt |};
  cl_Paused := None;
  cl_InfrastructureRef := {| cref_APIGroup := "g"; cref_Kind := kind; cref_Name := "wc1" |};
  cl_ControlPlaneRef := {| cref_APIGroup := "g"; cref_Kind := kind; cref_Name := "wc1" |}
|}.

Definition aso_secret : Secret :=
  {| Data := <["AZURE_CLIENT_ID" := "c"]> (<["AZURE_TENANT_ID" := "t"]> {["AZURE_SUBSCRIPTION_ID" := "s"]}) |}.
Definition aso (rs : list string) : AzureASOManagedControlPlane := {| aso_Resources := rs |}.

Definition world_of (c : Cluster) : Concrete.World := {|
  Concrete.clusters := {[ key := LibraryRuns.identified ]}; Concrete.control_planes := ∅;
  Concrete.capi_clusters := {[ key := c ]};
  Concrete.identities := {[ {| nn_Namespace := "org"; nn_Name := "id" |} :=
    LibraryRuns.the_id WorkloadIdentity ]};
  Concrete.secrets := {[ {| nn_Namespace := "org"; nn_Name := "cred" |} := aso_secret ]};
  Concrete.aso_control_planes := {[ key := aso ["cred"] ]};
  Concrete.managed_control_planes := ∅; Concrete.provider_configs := ∅;
  Concrete.azure_endpoints := ∅; Concrete.broken := []
|}.

Definition c_azure : Cluster := cluster AzureClusterKind [] None.
Definition w_azure : Concrete.World := world_of c_azure.

(** The Cluster gets the finalizer and the provider config is created. *)
Definition w_azure_done : Concrete.World :=
  (ProviderConfig.Reconcile reconciler key w_azure).2.

Lemma PC_azure_cluster_witness :
  ProviderConfig.Reconcile reconciler key w_azure = (Ret (no_result, None), w_azure_done) ∧
  u_spec <$> Concrete.provider_configs w_azure_done !! "wc1" = Some (Some (AnyMap [
    ("credentials", AnyMap [("source", AnyString "UserAssignedManagedIdentity")]);
    ("clientID", AnyString "client"); ("subscriptionID", AnyString "1234");
    ("tenantID", AnyString "tenant")])).
Proof.
  unfold w_azure_done.
  rewrite (PC_azure_cluster (H := Concrete.apiMachinery) reconciler key w_azure w_azure c_azure eq_refl
    LibraryRuns.identified w_azure LibraryRuns.the_ref (LibraryRuns.the_id WorkloadIdentity) w_azure
    eq_refl eq_refl eq_refl eq_refl eq_refl eq_refl eq_refl).
  split; vm_compute; reflexivity.
Defined.

Definition c_aso : Cluster := cluster AzureASOManagedClusterKind [] None.
Definition w_aso : Concrete.World := world_of c_aso.
Definition us : list Unstructured := match ToUnstructured ["cred"] with Ok us => us | Err _ => [] end.

Lemma PC_aso_witness :
  ProviderConfig.Reconcile reconciler key w_aso =
    ProviderConfig.apply_config reconciler c_aso
      {| info_Type := WorkloadIdentity; info_TenantID := "t";
         info_SubscriptionID := "s"; info_ClientID := "c" |} w_aso.
Proof.
  exact (PC_aso reconciler key w_aso w_aso c_aso eq_refl eq_refl (aso ["cred"]) w_aso us
    eq_refl eq_refl eq_refl aso_secret w_aso eq_refl).
Defined.

(** A control plane without resources. *)
Definition w_bare : Concrete.World := {|
  Concrete.clusters := ∅; Concrete.control_planes := ∅;
  Concrete.capi_clusters := {[ key := c_aso ]}; Concrete.identities := ∅; Concrete.secrets := ∅;
  Concrete.aso_control_planes := {[ key := aso [] ]};
  Concrete.managed_control_planes := ∅; Concrete.provider_configs := ∅;
  Concrete.azure_endpoints := ∅; Concrete.broken := []
|}.

Lemma PC_panics_only_witness :
  ProviderConfig.Reconcile reconciler key w_bare = (Panic IndexOutOfRange, w_bare).
Proof.
  apply (proj2 (PC_panics_only reconciler key w_bare IndexOutOfRange w_bare)).
  split; [reflexivity|]. exists c_aso, w_bare. split; [vm_compute; reflexivity|].
  split; [reflexivity|]. split; [reflexivity|]. exists (aso []). split; vm_compute; reflexivity.
Defined.

Definition c_other : Cluster := cluster "AWSCluster" [] None.
Definition w_other : Concrete.World := world_of c_other.

Lemma PC_unsupported_witness :
  ProviderConfig.Reconcile reconciler key w_other = (Ret (no_result, None), w_other).
Proof.
  refine (proj1 (PC_unsupported (W := Concrete.World) (H := Concrete.apiMachinery) reconciler key
    w_other w_other c_other eq_refl eq_refl) _).
  by apply (bool_decide_unpack _).
Defined.

(** There is no provider config, so the finalizer is released. *)
Definition c_deleted : Cluster :=
  cluster AzureClusterKind [ProviderConfigControllerFinalizer] (Some 3%Z).
Definition w_deleted : Concrete.World := world_of c_deleted.

Lemma PC_deletion_witness :
  ProviderConfig.Reconcile reconciler key w_deleted = release reconciler c_deleted w_deleted ∧
  Concrete.capi_clusters (release reconciler c_deleted w_deleted).2
    = {[ key := cluster AzureClusterKind [] (Some 3%Z) ]}.
Proof.
  split; [|vm_compute; reflexivity].
  exact (PC_deletion reconciler key w_deleted w_deleted c_deleted eq_refl
    (Some Concrete.notFound) w_deleted eq_refl eq_refl).
Defined.

Definition info : identityInfo := {| info_Type := WorkloadIdentity; info_TenantID := "tenant";
  info_SubscriptionID := "1234"; info_ClientID := "client" |}.
Definition c_final : Cluster := cluster AzureClusterKind [ProviderConfigControllerFinalizer] None.

Lemma PC_finalizer_first_witness :
  ProviderConfig.apply_config reconciler c_azure info w_azure =
    match Concrete.client.(Patch_Cluster) (finalized c_azure) c_azure w_azure with
    | (Some e, w3) => (Ret (no_result, Some e), w3)
    | (None, w3) =>
        let '(err, w') := Concrete.createOrPatch (NewProviderConfig "wc1")
          (u_set_spec (provider_spec info)) w3 in (Ret (no_result, err), w')
    end.
Proof.
  exact (PC_finalizer_first reconciler c_azure info w_azure).
Defined.
End ProviderConfigRuns.
