(* ===== verification/FleetRuns.v ===== *)
(** * Concrete runs of several clusters and several rounds.

The theorems of [Safety], [Fleet] and [Convergence] at the clusters of [Scenario], in
a cloud that cooperates. *)
From S2P Require Import Prelude.
From S2P Require Import GoStrings.
From S2P Require Import GoNet.
From S2P Require Import Api.
From S2P Require Import Concrete.
From S2P Require Import Errors.
From S2P Require Import BaseScope.
From S2P Require Import PrivateLinks.
From S2P Require Import PrivateEndpoints.
From S2P Require Import Service.
From S2P Require Import ServiceSpec.
From S2P Require Import Reconciliation.
From S2P Require Import Scenario.
From S2P Require Import McToWc.
From S2P Require Import WcToMc.
From S2P Require Import AzureClient.
From S2P Require Import AzureClusterController.
From S2P Require Import AzureClusterProps.
From S2P Require Import Safety.
From S2P Require Import Fleet.
From S2P Require Import Convergence.
From S2P Require Import Runs.

Module CloudRuns.
#[local] Existing Instance Concrete.microerror.
#[local] Existing Instance Concrete.fmtVerbs.
#[local] Existing Instance Concrete.apiMachinery.
#[local] Existing Instance Concrete.reliable_util.
#[local] Existing Instance Concrete.reliable_conditions.
#[local] Existing Instance Concrete.controllerUtil_World.
#[local] Existing Instance AzureClusterRuns.laws.

#[local] Abbreviation World := Concrete.World.

Definition reconciler : AzureClusterReconciler World := AzureClusterRuns.reconciler.
Definition clock : IO World Time := AzureClusterRuns.clock.

#[local] Instance storage : @Storage World Concrete.reliable_util (acr_Client reconciler) :=
  Concrete.reliable_storage.

(** ** Azure *)

Definition has_address (o : option PrivateEndpoint) : bool :=
  match o with Some pep => negb (Nat.eqb (length (addresses pep)) 0) | None => false end.

(** Azure creates the endpoints that have no address yet. *)
Definition provision (ns : list string) (m : gmap string PrivateEndpoint) :
    gmap string PrivateEndpoint :=
  foldr (λ n m, if has_address (m !! n) then m
                else <[n := Concrete.endpoint_with_ip "10.0.0.9"]> m) m ns.

Definition azure_turn (w : World) : World :=
  Concrete.set_azure_endpoints (provision (Concrete.asked_for w) (Concrete.azure_endpoints w)) w.

Lemma provision_old ns m n : has_address (m !! n) = true → has_address (provision ns m !! n) = true.
Proof.
  intros Hn. induction ns as [|n' ns IH]; [done|]. simpl.
  destruct (has_address (provision ns m !! n')) eqn:E; [done|].
  destruct (decide (n = n')) as [->|Hne]; [by rewrite lookup_insert_eq|by rewrite lookup_insert_ne].
Qed.

Lemma provision_new ns m n : n ∈ ns → has_address (provision ns m !! n) = true.
Proof.
  induction ns as [|n' ns IH]; [by intros ?%elem_of_nil|]. intros Hn. simpl.
  destruct (decide (n = n')) as [->|Hne].
  - destruct (has_address (provision ns m !! n')) eqn:E; [done|by rewrite lookup_insert_eq].
  - apply elem_of_cons in Hn as [?|Hn]; [done|]. specialize (IH Hn).
    destruct (has_address (provision ns m !! n')) eqn:E; [done|by rewrite lookup_insert_ne].
Qed.

Lemma cloud_answers w n :
  answer_ok (has_address (Concrete.azure_endpoints w !! n))
    (match Concrete.azure_endpoints w !! n with
     | Some pep => Ok pep
     | None => Err (AzureResponseErr 404 "ResourceNotFound")
     end).
Proof.
  unfold answer_ok, has_address. destruct (Concrete.azure_endpoints w !! n) as [pep|].
  - destruct (addresses pep) as [|t ts] eqn:E; simpl; [right|]; exists pep; by rewrite E.
  - left. by eexists.
Qed.

#[local] Instance cloud : Cloud clock reconciler.
Proof.
  unshelve eapply Build_Cloud;
    [exact (λ w _ _ n, has_address (Concrete.azure_endpoints w !! n))|exact azure_turn|..].
  - intros k w c Hk. exists w. split; [|by split]. simpl. unfold Concrete.get_cluster.
    change (Concrete.stored w k = Some c) in Hk. by rewrite Hk.
  - intros c w. exists (cluster_name c), w. by repeat split.
  - intros c w. exists Concrete.azure_client, w. split; [done|]. split; [by split|].
    intros g n v. do 2 eexists. split; [done|]. split; [by split|]. apply cloud_answers.
  - intros w. by split.
  - intros h c w Hh Hs _. eexists. split; [done|]. simpl in Hh. subst h. split; [|split].
    + change (Concrete.stored (Concrete.put (cluster_name c) (ObjAzureCluster c) w) (cluster_name c)
        = Some c).
      unfold Concrete.stored. simpl. rewrite lookup_insert_eq. by rewrite decide_True.
    + intros k Hk. by apply Concrete.put_others.
    + done.
  - by intros w k.
  - intros w s g n Hn. by apply provision_old.
  - intros w k c sn e Hk Hsn He. apply provision_new. by eapply Concrete.stored_asked_for.
Defined.

(** ** The requeue loop

Azure knows no endpoint at first, and both clusters are private: two endpoints are
unknown, and the third reconciliation succeeds. *)
Definition w_new : World := AzureClusterRuns.w_new.

Lemma new_ready : ready reconciler Scenario.wc_key (Scenario.mc [])
  (AzureClusterRuns.wcd None [Scenario.ready]) w_new.
Proof.
  split; try reflexivity; try discriminate.
  - exists AzureClusterRuns.lb. split; [reflexivity|by left].
  - exists AzureClusterRuns.mc_lb. split; [reflexivity|by left].
  - split; [discriminate|reflexivity].
Defined.

Lemma requeue_loop_terminates_witness :
  ∃ n w', requeue_loop clock reconciler Scenario.wc_key 5 w_new = Some (n, w') ∧ 0 < n ∧
    n ≤ S (unknown clock reconciler (wanted_names (Scenario.mc [])
      (AzureClusterRuns.wcd None [Scenario.ready])) w_new) ∧
    n ≤ length (open_links (Scenario.mc []) (AzureClusterRuns.wcd None [Scenario.ready])) + 2.
Proof.
  apply (requeue_loop_terminates clock reconciler Scenario.wc_key _ _ w_new 5 new_ready).
  vm_compute. lia.
Defined.

Example three_reconciliations :
  fst <$> requeue_loop clock reconciler Scenario.wc_key 5 w_new = Some 3.
Proof. vm_compute. reflexivity. Qed.

(** ** Safety *)

#[local] Instance quiet : QuietLibraries clock reconciler.
Proof.
  split; [by intros w k|by intros c w k|].
  intros c w p rg n o v Hp. simpl in Hp. injection Hp as <-. by intros k.
Defined.

Definition w_live : World := AzureClusterRuns.w_live.
Definition wc_key : NamespacedName := Scenario.wc_key.

#[local] Instance wf_cluster_dec c : Decision (wf_cluster c) := _.

Lemma live_wf : all_stored reconciler (λ _, wf_cluster) w_live.
Proof.
  intros k c Hk. assert (Hall : map_Forall (λ _, wf_cluster) (Concrete.clusters w_live)).
  { refine (bool_decide_unpack _ _). vm_compute. exact I. }
  apply (Hall k). change (Concrete.stored w_live k = Some c) in Hk. unfold Concrete.stored in Hk.
  destruct (Concrete.clusters w_live !! k) as [d|]; [|done].
  by destruct (decide (cluster_name d = k)).
Defined.

Definition w_live' : World := after clock reconciler wc_key w_live.

(** A reconciliation, the removal of a cluster by someone else, and another one. *)
Definition w_removed : World :=
  Concrete.set_clusters (delete wc_key (Concrete.clusters w_live')) w_live'.
Definition w_last : World := after clock reconciler Scenario.mc_key w_removed.

Lemma removed_step : step clock reconciler w_live' w_removed.
Proof.
  apply step_environment. intros k c Hk. left. revert Hk.
  change (Concrete.stored w_removed k = Some c → Concrete.stored w_live' k = Some c).
  unfold Concrete.stored. unfold w_removed at 1. simpl.
  destruct (decide (wc_key = k)) as [<-|Hne]; [by rewrite lookup_delete_eq|].
  by rewrite lookup_delete_ne.
Defined.

Lemma fleet_unique_names_witness : all_stored reconciler (λ _, wf_cluster) w_last.
Proof.
  apply (fleet_unique_names clock reconciler w_live w_last live_wf).
  eapply rtc_l; [apply step_reconcile|]. eapply rtc_l; [apply removed_step|].
  apply rtc_once, step_reconcile.
Defined.

Lemma Reconcile_frame_witness :
  (Scenario.wc_key ≠ Scenario.wc_key → Scenario.wc_key ≠ Scenario.mc_key →
     stored w_live' wc_key = stored w_live wc_key) ∧
  ∀ c', stored w_live' wc_key = Some c' →
    ∃ c, stored w_live wc_key = Some c ∧ core (ac_Spec c') = core (ac_Spec c).
Proof. exact (Reconcile_frame clock reconciler wc_key w_live wc_key). Defined.

(** The cluster is there afterwards, so this is not empty. *)
Example live_still_stored : is_some (stored w_live' wc_key) = true.
Proof. vm_compute. reflexivity. Qed.

(** ** Two workload clusters *)

Definition statics (n : string) (links : list PrivateLink) : Statics World := {|
  ep_name := Scenario.mc_key; ep_SubscriptionID := "1234"; ep_Location := "westeurope";
  ep_ResourceGroup := "mc"; ep_client := Concrete.azure_client;
  wc_name := {| nn_Namespace := "org"; nn_Name := n |};
  wc_SubscriptionID := "1234"; wc_Location := "westeurope"; wc_ResourceGroup := n;
  wc_links := links
|}.

Definition blue : Statics World := statics "blue" [Concrete.link "blue-api" ["1234"]].
Definition green : Statics World := statics "green" [Concrete.link "green-api" ["1234"]].

Lemma links_blue : links_for_mc blue = [Concrete.link "blue-api" ["1234"]].
Proof. vm_compute. reflexivity. Defined.
Lemma links_green : links_for_mc green = [Concrete.link "green-api" ["1234"]].
Proof. vm_compute. reflexivity. Defined.

Lemma no_connection p e :
  has_connection_to p (PrivateLinkServiceConnections e) = false → ¬ connects_to p e.
Proof. intros Hf Hc%has_connection_to_spec. congruence. Defined.

Ltac only_link H E := rewrite E in H; apply list_elem_of_singleton in H; subst.

Lemma independent_blue_green : independent blue green.
Proof.
  split.
  - intros l l' Hl Hl'. only_link Hl links_blue. only_link Hl' links_green. discriminate.
  - intros l Hl Hc. only_link Hl links_blue. exfalso. revert Hc. apply no_connection.
    vm_compute. reflexivity.
Defined.

Lemma independent_green_blue : independent green blue.
Proof.
  split.
  - intros l l' Hl Hl'. only_link Hl links_green. only_link Hl' links_blue. discriminate.
  - intros l Hl Hc. only_link Hl links_green. exfalso. revert Hc. apply no_connection.
    vm_compute. reflexivity.
Defined.

Lemma compatible_self (x : Statics World) l : links_for_mc x = [l] → compatible x x.
Proof.
  intros E. split.
  - intros l1 l2 H1 H2 _. only_link H1 E. by only_link H2 E.
  - intros l' Hl' _. apply wanted_used. by apply links_for_mc_subset.
Defined.

Definition blue_endpoints : list PrivateEndpointSpec := reconciled blue [].

Lemma blue_settled : settled blue blue_endpoints.
Proof. intros l Hl. only_link Hl links_blue. by left. Defined.

(** The green cluster is reconciled and deleted again. *)
Lemma fleet_isolation_witness :
  NoDup (names (delete_links green (reconciled green blue_endpoints))) ∧
  settled blue (delete_links green (reconciled green blue_endpoints)).
Proof.
  apply (fleet_isolation blue [green] blue_endpoints).
  - intros y Hy. apply list_elem_of_singleton in Hy as ->. exact independent_blue_green.
  - by apply (bool_decide_unpack _).
  - exact blue_settled.
  - eapply rtc_l; [exists green; split; [by left|apply touches_success]|].
    apply rtc_once. exists green. split; [by left|apply touches_delete].
Defined.


End CloudRuns.

Module FleetRefinementRuns.
#[local] Existing Instance Concrete.microerror.
#[local] Existing Instance Concrete.fmtVerbs.
#[local] Existing Instance Concrete.apiMachinery.
#[local] Existing Instance Concrete.clusterApiUtil.
#[local] Existing Instance Concrete.controllerUtil_World.
#[local] Existing Instance AzureClusterRuns.laws.

Import Scenario.
Import AzureClusterRuns.

Lemma Reconcile_refines_fleet_witness :
  ∃ es wc' res err w1 errm w2 errl w3,
    touches (wired_statics (the_endpoints 1 0 mc_key Concrete.azure_client) (the_links lb wc_key)
      (mc [stale]) (wcd None [ready])) [stale] es ∧
    Concrete.patch mc_key (ObjAzureCluster (put_endpoints 0 es (mc [stale]))) w1 = (errm, w2) ∧
    Concrete.patch wc_key (ObjAzureCluster wc') w2 = (errl, w3) ∧
    run_live = (Ret (res, closed err errm errl), mkSt [wc'; put_endpoints 0 es (mc [stale])] w3).
Proof.
  exact (Reconcile_refines_fleet clock _ _ _ _ _ _ _ _ _ _ _ _ _ _ _ _ _
    (the_setup [stale] None [ready] Scenario.world) stale_NoDup).
Defined.
End FleetRefinementRuns.
