(* ===== verification/SafetyRuns.v ===== *)
(** * Concrete runs of the safety theorems on stored objects.

The theorems of [Operator], [EndToEnd], [FleetLoop], [ProviderConfigSafety] and
[ControlPlaneSafety] at small stores of the API server. *)
From S2P Require Import Prelude.
From S2P Require Import GoStrings.
From S2P Require Import GoNet.
From S2P Require Import Api.
From S2P Require Import Concrete.
From S2P Require Import Errors.
From S2P Require Import Util.
From S2P Require Import BaseScope.
From S2P Require Import PrivateLinks.
From S2P Require Import PrivateEndpoints.
From S2P Require Import Service.
From S2P Require Import ServiceSpec.
From S2P Require Import Reconciliation.
From S2P Require Import Scenario.
From S2P Require Import McToWc.
From S2P Require Import WcToMc.
From S2P Require Import AzureClient.
From S2P Require Import AzureClusterController.
From S2P Require Import AzureClusterProps.
From S2P Require Import KubeadmControlPlane.
From S2P Require Import ProviderConfig.
From S2P Require Import Safety.
From S2P Require Import ProviderConfigSafety.
From S2P Require Import ControlPlaneSafety.
From S2P Require Import Fleet.
From S2P Require Import Operator.
From S2P Require Import Convergence.
From S2P Require Import EndToEnd.
From S2P Require Import FleetLoop.
From S2P Require Import Runs.
From S2P Require Import FleetRuns.

Module OperatorRuns.
#[local] Existing Instance Concrete.microerror.
#[local] Existing Instance Concrete.fmtVerbs.
#[local] Existing Instance Concrete.apiMachinery.
#[local] Existing Instance Concrete.reliable_util.
#[local] Existing Instance Concrete.reliable_conditions.
#[local] Existing Instance Concrete.controllerUtil_World.
#[local] Existing Instance AzureClusterRuns.laws.
#[local] Existing Instance CloudRuns.storage.
#[local] Existing Instance CloudRuns.cloud.
#[local] Existing Instance CloudRuns.quiet.

#[local] Abbreviation World := Concrete.World.
#[local] Abbreviation reconciler := CloudRuns.reconciler.
#[local] Abbreviation clock := CloudRuns.clock.
#[local] Abbreviation mc_key := Scenario.mc_key.
#[local] Abbreviation view := (Operator.view (W := World)).

(** A property of all clusters of a store, checked on its map. *)
Lemma all_clusters (P : AzureCluster → Prop) `{!∀ c, Decision (P c)} (w : World) :
  bool_decide (map_Forall (λ _, P) (Concrete.clusters w)) = true → all_stored reconciler (λ _, P) w.
Proof.
  intros Hall%bool_decide_eq_true k c Hk. apply (Hall k).
  change (Concrete.stored w k = Some c) in Hk. unfold Concrete.stored in Hk.
  destruct (Concrete.clusters w !! k) as [d|]; [|done]. by destruct (decide (cluster_name d = k)).
Defined.

Definition has_lb (c : AzureCluster) : Prop := is_some (ac_APIServerLB c) = true.
#[local] Instance has_lb_dec c : Decision (has_lb c) := _.
#[local] Instance wf_dec c : Decision (wf_cluster c) := _.

(** ** A run that returns *)

Definition w_live : World := AzureClusterRuns.w_live.

Lemma live_traps : no_traps reconciler w_live.
Proof.
  assert (Hall : all_stored reconciler (λ _, has_lb) w_live)
    by (apply (all_clusters has_lb); vm_compute; reflexivity).
  split; [|by intros; eexists]. intros k c Hk E. specialize (Hall k c Hk).
  unfold has_lb in Hall. by rewrite E in Hall.
Defined.

Lemma Reconcile_returns_witness :
  ∃ res err, (Reconcile clock reconciler Scenario.wc_key (mkSt [] w_live)).1 = Ret (res, err).
Proof. exact (Reconcile_returns clock reconciler Scenario.wc_key w_live live_traps). Defined.

(** ** One step of the fleet on the store *)

Definition mc_live : AzureCluster := Scenario.mc [Scenario.stale].
Definition mc_next : AzureCluster :=
  default mc_live (stored (after clock reconciler Scenario.wc_key w_live) mc_key).

Lemma store_refines_fleet_witness :
  managed mc_next = managed mc_live ∨
  ∃ wc, stored w_live Scenario.wc_key = Some wc ∧
    touches (view mc_live wc) (managed mc_live) (managed mc_next).
Proof.
  apply (store_refines_fleet clock reconciler Scenario.wc_key w_live mc_live mc_next).
  - apply (all_clusters wf_cluster). vm_compute. reflexivity.
  - vm_compute. reflexivity.
  - vm_compute. reflexivity.
Defined.

(** It is a proper step: the stale endpoint is gone and the wanted one is there. *)
Example live_step : names (managed mc_next) = ["api-privateendpoint"].
Proof. vm_compute. reflexivity. Qed.

(** ** Two workload clusters in the store *)

Definition key (n : string) : NamespacedName := {| nn_Namespace := "org"; nn_Name := n |}.
Definition colored (n : string) : AzureCluster :=
  Concrete.cluster n Internal [Concrete.link (n +:+ "-api") ["1234"]] [] [Scenario.ready].
Definition mc_blue : AzureCluster := Scenario.mc CloudRuns.blue_endpoints.
Definition w_colors : World :=
  Concrete.set_clusters (<[mc_key := mc_blue]> (<[key "blue" := colored "blue"]>
    {[key "green" := colored "green"]})) Concrete.empty_world.

#[local] Abbreviation blue := (view mc_blue (colored "blue")).
#[local] Abbreviation green := (view mc_blue (colored "green")).

Lemma blue_links : links_for_mc blue = [Concrete.link "blue-api" ["1234"]].
Proof. vm_compute. reflexivity. Defined.
Lemma green_links : links_for_mc green = [Concrete.link "green-api" ["1234"]].
Proof. vm_compute. reflexivity. Defined.

Lemma blue_green : independent blue green.
Proof.
  split.
  - intros l l' Hl Hl'. rewrite blue_links in Hl. rewrite green_links in Hl'.
    apply list_elem_of_singleton in Hl, Hl'. subst. discriminate.
  - intros l Hl Hc. rewrite blue_links in Hl. apply list_elem_of_singleton in Hl. subst.
    exfalso. revert Hc. apply CloudRuns.no_connection. vm_compute. reflexivity.
Defined.

Lemma colors_settled : settled blue (managed mc_blue).
Proof.
  intros l Hl. rewrite blue_links in Hl. apply list_elem_of_singleton in Hl. subst.
  refine (bool_decide_unpack _ _). vm_compute. exact I.
Defined.

(** The green cluster is reconciled twice. *)
Definition w_colors' : World := after clock reconciler (key "green") w_colors.
Definition w_colors'' : World := after clock reconciler (key "green") w_colors'.
Definition mc_blue'' : AzureCluster := default mc_blue (stored w_colors'' mc_key).

Lemma store_isolation_witness :
  view mc_blue'' (colored "blue") = blue ∧
  settled (view mc_blue'' (colored "blue")) (managed mc_blue'').
Proof.
  apply (store_isolation clock reconciler [key "green"] (key "blue") w_colors w_colors'').
  - apply (all_clusters wf_cluster). vm_compute. reflexivity.
  - vm_compute. reflexivity.
  - vm_compute. reflexivity.
  - intros req other Hreq Ho. apply list_elem_of_singleton in Hreq as ->.
    assert (E : stored w_colors (key "green") = Some (colored "green")) by (vm_compute; reflexivity).
    rewrite E in Ho. injection Ho as <-. exact blue_green.
  - exact colors_settled.
  - eapply rtc_l; [by exists (key "green"); split; [left|]|].
    apply rtc_once. by exists (key "green"); split; [left|].
  - vm_compute. reflexivity.
  - vm_compute. reflexivity.
Defined.

Lemma store_bounded_witness :
  NoDup (names (managed mc_blue'')) ∧
  (∀ n, n ∈ names (managed mc_blue'') →
     n ∈ names (managed mc_blue) ∨ n ∈ wanted_by reconciler [key "green"] mc_blue w_colors) ∧
  length (managed mc_blue'') ≤
    length (managed mc_blue) + length (wanted_by reconciler [key "green"] mc_blue w_colors).
Proof.
  apply (store_bounded clock reconciler [key "green"] w_colors w_colors'').
  - apply (all_clusters wf_cluster). vm_compute. reflexivity.
  - vm_compute. reflexivity.
  - eapply rtc_l; [by exists (key "green"); split; [left|]|].
    apply rtc_once. by exists (key "green"); split; [left|].
  - vm_compute. reflexivity.
Defined.

(** Two endpoints, as many as the bound allows: the one from before and the green link's. *)
Example colors_bound :
  length (managed mc_blue'') = 2 ∧
  wanted_by reconciler [key "green"] mc_blue w_colors = ["green-api-privateendpoint"].
Proof. vm_compute. by split. Qed.

(** The green endpoint has joined the blue one. *)
Example colors_together :
  names (managed mc_blue'') = ["blue-api-privateendpoint"; "green-api-privateendpoint"].
Proof. vm_compute. reflexivity. Qed.

(** ** Two new clusters, served one after the other *)

Definition mc_fleet : AzureCluster := Scenario.mc [].
Definition w_fleet : World :=
  Concrete.set_clusters (<[mc_key := mc_fleet]> (<[key "blue" := colored "blue"]>
    {[key "green" := colored "green"]})) Concrete.empty_world.
Definition colors : list NamespacedName := [key "green"; key "blue"].

Lemma green_blue : independent green blue.
Proof.
  split.
  - intros l l' Hl Hl'. rewrite green_links in Hl. rewrite blue_links in Hl'.
    apply list_elem_of_singleton in Hl, Hl'. subst. discriminate.
  - intros l Hl Hc. rewrite green_links in Hl. apply list_elem_of_singleton in Hl. subst.
    exfalso. revert Hc. apply CloudRuns.no_connection. vm_compute. reflexivity.
Defined.

Lemma color_ready n : n = "green" ∨ n = "blue" →
  ready reconciler (key n) mc_fleet (colored n) w_fleet.
Proof.
  intros [-> | ->]; (split; try reflexivity; try discriminate; [eexists; split; [reflexivity|by left]..|]);
    (split; [discriminate|reflexivity]).
Defined.

Lemma colors_views : private_views reconciler colors mc_fleet w_fleet = [green; blue].
Proof. reflexivity. Defined.

Lemma colors_compatible : all_compatible (private_views reconciler colors mc_fleet w_fleet).
Proof.
  rewrite colors_views. intros x y Hx Hy. rewrite !elem_of_cons in Hx, Hy.
  destruct Hx as [->|[->|Hx]]; [| |by apply elem_of_nil in Hx];
    (destruct Hy as [->|[->|Hy]]; [| |by apply elem_of_nil in Hy]).
  - exact (CloudRuns.compatible_self _ _ green_links).
  - exact (independent_compatible _ _ green_blue).
  - exact (independent_compatible _ _ blue_green).
  - exact (CloudRuns.compatible_self _ _ blue_links).
Defined.

Lemma fleet_converges_witness :
  ∃ w' mc', serve clock reconciler colors 5 w_fleet = Some w' ∧ stored w' mc_key = Some mc' ∧
    (∀ x, x ∈ private_views reconciler colors mc_fleet w_fleet →
      settled x (managed mc') ∧ nothing_stale x (managed mc')) ∧
    ∃ w'' mc'', serve clock reconciler colors 5 w' = Some w'' ∧ stored w'' mc_key = Some mc'' ∧
      managed mc'' = managed mc'.
Proof.
  apply (fleet_converges clock reconciler colors mc_fleet w_fleet 5).
  - vm_compute. reflexivity.
  - constructor.
  - intros req Hreq. unfold colors in Hreq. rewrite !elem_of_cons in Hreq.
    destruct Hreq as [->|[->|Hreq]]; [| |by apply elem_of_nil in Hreq];
      (eexists; split; [apply color_ready; auto|vm_compute; lia]).
  - exact colors_compatible.
  - intros x _ l e _ He. by apply elem_of_nil in He.
Defined.

(** Both endpoints are there at the end. *)
Example fleet_served :
  (λ w, (λ mc, names (managed mc)) <$> stored w mc_key) <$> serve clock reconciler colors 5 w_fleet =
  Some (Some ["green-api-privateendpoint"; "blue-api-privateendpoint"]).
Proof. vm_compute. reflexivity. Qed.

(** ** From a new cluster to its control plane *)

Definition mc_new : AzureCluster := Scenario.mc [].
Definition wc_new : AzureCluster := AzureClusterRuns.wcd None [Scenario.ready].

Lemma new_links : links_for_mc (view mc_new wc_new) = [Concrete.link "api" ["1234"]].
Proof. vm_compute. reflexivity. Defined.

Lemma new_fuel :
  unknown clock reconciler (wanted_names mc_new wc_new) CloudRuns.w_new < 5.
Proof. vm_compute. lia. Defined.

Lemma new_free : names_free (view mc_new wc_new) (managed mc_new).
Proof. intros l e _ He. by apply elem_of_nil in He. Defined.

Lemma loop_connects_witness :
  ∃ n w' mc' wc', requeue_loop clock reconciler Scenario.wc_key 5 CloudRuns.w_new = Some (n, w') ∧
    stored w' Scenario.wc_key = Some wc' ∧ stored w' mc_key = Some mc' ∧
    connected (view mc_new wc_new) (private mc_new) (private wc_new) mc' wc'.
Proof.
  apply (loop_connects clock reconciler Scenario.wc_key mc_new wc_new CloudRuns.w_new 5).
  - exact CloudRuns.new_ready.
  - exact new_fuel.
  - constructor.
  - exact (CloudRuns.compatible_self _ _ new_links).
  - exact new_free.
  - right. reflexivity.
Defined.

Definition gates : list string := [ConditionGSPrivateLinksReady].
Definition kcp_reconciler : KubeadmControlPlane.Reconciler World := {|
  KubeadmControlPlane.client := Concrete.client;
  KubeadmControlPlane.managementCluster := mc_key;
  KubeadmControlPlane.azureClusterGates := Some gates
|}.

(** The clusters of [Cluster API] and the control planes of two worlds. *)
Definition same_planes (w v : World) : Prop :=
  Concrete.control_planes v = Concrete.control_planes w ∧
  Concrete.capi_clusters v = Concrete.capi_clusters w.

Lemma same_planes_PreOrder : PreOrder same_planes.
Proof. split; [by intros w|]. intros w1 w2 w3 [E1 E2] [E3 E4]. split; congruence. Defined.

#[local] Instance planes_aside : Aside clock reconciler.
Proof.
  unshelve eapply Build_Aside; [exact same_planes|exact same_planes_PreOrder|..]; try by intros.
  - intros c w p rg n o v Hp. simpl in Hp. injection Hp as <-. by split.
  - intros k w v [E _]. simpl. unfold Concrete.named. by rewrite E.
  - intros m w v [_ E]. simpl. unfold Concrete.owner_cluster.
    destruct (list_find _ _) as [[i o]|]; [|done]. simpl. unfold Concrete.get_named, Concrete.named.
    rewrite E. by destruct (Concrete.capi_clusters w !! _) as [c|]; [destruct (decide _)|].
  - intros m w. simpl. unfold Concrete.owner_cluster.
    destruct (list_find _ _) as [[i o]|]; [|done]. simpl. unfold Concrete.get_named.
    by destruct (Concrete.named _ _ _ _).
Defined.

(** A paused control plane waits in the store. *)
Definition w_story : World :=
  Concrete.set_control_planes {[KubeadmControlPlaneRuns.key := KubeadmControlPlaneRuns.paused]}
    (Concrete.set_capi_clusters {[Scenario.wc_key := KubeadmControlPlaneRuns.owner false]}
      CloudRuns.w_new).

Lemma story_ready : ready reconciler Scenario.wc_key mc_new wc_new w_story.
Proof.
  split; try reflexivity; try discriminate.
  - exists AzureClusterRuns.lb. split; [reflexivity|by left].
  - exists AzureClusterRuns.mc_lb. split; [reflexivity|by left].
  - split; [discriminate|reflexivity].
Defined.

Lemma story_waiting : waiting kcp_reconciler Scenario.wc_key KubeadmControlPlaneRuns.key
  w_story KubeadmControlPlaneRuns.paused (KubeadmControlPlaneRuns.owner false)
  KubeadmControlPlaneRuns.key.
Proof. split; try (vm_compute; reflexivity). split; reflexivity. Defined.

Lemma new_cluster_unpaused_witness :
  ∃ n w' v errp v', requeue_loop clock reconciler Scenario.wc_key 5 w_story = Some (n, w') ∧
    same_clusters w' v ∧
    patch_Patch (KubeadmControlPlaneRuns.key : PatchHelper) (ObjKubeadmControlPlane
      (KubeadmControlPlane.unpause KubeadmControlPlaneRuns.paused)) v = (errp, v') ∧
    KubeadmControlPlane.Reconcile kcp_reconciler KubeadmControlPlaneRuns.key w'
      = (Ret (no_result, None), v') ∧
    kcp_annotation (KubeadmControlPlane.unpause KubeadmControlPlaneRuns.paused) PausedAnnotation
      = None ∧
    ∀ k, k ≠ PausedAnnotation →
      kcp_annotation (KubeadmControlPlane.unpause KubeadmControlPlaneRuns.paused) k =
      kcp_annotation KubeadmControlPlaneRuns.paused k.
Proof.
  apply (new_cluster_unpaused clock reconciler kcp_reconciler gates Scenario.wc_key
    KubeadmControlPlaneRuns.key mc_new wc_new w_story 5 KubeadmControlPlaneRuns.paused
    (KubeadmControlPlaneRuns.owner false)); try reflexivity.
  - discriminate.
  - exact story_ready.
  - vm_compute. lia.
  - constructor.
  - exact (CloudRuns.compatible_self _ _ new_links).
  - exact new_free.
  - right. reflexivity.
  - exact story_waiting.
  - intros t Ht Hne. by apply list_elem_of_singleton in Ht.
Defined.

(** The whole story in one run: the loop ends, and the next reconciliation of the control
plane takes the annotation away. *)
Definition kcp_paused (w : World) : option bool :=
  c ← Concrete.control_planes w !! KubeadmControlPlaneRuns.key;
  Some (is_some (kcp_annotation c PausedAnnotation)).

Example story :
  kcp_paused w_story = Some true ∧
  kcp_paused (KubeadmControlPlane.Reconcile kcp_reconciler KubeadmControlPlaneRuns.key w_story).2
    = Some true ∧
  match requeue_loop clock reconciler Scenario.wc_key 5 w_story with
  | Some (n, w') => n = 3 ∧
      kcp_paused (KubeadmControlPlane.Reconcile kcp_reconciler KubeadmControlPlaneRuns.key w').2
        = Some false
  | None => False
  end.
Proof. vm_compute. repeat split. Qed.
End OperatorRuns.

Module ConfigRuns.
#[local] Existing Instance Concrete.apiMachinery.
#[local] Existing Instance Concrete.controllerUtil_World.
#[local] Existing Instance ProviderConfigRuns.laws.
#[local] Existing Instance ProviderConfigRuns.libs.

#[local] Abbreviation World := Concrete.World.

Definition reconciler : ProviderConfig.Reconciler World := ProviderConfigRuns.reconciler.

Definition capi_stored (w : World) (k : NamespacedName) : option Cluster :=
  Concrete.named Concrete.capi_clusters (λ c, Concrete.meta_name (cl_meta c)) w k.

Definition config_stored (w : World) (n : string) : bool :=
  is_some (Concrete.provider_configs w !! n).

Definition capi_held (w : World) (k : NamespacedName) : Prop :=
  ∃ c, capi_stored w k = Some c ∧ has_finalizer c.

(** A patch that is accepted stores the object under its name. *)
Lemma capi_patched c o w k :
  capi_stored (Patch_Cluster Concrete.client c o w).2 k =
    if decide (k = cluster_key c ∧ cluster_key c ∉ Concrete.broken w) then Some c
    else capi_stored w k.
Proof.
  simpl. change (Concrete.meta_name (cl_meta c)) with (cluster_key c).
  destruct (decide (cluster_key c ∈ Concrete.broken w)) as [Hb|Hb].
  - rewrite bool_decide_eq_true_2 by done. rewrite decide_False; [done|]. by intros [_ ?].
  - rewrite bool_decide_eq_false_2 by done. simpl. unfold capi_stored, Concrete.named. simpl.
    destruct (decide (k = cluster_key c)) as [->|Hk].
    + rewrite lookup_insert_eq. change (Concrete.meta_name (cl_meta c)) with (cluster_key c).
      by rewrite !decide_True.
    + rewrite lookup_insert_ne by done. rewrite (decide_False (P := _ ∧ _)); [done|]. by intros [? _].
Defined.

Lemma calm_refl (w : World) :
  (∀ k, capi_held w k → capi_held w k) ∧
  ∀ n, config_stored w n = true → config_stored w n = true.
Proof. done. Defined.

#[local] Instance config_store : ConfigStore World (ProviderConfig.client reconciler).
Proof.
  unshelve eapply Build_ConfigStore; [exact capi_stored|exact config_stored|..];
    try (intros; exact (calm_refl _)).
  - intros k w c Hc. apply Concrete.get_named_Ok in Hc. split.
    + exact (Concrete.named_name _ _ _ _ _ Hc).
    + intros Hf. by exists c.
  - intros c o w n Hn. revert Hn. simpl. by destruct (bool_decide _).
  - intros c o w k Hk (d & Hd & Hf). simpl in Hk. unfold capi_held.
    rewrite capi_patched. destruct (decide _) as [[-> _]|]; [|by exists d].
    destruct Hk as [?|Hk]; [done|by exists c].
  - intros c o w Hf _ Hok. unfold capi_held. exists c. rewrite capi_patched. split; [|done].
    rewrite decide_True; [done|]. split; [done|]. simpl in Hok. by case_bool_decide.
  - intros u f w k (d & Hd & Hf). by exists d.
  - intros u f w n. change (config_stored (Concrete.createOrPatch u f w).2 n = true →
      config_stored w n = true ∨ n = u_Name u). unfold config_stored. simpl.
    destruct (decide (n = u_Name u)) as [->|Hne]; [by right|left].
    by rewrite lookup_insert_ne in H by done.
  - intros u w. simpl. unfold calm. destruct (Concrete.provider_configs w !! u_Name u); [|done].
    split; [done|]. intros n. unfold config_stored. simpl.
    destruct (decide (u_Name u = n)) as [->|Hne]; [by rewrite lookup_delete_eq|].
    by rewrite lookup_delete_ne.
  - intros n w _. simpl. destruct (Concrete.provider_configs w !! n) eqn:E; simpl;
      unfold config_stored; simpl; [by rewrite lookup_delete_eq|by rewrite E].
Defined.

(** ** A cluster is created and deleted *)

Definition key : NamespacedName := ProviderConfigRuns.key.
Definition w_start : World := ProviderConfigRuns.w_azure.
Definition w_created : World := config_after reconciler key w_start.

(** Somebody asks for its deletion. *)
Definition w_doomed : World :=
  Concrete.set_capi_clusters (<[key := ProviderConfigRuns.c_deleted]> (Concrete.capi_clusters w_created))
    w_created.
Definition w_gone : World := config_after reconciler key w_doomed.

Lemma doomed_calm : calm w_created w_doomed.
Proof.
  split; [|done]. intros k (c & Hc & Hf). destruct (decide (k = key)) as [->|Hne].
  - exists ProviderConfigRuns.c_deleted. split; [vm_compute; reflexivity|].
    refine (bool_decide_unpack _ _). vm_compute. exact I.
  - exists c. split; [|done]. revert Hc.
    change (capi_stored w_created k = Some c → capi_stored w_doomed k = Some c).
    unfold capi_stored, Concrete.named. unfold w_doomed at 1. simpl.
    by rewrite lookup_insert_ne.
Defined.

Lemma start_guarded : guarded reconciler w_start.
Proof. intros n Hn. discriminate Hn. Defined.

Lemma configs_guarded_witness : guarded reconciler w_gone.
Proof.
  apply (configs_guarded reconciler w_start w_gone start_guarded).
  eapply rtc_l; [apply config_reconcile|]. eapply rtc_l; [apply config_environment, doomed_calm|].
  apply rtc_once, config_reconcile.
Defined.

(** The provider config was there in between. *)
Example config_life :
  (config_stored w_start "wc1", config_stored w_created "wc1", config_stored w_gone "wc1")
    = (false, true, false).
Proof. vm_compute. reflexivity. Qed.

(** ** Two clusters of one name *)

Definition other_key : NamespacedName := {| nn_Namespace := "other"; nn_Name := "wc1" |}.
Definition other : Cluster := {|
  cl_meta := {| Namespace := "other"; Name := "wc1"; Annotations := None;
                Finalizers := [ProviderConfigControllerFinalizer];
                OwnerReferences := []; DeletionTimestamp := None |};
  cl_Paused := None;
  cl_InfrastructureRef := {| cref_APIGroup := "g"; cref_Kind := AzureClusterKind; cref_Name := "wc1" |};
  cl_ControlPlaneRef := {| cref_APIGroup := "g"; cref_Kind := "KubeadmControlPlane"; cref_Name := "cp" |}
|}.

Definition w_namesakes : World :=
  Concrete.set_capi_clusters (<[other_key := other]> (Concrete.capi_clusters w_doomed)) w_doomed.

Lemma other_held : held w_namesakes other_key.
Proof.
  exists other. split; [vm_compute; reflexivity|].
  refine (bool_decide_unpack _ _). vm_compute. exact I.
Defined.

Lemma namesakes_share_config_witness :
  held (config_after reconciler key w_namesakes) other_key ∧
  stored_config (config_after reconciler key w_namesakes) "wc1" = false.
Proof.
  apply (namesakes_share_config reconciler key other_key w_namesakes ProviderConfigRuns.c_deleted
    w_namesakes); try (vm_compute; reflexivity).
  - discriminate.
  - exact other_held.
Defined.

Example namesakes_before : stored_config w_namesakes "wc1" = true.
Proof. vm_compute. reflexivity. Qed.
End ConfigRuns.

Module ControlPlaneRuns.
#[local] Existing Instance Concrete.apiMachinery.
#[local] Existing Instance Concrete.controllerUtil_World.

#[local] Abbreviation World := Concrete.World.

Definition kcp_stored (w : World) (k : NamespacedName) : option KubeadmControlPlane :=
  Concrete.named Concrete.control_planes (λ c, Concrete.meta_name (kcp_meta c)) w k.

(** ** Patches of differences *)

Definition annotations_of (c : KubeadmControlPlane) : gmap string string :=
  default ∅ (Annotations (kcp_meta c)).

(** The stored annotations, with those that differ between [before] and [o] as in [o]. *)
Definition patched_annotations (before o c : gmap string string) : gmap string string :=
  filter (λ kv, before !! kv.1 = o !! kv.1) c ∪ filter (λ kv, before !! kv.1 ≠ o !! kv.1) o.

Lemma patched_annotations_lookup before o c a :
  patched_annotations before o c !! a = if decide (before !! a = o !! a) then c !! a else o !! a.
Proof.
  unfold patched_annotations. rewrite lookup_union, !map_lookup_filter.
  case_decide as E; destruct (c !! a) as [x|] eqn:Ec, (o !! a) as [y|] eqn:Eo; simpl;
    repeat case_guard; simpl; first [done|congruence].
Defined.

Definition patched_kcp (before o c : KubeadmControlPlane) : KubeadmControlPlane :=
  kcp_set_meta (set_Annotations (Some (patched_annotations (annotations_of before)
    (annotations_of o) (annotations_of c))) (kcp_meta c)) c.

(** The helper remembers the object it was made with; of control planes it patches the
annotations only. *)
Definition patch_with (h o : Object) : IO World error := λ w,
  match h, o with
  | ObjAzureCluster before, ObjAzureCluster c =>
      (None, Concrete.put (cluster_name before) o w)
  | ObjKubeadmControlPlane before, ObjKubeadmControlPlane k =>
      match kcp_stored w (kcp_key before) with
      | Some c => (None, Concrete.put (kcp_key before)
                           (ObjKubeadmControlPlane (patched_kcp before k c)) w)
      | None => (Some Concrete.notFound, w)
      end
  | _, _ => (Some Concrete.refused, w)
  end.

#[local] Instance diff_util : ClusterApiUtil World := {|
  conditions_IsTrue := @conditions_IsTrue World Concrete.clusterApiUtil;
  GetOwnerCluster := Concrete.owner_cluster;
  IsDefined := @IsDefined World Concrete.clusterApiUtil;
  PatchHelper := Object;
  patch_NewHelper _ o := io_pure (Ok o);
  patch_Patch := patch_with
|}.

Definition reconciler : KubeadmControlPlane.Reconciler World := {|
  KubeadmControlPlane.client := Concrete.client;
  KubeadmControlPlane.managementCluster := Scenario.mc_key;
  KubeadmControlPlane.azureClusterGates := Some KubeadmControlPlaneRuns.gates
|}.

Lemma annotation_of c a : kcp_annotation c a = annotations_of c !! a.
Proof. unfold kcp_annotation, annotations_of. by destruct (Annotations (kcp_meta c)). Defined.

#[local] Instance diff_storage : Storage World (KubeadmControlPlane.client reconciler).
Proof.
  unshelve eapply Build_Storage; [exact Concrete.stored| | ..].
  - exact (λ h : Object, match h with ObjAzureCluster c => cluster_name c
      | ObjKubeadmControlPlane k => kcp_key k end).
  - exact Concrete.stored_cluster_name.
  - done.
  - exact Concrete.get_cluster_Ok.
  - done.
  - intros c w h. simpl. by intros [= <-].
  - intros [b|b] [c|c] w k Hk; try done; [by apply (Concrete.put_others (cluster_name b) (ObjAzureCluster c))|].
    simpl.
    by destruct (kcp_stored w (kcp_key b)).
  - intros [b|b] c w c'; [|by left].
    intros ->%(Concrete.put_key (cluster_name b) c w c'). by right.
Defined.

Lemma kcp_put w k c n : kcp_key c = k →
  kcp_stored (Concrete.put k (ObjKubeadmControlPlane c) w) n =
    if decide (n = k) then Some c else kcp_stored w n.
Proof.
  intros Hk. unfold kcp_stored, Concrete.named. simpl. case_decide as E.
  - subst n. rewrite lookup_insert_eq.
    change (Concrete.meta_name (kcp_meta c)) with (kcp_key c). by rewrite decide_True.
  - by rewrite lookup_insert_ne.
Defined.

Lemma patched_kcp_spec before o c :
  kcp_key (patched_kcp before o c) = kcp_key c ∧
  unannotated (patched_kcp before o c) = unannotated c ∧
  ∀ a, kcp_annotation (patched_kcp before o c) a =
    if decide (kcp_annotation before a = kcp_annotation o a)
    then kcp_annotation c a else kcp_annotation o a.
Proof.
  split_and!; [done|done|].
  intros a. rewrite !annotation_of. simpl. unfold annotations_of at 1. simpl.
  apply patched_annotations_lookup.
Defined.

Lemma kcp_patched b o w n :
  kcp_stored (patch_with (ObjKubeadmControlPlane b) (ObjKubeadmControlPlane o) w).2 n =
    match kcp_stored w (kcp_key b) with
    | Some c => if decide (n = kcp_key b) then Some (patched_kcp b o c) else kcp_stored w n
    | None => kcp_stored w n
    end.
Proof.
  unfold patch_with. destruct (kcp_stored w (kcp_key b)) as [c|] eqn:E; [|done].
  apply kcp_put. rewrite (proj1 (patched_kcp_spec b o c)).
  exact (Concrete.named_name _ _ _ _ _ E).
Defined.

#[local] Instance kcp_store : ControlPlaneStore World (KubeadmControlPlane.client reconciler).
Proof.
  unshelve eapply Build_ControlPlaneStore; [exact kcp_stored| |..].
  - exact (λ h : Object, match h with ObjKubeadmControlPlane k => k
      | ObjAzureCluster _ => KubeadmControlPlaneRuns.k0 end).
  - intros k w o Ho. apply Concrete.get_named_Ok in Ho. split; [exact Ho|].
    exact (Concrete.named_name _ _ _ _ _ Ho).
  - by split.
  - done.
  - intros m w. simpl. unfold Concrete.owner_cluster. destruct (list_find _ _) as [[i ref]|]; [|by split].
    simpl. unfold Concrete.get_named. by destruct (Concrete.named _ _ _ _).
  - done.
  - intros o w h. simpl. by intros [= <-].
  - intros [b|b] o w k Hk; [done|]. etrans; [apply (kcp_patched b o w k)|].
    destruct (kcp_stored w (kcp_key b)); [|done]. by rewrite decide_False.
  - intros [b|b] o w k o' Hu Ho.
    { exists o'. split_and!; [exact Ho|done|by left]. }
    assert (E : kcp_stored (patch_with (ObjKubeadmControlPlane b) (ObjKubeadmControlPlane o) w).2 k
      = Some o') by exact Ho.
    rewrite kcp_patched in E. destruct (kcp_stored w (kcp_key b)) as [c|] eqn:Ec;
      [|exists o'; split_and!; [exact E|done|by left]].
    destruct (decide (k = kcp_key b)) as [->|];
      [|exists o'; split_and!; [exact E|done|by left]].
    injection E as <-. exists c. destruct (patched_kcp_spec b o c) as (_ & Hun & Hann).
    split_and!; [exact Ec|exact Hun|]. intros a. rewrite Hann.
    case_decide; [by left|right]. split; [simpl; congruence|done].
Defined.

(** The gate is met, so the reconciliation removes the annotation. *)
Definition key : NamespacedName := KubeadmControlPlaneRuns.key.
Definition w_open : World := KubeadmControlPlaneRuns.w4.
Definition k_open : KubeadmControlPlane :=
  default KubeadmControlPlaneRuns.k0 (kcp_stored (kcp_after reconciler key w_open) key).

Lemma KCP_frame_witness :
  stored_kcp w_open key = Some k_open ∨
  ∃ c cluster infra, key = key ∧ stored_kcp w_open key = Some c ∧ reconcilable c = true ∧
    unannotated k_open = unannotated c ∧
    (∀ a, a ≠ PausedAnnotation → kcp_annotation k_open a = kcp_annotation c a) ∧
    (∃ u, (GetOwnerCluster Concrete.client (kcp_meta c) u).1 = Ok (Some cluster)) ∧
    stored w_open {| nn_Namespace := nn_Namespace key;
                     nn_Name := cref_Name (cl_InfrastructureRef cluster) |} = Some infra ∧
    (is_Some (kcp_annotation c PausedAnnotation) → kcp_annotation k_open PausedAnnotation = None →
     Forall (λ t, gate_met (elems (Conditions infra)) t = true) KubeadmControlPlaneRuns.gates).
Proof.
  apply (KCP_frame reconciler key w_open key k_open). vm_compute. reflexivity.
Defined.

Example opened :
  (is_some (kcp_annotation KubeadmControlPlaneRuns.paused PausedAnnotation),
   is_some (kcp_annotation k_open PausedAnnotation)) = (true, false).
Proof. vm_compute. reflexivity. Qed.
End ControlPlaneRuns.
