(* ===== verification/StartUpRuns.v ===== *)
(** * Concrete runs of the start-up and of the test helpers. *)
From S2P Require Import Prelude.
From S2P Require Import GoStrings.
From S2P Require Import GoFlag.
From S2P Require Import GoNet.
From S2P Require Import Api.
From S2P Require Import Manager.
From S2P Require Import Concrete.
From S2P Require Import Errors.
From S2P Require Import BaseScope.
From S2P Require Import PrivateEndpoints.
From S2P Require Import AzureClient.
From S2P Require Import MainFlags.
From S2P Require Import Main.
From S2P Require Import TestHelpers.
From S2P Require Import Runs.

Module StartUpRuns.
#[local] Existing Instance Concrete.microerror.
#[local] Existing Instance Concrete.fmtVerbs.
#[local] Existing Instance Concrete.apiMachinery.
#[local] Existing Instance Concrete.clusterApiUtil.
#[local] Existing Instance Concrete.controllerUtil_World.
#[local] Existing Instance LibraryRuns.sdk.
#[local] Existing Instance ProviderConfigRuns.libs.

Definition no_durations (s : string) : result errval Z := Err (NewErr "invalid duration").

Definition the_flags : Flags := {|
  metricsAddr := ":9090"; enableLeaderElection := true; probeAddr := "";
  managementClusterName := "mc=1"; managementClusterNamespace := "org-giantswarm";
  azureClusterGates := Some ["NetworkReady"; "VNetReady"]; syncPeriod := 5 * Minute
|}.

Lemma flags_round_trip_witness :
  Parse (main_flags no_durations ++ []) (render_flags the_flags) default_flags = Parsed the_flags [].
Proof.
  apply (flags_round_trip no_durations [] the_flags eq_refl).
  intros gates [= <-]. by repeat constructor.
Defined.

(** A manager that accepts every controller and stops without error. *)
#[local] Instance quick_manager : Manager Concrete.World := {|
  RestConfig := unit;
  manager := unit;
  AddToScheme _ := io_pure None;
  Must m := err ← io m; match err with Some _ => go_panic PanicCall | None => mret () end;
  GetConfigOrDie := io_pure (Some tt);
  NewManager _ _ := io_pure (Ok tt);
  GetClient _ := Concrete.client;
  Complete _ _ := io_pure None;
  AddHealthzCheck _ _ := io_pure None;
  AddReadyzCheck _ _ := io_pure None;
  Start _ := io_pure None
|}.

Definition run (args : list string) : outcome Z :=
  fst (process no_durations AzureClusterRuns.clock [] args Concrete.empty_world).

Example runs_and_stops : run (render_flags the_flags) = Ret 0%Z.
Proof. vm_compute. reflexivity. Qed.
Example no_management_cluster : run ["--leader-elect"] = Ret 1%Z.
Proof. vm_compute. reflexivity. Qed.
Example asks_for_help : run ["-h"] = Ret 0%Z.
Proof. vm_compute. reflexivity. Qed.
Example bad_flag : run ["--sync-period=5m"; "--leader-elect=maybe"] = Ret 2%Z.
Proof. vm_compute. reflexivity. Qed.
End StartUpRuns.

Module TestHelperRuns.
#[local] Existing Instance Concrete.microerror.
#[local] Existing Instance Concrete.fmtVerbs.

(** The calls are counted and nothing else is in the world. *)
#[local] Instance counting : ClusterApiUtil nat := {|
  conditions_IsTrue _ _ := false;
  GetOwnerCluster _ _ := io_pure (Ok None);
  IsDefined _ := false;
  PatchHelper := unit;
  patch_NewHelper _ _ := io_pure (Ok tt);
  patch_Patch _ _ := io_pure None
|}.

Definition the_cluster : AzureCluster :=
  build_chain "org" "mc" [CallResourceGroup "mc"; CallSubnet "nodes" SubnetNode []].

(** A client that always gives the answer of an expectation. *)
Definition fake_client (ex : Expectation) : PrivateEndpointsClient nat :=
  {| pec_Get _ _ _ := ex_Action ex |}.

Definition the_scope : PrivateEndpoints.scope nat := {|
  PrivateEndpoints.BaseScope_ := {| azureCluster := 0; patchHelper := tt |};
  PrivateEndpoints.privateEndpoints_subnet := 0;
  PrivateEndpoints.privateEndpointsClient := fake_client
    (SetupPrivateEndpointClientToReturnNotFoundAndThenPrivateEndpointWithPrivateIp
      "mc" "api-privateendpoint" "10.0.0.4")
|}.

Lemma fake_client_lifecycle_witness :
  let lookup := PrivateEndpoints.GetPrivateEndpointIPAddress the_scope "api-privateendpoint" in
  (∃ err, lookup (mkSt [the_cluster] 0) = (Ret ([], err), mkSt [the_cluster] 1) ∧
    IsPrivateEndpointNotFound err = true ∧ IsRetriable err = true) ∧
  lookup (mkSt [the_cluster] 1) = (Ret (net_ParseIP "10.0.0.4", None), mkSt [the_cluster] 1).
Proof.
  refine (proj2 (proj2 (fake_client_lifecycle the_scope [the_cluster] the_cluster "mc"
    "api-privateendpoint" "10.0.0.4" eq_refl eq_refl _)) 0 eq_refl).
  discriminate.
Defined.
End TestHelperRuns.
